(* ===== verification/_CoqProject ===== *)
-Q . S2P
Prelude.v
Utf8.v
Types.v
Vbi.v
BuffReader.v
BuffWriter.v
Heapless.v
Codes.v
Property.v
Packet.v
Acks.v
ServerPackets.v
PublishPacket.v
ConnectPacket.v
Subscriptions.v
ClientConfig.v
Network.v
RawClient.v
MqttClient.v
EndToEnd.v
Sntp.v
F32.v
Contactor.v
Inverter.v
Controller.v
Modbus.v
ModbusTask.v
Ob737.v
Writer.v
SntpUtils.v
Display.v
Syslog.v
Errors.v
Http.v
NtpTask.v
Bms.v
Devices.v
DebugPort.v
System.v
Plants.v
Config.v
Settings.v
MqttTask.v
Firmware.v
NetworkUp.v
Conformance.v
