(* ===== verification/Prelude.v ===== *)
(** * The STM32F407 battery controller: a verification development

    The program connects the battery of an electric vehicle to a home solar
    inverter.  It runs on one core of a microcontroller, as cooperative tasks
    (embassy), and brings its own protocol libraries.  This library models both
    and proves what they promise.

    ** The program and how its parts interact

    - rust-mqtt/src: an MQTT 5 client without allocation.  Packets are encoded
      into, and decoded from, byte buffers of the caller; strings and messages
      are slices of the buffer.
    - sntpc/src: an SNTP client.
    - syslog-emb/src: a syslog client.
    - stm32f407_controller/src/bin: the controller.  A BMS task reads the
      battery's frames from a channel and stores the values in the static BMS.
      An inverter task answers the inverter's frames with these values and
      tells the contactor task through the signal CONTACTOR_STATE whether the
      battery may be connected.  The CAN interfaces move frames between the
      buses and the channels, the LED task shows the traffic, the debug port
      copies it to a TCP peer.  The MQTT task and the console report the BMS
      data, the console takes the configuration, the web server shows both, the
      NTP task sets the clock, and a gateway joins Modbus TCP and Modbus RTU.

    ** Files

    Each file names the source files it models.  In the order of dependency:

    - Prelude: outcomes, the state monad, machine integers, byte lists,
      automation.  Utf8: the validity test behind [&str].
    - rust-mqtt.  Types, Vbi, BuffReader, BuffWriter (src/utils and
      src/encoding); Heapless (the interface of the vector the packets use);
      Codes, Property, Packet (the types and the trait every packet shares);
      Acks, ServerPackets, PublishPacket, ConnectPacket, Subscriptions (the
      fifteen packets, src/packet/v5); ClientConfig, Network, RawClient,
      MqttClient (src/network and src/client); EndToEnd, two clients at the ends
      of a stream.
    - Sntp (sntpc/src), SntpUtils (sntpc/src/utils: the clock of a desktop
      system), Syslog (syslog-emb/src).
    - F32: single precision numbers as bit patterns, computed with the binary32
      numbers of the Standard Library.
    - The controller.  Contactor (tasks/mod.rs), Inverter and Bms (the
      tasks can_processors_*.rs), Controller (these three together), Devices
      (leds.rs, can_interfaces.rs, tcp_debug.rs) with DebugPort (the connections
      of the debug port), System (Controller, the battery's decoder and the two
      CAN interfaces as one plant) with Plants (what opens the contactors of a
      plant, and the plant with a Force H2); Modbus (the two sides of the gateway and a
      request across it), ModbusTask (the life of its connections), Ob737 (the
      energy meter's filter), all of tasks/modbus; Writer
      (utils/bytes_writer.rs), Display (tasks/display), Errors, Http
      (web/http.rs), NtpTask (tasks/ntp), Config (config/mod.rs), Settings (the
      texts the program is compiled with, and the loop of the clock), MqttTask
      (tasks/mqtt.rs), Firmware (main.rs: what a build consists of; hal),
      NetworkUp (how the network tasks begin: http.rs, mqtt.rs, tcp_debug.rs,
      modbus_tcp_gateway.rs).
    - Conformance: the unit tests of rust-mqtt and sntpc, run on the model.

    A module carries the name of the struct, enum or Rust module it models, a
    definition that of the function.  A struct is a record, an enum an
    inductive type with the constructors of the source.

    ** Conventions

    - A fallible call gives an [outcome]: [Ok], [Err] with the error the source
      returns, [Panic] with its cause, or [OutOfFuel].  A method that takes
      [&mut self] is a function in the monad [M]: the state after the call is
      there on every branch, also on errors.
    - Machine integers are in [Z], with their width at every operation.
      [Profile] is the setting of overflow-checks: arithmetic that overflows
      panics in one and wraps in the other, and theorems hold for both unless
      they name one.  Slices that are out of range panic in both.
    - A [&[u8]] and a [&str] are byte lists; a buffer keeps its length when it
      is written.
    - A task is an endless loop.  The model has one turn of it, between two
      awaits, on the variables of the task and what it shares; where tasks
      share state the turns are the steps of a relation, and the theorems are
      about every reachable state, hence about every order of the steps.
      Controller has such a relation for the inverter, contactor and BMS tasks,
      Devices for the CAN interfaces.  The turns of Bms refine the BMS steps of
      Controller; in System the steps of both are those of one plant, whose
      projections are reachable states of the parts.
    - Where a timer or a peer can end a wait, the process is dropped in one of
      the states between two awaits; [ModbusTask.cut] says which these are.
    - An [f32] is its 32 bits.  Arithmetic rounds to nearest even, as the
      processor does; the bits of a NaN it makes are the parameter [NanPattern].
      Where values are only passed on, their type is a parameter.

    ** Code outside the repository

    What a crate or a driver does is a class, or a parameter of a section: its
    operations, and where a theorem relies on it, documented laws in a class of
    their own.  [HeaplessVec] for the bounded vectors; [Io] with [IoLaws]
    for byte streams; [RngCore]; [NtpTimestampGenerator], [NtpUdpSocket],
    [ToSocketAddrs]; [Crc16], [Uart] and [Socket] with the peers [SerialLine]
    and [TcpPeer]; [FmtWrite] with [BoundedText]; [LogSockets], [DateTime];
    [Chrono], [UdpDriver]; [BmsStandard] and the decoders of the three
    vehicles; [BmsConfig], [BatteryLimits], [Json], [ParseIp], [BmsReadings],
    [FormatJson]; [SocketControl] for opening and closing sockets;
    [Screen] with [WorkingScreen], and [Readings], for the display; [Rtc] for the
    clock of the board; [CanFilter] for the acceptance filters; [Calendar] with
    [CalendarLaws], and [Processes], for the utilities of a desktop system.
    The classes are also how the parts are joined: the packets promise
    [PacketLaws] to the default methods of the trait, the contactor tasks
    promise [Follows] and the inverter tasks implement [InverterTask] for the
    controller; for the plant the battery tasks implement [BmsTask], the inverter
    tasks [InverterFrames], and a sender that does not vouch for the battery is a
    [QuietSender]; the buffers promise [BoundedText] to the modules that print.
    The Sample modules, and ScriptedIo, are concrete instances, on which the
    theorems are evaluated.

    A write of a socket may take a part of its buffer only, and the program does
    not look at the count.  The laws of the streams therefore keep what was
    handed to [write], in the histories [handed] and [outgoing], and nothing is
    assumed about how much of it goes out; where two ends of a stream are joined
    (EndToEnd), what one reads is what the other handed over.  That no write
    reports an error is a hypothesis ([no_write_fails]) where it is needed.  A
    read gives at least a byte if there are bytes to come, and seldom all.  About
    the crate of the battery data nothing is assumed: Bms says which call of
    [set_valid] was the last.

    ** What the theorems show

    - Framing: every packet encodes to the bytes MQTT 5 prescribes, or reports
      that the buffer is too small; encoding then decoding gives the packet
      back, for variable byte integers, and for property lists and packets
      without binary properties, which the reader does not step over; what is
      decoded from arbitrary bytes has fields of the right type, and decoding
      always ends, in a panic of known kinds at worst.  Packets are put
      together again from any sequence of reads; two packets that stop the
      client are exhibited.
    - The client: connecting, subscribing, publishing and receiving hand the
      packets of the protocol to the socket and succeed exactly when the server
      agrees.  What one client hands over another receives, however the reads cut
      it, and the acknowledgement of one is the one the other waits for.
    - SNTP: which replies are accepted, what the clock computes from them and
      how far that is from the true offset (right up to 34 years, and wrong by a
      multiple of 68 beyond), the time the board is set to, and
      the command that sets the clock of a desktop system.
    - The battery: in every reachable state the main contactor is on exactly as
      the inverter task last asked, and the asking follows the data of the BMS
      and the inverter's frames; the contactors are switched in sequence and
      held with reduced power; a silent BMS opens them at the next frame of the
      inverter, and nothing opens them while the inverter is silent.  In the plant a closed
      contactor means that a frame of the battery was taken from its bus less
      than eleven seconds before the last good response, and that nothing was
      judged bad or found silent since; with a ZE50 a battery can
      be silent unnoticed; with a Force H2 the answer was to valid data, but
      data that turn invalid later open nothing.
      After a failed update of a ZE40 or ZE50 the BMS data are marked invalid.
    - Frames are neither lost nor repeated nor reordered between a bus and its
      channels, but for those the debug port takes; what its peer gets of them,
      and what is lost when the peer leaves.
    - The gateway: requests and replies are carried across unchanged, but for
      responses over 255 bytes and those whose header comes in pieces, the
      conversions are inverse to each other, and faults of the line are
      reported; a connection of any number of requests, from accept to close; a
      server that cannot be reached; what the OB737 makes of a request, in code
      that no build contains.
    - The display: which text stands where, when the task stops, and how near its
      numbers are to the values; the state of charge from the cell voltage.
    - The firmware: for every set of features the compiler accepts, which tasks
      run, who waits for which signal and channel, and how many sockets there
      are; the settings and their limits; the order of the CAN set-up; that every
      network task gets through its wait, and how soon.
    - Text: a buffer keeps the longest prefix that fits; from it, the lines of
      syslog, the pages of the web server and the reports.
    - The web server: what each request is answered with, that a connection
      ends, and what becomes of a request in two parts.
    - Configuration: its way to the BMS and back, the choice of the address.
    - MQTT and console tasks: the packets of a session, what a failed ping
      does, and how often reports are sent.

    ** Loops, fuel and bounds

    Loops over a counter are structural.  The loops of Vbi run at most five
    times: the fifth turn indexes past the array, so fuel 5 is never used up.
    The loop over properties has one more unit of fuel than there are bytes
    left, and each turn that goes on consumes a byte; that it never runs out is
    proved.  Each loop that waits for the network takes
    the number of looks as fuel: one more than the half seconds until the network
    is up is enough.  [receive_packet] and the methods that poll take the number of
    reads as fuel: the stream decides how often it delivers, and the theorems
    give a result for any fuel above the length of the packet.  The connection
    of the web server ends within one read more than its buffer has bytes.
    Decimal printing has the twenty digits of a 64-bit number, forty for an
    [f32].  The gateway's inner loop takes the number of requests as fuel: one
    more than the peer sends is enough.

    ** Not modelled

    - Handing pins, peripherals and static cells to drivers (hal/mod.rs,
      types/mod.rs, the body of main.rs between the spawns): calls into the
      framework only.
    - The examples of sntpc and the synchronous wrappers of its feature std.
      They do not compile: they give and take results where the functions they
      use are asynchronous.  The tests of the controller's lib.rs, which run on the board
      against crates that are not part of the repository.  Log output, which has
      no effect on the state.
    - Power loss, and the preemption of tasks by interrupts: tasks are
      cooperative and the shared cells are behind critical sections.

    ** What could be added

    The composition of the MQTT session with a model of the broker; the console's
    configuration as the web server shows it; time, in the tasks that only wait
    for a tick. *)
From stdpp Require Export base option list numbers.
From Stdlib Require Export ZArith Lia.

#[export] Set Default Goal Selector "!".
Open Scope Z_scope.

(** ** Outcomes of Rust code

    A call returns [Ok], returns [Err], panics, or does not return.  [Panic]
    carries the reason; [OutOfFuel] is produced only by the fuelled loops of
    the model and stands for "the loop is still running". *)

Inductive panic_reason : Type :=
| PIndex      (* [v[i]] out of range *)
| PSlice      (* [v[a..b]] out of range, or [copy_from_slice] of another length *)
| POverflow   (* arithmetic overflow with [overflow-checks = true] *)
| PUnwrap     (* [unwrap]/[expect] of [None] or [Err] *)
| PAssert     (* [assert!] that does not hold *)
| PTodo.      (* [todo!()] *)

Inductive outcome (E A : Type) : Type :=
| Ok (a : A)
| Err (e : E)
| Panic (p : panic_reason)
| OutOfFuel.
Arguments Ok {E A} a.
Arguments Err {E A} e.
Arguments Panic {E A} p.
Arguments OutOfFuel {E A}.

#[export] Instance outcome_ret E : MRet (outcome E) := fun A a => Ok a.
#[export] Instance outcome_bind E : MBind (outcome E) := fun A B f m =>
  match m with
  | Ok a => f a
  | Err e => Err e
  | Panic p => Panic p
  | OutOfFuel => OutOfFuel
  end.

Definition is_ok {E A} (o : outcome E A) : bool :=
  match o with Ok _ => true | _ => false end.

Definition is_panic {E A} (o : outcome E A) : bool :=
  match o with Panic _ => true | _ => false end.

(** [r.map_err(f)] *)
Definition map_err {E E' A} (f : E -> E') (o : outcome E A) : outcome E' A :=
  match o with
  | Ok a => Ok a
  | Err e => Err (f e)
  | Panic p => Panic p
  | OutOfFuel => OutOfFuel
  end.

(** [o.unwrap()] on an [Option] and on a [Result]. *)
Definition unwrap {E A} (o : option A) : outcome E A :=
  match o with Some a => Ok a | None => Panic PUnwrap end.

Definition unwrap_res {E E' A} (o : outcome E' A) : outcome E A :=
  match o with
  | Ok a => Ok a
  | Err _ => Panic PUnwrap
  | Panic p => Panic p
  | OutOfFuel => OutOfFuel
  end.

(** ** The state monad of methods that take [&mut self] and may fail *)

Definition M (S E A : Type) : Type := S -> outcome E A * S.

#[export] Instance M_ret S E : MRet (M S E) := fun A a s => (Ok a, s).
#[export] Instance M_bind S E : MBind (M S E) := fun A B f m s =>
  match m s with
  | (Ok a, s') => f a s'
  | (Err e, s') => (Err e, s')
  | (Panic p, s') => (Panic p, s')
  | (OutOfFuel, s') => (OutOfFuel, s')
  end.

Definition lift {S E A} (o : outcome E A) : M S E A := fun s => (o, s).
Definition throw {S E A} (e : E) : M S E A := fun s => (Err e, s).
Definition panics {S E A} (p : panic_reason) : M S E A := fun s => (Panic p, s).
Definition gets {S E A} (f : S -> A) : M S E A := fun s => (Ok (f s), s).
Definition modify {S E} (f : S -> S) : M S E unit := fun s => (Ok tt, f s).

(** Run a computation on one component of a pair of states. *)
Definition on_fst {S T E A} (m : M S E A) : M (S * T) E A := fun st =>
  let '(o, s') := m st.1 in (o, (s', st.2)).
Definition on_snd {S T E A} (m : M T E A) : M (S * T) E A := fun st =>
  let '(o, t') := m st.2 in (o, (st.1, t')).

Section monad_laws.
Context {S E A B : Type}.
Implicit Types (m : M S E A) (f : A -> M S E B) (s : S).

Lemma bind_ok m f s a s' : m s = (Ok a, s') -> (m ≫= f) s = f a s'.
Proof. intros H. unfold mbind, M_bind. by rewrite H. Qed.

Lemma bind_err m f s e s' : m s = (Err e, s') -> (m ≫= f) s = (Err e, s').
Proof. intros H. unfold mbind, M_bind. by rewrite H. Qed.

Lemma bind_panic m f s p s' : m s = (Panic p, s') -> (m ≫= f) s = (Panic p, s').
Proof. intros H. unfold mbind, M_bind. by rewrite H. Qed.

Lemma bind_fuel m f s s' : m s = (OutOfFuel, s') -> (m ≫= f) s = (OutOfFuel, s').
Proof. intros H. unfold mbind, M_bind. by rewrite H. Qed.

Lemma bind_ok_inv m f s b s'' :
  (m ≫= f) s = (Ok b, s'') ->
  exists a s', m s = (Ok a, s') /\ f a s' = (Ok b, s'').
Proof.
  unfold mbind, M_bind. destruct (m s) as [[a|e|p|] s'] eqn:Hm; intros H;
    try discriminate; eauto.
Qed.

Lemma ret_bind (a : A) f : (mret a : M S E A) ≫= f = f a.
Proof. reflexivity. Qed.

Lemma on_snd_ok {T} (m : M T E A) (s : S) t a t' :
  m t = (Ok a, t') -> on_snd (S := S) m (s, t) = (Ok a, (s, t')).
Proof. unfold on_snd; cbn. by intros ->. Qed.

Lemma on_snd_err {T} (m : M T E A) (s : S) t e t' :
  m t = (Err e, t') -> on_snd (S := S) m (s, t) = (Err e, (s, t')).
Proof. unfold on_snd; cbn. by intros ->. Qed.

Lemma on_snd_panic {T} (m : M T E A) (s : S) t p t' :
  m t = (Panic p, t') -> on_snd (S := S) m (s, t) = (Panic p, (s, t')).
Proof. unfold on_snd; cbn. by intros ->. Qed.
End monad_laws.

(** [match m { Ok(a) => .., Err(e) => .. }] *)
Definition attempt {S E E' A} (m : M S E A) : M S E' (A + E) := fun s =>
  match m s with
  | (Ok a, s) => (Ok (inl a), s)
  | (Err e, s) => (Ok (inr e), s)
  | (Panic p, s) => (Panic p, s)
  | (OutOfFuel, s) => (OutOfFuel, s)
  end.

Lemma attempt_ok {S E E' A} (m : M S E A) s a s' :
  m s = (Ok a, s') -> attempt (E' := E') m s = (Ok (inl a), s').
Proof. unfold attempt. by intros ->. Qed.

Lemma attempt_err {S E E' A} (m : M S E A) s e s' :
  m s = (Err e, s') -> attempt (E' := E') m s = (Ok (inr e), s').
Proof. unfold attempt. by intros ->. Qed.

Lemma outcome_bind_ok_inv {E A B} (o : outcome E A) (f : A -> outcome E B) b :
  o ≫= f = Ok b -> exists a, o = Ok a /\ f a = Ok b.
Proof. destruct o; cbn; intros H; try discriminate; eauto. Qed.

(** ** Machine integers

    A [w]-bit integer is a [Z].  The workspace builds its [dev] profile with
    [overflow-checks = true] and its [release] profile without, so the checked
    operations take the profile: an overflow panics in one and wraps in the
    other. *)

Class Profile := overflow_checks : bool.
Definition dev_profile : Profile := true.
Definition release_profile : Profile := false.

Definition wrap (w z : Z) : Z := z mod 2 ^ w.

Definition in_width (w z : Z) : bool := (0 <=? z) && (z <? 2 ^ w).

Definition checked {E} `{Profile} (w z : Z) : outcome E Z :=
  if in_width w z then Ok z
  else if overflow_checks then Panic POverflow else Ok (wrap w z).

Declare Scope rust_scope.
Delimit Scope rust_scope with rust.
Notation "a '+u8' b" := (checked 8 (a + b)) (at level 50, left associativity) : rust_scope.
Notation "a '+u16' b" := (checked 16 (a + b)) (at level 50, left associativity) : rust_scope.
Notation "a '+u32' b" := (checked 32 (a + b)) (at level 50, left associativity) : rust_scope.
Notation "a '+u64' b" := (checked 64 (a + b)) (at level 50, left associativity) : rust_scope.
Notation "a '*u32' b" := (checked 32 (a * b)) (at level 40, left associativity) : rust_scope.
Notation "a '*u64' b" := (checked 64 (a * b)) (at level 40, left associativity) : rust_scope.
Notation "a '-u64' b" := (checked 64 (a - b)) (at level 50, left associativity) : rust_scope.
Notation "a '+usize' b" := (checked 32 (a + b)) (at level 50, left associativity) : rust_scope.
Notation "a '-usize' b" := (checked 32 (a - b)) (at level 50, left associativity) : rust_scope.
Notation "m1 ';;;' m2" := (m1 ≫= (fun _ : unit => m2))
  (at level 100, m2 at level 200, right associativity) : rust_scope.
Open Scope rust_scope.

Lemma checked_ok {E} `{Profile} w z :
  0 <= z < 2 ^ w -> checked (E := E) w z = Ok z.
Proof.
  intros [H1 H2]. unfold checked, in_width.
  apply Z.leb_le in H1 as ->. by apply Z.ltb_lt in H2 as ->.
Qed.

(** Out of the width, the profile decides. *)
Lemma checked_overflow {E} `{Profile} w z :
  ~ 0 <= z < 2 ^ w ->
  checked (E := E) w z = if overflow_checks then Panic POverflow else Ok (wrap w z).
Proof.
  intros Hz. unfold checked, in_width.
  destruct (Z.leb_spec 0 z), (Z.ltb_spec z (2 ^ w)); try done. lia.
Qed.

Lemma wrap_small w z : 0 <= z < 2 ^ w -> wrap w z = z.
Proof. intros. by apply Z.mod_small. Qed.

Lemma wrap_range w z : 0 <= w -> 0 <= wrap w z < 2 ^ w.
Proof. intros. apply Z.mod_pos_bound. by apply Z.pow_pos_nonneg. Qed.

(** [as i8] .. [as i64]: two's complement reinterpretation. *)
Definition to_signed (w z : Z) : Z :=
  let u := wrap w z in if u <? 2 ^ (w - 1) then u else u - 2 ^ w.

(** ** Slices

    A slice or array is a list; its length and its indices are [usize]
    values, kept in [Z].  A Rust object has at most [isize::MAX] bytes, so the
    [usize] sums of positions and lengths of this program never wrap on the
    32-bit target ([slice_len_no_wrap] below). *)

Definition zlen {A} (l : list A) : Z := Z.of_nat (length l).

Definition isize_max : Z := 2 ^ 31 - 1.

Lemma slice_len_no_wrap a b :
  0 <= a <= isize_max -> 0 <= b <= isize_max -> a + b < 2 ^ 32.
Proof. unfold isize_max. lia. Qed.

(** [l[i]] *)
Definition idx {E A} (l : list A) (i : Z) : outcome E A :=
  if i <? 0 then Panic PIndex
  else match l !! Z.to_nat i with Some x => Ok x | None => Panic PIndex end.

(** [l[i] = x] *)
Definition set_idx {E A} (l : list A) (i : Z) (x : A) : outcome E (list A) :=
  if (0 <=? i) && (i <? zlen l) then Ok (<[Z.to_nat i := x]> l) else Panic PIndex.

Definition ztake {A} (n : Z) (l : list A) : list A := take (Z.to_nat n) l.
Definition zdrop {A} (n : Z) (l : list A) : list A := drop (Z.to_nat n) l.

(** [&l[a..b]] *)
Definition slice {E A} (l : list A) (a b : Z) : outcome E (list A) :=
  if (0 <=? a) && (a <=? b) && (b <=? zlen l)
  then Ok (ztake (b - a) (zdrop a l)) else Panic PSlice.

(** [&l[a..]] *)
Definition slice_from {E A} (l : list A) (a : Z) : outcome E (list A) :=
  slice l a (zlen l).

(** [l[a..b].copy_from_slice(src)] *)
Definition copy_into {E A} (l : list A) (a b : Z) (src : list A) : outcome E (list A) :=
  if (0 <=? a) && (a <=? b) && (b <=? zlen l) && (zlen src =? b - a)
  then Ok (ztake a l ++ src ++ zdrop b l) else Panic PSlice.

Section slices.
Context {A : Type}.
Implicit Types (l k : list A) (a b n i : Z).

Lemma zlen_nonneg l : 0 <= zlen l.
Proof. unfold zlen; lia. Qed.
Lemma zlen_nil : zlen (@nil A) = 0.
Proof. reflexivity. Qed.
Lemma zlen_cons x l : zlen (x :: l) = 1 + zlen l.
Proof. unfold zlen; cbn [length]; lia. Qed.
Lemma zlen_app l k : zlen (l ++ k) = zlen l + zlen k.
Proof. unfold zlen; rewrite length_app; lia. Qed.
Lemma zlen_take n l : 0 <= n <= zlen l -> zlen (ztake n l) = n.
Proof. unfold zlen, ztake; rewrite length_take; lia. Qed.
Lemma zlen_drop n l : 0 <= n <= zlen l -> zlen (zdrop n l) = zlen l - n.
Proof. unfold zlen, zdrop; rewrite length_drop; lia. Qed.

Lemma ztake_app_len l k : ztake (zlen l) (l ++ k) = l.
Proof. unfold ztake, zlen. rewrite Nat2Z.id. apply take_app_length. Qed.
Lemma zdrop_app_len l k : zdrop (zlen l) (l ++ k) = k.
Proof. unfold zdrop, zlen. rewrite Nat2Z.id. apply drop_app_length. Qed.
Lemma ztake_all l n : zlen l <= n -> ztake n l = l.
Proof. unfold ztake, zlen. intros. apply take_ge. lia. Qed.
Lemma zdrop_all l n : zlen l <= n -> zdrop n l = [].
Proof. unfold zdrop, zlen. intros. apply drop_ge. lia. Qed.
Lemma ztake_0 l n : n <= 0 -> ztake n l = [].
Proof. unfold ztake. intros. by replace (Z.to_nat n) with 0%nat by lia. Qed.
Lemma zdrop_0 l : zdrop 0 l = l.
Proof. reflexivity. Qed.
Lemma zdrop_zdrop a b l : 0 <= a -> 0 <= b -> zdrop b (zdrop a l) = zdrop (a + b) l.
Proof. intros. unfold zdrop. rewrite drop_drop. f_equal. lia. Qed.
Lemma ztake_zdrop n l : ztake n l ++ zdrop n l = l.
Proof. apply take_drop. Qed.
Lemma ztake_ztake a b l : a <= b -> ztake a (ztake b l) = ztake a l.
Proof. intros. unfold ztake. rewrite take_take. f_equal. lia. Qed.
Lemma zdrop_ztake a b l :
  0 <= a -> 0 <= b -> zdrop a (ztake (a + b) l) = ztake b (zdrop a l).
Proof.
  intros. unfold zdrop, ztake. rewrite Z2Nat.inj_add by lia.
  symmetry. apply take_drop_commute.
Qed.

Lemma ztake_app_plus l k n :
  0 <= n -> ztake (zlen l + n) (l ++ k) = l ++ ztake n k.
Proof.
  intros. unfold ztake, zlen. rewrite Z2Nat.inj_add, Nat2Z.id by lia.
  apply take_app_add.
Qed.

Lemma ztake_app_le l k n : n <= zlen l -> ztake n (l ++ k) = ztake n l.
Proof. intros. unfold ztake, zlen in *. apply take_app_le. lia. Qed.

Lemma zdrop_app_le l k n : n <= zlen l -> zdrop n (l ++ k) = zdrop n l ++ k.
Proof. intros. unfold zdrop, zlen in *. apply drop_app_le. lia. Qed.

Lemma idx_app_cons {E} l x k : idx (E := E) (l ++ x :: k) (zlen l) = Ok x.
Proof.
  unfold idx, zlen. destruct (Z.ltb_spec (Z.of_nat (length l)) 0); [lia|].
  by rewrite Nat2Z.id, list_lookup_middle.
Qed.

Lemma idx_ok {E} l i x :
  0 <= i -> l !! Z.to_nat i = Some x -> idx (E := E) l i = Ok x.
Proof.
  intros Hi Hx. unfold idx. destruct (Z.ltb_spec i 0); [lia|]. by rewrite Hx.
Qed.

Lemma idx_drop {E} l i x k :
  0 <= i -> zdrop i l = x :: k -> idx (E := E) l i = Ok x.
Proof.
  intros Hi Hx. apply idx_ok; [done|].
  unfold zdrop in Hx.
  rewrite <- (Nat.add_0_r (Z.to_nat i)), <- lookup_drop, Hx. done.
Qed.

Lemma idx_panic {E} l i : zlen l <= i -> idx (E := E) l i = Panic PIndex.
Proof.
  intros Hi. unfold idx. pose proof (zlen_nonneg l).
  destruct (Z.ltb_spec i 0); [done|].
  rewrite lookup_ge_None_2; [done|]. unfold zlen in Hi. lia.
Qed.

Lemma set_idx_ok {E} l i x :
  0 <= i < zlen l -> set_idx (E := E) l i x = Ok (<[Z.to_nat i := x]> l).
Proof.
  intros Hi. unfold set_idx.
  by rewrite (proj2 (Z.leb_le 0 i)), (proj2 (Z.ltb_lt i _)) by lia.
Qed.

Lemma slice_ok {E} l a b :
  0 <= a -> a <= b -> b <= zlen l ->
  slice (E := E) l a b = Ok (ztake (b - a) (zdrop a l)).
Proof.
  intros. unfold slice.
  rewrite (proj2 (Z.leb_le _ _)), (proj2 (Z.leb_le _ _)), (proj2 (Z.leb_le _ _)) by done.
  done.
Qed.

Lemma slice_full {E} l : slice (E := E) l 0 (zlen l) = Ok l.
Proof.
  rewrite slice_ok by (try apply zlen_nonneg; lia).
  by rewrite zdrop_0, ztake_all by lia.
Qed.

Lemma slice_prefix {E} l k : slice (E := E) (l ++ k) 0 (zlen l) = Ok l.
Proof.
  pose proof (zlen_nonneg l). pose proof (zlen_nonneg k).
  rewrite slice_ok by (rewrite ?zlen_app; lia).
  by rewrite Z.sub_0_r, zdrop_0, ztake_app_len.
Qed.

Lemma slice_panic {E} l a b :
  (b < a \/ zlen l < b) -> slice (E := E) l a b = Panic PSlice.
Proof.
  intros H. unfold slice.
  destruct (0 <=? a), (Z.leb_spec a b), (Z.leb_spec b (zlen l)); cbn; try done; lia.
Qed.

Lemma copy_into_ok {E} l a b src :
  0 <= a -> a <= b -> b <= zlen l -> zlen src = b - a ->
  copy_into (E := E) l a b src = Ok (ztake a l ++ src ++ zdrop b l).
Proof.
  intros. unfold copy_into.
  rewrite (proj2 (Z.leb_le _ _)), (proj2 (Z.leb_le _ _)), (proj2 (Z.leb_le _ _)),
    (proj2 (Z.eqb_eq _ _)) by done.
  done.
Qed.
End slices.

Create HintDb zlen discriminated.
Create Rewrite HintDb zlen.
#[export] Hint Rewrite @zlen_nil @zlen_cons @zlen_app : zlen.
Ltac zlen := autorewrite with zlen in *.

Lemma last_cons_default {A} (x : A) l d : List.last (x :: l) d = List.last l x.
Proof. revert x d. induction l as [|y l IH]; intros x d; [done|]. cbn in *. by destruct l. Qed.

Lemma last_app_default {A} (l k : list A) d : List.last (l ++ k) d = List.last k (List.last l d).
Proof.
  revert d. induction l as [|x l IH]; intros d; [done|]. cbn [app].
  by rewrite !last_cons_default.
Qed.

(** ** Bytes *)

Definition byte_ok (b : Z) : Prop := 0 <= b < 256.
Definition bytes_ok (l : list Z) : Prop := Forall byte_ok l.

(** [v.to_be_bytes()] of an [n]-byte integer, and [from_be_bytes]. *)
Fixpoint be_bytes (n : nat) (v : Z) : list Z :=
  match n with
  | O => []
  | S n' => v / 2 ^ (8 * Z.of_nat n') mod 256 :: be_bytes n' v
  end.

Definition be_value (l : list Z) : Z := fold_left (fun acc b => acc * 256 + b) l 0.

(** [v.to_le_bytes()] and [from_le_bytes]. *)
Definition le_bytes (n : nat) (v : Z) : list Z := rev (be_bytes n v).
Definition le_value (l : list Z) : Z := be_value (rev l).

Lemma length_be_bytes n v : length (be_bytes n v) = n.
Proof. induction n; cbn; congruence. Qed.

Lemma zlen_be_bytes n v : zlen (be_bytes n v) = Z.of_nat n.
Proof. unfold zlen. by rewrite length_be_bytes. Qed.
#[export] Hint Rewrite zlen_be_bytes : zlen.

Lemma be_bytes_ok n v : bytes_ok (be_bytes n v).
Proof.
  induction n; cbn; constructor; [|done].
  unfold byte_ok. apply Z.mod_pos_bound. lia.
Qed.

Lemma be_value_acc l acc :
  fold_left (fun a b => a * 256 + b) l acc = acc * 256 ^ zlen l + be_value l.
Proof.
  revert acc. induction l as [|b l IH]; intros acc.
  - cbn. unfold zlen; cbn. lia.
  - unfold be_value; cbn [fold_left]. rewrite !IH, zlen_cons.
    rewrite Z.pow_add_r by (pose proof (zlen_nonneg l); lia).
    change (256 ^ 1) with 256. nia.
Qed.

Lemma be_value_cons b l : be_value (b :: l) = b * 256 ^ zlen l + be_value l.
Proof. unfold be_value at 1; cbn [fold_left]. rewrite be_value_acc. lia. Qed.

Lemma be_value_bytes n v :
  be_value (be_bytes n v) = v mod 2 ^ (8 * Z.of_nat n).
Proof.
  induction n.
  - change (8 * Z.of_nat 0) with 0. cbn. by rewrite Z.mod_1_r.
  - cbn [be_bytes]. rewrite be_value_cons, IHn, zlen_be_bytes.
    replace (8 * Z.of_nat (S n)) with (8 * Z.of_nat n + 8) by lia.
    rewrite Z.pow_add_r by lia. change (2 ^ 8) with 256.
    replace (256 ^ Z.of_nat n) with (2 ^ (8 * Z.of_nat n))
      by (rewrite Z.pow_mul_r by lia; done).
    rewrite Z.rem_mul_r by (try apply Z.pow_nonzero; lia). lia.
Qed.

Lemma be_value_bytes_small n v :
  0 <= v < 2 ^ (8 * Z.of_nat n) -> be_value (be_bytes n v) = v.
Proof. intros. rewrite be_value_bytes. by apply Z.mod_small. Qed.

Lemma be_value_range l : bytes_ok l -> 0 <= be_value l < 256 ^ zlen l.
Proof.
  induction 1 as [|b l Hb _ IH]; [done|].
  rewrite be_value_cons, zlen_cons, Z.pow_add_r
    by (pose proof (zlen_nonneg l); lia).
  change (256 ^ 1) with 256. unfold byte_ok in Hb. nia.
Qed.

#[global] Arguments be_bytes : simpl never.
#[global] Arguments be_value : simpl never.

Lemma be_bytes_S n v : be_bytes (S n) v = v / 2 ^ (8 * Z.of_nat n) mod 256 :: be_bytes n v.
Proof. reflexivity. Qed.

(** The bytes below do not see what is above them. *)
Lemma be_bytes_add n m b v :
  (n <= m)%nat -> be_bytes n (b * 2 ^ (8 * Z.of_nat m) + v) = be_bytes n v.
Proof.
  induction n as [|n IH]; intros Hn; [done|]. rewrite !be_bytes_S. f_equal; [|apply IH; lia].
  replace (8 * Z.of_nat m) with (8 + 8 * Z.of_nat n + 8 * Z.of_nat (m - S n)) by lia.
  rewrite !Z.pow_add_r by lia. change (2 ^ 8) with 256.
  replace (b * (256 * 2 ^ (8 * Z.of_nat n) * 2 ^ (8 * Z.of_nat (m - S n))) + v)
    with (b * 2 ^ (8 * Z.of_nat (m - S n)) * 256 * 2 ^ (8 * Z.of_nat n) + v) by ring.
  rewrite Z.div_add_l by (apply Z.pow_nonzero; lia).
  by rewrite Z.add_comm, Z.mod_add by lia.
Qed.

Lemma be_bytes_value l : bytes_ok l -> be_bytes (length l) (be_value l) = l.
Proof.
  induction 1 as [|b l Hb Hl IH]; [done|]. cbn [length]. rewrite be_bytes_S.
  unfold byte_ok in Hb. pose proof (be_value_range l Hl) as Hr.
  rewrite be_value_cons. unfold zlen in *.
  replace (256 ^ Z.of_nat (length l)) with (2 ^ (8 * Z.of_nat (length l))) in *
    by (rewrite Z.pow_mul_r by lia; done).
  rewrite be_bytes_add, IH by done. f_equal.
  rewrite Z.div_add_l, (Z.div_small (be_value l)) by (try apply Z.pow_nonzero; lia).
  rewrite Z.add_0_r. apply Z.mod_small. lia.
Qed.

Lemma bytes_ok_app l k : bytes_ok l -> bytes_ok k -> bytes_ok (l ++ k).
Proof. intros. by apply Forall_app_2. Qed.

Lemma bytes_ok_one b : byte_ok b -> bytes_ok [b].
Proof. intros. by constructor; [|constructor]. Qed.

Lemma bytes_ok_nil : bytes_ok [].
Proof. constructor. Qed.

(** Bytes are bytes: for the wire forms. *)
Create HintDb bytes.
Lemma bytes_ok_bool l : forallb (fun b => (0 <=? b) && (b <? 256)) l = true -> bytes_ok l.
Proof.
  intros Hl. apply List.Forall_forall. intros b Hb.
  rewrite forallb_forall in Hl. apply Hl, andb_prop in Hb as [H0 H1].
  split; [by apply Z.leb_le|by apply Z.ltb_lt].
Qed.

#[export] Hint Resolve bytes_ok_app bytes_ok_one bytes_ok_nil be_bytes_ok : bytes.
Ltac bytes :=
  repeat match goal with |- bytes_ok (_ ++ _) => apply bytes_ok_app end; eauto with bytes.

(** A statement about every byte, decided by evaluation. *)
Lemma byte_forall (P : Z -> bool) :
  forallb (fun n => P (Z.of_nat n)) (seq 0 256) = true ->
  forall b, byte_ok b -> P b = true.
Proof.
  intros H b [H1 H2]. rewrite forallb_forall in H.
  rewrite <- (Z2Nat.id b) by done. apply H. apply in_seq. lia.
Qed.

(** ** Tactics *)

(** Case on the integer comparisons that guard a computation. *)
Ltac zcases :=
  repeat match goal with
  | |- context [if ?a <? ?b then _ else _] => destruct (Z.ltb_spec a b); try lia
  | |- context [if ?a <=? ?b then _ else _] => destruct (Z.leb_spec a b); try lia
  | |- context [if ?a =? ?b then _ else _] => destruct (Z.eqb_spec a b); try lia
  | |- context [if ?a >? ?b then _ else _] =>
      rewrite (Z.gtb_ltb a b); destruct (Z.ltb_spec b a); try lia
  | |- context [if ?a >=? ?b then _ else _] =>
      rewrite (Z.geb_leb a b); destruct (Z.leb_spec b a); try lia
  end.

(** Split a successful sequence of monadic steps in a hypothesis. *)
Ltac bind_inv :=
  repeat match goal with
  | H : (?m ≫= ?f) ?s = (Ok ?b, ?s') |- _ =>
      let a := fresh "a" in let s1 := fresh "s" in
      let H1 := fresh "Hstep" in let H2 := fresh "Hrest" in
      apply bind_ok_inv in H as (a & s1 & H1 & H2)
  | H : ?m ≫= ?f = Ok ?b |- _ =>
      let a := fresh "a" in let H1 := fresh "Hstep" in let H2 := fresh "Hrest" in
      apply outcome_bind_ok_inv in H as (a & H1 & H2)
  end.

(** Side conditions on a closed term. *)
Ltac concrete :=
  match goal with
  | |- bytes_ok _ => by apply bytes_ok_bool
  | |- byte_ok _ => by unfold byte_ok; cbn; lia
  | |- is_Some _ => by eexists
  | |- Forall _ _ => constructor; concrete
  | |- _ /\ _ => split; concrete
  | |- _ <= _ => by vm_compute
  | |- _ < _ => by vm_compute
  | |- (_ <= _)%nat => by apply Nat.leb_le
  | |- _ -> _ => intros; concrete
  | |- _ => first [done | reflexivity | progress hnf; concrete]
  end.
