(* ===== verification/Utf8.v ===== *)
(** [core::str::from_utf8] on byte slices.

    A [&str] of the program is a byte list that passes [valid_utf8], the
    validity test of the Rust standard library (the well-formed byte sequences
    of the Unicode standard: no overlong forms, no surrogates, nothing above
    U+10FFFF). *)
From S2P Require Import Prelude.

Definition between (lo hi b : Z) : bool := (lo <=? b) && (b <=? hi).
Definition cont (b : Z) : bool := between 0x80 0xBF b.

Fixpoint valid_utf8 (l : list Z) : bool :=
  match l with
  | [] => true
  | b0 :: l1 =>
    if between 0 0x7F b0 then valid_utf8 l1
    else match l1 with
    | [] => false
    | b1 :: l2 =>
      if between 0xC2 0xDF b0 then cont b1 && valid_utf8 l2
      else match l2 with
      | [] => false
      | b2 :: l3 =>
        if (b0 =? 0xE0) && between 0xA0 0xBF b1
           || (between 0xE1 0xEC b0 || between 0xEE 0xEF b0) && cont b1
           || (b0 =? 0xED) && between 0x80 0x9F b1
        then cont b2 && valid_utf8 l3
        else match l3 with
        | [] => false
        | b3 :: l4 =>
          ((b0 =? 0xF0) && between 0x90 0xBF b1
           || between 0xF1 0xF3 b0 && cont b1
           || (b0 =? 0xF4) && between 0x80 0x8F b1)
          && cont b2 && cont b3 && valid_utf8 l4
        end
      end
    end
  end.

Definition ascii (l : list Z) : Prop := Forall (fun b => 0 <= b <= 0x7F) l.

Lemma ascii_valid l : ascii l -> valid_utf8 l = true.
Proof.
  induction 1 as [|b l Hb _ IH]; [done|]. cbn [valid_utf8]. unfold between.
  rewrite (proj2 (Z.leb_le _ _)), (proj2 (Z.leb_le _ _)) by lia. done.
Qed.

Example valid_utf8_pound : valid_utf8 [0xC2; 0xA3] = true.
Proof. reflexivity. Qed.
Example valid_utf8_overlong : valid_utf8 [0xC0; 0xAF] = false.
Proof. reflexivity. Qed.
Example valid_utf8_surrogate : valid_utf8 [0xED; 0xA0; 0x80] = false.
Proof. reflexivity. Qed.
