(* ===== verification/Types.v ===== *)
(** The value types of the MQTT wire format: rust-mqtt/src/utils/types.rs.

    A string slice is its byte list, with the declared length [len] kept
    beside it as in the source: the two agree in a value the client builds or
    decodes ([wf] of each type), and nothing in the code enforces it. *)
From S2P Require Import Prelude.
From S2P Require Import Utf8.

Inductive BufferError : Type :=
| Utf8Error
| InsufficientBufferSize
| VariableByteIntegerError
| IdNotFound
| EncodingError
| DecodingError
| PacketTypeMismatch
| WrongPacketToDecode
| WrongPacketToEncode
| PropertyNotFound.

#[export] Instance BufferError_eq_dec : EqDecision BufferError.
Proof. solve_decision. Defined.

(** [EncodedString]: UTF-8 text with a 16-bit length. *)
Module EncodedString.
Record t : Type := mk { string : list Z; len : Z }.

Definition new : t := mk [] 0.

Definition encoded_len `{Profile} {E} (s : t) : outcome E Z := len s +u16 2.

(** What the string setters of the client build:
    [string = s; len = s.len() as u16]. *)
Definition of_str (s : list Z) : t := mk s (wrap 16 (zlen s)).

Definition wf (s : t) : Prop :=
  len s = zlen (string s) /\ len s < 2 ^ 16 /\ bytes_ok (string s)
  /\ valid_utf8 (string s) = true.

Definition bytes (s : t) : list Z := be_bytes 2 (len s) ++ string s.
End EncodedString.

(** [BinaryData]: bytes with a 16-bit length. *)
Module BinaryData.
Record t : Type := mk { bin : list Z; len : Z }.

Definition new : t := mk [0] 0.

Definition encoded_len `{Profile} {E} (d : t) : outcome E Z := len d +u16 2.

Definition of_bytes (b : list Z) : t := mk b (wrap 16 (zlen b)).

Definition wf (d : t) : Prop :=
  len d = zlen (bin d) /\ len d < 2 ^ 16 /\ bytes_ok (bin d).

Definition bytes (d : t) : list Z := be_bytes 2 (len d) ++ bin d.
End BinaryData.

(** [StringPair]: a name and a value. *)
Module StringPair.
Record t : Type := mk { name : EncodedString.t; value : EncodedString.t }.

Definition new : t := mk EncodedString.new EncodedString.new.

Definition encoded_len `{Profile} {E} (p : t) : outcome E Z :=
  n ← EncodedString.encoded_len (name p);
  v ← EncodedString.encoded_len (value p);
  n +u16 v.

Definition wf (p : t) : Prop :=
  EncodedString.wf (name p) /\ EncodedString.wf (value p).

Definition bytes (p : t) : list Z :=
  EncodedString.bytes (name p) ++ EncodedString.bytes (value p).
End StringPair.

(** [TopicFilter]: a topic with its subscription options byte. *)
Module TopicFilter.
Record t : Type := mk { filter : EncodedString.t; sub_options : Z }.

Definition new : t := mk EncodedString.new 0.

Definition encoded_len `{Profile} {E} (f : t) : outcome E Z :=
  EncodedString.len (filter f) +u16 3.

Definition wf (f : t) : Prop :=
  EncodedString.wf (filter f) /\ byte_ok (sub_options f).

(** The wire form in SUBSCRIBE ([sub = true]) and in UNSUBSCRIBE. *)
Definition bytes (sub : bool) (f : t) : list Z :=
  EncodedString.bytes (filter f) ++ (if sub then [sub_options f] else []).
End TopicFilter.

Lemma BinaryData_of_bytes_wf b :
  zlen b < 2 ^ 16 -> bytes_ok b -> BinaryData.wf (BinaryData.of_bytes b).
Proof.
  intros Hl Hb. pose proof (zlen_nonneg b).
  unfold BinaryData.wf, BinaryData.of_bytes; cbn [BinaryData.bin BinaryData.len].
  rewrite wrap_small by lia. by repeat split.
Qed.

Lemma EncodedString_of_str_wf s :
  zlen s < 2 ^ 16 -> bytes_ok s -> valid_utf8 s = true ->
  EncodedString.wf (EncodedString.of_str s).
Proof.
  intros Hl Hb Hu. pose proof (zlen_nonneg s).
  repeat split; cbn; rewrite ?wrap_small by lia; auto.
Qed.

Lemma EncodedString_len_range s :
  EncodedString.wf s -> 0 <= EncodedString.len s < 2 ^ 16.
Proof. intros (H1 & H2 & _). pose proof (zlen_nonneg (EncodedString.string s)). lia. Qed.

Lemma BinaryData_len_range d :
  BinaryData.wf d -> 0 <= BinaryData.len d < 2 ^ 16.
Proof. intros (H1 & H2 & _). pose proof (zlen_nonneg (BinaryData.bin d)). lia. Qed.

Lemma zlen_EncodedString_bytes s :
  EncodedString.wf s -> zlen (EncodedString.bytes s) = EncodedString.len s + 2.
Proof. intros (H1 & _). unfold EncodedString.bytes. zlen. lia. Qed.

Lemma zlen_BinaryData_bytes d :
  BinaryData.wf d -> zlen (BinaryData.bytes d) = BinaryData.len d + 2.
Proof. intros (H1 & _). unfold BinaryData.bytes. zlen. lia. Qed.

Lemma zlen_TopicFilter_bytes sub f :
  TopicFilter.wf f ->
  zlen (TopicFilter.bytes sub f) =
  EncodedString.len (TopicFilter.filter f) + 2 + (if sub then 1 else 0).
Proof.
  intros [Hf _]. unfold TopicFilter.bytes. rewrite zlen_app.
  rewrite zlen_EncodedString_bytes by done. by destruct sub.
Qed.

Lemma EncodedString_new_wf : EncodedString.wf EncodedString.new.
Proof. repeat split; cbn; auto; constructor. Qed.
#[export] Hint Resolve EncodedString_new_wf : core.

Lemma EncodedString_bytes_ok s : EncodedString.wf s -> bytes_ok (EncodedString.bytes s).
Proof. intros (_ & _ & Hb & _). unfold EncodedString.bytes. by auto with bytes. Qed.

Lemma BinaryData_bytes_ok d : BinaryData.wf d -> bytes_ok (BinaryData.bytes d).
Proof. intros (_ & _ & Hb). unfold BinaryData.bytes. by auto with bytes. Qed.

Lemma StringPair_bytes_ok p : StringPair.wf p -> bytes_ok (StringPair.bytes p).
Proof.
  intros [Hn Hv]. unfold StringPair.bytes.
  apply bytes_ok_app; by apply EncodedString_bytes_ok.
Qed.
#[export] Hint Resolve EncodedString_bytes_ok BinaryData_bytes_ok StringPair_bytes_ok : bytes.
