(* ===== verification/Vbi.v ===== *)
(** Variable byte integers: rust-mqtt/src/encoding/variable_byte_integer.rs.

    [VariableByteIntegerEncoder] and [VariableByteIntegerDecoder] work on
    arrays [[u8; 4]].  Every loop runs at most five times: the fifth iteration
    indexes the array out of range, so fuel 5 never runs out. *)
From S2P Require Import Prelude.
From S2P Require Import Types.

Definition MAX_ENCODABLE : Z := 268435455.

Module VariableByteIntegerEncoder.
(** The loop of [encode]: [target], [res] and [i] are its variables. *)
Fixpoint encode_loop (fuel : nat) (target : Z) (res : list Z) (i : Z)
  : outcome BufferError (list Z) :=
  match fuel with
  | O => OutOfFuel
  | S fuel =>
    let encoded_byte := target mod 128 in
    let target := target / 128 in
    let encoded_byte :=
      if target >? 0 then Z.lor encoded_byte 128 else encoded_byte in
    res ← set_idx res i encoded_byte;
    let i := i + 1 in
    if target =? 0 then Ok res else encode_loop fuel target res i
  end.

Definition encode (target : Z) : outcome BufferError (list Z) :=
  if target >? MAX_ENCODABLE then Err EncodingError
  else encode_loop 5 target [0; 0; 0; 0] 0.

Fixpoint len_loop {E} (fuel : nat) (var_int : list Z) (i : Z) : outcome E Z :=
  match fuel with
  | O => OutOfFuel
  | S fuel =>
    encoded_byte ← idx var_int i;
    let i := i + 1 in
    if Z.land encoded_byte 128 =? 0 then Ok i else len_loop fuel var_int i
  end.

Definition len {E} (var_int : list Z) : outcome E Z := len_loop 5 var_int 0.
End VariableByteIntegerEncoder.

Module VariableByteIntegerDecoder.
Fixpoint decode_loop `{Profile} (fuel : nat) (encoded : list Z)
    (multiplier ret i : Z) : outcome BufferError Z :=
  match fuel with
  | O => OutOfFuel
  | S fuel =>
    encoded_byte ← idx encoded i;
    let i := i + 1 in
    term ← Z.land encoded_byte 127 *u32 multiplier;
    ret ← ret +u32 term;
    if multiplier >? 128 * 128 * 128 then Err DecodingError
    else
      multiplier ← multiplier *u32 128;
      if Z.land encoded_byte 128 =? 0 then Ok ret
      else decode_loop fuel encoded multiplier ret i
  end.

Definition decode `{Profile} (encoded : list Z) : outcome BufferError Z :=
  decode_loop 5 encoded 1 0 0.
End VariableByteIntegerDecoder.

(** ** Specification

    The encoding of MQTT 5 section 1.5.5: base-128 digits, least significant
    first, bit 7 set on every byte but the last. *)

Definition vbi_bytes (n : Z) : list Z :=
  if n <? 128 then [n]
  else if n <? 16384 then [n mod 128 + 128; n / 128]
  else if n <? 2097152 then [n mod 128 + 128; n / 128 mod 128 + 128; n / 16384]
  else [n mod 128 + 128; n / 128 mod 128 + 128; n / 16384 mod 128 + 128;
        n / 2097152].

Definition pad4 (l : list Z) : list Z := l ++ replicate (4 - length l) 0.

(** Values that fit the encoding. *)
Definition vbi_ok (n : Z) : Prop := 0 <= n <= MAX_ENCODABLE.

(** ** Bit operations on bytes *)

Lemma land_127 b : Z.land b 127 = b mod 128.
Proof. change 127 with (Z.ones 7). by rewrite Z.land_ones. Qed.

Lemma land_128 b : byte_ok b -> (Z.land b 128 =? 0) = (b <? 128).
Proof.
  intros Hb. apply Bool.eqb_prop.
  apply (byte_forall (fun b => eqb (Z.land b 128 =? 0) (b <? 128))); done.
Qed.

Lemma lor_128 b : 0 <= b < 128 -> Z.lor b 128 = b + 128.
Proof.
  intros Hb. apply Z.eqb_eq.
  pose proof (byte_forall (fun b => implb (b <? 128) (Z.lor b 128 =? b + 128)) eq_refl b)
    as H. cbv beta in H.
  rewrite (proj2 (Z.ltb_lt _ _)) in H by lia. apply H. unfold byte_ok; lia.
Qed.

(** ** Lemmas *)

Ltac vbi_cases n :=
  unfold vbi_bytes;
  destruct (Z.ltb_spec n 128); [|destruct (Z.ltb_spec n 16384);
    [|destruct (Z.ltb_spec n 2097152)]].

Ltac divmod := Z.div_mod_to_equations; lia.

Lemma vbi_bytes_ok n : vbi_ok n -> bytes_ok (vbi_bytes n).
Proof.
  unfold vbi_ok, MAX_ENCODABLE. intros Hn.
  vbi_cases n; repeat constructor; unfold byte_ok; divmod.
Qed.

#[export] Hint Resolve vbi_bytes_ok : bytes.

Lemma zlen_vbi_bytes n : 1 <= zlen (vbi_bytes n) <= 4.
Proof. vbi_cases n; unfold zlen; cbn; lia. Qed.

Lemma length_pad4 n : length (pad4 (vbi_bytes n)) = 4%nat.
Proof. vbi_cases n; done. Qed.

Section encode_spec.
Import VariableByteIntegerEncoder.

Local Ltac enc_side := unfold zlen; rewrite ?length_insert; cbn; divmod.

(** One turn of the encoding loop. *)
Lemma encode_loop_more fuel t res i :
  128 <= t -> 0 <= i < zlen res ->
  encode_loop (S fuel) t res i =
  encode_loop fuel (t / 128) (<[Z.to_nat i := t mod 128 + 128]> res) (i + 1).
Proof.
  intros Ht Hi. cbn [encode_loop].
  assert (0 < t / 128) by divmod. rewrite Z.gtb_ltb.
  rewrite (proj2 (Z.ltb_lt _ _)) by done.
  rewrite lor_128 by divmod.
  unfold set_idx. rewrite (proj2 (Z.leb_le _ _)), (proj2 (Z.ltb_lt _ _)) by lia.
  cbn. rewrite (proj2 (Z.eqb_neq _ _)) by lia. done.
Qed.

Lemma encode_loop_last fuel t res i :
  0 <= t < 128 -> 0 <= i < zlen res ->
  encode_loop (S fuel) t res i = Ok (<[Z.to_nat i := t]> res).
Proof.
  intros Ht Hi. cbn [encode_loop].
  rewrite Z.div_small, Z.mod_small by lia. cbn.
  unfold set_idx. rewrite (proj2 (Z.leb_le _ _)), (proj2 (Z.ltb_lt _ _)) by lia.
  done.
Qed.

Lemma encode_ok n : vbi_ok n -> encode n = Ok (pad4 (vbi_bytes n)).
Proof.
  unfold vbi_ok, MAX_ENCODABLE, encode. intros Hn.
  rewrite Z.gtb_ltb, (proj2 (Z.ltb_ge _ _)) by (unfold MAX_ENCODABLE; lia).
  assert (Hd : n / 128 / 128 = n / 16384) by (rewrite Z.div_div by lia; done).
  assert (Hd' : n / 16384 / 128 = n / 2097152) by (rewrite Z.div_div by lia; done).
  vbi_cases n.
  - by rewrite encode_loop_last by enc_side.
  - rewrite encode_loop_more by enc_side.
    rewrite encode_loop_last by enc_side. done.
  - do 2 rewrite encode_loop_more by enc_side.
    rewrite Hd. rewrite encode_loop_last by enc_side. done.
  - do 3 (rewrite encode_loop_more by enc_side;
      rewrite ?Hd, ?Hd').
    rewrite encode_loop_last by enc_side. done.
Qed.

Lemma encode_err n : MAX_ENCODABLE < n -> encode n = Err EncodingError.
Proof.
  intros Hn. unfold encode. rewrite Z.gtb_ltb. by rewrite (proj2 (Z.ltb_lt _ _)) by lia.
Qed.
End encode_spec.

Section len_spec.
Import VariableByteIntegerEncoder.

Lemma len_loop_more {E} fuel v i b :
  idx (E := E) v i = Ok b -> byte_ok b -> 128 <= b ->
  len_loop (E := E) (S fuel) v i = len_loop fuel v (i + 1).
Proof.
  intros Hi Hb H. cbn [len_loop]. rewrite Hi. cbn.
  rewrite land_128 by done. by rewrite (proj2 (Z.ltb_ge _ _)) by lia.
Qed.

Lemma len_loop_last {E} fuel v i b :
  idx (E := E) v i = Ok b -> 0 <= b < 128 ->
  len_loop (E := E) (S fuel) v i = Ok (i + 1).
Proof.
  intros Hi Hb. cbn [len_loop]. rewrite Hi. cbn.
  rewrite land_128 by (unfold byte_ok; lia). by rewrite (proj2 (Z.ltb_lt _ _)) by lia.
Qed.

(** [len] finds the end of an encoding, whatever follows it. *)
Lemma len_ok {E} n k : vbi_ok n -> len (E := E) (vbi_bytes n ++ k) = Ok (zlen (vbi_bytes n)).
Proof.
  unfold vbi_ok, MAX_ENCODABLE, len. intros Hn. vbi_cases n; cbn [app];
  repeat (erewrite len_loop_more; [|reflexivity|unfold byte_ok; divmod|divmod]);
  (erewrite len_loop_last; [|reflexivity|divmod]); reflexivity.
Qed.
End len_spec.

Section decode_spec.
Context `{Profile}.
Import VariableByteIntegerDecoder.

Lemma decode_loop_more fuel v m r i b :
  idx (E := BufferError) v i = Ok b -> byte_ok b -> 128 <= b ->
  0 < m <= 128 * 128 * 128 -> 0 <= r <= 2 ^ 21 ->
  decode_loop (S fuel) v m r i = decode_loop fuel v (m * 128) (r + b mod 128 * m) (i + 1).
Proof.
  intros Hi Hb H128 Hm Hr. cbn [decode_loop]. rewrite Hi. cbn.
  rewrite land_127, land_128 by done.
  pose proof (Z.mod_pos_bound b 128 ltac:(lia)).
  rewrite checked_ok by nia. cbn. rewrite checked_ok by nia. cbn.
  rewrite Z.gtb_ltb, (proj2 (Z.ltb_ge _ _)) by lia.
  rewrite checked_ok by nia. cbn. by rewrite (proj2 (Z.ltb_ge _ _)) by lia.
Qed.

Lemma decode_loop_last fuel v m r i b :
  idx (E := BufferError) v i = Ok b -> 0 <= b < 128 ->
  0 < m <= 128 * 128 * 128 -> 0 <= r <= 2 ^ 21 ->
  decode_loop (S fuel) v m r i = Ok (r + b * m).
Proof.
  intros Hi Hb Hm Hr. cbn [decode_loop]. rewrite Hi. cbn.
  rewrite land_127, land_128, Z.mod_small by (unfold byte_ok; lia).
  rewrite checked_ok by nia. cbn. rewrite checked_ok by nia. cbn.
  rewrite Z.gtb_ltb, (proj2 (Z.ltb_ge _ _)) by lia.
  rewrite checked_ok by nia. cbn. by rewrite (proj2 (Z.ltb_lt _ _)) by lia.
Qed.

Lemma decode_ok n k : vbi_ok n -> decode (vbi_bytes n ++ k) = Ok n.
Proof.
  unfold vbi_ok, MAX_ENCODABLE, decode. intros Hn. vbi_cases n; cbn [app];
  repeat (erewrite decode_loop_more;
    [|reflexivity|unfold byte_ok; divmod|divmod|lia|divmod]);
  (erewrite decode_loop_last; [|reflexivity|divmod|lia|divmod]); f_equal; divmod.
Qed.

(** Four continuation bytes: the index runs past the array. *)
Lemma decode_overrun b0 b1 b2 b3 :
  Forall (fun b => 128 <= b < 256) [b0; b1; b2; b3] ->
  decode [b0; b1; b2; b3] = Panic PIndex.
Proof.
  intros Hb. rewrite !list.Forall_cons in Hb. destruct Hb as (H0 & H1 & H2 & H3 & _).
  unfold decode.
  do 4 (erewrite decode_loop_more;
    [|reflexivity|unfold byte_ok; lia|lia|lia|divmod]).
  reflexivity.
Qed.

(** Some byte ends the encoding: a value of at most 28 bits. *)
Lemma decode_terminated b0 b1 b2 b3 :
  bytes_ok [b0; b1; b2; b3] -> Exists (fun b => b < 128) [b0; b1; b2; b3] ->
  exists n, decode [b0; b1; b2; b3] = Ok n /\ vbi_ok n.
Proof.
  intros Hb Hex. unfold bytes_ok in Hb. rewrite !list.Forall_cons in Hb.
  destruct Hb as (H0 & H1 & H2 & H3 & _). unfold byte_ok in *.
  unfold decode, vbi_ok, MAX_ENCODABLE.
  destruct (Z.lt_ge_cases b0 128);
    [|erewrite decode_loop_more; [|reflexivity|unfold byte_ok; lia|lia|lia|lia];
     destruct (Z.lt_ge_cases b1 128);
     [|erewrite decode_loop_more; [|reflexivity|unfold byte_ok; lia|lia|lia|divmod];
      destruct (Z.lt_ge_cases b2 128);
      [|erewrite decode_loop_more; [|reflexivity|unfold byte_ok; lia|lia|lia|divmod];
       destruct (Z.lt_ge_cases b3 128);
       [|exfalso; rewrite !List.Exists_cons, List.Exists_nil in Hex; lia]]]].
  all: erewrite decode_loop_last; [|reflexivity|lia|lia|divmod].
  all: eexists; split; [reflexivity|divmod].
Qed.
End decode_spec.

(** ** Properties *)

(** C34: every [u32] up to 268435455 is encoded in the fewest bytes that have
    room for it, one to four: seven bits in each, and [k] bytes exactly for the
    numbers from [128 ^ (k - 1)] on below [128 ^ k].  The rest of the array is zero.  Whatever
    follows the bytes of the number, [len] finds how many they are and [decode]
    gives the number back; larger numbers are refused with [EncodingError]. *)
Theorem vbi_roundtrip `{Profile} n (Hn : 0 <= n < 2 ^ 32) :
  if n <=? MAX_ENCODABLE then
    exists v k, VariableByteIntegerEncoder.encode n = Ok (v ++ replicate (4 - Z.to_nat k) 0) /\
      bytes_ok v /\ zlen v = k /\ 1 <= k <= 4 /\
      n < 128 ^ k /\ (1 < k -> 128 ^ (k - 1) <= n) /\
      forall rest,
        VariableByteIntegerEncoder.len (E := BufferError) (v ++ rest) = Ok k /\
        VariableByteIntegerDecoder.decode (v ++ rest) = Ok n
  else VariableByteIntegerEncoder.encode n = Err EncodingError.
Proof.
  destruct (Z.leb_spec n MAX_ENCODABLE) as [Hle|Hgt]; [|by apply encode_err].
  assert (Hv : vbi_ok n) by (unfold vbi_ok; lia).
  exists (vbi_bytes n), (zlen (vbi_bytes n)).
  split; [|split; [by apply vbi_bytes_ok|split; [done|split; [apply zlen_vbi_bytes|]]]].
  { rewrite encode_ok by done. unfold pad4, zlen. by rewrite Nat2Z.id. }
  split; [|split].
  - unfold MAX_ENCODABLE in Hle. vbi_cases n; zlen; cbn; lia.
  - vbi_cases n; zlen; cbn; lia.
  - intros rest. split; [by apply len_ok|by apply decode_ok].
Qed.

Lemma vbi_roundtrip_witness :
  0 <= 200000 < 2 ^ 32 /\
  exists v k, VariableByteIntegerEncoder.encode 200000 = Ok (v ++ replicate (4 - Z.to_nat k) 0) /\
    bytes_ok v /\ zlen v = k /\ 1 <= k <= 4 /\ 200000 < 128 ^ k /\ (1 < k -> 128 ^ (k - 1) <= 200000) /\
    forall rest,
      VariableByteIntegerEncoder.len (E := BufferError) (v ++ rest) = Ok k /\
      VariableByteIntegerDecoder.decode (H := dev_profile) (v ++ rest) = Ok 200000.
Proof. split; [lia|]. apply (vbi_roundtrip (H := dev_profile) 200000). lia. Defined.

(** On any four bytes [decode] returns a number of at most 28 bits, or
    panics; it panics exactly when all four bytes have the continuation bit,
    and the error it declares for that case is never returned. *)
Theorem vbi_decode_total `{Profile} b0 b1 b2 b3 (Hb : bytes_ok [b0; b1; b2; b3]) :
  if forallb (fun b => 128 <=? b) [b0; b1; b2; b3]
  then VariableByteIntegerDecoder.decode [b0; b1; b2; b3] = Panic PIndex
  else exists n, VariableByteIntegerDecoder.decode [b0; b1; b2; b3] = Ok n /\ vbi_ok n.
Proof.
  destruct (forallb _ _) eqn:Hf.
  - apply decode_overrun. apply List.Forall_forall. intros b Hin.
    rewrite forallb_forall in Hf. unfold bytes_ok in Hb. rewrite List.Forall_forall in Hb.
    pose proof (Hf _ Hin) as Hge. pose proof (Hb _ Hin) as Hok.
    apply Z.leb_le in Hge. unfold byte_ok in Hok. lia.
  - apply decode_terminated; [done|]. cbn in Hf.
    rewrite !List.Exists_cons. repeat (apply andb_false_iff in Hf as [Hf|Hf]; [lia|]). done.
Qed.

Lemma vbi_decode_total_witness :
  bytes_ok [255; 255; 255; 255] /\
  VariableByteIntegerDecoder.decode (H := dev_profile) [255; 255; 255; 255] = Panic PIndex.
Proof.
  assert (H : bytes_ok [255; 255; 255; 255]) by (repeat constructor; unfold byte_ok; lia).
  split; [exact H|]. exact (vbi_decode_total (H := dev_profile) 255 255 255 255 H).
Defined.
