(* ===== verification/BuffReader.v ===== *)
(** The decoding cursor: rust-mqtt/src/utils/buffer_reader.rs.

    [reads op bs a] is the abstract contract of a decoding operation: at a
    cursor where the bytes [bs] come next, [op] returns [a] and advances the
    cursor over exactly [bs].  It composes under the monad's bind, so the
    contract of a compound decoder follows from those of its parts. *)
From S2P Require Import Prelude.
From S2P Require Import Utf8.
From S2P Require Import Types.
From S2P Require Import Vbi.

Module BuffReader.
Record t : Type := mk { buffer : list Z; position : Z; len : Z }.

Abbreviation R := (M t BufferError).

Definition increment_position (increment : Z) : R unit :=
  modify (fun r => mk (buffer r) (position r + increment) (len r)).

Definition new (buffer : list Z) (buff_len : Z) : t := mk buffer 0 buff_len.

(** The inner loop of [read_variable_byte_int]: zeroes from [x] to 4. *)
Fixpoint zero_fill (fuel : nat) (v : list Z) (x : Z) : outcome BufferError (list Z) :=
  match fuel with
  | O => OutOfFuel
  | S fuel =>
    v ← set_idx v x 0;
    let x := x + 1 in
    if x =? 4 then Ok v else zero_fill fuel v x
  end.

(** The outer loop; [v] is [variable_byte_integer], [n] is [len]. *)
Fixpoint vbi_loop (fuel : nat) (r : t) (v : list Z) (n x : Z)
  : outcome BufferError (list Z * Z) :=
  match fuel with
  | O => OutOfFuel
  | S fuel =>
    if x >=? 4 then Ok (v, n)
    else if position r + x >=? len r then Err InsufficientBufferSize
    else
      b ← idx (buffer r) (position r + x);
      v ← set_idx v x b;
      if negb (Z.land b 0x80 =? 0) then vbi_loop fuel r v (n + 1) (x + 1)
      else
        let x := x + 1 in
        if negb (x =? 4) then v ← zero_fill 4 v x; Ok (v, n)
        else vbi_loop fuel r v n (x + 1)
  end.

Definition read_variable_byte_int `{Profile} : R Z :=
  r ← gets (fun r => r);
  '(v, n) ← lift (vbi_loop 5 r [0; 0; 0; 0] 1 0);
  increment_position n ;;;
  lift (VariableByteIntegerDecoder.decode v).

(** [from_be_bytes] of the first [n] bytes of [self.buffer[self.position..]]:
    the body shared by [read_u32] and [read_u16]. *)
Definition read_be (n : Z) : R Z :=
  r ← gets (fun r => r);
  if position r + n >? len r then throw InsufficientBufferSize
  else
    tail ← lift (slice_from (buffer r) (position r));
    int_bytes ← lift (slice tail 0 n);
    increment_position n ;;;
    mret (be_value int_bytes).

Definition read_u32 : R Z := read_be 4.
Definition read_u16 : R Z := read_be 2.

Definition read_u8 : R Z :=
  r ← gets (fun r => r);
  if position r >=? len r then throw InsufficientBufferSize
  else
    ret ← lift (idx (buffer r) (position r));
    increment_position 1 ;;;
    mret ret.

Definition read_string : R EncodedString.t :=
  n ← read_u16;
  r ← gets (fun r => r);
  if position r + n >? len r then throw InsufficientBufferSize
  else
    s ← lift (slice (buffer r) (position r) (position r + n));
    if valid_utf8 s then
      increment_position n ;;;
      mret (EncodedString.mk s n)
    else throw Utf8Error.

(** The cursor is left at the first byte of the data, as in the source. *)
Definition read_binary : R BinaryData.t :=
  n ← read_u16;
  r ← gets (fun r => r);
  if position r + n >? len r then throw InsufficientBufferSize
  else
    b ← lift (slice (buffer r) (position r) (position r + n));
    mret (BinaryData.mk b n).

Definition read_string_pair : R StringPair.t :=
  n ← read_string;
  v ← read_string;
  mret (StringPair.mk n v).

Definition read_message (total_len : Z) : R (list Z) :=
  r ← gets (fun r => r);
  if total_len >? len r then lift (slice (buffer r) (position r) (len r))
  else lift (slice (buffer r) (position r) total_len).

Definition peek_u8 : R Z :=
  r ← gets (fun r => r);
  if position r >=? len r then throw InsufficientBufferSize
  else lift (idx (buffer r) (position r)).

(** ** Specification *)

Definition wf (r : t) : Prop :=
  0 <= position r <= len r /\ len r <= zlen (buffer r)
  /\ bytes_ok (ztake (len r) (buffer r)).

(** The bytes between the cursor and the end of the readable part. *)
Definition rest (r : t) : list Z := ztake (len r - position r) (zdrop (position r) (buffer r)).

Definition advance (n : Z) (r : t) : t := mk (buffer r) (position r + n) (len r).

Definition reads {A} (op : R A) (bs : list Z) (a : A) : Prop :=
  forall r k, wf r -> rest r = bs ++ k -> op r = (Ok a, advance (zlen bs) r).

(** [runs P n op Q]: on any input [op] ends; when it succeeds it has moved
    the cursor forward by at least [n] and its value satisfies [Q]; it may
    panic only for a reason in [P]. *)
Definition runs {A} (P : panic_reason -> Prop) (n : Z) (op : R A) (Q : A -> Prop) : Prop :=
  forall r, wf r ->
  match op r with
  | (Ok a, r') =>
      wf r' /\ buffer r' = buffer r /\ len r' = len r
      /\ position r + n <= position r' /\ Q a
  | (Err _, _) => True
  | (Panic p, _) => P p
  | (OutOfFuel, _) => False
  end.

(** The only panic of the primitive readers: a variable byte integer of four
    continuation bytes. *)
Definition only_index (p : panic_reason) : Prop := p = PIndex.
Definition no_panic (p : panic_reason) : Prop := False.
End BuffReader.
Import BuffReader.

(** ** The cursor *)

Lemma advance_advance a b r : advance a (advance b r) = advance (b + a) r.
Proof. unfold advance; cbn. f_equal. lia. Qed.

Lemma advance_0 r : advance 0 r = r.
Proof. destruct r; unfold advance; cbn. f_equal. lia. Qed.

Lemma zlen_rest r : wf r -> zlen (rest r) = len r - position r.
Proof.
  intros (H1 & H2 & _). unfold rest. apply zlen_take. rewrite zlen_drop by lia. lia.
Qed.

Lemma rest_app_len r bs k : wf r -> rest r = bs ++ k -> position r + zlen bs <= len r.
Proof.
  intros Hwf Hr. pose proof (zlen_rest r Hwf) as H. rewrite Hr, zlen_app in H.
  pose proof (zlen_nonneg k). lia.
Qed.

Lemma advance_wf r bs k : wf r -> rest r = bs ++ k -> wf (advance (zlen bs) r).
Proof.
  intros Hwf Hr. pose proof (rest_app_len _ _ _ Hwf Hr). pose proof (zlen_nonneg bs).
  destruct Hwf as (H1 & H2 & H3). repeat split; cbn; try lia; done.
Qed.

Lemma rest_advance r bs k : wf r -> rest r = bs ++ k -> rest (advance (zlen bs) r) = k.
Proof.
  intros Hwf Hr. pose proof (rest_app_len _ _ _ Hwf Hr). pose proof (zlen_nonneg bs).
  destruct Hwf as (H1 & H2 & H3). unfold rest, advance in *; cbn.
  rewrite <- zdrop_zdrop by lia.
  replace (len r - (position r + zlen bs)) with (len r - position r - zlen bs) by lia.
  rewrite <- zdrop_ztake by lia.
  replace (zlen bs + (len r - position r - zlen bs)) with (len r - position r) by lia.
  rewrite Hr. apply zdrop_app_len.
Qed.

Lemma rest_drop r : wf r -> rest r = zdrop (position r) (ztake (len r) (buffer r)).
Proof.
  intros (H1 & _ & _). unfold rest.
  replace (len r) with (position r + (len r - position r)) at 2 by lia.
  by rewrite zdrop_ztake by lia.
Qed.

Lemma rest_bytes_ok r : wf r -> bytes_ok (rest r).
Proof. intros Hwf. rewrite rest_drop by done. apply Forall_drop. apply Hwf. Qed.

Lemma BuffReader_new_wf buf n :
  bytes_ok (ztake n buf) -> 0 <= n <= zlen buf -> wf (new buf n).
Proof. intros Hb Hn. split; [cbn; lia|split; [cbn; lia|done]]. Qed.

Lemma rest_new_app bs k n :
  zlen bs <= n -> rest (new (bs ++ k) n) = bs ++ ztake (n - zlen bs) k.
Proof.
  intros Hn. unfold rest, new. cbn [buffer position len]. rewrite Z.sub_0_r, zdrop_0.
  replace n with (zlen bs + (n - zlen bs)) at 1 by lia. by apply ztake_app_plus; lia.
Qed.

(** A readable byte of the buffer, and a readable slice. *)
Lemma drop_rest r bs k :
  wf r -> rest r = bs ++ k -> exists k', zdrop (position r) (buffer r) = bs ++ k ++ k'.
Proof.
  intros _ Hr. unfold rest in Hr.
  exists (zdrop (len r - position r) (zdrop (position r) (buffer r))).
  by rewrite app_assoc, <- Hr, ztake_zdrop.
Qed.

Lemma rest_slice {E} r bs k :
  wf r -> rest r = bs ++ k ->
  slice (E := E) (buffer r) (position r) (position r + zlen bs) = Ok bs.
Proof.
  intros Hwf Hr. pose proof (rest_app_len _ _ _ Hwf Hr). pose proof (zlen_nonneg bs).
  destruct (drop_rest _ _ _ Hwf Hr) as [k' Hk].
  destruct Hwf as (H1 & H2 & _).
  rewrite slice_ok by lia. rewrite Hk.
  replace (position r + zlen bs - position r) with (zlen bs) by lia.
  by rewrite ztake_app_len.
Qed.

Lemma rest_idx {E} r a b k :
  wf r -> rest r = a ++ b :: k -> idx (E := E) (buffer r) (position r + zlen a) = Ok b.
Proof.
  intros Hwf Hr. destruct (drop_rest _ _ _ Hwf Hr) as [k' Hk].
  pose proof (zlen_nonneg a). destruct Hwf as (H1 & H2 & _).
  eapply idx_drop; [lia|]. rewrite <- zdrop_zdrop by lia.
  rewrite Hk, zdrop_app_len. reflexivity.
Qed.

(** ** The contract composes *)

Lemma reads_ret {A} (a : A) : reads (mret a) [] a.
Proof. intros r k _ _. by rewrite zlen_nil, advance_0. Qed.

Section reads_rules.
Context {A B : Type}.

Lemma reads_bind (m : R A) (f : A -> R B) bs cs a b :
  reads m bs a -> reads (f a) cs b -> reads (m ≫= f) (bs ++ cs) b.
Proof.
  intros Hm Hf r k Hwf Hr. rewrite <- app_assoc in Hr.
  rewrite (bind_ok _ _ _ _ _ (Hm r _ Hwf Hr)).
  rewrite (Hf _ k); [|by eapply advance_wf|by apply rest_advance].
  by rewrite advance_advance, zlen_app.
Qed.

(** The last operation of a compound decoder. *)
Lemma reads_map (m : R A) (g : A -> B) bs a :
  reads m bs a -> reads (x ← m; mret (g x)) bs (g a).
Proof.
  intros Hm. rewrite <- (app_nil_r bs). eapply reads_bind; [done|]. apply reads_ret.
Qed.
End reads_rules.

Create HintDb reads.
#[export] Hint Resolve reads_ret reads_map : reads.

(** ** The decoders meet their contract *)

Lemma read_be_reads n bs :
  0 <= n -> zlen bs = n -> reads (read_be n) bs (be_value bs).
Proof.
  intros Hn <- r k Hwf Hr. pose proof (rest_app_len _ _ _ Hwf Hr).
  pose proof Hwf as (H1 & H2 & _).
  unfold read_be. erewrite bind_ok by reflexivity.
  rewrite Z.gtb_ltb, (proj2 (Z.ltb_ge _ _)) by lia.
  unfold slice_from. rewrite slice_ok by lia.
  erewrite bind_ok by reflexivity.
  rewrite ztake_all by (rewrite zlen_drop; lia).
  destruct (drop_rest _ _ _ Hwf Hr) as [k' Hk]. rewrite Hk, slice_prefix.
  reflexivity.
Qed.

Lemma read_u16_reads v : 0 <= v < 2 ^ 16 -> reads read_u16 (be_bytes 2 v) v.
Proof.
  intros Hv. rewrite <- (be_value_bytes_small 2 v) at 2 by (cbn; lia).
  by apply read_be_reads.
Qed.

Lemma read_u32_reads v : 0 <= v < 2 ^ 32 -> reads read_u32 (be_bytes 4 v) v.
Proof.
  intros Hv. rewrite <- (be_value_bytes_small 4 v) at 2 by (cbn; lia).
  by apply read_be_reads.
Qed.

Lemma read_u8_reads b : reads read_u8 [b] b.
Proof.
  intros r k Hwf Hr. pose proof (rest_app_len _ _ _ Hwf Hr) as Hl. zlen.
  unfold read_u8. erewrite bind_ok by reflexivity.
  rewrite Z.geb_leb, (proj2 (Z.leb_gt _ _)) by lia.
  pose proof (rest_idx (E := BufferError) r [] b k Hwf Hr) as Hi.
  rewrite zlen_nil, Z.add_0_r in Hi. rewrite Hi. reflexivity.
Qed.

Lemma read_string_reads s :
  EncodedString.wf s -> reads read_string (EncodedString.bytes s) s.
Proof.
  intros Hs. pose proof (EncodedString_len_range _ Hs).
  destruct Hs as (Hl & _ & _ & Hu).
  unfold read_string, EncodedString.bytes.
  eapply reads_bind; [by apply read_u16_reads|].
  intros r k Hwf Hr. pose proof (rest_app_len _ _ _ Hwf Hr).
  erewrite bind_ok by reflexivity.
  rewrite Z.gtb_ltb, (proj2 (Z.ltb_ge _ _)) by lia.
  rewrite Hl, (rest_slice _ _ _ Hwf Hr).
  erewrite bind_ok by reflexivity. rewrite Hu.
  rewrite <- Hl. by destruct s.
Qed.

Lemma read_string_pair_reads p :
  StringPair.wf p -> reads read_string_pair (StringPair.bytes p) p.
Proof.
  intros [Hn Hv]. unfold read_string_pair, StringPair.bytes.
  eapply reads_bind; [by apply read_string_reads|].
  destruct p as [n v]. apply (reads_map _ (StringPair.mk n)). by apply read_string_reads.
Qed.

#[export] Hint Resolve read_u8_reads read_u16_reads read_u32_reads
  read_string_reads read_string_pair_reads : reads.

(** ** Variable byte integers *)

Section read_vbi.
Context (r : t) (Hwf : wf r).

Lemma idx_byte i :
  0 <= i -> position r + i < len r ->
  exists b, idx (E := BufferError) (buffer r) (position r + i) = Ok b /\ byte_ok b.
Proof.
  intros Hi Hlt. destruct Hwf as (H1 & H2 & H3).
  assert (exists b, buffer r !! Z.to_nat (position r + i) = Some b) as [b Hb].
  { apply lookup_lt_is_Some. unfold zlen in H2. lia. }
  exists b. split; [apply idx_ok; [lia|done]|]. eapply Forall_lookup_1; [exact H3|].
  unfold ztake. rewrite lookup_take_lt; [exact Hb|lia].
Qed.

Lemma vbi_loop_more fuel v n x b :
  0 <= x < 4 -> position r + x < len r -> zlen v = 4 ->
  idx (E := BufferError) (buffer r) (position r + x) = Ok b -> 128 <= b < 256 ->
  vbi_loop (S fuel) r v n x = vbi_loop fuel r (<[Z.to_nat x := b]> v) (n + 1) (x + 1).
Proof.
  intros Hx Hp Hv Hi Hb. cbn [vbi_loop].
  rewrite !Z.geb_leb, (proj2 (Z.leb_gt _ _)), (proj2 (Z.leb_gt _ _)) by lia.
  rewrite Hi. cbn -[vbi_loop zero_fill set_idx].
  rewrite set_idx_ok by lia. cbn -[vbi_loop zero_fill].
  rewrite land_128 by (unfold byte_ok; lia).
  by rewrite (proj2 (Z.ltb_ge _ _)) by lia.
Qed.

Lemma vbi_loop_last fuel v0 v1 v2 v3 n x b :
  0 <= x < 4 -> position r + x < len r ->
  idx (E := BufferError) (buffer r) (position r + x) = Ok b -> 0 <= b < 128 ->
  vbi_loop (S (S fuel)) r [v0; v1; v2; v3] n x =
  Ok (take (Z.to_nat x) [v0; v1; v2; v3] ++ b :: replicate (3 - Z.to_nat x) 0, n).
Proof.
  intros Hx Hp Hi Hb. cbn [vbi_loop].
  rewrite !Z.geb_leb, (proj2 (Z.leb_gt _ _)), (proj2 (Z.leb_gt _ _)) by lia.
  rewrite Hi. cbn -[vbi_loop zero_fill set_idx].
  rewrite set_idx_ok by (unfold zlen; cbn; lia). cbn -[vbi_loop zero_fill].
  rewrite land_128 by (unfold byte_ok; lia).
  rewrite (proj2 (Z.ltb_lt _ _)) by lia. cbn -[zero_fill].
  assert (x = 0 \/ x = 1 \/ x = 2 \/ x = 3) as [->|[->|[->| ->]]] by lia; reflexivity.
Qed.

Local Ltac last_byte b :=
  right; rewrite (vbi_loop_last _ _ _ _ _ _ _ b) by (done || lia);
  do 5 eexists; split; [reflexivity|left];
  split; [lia|split; [lia|split]];
  [repeat constructor; unfold byte_ok; lia
  |cbn; repeat (first [by constructor 1; lia|constructor 2])].

(** What the loop can return: an end of buffer, an encoding of [n] bytes,
    or four continuation bytes and a length of 5. *)
Lemma vbi_loop_cases :
  vbi_loop 5 r [0; 0; 0; 0] 1 0 = Err InsufficientBufferSize \/
  exists v0 v1 v2 v3 n,
    vbi_loop 5 r [0; 0; 0; 0] 1 0 = Ok ([v0; v1; v2; v3], n) /\
    (1 <= n <= 4 /\ position r + n <= len r /\ bytes_ok [v0; v1; v2; v3] /\
       Exists (fun b => b < 128) [v0; v1; v2; v3]
     \/ n = 5 /\ Forall (fun b => 128 <= b < 256) [v0; v1; v2; v3]).
Proof.
  assert (Hstep : forall fuel v n x, 0 <= x < 4 ->
    vbi_loop (S fuel) r v n x = Err InsufficientBufferSize \/
    position r + x < len r /\ exists b,
      idx (E := BufferError) (buffer r) (position r + x) = Ok b /\ byte_ok b).
  { intros fuel v n x Hx. destruct (Z.lt_ge_cases (position r + x) (len r)).
    - right. split; [done|]. apply idx_byte; [lia|done].
    - left. cbn [vbi_loop]. rewrite !Z.geb_leb, (proj2 (Z.leb_gt _ _)) by lia.
      by rewrite (proj2 (Z.leb_le _ _)) by lia. }
  unfold byte_ok in Hstep.
  destruct (Hstep 4%nat [0;0;0;0] 1 0) as [|(Hp0 & b0 & Hb0 & Hr0)]; [lia|by left|].
  destruct (Z.lt_ge_cases b0 128); [by last_byte b0|].
  rewrite (vbi_loop_more _ _ _ _ b0) by (done || lia).
  change (vbi_loop 4 r _ _ _) with (vbi_loop 4 r [b0; 0; 0; 0] 2 1).
  destruct (Hstep 3%nat [b0;0;0;0] 2 1) as [|(Hp1 & b1 & Hb1 & Hr1)]; [lia|by left|].
  destruct (Z.lt_ge_cases b1 128); [by last_byte b1|].
  rewrite (vbi_loop_more _ _ _ _ b1) by (done || lia).
  change (vbi_loop 3 r _ _ _) with (vbi_loop 3 r [b0; b1; 0; 0] 3 2).
  destruct (Hstep 2%nat [b0;b1;0;0] 3 2) as [|(Hp2 & b2 & Hb2 & Hr2)]; [lia|by left|].
  destruct (Z.lt_ge_cases b2 128); [by last_byte b2|].
  rewrite (vbi_loop_more _ _ _ _ b2) by (done || lia).
  change (vbi_loop 2 r _ _ _) with (vbi_loop 2 r [b0; b1; b2; 0] 4 3).
  destruct (Hstep 1%nat [b0;b1;b2;0] 4 3) as [|(Hp3 & b3 & Hb3 & Hr3)]; [lia|by left|].
  destruct (Z.lt_ge_cases b3 128); [by last_byte b3|].
  right. rewrite (vbi_loop_more _ _ _ _ b3) by (done || lia).
  do 5 eexists; split; [reflexivity|right].
  split; [done|]. repeat constructor; lia.
Qed.
End read_vbi.

Lemma vbi_loop_encoded r n k :
  wf r -> vbi_ok n -> rest r = vbi_bytes n ++ k ->
  vbi_loop 5 r [0; 0; 0; 0] 1 0 = Ok (pad4 (vbi_bytes n), zlen (vbi_bytes n)).
Proof.
  intros Hwf Hn Hr. unfold vbi_ok, MAX_ENCODABLE in Hn.
  pose proof (rest_app_len _ _ _ Hwf Hr) as Hlen.
  pose proof (fun a b c H => rest_idx (E := BufferError) r a b (c ++ k) Hwf
    (eq_trans Hr H)) as Hidx.
  revert Hlen Hidx. vbi_cases n; unfold zlen; cbn [length Z.of_nat Pos.of_succ_nat Pos.succ];
    intros Hlen Hidx.
  - erewrite vbi_loop_last; [..|by eapply (Hidx [] _ [])|]; try lia. reflexivity.
  - erewrite vbi_loop_more; [..|by eapply (Hidx [] _ [_])|divmod]; try (done || lia).
    change (vbi_loop 4 r _ _ _) with (vbi_loop 4 r [n mod 128 + 128; 0; 0; 0] 2 1).
    erewrite vbi_loop_last; [..|by eapply (Hidx [_] _ [])|]; try divmod. reflexivity.
  - erewrite vbi_loop_more; [..|by eapply (Hidx [] _ [_;_])|divmod]; try (done || lia).
    change (vbi_loop 4 r _ _ _) with (vbi_loop 4 r [n mod 128 + 128; 0; 0; 0] 2 1).
    erewrite vbi_loop_more; [..|by eapply (Hidx [_] _ [_])|divmod]; try (done || lia).
    change (vbi_loop 3 r _ _ _)
      with (vbi_loop 3 r [n mod 128 + 128; n / 128 mod 128 + 128; 0; 0] 3 2).
    erewrite vbi_loop_last; [..|by eapply (Hidx [_;_] _ [])|]; try divmod. reflexivity.
  - erewrite vbi_loop_more; [..|by eapply (Hidx [] _ [_;_;_])|divmod]; try (done || lia).
    change (vbi_loop 4 r _ _ _) with (vbi_loop 4 r [n mod 128 + 128; 0; 0; 0] 2 1).
    erewrite vbi_loop_more; [..|by eapply (Hidx [_] _ [_;_])|divmod]; try (done || lia).
    change (vbi_loop 3 r _ _ _)
      with (vbi_loop 3 r [n mod 128 + 128; n / 128 mod 128 + 128; 0; 0] 3 2).
    erewrite vbi_loop_more; [..|by eapply (Hidx [_;_] _ [_])|divmod]; try (done || lia).
    change (vbi_loop 2 r _ _ _)
      with (vbi_loop 2 r [n mod 128 + 128; n / 128 mod 128 + 128;
        n / 16384 mod 128 + 128; 0] 4 3).
    erewrite vbi_loop_last; [..|by eapply (Hidx [_;_;_] _ [])|]; try divmod. reflexivity.
Qed.

Lemma read_variable_byte_int_reads `{Profile} n :
  vbi_ok n -> reads read_variable_byte_int (vbi_bytes n) n.
Proof.
  intros Hn r k Hwf Hr. unfold read_variable_byte_int.
  erewrite bind_ok by reflexivity.
  rewrite (vbi_loop_encoded _ _ _ Hwf Hn Hr).
  erewrite bind_ok by reflexivity. cbn beta iota.
  erewrite bind_ok by reflexivity.
  unfold lift, pad4. rewrite decode_ok by done. reflexivity.
Qed.
#[export] Hint Resolve read_variable_byte_int_reads : reads.

(** [read_binary] returns the data and leaves the cursor in front of it. *)
Lemma read_binary_at d r k :
  BinaryData.wf d -> wf r -> rest r = BinaryData.bytes d ++ k ->
  read_binary r = (Ok d, advance 2 r).
Proof.
  intros Hd Hwf Hr. pose proof (BinaryData_len_range _ Hd).
  destruct Hd as (Hl & _ & _). unfold BinaryData.bytes in Hr. rewrite <- app_assoc in Hr.
  unfold read_binary.
  rewrite (bind_ok _ _ _ _ _ (read_u16_reads _ ltac:(done) r _ Hwf Hr)).
  pose proof (advance_wf _ _ _ Hwf Hr) as Hwf'. pose proof (rest_advance _ _ _ Hwf Hr) as Hr'.
  rewrite zlen_be_bytes in *.
  pose proof (rest_app_len _ _ _ Hwf' Hr').
  erewrite bind_ok by reflexivity. rewrite Z.gtb_ltb, (proj2 (Z.ltb_ge _ _)) by lia.
  rewrite Hl, (rest_slice _ _ _ Hwf' Hr').
  erewrite bind_ok by reflexivity. rewrite <- Hl. by destruct d.
Qed.

(** The message of a packet that starts the buffer. *)
Lemma read_message_at hd m k n total :
  total = zlen hd + zlen m -> total <= n ->
  read_message total (mk (hd ++ m ++ k) (zlen hd) n) = (Ok m, mk (hd ++ m ++ k) (zlen hd) n).
Proof.
  intros -> Hn. pose proof (zlen_nonneg hd). pose proof (zlen_nonneg m).
  pose proof (zlen_nonneg k).
  unfold read_message. erewrite bind_ok by reflexivity. cbn [len position buffer].
  rewrite Z.gtb_ltb, (proj2 (Z.ltb_ge _ _)) by lia. unfold lift.
  rewrite slice_ok by (zlen; lia). rewrite zdrop_app_len.
  replace (zlen hd + zlen m - zlen hd) with (zlen m) by lia. by rewrite ztake_app_len.
Qed.

(** ** Every input: progress, termination and the panics *)

Section runs_rules.
Context {A B : Type} (P : panic_reason -> Prop).

Lemma runs_ret {C} (a : C) (Q : C -> Prop) : Q a -> runs P 0 (mret a) Q.
Proof. intros Ha r Hwf. cbn. repeat split; try apply Hwf; try lia; done. Qed.

Lemma runs_bind (m : R A) (f : A -> R B) n1 n2 n (Q1 : A -> Prop) (Q2 : B -> Prop) :
  runs P n1 m Q1 -> (forall a, Q1 a -> runs P n2 (f a) Q2) -> n <= n1 + n2 ->
  runs P n (m ≫= f) Q2.
Proof.
  intros Hm Hf Hn r Hwf. specialize (Hm r Hwf). unfold mbind, M_bind.
  destruct (m r) as [[a|e|p|] r1]; try done.
  destruct Hm as (Hwf1 & Hb1 & Hl1 & Hp1 & HQ). specialize (Hf a HQ r1 Hwf1).
  destruct (f a r1) as [[b|e|p|] r2]; try done.
  destruct Hf as (Hwf2 & Hb2 & Hl2 & Hp2 & HQ2).
  repeat split; try apply Hwf2; try congruence; try lia; done.
Qed.

Lemma runs_weaken (P' : panic_reason -> Prop) (m : R A) n n' (Q Q' : A -> Prop) :
  runs P n m Q -> (forall p, P p -> P' p) -> n' <= n -> (forall a, Q a -> Q' a) ->
  runs P' n' m Q'.
Proof.
  intros Hm HP Hn HQ r Hwf. specialize (Hm r Hwf).
  destruct (m r) as [[a|e|p|] r1]; try done; [|by apply HP].
  destruct Hm as (Hwf1 & Hb1 & Hl1 & Hp1 & HQa). repeat split; try apply Hwf1; auto; lia.
Qed.

Lemma runs_throw e (Q : A -> Prop) n : runs P n (throw e) Q.
Proof. done. Qed.

(** An operation that only inspects the cursor. *)
Lemma runs_gets (f : t -> R A) n (Q : A -> Prop) :
  (forall r, wf r -> match f r r with
    | (Ok a, r') => wf r' /\ buffer r' = buffer r /\ len r' = len r
        /\ position r + n <= position r' /\ Q a
    | (Err _, _) => True | (Panic p, _) => P p | (OutOfFuel, _) => False end) ->
  runs P n (gets (fun r => r) ≫= f) Q.
Proof. intros Hf r Hwf. exact (Hf r Hwf). Qed.

Lemma runs_map (m : R A) (g : A -> B) n (Q : B -> Prop) (Q1 : A -> Prop) :
  runs P n m Q1 -> (forall a, Q1 a -> Q (g a)) -> runs P n (x ← m; mret (g x)) Q.
Proof.
  intros Hm Hg. eapply runs_bind; [done| |rewrite Z.add_0_r; done].
  intros a Ha. apply (runs_ret (g a) Q). by apply Hg.
Qed.
End runs_rules.

(** A bounded number of bytes is there, or not. *)
Lemma rest_split r n :
  wf r -> 0 <= n -> position r + n <= len r ->
  exists bs k, zlen bs = n /\ bytes_ok bs /\ rest r = bs ++ k.
Proof.
  intros Hwf Hn Hp. exists (ztake n (rest r)), (zdrop n (rest r)).
  pose proof (zlen_rest r Hwf). repeat split.
  - apply zlen_take. lia.
  - apply Forall_take. by apply rest_bytes_ok.
  - by rewrite ztake_zdrop.
Qed.

(** A reader that meets its contract on every [n]-byte input runs. *)
Lemma reads_runs {A} P (op : R A) n (f : list Z -> A) (Q : A -> Prop) :
  0 <= n ->
  (forall bs, bytes_ok bs -> zlen bs = n -> reads op bs (f bs) /\ Q (f bs)) ->
  (forall r, wf r -> len r < position r + n -> exists e r', op r = (Err e, r')) ->
  runs P n op Q.
Proof.
  intros Hn Hop Herr r Hwf.
  destruct (Z.lt_ge_cases (len r) (position r + n)) as [Hlt|Hge].
  - destruct (Herr r Hwf Hlt) as (e & r' & ->). done.
  - destruct (rest_split r n Hwf Hn Hge) as (bs & k & Hl & Hb & Hr).
    destruct (Hop bs Hb Hl) as [Hrd HQ]. rewrite (Hrd r k Hwf Hr).
    split; [by eapply advance_wf|]. cbn. repeat split; auto; lia.
Qed.

Lemma read_be_runs P n :
  0 <= n -> runs P n (read_be n) (fun v => 0 <= v < 256 ^ n).
Proof.
  intros Hn. apply (reads_runs _ _ _ be_value); [done| |].
  - intros bs Hb <-. split; [by apply read_be_reads|by apply be_value_range].
  - intros r Hwf Hlt. unfold read_be. erewrite bind_ok by reflexivity.
    rewrite Z.gtb_ltb, (proj2 (Z.ltb_lt _ _)) by lia. by do 2 eexists.
Qed.

Lemma read_u16_runs P : runs P 2 read_u16 (fun v => 0 <= v < 2 ^ 16).
Proof. by apply read_be_runs. Qed.

Lemma read_u32_runs P : runs P 4 read_u32 (fun v => 0 <= v < 2 ^ 32).
Proof. by apply read_be_runs. Qed.

Lemma read_u8_runs P : runs P 1 read_u8 byte_ok.
Proof.
  apply (reads_runs _ _ _ (fun bs => hd 0 bs)); [done| |].
  - intros [|b [|? ?]] Hb Hl; zlen; cbn in *; try (pose proof (zlen_nonneg l0); lia).
    + lia.
    + split; [apply read_u8_reads|by inversion Hb].
    + pose proof (zlen_nonneg l). lia.
  - intros r Hwf Hlt. unfold read_u8. erewrite bind_ok by reflexivity.
    rewrite Z.geb_leb, (proj2 (Z.leb_le _ _)) by lia. by do 2 eexists.
Qed.

Lemma read_string_runs P : runs P 2 read_string EncodedString.wf.
Proof.
  unfold read_string. eapply runs_bind with (n2 := 0); [apply read_u16_runs| |lia].
  cbn beta. intros n Hn. apply runs_gets. intros r Hwf.
  destruct (Z.gtb_spec (position r + n) (len r)) as [|Hle]; [done|].
  destruct (rest_split r n Hwf ltac:(lia) ltac:(lia)) as (bs & k & Hl & Hb & Hr).
  subst n. erewrite bind_ok by (unfold lift; by rewrite (rest_slice _ _ _ Hwf Hr)).
  destruct (valid_utf8 bs) eqn:Hu; [|done].
  erewrite bind_ok by reflexivity. cbn.
  split; [by eapply advance_wf|]. repeat split; cbn; auto; lia.
Qed.

Lemma read_string_pair_runs P : runs P 4 read_string_pair StringPair.wf.
Proof.
  unfold read_string_pair.
  eapply runs_bind with (n2 := 2); [apply read_string_runs| |lia].
  intros n Hn. eapply runs_map; [apply read_string_runs|]. by split.
Qed.

Lemma read_binary_runs P : runs P 2 read_binary BinaryData.wf.
Proof.
  unfold read_binary. eapply runs_bind with (n2 := 0); [apply read_u16_runs| |lia].
  cbn beta. intros n Hn. apply runs_gets. intros r Hwf.
  destruct (Z.gtb_spec (position r + n) (len r)) as [|Hle]; [done|].
  destruct (rest_split r n Hwf ltac:(lia) ltac:(lia)) as (bs & k & Hl & Hb & Hr).
  subst n. erewrite bind_ok by (unfold lift; by rewrite (rest_slice _ _ _ Hwf Hr)).
  cbn. split; [done|]. repeat split; cbn; auto; lia.
Qed.

Lemma read_variable_byte_int_runs `{Profile} (P : panic_reason -> Prop) :
  P PIndex -> runs P 1 read_variable_byte_int vbi_ok.
Proof.
  intros HP. unfold read_variable_byte_int. apply runs_gets. intros r Hwf.
  destruct (vbi_loop_cases r Hwf) as [Hv|(v0 & v1 & v2 & v3 & n & Hv & Hc)].
  - erewrite bind_err by (unfold lift; by rewrite Hv). done.
  - erewrite bind_ok by (unfold lift; by rewrite Hv). cbn beta iota.
    erewrite bind_ok by reflexivity. unfold lift.
    destruct Hc as [(Hn & Hp & Hb & Hex)|(-> & Hall)].
    + destruct (decode_terminated _ _ _ _ Hb Hex) as (x & -> & Hx).
      destruct Hwf as (H1 & H2 & H3). unfold wf. cbn. repeat split; auto; try apply Hx; lia.
    + by rewrite decode_overrun.
Qed.

Lemma read_message_runs (P : panic_reason -> Prop) n :
  P PSlice -> runs P 0 (read_message n) bytes_ok.
Proof.
  intros HP. unfold read_message. apply runs_gets. intros r Hwf.
  pose proof Hwf as (H1 & H2 & H3).
  assert (Hs : forall b, b <= len r ->
    bytes_ok (ztake (b - position r) (zdrop (position r) (buffer r)))).
  { intros b Hb. rewrite <- (ztake_ztake _ (len r - position r)) by lia.
    apply Forall_take. by apply (rest_bytes_ok r). }
  destruct (Z.gtb_spec n (len r)); unfold lift.
  - rewrite slice_ok by lia. cbn. repeat split; auto; try (by apply Hs; lia); lia.
  - destruct (Z.lt_ge_cases n (position r)); [by rewrite slice_panic by lia|].
    rewrite slice_ok by lia. cbn. repeat split; auto; lia.
Qed.

Create HintDb runs.
#[export] Hint Resolve read_u8_runs read_u16_runs read_u32_runs read_string_runs
  read_string_pair_runs read_binary_runs runs_throw : runs.
