(* ===== verification/BuffWriter.v ===== *)
(** The encoding cursor: rust-mqtt/src/utils/buffer_writer.rs.

    [writes op bs] is the abstract contract of an encoding operation: it
    appends exactly [bs] when they fit and reports [InsufficientBufferSize]
    when they do not.  It composes under bind, so the wire format of a packet
    follows from those of its fields.  [write_property] and
    [write_properties] are in Property.v, beside [Property::encode]. *)
From S2P Require Import Prelude.
From S2P Require Import Utf8.
From S2P Require Import Types.
From S2P Require Import Vbi.

Inductive RemLenError : Type := RemLenErr.

Module BuffWriter.
Record t : Type := mk { buffer : list Z; position : Z; len : Z }.

Abbreviation W := (M t BufferError).

Definition new (buffer : list Z) (buff_len : Z) : t := mk buffer 0 buff_len.

Definition increment_position {E} (increment : Z) : M t E unit :=
  modify (fun w => mk (buffer w) (position w + increment) (len w)).

Definition set_buffer {E} (b : list Z) : M t E unit :=
  modify (fun w => mk b (position w) (len w)).

Definition get_n_byte {E} (n : Z) : M t E Z :=
  w ← gets (fun w => w);
  if position w >=? n then lift (idx (buffer w) n) else mret 0.

(** The loop of [get_rem_len]; [l] is [len]. *)
Fixpoint rem_len_loop (fuel : nat) (buf : list Z) (max i : Z) (l : list Z)
  : outcome RemLenError (list Z) :=
  match fuel with
  | O => OutOfFuel
  | S fuel =>
    b ← idx buf i;
    l ← set_idx l (i - 1) b;
    if Z.land b 0x80 =? 0 then Ok l
    else if negb (Z.land b 0x80 =? 0) && (i =? max) && negb (i =? 4)
    then Err RemLenErr
    else if i =? max then Ok l
    else rem_len_loop fuel buf max (i + 1) l
  end.

Definition get_rem_len `{Profile} : M t RemLenError (list Z) :=
  w ← gets (fun w => w);
  max ← (if position w >=? 5 then mret 4 else lift (position w -usize 1));
  lift (rem_len_loop 5 (buffer w) max 1 [0; 0; 0; 0]).

Definition insert_ref (n : Z) (array : list Z) : W unit :=
  w ← gets (fun w => w);
  if position w + n >? len w then throw InsufficientBufferSize
  else
    src ← lift (slice array 0 n);
    b ← lift (copy_into (buffer w) (position w) (position w + n) src);
    set_buffer b ;;;
    increment_position n ;;;
    mret tt.

Definition write_u8 (byte : Z) : W unit :=
  w ← gets (fun w => w);
  if position w >=? len w then throw InsufficientBufferSize
  else
    b ← lift (set_idx (buffer w) (position w) byte);
    set_buffer b ;;;
    increment_position 1 ;;;
    mret tt.

Definition write_u16 (two_bytes : Z) : W unit := insert_ref 2 (be_bytes 2 two_bytes).

Definition write_u32 (four_bytes : Z) : W unit := insert_ref 4 (be_bytes 4 four_bytes).

Definition write_string_ref (str : EncodedString.t) : W unit :=
  write_u16 (EncodedString.len str) ;;;
  if negb (EncodedString.len str =? 0)
  then insert_ref (EncodedString.len str) (EncodedString.string str)
  else mret tt.

Definition write_binary_ref (bin : BinaryData.t) : W unit :=
  write_u16 (BinaryData.len bin) ;;;
  insert_ref (BinaryData.len bin) (BinaryData.bin bin).

Definition write_string_pair_ref (str_pair : StringPair.t) : W unit :=
  write_string_ref (StringPair.name str_pair) ;;;
  write_string_ref (StringPair.value str_pair).

Definition write_variable_byte_int (int : Z) : W unit :=
  x ← lift (VariableByteIntegerEncoder.encode int);
  n ← lift (VariableByteIntegerEncoder.len x);
  insert_ref n x.

Definition write_topic_filter_ref (sub : bool) (topic_filter : TopicFilter.t) : W unit :=
  write_string_ref (TopicFilter.filter topic_filter) ;;;
  (if sub then write_u8 (TopicFilter.sub_options topic_filter) else mret tt) ;;;
  mret tt.

Fixpoint write_topic_filters_ref (sub : bool) (filters : list TopicFilter.t) : W unit :=
  match filters with
  | [] => mret tt
  | f :: filters =>
    write_topic_filter_ref sub f ;;; write_topic_filters_ref sub filters
  end.

(** ** Specification *)

Definition wf (w : t) : Prop := 0 <= position w <= len w /\ len w <= zlen (buffer w).

(** The bytes written so far, and the state after appending [bs]. *)
Definition written (w : t) : list Z := ztake (position w) (buffer w).

Definition put (bs : list Z) (w : t) : t :=
  mk (ztake (position w) (buffer w) ++ bs ++ zdrop (position w + zlen bs) (buffer w))
     (position w + zlen bs) (len w).

Definition fits (bs : list Z) (w : t) : Prop := position w + zlen bs <= len w.

Definition writes (op : W unit) (bs : list Z) : Prop :=
  forall w, wf w ->
  (fits bs w -> op w = (Ok tt, put bs w)) /\
  (~ fits bs w -> exists w', op w = (Err InsufficientBufferSize, w')).
End BuffWriter.
Import BuffWriter.

(** ** The written prefix *)

Lemma put_wf bs w : wf w -> fits bs w -> wf (put bs w).
Proof.
  unfold wf, fits, put. intros [H1 H2] Hf. cbn. pose proof (zlen_nonneg bs).
  split; [lia|]. zlen. rewrite zlen_take, zlen_drop by lia. lia.
Qed.

Lemma written_put bs w : wf w -> fits bs w -> written (put bs w) = written w ++ bs.
Proof.
  unfold wf, fits, written. intros [H1 H2] Hf. cbn. pose proof (zlen_nonneg bs).
  rewrite app_assoc.
  assert (E : zlen (ztake (position w) (buffer w) ++ bs) = position w + zlen bs)
    by (zlen; rewrite zlen_take by lia; lia).
  rewrite <- E at 1. apply ztake_app_len.
Qed.

Lemma put_nil w : wf w -> put [] w = w.
Proof.
  intros [H1 H2]. destruct w as [b p l]; unfold put; cbn in *.
  rewrite zlen_nil, Z.add_0_r. by rewrite ztake_zdrop.
Qed.

Lemma put_put bs cs w : wf w -> fits (bs ++ cs) w -> put cs (put bs w) = put (bs ++ cs) w.
Proof.
  unfold fits. intros Hwf Hf. pose proof (zlen_nonneg bs). pose proof (zlen_nonneg cs). zlen.
  pose proof (written_put bs w Hwf ltac:(unfold fits; lia)) as Hw.
  unfold written in Hw. destruct Hwf as [H1 H2].
  unfold put at 1. rewrite Hw. cbn. unfold put. f_equal; [|by zlen; lia].
  rewrite <- !app_assoc. do 3 f_equal. zlen.
  assert (E : zlen (ztake (position w) (buffer w) ++ bs) = position w + zlen bs)
    by (zlen; rewrite zlen_take by lia; lia).
  rewrite app_assoc. rewrite <- zdrop_zdrop by lia. rewrite <- E at 1.
  rewrite zdrop_app_len, zdrop_zdrop by lia. f_equal. lia.
Qed.

(** ** The contract composes *)

Lemma writes_ret : writes (mret tt) [].
Proof.
  intros w Hwf. split.
  - intros _. by rewrite put_nil.
  - unfold fits. rewrite zlen_nil. unfold wf in Hwf. lia.
Qed.

Lemma writes_bind (m1 m2 : W unit) bs cs :
  writes m1 bs -> writes m2 cs -> writes (m1 ;;; m2) (bs ++ cs).
Proof.
  intros H1 H2 w Hwf. destruct (H1 w Hwf) as [Hok Herr].
  destruct (Z.le_gt_cases (position w + zlen bs) (len w)) as [Hf|Hf].
  - specialize (Hok Hf). rewrite (bind_ok _ _ _ _ _ Hok).
    destruct (H2 (put bs w) ltac:(by apply put_wf)) as [Hok2 Herr2].
    assert (Hiff : fits (bs ++ cs) w <-> fits cs (put bs w))
      by (unfold fits; zlen; cbn; lia).
    split.
    + intros Hfit. rewrite Hok2 by tauto. by rewrite put_put.
    + intros Hfit. apply Herr2. tauto.
  - destruct (Herr ltac:(unfold fits; lia)) as [w' Hw'].
    split.
    + unfold fits. zlen. pose proof (zlen_nonneg cs). lia.
    + intros _. exists w'. by apply bind_err.
Qed.

Lemma writes_bind_nil (m1 m2 : W unit) bs :
  writes m1 bs -> writes m2 [] -> writes (m1 ;;; m2) bs.
Proof. intros. rewrite <- (app_nil_r bs). by apply writes_bind. Qed.

(** A pure step that succeeds writes nothing. *)
Lemma writes_lift {A} (o : outcome BufferError A) a (f : A -> W unit) bs :
  o = Ok a -> writes (f a) bs -> writes (lift o ≫= f) bs.
Proof. by intros ->. Qed.

Lemma writes_bind_nil_l (m1 m2 : W unit) bs :
  writes m1 [] -> writes m2 bs -> writes (m1 ;;; m2) bs.
Proof. intros. by apply (writes_bind _ _ [] bs). Qed.

(** A computation that leaves the writer alone. *)
Definition yields {A} (m : W A) (a : A) : Prop := forall w, m w = (Ok a, w).

Lemma yields_ret {A} (a : A) : yields (mret a) a.
Proof. done. Qed.

Lemma yields_lift {A} (o : outcome BufferError A) a : o = Ok a -> yields (lift o) a.
Proof. intros -> w. done. Qed.

Lemma yields_bind {A B} (o : outcome BufferError A) a (f : A -> W B) b :
  o = Ok a -> yields (f a) b -> yields (lift o ≫= f) b.
Proof. intros -> Hf w. exact (Hf w). Qed.

Lemma writes_yields {A} (m : W A) a (f : A -> W unit) bs :
  yields m a -> writes (f a) bs -> writes (m ≫= f) bs.
Proof.
  intros Hm Hf w Hwf. specialize (Hf w Hwf).
  by rewrite (bind_ok _ _ _ _ _ (Hm w)).
Qed.

Create HintDb writes.
#[export] Hint Resolve writes_ret : writes.

(** ** The encoders meet their contract *)

Lemma insert_ref_writes n bs array :
  n = zlen bs -> (exists k, array = bs ++ k) -> writes (insert_ref n array) bs.
Proof.
  intros -> [k ->] w Hwf. pose proof Hwf as [H1 H2]. pose proof (zlen_nonneg bs).
  unfold insert_ref. split.
  - unfold fits. intros Hf. erewrite bind_ok by reflexivity.
    rewrite Z.gtb_ltb, (proj2 (Z.ltb_ge _ _)) by lia.
    rewrite slice_prefix. erewrite bind_ok by reflexivity.
    rewrite copy_into_ok by lia. reflexivity.
  - unfold fits. intros Hf. erewrite bind_ok by reflexivity.
    rewrite Z.gtb_ltb, (proj2 (Z.ltb_lt _ _)) by lia. by eexists.
Qed.

Lemma insert_ref_writes_all n bs : n = zlen bs -> writes (insert_ref n bs) bs.
Proof. intros ->. apply insert_ref_writes; [done|]. exists []. by rewrite app_nil_r. Qed.

Lemma insert_at {A} (l : list A) i x :
  0 <= i < zlen l -> <[Z.to_nat i := x]> l = ztake i l ++ [x] ++ zdrop (i + 1) l.
Proof.
  intros Hi. rewrite insert_take_drop by (unfold zlen in Hi; lia).
  unfold ztake, zdrop. by rewrite Z2Nat.inj_add, Nat.add_1_r by lia.
Qed.

Lemma write_u8_writes b : writes (write_u8 b) [b].
Proof.
  intros w Hwf. pose proof Hwf as [H1 H2].
  unfold write_u8, fits. zlen. split; intros Hf; erewrite bind_ok by reflexivity.
  - rewrite Z.geb_leb, (proj2 (Z.leb_gt _ _)) by lia.
    rewrite set_idx_ok by lia. cbn. unfold put. cbn.
    by rewrite insert_at by lia.
  - rewrite Z.geb_leb, (proj2 (Z.leb_le _ _)) by lia. by eexists.
Qed.

Lemma write_u16_writes v : writes (write_u16 v) (be_bytes 2 v).
Proof. apply insert_ref_writes_all. by rewrite zlen_be_bytes. Qed.

Lemma write_u32_writes v : writes (write_u32 v) (be_bytes 4 v).
Proof. apply insert_ref_writes_all. by rewrite zlen_be_bytes. Qed.

#[export] Hint Resolve write_u8_writes write_u16_writes write_u32_writes : writes.

Lemma write_string_ref_writes s :
  EncodedString.wf s -> writes (write_string_ref s) (EncodedString.bytes s).
Proof.
  intros (Hl & _ & _ & _). unfold write_string_ref, EncodedString.bytes.
  apply writes_bind; [auto with writes|].
  destruct (Z.eqb_spec (EncodedString.len s) 0) as [H0|]; cbn [negb].
  - rewrite Hl in H0. destruct (EncodedString.string s); [auto with writes|].
    zlen. pose proof (zlen_nonneg l). lia.
  - by apply insert_ref_writes_all.
Qed.

Lemma write_binary_ref_writes d :
  BinaryData.wf d -> writes (write_binary_ref d) (BinaryData.bytes d).
Proof.
  intros (Hl & _ & _). apply writes_bind; [auto with writes|].
  by apply insert_ref_writes_all.
Qed.

Lemma write_string_pair_ref_writes p :
  StringPair.wf p -> writes (write_string_pair_ref p) (StringPair.bytes p).
Proof. intros [Hn Hv]. by apply writes_bind; apply write_string_ref_writes. Qed.

Lemma write_variable_byte_int_writes n :
  vbi_ok n -> writes (write_variable_byte_int n) (vbi_bytes n).
Proof.
  intros Hn. unfold write_variable_byte_int.
  eapply writes_lift; [by apply encode_ok|].
  eapply writes_lift; [by apply len_ok|].
  apply insert_ref_writes; [done|]. by eexists.
Qed.

Lemma write_topic_filter_ref_writes sub f :
  TopicFilter.wf f -> writes (write_topic_filter_ref sub f) (TopicFilter.bytes sub f).
Proof.
  intros [Hf _]. apply writes_bind; [by apply write_string_ref_writes|].
  destruct sub; apply writes_bind_nil; auto with writes.
Qed.

Lemma write_topic_filters_ref_writes sub fs :
  Forall TopicFilter.wf fs ->
  writes (write_topic_filters_ref sub fs) (concat (map (TopicFilter.bytes sub) fs)).
Proof.
  induction 1 as [|f fs Hf _ IH]; [apply writes_ret|].
  cbn [write_topic_filters_ref map concat].
  apply writes_bind; [by apply write_topic_filter_ref_writes|done].
Qed.

#[export] Hint Resolve write_string_ref_writes write_binary_ref_writes
  write_string_pair_ref_writes write_variable_byte_int_writes
  write_topic_filter_ref_writes write_topic_filters_ref_writes : writes.

(** Writing into a fresh buffer. *)
Lemma writes_new op bs buf n :
  writes op bs -> 0 <= n <= zlen buf ->
  (zlen bs <= n ->
     op (new buf n) = (Ok tt, mk (bs ++ zdrop (zlen bs) buf) (zlen bs) n)) /\
  (n < zlen bs -> exists w', op (new buf n) = (Err InsufficientBufferSize, w')).
Proof.
  intros Hop Hn. destruct (Hop (new buf n)) as [Hok Herr]; [unfold wf, new; cbn; lia|].
  unfold fits in *. cbn in Hok, Herr. split.
  - intros Hf. rewrite Hok by lia. done.
  - intros Hf. apply Herr. lia.
Qed.

(** ** [get_rem_len] on a packet being received *)

Section rem_len.
Lemma rem_len_loop_more fuel buf max i l b :
  idx (E := RemLenError) buf i = Ok b -> 128 <= b < 256 -> 1 <= i <= zlen l -> i < max ->
  rem_len_loop (S fuel) buf max i l =
  rem_len_loop fuel buf max (i + 1) (<[Z.to_nat (i - 1) := b]> l).
Proof.
  intros Hi Hb Hl Hm. cbn [rem_len_loop]. rewrite Hi. unfold mbind, outcome_bind.
  rewrite set_idx_ok by lia. rewrite land_128 by (unfold byte_ok; lia).
  rewrite (proj2 (Z.ltb_ge _ _)) by lia. cbn [negb andb].
  by rewrite (proj2 (Z.eqb_neq _ _)) by lia.
Qed.

Lemma rem_len_loop_end fuel buf max i l b :
  idx (E := RemLenError) buf i = Ok b -> 128 <= b < 256 -> 1 <= i <= zlen l -> i = max ->
  i <> 4 -> rem_len_loop (S fuel) buf max i l = Err RemLenErr.
Proof.
  intros Hi Hb Hl -> Hm. cbn [rem_len_loop]. rewrite Hi. unfold mbind, outcome_bind.
  rewrite set_idx_ok by lia. rewrite land_128 by (unfold byte_ok; lia).
  rewrite (proj2 (Z.ltb_ge _ _)) by lia. rewrite Z.eqb_refl. cbn [negb andb].
  by rewrite (proj2 (Z.eqb_neq _ _)) by lia.
Qed.

Lemma rem_len_loop_four fuel buf i l b :
  idx (E := RemLenError) buf i = Ok b -> 128 <= b < 256 -> 1 <= i <= zlen l -> i = 4 ->
  rem_len_loop (S fuel) buf 4 i l = Ok (<[Z.to_nat (i - 1) := b]> l).
Proof.
  intros Hi Hb Hl ->. cbn [rem_len_loop]. rewrite Hi. unfold mbind, outcome_bind.
  rewrite set_idx_ok by lia. rewrite land_128 by (unfold byte_ok; lia).
  by rewrite (proj2 (Z.ltb_ge _ _)) by lia.
Qed.

Lemma rem_len_loop_last fuel buf max i l b :
  idx (E := RemLenError) buf i = Ok b -> 0 <= b < 128 -> 1 <= i <= zlen l ->
  rem_len_loop (S fuel) buf max i l = Ok (<[Z.to_nat (i - 1) := b]> l).
Proof.
  intros Hi Hb Hl. cbn [rem_len_loop]. rewrite Hi. unfold mbind, outcome_bind.
  rewrite set_idx_ok by lia. rewrite land_128 by (unfold byte_ok; lia).
  by rewrite (proj2 (Z.ltb_lt _ _)) by lia.
Qed.

Local Ltac side := first [reflexivity|unfold zlen; rewrite ?length_insert; cbn; divmod].

(** The length is not complete yet. *)
Lemma rem_len_partial n h pre c suf k :
  vbi_ok n -> vbi_bytes n = pre ++ c :: suf -> pre <> [] ->
  rem_len_loop 5 (h :: pre ++ k) (zlen pre) 1 [0; 0; 0; 0] = Err RemLenErr.
Proof.
  unfold vbi_ok, MAX_ENCODABLE. intros Hn Hv Hne. revert Hv.
  destruct pre as [|p0 [|p1 [|p2 pre]]]; [congruence|..]; vbi_cases n; intros Hv;
    try (destruct pre); cbn in Hv; try discriminate; injection Hv; intros; subst;
    try (destruct pre; discriminate);
    repeat (erewrite rem_len_loop_more; [|side..]);
    (erewrite rem_len_loop_end; [reflexivity|side..]).
Qed.

(** The length is complete. *)
Lemma rem_len_full n h k :
  vbi_ok n ->
  rem_len_loop 5 (h :: vbi_bytes n ++ k) (zlen (vbi_bytes n)) 1 [0; 0; 0; 0] =
  Ok (pad4 (vbi_bytes n)).
Proof.
  unfold vbi_ok, MAX_ENCODABLE. intros Hn. vbi_cases n;
    repeat (erewrite rem_len_loop_more; [|side..]);
    (erewrite rem_len_loop_last; [|side..]); reflexivity.
Qed.

(** Four continuation bytes are taken for a length. *)
Lemma rem_len_unterminated h c1 c2 c3 c4 k :
  128 <= c1 < 256 -> 128 <= c2 < 256 -> 128 <= c3 < 256 -> 128 <= c4 < 256 ->
  rem_len_loop 5 (h :: c1 :: c2 :: c3 :: c4 :: k) 4 1 [0; 0; 0; 0] = Ok [c1; c2; c3; c4].
Proof.
  intros. do 3 (erewrite rem_len_loop_more; [|side..]).
  erewrite rem_len_loop_four; [reflexivity|side..].
Qed.
End rem_len.
