(* ===== verification/Heapless.v ===== *)
(** [heapless::Vec]: the bounded vectors of the MQTT packets.

    The crate is not part of the repository.  [HeaplessVec] states what the
    program relies on: a vector of capacity [cap] holds the elements pushed to
    it, in order, and a push to a full vector gives the element back and leaves
    the vector as it was.  A vector is the list of its elements. *)
From S2P Require Import Prelude.

Class HeaplessVec : Type := {
  (** [v.push(x)]: the vector after the call, and whether it returned [Ok]. *)
  vec_push : forall {A : Type}, Z -> list A -> A -> list A * bool;
  vec_push_room : forall A cap (l : list A) x,
    zlen l < cap -> vec_push cap l x = (l ++ [x], true);
  vec_push_full : forall A cap (l : list A) x,
    cap <= zlen l -> vec_push cap l x = (l, false);
}.

(** An instance, to run the model. *)
Definition list_push {A} (cap : Z) (l : list A) (x : A) : list A * bool :=
  if zlen l <? cap then (l ++ [x], true) else (l, false).

#[refine] Definition list_vec : HeaplessVec := {| vec_push := @list_push |}.
Proof.
  - intros A cap l x Hl. unfold list_push. by rewrite (proj2 (Z.ltb_lt _ _)) by done.
  - intros A cap l x Hl. unfold list_push. by rewrite (proj2 (Z.ltb_ge _ _)) by done.
Defined.

Section push.
Context `{HeaplessVec} {A : Type}.

(** The callers ignore the result of [push]. *)
Definition push (cap : Z) (l : list A) (x : A) : list A := (vec_push cap l x).1.

Lemma push_room cap l x : zlen l < cap -> push cap l x = l ++ [x].
Proof. intros. unfold push. by rewrite vec_push_room. Qed.

Lemma push_full cap l x : cap <= zlen l -> push cap l x = l.
Proof. intros. unfold push. by rewrite vec_push_full. Qed.

(** Pushing a whole list keeps what fits. *)
Lemma push_all cap l xs :
  zlen l <= cap ->
  fold_left (push cap) xs l = l ++ ztake (cap - zlen l) xs.
Proof.
  revert l. induction xs as [|x xs IH]; intros l Hl; cbn [fold_left].
  - unfold ztake. by rewrite take_nil, app_nil_r.
  - destruct (Z.lt_ge_cases (zlen l) cap) as [Hlt|Hge].
    + rewrite push_room, IH by (zlen; lia). rewrite <- app_assoc. f_equal. zlen.
      unfold ztake. replace (Z.to_nat (cap - zlen l))
        with (S (Z.to_nat (cap - (zlen l + (1 + 0))))) by lia. done.
    + rewrite push_full, IH by done. f_equal.
      by rewrite !ztake_0 by lia.
Qed.

Lemma zlen_push cap l x :
  zlen l <= cap -> zlen (push cap l x) <= cap.
Proof.
  intros Hl. destruct (Z.lt_ge_cases (zlen l) cap).
  - rewrite push_room by done. zlen. lia.
  - by rewrite push_full.
Qed.
End push.

(** The bulk operations of a vector: [extend_from_slice] appends all or nothing
    and says which; [extend] panics when the vector cannot hold all. *)
Class HeaplessExtend : Type := {
  vec_extend_from_slice : forall {A : Type}, Z -> list A -> list A -> list A * bool;
  vec_extend : forall {E A : Type}, Z -> list A -> list A -> outcome E (list A);
  extend_slice_room : forall A cap (l xs : list A),
    zlen l + zlen xs <= cap -> vec_extend_from_slice cap l xs = (l ++ xs, true);
  extend_slice_full : forall A cap (l xs : list A),
    cap < zlen l + zlen xs -> vec_extend_from_slice cap l xs = (l, false);
  extend_room : forall E A cap (l xs : list A),
    zlen l + zlen xs <= cap -> vec_extend (E := E) cap l xs = Ok (l ++ xs);
}.

#[refine] Definition list_extend : HeaplessExtend := {|
  vec_extend_from_slice A cap l xs :=
    if zlen l + zlen xs <=? cap then (l ++ xs, true) else (l, false);
  vec_extend E A cap l xs :=
    if zlen l + zlen xs <=? cap then Ok (l ++ xs) else Panic PUnwrap
|}.
Proof.
  - intros A cap l xs Hl. by rewrite (proj2 (Z.leb_le _ _)) by done.
  - intros A cap l xs Hl. by rewrite (proj2 (Z.leb_gt _ _)) by done.
  - intros E A cap l xs Hl. by rewrite (proj2 (Z.leb_le _ _)) by done.
Defined.
