(* ===== verification/Codes.v ===== *)
(** The enumerations of the protocol: rust-mqtt/src/packet/v5/packet_type.rs,
    [QualityOfService] of publish_packet.rs and reason_codes.rs. *)
From S2P Require Import Prelude.
From S2P Require Import Vbi.
From Stdlib Require Import String.
Open Scope string_scope.
Open Scope Z_scope.

Module PacketType.
Inductive t : Type :=
| Reserved | Connect | Connack | Publish | Puback | Pubrec | Pubrel | Pubcomp
| Subscribe | Suback | Unsubscribe | Unsuback | Pingreq | Pingresp | Disconnect
| Auth.

#[global] Instance eq_dec : EqDecision t.
Proof. solve_decision. Defined.

Definition from_u8 (orig : Z) : t :=
  let packet_type := Z.land orig 0xF0 in
  match packet_type with
  | 0x10 => Connect
  | 0x20 => Connack
  | 0x00 => Reserved
  | 0x30 => Publish
  | 0x40 => Puback
  | 0x50 => Pubrec
  | 0x60 => Pubrel
  | 0x70 => Pubcomp
  | 0x80 => Subscribe
  | 0x90 => Suback
  | 0xA0 => Unsubscribe
  | 0xB0 => Unsuback
  | 0xC0 => Pingreq
  | 0xD0 => Pingresp
  | 0xE0 => Disconnect
  | 0xF0 => Auth
  | _ => Reserved
  end.

Definition into_u8 (value : t) : Z :=
  match value with
  | Connect => 0x10
  | Connack => 0x20
  | Publish => 0x30
  | Puback => 0x40
  | Pubrec => 0x50
  | Pubrel => 0x62
  | Pubcomp => 0x70
  | Subscribe => 0x82
  | Suback => 0x90
  | Unsubscribe => 0xA2
  | Unsuback => 0xB0
  | Pingreq => 0xC0
  | Pingresp => 0xD0
  | Disconnect => 0xE0
  | Auth => 0xF0
  | Reserved => 0x00
  end.
End PacketType.

Module QualityOfService.
Inductive t : Type := QoS0 | QoS1 | QoS2 | INVALID.

#[global] Instance eq_dec : EqDecision t.
Proof. solve_decision. Defined.

Definition from_u8 (orig : Z) : t :=
  match orig with
  | 0 => QoS0
  | 2 => QoS1
  | 4 => QoS2
  | _ => INVALID
  end.

Definition into_u8 (value : t) : Z :=
  match value with
  | QoS0 => 0
  | QoS1 => 2
  | QoS2 => 4
  | INVALID => 3
  end.
End QualityOfService.

Module ReasonCode.
Inductive t : Type :=
| Success | GrantedQoS1 | GrantedQoS2 | DisconnectWithWillMessage
| NoMatchingSubscribers | NoSubscriptionExisted | ContinueAuth
| ReAuthenticate | UnspecifiedError | MalformedPacket | ProtocolError
| ImplementationSpecificError | UnsupportedProtocolVersion
| ClientIdNotValid | BadUserNameOrPassword | NotAuthorized
| ServerUnavailable | ServerBusy | Banned | ServerShuttingDown
| BadAuthMethod | KeepAliveTimeout | SessionTakeOver | TopicFilterInvalid
| TopicNameInvalid | PacketIdentifierInUse | PacketIdentifierNotFound
| ReceiveMaximumExceeded | TopicAliasInvalid | PacketTooLarge
| MessageRateTooHigh | QuotaExceeded | AdministrativeAction
| PayloadFormatInvalid | RetainNotSupported | QoSNotSupported
| UseAnotherServer | ServerMoved | SharedSubscriptionNotSupported
| ConnectionRateExceeded | MaximumConnectTime
| SubscriptionIdentifiersNotSupported | WildcardSubscriptionNotSupported
| TimerNotSupported | BuffError | NetworkError.

#[global] Instance eq_dec : EqDecision t.
Proof. solve_decision. Defined.

Definition into_u8 (value : t) : Z :=
  match value with
  | Success => 0x00
  | GrantedQoS1 => 0x01
  | GrantedQoS2 => 0x02
  | DisconnectWithWillMessage => 0x04
  | NoMatchingSubscribers => 0x10
  | NoSubscriptionExisted => 0x11
  | ContinueAuth => 0x18
  | ReAuthenticate => 0x19
  | UnspecifiedError => 0x80
  | MalformedPacket => 0x81
  | ProtocolError => 0x82
  | ImplementationSpecificError => 0x83
  | UnsupportedProtocolVersion => 0x84
  | ClientIdNotValid => 0x85
  | BadUserNameOrPassword => 0x86
  | NotAuthorized => 0x87
  | ServerUnavailable => 0x88
  | ServerBusy => 0x89
  | Banned => 0x8A
  | ServerShuttingDown => 0x8B
  | BadAuthMethod => 0x8C
  | KeepAliveTimeout => 0x8D
  | SessionTakeOver => 0x8E
  | TopicFilterInvalid => 0x8F
  | TopicNameInvalid => 0x90
  | PacketIdentifierInUse => 0x91
  | PacketIdentifierNotFound => 0x92
  | ReceiveMaximumExceeded => 0x93
  | TopicAliasInvalid => 0x94
  | PacketTooLarge => 0x95
  | MessageRateTooHigh => 0x96
  | QuotaExceeded => 0x97
  | AdministrativeAction => 0x98
  | PayloadFormatInvalid => 0x99
  | RetainNotSupported => 0x9A
  | QoSNotSupported => 0x9B
  | UseAnotherServer => 0x9C
  | ServerMoved => 0x9D
  | SharedSubscriptionNotSupported => 0x9E
  | ConnectionRateExceeded => 0x9F
  | MaximumConnectTime => 0xA0
  | SubscriptionIdentifiersNotSupported => 0xA1
  | WildcardSubscriptionNotSupported => 0xA2
  | TimerNotSupported => 0xFD
  | BuffError => 0xFE
  | NetworkError => 0xFF
  end.

Definition from_u8 (orig : Z) : t :=
  match orig with
  | 0x00 => Success
  | 0x01 => GrantedQoS1
  | 0x02 => GrantedQoS2
  | 0x04 => DisconnectWithWillMessage
  | 0x10 => NoMatchingSubscribers
  | 0x11 => NoSubscriptionExisted
  | 0x18 => ContinueAuth
  | 0x19 => ReAuthenticate
  | 0x80 => UnspecifiedError
  | 0x81 => MalformedPacket
  | 0x82 => ProtocolError
  | 0x83 => ImplementationSpecificError
  | 0x84 => UnsupportedProtocolVersion
  | 0x85 => ClientIdNotValid
  | 0x86 => BadUserNameOrPassword
  | 0x87 => NotAuthorized
  | 0x88 => ServerUnavailable
  | 0x89 => ServerBusy
  | 0x8A => Banned
  | 0x8B => ServerShuttingDown
  | 0x8C => BadAuthMethod
  | 0x8D => KeepAliveTimeout
  | 0x8E => SessionTakeOver
  | 0x8F => TopicFilterInvalid
  | 0x90 => TopicNameInvalid
  | 0x91 => PacketIdentifierInUse
  | 0x92 => PacketIdentifierNotFound
  | 0x93 => ReceiveMaximumExceeded
  | 0x94 => TopicAliasInvalid
  | 0x95 => PacketTooLarge
  | 0x96 => MessageRateTooHigh
  | 0x97 => QuotaExceeded
  | 0x98 => AdministrativeAction
  | 0x99 => PayloadFormatInvalid
  | 0x9A => RetainNotSupported
  | 0x9B => QoSNotSupported
  | 0x9C => UseAnotherServer
  | 0x9D => ServerMoved
  | 0x9E => SharedSubscriptionNotSupported
  | 0xA0 => MaximumConnectTime
  | 0xA1 => SubscriptionIdentifiersNotSupported
  | 0xA2 => WildcardSubscriptionNotSupported
  | 0xFD => TimerNotSupported
  | 0xFE => BuffError
  | _ => NetworkError
  end.

(** [Display] *)
Definition fmt (c : t) : string :=
  match c with
  | Success => "Operation was successful!"
  | GrantedQoS1 => "Granted QoS level 1!"
  | GrantedQoS2 => "Granted QoS level 2!"
  | DisconnectWithWillMessage => "Disconnected with Will message!"
  | NoMatchingSubscribers => "No matching subscribers on broker!"
  | NoSubscriptionExisted => "Subscription not exist!"
  | ContinueAuth => "Broker asks for more AUTH packets!"
  | ReAuthenticate => "Broker requires re-authentication!"
  | UnspecifiedError => "Unspecified error!"
  | MalformedPacket => "Malformed packet sent!"
  | ProtocolError => "Protocol specific error!"
  | ImplementationSpecificError => "Implementation specific error!"
  | UnsupportedProtocolVersion => "Unsupported protocol version!"
  | ClientIdNotValid => "Client sent not valid identification"
  | BadUserNameOrPassword => "Authentication error, username of password not valid!"
  | NotAuthorized => "Client not authorized!"
  | ServerUnavailable => "Server unavailable!"
  | ServerBusy => "Server is busy!"
  | Banned => "Client is banned on broker!"
  | ServerShuttingDown => "Server is shutting down!"
  | BadAuthMethod => "Provided bad authentication method!"
  | KeepAliveTimeout => "Client reached timeout"
  | SessionTakeOver => "Took over session!"
  | TopicFilterInvalid => "Topic filter is not valid!"
  | TopicNameInvalid => "Topic name is not valid!"
  | PacketIdentifierInUse => "Packet identifier is already in use!"
  | PacketIdentifierNotFound => "Packet identifier not found!"
  | ReceiveMaximumExceeded => "Maximum receive amount exceeded!"
  | TopicAliasInvalid => "Invalid topic alias!"
  | PacketTooLarge => "Sent packet was too large!"
  | MessageRateTooHigh => "Message rate is too high!"
  | QuotaExceeded => "Quota exceeded!"
  | AdministrativeAction => "Administrative action!"
  | PayloadFormatInvalid => "Invalid payload format!"
  | RetainNotSupported => "Message retain not supported!"
  | QoSNotSupported => "Used QoS is not supported!"
  | UseAnotherServer => "Use another server!"
  | ServerMoved => "Server moved!"
  | SharedSubscriptionNotSupported => "Shared subscription is not supported"
  | ConnectionRateExceeded => "Connection rate exceeded!"
  | MaximumConnectTime => "Maximum connect time exceeded!"
  | SubscriptionIdentifiersNotSupported => "Subscription identifier not supported!"
  | WildcardSubscriptionNotSupported => "Wildcard subscription not supported!"
  | TimerNotSupported => "Timer implementation is not provided"
  | BuffError => "Error encountered during write / read from packet"
  | NetworkError => "Unknown error!"
  end.
End ReasonCode.

(** ** The conversions *)

Lemma packet_type_of_into t : PacketType.from_u8 (PacketType.into_u8 t) = t.
Proof. by destruct t. Qed.

(** The low nibble does not matter to [from_u8]. *)
Lemma packet_type_high b :
  byte_ok b -> PacketType.from_u8 b = PacketType.from_u8 (b - b mod 16).
Proof.
  intros Hb.
  apply (bool_decide_eq_true_1 _). revert b Hb.
  by apply (byte_forall (fun b =>
    bool_decide (PacketType.from_u8 b = PacketType.from_u8 (b - b mod 16)))).
Qed.

Lemma qos_of_into q :
  QualityOfService.from_u8 (QualityOfService.into_u8 q) = q.
Proof. by destruct q. Qed.

Lemma reason_code_byte c : byte_ok (ReasonCode.into_u8 c).
Proof. unfold byte_ok. by destruct c. Qed.

(** ** Properties *)

(** The codes of the protocol.  The type of a packet and a quality of
    service are read back from the byte they are written as; so is every reason
    code but [ConnectionRateExceeded], whose byte 0x9F is read as
    [NetworkError].  A byte no reason code is written as is read as
    [NetworkError] too. *)
Theorem codes_roundtrip (t : PacketType.t) (q : QualityOfService.t) (c : ReasonCode.t) b :
  PacketType.from_u8 (PacketType.into_u8 t) = t /\
  QualityOfService.from_u8 (QualityOfService.into_u8 q) = q /\
  ReasonCode.from_u8 (ReasonCode.into_u8 c) =
    (if bool_decide (c = ReasonCode.ConnectionRateExceeded) then ReasonCode.NetworkError else c) /\
  (ReasonCode.into_u8 (ReasonCode.from_u8 b) <> b -> ReasonCode.from_u8 b = ReasonCode.NetworkError).
Proof.
  split; [apply packet_type_of_into|split; [apply qos_of_into|split; [by destruct c|]]].
  unfold ReasonCode.from_u8. intros Hb. repeat case_match; done.
Qed.

Lemma codes_roundtrip_witness :
  ReasonCode.from_u8 0x9F = ReasonCode.NetworkError.
Proof.
  apply (codes_roundtrip PacketType.Reserved QualityOfService.QoS0 ReasonCode.Success 0x9F).
  vm_compute. discriminate.
Defined.
