(* ===== verification/Property.v ===== *)
(** MQTT 5 properties: rust-mqtt/src/packet/v5/property.rs, with the two
    property writers of buffer_writer.rs.

    [bytes p] is the wire form of a property.  [encode] appends its payload,
    [write_property] the identifier and the payload; [decode] inverts them for
    every property but the two that carry binary data, whose reader leaves the
    cursor in front of the data. *)
From S2P Require Import Prelude.
From S2P Require Import Utf8.
From S2P Require Import Types.
From S2P Require Import Vbi.
From S2P Require Import BuffReader.
From S2P Require Import BuffWriter.
Import BuffReader(R, reads, runs) BuffWriter(W, writes).

Module Property.
Import BuffReader BuffWriter.

Inductive t : Type :=
| PayloadFormat (u : Z)
| MessageExpiryInterval (u : Z)
| ContentType (u : EncodedString.t)
| ResponseTopic (u : EncodedString.t)
| CorrelationData (u : BinaryData.t)
| SubscriptionIdentifier (u : Z)
| SessionExpiryInterval (u : Z)
| AssignedClientIdentifier (u : EncodedString.t)
| ServerKeepAlive (u : Z)
| AuthenticationMethod (u : EncodedString.t)
| AuthenticationData (u : BinaryData.t)
| RequestProblemInformation (u : Z)
| WillDelayInterval (u : Z)
| RequestResponseInformation (u : Z)
| ResponseInformation (u : EncodedString.t)
| ServerReference (u : EncodedString.t)
| ReasonString (u : EncodedString.t)
| ReceiveMaximum (u : Z)
| TopicAliasMaximum (u : Z)
| TopicAlias (u : Z)
| MaximumQoS (u : Z)
| RetainAvailable (u : Z)
| UserProperty (u : StringPair.t)
| MaximumPacketSize (u : Z)
| WildcardSubscriptionAvailable (u : Z)
| SubscriptionIdentifierAvailable (u : Z)
| SharedSubscriptionAvailable (u : Z)
| Reserved.

Definition connect_property (p : t) : bool :=
  match p with
  | SessionExpiryInterval _ | ReceiveMaximum _ | MaximumPacketSize _
  | TopicAliasMaximum _ | RequestResponseInformation _
  | RequestProblemInformation _ | UserProperty _ | AuthenticationMethod _
  | AuthenticationData _ => true
  | _ => false
  end.

Definition connack_property (p : t) : bool :=
  match p with
  | SessionExpiryInterval _ | ReceiveMaximum _ | MaximumQoS _
  | MaximumPacketSize _ | AssignedClientIdentifier _ | TopicAliasMaximum _
  | ReasonString _ | UserProperty _ | WildcardSubscriptionAvailable _
  | SubscriptionIdentifierAvailable _ | SharedSubscriptionAvailable _
  | ServerKeepAlive _ | ResponseInformation _ | ServerReference _
  | AuthenticationMethod _ | AuthenticationData _ => true
  | _ => false
  end.

Definition publish_property (p : t) : bool :=
  match p with
  | PayloadFormat _ | MessageExpiryInterval _ | TopicAlias _
  | ResponseTopic _ | CorrelationData _ | UserProperty _
  | SubscriptionIdentifier _ | ContentType _ => true
  | _ => false
  end.

Definition puback_property (p : t) : bool :=
  match p with
  | ReasonString _ | UserProperty _ => true
  | _ => false
  end.

Definition pubrec_property (p : t) : bool :=
  match p with
  | ReasonString _ | UserProperty _ => true
  | _ => false
  end.

Definition pubrel_property (p : t) : bool :=
  match p with
  | ReasonString _ | UserProperty _ => true
  | _ => false
  end.

Definition pubcomp_property (p : t) : bool :=
  match p with
  | ReasonString _ | UserProperty _ => true
  | _ => false
  end.

Definition subscribe_property (p : t) : bool :=
  match p with
  | SubscriptionIdentifier _ | UserProperty _ => true
  | _ => false
  end.

Definition suback_property (p : t) : bool :=
  match p with
  | ReasonString _ | UserProperty _ => true
  | _ => false
  end.

Definition unsubscribe_property (p : t) : bool :=
  match p with
  | UserProperty _ => true
  | _ => false
  end.

Definition unsuback_property (p : t) : bool :=
  match p with
  | ReasonString _ | UserProperty _ => true
  | _ => false
  end.

Definition pingreq_property (p : t) : bool := false.

Definition pingresp_property (p : t) : bool := false.

Definition disconnect_property (p : t) : bool :=
  match p with
  | SessionExpiryInterval _ | ReasonString _ | UserProperty _
  | ServerReference _ => true
  | _ => false
  end.

Definition auth_property (p : t) : bool :=
  match p with
  | AuthenticationMethod _ | AuthenticationData _ | ReasonString _
  | UserProperty _ => true
  | _ => false
  end.

Definition encoded_len `{Profile} {E} (p : t) : outcome E Z :=
  match p with
  | PayloadFormat _ => Ok 1
  | MessageExpiryInterval _ => Ok 4
  | ContentType u => EncodedString.encoded_len u
  | ResponseTopic u => EncodedString.encoded_len u
  | CorrelationData u => BinaryData.encoded_len u
  | SubscriptionIdentifier u =>
      v ← unwrap_res (VariableByteIntegerEncoder.encode u);
      n ← VariableByteIntegerEncoder.len v;
      Ok (wrap 16 n)
  | SessionExpiryInterval _ => Ok 4
  | AssignedClientIdentifier u => EncodedString.encoded_len u
  | ServerKeepAlive _ => Ok 2
  | AuthenticationMethod u => EncodedString.encoded_len u
  | AuthenticationData u => BinaryData.encoded_len u
  | RequestProblemInformation _ => Ok 1
  | WillDelayInterval _ => Ok 4
  | RequestResponseInformation _ => Ok 1
  | ResponseInformation u => EncodedString.encoded_len u
  | ServerReference u => EncodedString.encoded_len u
  | ReasonString u => EncodedString.encoded_len u
  | ReceiveMaximum _ => Ok 2
  | TopicAliasMaximum _ => Ok 2
  | TopicAlias _ => Ok 2
  | MaximumQoS _ => Ok 1
  | RetainAvailable _ => Ok 1
  | UserProperty u => StringPair.encoded_len u
  | MaximumPacketSize _ => Ok 4
  | WildcardSubscriptionAvailable _ => Ok 1
  | SubscriptionIdentifierAvailable _ => Ok 1
  | SharedSubscriptionAvailable _ => Ok 1
  | _ => Ok 0
  end.

Definition encode (p : t) : W unit :=
  match p with
  | PayloadFormat u => write_u8 u
  | MessageExpiryInterval u => write_u32 u
  | ContentType u => write_string_ref u
  | ResponseTopic u => write_string_ref u
  | CorrelationData u => write_binary_ref u
  | SubscriptionIdentifier u => write_variable_byte_int u
  | SessionExpiryInterval u => write_u32 u
  | AssignedClientIdentifier u => write_string_ref u
  | ServerKeepAlive u => write_u16 u
  | AuthenticationMethod u => write_string_ref u
  | AuthenticationData u => write_binary_ref u
  | RequestProblemInformation u => write_u8 u
  | WillDelayInterval u => write_u32 u
  | RequestResponseInformation u => write_u8 u
  | ResponseInformation u => write_string_ref u
  | ServerReference u => write_string_ref u
  | ReasonString u => write_string_ref u
  | ReceiveMaximum u => write_u16 u
  | TopicAliasMaximum u => write_u16 u
  | TopicAlias u => write_u16 u
  | MaximumQoS u => write_u8 u
  | RetainAvailable u => write_u8 u
  | UserProperty u => write_string_pair_ref u
  | MaximumPacketSize u => write_u32 u
  | WildcardSubscriptionAvailable u => write_u8 u
  | SubscriptionIdentifierAvailable u => write_u8 u
  | SharedSubscriptionAvailable u => write_u8 u
  | _ => throw PropertyNotFound
  end.

Definition decode `{Profile} : R t :=
  property_identifier ← read_u8;
  match property_identifier with
  | 0x01 => u ← read_u8; mret (PayloadFormat u)
  | 0x02 => u ← read_u32; mret (MessageExpiryInterval u)
  | 0x03 => u ← read_string; mret (ContentType u)
  | 0x08 => u ← read_string; mret (ResponseTopic u)
  | 0x09 => u ← read_binary; mret (CorrelationData u)
  | 0x0B => u ← read_variable_byte_int; mret (SubscriptionIdentifier u)
  | 0x11 => u ← read_u32; mret (SessionExpiryInterval u)
  | 0x12 => u ← read_string; mret (AssignedClientIdentifier u)
  | 0x13 => u ← read_u16; mret (ServerKeepAlive u)
  | 0x15 => u ← read_string; mret (AuthenticationMethod u)
  | 0x16 => u ← read_binary; mret (AuthenticationData u)
  | 0x17 => u ← read_u8; mret (RequestProblemInformation u)
  | 0x18 => u ← read_u32; mret (WillDelayInterval u)
  | 0x19 => u ← read_u8; mret (RequestResponseInformation u)
  | 0x1A => u ← read_string; mret (ResponseInformation u)
  | 0x1C => u ← read_string; mret (ServerReference u)
  | 0x1F => u ← read_string; mret (ReasonString u)
  | 0x21 => u ← read_u16; mret (ReceiveMaximum u)
  | 0x22 => u ← read_u16; mret (TopicAliasMaximum u)
  | 0x23 => u ← read_u16; mret (TopicAlias u)
  | 0x24 => u ← read_u8; mret (MaximumQoS u)
  | 0x25 => u ← read_u8; mret (RetainAvailable u)
  | 0x26 => u ← read_string_pair; mret (UserProperty u)
  | 0x27 => u ← read_u32; mret (MaximumPacketSize u)
  | 0x28 => u ← read_u8; mret (WildcardSubscriptionAvailable u)
  | 0x29 => u ← read_u8; mret (SubscriptionIdentifierAvailable u)
  | 0x2A => u ← read_u8; mret (SharedSubscriptionAvailable u)
  | _ => throw IdNotFound
  end.

(** [u8::from(&property)] *)
Definition id (p : t) : Z :=
  match p with
  | PayloadFormat _ => 0x01
  | MessageExpiryInterval _ => 0x02
  | ContentType _ => 0x03
  | ResponseTopic _ => 0x08
  | CorrelationData _ => 0x09
  | SubscriptionIdentifier _ => 0x0B
  | SessionExpiryInterval _ => 0x11
  | AssignedClientIdentifier _ => 0x12
  | ServerKeepAlive _ => 0x13
  | AuthenticationMethod _ => 0x15
  | AuthenticationData _ => 0x16
  | RequestProblemInformation _ => 0x17
  | WillDelayInterval _ => 0x18
  | RequestResponseInformation _ => 0x19
  | ResponseInformation _ => 0x1A
  | ServerReference _ => 0x1C
  | ReasonString _ => 0x1F
  | ReceiveMaximum _ => 0x21
  | TopicAliasMaximum _ => 0x22
  | TopicAlias _ => 0x23
  | MaximumQoS _ => 0x24
  | RetainAvailable _ => 0x25
  | UserProperty _ => 0x26
  | MaximumPacketSize _ => 0x27
  | WildcardSubscriptionAvailable _ => 0x28
  | SubscriptionIdentifierAvailable _ => 0x29
  | SharedSubscriptionAvailable _ => 0x2A
  | _ => 0x00
  end.

(** [Property::from(u8)] *)
Definition from_u8 (orig : Z) : t := Reserved.

(** ** Specification *)

Definition wf (p : t) : Prop :=
  match p with
  | PayloadFormat u | RequestProblemInformation u
  | RequestResponseInformation u | MaximumQoS u | RetainAvailable u
  | WildcardSubscriptionAvailable u | SubscriptionIdentifierAvailable u
  | SharedSubscriptionAvailable u => byte_ok u
  | MessageExpiryInterval u | SessionExpiryInterval u
  | WillDelayInterval u | MaximumPacketSize u => 0 <= u < 2 ^ 32
  | ContentType u | ResponseTopic u | AssignedClientIdentifier u
  | AuthenticationMethod u | ResponseInformation u | ServerReference u
  | ReasonString u => EncodedString.wf u
  | CorrelationData u | AuthenticationData u => BinaryData.wf u
  | SubscriptionIdentifier u => vbi_ok u
  | ServerKeepAlive u | ReceiveMaximum u | TopicAliasMaximum u
  | TopicAlias u => 0 <= u < 2 ^ 16
  | UserProperty u => StringPair.wf u
  | Reserved => False
  end.

(** The value as it goes on the wire, and the whole property. *)
Definition payload (p : t) : list Z :=
  match p with
  | PayloadFormat u | RequestProblemInformation u
  | RequestResponseInformation u | MaximumQoS u | RetainAvailable u
  | WildcardSubscriptionAvailable u | SubscriptionIdentifierAvailable u
  | SharedSubscriptionAvailable u => [u]
  | MessageExpiryInterval u | SessionExpiryInterval u
  | WillDelayInterval u | MaximumPacketSize u => be_bytes 4 u
  | ContentType u | ResponseTopic u | AssignedClientIdentifier u
  | AuthenticationMethod u | ResponseInformation u | ServerReference u
  | ReasonString u => EncodedString.bytes u
  | CorrelationData u | AuthenticationData u => BinaryData.bytes u
  | SubscriptionIdentifier u => vbi_bytes u
  | ServerKeepAlive u | ReceiveMaximum u | TopicAliasMaximum u
  | TopicAlias u => be_bytes 2 u
  | UserProperty u => StringPair.bytes u
  | Reserved => []
  end.

Definition bytes (p : t) : list Z := id p :: payload p.

Definition binary (p : t) : bool :=
  match p with CorrelationData _ | AuthenticationData _ => true | _ => false end.

Definition list_bytes (ps : list t) : list Z := concat (map bytes ps).
End Property.

(** The property writers of [BuffWriter]. *)
Definition write_property (property : Property.t) : W unit :=
  BuffWriter.write_u8 (Property.id property) ;;;
  Property.encode property.

Fixpoint write_properties (properties : list Property.t) : W unit :=
  match properties with
  | [] => mret tt
  | prop :: properties => write_property prop ;;; write_properties properties
  end.
Import Property.

(** ** Encoding *)

Lemma encode_writes p : wf p -> writes (encode p) (payload p).
Proof. destruct p; cbn [wf encode payload]; intros Hp; try done; auto with writes. Qed.

Lemma write_property_writes p : wf p -> writes (write_property p) (bytes p).
Proof.
  intros Hp. unfold write_property, bytes. apply (writes_bind _ _ [id p]).
  - apply write_u8_writes.
  - by apply encode_writes.
Qed.

Lemma write_properties_writes ps :
  Forall wf ps -> writes (write_properties ps) (list_bytes ps).
Proof.
  induction 1 as [|p ps Hp _ IH]; [apply writes_ret|].
  cbn [write_properties]. apply (writes_bind _ _ (bytes p)); [|done].
  by apply write_property_writes.
Qed.
#[export] Hint Resolve write_property_writes write_properties_writes : writes.

(** The length that the packet encoders add up is the length on the wire. *)
Lemma encoded_len_payload `{Profile} {E} p :
  wf p -> zlen (payload p) < 2 ^ 16 -> encoded_len (E := E) p = Ok (zlen (payload p)).
Proof.
  destruct p; cbn [wf payload encoded_len]; intros Hp Hlen; try done;
    rewrite ?zlen_be_bytes; try done.
  all: try (unfold EncodedString.encoded_len; pose proof (EncodedString_len_range _ Hp);
    rewrite zlen_EncodedString_bytes in * by done; by rewrite checked_ok by lia).
  all: try (unfold BinaryData.encoded_len; pose proof (BinaryData_len_range _ Hp);
    rewrite zlen_BinaryData_bytes in * by done; by rewrite checked_ok by lia).
  - rewrite encode_ok by done. cbn -[VariableByteIntegerEncoder.len].
    unfold pad4. rewrite len_ok by done. cbn.
    pose proof (zlen_vbi_bytes u). by rewrite wrap_small by lia.
  - unfold StringPair.encoded_len, StringPair.bytes in *. destruct Hp as [Hn Hv].
    pose proof (EncodedString_len_range _ Hn). pose proof (EncodedString_len_range _ Hv).
    rewrite zlen_app, !zlen_EncodedString_bytes in * by done.
    unfold EncodedString.encoded_len.
    rewrite checked_ok by lia. cbn. rewrite checked_ok by lia. cbn.
    by rewrite checked_ok by lia.
Qed.

Lemma zlen_bytes p : zlen (bytes p) = 1 + zlen (payload p).
Proof. apply zlen_cons. Qed.

Lemma zlen_bytes_pos p : 1 <= zlen (bytes p).
Proof. rewrite zlen_bytes. pose proof (zlen_nonneg (payload p)). lia. Qed.

(** ** Decoding *)

Lemma decode_reads `{Profile} p :
  wf p -> binary p = false -> reads decode (bytes p) p.
Proof.
  intros Hp Hb. unfold decode, bytes.
  change (id p :: payload p) with ([id p] ++ payload p).
  apply reads_bind with (a := id p); [apply read_u8_reads|].
  destruct p; try done; cbn [id payload wf] in *; eapply reads_map; auto with reads.
Qed.

(** Identifiers are distinct, and decoding answers [IdNotFound] for every
    other byte. *)
Lemma decode_runs `{Profile} (P : panic_reason -> Prop) :
  P PIndex -> runs P 2 decode wf.
Proof.
  intros HP. unfold decode.
  eapply runs_bind with (n2 := 1); [apply read_u8_runs| |lia].
  intros b _.
  assert (Hw : forall {A} n (m : R A) (g : A -> t) (Q : A -> Prop),
    1 <= n -> runs P n m Q -> (forall a, Q a -> wf (g a)) ->
    runs P 1 (u ← m; mret (g u)) wf).
  { intros A n m g Q Hn Hm Hg. eapply runs_weaken; [eapply runs_map; [apply Hm|]|..]; eauto. }
  repeat case_match; try apply runs_throw.
  all: first
    [ eapply Hw; [|apply read_u8_runs|]; done
    | eapply Hw; [|apply read_u16_runs|]; done
    | eapply Hw; [|apply read_u32_runs|]; done
    | eapply Hw; [|apply read_string_runs|]; done
    | eapply Hw; [|apply read_binary_runs|]; done
    | eapply Hw; [|apply read_string_pair_runs|]; done
    | eapply Hw; [|by apply read_variable_byte_int_runs|]; done ].
Qed.

(** The two properties with binary data: the value comes back, the cursor
    stays in front of the data. *)
Lemma decode_binary_at `{Profile} p d r k :
  p = CorrelationData d \/ p = AuthenticationData d ->
  BuffReader.wf r -> wf p -> BuffReader.rest r = bytes p ++ k ->
  decode r = (Ok p, BuffReader.advance 3 r).
Proof.
  intros Hpd Hwf Hp Hr.
  assert (Hb : Property.payload p = BinaryData.bytes d) by (by destruct Hpd as [-> | ->]).
  assert (Hd : BinaryData.wf d) by (by destruct Hpd as [-> | ->]).
  unfold bytes in Hr. rewrite Hb in Hr.
  change (id p :: BinaryData.bytes d) with ([id p] ++ BinaryData.bytes d) in Hr.
  rewrite <- app_assoc in Hr.
  unfold decode. rewrite (bind_ok _ _ _ _ _ (read_u8_reads (id p) r _ Hwf Hr)).
  pose proof (advance_wf _ _ _ Hwf Hr) as Hwf'. pose proof (rest_advance _ _ _ Hwf Hr) as Hr'.
  pose proof (read_binary_at d _ k Hd Hwf' Hr') as Hrd.
  destruct Hpd as [-> | ->]; cbn [id] in *;
    rewrite (bind_ok _ _ _ _ _ Hrd), advance_advance; done.
Qed.

(** ** Wire bytes are bytes *)

Lemma id_byte p : byte_ok (id p).
Proof. unfold byte_ok. by destruct p. Qed.

Lemma Property_bytes_ok p : wf p -> bytes_ok (bytes p).
Proof.
  intros Hp. apply (bytes_ok_app [id p]); [by apply bytes_ok_one, id_byte|].
  destruct p; cbn [wf payload] in *; auto with bytes.
Qed.

Lemma list_bytes_ok ps : Forall wf ps -> bytes_ok (list_bytes ps).
Proof.
  induction 1 as [|p ps Hp _ IH]; [constructor|].
  apply bytes_ok_app; [by apply Property_bytes_ok|done].
Qed.
#[export] Hint Resolve list_bytes_ok : bytes.

(** ** Properties *)

(** The reader over what the writer wrote. *)
Definition written_reader (w : BuffWriter.t) : BuffReader.t :=
  BuffReader.new (BuffWriter.buffer w) (BuffWriter.position w).

Lemma written_reader_rest bs buf n :
  bytes_ok bs ->
  let r := written_reader (BuffWriter.mk (bs ++ buf) (zlen bs) n) in
  BuffReader.wf r /\ BuffReader.rest r = bs ++ [].
Proof.
  intros Hb. pose proof (zlen_nonneg bs). pose proof (zlen_nonneg buf).
  unfold written_reader. cbn [BuffWriter.buffer BuffWriter.position]. split.
  - apply BuffReader_new_wf; [by rewrite ztake_app_len|zlen; lia].
  - rewrite rest_new_app by lia. by rewrite ztake_0 by lia.
Qed.

(** A property written with [write_property] is read back by
    [Property::decode], which stops at its end; for the two properties with
    binary data the value comes back but the reader stops after the identifier
    and the length, in front of the data.  A property that does not fit is
    refused with [InsufficientBufferSize]. *)
Theorem property_roundtrip `{Profile} p buf (Hp : wf p) :
  if zlen (bytes p) <=? zlen buf then
    exists w r, write_property p (BuffWriter.new buf (zlen buf)) = (Ok tt, w) /\
      decode (written_reader w) = (Ok p, r) /\
      BuffReader.position r = if binary p then 3 else BuffWriter.position w
  else exists w,
    write_property p (BuffWriter.new buf (zlen buf)) = (Err InsufficientBufferSize, w).
Proof.
  pose proof (zlen_nonneg buf).
  destruct (writes_new _ _ buf (zlen buf) (write_property_writes p Hp) ltac:(lia)) as [Hok Herr].
  destruct (Z.leb_spec (zlen (bytes p)) (zlen buf)) as [Hle|Hgt]; [|by apply Herr].
  destruct (written_reader_rest (bytes p) (zdrop (zlen (bytes p)) buf) (zlen buf)
    (Property_bytes_ok p Hp)) as [Hwf Hrest].
  specialize (Hok Hle). set (w := BuffWriter.mk _ _ _) in *.
  destruct (binary p) eqn:Hb.
  - assert (exists d, p = CorrelationData d \/ p = AuthenticationData d) as [d Hd]
      by (destruct p; try done; eauto).
    exists w, (BuffReader.advance 3 (written_reader w)). split; [done|split; [|done]].
    by eapply decode_binary_at.
  - exists w, (BuffReader.advance (zlen (bytes p)) (written_reader w)).
    split; [done|split; [|done]]. by apply (decode_reads p Hp Hb _ []).
Qed.

Definition sample_correlation : t := CorrelationData (BinaryData.mk [1; 2; 3; 4] 4).

Lemma property_roundtrip_witness :
  wf sample_correlation /\
  exists w r, write_property sample_correlation (BuffWriter.new (replicate 10 0) 10) = (Ok tt, w) /\
    decode (H := dev_profile) (written_reader w) = (Ok sample_correlation, r) /\
    BuffReader.position r = 3.
Proof.
  assert (H : wf sample_correlation)
    by (repeat split; repeat constructor; unfold byte_ok; cbn; lia).
  split; [exact H|].
  exact (property_roundtrip (H := dev_profile) sample_correlation (replicate 10 0) H).
Defined.
