(* ===== verification/Packet.v ===== *)
(** The [Packet] trait: rust-mqtt/src/packet/v5/mqtt_packet.rs.

    [Packet] is the part of the trait that its default methods call: the
    accessors of the fields every packet shares.  [new], [encode] and [decode]
    differ from packet to packet and are defined with each packet.
    [PacketLaws] states what the default methods rely on; the packets with
    properties satisfy it, the two ping packets do not (their property methods
    do nothing).

    A method that takes [&mut self] and a reader runs on the pair of the
    packet and the cursor.  [decodes] is the contract of such a method on the
    bytes of a well-formed packet, [triple] on arbitrary bytes. *)
From S2P Require Import Prelude.
From S2P Require Import Utf8.
From S2P Require Import Types.
From S2P Require Import Vbi.
From S2P Require Import BuffReader.
From S2P Require Import BuffWriter.
From S2P Require Import Heapless.
From S2P Require Import Codes.
From S2P Require Import Property.
Import BuffReader(R, reads, runs, rest, advance).

Class Packet (P : Type) : Type := {
  set_property_len : Z -> P -> P;
  get_property_len : P -> Z;
  push_to_properties : Property.t -> P -> P;
  property_allowed : P -> Property.t -> bool;
  set_fixed_header : Z -> P -> P;
  set_remaining_len : Z -> P -> P;
}.

Section default_methods.
Context `{Profile} {P : Type} `{Packet P}.

Fixpoint add_properties_loop {E} (properties : list Property.t) (res : Z) : M P E Z :=
  match properties with
  | [] => mret res
  | prop :: properties =>
    self ← gets (fun self => self);
    if property_allowed self prop then
      modify (push_to_properties prop) ;;;
      l ← lift (Property.encoded_len prop);
      res ← lift (res +u32 l);
      res ← lift (res +u32 1);
      add_properties_loop properties res
    else add_properties_loop properties res
  end.

Definition add_properties {E} (properties : list Property.t) : M P E Z :=
  add_properties_loop properties 0.

Fixpoint decode_properties_loop (fuel : nat) (x : Z)
  : M (P * BuffReader.t) BufferError unit :=
  match fuel with
  | O => lift OutOfFuel
  | S fuel =>
    prop ← on_snd Property.decode;
    l ← lift (Property.encoded_len prop);
    x ← lift (x +u32 l);
    x ← lift (x +u32 1);
    on_fst (modify (push_to_properties prop)) ;;;
    n ← gets (fun st => get_property_len st.1);
    if x =? n then mret tt else decode_properties_loop fuel x
  end.

(** Every turn of the loop consumes at least one byte. *)
Definition loop_fuel (r : BuffReader.t) : nat :=
  S (Z.to_nat (BuffReader.len r - BuffReader.position r)).

Definition decode_properties : M (P * BuffReader.t) BufferError unit :=
  value ← on_snd BuffReader.read_variable_byte_int;
  on_fst (modify (set_property_len value)) ;;;
  n ← gets (fun st => get_property_len st.1);
  if negb (n =? 0) then
    fuel ← gets (fun st => loop_fuel st.2);
    decode_properties_loop fuel 0
  else mret tt.

Definition decode_fixed_header : M (P * BuffReader.t) BufferError PacketType.t :=
  first_byte ← on_snd BuffReader.read_u8;
  on_fst (modify (set_fixed_header first_byte)) ;;;
  value ← on_snd BuffReader.read_variable_byte_int;
  on_fst (modify (set_remaining_len value)) ;;;
  mret (PacketType.from_u8 first_byte).
End default_methods.

(** What an implementation of the trait promises to the default methods: the
    property list is a field of its own, bounded by the capacity of its
    vector. *)
Class PacketLaws (P : Type) `{HeaplessVec} `{Packet P} : Type := {
  properties_of : P -> list Property.t;
  with_properties : list Property.t -> P -> P;
  max_properties : Z;
  push_with : forall x p,
    push_to_properties x p = with_properties (push max_properties (properties_of p) x) p;
  properties_with : forall l p, properties_of (with_properties l p) = l;
  with_with : forall l l' p, with_properties l (with_properties l' p) = with_properties l p;
  with_properties_of : forall p, with_properties (properties_of p) p = p;
  get_with_property_len : forall l p,
    get_property_len (with_properties l p) = get_property_len p;
  get_set_property_len : forall v p, get_property_len (set_property_len v p) = v;
  properties_set_property_len : forall v p,
    properties_of (set_property_len v p) = properties_of p;
  allowed_with : forall l p q,
    property_allowed (with_properties l p) q = property_allowed p q;
}.

(** ** Encoders

    [encode] writes into a buffer the caller lends and returns the final
    position of the cursor. *)

Definition run_writer (op : BuffWriter.W unit) (buffer : list Z) (buffer_len : Z)
  : outcome BufferError Z * list Z :=
  let '(o, w) := (op ;;; gets BuffWriter.position) (BuffWriter.new buffer buffer_len) in
  (o, BuffWriter.buffer w).

(** [encodes enc bs]: on a buffer with room for [bs] the encoder writes [bs]
    at its start and returns their number, leaving the rest of the buffer; on
    a shorter one it reports [InsufficientBufferSize]. *)
Definition encodes (enc : list Z -> Z -> outcome BufferError Z * list Z) (bs : list Z) : Prop :=
  forall buffer n, 0 <= n <= zlen buffer ->
  (zlen bs <= n -> enc buffer n = (Ok (zlen bs), bs ++ zdrop (zlen bs) buffer)) /\
  (n < zlen bs -> exists b', enc buffer n = (Err InsufficientBufferSize, b')).

Lemma writes_encodes op bs :
  BuffWriter.writes op bs -> encodes (run_writer op) bs.
Proof.
  intros Hop buffer n Hn. destruct (writes_new op bs buffer n Hop Hn) as [Hok Herr].
  unfold run_writer. split; intros Hf.
  - by rewrite (bind_ok _ _ _ _ _ (Hok Hf)).
  - destruct (Herr Hf) as [w' Hw]. rewrite (bind_err _ _ _ _ _ Hw). by eexists.
Qed.

(** The length prefix every encoder computes for its properties. *)
Lemma writes_vbi_len n (f : Z -> BuffWriter.W unit) bs :
  vbi_ok n -> BuffWriter.writes (f (zlen (vbi_bytes n))) bs ->
  BuffWriter.writes (x ← lift (VariableByteIntegerEncoder.encode n);
    l ← lift (VariableByteIntegerEncoder.len x); f l) bs.
Proof.
  intros Hn Hf. eapply writes_lift; [by apply encode_ok|].
  eapply writes_lift; [by apply len_ok|]. done.
Qed.

Lemma wrap_vbi_len n : wrap 32 (zlen (vbi_bytes n)) = zlen (vbi_bytes n).
Proof. apply wrap_small. pose proof (zlen_vbi_bytes n). lia. Qed.

(** Walk through an encoder: the length computations, then the fields. *)
Ltac encode_sums :=
  repeat (first
    [ match goal with
      | |- BuffWriter.writes (lift (VariableByteIntegerEncoder.encode ?n) ≫= _) _ =>
          pose proof (zlen_vbi_bytes n);
          apply (writes_vbi_len n); [done|cbv beta; rewrite ?wrap_vbi_len]
      end
    | eapply writes_lift;
        [apply checked_ok; unfold vbi_ok, MAX_ENCODABLE in *; lia|cbv beta] ]).
Ltac encode_fields :=
  repeat match goal with
  | |- BuffWriter.writes (_ ≫= _) (_ ++ _) => apply writes_bind; [by eauto with writes|]
  end.

(** ** Decoders on well-formed input

    [leads op p bs op' p']: where the bytes [bs] come next, [op] on the packet
    [p] goes on as [op'] on [p'] behind them.  [decodes op p bs a p']: [op]
    consumes exactly [bs], turns [p] into [p'] and returns [a]. *)

Definition leads {P A} (op : M (P * BuffReader.t) BufferError A) (p : P) (bs : list Z)
    (op' : M (P * BuffReader.t) BufferError A) (p' : P) : Prop :=
  forall r k, BuffReader.wf r -> rest r = bs ++ k ->
  op (p, r) = op' (p', advance (zlen bs) r).

Abbreviation decodes op p bs a p' := (leads op p bs (mret a) p').

Section decodes_rules.
Context {P A B : Type}.
Implicit Types (p : P) (m : M (P * BuffReader.t) BufferError B).

Lemma decodes_ret m p : leads m p [] m p.
Proof. intros r k _ _. by rewrite zlen_nil, advance_0. Qed.

Lemma decodes_bind (m : M (P * BuffReader.t) BufferError A)
    (f : A -> M (P * BuffReader.t) BufferError B) p bs cs a p1 m' p2 :
  decodes m p bs a p1 -> leads (f a) p1 cs m' p2 -> leads (m ≫= f) p (bs ++ cs) m' p2.
Proof.
  intros Hm Hf r k Hwf Hr. rewrite <- app_assoc in Hr.
  rewrite (bind_ok _ _ _ _ _ (Hm r _ Hwf Hr)).
  rewrite (Hf _ k); [|by eapply advance_wf|by apply rest_advance].
  by rewrite advance_advance, zlen_app.
Qed.

Lemma decodes_reader (m : R A) p bs a : reads m bs a -> decodes (on_snd m) p bs a p.
Proof. intros Hm r k Hwf Hr. apply on_snd_ok. by eapply Hm. Qed.

Lemma decodes_read (m : R A) (f : A -> M (P * BuffReader.t) BufferError B) p bs cs a m' p' :
  reads m bs a -> leads (f a) p cs m' p' -> leads (on_snd m ≫= f) p (bs ++ cs) m' p'.
Proof. intros Hm Hf. eapply decodes_bind; [by apply decodes_reader|done]. Qed.

(** Steps that read no byte. *)
Lemma decodes_modify (g : P -> P) m p bs m' p' :
  leads m (g p) bs m' p' -> leads (on_fst (modify g) ;;; m) p bs m' p'.
Proof. intros Hm r k Hwf Hr. exact (Hm r k Hwf Hr). Qed.

Lemma decodes_gets (g : P -> A) (f : A -> M (P * BuffReader.t) BufferError B) p bs m' p' :
  leads (f (g p)) p bs m' p' -> leads (gets (fun st => g st.1) ≫= f) p bs m' p'.
Proof. intros Hm r k Hwf Hr. exact (Hm r k Hwf Hr). Qed.

Lemma decodes_lift (o : outcome BufferError A) a
    (f : A -> M (P * BuffReader.t) BufferError B) p bs m' p' :
  o = Ok a -> leads (f a) p bs m' p' -> leads (lift o ≫= f) p bs m' p'.
Proof. intros -> Hm r k Hwf Hr. exact (Hm r k Hwf Hr). Qed.
End decodes_rules.

(** ** Decoders on any input *)

Definition moved (n : Z) (r r' : BuffReader.t) : Prop :=
  BuffReader.wf r' /\ BuffReader.buffer r' = BuffReader.buffer r
  /\ BuffReader.len r' = BuffReader.len r
  /\ BuffReader.position r + n <= BuffReader.position r'.

(** From a packet in [Pre], [op] ends; on success it has moved the cursor by
    at least [n] and [Post] holds; it may panic only for a reason in [K]. *)
Definition triple {P A} (K : panic_reason -> Prop) (n : Z) (Pre : P -> Prop)
    (op : M (P * BuffReader.t) BufferError A) (Post : A -> P -> Prop) : Prop :=
  forall p r, BuffReader.wf r -> Pre p ->
  match op (p, r) with
  | (Ok a, (p', r')) => moved n r r' /\ Post a p'
  | (Err _, _) => True
  | (Panic x, _) => K x
  | (OutOfFuel, _) => False
  end.

(** The same for a pure step. *)
Definition safe {A} (K : panic_reason -> Prop) (o : outcome BufferError A) (Q : A -> Prop) : Prop :=
  match o with
  | Ok a => Q a
  | Err _ => True
  | Panic x => K x
  | OutOfFuel => False
  end.

Section triple_rules.
Context {P A B : Type} (K : panic_reason -> Prop).

Lemma moved_refl r : BuffReader.wf r -> moved 0 r r.
Proof. intros Hwf. repeat split; try apply Hwf; lia. Qed.

Lemma moved_trans n1 n2 n r1 r2 r3 :
  moved n1 r1 r2 -> moved n2 r2 r3 -> n <= n1 + n2 -> moved n r1 r3.
Proof.
  intros (_ & Hb & Hl & Hp) (Hwf & Hb' & Hl' & Hp') Hn.
  split; [done|]. repeat split; try congruence. lia.
Qed.

Lemma triple_ret {C} (a : C) (Pre : P -> Prop) (Post : C -> P -> Prop) :
  (forall p, Pre p -> Post a p) -> triple K 0 Pre (mret a) Post.
Proof. intros Hp p r Hwf HP. split; [by apply moved_refl|by apply Hp]. Qed.

Lemma triple_throw e n (Pre : P -> Prop) (Post : A -> P -> Prop) :
  triple K n Pre (throw e) Post.
Proof. done. Qed.

Lemma triple_bind (m : M (P * BuffReader.t) BufferError A)
    (f : A -> M (P * BuffReader.t) BufferError B) n1 n2 n Pre Mid Post :
  triple K n1 Pre m Mid -> (forall a, triple K n2 (Mid a) (f a) Post) ->
  n <= n1 + n2 -> triple K n Pre (m ≫= f) Post.
Proof.
  intros Hm Hf Hn p r Hwf HP. specialize (Hm p r Hwf HP). unfold mbind, M_bind.
  destruct (m (p, r)) as [[a|e|x|] [p1 r1]]; try done.
  destruct Hm as [Hmv HM]. specialize (Hf a p1 r1 (proj1 Hmv) HM).
  destruct (f a (p1, r1)) as [[b|e|x|] [p2 r2]]; try done.
  destruct Hf as [Hmv2 HQ]. split; [by eapply moved_trans|done].
Qed.

Lemma triple_read (m : R A) (f : A -> M (P * BuffReader.t) BufferError B) n1 n2 n
    (Q : A -> Prop) Pre Post :
  runs K n1 m Q -> (forall a, Q a -> triple K n2 Pre (f a) Post) ->
  n <= n1 + n2 -> triple K n Pre (on_snd m ≫= f) Post.
Proof.
  intros Hm Hf Hn p r Hwf HP. specialize (Hm r Hwf). unfold mbind, M_bind, on_snd; cbn.
  destruct (m r) as [[a|e|x|] r1]; try done.
  destruct Hm as (Hwf1 & Hb & Hl & Hp & HQ).
  specialize (Hf a HQ p r1 Hwf1 HP).
  destruct (f a (p, r1)) as [[b|e|x|] [p2 r2]]; try done.
  destruct Hf as [Hmv2 HQ2]. split; [|done].
  by apply (moved_trans n1 n2 _ _ r1).
Qed.

Lemma triple_modify (g : P -> P) (m : M (P * BuffReader.t) BufferError B) n
    (Pre Mid : P -> Prop) Post :
  (forall p, Pre p -> Mid (g p)) -> triple K n Mid m Post ->
  triple K n Pre (on_fst (modify g) ;;; m) Post.
Proof. intros Hg Hm p r Hwf HP. exact (Hm (g p) r Hwf (Hg p HP)). Qed.

Lemma triple_gets (g : P -> A) (f : A -> M (P * BuffReader.t) BufferError B) n Pre Post :
  (forall a, triple K n (fun p => Pre p /\ g p = a) (f a) Post) ->
  triple K n Pre (gets (fun st => g st.1) ≫= f) Post.
Proof. intros Hf p r Hwf HP. exact (Hf (g p) p r Hwf (conj HP eq_refl)). Qed.

Lemma triple_lift (o : outcome BufferError A)
    (f : A -> M (P * BuffReader.t) BufferError B) n (Q : A -> Prop) Pre Post :
  safe K o Q -> (forall a, Q a -> triple K n Pre (f a) Post) ->
  triple K n Pre (lift o ≫= f) Post.
Proof.
  intros Ho Hf p r Hwf HP. destruct o as [a|e|x|]; try done.
  exact (Hf a Ho p r Hwf HP).
Qed.

Lemma triple_weaken (m : M (P * BuffReader.t) BufferError A) n n'
    (Pre Pre' : P -> Prop) (Post Post' : A -> P -> Prop) :
  triple K n Pre m Post -> n' <= n -> (forall p, Pre' p -> Pre p) ->
  (forall a p, Post a p -> Post' a p) -> triple K n' Pre' m Post'.
Proof.
  intros Hm Hn Hp Hq p r Hwf HP. specialize (Hm p r Hwf (Hp p HP)).
  destruct (m (p, r)) as [[a|e|x|] [p1 r1]]; try done.
  destruct Hm as [(H1 & H2 & H3 & H4) HQ]. split; [|by apply Hq].
  repeat split; try apply H1; try done; lia.
Qed.

Lemma triple_panics (K' : panic_reason -> Prop) (m : M (P * BuffReader.t) BufferError A)
    n Pre Post :
  (forall x, K x -> K' x) -> triple K n Pre m Post -> triple K' n Pre m Post.
Proof.
  intros HK Hm p r Hwf HP. specialize (Hm p r Hwf HP).
  destruct (m (p, r)) as [[a|e|x|] [p1 r1]]; auto.
Qed.
End triple_rules.

(** The panics a decoder can meet: the index of an unterminated variable byte
    integer, and a length field that overflows its 16 bits. *)
Definition decode_panics (x : panic_reason) : Prop := x = PIndex \/ x = POverflow.

(** The properties that [decode] gives back: no binary data, and a length that
    fits the 16 bits of [encoded_len]. *)
Definition plain (x : Property.t) : Prop :=
  Property.binary x = false /\ zlen (Property.payload x) < 2 ^ 16.

(** What [wf] asks of the properties of a packet. *)
Definition properties_wf (MAX_PROPERTIES property_len : Z) (ps : list Property.t) : Prop :=
  Forall Property.wf ps /\ zlen ps <= MAX_PROPERTIES /\ vbi_ok property_len
  /\ property_len = zlen (Property.list_bytes ps).

Lemma properties_wf_wf MAX n ps : properties_wf MAX n ps -> Forall Property.wf ps.
Proof. by intros (H & _). Qed.
#[export] Hint Resolve properties_wf_wf : writes bytes.

Lemma properties_wf_len MAX n ps : properties_wf MAX n ps -> vbi_ok n.
Proof. by intros (_ & _ & H & _). Qed.
#[export] Hint Resolve properties_wf_len : writes bytes.

Lemma zlen_properties MAX n ps : properties_wf MAX n ps -> zlen (Property.list_bytes ps) = n.
Proof. by intros (_ & _ & _ & ->). Qed.

(** A type byte, the length of the body, and the body. *)
Definition framed (bs : list Z) : Prop :=
  exists h x body, bs = h :: vbi_bytes x ++ body /\ vbi_ok x /\ zlen body = x /\ bytes_ok bs.

Lemma framed_bytes bs : framed bs -> bytes_ok bs.
Proof. by intros (h & x & body & _ & _ & _ & H). Qed.

Section default_lemmas.
Context `{Profile} {P : Type} `{PacketLaws P}.

(** *** The fixed header *)

Lemma decode_fixed_header_decodes p b n :
  vbi_ok n ->
  decodes (decode_fixed_header (P := P)) p (b :: vbi_bytes n) (PacketType.from_u8 b)
    (set_remaining_len n (set_fixed_header b p)).
Proof.
  intros Hn. unfold decode_fixed_header.
  change (b :: vbi_bytes n) with ([b] ++ vbi_bytes n).
  eapply decodes_read; [apply read_u8_reads|]. apply decodes_modify.
  rewrite <- (app_nil_r (vbi_bytes n)).
  eapply decodes_read; [by apply read_variable_byte_int_reads|].
  apply decodes_modify. apply decodes_ret.
Qed.

(** [n] and [b] are the remaining length and the first byte. *)
Lemma decode_fixed_header_triple (K : panic_reason -> Prop) (Pre : P -> Prop) :
  K PIndex ->
  triple K 2 Pre (decode_fixed_header (P := P)) (fun t p =>
    exists b n q, byte_ok b /\ vbi_ok n /\ Pre q /\ t = PacketType.from_u8 b /\
      p = set_remaining_len n (set_fixed_header b q)).
Proof.
  intros HK. unfold decode_fixed_header.
  eapply triple_read with (n2 := 1); [apply read_u8_runs| |lia]. intros b Hb.
  eapply triple_modify with
    (Mid := fun p => exists q, Pre q /\ p = set_fixed_header b q); [by eauto|].
  eapply triple_read with (n2 := 0); [by apply read_variable_byte_int_runs| |lia].
  intros n Hn. eapply triple_modify with
    (Mid := fun p => exists q, Pre q /\ p = set_remaining_len n (set_fixed_header b q)).
  - intros p (q & Hq & ->). eauto.
  - apply triple_ret. intros p (q & Hq & ->). exists b, n, q. auto.
Qed.

(** *** Properties *)

Definition push_properties (ps : list Property.t) (p : P) : P :=
  fold_left (fun p x => push_to_properties x p) ps p.

Lemma get_push_property_len x p :
  get_property_len (push_to_properties x p) = get_property_len p.
Proof. by rewrite push_with, get_with_property_len. Qed.

Lemma allowed_push x p q :
  property_allowed (push_to_properties x p) q = property_allowed p q.
Proof. by rewrite push_with, allowed_with. Qed.

Lemma push_properties_with ps p :
  push_properties ps p =
  with_properties (fold_left (push max_properties) ps (properties_of p)) p.
Proof.
  revert p. induction ps as [|x ps IH]; intros p; cbn.
  - by rewrite with_properties_of.
  - change (fold_left _ ps (push_to_properties x p))
      with (push_properties ps (push_to_properties x p)).
    by rewrite IH, push_with, properties_with, with_with.
Qed.

(** Into an empty vector with room for all of them. *)
Lemma push_properties_room ps p :
  properties_of p = [] -> zlen ps <= max_properties ->
  push_properties ps p = with_properties ps p.
Proof.
  intros Hp Hl. rewrite push_properties_with, Hp, push_all.
  - by rewrite zlen_nil, Z.sub_0_r, ztake_all by lia.
  - rewrite zlen_nil. pose proof (zlen_nonneg ps). lia.
Qed.

Lemma zlen_list_bytes ps : zlen ps <= zlen (Property.list_bytes ps).
Proof.
  induction ps as [|x ps IH]; [done|].
  unfold Property.list_bytes in *; cbn [map concat]. zlen.
  pose proof (zlen_bytes_pos x). lia.
Qed.

Lemma decode_properties_loop_decodes ps fuel p x :
  ps <> [] -> Forall Property.wf ps -> Forall plain ps -> (length ps <= fuel)%nat -> 0 <= x ->
  x + zlen (Property.list_bytes ps) = get_property_len p ->
  get_property_len p < 2 ^ 32 ->
  decodes (decode_properties_loop (P := P) fuel x) p (Property.list_bytes ps) tt
    (push_properties ps p).
Proof.
  intros Hne Hwfs Hps. revert fuel p x Hne.
  induction Hps as [|q ps (Hb & Hl) Hps IH]; [done|].
  inversion Hwfs as [|? ? Hq Hqs]; subst. specialize (IH Hqs).
  intros fuel p x _ Hfuel Hx Hsum Hmax.
  destruct fuel as [|fuel]; [cbn in Hfuel; lia|]. cbn [decode_properties_loop].
  unfold Property.list_bytes in *; cbn [map concat] in *.
  rewrite zlen_app in Hsum. pose proof (zlen_bytes q) as Hzq.
  pose proof (zlen_nonneg (Property.payload q)).
  pose proof (zlen_nonneg (concat (map Property.bytes ps))).
  eapply decodes_read; [by apply decode_reads|].
  eapply decodes_lift; [by apply encoded_len_payload|].
  eapply decodes_lift; [apply checked_ok; lia|].
  eapply decodes_lift; [apply checked_ok; lia|].
  apply decodes_modify. apply (decodes_gets (P := P) get_property_len).
  rewrite get_push_property_len.
  destruct (Z.eqb_spec (x + zlen (Property.payload q) + 1) (get_property_len p)) as [E|E].
  - assert (ps = []) as ->.
    { destruct ps as [|q' ps]; [done|]. cbn [map concat] in *.
      rewrite zlen_app in *. pose proof (zlen_bytes_pos q').
      pose proof (zlen_nonneg (concat (map Property.bytes ps))). lia. }
    apply decodes_ret.
  - apply IH; try done; rewrite ?get_push_property_len; try lia.
    + intros ->. cbn in Hsum. rewrite zlen_nil in Hsum. lia.
    + cbn in Hfuel. lia.
Qed.

Lemma decode_properties_decodes ps p :
  Forall Property.wf ps -> Forall plain ps -> vbi_ok (zlen (Property.list_bytes ps)) ->
  decodes (decode_properties (P := P)) p
    (vbi_bytes (zlen (Property.list_bytes ps)) ++ Property.list_bytes ps) tt
    (push_properties ps (set_property_len (zlen (Property.list_bytes ps)) p)).
Proof.
  intros Hwfs Hps Hn. unfold decode_properties.
  eapply decodes_read; [by apply read_variable_byte_int_reads|].
  apply decodes_modify. apply (decodes_gets (P := P) get_property_len).
  rewrite get_set_property_len.
  destruct (Z.eqb_spec (zlen (Property.list_bytes ps)) 0) as [E|E]; cbn [negb].
  - pose proof (zlen_list_bytes ps). destruct ps as [|q ps].
    + apply decodes_ret.
    + pose proof (zlen_nonneg ps). zlen. lia.
  - intros r k Hwf Hr. unfold mbind at 1, M_bind at 1, gets. cbn [snd].
    pose proof (rest_app_len _ _ _ Hwf Hr). pose proof (zlen_list_bytes ps).
    unfold vbi_ok, MAX_ENCODABLE in Hn.
    apply (decode_properties_loop_decodes ps) with (k := k); try done;
      rewrite ?get_set_property_len; try lia.
    + intros ->. done.
    + unfold loop_fuel. unfold zlen in *. lia.
Qed.

(** The form the packets use: their property vector starts empty. *)
Lemma decode_properties_room ps p :
  Forall Property.wf ps -> Forall plain ps -> vbi_ok (zlen (Property.list_bytes ps)) ->
  properties_of p = [] -> zlen ps <= max_properties ->
  decodes (decode_properties (P := P)) p
    (vbi_bytes (zlen (Property.list_bytes ps)) ++ Property.list_bytes ps) tt
    (with_properties ps (set_property_len (zlen (Property.list_bytes ps)) p)).
Proof.
  intros Hwfs Hps Hn Hp Hl. rewrite <- push_properties_room; [|by rewrite properties_set_property_len|done].
  by apply decode_properties_decodes.
Qed.

Lemma decode_properties_self n ps p self :
  properties_wf max_properties n ps -> Forall plain ps -> properties_of p = [] ->
  with_properties ps (set_property_len n p) = self ->
  decodes (decode_properties (P := P)) p (vbi_bytes n ++ Property.list_bytes ps) tt self.
Proof.
  intros (Hwfs & Hl & Hn & ->) Hps Hp <-. by apply decode_properties_room.
Qed.

(** *** Every input *)

Lemma checked_safe (K : panic_reason -> Prop) w z :
  K POverflow -> 0 <= w -> safe K (checked w z) (fun n => 0 <= n).
Proof.
  intros HK Hw. unfold checked, in_width.
  destruct ((0 <=? z) && (z <? 2 ^ w)) eqn:E; cbn.
  - apply andb_prop in E as [E _]. by apply Z.leb_le in E.
  - destruct overflow_checks; cbn; [done|]. by apply wrap_range.
Qed.

Lemma encoded_len_safe x :
  Property.wf x -> safe decode_panics (Property.encoded_len x) (fun n => 0 <= n).
Proof.
  pose proof (fun w z => checked_safe decode_panics w z (or_intror eq_refl)) as Hc.
  destruct x; cbn [Property.wf Property.encoded_len]; intros Hx; try done;
    try (by apply Hc).
  - rewrite encode_ok by done. unfold pad4. cbn -[VariableByteIntegerEncoder.len].
    rewrite len_ok by done. cbn. by apply wrap_range.
  - unfold StringPair.encoded_len, EncodedString.encoded_len.
    pose proof (Hc 16 (EncodedString.len (StringPair.name u) + 2) ltac:(done)).
    destruct (checked 16 (EncodedString.len (StringPair.name u) + 2)); cbn; try done.
    pose proof (Hc 16 (EncodedString.len (StringPair.value u) + 2) ltac:(done)).
    destruct (checked 16 (EncodedString.len (StringPair.value u) + 2)); cbn; try done.
    by apply Hc.
Qed.

(** What follows a lifted step, on a given state. *)
Lemma lift_bind_cases {A B S} (o : outcome BufferError A) (f : A -> M S BufferError B) s
    (K : panic_reason -> Prop) (Q : A -> Prop) (R : outcome BufferError B * S -> Prop) :
  safe K o Q -> (forall a, Q a -> R (f a s)) -> (forall e, R (Err e, s)) ->
  (forall x, K x -> R (Panic x, s)) -> R ((lift o ≫= f) s).
Proof.
  intros Ho Hf He Hp. destruct o; cbn in *; [by apply Hf|apply He|by apply Hp|done].
Qed.

Section any_input.
Context (I : P -> Prop).
Hypothesis HI_push : forall x p, Property.wf x -> I p -> I (push_to_properties x p).
Hypothesis HI_set : forall v p, I p -> I (set_property_len v p).

Definition loop_post (r : BuffReader.t)
    (res : outcome BufferError unit * (P * BuffReader.t)) : Prop :=
  match res with
  | (Ok _, (p', r')) => moved 0 r r' /\ I p'
  | (Err _, _) => True
  | (Panic x, _) => decode_panics x
  | (OutOfFuel, _) => False
  end.

(** The loop ends: the fuel exceeds the number of bytes left. *)
Lemma decode_properties_loop_ends fuel x p r :
  BuffReader.wf r -> I p ->
  BuffReader.len r - BuffReader.position r < Z.of_nat fuel ->
  loop_post r (decode_properties_loop fuel x (p, r)).
Proof.
  revert x p r. induction fuel as [|fuel IH]; intros x p r Hwf HIp Hf.
  { destruct Hwf. lia. }
  cbn [decode_properties_loop].
  pose proof (decode_runs decode_panics (or_introl eq_refl) r Hwf) as Hd.
  unfold mbind at 1, M_bind at 1, on_snd; cbn [fst snd].
  destruct (Property.decode r) as [[q|e|y|] r1]; try done.
  destruct Hd as (Hwf1 & Hb1 & Hl1 & Hp1 & Hq).
  apply lift_bind_cases with (K := decode_panics) (Q := fun n => 0 <= n);
    [by apply encoded_len_safe| |done|done]. intros l Hl.
  apply lift_bind_cases with (K := decode_panics) (Q := fun n => 0 <= n);
    [by apply checked_safe; [right|]| |done|done]. intros x1 Hx1.
  apply lift_bind_cases with (K := decode_panics) (Q := fun n => 0 <= n);
    [by apply checked_safe; [right|]| |done|done]. intros x2 Hx2.
  unfold mbind, M_bind, on_fst, modify, gets; cbn [fst snd].
  destruct (x2 =? _).
  - cbn. split; [|by apply HI_push]. unfold moved. repeat split; try apply Hwf1; auto; lia.
  - specialize (IH x2 (push_to_properties q p) r1 Hwf1 (HI_push _ _ Hq HIp) ltac:(lia)).
    unfold loop_post in *.
    destruct (decode_properties_loop fuel x2 _) as [[u|e|y|] [p2 r2]]; try done.
    destruct IH as [Hmv HI2]. split; [|done].
    apply (moved_trans 2 0 0 r r1); [|done|lia].
    unfold moved. repeat split; try apply Hwf1; auto; lia.
Qed.

Lemma decode_properties_triple :
  triple decode_panics 1 I (decode_properties (P := P)) (fun _ p => I p).
Proof.
  unfold decode_properties.
  eapply triple_read with (n2 := 0);
    [by apply read_variable_byte_int_runs; left| |lia]. intros v Hv.
  eapply triple_modify; [by apply HI_set|]. apply (triple_gets _ get_property_len).
  intros n. destruct (n =? 0); cbn [negb].
  - apply triple_ret. by intros p [? _].
  - intros p r Hwf [HIp _]. unfold mbind, M_bind, gets. cbn [snd].
    pose proof (decode_properties_loop_ends (loop_fuel r) 0 p r Hwf HIp) as Hl.
    apply Hl. unfold loop_fuel. destruct Hwf. lia.
Qed.
End any_input.

(** *** [add_properties] keeps the allowed properties, in order *)

Lemma add_properties_loop_ok {E} ps p res :
  Forall (fun x => Property.wf x /\ zlen (Property.payload x) < 2 ^ 16) ps ->
  let allowed := List.filter (property_allowed p) ps in
  0 <= res -> res + zlen (Property.list_bytes allowed) < 2 ^ 32 ->
  add_properties_loop (E := E) ps res p =
  (Ok (res + zlen (Property.list_bytes allowed)), push_properties allowed p).
Proof.
  intros Hps. revert p res.
  induction Hps as [|q ps [Hq Hl] Hps IH]; intros p res allowed Hres Hmax.
  { cbn. rewrite zlen_nil. repeat f_equal. unfold mret, M_ret. repeat f_equal. lia. }
  cbn [add_properties_loop]. unfold mbind at 1, M_bind at 1, gets.
  subst allowed. cbn [List.filter] in *. destruct (property_allowed p q) eqn:Ea.
  - unfold Property.list_bytes in *; cbn [map concat] in *.
    rewrite zlen_app, zlen_bytes in *.
    set (rest := List.filter (property_allowed p) ps) in *.
    pose proof (zlen_nonneg (Property.payload q)).
    pose proof (zlen_nonneg (concat (map Property.bytes rest))).
    erewrite bind_ok by reflexivity.
    erewrite bind_ok by (unfold lift; by rewrite encoded_len_payload).
    erewrite bind_ok by (unfold lift; by rewrite checked_ok by lia).
    erewrite bind_ok by (unfold lift; by rewrite checked_ok by lia).
    assert (Hfilter : List.filter (property_allowed (push_to_properties q p)) ps = rest)
      by (apply List.filter_ext; intros x; by rewrite allowed_push).
    rewrite IH by (rewrite ?Hfilter; lia). rewrite Hfilter.
    f_equal. f_equal. lia.
  - by apply IH.
Qed.
End default_lemmas.

(** ** A decoder that ends on every input

    It returns, reports an error, or panics for a reason of [decode_panics]. *)
Definition ends {P A} (op : M (P * BuffReader.t) BufferError A) : Prop :=
  triple decode_panics 0 (fun _ => True) op (fun _ _ => True).

Section ends_rules.
Context {P A B : Type}.

Lemma ends_ret (a : A) : ends (P := P) (mret a).
Proof. by apply triple_ret. Qed.

Lemma ends_throw e : ends (P := P) (A := A) (throw e).
Proof. done. Qed.

Lemma ends_read (m : R A) (f : A -> M (P * BuffReader.t) BufferError B) n (Q : A -> Prop) :
  0 <= n -> runs decode_panics n m Q -> (forall a, Q a -> ends (f a)) ->
  ends (on_snd m ≫= f).
Proof. intros Hn Hm Hf. eapply triple_read; [done|exact Hf|lia]. Qed.

Lemma ends_modify (g : P -> P) (m : M (P * BuffReader.t) BufferError B) :
  ends m -> ends (on_fst (modify g) ;;; m).
Proof. intros Hm. by eapply triple_modify; [|exact Hm]. Qed.

Lemma ends_gets (g : P * BuffReader.t -> A) (f : A -> M (P * BuffReader.t) BufferError B) :
  (forall a, ends (f a)) -> ends (gets g ≫= f).
Proof. intros Hf p r Hwf HP. exact (Hf (g (p, r)) p r Hwf HP). Qed.

Lemma ends_bind (m : M (P * BuffReader.t) BufferError A)
    (f : A -> M (P * BuffReader.t) BufferError B) :
  ends m -> (forall a, ends (f a)) -> ends (m ≫= f).
Proof. intros Hm Hf. eapply triple_bind; [exact Hm|exact Hf|lia]. Qed.
End ends_rules.

Lemma ends_fixed_header `{Profile} {P} `{Packet P} : ends (decode_fixed_header (P := P)).
Proof.
  eapply triple_weaken;
    [by apply (decode_fixed_header_triple _ (fun _ => True) (or_introl eq_refl))|lia|done|done].
Qed.

Lemma ends_properties `{Profile} {P} `{Packet P} : ends (decode_properties (P := P)).
Proof.
  eapply triple_weaken;
    [by apply (decode_properties_triple (fun _ => True))|lia|done|done].
Qed.
Create HintDb ends.
#[export] Hint Resolve ends_ret ends_throw ends_fixed_header ends_properties : ends.

(** Walk through a decoder. *)
Ltac ends_step :=
  match goal with
  | |- ends (on_snd _ ≫= _) => eapply ends_read; [|by eauto with runs|intros]; [lia|]
  | |- ends (on_fst (modify _) ≫= _) => apply ends_modify
  | |- ends (gets _ ≫= _) => apply ends_gets; intros
  | |- ends (_ ≫= _) => apply ends_bind; [|intros]
  | |- ends _ => first [solve [auto with ends]|case_match]
  end.

(** ** Round trips

    [roundtrips enc dec new bs p]: on a buffer with room the encoder writes
    [bs] at its start and returns their number, and the decoder turns a [new]
    packet into [p] from them, whatever follows, and stops at their end; on a
    shorter buffer the encoder reports [InsufficientBufferSize]. *)
Definition roundtrips {P} (enc : list Z -> Z -> outcome BufferError Z * list Z)
    (dec : M (P * BuffReader.t) BufferError unit) (new : P) (bs : list Z) (p : P) : Prop :=
  forall buf n, 0 <= n <= zlen buf ->
  (zlen bs <= n -> exists buf' r,
     enc buf n = (Ok (zlen bs), bs ++ buf') /\ zlen (bs ++ buf') = zlen buf /\
     dec (new, BuffReader.new (bs ++ buf') (zlen bs)) = (Ok tt, (p, r)) /\
     BuffReader.position r = zlen bs) /\
  (n < zlen bs -> exists buf', enc buf n = (Err InsufficientBufferSize, buf')).

Lemma encode_decode_roundtrips {P} enc (dec : M (P * BuffReader.t) BufferError unit) new bs p :
  encodes enc bs -> decodes dec new bs tt p -> bytes_ok bs -> roundtrips enc dec new bs p.
Proof.
  intros Henc Hdec Hb buf n Hn. destruct (Henc buf n Hn) as [Hok Herr].
  split; [|exact Herr]. intros Hfit. pose proof (zlen_nonneg bs).
  exists (zdrop (zlen bs) buf), (advance (zlen bs) (BuffReader.new (bs ++ zdrop (zlen bs) buf) (zlen bs))).
  assert (Hl : zlen (bs ++ zdrop (zlen bs) buf) = zlen buf) by (zlen; rewrite zlen_drop by lia; lia).
  split; [by apply Hok|split; [done|split; [|done]]].
  rewrite (Hdec _ []); [done| |].
  - apply BuffReader_new_wf; [by rewrite ztake_app_len|lia].
  - rewrite rest_new_app by lia. by rewrite ztake_0 by lia.
Qed.

(** ** Properties *)

(** A property list the witnesses use. *)
Definition sample_reason : Property.t :=
  Property.ReasonString (EncodedString.mk [110; 111] 2).

Lemma sample_properties_wf : properties_wf 4 5 [sample_reason].
Proof.
  split; [|split; [done|split; [done|done]]].
  constructor; [|constructor]. repeat split; repeat constructor; unfold byte_ok; cbn; lia.
Qed.

Lemma sample_properties_plain : Forall plain [sample_reason].
Proof. by repeat constructor. Qed.

(** C25: [write_properties] behind the length prefix, then
    [decode_properties]: a list of properties none of which is binary data
    (Correlation Data, Authentication Data) or longer than 65535 bytes comes
    back, in order, in any packet whose property vector is empty and has room,
    and the reader stops at its end. *)
Theorem properties_roundtrip `{Profile} {P} `{PacketLaws P} ps (p : P) buf
  (Hps : properties_wf max_properties (zlen (Property.list_bytes ps)) ps)
  (Hplain : Forall plain ps) (Hempty : properties_of p = []) :
  let total := zlen (Property.list_bytes ps) in
  zlen (vbi_bytes total) + total <= zlen buf ->
  exists w r,
    (BuffWriter.write_variable_byte_int total ;;; write_properties ps)
      (BuffWriter.new buf (zlen buf)) = (Ok tt, w) /\
    decode_properties (p, written_reader w) =
      (Ok tt, (with_properties ps (set_property_len total p), r)) /\
    BuffReader.position r = BuffWriter.position w.
Proof.
  intros total Hfit. pose proof (zlen_nonneg buf).
  assert (Hw : BuffWriter.writes (BuffWriter.write_variable_byte_int total ;;; write_properties ps)
    (vbi_bytes total ++ Property.list_bytes ps)).
  { apply writes_bind; [|by eauto with writes].
    apply write_variable_byte_int_writes. by eauto with writes. }
  destruct (writes_new _ _ buf (zlen buf) Hw ltac:(lia)) as [Hok _].
  specialize (Hok ltac:(zlen; lia)). set (w := BuffWriter.mk _ _ _) in Hok.
  destruct (written_reader_rest (vbi_bytes total ++ Property.list_bytes ps)
    (zdrop (zlen (vbi_bytes total ++ Property.list_bytes ps)) buf) (zlen buf)) as [Hwf Hrest].
  { assert (vbi_ok total) by by eauto with writes. by bytes. }
  fold w in Hwf, Hrest.
  exists w, (advance (zlen (vbi_bytes total ++ Property.list_bytes ps)) (written_reader w)).
  split; [done|split; [|done]].
  by apply (decode_properties_self total ps p _ Hps Hplain Hempty eq_refl (written_reader w) []).
Qed.

(** On any bytes and any packet, [decode_properties] ends: it returns,
    reports an error, or panics for an unterminated variable byte integer or a
    16-bit length that overflows.  The loop's fuel, the number of bytes left
    and one, is never used up. *)
Theorem decode_properties_total `{Profile} {P} `{Packet P} (p : P) buf n
  (Hbytes : bytes_ok buf) (Hn : 0 <= n <= zlen buf) :
  match (decode_properties (p, BuffReader.new buf n)).1 with
  | Ok _ | Err _ => True
  | Panic x => x = PIndex \/ x = POverflow
  | OutOfFuel => False
  end.
Proof.
  assert (Hwf : BuffReader.wf (BuffReader.new buf n)).
  { apply BuffReader_new_wf; [by apply Forall_take|done]. }
  pose proof (ends_properties p _ Hwf I) as He.
  destruct (decode_properties (p, BuffReader.new buf n)) as [[u|e|x|] [p' r']]; done.
Qed.

(** The vector of a packet holds well-formed properties, no more than its
    capacity. *)
Definition typed_properties {P} `{PacketLaws P} (p : P) : Prop :=
  Forall Property.wf (properties_of p) /\ zlen (properties_of p) <= max_properties.

(** C27: what [decode_properties] makes of any bytes is of the right type: if it
    returns, every property of the packet has a field of its width, a valid UTF-8
    string or bytes whose length field is their length, the vector is within
    its capacity, and the reader has moved forward within its buffer, which is
    as it was. *)
Theorem decode_properties_typed `{Profile} {P} `{PacketLaws P} (p p' : P) r r'
  (Hwf : BuffReader.wf r) (Hp : typed_properties p)
  (Hok : decode_properties (p, r) = (Ok tt, (p', r'))) :
  typed_properties p' /\ BuffReader.wf r' /\
  BuffReader.buffer r' = BuffReader.buffer r /\ BuffReader.len r' = BuffReader.len r /\
  BuffReader.position r < BuffReader.position r' <= BuffReader.len r.
Proof.
  assert (Hpush : forall x (q : P), Property.wf x -> typed_properties q ->
    typed_properties (push_to_properties x q)).
  { intros x q Hx [Hq Hl]. unfold typed_properties. rewrite push_with, properties_with.
    split; [|by apply zlen_push].
    destruct (Z.lt_ge_cases (zlen (properties_of q)) max_properties);
      [rewrite push_room by done; apply Forall_app; by repeat constructor|by rewrite push_full]. }
  assert (Hset : forall v (q : P), typed_properties q -> typed_properties (set_property_len v q)).
  { intros v q. unfold typed_properties. by rewrite properties_set_property_len. }
  pose proof (decode_properties_triple typed_properties Hpush Hset p r Hwf Hp) as Ht.
  rewrite Hok in Ht. destruct Ht as [(Hwf' & Hb & Hl & Hpos) Hp'].
  pose proof Hwf' as ((_ & Hpl) & _).
  split; [done|split; [done|split; [done|split; [done|lia]]]].
Qed.
