(* ===== verification/Acks.v ===== *)
(** The four acknowledgements of PUBLISH: puback_packet.rs, pubrec_packet.rs,
    pubrel_packet.rs and pubcomp_packet.rs of rust-mqtt/src/packet/v5.

    A packet's record carries the capacity of its property vector as a phantom
    parameter, as the const generic of the source does.  [bytes p] is its wire
    form and [wf p] says its fields are in range and its lengths are those of
    its contents. *)
From S2P Require Import Prelude.
From S2P Require Import Utf8.
From S2P Require Import Types.
From S2P Require Import Vbi.
From S2P Require Import BuffReader.
From S2P Require Import BuffWriter.
From S2P Require Import Heapless.
From S2P Require Import Codes.
From S2P Require Import Property.
From S2P Require Import Packet.
Import BuffWriter(writes, write_u8, write_u16, write_variable_byte_int).
Import VariableByteIntegerEncoder(encode, len).

Module PubackPacket.
Record t {MAX_PROPERTIES : Z} : Type := mk {
  fixed_header : Z;
  remain_len : Z;
  packet_identifier : Z;
  reason_code : Z;
  property_len : Z;
  properties : list Property.t
}.
Arguments t MAX_PROPERTIES : clear implicits.
Arguments mk {MAX_PROPERTIES}.

Section packet.
Context `{Profile} `{HeaplessVec} {MAX_PROPERTIES : Z}.

Definition new : t MAX_PROPERTIES :=
  mk (PacketType.into_u8 PacketType.Puback) 0 0 0 0 [].

#[global] Instance packet : Packet (t MAX_PROPERTIES) := {|
  set_property_len value self := mk (fixed_header self) (remain_len self)
      (packet_identifier self) (reason_code self) value (properties self);
  get_property_len := property_len;
  push_to_properties property self := mk (fixed_header self) (remain_len self)
      (packet_identifier self) (reason_code self) (property_len self)
      (push MAX_PROPERTIES (properties self) property);
  property_allowed self property := Property.puback_property property;
  set_fixed_header header self := mk header (remain_len self)
      (packet_identifier self) (reason_code self) (property_len self)
      (properties self);
  set_remaining_len remaining_len' self := mk (fixed_header self) remaining_len'
      (packet_identifier self) (reason_code self) (property_len self)
      (properties self)
|}.

#[global] #[refine] Instance packet_laws : PacketLaws (t MAX_PROPERTIES) := {|
  properties_of := properties;
  with_properties l self := mk (fixed_header self) (remain_len self)
      (packet_identifier self) (reason_code self) (property_len self) l;
  max_properties := MAX_PROPERTIES
|}.
Proof. all: by intros; repeat match goal with p : t _ |- _ => destruct p end. Defined.

Definition set_packet_identifier (v : Z) (self : t MAX_PROPERTIES) : t MAX_PROPERTIES :=
    mk (fixed_header self) (remain_len self) v (reason_code self)
    (property_len self) (properties self).
Definition set_reason_code (v : Z) (self : t MAX_PROPERTIES) : t MAX_PROPERTIES :=
    mk (fixed_header self) (remain_len self) (packet_identifier self) v
    (property_len self) (properties self).

Definition encode (self : t MAX_PROPERTIES) (buffer : list Z) (buffer_len : Z)
  : outcome BufferError Z * list Z :=
  run_writer (
    property_len_enc ← lift (encode (property_len self));
    property_len_len ← lift (len property_len_enc);
    rm_ln ← lift (property_len self +u32 wrap 32 property_len_len);
    rm_ln ← lift (rm_ln +u32 3);
    write_u8 (fixed_header self) ;;;
    write_variable_byte_int rm_ln ;;;
    write_u16 (packet_identifier self) ;;;
    write_u8 (reason_code self) ;;;
    write_variable_byte_int (property_len self) ;;;
    write_properties (properties self)) buffer buffer_len.

Definition decode : M (t MAX_PROPERTIES * BuffReader.t) BufferError unit :=
  x ← decode_fixed_header;
  if bool_decide (x ≠ PacketType.Puback) then throw PacketTypeMismatch
  else
    v ← on_snd BuffReader.read_u16;
    on_fst (modify (set_packet_identifier v)) ;;;
    n ← gets (fun st => remain_len st.1);
    (if negb (n =? 2) then
       v ← on_snd BuffReader.read_u8;
       on_fst (modify (set_reason_code v)) ;;;
       mret tt
     else mret tt) ;;;
    n ← gets (fun st => remain_len st.1);
    if n <? 4 then on_fst (modify (set_property_len 0)) ;;; mret tt
    else decode_properties.

(** *** Specification *)

Definition rem_len (self : t MAX_PROPERTIES) : Z :=
  property_len self + zlen (vbi_bytes (property_len self)) + 3.

Definition wf (self : t MAX_PROPERTIES) : Prop :=
  byte_ok (fixed_header self)
  /\ PacketType.from_u8 (fixed_header self) = PacketType.Puback
  /\ 0 <= packet_identifier self < 2 ^ 16 /\ byte_ok (reason_code self)
  /\ vbi_ok (rem_len self)
  /\ properties_wf MAX_PROPERTIES (property_len self) (properties self).

Definition bytes (self : t MAX_PROPERTIES) : list Z :=
  [fixed_header self] ++ vbi_bytes (rem_len self)
  ++ be_bytes 2 (packet_identifier self) ++ [reason_code self]
  ++ vbi_bytes (property_len self) ++ Property.list_bytes (properties self).

Lemma puback_bytes_framed self : wf self -> framed (bytes self).
Proof.
  intros (Hh & Ht & Hi & Hr & Hrl & Hps). unfold bytes.
  eexists _, (rem_len self), _. split; [reflexivity|split; [done|split]].
  - unfold rem_len. zlen. rewrite (zlen_properties _ _ _ Hps). lia.
  - by bytes.
Qed.

Lemma puback_encode_bytes self : wf self -> encodes (encode self) (bytes self).
Proof.
  intros (Hh & Ht & Hi & Hr & Hrl & Hps). pose proof (properties_wf_len _ _ _ Hps).
  unfold rem_len in Hrl.
  apply writes_encodes. encode_sums. unfold bytes, rem_len. encode_fields.
  eauto with writes.
Qed.

Lemma puback_decode_bytes self :
  wf self -> Forall plain (properties self) ->
  decodes decode new (bytes self) tt (set_remaining_len (rem_len self) self).
Proof.
  intros (Hh & Ht & Hi & Hr & Hrl & Hps) Hpl.
  unfold decode, bytes.
  change ([fixed_header self] ++ vbi_bytes (rem_len self) ++ ?l)
    with ((fixed_header self :: vbi_bytes (rem_len self)) ++ l).
  eapply decodes_bind; [by apply decode_fixed_header_decodes|].
  rewrite Ht, bool_decide_eq_false_2 by auto.
  eapply decodes_read; [by auto with reads|]. apply decodes_modify.
  apply (decodes_gets (P := t MAX_PROPERTIES) remain_len). cbn [remain_len].
  unfold rem_len in Hrl. pose proof (zlen_vbi_bytes (property_len self)).
  pose proof (proj1 (properties_wf_len _ _ _ Hps)).
  set (q := set_packet_identifier _ _).
  assert (Hq : remain_len q = rem_len self) by done. rewrite Hq.
  rewrite (proj2 (Z.eqb_neq _ _)) by (unfold rem_len; lia). cbn [negb].
  eapply decodes_bind with (a := tt) (bs := [_]).
  { rewrite <- (app_nil_r [_]). eapply decodes_read; [by auto with reads|].
    apply decodes_modify. apply decodes_ret. }
  apply (decodes_gets (P := t MAX_PROPERTIES) remain_len).
  rewrite (proj2 (Z.ltb_ge _ _)) by (subst q; cbn; unfold rem_len; lia).
  apply decode_properties_self; [done..|]. subst q. destruct self; cbn in *. by f_equal.
Qed.

Lemma puback_decode_ends : ends decode.
Proof. unfold decode. repeat ends_step. Qed.
End packet.
End PubackPacket.

Module PubrecPacket.
Record t {MAX_PROPERTIES : Z} : Type := mk {
  fixed_header : Z;
  remain_len : Z;
  packet_identifier : Z;
  reason_code : Z;
  property_len : Z;
  properties : list Property.t
}.
Arguments t MAX_PROPERTIES : clear implicits.
Arguments mk {MAX_PROPERTIES}.

Section packet.
Context `{Profile} `{HeaplessVec} {MAX_PROPERTIES : Z}.

Definition new : t MAX_PROPERTIES :=
  mk (PacketType.into_u8 PacketType.Pubrec) 0 0 0 0 [].

#[global] Instance packet : Packet (t MAX_PROPERTIES) := {|
  set_property_len value self := mk (fixed_header self) (remain_len self)
      (packet_identifier self) (reason_code self) value (properties self);
  get_property_len := property_len;
  push_to_properties property self := mk (fixed_header self) (remain_len self)
      (packet_identifier self) (reason_code self) (property_len self)
      (push MAX_PROPERTIES (properties self) property);
  property_allowed self property := Property.pubrec_property property;
  set_fixed_header header self := mk header (remain_len self)
      (packet_identifier self) (reason_code self) (property_len self)
      (properties self);
  set_remaining_len remaining_len' self := mk (fixed_header self) remaining_len'
      (packet_identifier self) (reason_code self) (property_len self)
      (properties self)
|}.

#[global] #[refine] Instance packet_laws : PacketLaws (t MAX_PROPERTIES) := {|
  properties_of := properties;
  with_properties l self := mk (fixed_header self) (remain_len self)
      (packet_identifier self) (reason_code self) (property_len self) l;
  max_properties := MAX_PROPERTIES
|}.
Proof. all: by intros; repeat match goal with p : t _ |- _ => destruct p end. Defined.

Definition set_packet_identifier (v : Z) (self : t MAX_PROPERTIES) : t MAX_PROPERTIES :=
    mk (fixed_header self) (remain_len self) v (reason_code self)
    (property_len self) (properties self).
Definition set_reason_code (v : Z) (self : t MAX_PROPERTIES) : t MAX_PROPERTIES :=
    mk (fixed_header self) (remain_len self) (packet_identifier self) v
    (property_len self) (properties self).

Definition encode (self : t MAX_PROPERTIES) (buffer : list Z) (buffer_len : Z)
  : outcome BufferError Z * list Z :=
  run_writer (
    property_len_enc ← lift (encode (property_len self));
    property_len_len ← lift (len property_len_enc);
    rm_ln ← lift (property_len self +u32 wrap 32 property_len_len);
    rm_ln ← lift (rm_ln +u32 3);
    write_u8 (fixed_header self) ;;;
    write_variable_byte_int rm_ln ;;;
    write_u16 (packet_identifier self) ;;;
    write_u8 (reason_code self) ;;;
    write_variable_byte_int (property_len self) ;;;
    write_properties (properties self)) buffer buffer_len.

Definition decode : M (t MAX_PROPERTIES * BuffReader.t) BufferError unit :=
  x ← decode_fixed_header;
  if bool_decide (x ≠ PacketType.Pubrec) then throw PacketTypeMismatch
  else
    v ← on_snd BuffReader.read_u16;
    on_fst (modify (set_packet_identifier v)) ;;;
    v ← on_snd BuffReader.read_u8;
    on_fst (modify (set_reason_code v)) ;;;
    decode_properties.

(** *** Specification *)

Definition rem_len (self : t MAX_PROPERTIES) : Z :=
  property_len self + zlen (vbi_bytes (property_len self)) + 3.

Definition wf (self : t MAX_PROPERTIES) : Prop :=
  byte_ok (fixed_header self)
  /\ PacketType.from_u8 (fixed_header self) = PacketType.Pubrec
  /\ 0 <= packet_identifier self < 2 ^ 16 /\ byte_ok (reason_code self)
  /\ vbi_ok (rem_len self)
  /\ properties_wf MAX_PROPERTIES (property_len self) (properties self).

Definition bytes (self : t MAX_PROPERTIES) : list Z :=
  [fixed_header self] ++ vbi_bytes (rem_len self)
  ++ be_bytes 2 (packet_identifier self) ++ [reason_code self]
  ++ vbi_bytes (property_len self) ++ Property.list_bytes (properties self).

Lemma pubrec_bytes_framed self : wf self -> framed (bytes self).
Proof.
  intros (Hh & Ht & Hi & Hr & Hrl & Hps). unfold bytes.
  eexists _, (rem_len self), _. split; [reflexivity|split; [done|split]].
  - unfold rem_len. zlen. rewrite (zlen_properties _ _ _ Hps). lia.
  - by bytes.
Qed.

Lemma pubrec_encode_bytes self : wf self -> encodes (encode self) (bytes self).
Proof.
  intros (Hh & Ht & Hi & Hr & Hrl & Hps). pose proof (properties_wf_len _ _ _ Hps).
  unfold rem_len in Hrl.
  apply writes_encodes. encode_sums. unfold bytes, rem_len. encode_fields.
  eauto with writes.
Qed.

Lemma pubrec_decode_bytes self :
  wf self -> Forall plain (properties self) ->
  decodes decode new (bytes self) tt (set_remaining_len (rem_len self) self).
Proof.
  intros (Hh & Ht & Hi & Hr & Hrl & Hps) Hpl.
  unfold decode, bytes.
  change ([fixed_header self] ++ vbi_bytes (rem_len self) ++ ?l)
    with ((fixed_header self :: vbi_bytes (rem_len self)) ++ l).
  eapply decodes_bind; [by apply decode_fixed_header_decodes|].
  rewrite Ht, bool_decide_eq_false_2 by auto.
  eapply decodes_read; [by auto with reads|]. apply decodes_modify.
  eapply decodes_read; [by auto with reads|]. apply decodes_modify.
  apply decode_properties_self; [done..|]. destruct self; cbn in *. by f_equal.
Qed.

Lemma pubrec_decode_ends : ends decode.
Proof. unfold decode. repeat ends_step. Qed.
End packet.
End PubrecPacket.

Module PubrelPacket.
Record t {MAX_PROPERTIES : Z} : Type := mk {
  fixed_header : Z;
  remain_len : Z;
  packet_identifier : Z;
  reason_code : Z;
  property_len : Z;
  properties : list Property.t
}.
Arguments t MAX_PROPERTIES : clear implicits.
Arguments mk {MAX_PROPERTIES}.

Section packet.
Context `{Profile} `{HeaplessVec} {MAX_PROPERTIES : Z}.

Definition new : t MAX_PROPERTIES :=
  mk 0 0 0 0 0 [].

#[global] Instance packet : Packet (t MAX_PROPERTIES) := {|
  set_property_len value self := mk (fixed_header self) (remain_len self)
      (packet_identifier self) (reason_code self) value (properties self);
  get_property_len := property_len;
  push_to_properties property self := mk (fixed_header self) (remain_len self)
      (packet_identifier self) (reason_code self) (property_len self)
      (push MAX_PROPERTIES (properties self) property);
  property_allowed self property := Property.pubrel_property property;
  set_fixed_header header self := mk header (remain_len self)
      (packet_identifier self) (reason_code self) (property_len self)
      (properties self);
  set_remaining_len remaining_len' self := mk (fixed_header self) remaining_len'
      (packet_identifier self) (reason_code self) (property_len self)
      (properties self)
|}.

#[global] #[refine] Instance packet_laws : PacketLaws (t MAX_PROPERTIES) := {|
  properties_of := properties;
  with_properties l self := mk (fixed_header self) (remain_len self)
      (packet_identifier self) (reason_code self) (property_len self) l;
  max_properties := MAX_PROPERTIES
|}.
Proof. all: by intros; repeat match goal with p : t _ |- _ => destruct p end. Defined.

Definition set_packet_identifier (v : Z) (self : t MAX_PROPERTIES) : t MAX_PROPERTIES :=
    mk (fixed_header self) (remain_len self) v (reason_code self)
    (property_len self) (properties self).
Definition set_reason_code (v : Z) (self : t MAX_PROPERTIES) : t MAX_PROPERTIES :=
    mk (fixed_header self) (remain_len self) (packet_identifier self) v
    (property_len self) (properties self).

Definition encode (self : t MAX_PROPERTIES) (buffer : list Z) (buffer_len : Z)
  : outcome BufferError Z * list Z :=
  run_writer (
    property_len_enc ← lift (encode (property_len self));
    property_len_len ← lift (len property_len_enc);
    rm_ln ← lift (property_len self +u32 wrap 32 property_len_len);
    rm_ln ← lift (rm_ln +u32 3);
    write_u8 (fixed_header self) ;;;
    write_variable_byte_int rm_ln ;;;
    write_u16 (packet_identifier self) ;;;
    write_u8 (reason_code self) ;;;
    write_variable_byte_int (property_len self) ;;;
    write_properties (properties self)) buffer buffer_len.

Definition decode : M (t MAX_PROPERTIES * BuffReader.t) BufferError unit :=
  x ← decode_fixed_header;
  if bool_decide (x ≠ PacketType.Pubrel) then throw PacketTypeMismatch
  else
    v ← on_snd BuffReader.read_u16;
    on_fst (modify (set_packet_identifier v)) ;;;
    v ← on_snd BuffReader.read_u8;
    on_fst (modify (set_reason_code v)) ;;;
    decode_properties.

(** *** Specification *)

Definition rem_len (self : t MAX_PROPERTIES) : Z :=
  property_len self + zlen (vbi_bytes (property_len self)) + 3.

Definition wf (self : t MAX_PROPERTIES) : Prop :=
  byte_ok (fixed_header self)
  /\ PacketType.from_u8 (fixed_header self) = PacketType.Pubrel
  /\ 0 <= packet_identifier self < 2 ^ 16 /\ byte_ok (reason_code self)
  /\ vbi_ok (rem_len self)
  /\ properties_wf MAX_PROPERTIES (property_len self) (properties self).

Definition bytes (self : t MAX_PROPERTIES) : list Z :=
  [fixed_header self] ++ vbi_bytes (rem_len self)
  ++ be_bytes 2 (packet_identifier self) ++ [reason_code self]
  ++ vbi_bytes (property_len self) ++ Property.list_bytes (properties self).

Lemma pubrel_bytes_framed self : wf self -> framed (bytes self).
Proof.
  intros (Hh & Ht & Hi & Hr & Hrl & Hps). unfold bytes.
  eexists _, (rem_len self), _. split; [reflexivity|split; [done|split]].
  - unfold rem_len. zlen. rewrite (zlen_properties _ _ _ Hps). lia.
  - by bytes.
Qed.

Lemma pubrel_encode_bytes self : wf self -> encodes (encode self) (bytes self).
Proof.
  intros (Hh & Ht & Hi & Hr & Hrl & Hps). pose proof (properties_wf_len _ _ _ Hps).
  unfold rem_len in Hrl.
  apply writes_encodes. encode_sums. unfold bytes, rem_len. encode_fields.
  eauto with writes.
Qed.

Lemma pubrel_decode_bytes self :
  wf self -> Forall plain (properties self) ->
  decodes decode new (bytes self) tt (set_remaining_len (rem_len self) self).
Proof.
  intros (Hh & Ht & Hi & Hr & Hrl & Hps) Hpl.
  unfold decode, bytes.
  change ([fixed_header self] ++ vbi_bytes (rem_len self) ++ ?l)
    with ((fixed_header self :: vbi_bytes (rem_len self)) ++ l).
  eapply decodes_bind; [by apply decode_fixed_header_decodes|].
  rewrite Ht, bool_decide_eq_false_2 by auto.
  eapply decodes_read; [by auto with reads|]. apply decodes_modify.
  eapply decodes_read; [by auto with reads|]. apply decodes_modify.
  apply decode_properties_self; [done..|]. destruct self; cbn in *. by f_equal.
Qed.

Lemma pubrel_decode_ends : ends decode.
Proof. unfold decode. repeat ends_step. Qed.
End packet.
End PubrelPacket.

Module PubcompPacket.
Record t {MAX_PROPERTIES : Z} : Type := mk {
  fixed_header : Z;
  remain_len : Z;
  packet_identifier : Z;
  reason_code : Z;
  property_len : Z;
  properties : list Property.t
}.
Arguments t MAX_PROPERTIES : clear implicits.
Arguments mk {MAX_PROPERTIES}.

Section packet.
Context `{Profile} `{HeaplessVec} {MAX_PROPERTIES : Z}.

Definition new : t MAX_PROPERTIES :=
  mk (PacketType.into_u8 PacketType.Pubcomp) 0 0 0 0 [].

#[global] Instance packet : Packet (t MAX_PROPERTIES) := {|
  set_property_len value self := mk (fixed_header self) (remain_len self)
      (packet_identifier self) (reason_code self) value (properties self);
  get_property_len := property_len;
  push_to_properties property self := mk (fixed_header self) (remain_len self)
      (packet_identifier self) (reason_code self) (property_len self)
      (push MAX_PROPERTIES (properties self) property);
  property_allowed self property := Property.pubcomp_property property;
  set_fixed_header header self := mk header (remain_len self)
      (packet_identifier self) (reason_code self) (property_len self)
      (properties self);
  set_remaining_len remaining_len' self := mk (fixed_header self) remaining_len'
      (packet_identifier self) (reason_code self) (property_len self)
      (properties self)
|}.

#[global] #[refine] Instance packet_laws : PacketLaws (t MAX_PROPERTIES) := {|
  properties_of := properties;
  with_properties l self := mk (fixed_header self) (remain_len self)
      (packet_identifier self) (reason_code self) (property_len self) l;
  max_properties := MAX_PROPERTIES
|}.
Proof. all: by intros; repeat match goal with p : t _ |- _ => destruct p end. Defined.

Definition set_packet_identifier (v : Z) (self : t MAX_PROPERTIES) : t MAX_PROPERTIES :=
    mk (fixed_header self) (remain_len self) v (reason_code self)
    (property_len self) (properties self).
Definition set_reason_code (v : Z) (self : t MAX_PROPERTIES) : t MAX_PROPERTIES :=
    mk (fixed_header self) (remain_len self) (packet_identifier self) v
    (property_len self) (properties self).

Definition encode (self : t MAX_PROPERTIES) (buffer : list Z) (buffer_len : Z)
  : outcome BufferError Z * list Z :=
  run_writer (
    property_len_enc ← lift (encode (property_len self));
    property_len_len ← lift (len property_len_enc);
    rm_ln ← lift (property_len self +u32 wrap 32 property_len_len);
    rm_ln ← lift (rm_ln +u32 3);
    write_u8 (fixed_header self) ;;;
    write_variable_byte_int rm_ln ;;;
    write_u16 (packet_identifier self) ;;;
    write_u8 (reason_code self) ;;;
    write_variable_byte_int (property_len self) ;;;
    write_properties (properties self)) buffer buffer_len.

Definition decode : M (t MAX_PROPERTIES * BuffReader.t) BufferError unit :=
  x ← decode_fixed_header;
  if bool_decide (x ≠ PacketType.Pubcomp) then throw PacketTypeMismatch
  else
    v ← on_snd BuffReader.read_u16;
    on_fst (modify (set_packet_identifier v)) ;;;
    v ← on_snd BuffReader.read_u8;
    on_fst (modify (set_reason_code v)) ;;;
    decode_properties.

(** *** Specification *)

Definition rem_len (self : t MAX_PROPERTIES) : Z :=
  property_len self + zlen (vbi_bytes (property_len self)) + 3.

Definition wf (self : t MAX_PROPERTIES) : Prop :=
  byte_ok (fixed_header self)
  /\ PacketType.from_u8 (fixed_header self) = PacketType.Pubcomp
  /\ 0 <= packet_identifier self < 2 ^ 16 /\ byte_ok (reason_code self)
  /\ vbi_ok (rem_len self)
  /\ properties_wf MAX_PROPERTIES (property_len self) (properties self).

Definition bytes (self : t MAX_PROPERTIES) : list Z :=
  [fixed_header self] ++ vbi_bytes (rem_len self)
  ++ be_bytes 2 (packet_identifier self) ++ [reason_code self]
  ++ vbi_bytes (property_len self) ++ Property.list_bytes (properties self).

Lemma pubcomp_bytes_framed self : wf self -> framed (bytes self).
Proof.
  intros (Hh & Ht & Hi & Hr & Hrl & Hps). unfold bytes.
  eexists _, (rem_len self), _. split; [reflexivity|split; [done|split]].
  - unfold rem_len. zlen. rewrite (zlen_properties _ _ _ Hps). lia.
  - by bytes.
Qed.

Lemma pubcomp_encode_bytes self : wf self -> encodes (encode self) (bytes self).
Proof.
  intros (Hh & Ht & Hi & Hr & Hrl & Hps). pose proof (properties_wf_len _ _ _ Hps).
  unfold rem_len in Hrl.
  apply writes_encodes. encode_sums. unfold bytes, rem_len. encode_fields.
  eauto with writes.
Qed.

Lemma pubcomp_decode_bytes self :
  wf self -> Forall plain (properties self) ->
  decodes decode new (bytes self) tt (set_remaining_len (rem_len self) self).
Proof.
  intros (Hh & Ht & Hi & Hr & Hrl & Hps) Hpl.
  unfold decode, bytes.
  change ([fixed_header self] ++ vbi_bytes (rem_len self) ++ ?l)
    with ((fixed_header self :: vbi_bytes (rem_len self)) ++ l).
  eapply decodes_bind; [by apply decode_fixed_header_decodes|].
  rewrite Ht, bool_decide_eq_false_2 by auto.
  eapply decodes_read; [by auto with reads|]. apply decodes_modify.
  eapply decodes_read; [by auto with reads|]. apply decodes_modify.
  apply decode_properties_self; [done..|]. destruct self; cbn in *. by f_equal.
Qed.

Lemma pubcomp_decode_ends : ends decode.
Proof. unfold decode. repeat ends_step. Qed.
End packet.
End PubcompPacket.

(** ** Properties *)

(** PUBACK: encoding then decoding gives the packet back, with its
    remaining length filled in. *)
Theorem puback_roundtrip `{Profile} `{HeaplessVec} MAX (p : PubackPacket.t MAX)
  (Hp : PubackPacket.wf p) (Hpl : Forall plain (PubackPacket.properties p)) :
  roundtrips (PubackPacket.encode p) PubackPacket.decode PubackPacket.new
    (PubackPacket.bytes p) (set_remaining_len (PubackPacket.rem_len p) p).
Proof.
  apply encode_decode_roundtrips; [by apply PubackPacket.puback_encode_bytes|
    by apply PubackPacket.puback_decode_bytes|by apply framed_bytes, PubackPacket.puback_bytes_framed].
Qed.

Definition sample_puback : PubackPacket.t 4 :=
  PubackPacket.mk 0x40 0 777 0x10 5 [sample_reason].

Lemma puback_roundtrip_witness :
  roundtrips (PubackPacket.encode (H := dev_profile) sample_puback)
    (PubackPacket.decode (H := dev_profile) (H0 := list_vec) (MAX_PROPERTIES := 4))
    PubackPacket.new
    (PubackPacket.bytes sample_puback)
    (PubackPacket.mk 0x40 9 777 0x10 5 [sample_reason]).
Proof.
  apply (puback_roundtrip (H := dev_profile) (H0 := list_vec) 4 sample_puback).
  - repeat split; try (unfold byte_ok; cbn; lia); apply sample_properties_wf.
  - apply sample_properties_plain.
Defined.

Lemma properties_roundtrip_witness :
  let buf := replicate 6 0 in
  let total := zlen (Property.list_bytes [sample_reason]) in
  let p := PubackPacket.new (MAX_PROPERTIES := 4) in
  zlen (vbi_bytes total) + total <= zlen buf /\
  exists w r,
    (BuffWriter.write_variable_byte_int total ;;; write_properties [sample_reason])
      (BuffWriter.new buf (zlen buf)) = (Ok tt, w) /\
    decode_properties (H := dev_profile) (H0 := PubackPacket.packet (H0 := list_vec))
      (p, written_reader w) =
      (Ok tt, (with_properties (PacketLaws := PubackPacket.packet_laws (H0 := list_vec))
         [sample_reason] (set_property_len (Packet := PubackPacket.packet (H0 := list_vec)) total p), r)) /\
    BuffReader.position r = BuffWriter.position w.
Proof.
  intros buf total p. assert (Hfit : zlen (vbi_bytes total) + total <= zlen buf).
  { vm_compute. discriminate. }
  split; [exact Hfit|].
  apply (properties_roundtrip (H := dev_profile) (H2 := PubackPacket.packet_laws (H0 := list_vec))
    [sample_reason] p buf); [apply sample_properties_wf|apply sample_properties_plain|done|exact Hfit].
Defined.

Lemma decode_properties_total_witness :
  match (decode_properties (H := dev_profile) (P := PubackPacket.t 4)
      (H0 := PubackPacket.packet (H0 := list_vec))
      (PubackPacket.new, BuffReader.new [255; 255; 255; 255; 0] 5)).1 with
  | Ok _ | Err _ => True
  | Panic x => x = PIndex \/ x = POverflow
  | OutOfFuel => False
  end.
Proof.
  apply (decode_properties_total (H := dev_profile) (P := PubackPacket.t 4)).
  - repeat constructor; unfold byte_ok; lia.
  - unfold zlen; cbn; lia.
Defined.

(** PUBREC, PUBREL and PUBCOMP: encoding then decoding gives the packet
    back, with its remaining length filled in. *)
Theorem pubrec_pubrel_pubcomp_roundtrip `{Profile} `{HeaplessVec} MAX
  (p : PubrecPacket.t MAX) (q : PubrelPacket.t MAX) (s : PubcompPacket.t MAX)
  (Hp : PubrecPacket.wf p) (Hq : PubrelPacket.wf q) (Hs : PubcompPacket.wf s)
  (Hpl : Forall plain (PubrecPacket.properties p))
  (Hql : Forall plain (PubrelPacket.properties q))
  (Hsl : Forall plain (PubcompPacket.properties s)) :
  roundtrips (PubrecPacket.encode p) PubrecPacket.decode PubrecPacket.new
    (PubrecPacket.bytes p) (set_remaining_len (PubrecPacket.rem_len p) p) /\
  roundtrips (PubrelPacket.encode q) PubrelPacket.decode PubrelPacket.new
    (PubrelPacket.bytes q) (set_remaining_len (PubrelPacket.rem_len q) q) /\
  roundtrips (PubcompPacket.encode s) PubcompPacket.decode PubcompPacket.new
    (PubcompPacket.bytes s) (set_remaining_len (PubcompPacket.rem_len s) s).
Proof.
  split; [|split]; apply encode_decode_roundtrips.
  - by apply PubrecPacket.pubrec_encode_bytes.
  - by apply PubrecPacket.pubrec_decode_bytes.
  - by apply framed_bytes, PubrecPacket.pubrec_bytes_framed.
  - by apply PubrelPacket.pubrel_encode_bytes.
  - by apply PubrelPacket.pubrel_decode_bytes.
  - by apply framed_bytes, PubrelPacket.pubrel_bytes_framed.
  - by apply PubcompPacket.pubcomp_encode_bytes.
  - by apply PubcompPacket.pubcomp_decode_bytes.
  - by apply framed_bytes, PubcompPacket.pubcomp_bytes_framed.
Qed.

Lemma pubrec_pubrel_pubcomp_roundtrip_witness :
  let p : PubrecPacket.t 4 := PubrecPacket.mk 0x50 0 1 0 5 [sample_reason] in
  PubrecPacket.bytes p = [0x50; 9; 0; 1; 0; 5; 0x1F; 0; 2; 110; 111] /\
  roundtrips (PubrecPacket.encode (H := dev_profile) p)
    (PubrecPacket.decode (H := dev_profile) (H0 := list_vec)) PubrecPacket.new
    (PubrecPacket.bytes p) (set_remaining_len (Packet := PubrecPacket.packet (H0 := list_vec)) 9 p).
Proof.
  intros p. split; [reflexivity|].
  refine (proj1 (pubrec_pubrel_pubcomp_roundtrip (H := dev_profile) (H0 := list_vec) 4
    p (PubrelPacket.mk 0x62 0 2 0 5 [sample_reason]) (PubcompPacket.mk 0x70 0 3 0 5 [sample_reason])
    _ _ _ _ _ _)); try apply sample_properties_plain;
    repeat split; try (unfold byte_ok; cbn; lia); apply sample_properties_wf.
Defined.

(** The PUBREL packet that [PubrelPacket::new] makes has the first byte 0,
    not 0x62: whatever its other fields, its encoding does not decode as a
    PUBREL packet. *)
Theorem pubrel_new_rejected `{Profile} `{HeaplessVec} MAX (id reason : Z) buf
  (Hid : 0 <= id < 2 ^ 16) (Hr : byte_ok reason) (HM : 0 <= MAX) (Hfit : 6 <= zlen buf) :
  let p := PubrelPacket.set_reason_code reason
             (PubrelPacket.set_packet_identifier id (PubrelPacket.new (MAX_PROPERTIES := MAX))) in
  exists buf' st, PubrelPacket.encode p buf (zlen buf) = (Ok 6, buf') /\
    PubrelPacket.decode (PubrelPacket.new (MAX_PROPERTIES := MAX), BuffReader.new buf' 6) =
      (Err PacketTypeMismatch, st).
Proof.
  intros p. set (bs := [0] ++ [4] ++ be_bytes 2 id ++ [reason] ++ [0]).
  assert (Henc : encodes (PubrelPacket.encode p) bs).
  { apply writes_encodes.
    change (PubrelPacket.property_len p) with 0. change (PubrelPacket.fixed_header p) with 0.
    encode_sums. apply writes_bind; [apply write_u8_writes|]. apply writes_bind; [by apply (write_variable_byte_int_writes 4)|].
    apply writes_bind; [apply write_u16_writes|]. apply writes_bind; [apply write_u8_writes|].
    apply writes_bind_nil; [by apply (write_variable_byte_int_writes 0)|apply writes_ret]. }
  destruct (Henc buf (zlen buf)) as [Hok _]; [pose proof (zlen_nonneg buf); lia|].
  assert (Hl : zlen bs = 6) by done. rewrite Hl in Hok. specialize (Hok Hfit).
  assert (Hb : bytes_ok bs).
  { unfold bs. assert (byte_ok 0 /\ byte_ok 4) as [? ?] by (unfold byte_ok; lia). by bytes. }
  assert (Hwf : BuffReader.wf (BuffReader.new (bs ++ zdrop 6 buf) 6)).
  { apply BuffReader_new_wf; [rewrite <- Hl, ztake_app_len; done|].
    pose proof (zlen_nonneg (zdrop 6 buf)). zlen. lia. }
  eexists _, _. split; [exact Hok|]. unfold PubrelPacket.decode.
  rewrite (bind_ok _ _ _ _ _ (decode_fixed_header_decodes (PubrelPacket.new (MAX_PROPERTIES := MAX))
    0 4 ltac:(done) _ (be_bytes 2 id ++ [reason] ++ [0]) Hwf
    ltac:(rewrite <- Hl, rest_new_app by lia; rewrite Z.sub_diag, ztake_0 by lia; by rewrite app_nil_r))).
  reflexivity.
Qed.

Lemma pubrel_new_rejected_witness :
  exists buf' st, PubrelPacket.encode (H := dev_profile) (PubrelPacket.set_reason_code 0
       (PubrelPacket.set_packet_identifier 7 (PubrelPacket.new (MAX_PROPERTIES := 4))))
       (replicate 6 0) 6 = (Ok 6, buf') /\
    PubrelPacket.decode (H := dev_profile) (H0 := list_vec)
      (PubrelPacket.new (MAX_PROPERTIES := 4), BuffReader.new buf' 6) = (Err PacketTypeMismatch, st).
Proof.
  apply (pubrel_new_rejected (H := dev_profile) (H0 := list_vec) 4 7 0 (replicate 6 0));
    unfold byte_ok; try lia. vm_compute. discriminate.
Defined.

(** A reason string, for which the vector of a PUBACK packet has room. *)
Definition arrived_properties : BuffReader.t :=
  BuffReader.new [5; 0x1F; 0; 2; 110; 111; 9] 7.

Lemma decode_properties_typed_witness :
  let dec := decode_properties (H := dev_profile) (P := PubackPacket.t 4)
    (H0 := PubackPacket.packet (H0 := list_vec)) (PubackPacket.new, arrived_properties) in
  PubackPacket.properties dec.2.1 = [sample_reason] /\
  BuffReader.position dec.2.2 = 6 /\
  typed_properties (H1 := PubackPacket.packet_laws (H0 := list_vec)) dec.2.1.
Proof.
  split; [reflexivity|split; [reflexivity|]].
  refine (proj1 (decode_properties_typed (H := dev_profile)
    (H2 := PubackPacket.packet_laws (H0 := list_vec)) PubackPacket.new _ arrived_properties _
    _ _ eq_refl)).
  - by apply BuffReader_new_wf; [apply bytes_ok_bool|].
  - split; [constructor|done].
Defined.
