(* ===== verification/ServerPackets.v ===== *)
(** CONNACK, DISCONNECT, AUTH and the two ping packets: connack_packet.rs,
    disconnect_packet.rs, auth_packet.rs, pingreq_packet.rs and
    pingresp_packet.rs of rust-mqtt/src/packet/v5. *)
From S2P Require Import Prelude.
From S2P Require Import Utf8.
From S2P Require Import Types.
From S2P Require Import Vbi.
From S2P Require Import BuffReader.
From S2P Require Import BuffWriter.
From S2P Require Import Heapless.
From S2P Require Import Codes.
From S2P Require Import Property.
From S2P Require Import Packet.
Import BuffWriter(writes, write_u8, write_u16, write_variable_byte_int).
Import VariableByteIntegerEncoder(encode, len).

Module ConnackPacket.
Record t {MAX_PROPERTIES : Z} : Type := mk {
  fixed_header : Z;
  remain_len : Z;
  ack_flags : Z;
  connect_reason_code : Z;
  property_len : Z;
  properties : list Property.t
}.
Arguments t MAX_PROPERTIES : clear implicits.
Arguments mk {MAX_PROPERTIES}.

Section packet.
Context `{Profile} `{HeaplessVec} {MAX_PROPERTIES : Z}.

Definition new : t MAX_PROPERTIES :=
  mk (PacketType.into_u8 PacketType.Connack) 0 0 0 0 [].

#[global] Instance packet : Packet (t MAX_PROPERTIES) := {|
  set_property_len value self := mk (fixed_header self) (remain_len self)
      (ack_flags self) (connect_reason_code self) value (properties self);
  get_property_len := property_len;
  push_to_properties property self := mk (fixed_header self) (remain_len self)
      (ack_flags self) (connect_reason_code self) (property_len self)
      (push MAX_PROPERTIES (properties self) property);
  property_allowed self property := Property.connack_property property;
  set_fixed_header header self := mk header (remain_len self) (ack_flags self)
      (connect_reason_code self) (property_len self) (properties self);
  set_remaining_len remaining_len' self := mk (fixed_header self) remaining_len'
      (ack_flags self) (connect_reason_code self) (property_len self)
      (properties self)
|}.

#[global] #[refine] Instance packet_laws : PacketLaws (t MAX_PROPERTIES) := {|
  properties_of := properties;
  with_properties l self := mk (fixed_header self) (remain_len self)
      (ack_flags self) (connect_reason_code self) (property_len self) l;
  max_properties := MAX_PROPERTIES
|}.
Proof. all: by intros; repeat match goal with p : t _ |- _ => destruct p end. Defined.

Definition set_ack_flags (v : Z) (self : t MAX_PROPERTIES) : t MAX_PROPERTIES :=
    mk (fixed_header self) (remain_len self) v (connect_reason_code self)
    (property_len self) (properties self).
Definition set_connect_reason_code (v : Z) (self : t MAX_PROPERTIES) : t MAX_PROPERTIES :=
    mk (fixed_header self) (remain_len self) (ack_flags self) v
    (property_len self) (properties self).

Definition encode (self : t MAX_PROPERTIES) (buffer : list Z) (buffer_len : Z)
  : outcome BufferError Z * list Z :=
  run_writer (
    write_u8 (fixed_header self) ;;;
    property_len_enc ← lift (encode (property_len self));
    property_len_len ← lift (len property_len_enc);
    rm_len ← lift (2 +u32 property_len self);
    rm_len ← lift (rm_len +u32 wrap 32 property_len_len);
    write_variable_byte_int rm_len ;;;
    write_u8 (ack_flags self) ;;;
    write_u8 (connect_reason_code self) ;;;
    write_variable_byte_int (property_len self) ;;;
    write_properties (properties self)) buffer buffer_len.

Definition decode : M (t MAX_PROPERTIES * BuffReader.t) BufferError unit :=
  x ← decode_fixed_header;
  if bool_decide (x ≠ PacketType.Connack) then throw PacketTypeMismatch
  else
    v ← on_snd BuffReader.read_u8;
    on_fst (modify (set_ack_flags v)) ;;;
    v ← on_snd BuffReader.read_u8;
    on_fst (modify (set_connect_reason_code v)) ;;;
    decode_properties.

(** *** Specification *)

Definition rem_len (self : t MAX_PROPERTIES) : Z :=
  property_len self + zlen (vbi_bytes (property_len self)) + 2.

Definition wf (self : t MAX_PROPERTIES) : Prop :=
  byte_ok (fixed_header self)
  /\ PacketType.from_u8 (fixed_header self) = PacketType.Connack
  /\ byte_ok (ack_flags self) /\ byte_ok (connect_reason_code self) /\ vbi_ok (rem_len self)
  /\ properties_wf MAX_PROPERTIES (property_len self) (properties self).

Definition bytes (self : t MAX_PROPERTIES) : list Z :=
  [fixed_header self] ++ vbi_bytes (rem_len self)
  ++ [ack_flags self] ++ [connect_reason_code self]
  ++ vbi_bytes (property_len self) ++ Property.list_bytes (properties self).

Lemma connack_bytes_framed self : wf self -> framed (bytes self).
Proof.
  intros (Hh & Ht & Ha & Hc & Hrl & Hps). unfold bytes.
  eexists _, (rem_len self), _. split; [reflexivity|split; [done|split]].
  - unfold rem_len. zlen. rewrite (zlen_properties _ _ _ Hps). lia.
  - by bytes.
Qed.

Lemma connack_encode_bytes self : wf self -> encodes (encode self) (bytes self).
Proof.
  intros (Hh & Ht & Ha & Hc & Hrl & Hps). pose proof (properties_wf_len _ _ _ Hps).
  unfold rem_len in Hrl. rewrite Z.add_comm, Z.add_assoc in Hrl.
  apply writes_encodes. unfold bytes. apply writes_bind; [by auto with writes|].
  encode_sums. unfold rem_len. rewrite (Z.add_comm _ 2), Z.add_assoc.
  encode_fields. eauto with writes.
Qed.

Lemma connack_decode_bytes self :
  wf self -> Forall plain (properties self) ->
  decodes decode new (bytes self) tt (set_remaining_len (rem_len self) self).
Proof.
  intros (Hh & Ht & Ha & Hc & Hrl & Hps) Hpl. unfold decode, bytes.
  change ([fixed_header self] ++ vbi_bytes (rem_len self) ++ ?l)
    with ((fixed_header self :: vbi_bytes (rem_len self)) ++ l).
  eapply decodes_bind; [by apply decode_fixed_header_decodes|].
  rewrite Ht, bool_decide_eq_false_2 by auto.
  do 2 (eapply decodes_read; [by auto with reads|]; apply decodes_modify).
  apply decode_properties_self; [done..|]. destruct self; cbn in *. by f_equal.
Qed.

Lemma connack_decode_ends : ends decode.
Proof. unfold decode. repeat ends_step. Qed.
End packet.
End ConnackPacket.

Module DisconnectPacket.
Record t {MAX_PROPERTIES : Z} : Type := mk {
  fixed_header : Z;
  remain_len : Z;
  disconnect_reason : Z;
  property_len : Z;
  properties : list Property.t
}.
Arguments t MAX_PROPERTIES : clear implicits.
Arguments mk {MAX_PROPERTIES}.

Section packet.
Context `{Profile} `{HeaplessVec} {MAX_PROPERTIES : Z}.

Definition new : t MAX_PROPERTIES :=
  mk (PacketType.into_u8 PacketType.Disconnect) 5 0x00 0 [].

#[global] Instance packet : Packet (t MAX_PROPERTIES) := {|
  set_property_len value self := mk (fixed_header self) (remain_len self)
      (disconnect_reason self) value (properties self);
  get_property_len := property_len;
  push_to_properties property self := mk (fixed_header self) (remain_len self)
      (disconnect_reason self) (property_len self)
      (push MAX_PROPERTIES (properties self) property);
  property_allowed self property := Property.disconnect_property property;
  set_fixed_header header self := mk header (remain_len self)
      (disconnect_reason self) (property_len self) (properties self);
  set_remaining_len remaining_len' self := mk (fixed_header self) remaining_len'
      (disconnect_reason self) (property_len self) (properties self)
|}.

#[global] #[refine] Instance packet_laws : PacketLaws (t MAX_PROPERTIES) := {|
  properties_of := properties;
  with_properties l self := mk (fixed_header self) (remain_len self)
      (disconnect_reason self) (property_len self) l;
  max_properties := MAX_PROPERTIES
|}.
Proof. all: by intros; repeat match goal with p : t _ |- _ => destruct p end. Defined.

Definition set_disconnect_reason (v : Z) (self : t MAX_PROPERTIES) : t MAX_PROPERTIES :=
    mk (fixed_header self) (remain_len self) v (property_len self)
    (properties self).

Definition add_reason (reason : Z) (self : t MAX_PROPERTIES) : t MAX_PROPERTIES :=
  set_disconnect_reason reason self.

Definition encode (self : t MAX_PROPERTIES) (buffer : list Z) (buffer_len : Z)
  : outcome BufferError Z * list Z :=
  run_writer (
    write_u8 (fixed_header self) ;;;
    property_len_enc ← lift (encode (property_len self));
    property_len_len ← lift (len property_len_enc);
    rm_len ← lift (1 +u32 property_len self);
    rm_len ← lift (rm_len +u32 wrap 32 property_len_len);
    write_variable_byte_int rm_len ;;;
    write_u8 (disconnect_reason self) ;;;
    write_variable_byte_int (property_len self) ;;;
    write_properties (properties self)) buffer buffer_len.

Definition decode : M (t MAX_PROPERTIES * BuffReader.t) BufferError unit :=
  x ← decode_fixed_header;
  if bool_decide (x ≠ PacketType.Disconnect) then throw WrongPacketToDecode
  else
    n ← gets (fun st => remain_len st.1);
    if n =? 0 then
      on_fst (modify (set_disconnect_reason 0x00)) ;;;
      mret tt
    else
      v ← on_snd BuffReader.read_u8;
      on_fst (modify (set_disconnect_reason v)) ;;;
      decode_properties.

(** *** Specification *)

Definition rem_len (self : t MAX_PROPERTIES) : Z :=
  property_len self + zlen (vbi_bytes (property_len self)) + 1.

Definition wf (self : t MAX_PROPERTIES) : Prop :=
  byte_ok (fixed_header self)
  /\ PacketType.from_u8 (fixed_header self) = PacketType.Disconnect
  /\ byte_ok (disconnect_reason self) /\ vbi_ok (rem_len self)
  /\ properties_wf MAX_PROPERTIES (property_len self) (properties self).

Definition bytes (self : t MAX_PROPERTIES) : list Z :=
  [fixed_header self] ++ vbi_bytes (rem_len self)
  ++ [disconnect_reason self]
  ++ vbi_bytes (property_len self) ++ Property.list_bytes (properties self).

Lemma disconnect_bytes_framed self : wf self -> framed (bytes self).
Proof.
  intros (Hh & Ht & Ha & Hrl & Hps). unfold bytes.
  eexists _, (rem_len self), _. split; [reflexivity|split; [done|split]].
  - unfold rem_len. zlen. rewrite (zlen_properties _ _ _ Hps). lia.
  - by bytes.
Qed.

Lemma disconnect_encode_bytes self :
  wf self -> encodes (encode self) (bytes self).
Proof.
  intros (Hh & Ht & Ha & Hrl & Hps). pose proof (properties_wf_len _ _ _ Hps).
  unfold rem_len in Hrl. rewrite Z.add_comm, Z.add_assoc in Hrl.
  apply writes_encodes. unfold bytes. apply writes_bind; [by auto with writes|].
  encode_sums. unfold rem_len. rewrite (Z.add_comm _ 1), Z.add_assoc.
  encode_fields. eauto with writes.
Qed.

Lemma disconnect_decode_bytes self :
  wf self -> Forall plain (properties self) ->
  decodes decode new (bytes self) tt (set_remaining_len (rem_len self) self).
Proof.
  intros (Hh & Ht & Ha & Hrl & Hps) Hpl. unfold decode, bytes.
  change ([fixed_header self] ++ vbi_bytes (rem_len self) ++ ?l)
    with ((fixed_header self :: vbi_bytes (rem_len self)) ++ l).
  eapply decodes_bind; [by apply decode_fixed_header_decodes|].
  rewrite Ht, bool_decide_eq_false_2 by auto.
  apply (decodes_gets (P := t MAX_PROPERTIES) remain_len).
  pose proof (zlen_vbi_bytes (property_len self)).
  pose proof (proj1 (properties_wf_len _ _ _ Hps)).
  rewrite (proj2 (Z.eqb_neq _ _)) by (cbn; unfold rem_len; lia).
  eapply decodes_read; [by auto with reads|]; apply decodes_modify.
  apply decode_properties_self; [done..|]. destruct self; cbn in *. by f_equal.
Qed.

Lemma disconnect_decode_ends : ends decode.
Proof. unfold decode. repeat ends_step. Qed.
End packet.
End DisconnectPacket.

Module AuthPacket.
Record t {MAX_PROPERTIES : Z} : Type := mk {
  fixed_header : Z;
  remain_len : Z;
  auth_reason : Z;
  property_len : Z;
  properties : list Property.t
}.
Arguments t MAX_PROPERTIES : clear implicits.
Arguments mk {MAX_PROPERTIES}.

Section packet.
Context `{Profile} `{HeaplessVec} {MAX_PROPERTIES : Z}.

Definition new : t MAX_PROPERTIES :=
  mk (PacketType.into_u8 PacketType.Auth) 0 0x00 0 [].

#[global] Instance packet : Packet (t MAX_PROPERTIES) := {|
  set_property_len value self := mk (fixed_header self) (remain_len self)
      (auth_reason self) value (properties self);
  get_property_len := property_len;
  push_to_properties property self := mk (fixed_header self) (remain_len self)
      (auth_reason self) (property_len self)
      (push MAX_PROPERTIES (properties self) property);
  property_allowed self property := Property.auth_property property;
  set_fixed_header header self := mk header (remain_len self) (auth_reason self)
      (property_len self) (properties self);
  set_remaining_len remaining_len' self := mk (fixed_header self) remaining_len'
      (auth_reason self) (property_len self) (properties self)
|}.

#[global] #[refine] Instance packet_laws : PacketLaws (t MAX_PROPERTIES) := {|
  properties_of := properties;
  with_properties l self := mk (fixed_header self) (remain_len self)
      (auth_reason self) (property_len self) l;
  max_properties := MAX_PROPERTIES
|}.
Proof. all: by intros; repeat match goal with p : t _ |- _ => destruct p end. Defined.

Definition set_auth_reason (v : Z) (self : t MAX_PROPERTIES) : t MAX_PROPERTIES :=
    mk (fixed_header self) (remain_len self) v (property_len self)
    (properties self).

Definition add_reason_code (code : Z) (self : t MAX_PROPERTIES) : t MAX_PROPERTIES :=
  if negb (code =? 0) && negb (code =? 24) && negb (code =? 25) then self
  else set_auth_reason code self.

Definition add_property (p : Property.t) (self : t MAX_PROPERTIES) : t MAX_PROPERTIES :=
  if Property.auth_property p then push_to_properties p self else self.

Definition encode (self : t MAX_PROPERTIES) (buffer : list Z) (buff_len : Z)
  : outcome BufferError Z * list Z :=
  run_writer (
    property_len_enc ← lift (encode (property_len self));
    property_len_len ← lift (len property_len_enc);
    rm_ln ← lift (property_len self +u32 wrap 32 property_len_len);
    rm_ln ← lift (rm_ln +u32 1);
    write_u8 (fixed_header self) ;;;
    write_variable_byte_int rm_ln ;;;
    write_u8 (auth_reason self) ;;;
    write_variable_byte_int (property_len self) ;;;
    write_properties (properties self)) buffer buff_len.

(** The packet type is not compared. *)
Definition decode : M (t MAX_PROPERTIES * BuffReader.t) BufferError unit :=
  _ ← decode_fixed_header;
  v ← on_snd BuffReader.read_u8;
  on_fst (modify (set_auth_reason v)) ;;;
  decode_properties.

(** *** Specification *)

Definition rem_len (self : t MAX_PROPERTIES) : Z :=
  property_len self + zlen (vbi_bytes (property_len self)) + 1.

Definition wf (self : t MAX_PROPERTIES) : Prop :=
  byte_ok (fixed_header self)
  /\ PacketType.from_u8 (fixed_header self) = PacketType.Auth
  /\ byte_ok (auth_reason self) /\ vbi_ok (rem_len self)
  /\ properties_wf MAX_PROPERTIES (property_len self) (properties self).

Definition bytes (self : t MAX_PROPERTIES) : list Z :=
  [fixed_header self] ++ vbi_bytes (rem_len self)
  ++ [auth_reason self]
  ++ vbi_bytes (property_len self) ++ Property.list_bytes (properties self).

Lemma auth_bytes_framed self : wf self -> framed (bytes self).
Proof.
  intros (Hh & Ht & Ha & Hrl & Hps). unfold bytes.
  eexists _, (rem_len self), _. split; [reflexivity|split; [done|split]].
  - unfold rem_len. zlen. rewrite (zlen_properties _ _ _ Hps). lia.
  - by bytes.
Qed.

Lemma auth_encode_bytes self : wf self -> encodes (encode self) (bytes self).
Proof.
  intros (Hh & Ht & Ha & Hrl & Hps). pose proof (properties_wf_len _ _ _ Hps).
  unfold rem_len in Hrl.
  apply writes_encodes. encode_sums. unfold bytes, rem_len. encode_fields.
  eauto with writes.
Qed.

Lemma auth_decode_bytes self :
  wf self -> Forall plain (properties self) ->
  decodes decode new (bytes self) tt (set_remaining_len (rem_len self) self).
Proof.
  intros (Hh & Ht & Ha & Hrl & Hps) Hpl. unfold decode, bytes.
  change ([fixed_header self] ++ vbi_bytes (rem_len self) ++ ?l)
    with ((fixed_header self :: vbi_bytes (rem_len self)) ++ l).
  eapply decodes_bind; [by apply decode_fixed_header_decodes|].
  eapply decodes_read; [by auto with reads|]; apply decodes_modify.
  apply decode_properties_self; [done..|]. destruct self; cbn in *. by f_equal.
Qed.

Lemma auth_decode_ends : ends decode.
Proof. unfold decode. repeat ends_step. Qed.
End packet.
End AuthPacket.

Module PingreqPacket.
Record t : Type := mk {
  fixed_header : Z;
  remain_len : Z
}.

Section packet.
Context `{Profile}.

Definition new : t := mk (PacketType.into_u8 PacketType.Pingreq) 0.

#[global] Instance packet : Packet t := {|
  set_property_len _value self := self;
  get_property_len _ := 0;
  push_to_properties _property self := self;
  property_allowed self property := Property.pingreq_property property;
  set_fixed_header header self := mk header (remain_len self);
  set_remaining_len remaining_len' self := mk (fixed_header self) remaining_len'
|}.

Definition encode (self : t) (buffer : list Z) (buffer_len : Z)
  : outcome BufferError Z * list Z :=
  run_writer (
    write_u8 (fixed_header self) ;;;
    write_variable_byte_int 0) buffer buffer_len.

Definition decode : M (t * BuffReader.t) BufferError unit := throw WrongPacketToDecode.

Lemma pingreq_encode_bytes self : encodes (encode self) [fixed_header self; 0].
Proof.
  apply writes_encodes. apply (writes_bind _ _ [_]); [by auto with writes|].
  by apply (write_variable_byte_int_writes 0).
Qed.
End packet.
End PingreqPacket.

Module PingrespPacket.
Record t : Type := mk {
  fixed_header : Z;
  remain_len : Z
}.

Section packet.
Context `{Profile}.

Definition new : t := mk (PacketType.into_u8 PacketType.Pingresp) 0.

#[global] Instance packet : Packet t := {|
  set_property_len _value self := self;
  get_property_len _ := 0;
  push_to_properties _property self := self;
  property_allowed self property := Property.pingresp_property property;
  set_fixed_header header self := mk header (remain_len self);
  set_remaining_len remaining_len' self := mk (fixed_header self) remaining_len'
|}.

Definition encode (self : t) (buffer : list Z) (buffer_len : Z)
  : outcome BufferError Z * list Z :=
  run_writer (
    write_u8 (fixed_header self) ;;;
    write_variable_byte_int (remain_len self)) buffer buffer_len.

Definition decode : M (t * BuffReader.t) BufferError unit :=
  x ← decode_fixed_header;
  if bool_decide (x ≠ PacketType.Pingresp) then throw PacketTypeMismatch
  else
    n ← gets (fun st => remain_len st.1);
    if negb (n =? 0) then throw PacketTypeMismatch
    else mret tt.

Lemma pingresp_encode_bytes self :
  vbi_ok (remain_len self) ->
  encodes (encode self) ([fixed_header self] ++ vbi_bytes (remain_len self)).
Proof.
  intros Hn. apply writes_encodes. apply writes_bind; by auto with writes.
Qed.

(** Exactly the packets of type PINGRESP and length 0 are accepted. *)
Lemma pingresp_decode_bytes b n :
  vbi_ok n -> PacketType.from_u8 b = PacketType.Pingresp ->
  (n = 0 -> decodes decode new (b :: vbi_bytes n) tt (mk b n)) /\
  (n <> 0 -> forall r k, BuffReader.wf r ->
     BuffReader.rest r = b :: vbi_bytes n ++ k ->
     exists st, decode (new, r) = (Err PacketTypeMismatch, st)).
Proof.
  intros Hn Ht. split.
  - intros ->. unfold decode. rewrite <- (app_nil_r (b :: _)).
    eapply decodes_bind; [by apply decode_fixed_header_decodes|].
    rewrite Ht, bool_decide_eq_false_2 by auto. apply (decodes_gets remain_len).
    apply decodes_ret.
  - intros Hn0 r k Hwf Hr. unfold decode.
    rewrite (bind_ok _ _ _ _ _ (decode_fixed_header_decodes new b n Hn r k Hwf Hr)).
    rewrite Ht, bool_decide_eq_false_2 by auto. erewrite bind_ok by reflexivity.
    cbn. rewrite (proj2 (Z.eqb_neq _ _)) by done. by eexists.
Qed.

Lemma pingresp_decode_ends : ends decode.
Proof. unfold decode. repeat ends_step. Qed.
End packet.
End PingrespPacket.

(** ** Properties *)

(** CONNACK, DISCONNECT and AUTH: encoding then decoding gives the packet
    back, with its remaining length filled in. *)
Theorem connack_disconnect_auth_roundtrip `{Profile} `{HeaplessVec} MAX
  (p : ConnackPacket.t MAX) (q : DisconnectPacket.t MAX) (s : AuthPacket.t MAX)
  (Hp : ConnackPacket.wf p) (Hq : DisconnectPacket.wf q) (Hs : AuthPacket.wf s)
  (Hpl : Forall plain (ConnackPacket.properties p))
  (Hql : Forall plain (DisconnectPacket.properties q))
  (Hsl : Forall plain (AuthPacket.properties s)) :
  roundtrips (ConnackPacket.encode p) ConnackPacket.decode ConnackPacket.new
    (ConnackPacket.bytes p) (set_remaining_len (ConnackPacket.rem_len p) p) /\
  roundtrips (DisconnectPacket.encode q) DisconnectPacket.decode DisconnectPacket.new
    (DisconnectPacket.bytes q) (set_remaining_len (DisconnectPacket.rem_len q) q) /\
  roundtrips (AuthPacket.encode s) AuthPacket.decode AuthPacket.new
    (AuthPacket.bytes s) (set_remaining_len (AuthPacket.rem_len s) s).
Proof.
  split; [|split]; apply encode_decode_roundtrips.
  - by apply ConnackPacket.connack_encode_bytes.
  - by apply ConnackPacket.connack_decode_bytes.
  - by apply framed_bytes, ConnackPacket.connack_bytes_framed.
  - by apply DisconnectPacket.disconnect_encode_bytes.
  - by apply DisconnectPacket.disconnect_decode_bytes.
  - by apply framed_bytes, DisconnectPacket.disconnect_bytes_framed.
  - by apply AuthPacket.auth_encode_bytes.
  - by apply AuthPacket.auth_decode_bytes.
  - by apply framed_bytes, AuthPacket.auth_bytes_framed.
Qed.

Lemma connack_disconnect_auth_roundtrip_witness :
  let p : ConnackPacket.t 4 := ConnackPacket.mk 0x20 0 1 0 5 [sample_reason] in
  ConnackPacket.bytes p = [0x20; 8; 1; 0; 5; 0x1F; 0; 2; 110; 111] /\
  roundtrips (ConnackPacket.encode (H := dev_profile) p)
    (ConnackPacket.decode (H := dev_profile) (H0 := list_vec)) ConnackPacket.new
    (ConnackPacket.bytes p) (set_remaining_len (Packet := ConnackPacket.packet (H0 := list_vec)) 8 p).
Proof.
  intros p. split; [reflexivity|].
  refine (proj1 (connack_disconnect_auth_roundtrip (H := dev_profile) (H0 := list_vec) 4
    p (DisconnectPacket.mk 0xE0 0 0x8E 5 [sample_reason]) (AuthPacket.mk 0xF0 0 0x18 5 [sample_reason])
    _ _ _ _ _ _)); try apply sample_properties_plain;
    repeat split; try concrete; apply sample_properties_wf.
Defined.

(** The keep-alive exchange.  PINGREQ is the two bytes 0xC0, 0; of the
    packets of type PINGRESP the decoder accepts those whose remaining length is
    0, and refuses the others. *)
Theorem ping_exchange `{Profile} b n buf
  (Hb : byte_ok b) (Ht : PacketType.from_u8 b = PacketType.Pingresp) (Hn : vbi_ok n)
  (Hbuf : 2 <= zlen buf) :
  PingreqPacket.encode PingreqPacket.new buf (zlen buf) = (Ok 2, [0xC0; 0] ++ zdrop 2 buf) /\
  let bs := b :: vbi_bytes n in
  exists st, PingrespPacket.decode (PingrespPacket.new, BuffReader.new bs (zlen bs)) =
    (if n =? 0 then Ok tt else Err PacketTypeMismatch, st).
Proof.
  split.
  - apply (PingreqPacket.pingreq_encode_bytes PingreqPacket.new buf (zlen buf)); [lia|exact Hbuf].
  - intros bs. assert (Hbs : bytes_ok bs) by (apply (bytes_ok_app [b]); [by apply bytes_ok_one|by auto with bytes]).
    pose proof (zlen_nonneg bs). set (r := BuffReader.new _ _).
    assert (Hr : BuffReader.wf r) by (apply BuffReader_new_wf; [by rewrite ztake_all by lia|lia]).
    assert (Hrest : BuffReader.rest r = bs ++ []).
    { unfold r, BuffReader.rest, BuffReader.new. cbn [BuffReader.position BuffReader.len BuffReader.buffer].
      rewrite Z.sub_0_r, zdrop_0, app_nil_r. apply ztake_all. lia. }
    destruct (PingrespPacket.pingresp_decode_bytes b n Hn Ht) as [Hok Herr].
    destruct (Z.eqb_spec n 0) as [E|E].
    + eexists. by apply (Hok E r []).
    + apply (Herr E r []); [done|]. by rewrite Hrest.
Qed.

Lemma ping_exchange_witness :
  PingreqPacket.encode PingreqPacket.new [9; 9; 9] 3 = (Ok 2, [0xC0; 0; 9]) /\
  exists st, PingrespPacket.decode (H := dev_profile)
    (PingrespPacket.new, BuffReader.new [0xD1; 0] 2) = (Ok tt, st).
Proof. apply (ping_exchange (H := dev_profile) 0xD1 0 [9; 9; 9]); concrete. Defined.
