(* ===== verification/PublishPacket.v ===== *)
(** PUBLISH: rust-mqtt/src/packet/v5/publish_packet.rs.

    The message is everything from the cursor to the end of the packet, whose
    position the decoder computes from the remaining length; so the decoding
    theorems are about a packet that starts the buffer, as in the source. *)
From S2P Require Import Prelude.
From S2P Require Import Utf8.
From S2P Require Import Types.
From S2P Require Import Vbi.
From S2P Require Import BuffReader.
From S2P Require Import BuffWriter.
From S2P Require Import Heapless.
From S2P Require Import Codes.
From S2P Require Import Property.
From S2P Require Import Packet.
Import BuffWriter(writes, write_u8, write_u16, write_variable_byte_int,
  write_string_ref, insert_ref).
Import VariableByteIntegerEncoder(encode, len).

Module PublishPacket.
Record t {MAX_PROPERTIES : Z} : Type := mk {
  fixed_header : Z;
  remain_len : Z;
  topic_name : EncodedString.t;
  packet_identifier : Z;
  property_len : Z;
  properties : list Property.t;
  message : option (list Z)
}.
Arguments t MAX_PROPERTIES : clear implicits.
Arguments mk {MAX_PROPERTIES}.

Section packet.
Context `{Profile} `{HeaplessVec} {MAX_PROPERTIES : Z}.

Definition new : t MAX_PROPERTIES :=
  mk (PacketType.into_u8 PacketType.Publish) 0 EncodedString.new 1 0 [] None.

#[global] Instance packet : Packet (t MAX_PROPERTIES) := {|
  set_property_len value self := mk (fixed_header self) (remain_len self)
      (topic_name self) (packet_identifier self) value (properties self)
      (message self);
  get_property_len := property_len;
  push_to_properties property self := mk (fixed_header self) (remain_len self)
      (topic_name self) (packet_identifier self) (property_len self)
      (push MAX_PROPERTIES (properties self) property) (message self);
  property_allowed self property := Property.publish_property property;
  set_fixed_header header self := mk header (remain_len self) (topic_name self)
      (packet_identifier self) (property_len self) (properties self)
      (message self);
  set_remaining_len remaining_len' self := mk (fixed_header self) remaining_len'
      (topic_name self) (packet_identifier self) (property_len self)
      (properties self) (message self)
|}.

#[global] #[refine] Instance packet_laws : PacketLaws (t MAX_PROPERTIES) := {|
  properties_of := properties;
  with_properties l self := mk (fixed_header self) (remain_len self)
      (topic_name self) (packet_identifier self) (property_len self) l
      (message self);
  max_properties := MAX_PROPERTIES
|}.
Proof. all: by intros; repeat match goal with p : t _ |- _ => destruct p end. Defined.

Definition set_topic_name (v : EncodedString.t) (self : t MAX_PROPERTIES) : t MAX_PROPERTIES :=
    mk (fixed_header self) (remain_len self) v (packet_identifier self)
    (property_len self) (properties self) (message self).
Definition set_packet_identifier (v : Z) (self : t MAX_PROPERTIES) : t MAX_PROPERTIES :=
    mk (fixed_header self) (remain_len self) (topic_name self) v
    (property_len self) (properties self) (message self).
Definition set_message (v : option (list Z)) (self : t MAX_PROPERTIES) : t MAX_PROPERTIES :=
    mk (fixed_header self) (remain_len self) (topic_name self)
    (packet_identifier self) (property_len self) (properties self) v.

Definition add_topic_name (topic_name : list Z) (self : t MAX_PROPERTIES)
  : t MAX_PROPERTIES := set_topic_name (EncodedString.of_str topic_name) self.

Definition add_message (message : list Z) (self : t MAX_PROPERTIES)
  : t MAX_PROPERTIES := set_message (Some message) self.

Definition add_qos (qos : QualityOfService.t) (self : t MAX_PROPERTIES)
  : t MAX_PROPERTIES :=
  set_fixed_header (Z.lor (fixed_header self) (QualityOfService.into_u8 qos)) self.

Definition add_retain (retain : bool) (self : t MAX_PROPERTIES) : t MAX_PROPERTIES :=
  set_fixed_header (Z.lor (fixed_header self) (Z.b2z retain)) self.

Definition add_identifier (identifier : Z) (self : t MAX_PROPERTIES)
  : t MAX_PROPERTIES := set_packet_identifier identifier self.

Definition encode (self : t MAX_PROPERTIES) (buffer : list Z) (buffer_len : Z)
  : outcome BufferError Z * list Z :=
  run_writer (
    property_len_enc ← lift (encode (property_len self));
    property_len_len ← lift (len property_len_enc);
    msg ← lift (unwrap (message self));
    let msg_len := wrap 32 (zlen msg) in
    rm_ln ← lift (property_len self +u32 wrap 32 property_len_len);
    rm_ln ← lift (rm_ln +u32 msg_len);
    rm_ln ← lift (rm_ln +u32 EncodedString.len (topic_name self));
    rm_ln ← lift (rm_ln +u32 2);
    write_u8 (fixed_header self) ;;;
    let qos := Z.land (fixed_header self) 0x06 in
    rm_ln ← (if negb (qos =? 0) then lift (rm_ln +u32 2) else mret rm_ln);
    write_variable_byte_int rm_ln ;;;
    write_string_ref (topic_name self) ;;;
    (if negb (qos =? 0) then write_u16 (packet_identifier self) else mret tt) ;;;
    write_variable_byte_int (property_len self) ;;;
    write_properties (properties self) ;;;
    msg ← lift (unwrap (message self));
    insert_ref msg_len msg) buffer buffer_len.

(** The end of [decode]: the message fills the packet. *)
Definition decode_message : M (t MAX_PROPERTIES * BuffReader.t) BufferError unit :=
  n ← gets (fun st => remain_len st.1);
  v ← lift (VariableByteIntegerEncoder.encode n);
  total_len ← lift (len v);
  total_len ← lift (total_len +usize 1);
  total_len ← lift (total_len +usize n);
  m ← on_snd (BuffReader.read_message total_len);
  on_fst (modify (set_message (Some m))) ;;;
  mret tt.

Definition decode : M (t MAX_PROPERTIES * BuffReader.t) BufferError unit :=
  x ← decode_fixed_header;
  if bool_decide (x ≠ PacketType.Publish) then throw PacketTypeMismatch
  else
    v ← on_snd BuffReader.read_string;
    on_fst (modify (set_topic_name v)) ;;;
    h ← gets (fun st => fixed_header st.1);
    let qos := Z.land h 0x06 in
    (if negb (qos =? 0) then
       v ← on_snd BuffReader.read_u16;
       on_fst (modify (set_packet_identifier v)) ;;;
       mret tt
     else mret tt) ;;;
    decode_properties ;;;
    decode_message.

(** *** Specification *)

Definition has_id (self : t MAX_PROPERTIES) : bool :=
  negb (Z.land (fixed_header self) 0x06 =? 0).

Definition payload (self : t MAX_PROPERTIES) : list Z := default [] (message self).

Definition rem_len (self : t MAX_PROPERTIES) : Z :=
  property_len self + zlen (vbi_bytes (property_len self)) + zlen (payload self)
  + EncodedString.len (topic_name self) + 2 + (if has_id self then 2 else 0).

Definition wf (self : t MAX_PROPERTIES) : Prop :=
  byte_ok (fixed_header self)
  /\ PacketType.from_u8 (fixed_header self) = PacketType.Publish
  /\ EncodedString.wf (topic_name self)
  /\ 0 <= packet_identifier self < 2 ^ 16
  /\ is_Some (message self) /\ bytes_ok (payload self)
  /\ vbi_ok (rem_len self)
  /\ properties_wf MAX_PROPERTIES (property_len self) (properties self).

(** The packet the other side decodes: at level 0 the identifier is not sent,
    and stays the 1 of [new]. *)
Definition received (self : t MAX_PROPERTIES) : t MAX_PROPERTIES :=
  set_packet_identifier (if has_id self then packet_identifier self else 1)
    (set_remaining_len (rem_len self) self).

(** All but the message. *)
Definition header_bytes (self : t MAX_PROPERTIES) : list Z :=
  [fixed_header self] ++ vbi_bytes (rem_len self)
  ++ EncodedString.bytes (topic_name self)
  ++ (if has_id self then be_bytes 2 (packet_identifier self) else [])
  ++ vbi_bytes (property_len self) ++ Property.list_bytes (properties self).

Definition bytes (self : t MAX_PROPERTIES) : list Z := header_bytes self ++ payload self.

Lemma publish_zlen_header_bytes self :
  wf self ->
  zlen (header_bytes self) + zlen (payload self) =
  1 + zlen (vbi_bytes (rem_len self)) + rem_len self.
Proof.
  intros (_ & _ & Ht & _ & _ & _ & _ & _ & _ & _ & Hl).
  unfold header_bytes, rem_len. zlen.
  rewrite zlen_EncodedString_bytes by done.
  replace (zlen (if has_id self then be_bytes 2 (packet_identifier self) else []))
    with (if has_id self then 2 else 0) by (by destruct (has_id self)).
  lia.
Qed.

Lemma publish_bytes_framed self : wf self -> framed (bytes self).
Proof.
  intros Hwf. pose proof (publish_zlen_header_bytes _ Hwf) as Hl.
  destruct Hwf as (Hh & Ht & Hs & Hi & Hm & Hb & Hrl & Hps).
  unfold bytes, header_bytes in *. rewrite <- !app_assoc.
  eexists _, (rem_len self), _. split; [reflexivity|split; [done|split]].
  - zlen. lia.
  - assert (bytes_ok (if has_id self then be_bytes 2 (packet_identifier self) else []))
      by (destruct (has_id self); auto with bytes).
    by bytes.
Qed.

Lemma publish_encode_bytes self : wf self -> encodes (encode self) (bytes self).
Proof.
  intros (Hh & Ht & Hs & Hi & [msg Hm] & Hb & Hrl & Hps).
  pose proof (properties_wf_len _ _ _ Hps). pose proof (EncodedString_len_range _ Hs).
  assert (Hpm : payload self = msg) by (unfold payload; by rewrite Hm).
  unfold rem_len in Hrl. rewrite Hpm in Hrl. pose proof (zlen_nonneg msg).
  unfold vbi_ok, MAX_ENCODABLE in Hrl.
  pose proof (zlen_vbi_bytes (property_len self)).
  assert (Hid : 0 <= if has_id self then 2 else 0) by (by destruct (has_id self)).
  apply writes_encodes. encode_sums.
  rewrite Hm. eapply writes_lift; [reflexivity|]. cbv beta zeta.
  rewrite wrap_small by (unfold vbi_ok in *; lia). encode_sums.
  unfold bytes, header_bytes, rem_len. rewrite Hpm, <- !app_assoc.
  encode_fields. fold (has_id self).
  destruct (has_id self).
  - eapply writes_lift; [apply checked_ok; lia|cbv beta]. encode_fields.
    eapply writes_lift; [reflexivity|]. by apply insert_ref_writes_all.
  - rewrite Z.add_0_r in *. change (mret ?x ≫= ?f) with (f x). cbv beta. encode_fields.
    eapply writes_lift; [reflexivity|]. by apply insert_ref_writes_all.
Qed.

(** The fields in front of the properties. *)
Definition front_bytes (self : t MAX_PROPERTIES) : list Z :=
  [fixed_header self] ++ vbi_bytes (rem_len self)
  ++ EncodedString.bytes (topic_name self)
  ++ (if has_id self then be_bytes 2 (packet_identifier self) else []).

Definition front (self : t MAX_PROPERTIES) : t MAX_PROPERTIES :=
  mk (fixed_header self) (rem_len self) (topic_name self)
    (if has_id self then packet_identifier self else 1) 0 [] None.

Lemma decode_front self :
  wf self ->
  leads decode new (front_bytes self) (decode_properties ;;; decode_message) (front self).
Proof.
  intros (Hh & Ht & Hs & Hi & Hm & Hb & Hrl & Hps). unfold decode, front_bytes.
  change ([fixed_header self] ++ vbi_bytes (rem_len self) ++ ?l)
    with ((fixed_header self :: vbi_bytes (rem_len self)) ++ l).
  eapply decodes_bind; [by apply decode_fixed_header_decodes|].
  rewrite Ht, bool_decide_eq_false_2 by auto.
  eapply decodes_read; [by auto with reads|]. apply decodes_modify.
  apply (decodes_gets (P := t MAX_PROPERTIES) fixed_header).
  change (negb (Z.land _ _ =? 0)) with (has_id self).
  set (p1 := set_topic_name _ _).
  rewrite <- (app_nil_r (if has_id self then _ else _)).
  eapply decodes_bind with (a := tt) (p1 := front self); [|apply decodes_ret].
  unfold front. destruct (has_id self); [|apply decodes_ret].
  rewrite <- (app_nil_r (be_bytes _ _)).
  eapply decodes_read; [by auto with reads|]. apply decodes_modify. apply decodes_ret.
Qed.

Lemma header_front self :
  header_bytes self =
  front_bytes self ++ vbi_bytes (property_len self) ++ Property.list_bytes (properties self).
Proof. unfold header_bytes, front_bytes. by rewrite <- !app_assoc. Qed.

(** The fields in front of the message. *)
Lemma publish_decode_header self :
  wf self -> Forall plain (properties self) ->
  leads decode new (header_bytes self) decode_message (set_message None (received self)).
Proof.
  intros Hwf Hpl. rewrite header_front. intros r k Hr Hrest. rewrite <- app_assoc in Hrest.
  rewrite (decode_front _ Hwf r _ Hr Hrest), zlen_app, <- advance_advance.
  pose proof (advance_wf _ _ _ Hr Hrest) as Hr1. pose proof (rest_advance _ _ _ Hr Hrest) as Hrest1.
  refine (bind_ok _ _ _ _ _ (decode_properties_self (property_len self) (properties self)
    _ (set_message None (received self)) _ Hpl _ _ _ k Hr1 Hrest1)); [by apply Hwf|done|].
  unfold front. by destruct self.
Qed.

(** The message: all of the packet behind the cursor. *)
Lemma decode_message_at (p : t MAX_PROPERTIES) pre m k n :
  vbi_ok (remain_len p) ->
  1 + zlen (vbi_bytes (remain_len p)) + remain_len p = zlen pre + zlen m ->
  zlen pre + zlen m <= n ->
  decode_message (p, BuffReader.mk (pre ++ m ++ k) (zlen pre) n) =
  (Ok tt, (set_message (Some m) p, BuffReader.mk (pre ++ m ++ k) (zlen pre) n)).
Proof.
  intros Hv Hl Hn. unfold decode_message. erewrite bind_ok by reflexivity. cbn [fst].
  pose proof (zlen_vbi_bytes (remain_len p)). pose proof Hv as Hmax.
  unfold vbi_ok, MAX_ENCODABLE in Hmax.
  rewrite (bind_ok _ _ _ (pad4 (vbi_bytes (remain_len p))) _)
    by (unfold lift; by rewrite encode_ok).
  rewrite (bind_ok _ _ _ (zlen (vbi_bytes (remain_len p))) _)
    by (unfold lift, pad4; by rewrite len_ok).
  erewrite bind_ok by (unfold lift; by rewrite checked_ok by lia).
  erewrite bind_ok by (unfold lift; by rewrite checked_ok by lia).
  rewrite (bind_ok _ _ _ m (p, BuffReader.mk (pre ++ m ++ k) (zlen pre) n)); [done|].
  apply on_snd_ok. apply read_message_at; lia.
Qed.

(** A packet at the start of the buffer, whatever follows it. *)
Lemma publish_decode_bytes self k n :
  wf self -> Forall plain (properties self) ->
  bytes_ok (ztake n (bytes self ++ k)) -> zlen (bytes self) <= n <= zlen (bytes self ++ k) ->
  decode (new, BuffReader.new (bytes self ++ k) n) =
  (Ok tt, (received self, BuffReader.mk (bytes self ++ k) (zlen (header_bytes self)) n)).
Proof.
  intros Hwf Hpl Hb Hn. pose proof (publish_zlen_header_bytes _ Hwf) as Hl.
  pose proof (zlen_nonneg (header_bytes self)). pose proof (zlen_nonneg (payload self)).
  assert (Hlb : zlen (bytes self) = zlen (header_bytes self) + zlen (payload self))
    by (unfold bytes; by zlen).
  set (r := BuffReader.new (bytes self ++ k) n).
  assert (Hr : BuffReader.wf r) by (apply BuffReader_new_wf; [done|lia]).
  rewrite (publish_decode_header _ Hwf Hpl r
    (ztake (n - zlen (header_bytes self)) (payload self ++ k)) Hr).
  2: { unfold r, bytes. by rewrite <- app_assoc, rest_new_app by lia. }
  destruct Hwf as (_ & _ & _ & _ & [msg Hm] & _ & Hrl & _).
  assert (Hpm : Some (payload self) = message self) by (unfold payload; by rewrite Hm).
  unfold r, bytes, BuffReader.advance, BuffReader.new. rewrite <- app_assoc.
  cbn [BuffReader.buffer BuffReader.len BuffReader.position]. rewrite Z.add_0_l.
  rewrite decode_message_at; [|exact Hrl|symmetry; exact Hl|lia].
  rewrite Hpm. by destruct self.
Qed.

(** *** Binary data

    [read_binary] leaves the cursor in front of the data, but the loop counts
    the data as read: what follows is taken from where the data starts. *)
Lemma decode_correlation_at (p : t MAX_PROPERTIES) d r k :
  BinaryData.wf d -> BinaryData.len d < 2 ^ 16 - 2 -> BuffReader.wf r ->
  properties p = [] -> 0 < MAX_PROPERTIES ->
  BuffReader.rest r = vbi_bytes (BinaryData.len d + 3)
    ++ Property.bytes (Property.CorrelationData d) ++ k ->
  decode_properties (p, r) =
  (Ok tt, (with_properties [Property.CorrelationData d]
             (set_property_len (BinaryData.len d + 3) p),
           BuffReader.advance (zlen (vbi_bytes (BinaryData.len d + 3)) + 3) r)).
Proof.
  intros Hd Hmax Hr Hp HM Hrest. pose proof (BinaryData_len_range _ Hd) as Hl.
  assert (Hv : vbi_ok (BinaryData.len d + 3)) by (unfold vbi_ok, MAX_ENCODABLE; lia).
  pose proof (advance_wf _ _ _ Hr Hrest) as Hr'. pose proof (rest_advance _ _ _ Hr Hrest) as Hrest'.
  unfold decode_properties.
  rewrite (bind_ok _ _ _ _ _ (on_snd_ok _ p _ _ _ (read_variable_byte_int_reads _ Hv r _ Hr Hrest))).
  erewrite bind_ok by reflexivity. erewrite bind_ok by reflexivity. cbn.
  rewrite (proj2 (Z.eqb_neq _ _)) by lia. cbn [negb].
  erewrite bind_ok by reflexivity. cbn [snd loop_fuel decode_properties_loop].
  rewrite (bind_ok _ _ _ _ _ (on_snd_ok _ _ _ _ _
    (Property.decode_binary_at (Property.CorrelationData d) d _ _ (or_introl eq_refl) Hr' Hd Hrest'))).
  cbn [Property.encoded_len]. unfold BinaryData.encoded_len.
  erewrite bind_ok by (unfold lift; by rewrite checked_ok by lia).
  erewrite bind_ok by (unfold lift; by rewrite checked_ok by lia).
  erewrite bind_ok by (unfold lift; by rewrite checked_ok by lia).
  erewrite bind_ok by reflexivity. erewrite bind_ok by reflexivity. cbn.
  rewrite (proj2 (Z.eqb_eq _ _)) by lia. rewrite advance_advance, Hp.
  unfold push. rewrite vec_push_room by (rewrite zlen_nil; lia). done.
Qed.

Lemma decode_correlation self d k n :
  wf self -> has_id self = false -> properties self = [Property.CorrelationData d] ->
  BinaryData.len d < 2 ^ 16 - 2 ->
  bytes_ok (ztake n (bytes self ++ k)) -> zlen (bytes self) <= n <= zlen (bytes self ++ k) ->
  exists q r, decode (new, BuffReader.new (bytes self ++ k) n) = (Ok tt, (q, r)) /\
    properties q = [Property.CorrelationData d] /\
    message q = Some (BinaryData.bin d ++ payload self).
Proof.
  intros Hwf Hid Hps Hmax Hb Hn. pose proof (publish_zlen_header_bytes _ Hwf) as Hl.
  pose proof (zlen_nonneg (bytes self)).
  set (r := BuffReader.new (bytes self ++ k) n).
  assert (Hr : BuffReader.wf r) by (apply BuffReader_new_wf; [done|lia]).
  assert (Hrest : BuffReader.rest r = bytes self ++ ztake (n - zlen (bytes self)) k)
    by (apply rest_new_app; lia).
  pose proof Hwf as (_ & _ & _ & _ & _ & _ & Hrl & Hwfs & HM & _ & Hpl).
  rewrite Hps in Hwfs, HM, Hpl. apply list.Forall_cons in Hwfs as [Hd _].
  change (Property.list_bytes _) with (Property.bytes (Property.CorrelationData d) ++ []) in Hpl.
  rewrite app_nil_r in Hpl.
  assert (Hpl3 : property_len self = BinaryData.len d + 3).
  { rewrite Hpl. unfold Property.bytes; cbn [Property.id Property.payload].
    change (Property.id _ :: ?l) with ([0x09] ++ l). zlen.
    rewrite zlen_BinaryData_bytes by done. lia. }
  set (pre := front_bytes self ++ vbi_bytes (BinaryData.len d + 3)
    ++ [0x09] ++ be_bytes 2 (BinaryData.len d)).
  assert (Hbytes : bytes self = pre ++ BinaryData.bin d ++ payload self).
  { unfold bytes, pre. rewrite header_front, Hps, Hpl3.
    change (Property.list_bytes _) with (Property.bytes (Property.CorrelationData d) ++ []).
    rewrite app_nil_r. unfold Property.bytes; cbn [Property.id Property.payload].
    unfold BinaryData.bytes. by rewrite <- !app_assoc. }
  assert (Hrest' : BuffReader.rest r = front_bytes self ++ vbi_bytes (BinaryData.len d + 3)
    ++ Property.bytes (Property.CorrelationData d) ++ payload self ++ ztake (n - zlen (bytes self)) k).
  { rewrite Hrest. unfold bytes. rewrite header_front, Hps, Hpl3.
    change (Property.list_bytes _) with (Property.bytes (Property.CorrelationData d) ++ []).
    rewrite app_nil_r. by rewrite <- !app_assoc. }
  rewrite (decode_front _ Hwf r _ Hr Hrest').
  pose proof (advance_wf _ _ _ Hr Hrest') as Hr1. pose proof (rest_advance _ _ _ Hr Hrest') as Hrest1.
  rewrite (bind_ok _ _ _ _ _ (decode_correlation_at (front self) d _ _ Hd Hmax Hr1 eq_refl
    ltac:(rewrite zlen_cons, zlen_nil in HM; lia) Hrest1)).
  rewrite advance_advance. unfold r at 1, BuffReader.advance, BuffReader.new at 1.
  cbn [BuffReader.buffer BuffReader.len BuffReader.position].
  replace (0 + (_ + _)) with (zlen pre)
    by (unfold pre; rewrite !zlen_app, zlen_be_bytes; change (zlen [0x09]) with 1; lia).
  exists (set_message (Some (BinaryData.bin d ++ payload self))
    (with_properties [Property.CorrelationData d] (set_property_len (BinaryData.len d + 3) (front self)))),
    (BuffReader.mk (bytes self ++ k) (zlen pre) n).
  split; [|split; [reflexivity|reflexivity]].
  rewrite Hbytes. replace ((pre ++ BinaryData.bin d ++ payload self) ++ k)
    with (pre ++ (BinaryData.bin d ++ payload self) ++ k) by (by rewrite <- !app_assoc).
  apply decode_message_at; [exact Hrl| |].
  - change (1 + zlen (vbi_bytes (rem_len self)) + rem_len self =
      zlen pre + zlen (BinaryData.bin d ++ payload self)).
    rewrite <- zlen_app, <- Hbytes. rewrite <- Hl. unfold bytes. by rewrite zlen_app.
  - rewrite <- zlen_app, <- Hbytes. lia.
Qed.

(** *** Every input *)

(** Beside the panics of the other decoders: a remaining length that ends
    before the properties do. *)
Definition publish_panics (x : panic_reason) : Prop := decode_panics x \/ x = PSlice.

Local Abbreviation I := (fun self : t MAX_PROPERTIES => vbi_ok (remain_len self)).

Lemma decode_message_triple :
  triple publish_panics 0 I decode_message (fun _ self => is_Some (message self)).
Proof.
  unfold decode_message. apply (triple_gets _ remain_len). intros n p r Hwf [HI Hp].
  unfold lift, on_snd, on_fst, modify, mbind, M_bind. cbn in HI. subst n.
  pose proof (zlen_vbi_bytes (remain_len p)). pose proof HI as HI'.
  unfold vbi_ok, MAX_ENCODABLE in HI'.
  rewrite encode_ok by done. unfold pad4. rewrite len_ok by done.
  rewrite checked_ok by lia. rewrite checked_ok by lia. cbn [fst snd].
  pose proof (read_message_runs publish_panics (zlen (vbi_bytes (remain_len p)) + 1 + remain_len p)
    (or_intror eq_refl) r Hwf) as Hr.
  destruct (BuffReader.read_message _ r) as [[m|e|x|] r']; try done.
  destruct Hr as (Hwf' & Hb & Hl & Hp & _). cbn.
  split; [by repeat split; try apply Hwf'|by eexists].
Qed.

Lemma publish_decode_ends :
  triple publish_panics 0 (fun _ => True) decode (fun _ self => is_Some (message self)).
Proof.
  unfold decode.
  eapply triple_bind with (n1 := 2) (n2 := 0);
    [exact (decode_fixed_header_triple publish_panics (fun _ => True)
      (or_introl (or_introl eq_refl)))| |lia].
  intros x. case_match; [done|].
  apply triple_weaken with (n := 0) (Pre := I)
    (Post := fun _ self => is_Some (message self)); [|done| |done];
    [|by intros p (b & n & q & _ & Hn & _ & _ & ->)].
  eapply triple_read with (n2 := 0); [apply read_string_runs|intros v _|lia].
  eapply triple_modify with (Mid := I); [done|]. apply (triple_gets _ fixed_header).
  intros h. eapply triple_bind with (n1 := 0) (n2 := 0) (Mid := fun _ => I); [| |lia].
  - destruct (negb _); [|apply triple_ret; by intros ? [? _]].
    eapply triple_read with (n2 := 0); [apply read_u16_runs|intros w _|lia].
    eapply triple_modify with (Mid := I); [by intros p [? _]|]. by apply triple_ret.
  - intros _. eapply triple_bind with (n1 := 1) (n2 := 0) (Mid := fun _ => I); [| |lia].
    + eapply triple_panics; [intros y Hy; by left|]. by apply decode_properties_triple.
    + intros _. apply decode_message_triple.
Qed.
End packet.
End PublishPacket.

(** ** Properties *)

(** C2: PUBLISH: a packet is encoded into a buffer that holds it, and refused by
    one that is too small.  If none of its properties is binary data or longer
    than 65535 bytes, the written bytes, with whatever the buffer held behind
    them, decode to the same packet with its remaining length filled in and, at
    QoS 0, where the packet identifier is not sent, the identifier 1; the message
    is exactly the payload and the reader stops in front of it. *)
Theorem publish_roundtrip `{Profile} `{HeaplessVec} MAX (p : PublishPacket.t MAX) buf n
  (Hp : PublishPacket.wf p) (Hn : 0 <= n <= zlen buf) :
  if zlen (PublishPacket.bytes p) <=? n then
    exists buf', PublishPacket.encode p buf n = (Ok (zlen (PublishPacket.bytes p)), buf') /\
      buf' = PublishPacket.bytes p ++ zdrop (zlen (PublishPacket.bytes p)) buf /\
      (Forall plain (PublishPacket.properties p) -> exists r,
        PublishPacket.decode (PublishPacket.new, BuffReader.new buf' (zlen (PublishPacket.bytes p))) =
          (Ok tt, (PublishPacket.set_packet_identifier
             (if PublishPacket.has_id p then PublishPacket.packet_identifier p else 1)
             (set_remaining_len (PublishPacket.rem_len p) p), r)) /\
        PublishPacket.message p = Some (BuffReader.rest r))
  else exists buf', PublishPacket.encode p buf n = (Err InsufficientBufferSize, buf').
Proof.
  destruct (PublishPacket.publish_encode_bytes p Hp buf n Hn) as [Hok Herr].
  destruct (Z.leb_spec (zlen (PublishPacket.bytes p)) n) as [Hfit|Hfit]; [|by apply Herr].
  pose proof (zlen_nonneg (PublishPacket.bytes p)).
  pose proof (framed_bytes _ (PublishPacket.publish_bytes_framed p Hp)).
  eexists. split; [by apply Hok|]. split; [done|]. intros Hpl. eexists. split.
  - rewrite PublishPacket.publish_decode_bytes; [reflexivity|done..| |].
    + by rewrite ztake_app_len.
    + pose proof (zlen_nonneg (zdrop (zlen (PublishPacket.bytes p)) buf)). zlen. lia.
  - destruct Hp as (_ & _ & _ & _ & [m Hm] & _).
    assert (Hpm : PublishPacket.bytes p = PublishPacket.header_bytes p ++ m)
      by (unfold PublishPacket.bytes, PublishPacket.payload; by rewrite Hm).
    unfold BuffReader.rest. cbn [BuffReader.position BuffReader.len BuffReader.buffer].
    rewrite Hm, Hpm, <- app_assoc, zdrop_app_len, (zlen_app (PublishPacket.header_bytes p)).
    by rewrite Z.add_simpl_l, ztake_app_len.
Qed.

Definition sample_publish : PublishPacket.t 4 :=
  PublishPacket.mk 0x32 0 (EncodedString.mk [97; 47; 98] 3) 513 5 [sample_reason]
    (Some [1; 2; 3; 4]).

Lemma sample_publish_wf : PublishPacket.wf sample_publish.
Proof.
  assert (Hs : properties_wf 4 5 [sample_reason]) by apply sample_properties_wf.
  do 7 (split; [concrete|]). exact Hs.
Qed.

Lemma publish_roundtrip_witness :
  exists buf', PublishPacket.encode (H := dev_profile) sample_publish (replicate 20 7) 20 =
      (Ok 19, buf') /\
    exists r, PublishPacket.decode (H := dev_profile) (H0 := list_vec) (MAX_PROPERTIES := 4)
      (PublishPacket.new, BuffReader.new buf' 19) =
      (Ok tt, (PublishPacket.mk 0x32 17 (EncodedString.mk [97; 47; 98] 3) 513 5 [sample_reason]
        (Some [1; 2; 3; 4]), r)) /\
    Some [1; 2; 3; 4] = Some (BuffReader.rest r).
Proof.
  assert (Hn : 0 <= 20 <= zlen (replicate 20 7)) by (vm_compute; split; discriminate).
  destruct (publish_roundtrip (H := dev_profile) (H0 := list_vec) 4 sample_publish
    (replicate 20 7) 20 sample_publish_wf Hn) as (buf' & He & _ & Hd).
  exists buf'. split; [exact He|exact (Hd sample_properties_plain)].
Defined.

(** C35: on any bytes, the PUBLISH decoder ends: with a packet that has a
    message and consumed bytes, an error, or a panic of one of three kinds: the
    index of an unterminated variable byte integer, the overflow of a 16-bit
    length, and the slice of a message that ends before it starts. *)
Theorem publish_decode_total `{Profile} `{HeaplessVec} MAX buf n
  (Hb : bytes_ok buf) (Hn : 0 <= n <= zlen buf) :
  match PublishPacket.decode (PublishPacket.new (MAX_PROPERTIES := MAX), BuffReader.new buf n) with
  | (Ok _, (p, r)) =>
      is_Some (PublishPacket.message p) /\ 0 <= BuffReader.position r <= n
  | (Err _, _) => True
  | (Panic x, _) => x = PIndex \/ x = POverflow \/ x = PSlice
  | (OutOfFuel, _) => False
  end.
Proof.
  assert (Hr : BuffReader.wf (BuffReader.new buf n))
    by (apply BuffReader_new_wf; [by apply Forall_take|done]).
  pose proof (PublishPacket.publish_decode_ends (PublishPacket.new (MAX_PROPERTIES := MAX)) _ Hr I) as He.
  destruct (PublishPacket.decode _) as [[u|e|x|] [p r]]; try done.
  - destruct He as [([Hp _] & _ & Hl & _) Hm]. split; [done|]. cbn in Hl. lia.
  - destruct He as [[-> | ->] | ->]; auto.
Qed.

(** A remaining length of 2 where the topic alone takes 3 bytes. *)
Definition short_publish : list Z := [0x30; 2; 0; 1; 97; 0].

Lemma publish_decode_total_witness :
  (PublishPacket.decode (H := dev_profile) (H0 := list_vec)
    (PublishPacket.new (MAX_PROPERTIES := 4), BuffReader.new short_publish 6)).1 = Panic PSlice /\
  match PublishPacket.decode (H := dev_profile) (H0 := list_vec)
    (PublishPacket.new (MAX_PROPERTIES := 4), BuffReader.new short_publish 6) with
  | (Ok _, (p, r)) =>
      is_Some (PublishPacket.message p) /\ 0 <= BuffReader.position r <= 6
  | (Err _, _) => True
  | (Panic x, _) => x = PIndex \/ x = POverflow \/ x = PSlice
  | (OutOfFuel, _) => False
  end.
Proof.
  split; [vm_compute; reflexivity|].
  apply (publish_decode_total (H := dev_profile) (H0 := list_vec) 4 short_publish 6);
    concrete.
Defined.

(** A QoS 0 PUBLISH whose only property is Correlation Data decodes with
    the correlation data in front of its message: [read_binary] does not move
    the reader past the data. *)
Theorem publish_correlation_in_message `{Profile} `{HeaplessVec} MAX
  (p : PublishPacket.t MAX) d
  (Hp : PublishPacket.wf p) (Hq : PublishPacket.has_id p = false)
  (Hps : PublishPacket.properties p = [Property.CorrelationData d])
  (Hd : BinaryData.len d < 2 ^ 16 - 2) :
  exists q r, PublishPacket.decode (PublishPacket.new (MAX_PROPERTIES := MAX),
      BuffReader.new (PublishPacket.bytes p) (zlen (PublishPacket.bytes p))) = (Ok tt, (q, r)) /\
    PublishPacket.properties q = [Property.CorrelationData d] /\
    PublishPacket.message q = Some (BinaryData.bin d ++ PublishPacket.payload p).
Proof.
  pose proof (PublishPacket.decode_correlation p d [] (zlen (PublishPacket.bytes p)) Hp Hq Hps Hd) as Hx.
  rewrite app_nil_r in Hx. apply Hx; [|lia]. rewrite ztake_all by lia.
  by apply framed_bytes, PublishPacket.publish_bytes_framed.
Qed.

Lemma publish_correlation_in_message_witness :
  let d := BinaryData.mk [7; 8] 2 in
  let p : PublishPacket.t 4 := PublishPacket.mk 0x30 0 (EncodedString.mk [97] 1) 1 5
    [Property.CorrelationData d] (Some [1; 2; 3]) in
  exists q r, PublishPacket.decode (H := dev_profile) (H0 := list_vec)
      (PublishPacket.new (MAX_PROPERTIES := 4),
       BuffReader.new (PublishPacket.bytes p) (zlen (PublishPacket.bytes p))) = (Ok tt, (q, r)) /\
    PublishPacket.properties q = [Property.CorrelationData d] /\
    PublishPacket.message q = Some [7; 8; 1; 2; 3].
Proof.
  intros d p.
  apply (publish_correlation_in_message (H := dev_profile) (H0 := list_vec) 4 p d); concrete.
Defined.
