(* ===== verification/ConnectPacket.v ===== *)
(** CONNECT: rust-mqtt/src/packet/v5/connect_packet.rs. *)
From S2P Require Import Prelude.
From S2P Require Import Utf8.
From S2P Require Import Types.
From S2P Require Import Vbi.
From S2P Require Import BuffReader.
From S2P Require Import BuffWriter.
From S2P Require Import Heapless.
From S2P Require Import Codes.
From S2P Require Import Property.
From S2P Require Import Packet.
Import BuffWriter(writes, write_u8, write_u16, write_u32, write_variable_byte_int,
  write_string_ref, write_binary_ref).
Import VariableByteIntegerEncoder(encode, len).

Module ConnectPacket.
Record t {MAX_PROPERTIES MAX_WILL_PROPERTIES : Z} : Type := mk {
  fixed_header : Z;
  remain_len : Z;
  protocol_name_len : Z;
  protocol_name : Z;
  protocol_version : Z;
  connect_flags : Z;
  keep_alive : Z;
  property_len : Z;
  properties : list Property.t;
  client_id : EncodedString.t;
  will_property_len : Z;
  will_properties : list Property.t;
  will_topic : EncodedString.t;
  will_payload : BinaryData.t;
  username : EncodedString.t;
  password : BinaryData.t
}.
Arguments t MAX_PROPERTIES MAX_WILL_PROPERTIES : clear implicits.
Arguments mk {MAX_PROPERTIES MAX_WILL_PROPERTIES}.

Section packet.
Context `{Profile} `{HeaplessVec} {MAX_PROPERTIES MAX_WILL_PROPERTIES : Z}.

Definition new : t MAX_PROPERTIES MAX_WILL_PROPERTIES :=
  mk (PacketType.into_u8 PacketType.Connect) 0 4 0x4d515454 5 0x02 180 0 []
    EncodedString.new 0 [] EncodedString.new BinaryData.new EncodedString.new
    BinaryData.new.

#[global] Instance packet : Packet (t MAX_PROPERTIES MAX_WILL_PROPERTIES) := {|
  set_property_len value self := mk (fixed_header self) (remain_len self)
      (protocol_name_len self) (protocol_name self) (protocol_version self)
      (connect_flags self) (keep_alive self) value (properties self)
      (client_id self) (will_property_len self) (will_properties self)
      (will_topic self) (will_payload self) (username self) (password self);
  get_property_len := property_len;
  push_to_properties property self := mk (fixed_header self) (remain_len self)
      (protocol_name_len self) (protocol_name self) (protocol_version self)
      (connect_flags self) (keep_alive self) (property_len self)
      (push MAX_PROPERTIES (properties self) property) (client_id self)
      (will_property_len self) (will_properties self) (will_topic self)
      (will_payload self) (username self) (password self);
  property_allowed self property := Property.connect_property property;
  set_fixed_header header self := mk header (remain_len self)
      (protocol_name_len self) (protocol_name self) (protocol_version self)
      (connect_flags self) (keep_alive self) (property_len self) (properties self)
      (client_id self) (will_property_len self) (will_properties self)
      (will_topic self) (will_payload self) (username self) (password self);
  set_remaining_len remaining_len' self := mk (fixed_header self) remaining_len'
      (protocol_name_len self) (protocol_name self) (protocol_version self)
      (connect_flags self) (keep_alive self) (property_len self) (properties self)
      (client_id self) (will_property_len self) (will_properties self)
      (will_topic self) (will_payload self) (username self) (password self)
|}.

#[global] #[refine] Instance packet_laws : PacketLaws (t MAX_PROPERTIES MAX_WILL_PROPERTIES) := {|
  properties_of := properties;
  with_properties l self := mk (fixed_header self) (remain_len self)
      (protocol_name_len self) (protocol_name self) (protocol_version self)
      (connect_flags self) (keep_alive self) (property_len self) l
      (client_id self) (will_property_len self) (will_properties self)
      (will_topic self) (will_payload self) (username self) (password self);
  max_properties := MAX_PROPERTIES
|}.
Proof. all: by intros; repeat match goal with p : t _ _ |- _ => destruct p end. Defined.

Definition set_connect_flags (v : Z) (self : t MAX_PROPERTIES MAX_WILL_PROPERTIES) : t MAX_PROPERTIES MAX_WILL_PROPERTIES :=
    mk (fixed_header self) (remain_len self) (protocol_name_len self)
    (protocol_name self) (protocol_version self) v (keep_alive self)
    (property_len self) (properties self) (client_id self)
    (will_property_len self) (will_properties self) (will_topic self)
    (will_payload self) (username self) (password self).
Definition set_keep_alive (v : Z) (self : t MAX_PROPERTIES MAX_WILL_PROPERTIES) : t MAX_PROPERTIES MAX_WILL_PROPERTIES :=
    mk (fixed_header self) (remain_len self) (protocol_name_len self)
    (protocol_name self) (protocol_version self) (connect_flags self) v
    (property_len self) (properties self) (client_id self)
    (will_property_len self) (will_properties self) (will_topic self)
    (will_payload self) (username self) (password self).
Definition set_client_id (v : EncodedString.t) (self : t MAX_PROPERTIES MAX_WILL_PROPERTIES) : t MAX_PROPERTIES MAX_WILL_PROPERTIES :=
    mk (fixed_header self) (remain_len self) (protocol_name_len self)
    (protocol_name self) (protocol_version self) (connect_flags self)
    (keep_alive self) (property_len self) (properties self) v
    (will_property_len self) (will_properties self) (will_topic self)
    (will_payload self) (username self) (password self).
Definition set_will_topic (v : EncodedString.t) (self : t MAX_PROPERTIES MAX_WILL_PROPERTIES) : t MAX_PROPERTIES MAX_WILL_PROPERTIES :=
    mk (fixed_header self) (remain_len self) (protocol_name_len self)
    (protocol_name self) (protocol_version self) (connect_flags self)
    (keep_alive self) (property_len self) (properties self) (client_id self)
    (will_property_len self) (will_properties self) v (will_payload self)
    (username self) (password self).
Definition set_will_payload (v : BinaryData.t) (self : t MAX_PROPERTIES MAX_WILL_PROPERTIES) : t MAX_PROPERTIES MAX_WILL_PROPERTIES :=
    mk (fixed_header self) (remain_len self) (protocol_name_len self)
    (protocol_name self) (protocol_version self) (connect_flags self)
    (keep_alive self) (property_len self) (properties self) (client_id self)
    (will_property_len self) (will_properties self) (will_topic self) v
    (username self) (password self).
Definition set_username (v : EncodedString.t) (self : t MAX_PROPERTIES MAX_WILL_PROPERTIES) : t MAX_PROPERTIES MAX_WILL_PROPERTIES :=
    mk (fixed_header self) (remain_len self) (protocol_name_len self)
    (protocol_name self) (protocol_version self) (connect_flags self)
    (keep_alive self) (property_len self) (properties self) (client_id self)
    (will_property_len self) (will_properties self) (will_topic self)
    (will_payload self) v (password self).
Definition set_password (v : BinaryData.t) (self : t MAX_PROPERTIES MAX_WILL_PROPERTIES) : t MAX_PROPERTIES MAX_WILL_PROPERTIES :=
    mk (fixed_header self) (remain_len self) (protocol_name_len self)
    (protocol_name self) (protocol_version self) (connect_flags self)
    (keep_alive self) (property_len self) (properties self) (client_id self)
    (will_property_len self) (will_properties self) (will_topic self)
    (will_payload self) (username self) v.

Definition clean : t MAX_PROPERTIES MAX_WILL_PROPERTIES :=
  let x := mk (PacketType.into_u8 PacketType.Connect) 0 4 0x4d515454 5 0x02 60 3 []
    EncodedString.new 0 [] EncodedString.new BinaryData.new EncodedString.new
    BinaryData.new in
  let y := Property.ReceiveMaximum 20 in
  let x := push_to_properties y x in
  set_client_id (EncodedString.mk (EncodedString.string (client_id x)) 0) x.

Definition add_packet_type (new_packet_type : PacketType.t)
    (self : t MAX_PROPERTIES MAX_WILL_PROPERTIES) : t MAX_PROPERTIES MAX_WILL_PROPERTIES :=
  let self := set_fixed_header (Z.land (fixed_header self) 0x0F) self in
  set_fixed_header (Z.lor (fixed_header self) (PacketType.into_u8 new_packet_type)) self.

Definition add_username (username : EncodedString.t) (self : t MAX_PROPERTIES MAX_WILL_PROPERTIES) : t MAX_PROPERTIES MAX_WILL_PROPERTIES :=
  let self := set_username username self in
  set_connect_flags (Z.lor (connect_flags self) 0x80) self.

Definition add_password (password : BinaryData.t) (self : t MAX_PROPERTIES MAX_WILL_PROPERTIES) : t MAX_PROPERTIES MAX_WILL_PROPERTIES :=
  let self := set_password password self in
  set_connect_flags (Z.lor (connect_flags self) 0x40) self.

Definition add_will (topic : EncodedString.t) (payload : BinaryData.t) (retain : bool)
    (self : t MAX_PROPERTIES MAX_WILL_PROPERTIES) : t MAX_PROPERTIES MAX_WILL_PROPERTIES :=
  let self := set_will_payload payload (set_will_topic topic self) in
  let self := set_connect_flags (Z.lor (connect_flags self) 0x04) self in
  if retain then set_connect_flags (Z.lor (connect_flags self) 0x20) self else self.

Definition add_client_id (id : EncodedString.t) (self : t MAX_PROPERTIES MAX_WILL_PROPERTIES) : t MAX_PROPERTIES MAX_WILL_PROPERTIES :=
  set_client_id id self.

Definition has (flag : Z) (self : t MAX_PROPERTIES MAX_WILL_PROPERTIES) : bool :=
  negb (Z.land (connect_flags self) flag =? 0).

Definition encode (self : t MAX_PROPERTIES MAX_WILL_PROPERTIES) (buffer : list Z) (buffer_len : Z)
  : outcome BufferError Z * list Z :=
  run_writer (
    property_len_enc ← lift (encode (property_len self));
    property_len_len ← lift (len property_len_enc);
    rm_ln ← lift (property_len self +u32 wrap 32 property_len_len);
    rm_ln ← lift (rm_ln +u32 10);
    rm_ln ← lift (rm_ln +u32 EncodedString.len (client_id self));
    rm_ln ← lift (rm_ln +u32 2);
    rm_ln ← (if has 0x04 self then
        wil_prop_len_enc ← lift (encode (will_property_len self));
        wil_prop_len_len ← lift (len wil_prop_len_enc);
        rm_ln ← lift (rm_ln +u32 wrap 32 wil_prop_len_len);
        rm_ln ← lift (rm_ln +u32 will_property_len self);
        rm_ln ← lift (rm_ln +u32 EncodedString.len (will_topic self));
        rm_ln ← lift (rm_ln +u32 2);
        rm_ln ← lift (rm_ln +u32 BinaryData.len (will_payload self));
        lift (rm_ln +u32 2)
      else mret rm_ln);
    rm_ln ← (if has 0x80 self then
        rm_ln ← lift (rm_ln +u32 EncodedString.len (username self));
        lift (rm_ln +u32 2)
      else mret rm_ln);
    rm_ln ← (if has 0x40 self then
        rm_ln ← lift (rm_ln +u32 BinaryData.len (password self));
        lift (rm_ln +u32 2)
      else mret rm_ln);
    write_u8 (fixed_header self) ;;;
    write_variable_byte_int rm_ln ;;;
    write_u16 (protocol_name_len self) ;;;
    write_u32 (protocol_name self) ;;;
    write_u8 (protocol_version self) ;;;
    write_u8 (connect_flags self) ;;;
    write_u16 (keep_alive self) ;;;
    write_variable_byte_int (property_len self) ;;;
    write_properties (properties self) ;;;
    write_string_ref (client_id self) ;;;
    (if has 0x04 self then
       write_variable_byte_int (will_property_len self) ;;;
       write_properties (will_properties self) ;;;
       write_string_ref (will_topic self) ;;;
       write_binary_ref (will_payload self)
     else mret tt) ;;;
    (if has 0x80 self then write_string_ref (username self) else mret tt) ;;;
    (if has 0x40 self then write_binary_ref (password self) else mret tt))
    buffer buffer_len.

Definition decode : M (t MAX_PROPERTIES MAX_WILL_PROPERTIES * BuffReader.t)
  BufferError unit := throw WrongPacketToDecode.

(** *** Specification: the CONNECT packet of MQTT 5, section 3.1 *)

Definition will_bytes (self : t MAX_PROPERTIES MAX_WILL_PROPERTIES) : list Z :=
  if has 0x04 self then
    vbi_bytes (will_property_len self) ++ Property.list_bytes (will_properties self)
    ++ EncodedString.bytes (will_topic self) ++ BinaryData.bytes (will_payload self)
  else [].

Definition username_bytes (self : t MAX_PROPERTIES MAX_WILL_PROPERTIES) : list Z :=
  if has 0x80 self then EncodedString.bytes (username self) else [].

Definition password_bytes (self : t MAX_PROPERTIES MAX_WILL_PROPERTIES) : list Z :=
  if has 0x40 self then BinaryData.bytes (password self) else [].

(** Variable header and payload. *)
Definition body (self : t MAX_PROPERTIES MAX_WILL_PROPERTIES) : list Z :=
  be_bytes 2 (protocol_name_len self) ++ be_bytes 4 (protocol_name self)
  ++ [protocol_version self] ++ [connect_flags self] ++ be_bytes 2 (keep_alive self)
  ++ vbi_bytes (property_len self) ++ Property.list_bytes (properties self)
  ++ EncodedString.bytes (client_id self)
  ++ will_bytes self ++ username_bytes self ++ password_bytes self.

Definition wf (self : t MAX_PROPERTIES MAX_WILL_PROPERTIES) : Prop :=
  EncodedString.wf (client_id self)
  /\ properties_wf MAX_PROPERTIES (property_len self) (properties self)
  /\ (has 0x04 self = true ->
      properties_wf MAX_WILL_PROPERTIES (will_property_len self) (will_properties self)
      /\ EncodedString.wf (will_topic self) /\ BinaryData.wf (will_payload self))
  /\ (has 0x80 self = true -> EncodedString.wf (username self))
  /\ (has 0x40 self = true -> BinaryData.wf (password self))
  /\ vbi_ok (zlen (body self)).

(** The remaining length in front of the body is the length of the body. *)
Definition bytes (self : t MAX_PROPERTIES MAX_WILL_PROPERTIES) : list Z :=
  [fixed_header self] ++ vbi_bytes (zlen (body self)) ++ body self.

Lemma zlen_will_bytes self :
  wf self ->
  zlen (will_bytes self) =
  if has 0x04 self
  then zlen (vbi_bytes (will_property_len self)) + will_property_len self
       + EncodedString.len (will_topic self) + 2 + BinaryData.len (will_payload self) + 2
  else 0.
Proof.
  intros (_ & _ & Hw & _). unfold will_bytes.
  destruct (has 0x04 self); [|done]. destruct Hw as ((_ & _ & _ & Hl) & Ht & Hp); [done|].
  zlen.
  rewrite zlen_EncodedString_bytes, zlen_BinaryData_bytes by done. lia.
Qed.

Lemma zlen_username_bytes self :
  wf self -> zlen (username_bytes self) =
  if has 0x80 self then EncodedString.len (username self) + 2 else 0.
Proof.
  intros (_ & _ & _ & Hu & _). unfold username_bytes.
  destruct (has 0x80 self); [by apply zlen_EncodedString_bytes, Hu|done].
Qed.

Lemma zlen_password_bytes self :
  wf self -> zlen (password_bytes self) =
  if has 0x40 self then BinaryData.len (password self) + 2 else 0.
Proof.
  intros (_ & _ & _ & _ & Hp & _). unfold password_bytes.
  destruct (has 0x40 self); [by apply zlen_BinaryData_bytes, Hp|done].
Qed.

Lemma zlen_body self :
  wf self ->
  zlen (body self) =
  property_len self + zlen (vbi_bytes (property_len self)) + 10
  + EncodedString.len (client_id self) + 2
  + zlen (will_bytes self) + zlen (username_bytes self) + zlen (password_bytes self).
Proof.
  intros (Hc & (_ & _ & _ & Hl) & _). unfold body. zlen.
  rewrite zlen_EncodedString_bytes by done. lia.
Qed.

(** The additions to the remaining length, one per optional field. *)
Local Ltac sum := first
  [ eapply yields_bind; [by apply encode_ok|]; eapply yields_bind; [by apply len_ok|];
    cbv beta; rewrite wrap_vbi_len
  | eapply yields_bind; [apply checked_ok; unfold vbi_ok, MAX_ENCODABLE in *; lia|]
  | apply yields_lift; apply checked_ok; unfold vbi_ok, MAX_ENCODABLE in *; lia ]; cbv beta.

Lemma will_sum self n :
  wf self -> 0 <= n -> n + zlen (will_bytes self) < 2 ^ 32 ->
  BuffWriter.yields (if has 0x04 self then
      wil_prop_len_enc ← lift (VariableByteIntegerEncoder.encode (will_property_len self));
      wil_prop_len_len ← lift (len wil_prop_len_enc);
      rm_ln ← lift (n +u32 wrap 32 wil_prop_len_len);
      rm_ln ← lift (rm_ln +u32 will_property_len self);
      rm_ln ← lift (rm_ln +u32 EncodedString.len (will_topic self));
      rm_ln ← lift (rm_ln +u32 2);
      rm_ln ← lift (rm_ln +u32 BinaryData.len (will_payload self));
      lift (rm_ln +u32 2)
    else mret n) (n + zlen (will_bytes self)).
Proof.
  intros Hwf Hn. rewrite zlen_will_bytes by done. destruct Hwf as (_ & _ & Hw & _).
  destruct (has 0x04 self); [|intros; rewrite Z.add_0_r; apply yields_ret].
  destruct Hw as (Hwps & Hwt & Hwp); [done|]. pose proof (properties_wf_len _ _ _ Hwps).
  pose proof (EncodedString_len_range _ Hwt). pose proof (BinaryData_len_range _ Hwp).
  pose proof (zlen_vbi_bytes (will_property_len self)). intros Hmax.
  rewrite !Z.add_assoc in *. repeat sum.
Qed.

Lemma username_sum self n :
  wf self -> 0 <= n -> n + zlen (username_bytes self) < 2 ^ 32 ->
  BuffWriter.yields (if has 0x80 self then
      rm_ln ← lift (n +u32 EncodedString.len (username self));
      lift (rm_ln +u32 2)
    else mret n) (n + zlen (username_bytes self)).
Proof.
  intros Hwf Hn. rewrite zlen_username_bytes by done. destruct Hwf as (_ & _ & _ & Hu & _).
  destruct (has 0x80 self); [|intros; rewrite Z.add_0_r; apply yields_ret].
  pose proof (EncodedString_len_range _ (Hu eq_refl)). intros Hmax.
  rewrite Z.add_assoc in *. repeat sum.
Qed.

Lemma password_sum self n :
  wf self -> 0 <= n -> n + zlen (password_bytes self) < 2 ^ 32 ->
  BuffWriter.yields (if has 0x40 self then
      rm_ln ← lift (n +u32 BinaryData.len (password self));
      lift (rm_ln +u32 2)
    else mret n) (n + zlen (password_bytes self)).
Proof.
  intros Hwf Hn. rewrite zlen_password_bytes by done. destruct Hwf as (_ & _ & _ & _ & Hp & _).
  destruct (has 0x40 self); [|intros; rewrite Z.add_0_r; apply yields_ret].
  pose proof (BinaryData_len_range _ (Hp eq_refl)). intros Hmax.
  rewrite Z.add_assoc in *. repeat sum.
Qed.

Lemma connect_encode_bytes self : wf self -> encodes (encode self) (bytes self).
Proof.
  intros Hwf. pose proof (zlen_body _ Hwf) as Hbody.
  pose proof (zlen_nonneg (will_bytes self)). pose proof (zlen_nonneg (username_bytes self)).
  pose proof (zlen_nonneg (password_bytes self)).
  pose proof Hwf as (Hc & Hps & Hw & Hu & Hp & Hv).
  pose proof (properties_wf_len _ _ _ Hps) as Hn. pose proof (EncodedString_len_range _ Hc).
  apply writes_encodes. encode_sums. pose proof Hv as Hmax. unfold vbi_ok, MAX_ENCODABLE in *.
  eapply writes_yields; [apply will_sum; [done|lia..]|cbv beta].
  eapply writes_yields; [apply username_sum; [done|lia..]|cbv beta].
  eapply writes_yields; [apply password_sum; [done|lia..]|cbv beta].
  rewrite <- Hbody. unfold bytes, body in *. encode_fields.
  apply writes_bind; [|apply writes_bind].
  - unfold will_bytes. destruct (has 0x04 self); [|by auto with writes].
    destruct Hw as (Hwps & Hwt & Hwp); [done|]. encode_fields. by auto with writes.
  - unfold username_bytes. destruct (has 0x80 self); by auto with writes.
  - unfold password_bytes. destruct (has 0x40 self); by auto with writes.
Qed.
End packet.
End ConnectPacket.

(** ** Properties *)

(** C24: CONNECT: the encoder writes the packet of MQTT 5, section 3.1, whose
    remaining length is the length of the body it announces, with the will,
    user name and password exactly when their flags are set; into a buffer that
    is too small it reports [InsufficientBufferSize]. *)
Theorem connect_encode `{Profile} MAX MAX_WILL (p : ConnectPacket.t MAX MAX_WILL) buf n
  (Hp : ConnectPacket.wf p) (Hn : 0 <= n <= zlen buf) :
  if zlen (ConnectPacket.bytes p) <=? n then
    ConnectPacket.encode p buf n =
      (Ok (zlen (ConnectPacket.bytes p)),
       ConnectPacket.bytes p ++ zdrop (zlen (ConnectPacket.bytes p)) buf)
  else exists buf', ConnectPacket.encode p buf n = (Err InsufficientBufferSize, buf').
Proof.
  destruct (ConnectPacket.connect_encode_bytes p Hp buf n Hn) as [Hok Herr].
  destruct (Z.leb_spec (zlen (ConnectPacket.bytes p)) n); auto.
Qed.

Definition sample_connect : ConnectPacket.t 4 2 :=
  ConnectPacket.mk 0x10 0 4 0x4d515454 5 0xC6 60 3 [Property.ReceiveMaximum 20]
    (EncodedString.mk [97] 1) 0 [] (EncodedString.mk [119] 1) (BinaryData.mk [1; 2] 2)
    (EncodedString.mk [117] 1) (BinaryData.mk [112; 119] 2).

Lemma connect_encode_witness :
  ConnectPacket.bytes sample_connect =
    [0x10; 32; 0; 4; 77; 81; 84; 84; 5; 0xC6; 0; 60; 3; 0x21; 0; 20; 0; 1; 97;
     0; 0; 1; 119; 0; 2; 1; 2; 0; 1; 117; 0; 2; 112; 119] /\
  ConnectPacket.encode (H := dev_profile) sample_connect (replicate 34 0) 34 =
    (Ok 34, ConnectPacket.bytes sample_connect ++ []).
Proof.
  split; [reflexivity|].
  apply (connect_encode (H := dev_profile) 4 2 sample_connect (replicate 34 0) 34); concrete.
Defined.

(** What the builders of the CONNECT packet promise the encoder: the bits
    of the will, the user name and the password are set when these are added,
    the will's retain bit is set when asked for, and no other flag changes. *)
Theorem connect_builders `{HeaplessVec} MAX MAX_WILL (p : ConnectPacket.t MAX MAX_WILL)
  topic payload retain user pass (Hf : byte_ok (ConnectPacket.connect_flags p)) :
  let q := ConnectPacket.add_password pass (ConnectPacket.add_username user
             (ConnectPacket.add_will topic payload retain p)) in
  ConnectPacket.has 0x04 q = true /\ ConnectPacket.has 0x80 q = true /\
  ConnectPacket.has 0x40 q = true /\
  ConnectPacket.has 0x20 q = (retain || ConnectPacket.has 0x20 p)%bool /\
  Z.land (ConnectPacket.connect_flags q) 0x1B = Z.land (ConnectPacket.connect_flags p) 0x1B /\
  ConnectPacket.will_topic q = topic /\ ConnectPacket.will_payload q = payload /\
  ConnectPacket.username q = user /\ ConnectPacket.password q = pass /\
  ConnectPacket.client_id q = ConnectPacket.client_id p.
Proof.
  intros q.
  assert (Hbits : ConnectPacket.has 0x04 q = true /\ ConnectPacket.has 0x80 q = true /\
    ConnectPacket.has 0x40 q = true /\
    ConnectPacket.has 0x20 q = (retain || ConnectPacket.has 0x20 p)%bool /\
    Z.land (ConnectPacket.connect_flags q) 0x1B = Z.land (ConnectPacket.connect_flags p) 0x1B).
  { unfold q, ConnectPacket.has, ConnectPacket.add_will. destruct retain; cbn -[Z.land Z.lor].
    all: apply (bool_decide_eq_true_1 _); generalize (ConnectPacket.connect_flags p) as f, Hf.
    - apply (byte_forall (fun f => bool_decide (
        negb (Z.land (Z.lor (Z.lor (Z.lor (Z.lor f 4) 32) 128) 64) 4 =? 0) = true /\
        negb (Z.land (Z.lor (Z.lor (Z.lor (Z.lor f 4) 32) 128) 64) 128 =? 0) = true /\
        negb (Z.land (Z.lor (Z.lor (Z.lor (Z.lor f 4) 32) 128) 64) 64 =? 0) = true /\
        negb (Z.land (Z.lor (Z.lor (Z.lor (Z.lor f 4) 32) 128) 64) 32 =? 0) = true /\
        Z.land (Z.lor (Z.lor (Z.lor (Z.lor f 4) 32) 128) 64) 27 = Z.land f 27))).
      by vm_compute.
    - apply (byte_forall (fun f => bool_decide (
        negb (Z.land (Z.lor (Z.lor (Z.lor f 4) 128) 64) 4 =? 0) = true /\
        negb (Z.land (Z.lor (Z.lor (Z.lor f 4) 128) 64) 128 =? 0) = true /\
        negb (Z.land (Z.lor (Z.lor (Z.lor f 4) 128) 64) 64 =? 0) = true /\
        negb (Z.land (Z.lor (Z.lor (Z.lor f 4) 128) 64) 32 =? 0) = negb (Z.land f 32 =? 0) /\
        Z.land (Z.lor (Z.lor (Z.lor f 4) 128) 64) 27 = Z.land f 27))).
      by vm_compute. }
  destruct Hbits as (H1 & H2 & H3 & H4 & H5). do 5 (split; [assumption|]).
  unfold q, ConnectPacket.add_will. by destruct retain.
Qed.

Lemma connect_builders_witness :
  ConnectPacket.connect_flags (ConnectPacket.clean (H0 := list_vec) (MAX_PROPERTIES := 4) (MAX_WILL_PROPERTIES := 2)) = 2 /\
  ConnectPacket.has 0x20 (ConnectPacket.add_password BinaryData.new
    (ConnectPacket.add_username EncodedString.new
      (ConnectPacket.add_will EncodedString.new BinaryData.new true
        (ConnectPacket.clean (H0 := list_vec) (MAX_PROPERTIES := 4) (MAX_WILL_PROPERTIES := 2))))) = true.
Proof.
  split; [reflexivity|].
  apply (connect_builders (H := list_vec) 4 2 (ConnectPacket.clean (H0 := list_vec))
    EncodedString.new BinaryData.new true EncodedString.new BinaryData.new); concrete.
Defined.
