(* ===== verification/Subscriptions.v ===== *)
(** SUBSCRIBE, UNSUBSCRIBE and their acknowledgements: subscription_packet.rs,
    unsubscription_packet.rs, suback_packet.rs and unsuback_packet.rs of
    rust-mqtt/src/packet/v5. *)
From S2P Require Import Prelude.
From S2P Require Import Utf8.
From S2P Require Import Types.
From S2P Require Import Vbi.
From S2P Require Import BuffReader.
From S2P Require Import BuffWriter.
From S2P Require Import Heapless.
From S2P Require Import Codes.
From S2P Require Import Property.
From S2P Require Import Packet.
Import BuffWriter(writes, write_u8, write_u16, write_variable_byte_int,
  write_topic_filters_ref).
Import VariableByteIntegerEncoder(encode, len).

(** The loop of [encode] that adds up the filters' lengths; [extra] is 3 in
    SUBSCRIBE and 2 in UNSUBSCRIBE. *)
Fixpoint filters_len_loop `{Profile} {E} (fuel : nat) (extra : Z)
    (topic_filters : list TopicFilter.t) (topic_filter_len lt filters_len : Z)
  : outcome E Z :=
  match fuel with
  | O => OutOfFuel
  | S fuel =>
    f ← unwrap (topic_filters !! Z.to_nat lt);
    filters_len ← filters_len +u16 EncodedString.len (TopicFilter.filter f);
    filters_len ← filters_len +u16 extra;
    let lt := lt + 1 in
    if lt =? topic_filter_len then Ok filters_len
    else filters_len_loop fuel extra topic_filters topic_filter_len lt filters_len
  end.

(** [unwrap] panics past the last filter: one more turn than filters. *)
Definition filters_len `{Profile} {E} (extra : Z) (topic_filters : list TopicFilter.t)
    (topic_filter_len : Z) : outcome E Z :=
  filters_len_loop (S (length topic_filters)) extra topic_filters topic_filter_len 0 0.

(** The loop computes the wire length of the filters. *)
Lemma filters_len_loop_ok `{Profile} {E} (sub : bool) fuel pre f suf acc :
  Forall TopicFilter.wf (f :: suf) -> (length suf < fuel)%nat -> 0 <= acc ->
  acc + zlen (concat (map (TopicFilter.bytes sub) (f :: suf))) < 2 ^ 16 ->
  filters_len_loop (E := E) fuel (if sub then 3 else 2) (pre ++ f :: suf)
    (zlen (pre ++ f :: suf)) (zlen pre) acc =
  Ok (acc + zlen (concat (map (TopicFilter.bytes sub) (f :: suf)))).
Proof.
  revert pre f acc fuel. induction suf as [|g suf IH]; intros pre f acc fuel Hf Hfuel Hacc Hmax;
    (destruct fuel as [|fuel]; [lia|]); cbn [filters_len_loop].
  all: inversion Hf as [|? ? Hf1 Hf2]; subst; clear Hf.
  all: assert (Hz : forall l, zlen (TopicFilter.bytes sub f ++ l) =
    EncodedString.len (TopicFilter.filter f) + (if sub then 3 else 2) + zlen l)
    by (intros l; rewrite zlen_app, zlen_TopicFilter_bytes by done; destruct sub; lia).
  all: cbn [map concat] in *; rewrite Hz in *.
  all: pose proof (EncodedString_len_range _ (proj1 Hf1)).
  all: assert (Hge : forall l : list Z, 0 <= zlen l) by (intros; apply zlen_nonneg).
  all: replace (Z.to_nat (zlen pre)) with (length pre) by (unfold zlen; lia).
  all: rewrite list_lookup_middle by done; cbn [unwrap].
  - cbn in Hmax. rewrite zlen_nil in *.
    unfold mbind, outcome_bind. rewrite checked_ok by (destruct sub; lia).
    rewrite checked_ok by (destruct sub; lia). zlen.
    rewrite (proj2 (Z.eqb_eq _ _)) by lia. f_equal. destruct sub; lia.
  - pose proof (Hge (TopicFilter.bytes sub g ++ concat (map (TopicFilter.bytes sub) suf))).
    unfold mbind, outcome_bind. rewrite checked_ok by (destruct sub; lia).
    rewrite checked_ok by (destruct sub; lia).
    rewrite (proj2 (Z.eqb_neq _ _)) by (zlen; pose proof (zlen_nonneg suf); lia).
    specialize (IH (pre ++ [f]) g (acc + EncodedString.len (TopicFilter.filter f)
      + (if sub then 3 else 2)) fuel Hf2 ltac:(cbn in Hfuel; lia)).
    rewrite <- app_assoc in IH. cbn [app map concat] in IH.
    replace (zlen (pre ++ [f])) with (zlen pre + 1) in IH by (by zlen).
    rewrite IH by (destruct sub; lia). f_equal. destruct sub; lia.
Qed.

Lemma filters_len_ok `{Profile} {E} (sub : bool) fs n :
  fs <> [] -> n = zlen fs -> Forall TopicFilter.wf fs ->
  zlen (concat (map (TopicFilter.bytes sub) fs)) < 2 ^ 16 ->
  filters_len (E := E) (if sub then 3 else 2) fs n =
  Ok (zlen (concat (map (TopicFilter.bytes sub) fs))).
Proof.
  intros Hne -> Hf Hmax. destruct fs as [|f fs]; [done|].
  apply (filters_len_loop_ok sub _ []); try done. cbn. lia.
Qed.

(** A count of filters that the vector does not hold: the loop runs past its
    end.  An empty packet, whose count is 0, is a case of it. *)
Lemma filters_len_loop_missing `{Profile} {E} fuel extra fs n lt acc :
  0 <= lt <= zlen fs -> zlen fs < lt + Z.of_nat fuel -> zlen fs < n \/ n <= lt ->
  is_panic (filters_len_loop (E := E) fuel extra fs n lt acc) = true.
Proof.
  revert lt acc. induction fuel as [|fuel IH]; intros lt acc Hlt Hfuel Hn;
    cbn [filters_len_loop]; [lia|].
  destruct (fs !! Z.to_nat lt) as [f|] eqn:Hf; [|done].
  apply lookup_lt_Some in Hf. cbn [unwrap]. unfold mbind, outcome_bind.
  unfold checked at 1. destruct (in_width _ _); [|destruct overflow_checks; [done|]];
    (unfold checked at 1; destruct (in_width _ _); [|destruct overflow_checks; [done|]]);
    (rewrite (proj2 (Z.eqb_neq _ _)) by (unfold zlen in *; lia));
    apply IH; unfold zlen in *; lia.
Qed.

Lemma filters_len_missing `{Profile} {E} extra fs n :
  zlen fs < n \/ n <= 0 -> is_panic (filters_len (E := E) extra fs n) = true.
Proof.
  intros Hn. apply filters_len_loop_missing; unfold zlen in *; lia.
Qed.

Module SubscriptionPacket.
Record t {MAX_FILTERS MAX_PROPERTIES : Z} : Type := mk {
  fixed_header : Z;
  remain_len : Z;
  packet_identifier : Z;
  property_len : Z;
  properties : list Property.t;
  topic_filter_len : Z;
  topic_filters : list TopicFilter.t
}.
Arguments t MAX_FILTERS MAX_PROPERTIES : clear implicits.
Arguments mk {MAX_FILTERS MAX_PROPERTIES}.

Section packet.
Context `{Profile} `{HeaplessVec} {MAX_FILTERS MAX_PROPERTIES : Z}.

Definition new : t MAX_FILTERS MAX_PROPERTIES :=
  mk (PacketType.into_u8 PacketType.Subscribe) 0 1 0 [] 0 [].

#[global] Instance packet : Packet (t MAX_FILTERS MAX_PROPERTIES) := {|
  set_property_len value self := mk (fixed_header self) (remain_len self)
      (packet_identifier self) value (properties self) (topic_filter_len self)
      (topic_filters self);
  get_property_len := property_len;
  push_to_properties property self := mk (fixed_header self) (remain_len self)
      (packet_identifier self) (property_len self)
      (push MAX_PROPERTIES (properties self) property) (topic_filter_len self)
      (topic_filters self);
  property_allowed self property := Property.subscribe_property property;
  set_fixed_header header self := mk header (remain_len self)
      (packet_identifier self) (property_len self) (properties self)
      (topic_filter_len self) (topic_filters self);
  set_remaining_len remaining_len' self := mk (fixed_header self) remaining_len'
      (packet_identifier self) (property_len self) (properties self)
      (topic_filter_len self) (topic_filters self)
|}.

#[global] #[refine] Instance packet_laws : PacketLaws (t MAX_FILTERS MAX_PROPERTIES) := {|
  properties_of := properties;
  with_properties l self := mk (fixed_header self) (remain_len self)
      (packet_identifier self) (property_len self) l (topic_filter_len self)
      (topic_filters self);
  max_properties := MAX_PROPERTIES
|}.
Proof. all: by intros; repeat match goal with p : t _ _ |- _ => destruct p end. Defined.

Definition set_packet_identifier (v : Z) (self : t MAX_FILTERS MAX_PROPERTIES) : t MAX_FILTERS MAX_PROPERTIES :=
    mk (fixed_header self) (remain_len self) v (property_len self)
    (properties self) (topic_filter_len self) (topic_filters self).

Definition add_new_filter {E} (topic_name : list Z) (qos : QualityOfService.t) (self : t MAX_FILTERS MAX_PROPERTIES)
  : outcome E (t MAX_FILTERS MAX_PROPERTIES) :=
  let new_filter := TopicFilter.mk (EncodedString.of_str topic_name)
    (Z.lor 0 (Z.shiftr (QualityOfService.into_u8 qos) 1)) in
  let topic_filters' := push MAX_FILTERS (topic_filters self) new_filter in
  topic_filter_len' ← topic_filter_len self +u16 1;
  Ok (mk (fixed_header self) (remain_len self) (packet_identifier self)
    (property_len self) (properties self) topic_filter_len' topic_filters').

Definition encode (self : t MAX_FILTERS MAX_PROPERTIES) (buffer : list Z) (buffer_len : Z)
  : outcome BufferError Z * list Z :=
  run_writer (
    property_len_enc ← lift (encode (property_len self));
    property_len_len ← lift (len property_len_enc);
    filters_len ← lift (filters_len 3 (topic_filters self) (topic_filter_len self));
    rm_ln ← lift (property_len self +u32 wrap 32 property_len_len);
    rm_ln ← lift (rm_ln +u32 2);
    rm_ln ← lift (rm_ln +u32 filters_len);
    write_u8 (fixed_header self) ;;;
    write_variable_byte_int rm_ln ;;;
    write_u16 (packet_identifier self) ;;;
    write_variable_byte_int (property_len self) ;;;
    write_properties (properties self) ;;;
    write_topic_filters_ref true (topic_filters self)) buffer buffer_len.

Definition decode : M (t MAX_FILTERS MAX_PROPERTIES * BuffReader.t) BufferError unit :=
  throw WrongPacketToDecode.

(** *** Specification *)

Definition filter_bytes (self : t MAX_FILTERS MAX_PROPERTIES) : list Z :=
  concat (map (TopicFilter.bytes true) (topic_filters self)).

Definition rem_len (self : t MAX_FILTERS MAX_PROPERTIES) : Z :=
  property_len self + zlen (vbi_bytes (property_len self)) + 2
  + zlen (filter_bytes self).

(** [encode] needs at least one filter and the count of the filters that are
    in the vector; their total length is a 16-bit number. *)
Definition wf (self : t MAX_FILTERS MAX_PROPERTIES) : Prop :=
  topic_filters self <> [] /\ topic_filter_len self = zlen (topic_filters self)
  /\ Forall TopicFilter.wf (topic_filters self) /\ zlen (filter_bytes self) < 2 ^ 16
  /\ vbi_ok (rem_len self)
  /\ properties_wf MAX_PROPERTIES (property_len self) (properties self).

Definition bytes (self : t MAX_FILTERS MAX_PROPERTIES) : list Z :=
  [fixed_header self] ++ vbi_bytes (rem_len self)
  ++ be_bytes 2 (packet_identifier self)
  ++ vbi_bytes (property_len self) ++ Property.list_bytes (properties self)
  ++ filter_bytes self.

Lemma subscription_encode_bytes self : wf self -> encodes (encode self) (bytes self).
Proof.
  intros (Hne & Hn & Hf & Hfl & Hrl & Hps). pose proof (properties_wf_len _ _ _ Hps).
  pose proof (zlen_nonneg (filter_bytes self)). unfold rem_len in Hrl.
  apply writes_encodes. encode_sums.
  eapply writes_lift; [by apply (filters_len_ok true)|cbv beta].
  fold (filter_bytes self). encode_sums. unfold bytes, rem_len. encode_fields.
  by auto with writes.
Qed.
End packet.
End SubscriptionPacket.

Module UnsubscriptionPacket.
Record t {MAX_FILTERS MAX_PROPERTIES : Z} : Type := mk {
  fixed_header : Z;
  remain_len : Z;
  packet_identifier : Z;
  property_len : Z;
  properties : list Property.t;
  topic_filter_len : Z;
  topic_filters : list TopicFilter.t
}.
Arguments t MAX_FILTERS MAX_PROPERTIES : clear implicits.
Arguments mk {MAX_FILTERS MAX_PROPERTIES}.

Section packet.
Context `{Profile} `{HeaplessVec} {MAX_FILTERS MAX_PROPERTIES : Z}.

Definition new : t MAX_FILTERS MAX_PROPERTIES :=
  mk (PacketType.into_u8 PacketType.Unsubscribe) 0 0 0 [] 0 [].

#[global] Instance packet : Packet (t MAX_FILTERS MAX_PROPERTIES) := {|
  set_property_len value self := mk (fixed_header self) (remain_len self)
      (packet_identifier self) value (properties self) (topic_filter_len self)
      (topic_filters self);
  get_property_len := property_len;
  push_to_properties property self := mk (fixed_header self) (remain_len self)
      (packet_identifier self) (property_len self)
      (push MAX_PROPERTIES (properties self) property) (topic_filter_len self)
      (topic_filters self);
  property_allowed self property := Property.unsubscribe_property property;
  set_fixed_header header self := mk header (remain_len self)
      (packet_identifier self) (property_len self) (properties self)
      (topic_filter_len self) (topic_filters self);
  set_remaining_len remaining_len' self := mk (fixed_header self) remaining_len'
      (packet_identifier self) (property_len self) (properties self)
      (topic_filter_len self) (topic_filters self)
|}.

#[global] #[refine] Instance packet_laws : PacketLaws (t MAX_FILTERS MAX_PROPERTIES) := {|
  properties_of := properties;
  with_properties l self := mk (fixed_header self) (remain_len self)
      (packet_identifier self) (property_len self) l (topic_filter_len self)
      (topic_filters self);
  max_properties := MAX_PROPERTIES
|}.
Proof. all: by intros; repeat match goal with p : t _ _ |- _ => destruct p end. Defined.

Definition set_packet_identifier (v : Z) (self : t MAX_FILTERS MAX_PROPERTIES) : t MAX_FILTERS MAX_PROPERTIES :=
    mk (fixed_header self) (remain_len self) v (property_len self)
    (properties self) (topic_filter_len self) (topic_filters self).

Definition add_new_filter {E} (topic_name : list Z) (self : t MAX_FILTERS MAX_PROPERTIES)
  : outcome E (t MAX_FILTERS MAX_PROPERTIES) :=
  let new_filter := TopicFilter.mk (EncodedString.of_str topic_name)
    (Z.lor 0 0x01) in
  let topic_filters' := push MAX_FILTERS (topic_filters self) new_filter in
  topic_filter_len' ← topic_filter_len self +u16 1;
  Ok (mk (fixed_header self) (remain_len self) (packet_identifier self)
    (property_len self) (properties self) topic_filter_len' topic_filters').

Definition encode (self : t MAX_FILTERS MAX_PROPERTIES) (buffer : list Z) (buffer_len : Z)
  : outcome BufferError Z * list Z :=
  run_writer (
    property_len_enc ← lift (encode (property_len self));
    property_len_len ← lift (len property_len_enc);
    filters_len ← lift (filters_len 2 (topic_filters self) (topic_filter_len self));
    rm_ln ← lift (property_len self +u32 wrap 32 property_len_len);
    rm_ln ← lift (rm_ln +u32 2);
    rm_ln ← lift (rm_ln +u32 filters_len);
    write_u8 (fixed_header self) ;;;
    write_variable_byte_int rm_ln ;;;
    write_u16 (packet_identifier self) ;;;
    write_variable_byte_int (property_len self) ;;;
    write_properties (properties self) ;;;
    write_topic_filters_ref false (topic_filters self)) buffer buffer_len.

Definition decode : M (t MAX_FILTERS MAX_PROPERTIES * BuffReader.t) BufferError unit :=
  throw WrongPacketToDecode.

(** *** Specification *)

Definition filter_bytes (self : t MAX_FILTERS MAX_PROPERTIES) : list Z :=
  concat (map (TopicFilter.bytes false) (topic_filters self)).

Definition rem_len (self : t MAX_FILTERS MAX_PROPERTIES) : Z :=
  property_len self + zlen (vbi_bytes (property_len self)) + 2
  + zlen (filter_bytes self).

(** [encode] needs at least one filter and the count of the filters that are
    in the vector; their total length is a 16-bit number. *)
Definition wf (self : t MAX_FILTERS MAX_PROPERTIES) : Prop :=
  topic_filters self <> [] /\ topic_filter_len self = zlen (topic_filters self)
  /\ Forall TopicFilter.wf (topic_filters self) /\ zlen (filter_bytes self) < 2 ^ 16
  /\ vbi_ok (rem_len self)
  /\ properties_wf MAX_PROPERTIES (property_len self) (properties self).

Definition bytes (self : t MAX_FILTERS MAX_PROPERTIES) : list Z :=
  [fixed_header self] ++ vbi_bytes (rem_len self)
  ++ be_bytes 2 (packet_identifier self)
  ++ vbi_bytes (property_len self) ++ Property.list_bytes (properties self)
  ++ filter_bytes self.

Lemma unsubscription_encode_bytes self : wf self -> encodes (encode self) (bytes self).
Proof.
  intros (Hne & Hn & Hf & Hfl & Hrl & Hps). pose proof (properties_wf_len _ _ _ Hps).
  pose proof (zlen_nonneg (filter_bytes self)). unfold rem_len in Hrl.
  apply writes_encodes. encode_sums.
  eapply writes_lift; [by apply (filters_len_ok false)|cbv beta].
  fold (filter_bytes self). encode_sums. unfold bytes, rem_len. encode_fields.
  by auto with writes.
Qed.
End packet.
End UnsubscriptionPacket.


Module SubackPacket.
Record t {MAX_REASONS MAX_PROPERTIES : Z} : Type := mk {
  fixed_header : Z;
  remain_len : Z;
  packet_identifier : Z;
  property_len : Z;
  properties : list Property.t;
  reason_codes : list Z
}.
Arguments t MAX_REASONS MAX_PROPERTIES : clear implicits.
Arguments mk {MAX_REASONS MAX_PROPERTIES}.

Section packet.
Context `{Profile} `{HeaplessVec} {MAX_REASONS MAX_PROPERTIES : Z}.

Definition new : t MAX_REASONS MAX_PROPERTIES :=
  mk (PacketType.into_u8 PacketType.Suback) 0 0 0 [] [].

#[global] Instance packet : Packet (t MAX_REASONS MAX_PROPERTIES) := {|
  set_property_len value self := mk (fixed_header self) (remain_len self)
      (packet_identifier self) value (properties self) (reason_codes self);
  get_property_len := property_len;
  push_to_properties property self := mk (fixed_header self) (remain_len self)
      (packet_identifier self) (property_len self)
      (push MAX_PROPERTIES (properties self) property) (reason_codes self);
  property_allowed self property := Property.suback_property property;
  set_fixed_header header self := mk header (remain_len self)
      (packet_identifier self) (property_len self) (properties self)
      (reason_codes self);
  set_remaining_len remaining_len' self := mk (fixed_header self) remaining_len'
      (packet_identifier self) (property_len self) (properties self)
      (reason_codes self)
|}.

#[global] #[refine] Instance packet_laws : PacketLaws (t MAX_REASONS MAX_PROPERTIES) := {|
  properties_of := properties;
  with_properties l self := mk (fixed_header self) (remain_len self)
      (packet_identifier self) (property_len self) l (reason_codes self);
  max_properties := MAX_PROPERTIES
|}.
Proof. all: by intros; repeat match goal with p : t _ _ |- _ => destruct p end. Defined.

Definition set_packet_identifier (v : Z) (self : t MAX_REASONS MAX_PROPERTIES) : t MAX_REASONS MAX_PROPERTIES :=
    mk (fixed_header self) (remain_len self) v (property_len self)
    (properties self) (reason_codes self).
Definition set_reason_codes (v : list Z) (self : t MAX_REASONS MAX_PROPERTIES) : t MAX_REASONS MAX_PROPERTIES :=
    mk (fixed_header self) (remain_len self) (packet_identifier self)
    (property_len self) (properties self) v.

Definition push_reason (b : Z) (self : t MAX_REASONS MAX_PROPERTIES) : t MAX_REASONS MAX_PROPERTIES :=
  set_reason_codes (push MAX_REASONS (reason_codes self) b) self.

Fixpoint reason_loop (fuel : nat) (max : Z) : M (t MAX_REASONS MAX_PROPERTIES * BuffReader.t) BufferError unit :=
  match fuel with
  | O => lift OutOfFuel
  | S fuel =>
    b ← on_snd BuffReader.read_u8;
    on_fst (modify (push_reason b)) ;;;
    p ← gets (fun st => BuffReader.position st.2);
    if p =? max then mret tt else reason_loop fuel max
  end.

Definition read_reason_codes : M (t MAX_REASONS MAX_PROPERTIES * BuffReader.t) BufferError unit :=
  n ← gets (fun st => remain_len st.1);
  v ← lift (unwrap_res (encode n));
  rm_ln_ln ← lift (len v);
  max ← lift (n +usize rm_ln_ln);
  max ← lift (max +usize 1);
  p ← gets (fun st => BuffReader.position st.2);
  if p >=? max then mret tt
  else
    fuel ← gets (fun st => loop_fuel st.2);
    reason_loop fuel max.

Definition encode (self : t MAX_REASONS MAX_PROPERTIES) (buffer : list Z) (buffer_len : Z)
  : outcome BufferError Z * list Z := (Err WrongPacketToEncode, buffer).

Definition decode : M (t MAX_REASONS MAX_PROPERTIES * BuffReader.t) BufferError unit :=
  x ← decode_fixed_header;
  if bool_decide (x ≠ PacketType.Suback) then throw PacketTypeMismatch
  else
    v ← on_snd BuffReader.read_u16;
    on_fst (modify (set_packet_identifier v)) ;;;
    decode_properties ;;;
    read_reason_codes.

(** *** Specification *)

Definition rem_len (self : t MAX_REASONS MAX_PROPERTIES) : Z :=
  2 + zlen (vbi_bytes (property_len self)) + property_len self
  + zlen (reason_codes self).

Definition wf (self : t MAX_REASONS MAX_PROPERTIES) : Prop :=
  byte_ok (fixed_header self)
  /\ PacketType.from_u8 (fixed_header self) = PacketType.Suback
  /\ 0 <= packet_identifier self < 2 ^ 16 /\ bytes_ok (reason_codes self)
  /\ zlen (reason_codes self) <= MAX_REASONS
  /\ vbi_ok (rem_len self)
  /\ properties_wf MAX_PROPERTIES (property_len self) (properties self).

(** The packet the client decodes. *)
Definition received (self : t MAX_REASONS MAX_PROPERTIES) : t MAX_REASONS MAX_PROPERTIES :=
  set_remaining_len (rem_len self) self.

Definition header_bytes (self : t MAX_REASONS MAX_PROPERTIES) : list Z :=
  [fixed_header self] ++ vbi_bytes (rem_len self)
  ++ be_bytes 2 (packet_identifier self)
  ++ vbi_bytes (property_len self) ++ Property.list_bytes (properties self).

(** The form a server sends; the client only reads it. *)
Definition bytes (self : t MAX_REASONS MAX_PROPERTIES) : list Z := header_bytes self ++ reason_codes self.

Lemma suback_bytes_framed self : wf self -> framed (bytes self).
Proof.
  intros Hwf. assert (Hps : properties_wf MAX_PROPERTIES (property_len self) (properties self))
    by apply Hwf. assert (Hrl : vbi_ok (rem_len self)) by apply Hwf.
  destruct Hwf as (Hh & _ & Hi & Hb & _).
  unfold bytes, header_bytes. rewrite <- !app_assoc.
  eexists _, (rem_len self), _. split; [reflexivity|split; [done|split]].
  - unfold rem_len. zlen. rewrite (zlen_properties _ _ _ Hps). lia.
  - by bytes.
Qed.

Lemma suback_decode_header self :
  wf self -> Forall plain (properties self) ->
  leads decode new (header_bytes self) read_reason_codes
    (set_reason_codes [] (received self)).
Proof.
  intros Hwf Hpl. assert (Hps : properties_wf MAX_PROPERTIES (property_len self) (properties self))
    by apply Hwf. assert (Hrl : vbi_ok (rem_len self)) by apply Hwf.
  destruct Hwf as (Hh & Ht & Hi & _). unfold decode, header_bytes.
  change ([fixed_header self] ++ vbi_bytes (rem_len self) ++ ?l)
    with ((fixed_header self :: vbi_bytes (rem_len self)) ++ l).
  eapply decodes_bind; [by apply decode_fixed_header_decodes|].
  rewrite Ht, bool_decide_eq_false_2 by auto.
  eapply decodes_read; [by auto with reads|]. apply decodes_modify.
  rewrite <- (app_nil_r (vbi_bytes _ ++ _)).
  eapply decodes_bind; [|apply decodes_ret].
  apply decode_properties_self; [done|done|done|]. unfold set_reason_codes.
  by destruct self.
Qed.

(** *** The reason codes *)

Lemma suback_push_reasons codes p :
  fold_left (fun p b => push_reason b p) codes p =
  set_reason_codes (fold_left (push MAX_REASONS) codes (reason_codes p)) p.
Proof.
  revert p. induction codes as [|b codes IH]; intros p; cbn [fold_left].
  - by destruct p.
  - rewrite IH. by destruct p.
Qed.

Lemma suback_push_reasons_room codes p :
  reason_codes p = [] -> zlen codes <= MAX_REASONS ->
  fold_left (fun p b => push_reason b p) codes p = set_reason_codes codes p.
Proof.
  intros Hp Hl. rewrite suback_push_reasons, Hp, push_all by (rewrite zlen_nil; pose proof (zlen_nonneg codes); lia).
  by rewrite zlen_nil, Z.sub_0_r, ztake_all by lia.
Qed.

Lemma reason_loop_reads codes fuel max p r k :
  BuffReader.wf r -> BuffReader.rest r = codes ++ k -> codes <> [] ->
  (length codes <= fuel)%nat -> max = BuffReader.position r + zlen codes ->
  reason_loop fuel max (p, r) =
  (Ok tt, (fold_left (fun p b => push_reason b p) codes p, BuffReader.advance (zlen codes) r)).
Proof.
  revert fuel p r. induction codes as [|b codes IH]; intros fuel p r Hwf Hr Hne Hfuel ->; [done|].
  destruct fuel as [|fuel]; [cbn in Hfuel; lia|]. cbn [reason_loop].
  pose proof (read_u8_reads b r (codes ++ k) Hwf Hr) as Hb.
  rewrite (bind_ok _ _ _ _ _ (on_snd_ok _ p _ _ _ Hb)).
  erewrite bind_ok by reflexivity. erewrite bind_ok by reflexivity. cbn [snd fst fold_left].
  unfold BuffReader.advance at 1. cbn [BuffReader.position]. zlen. rewrite Z.add_0_r.
  destruct codes as [|c codes].
  - rewrite zlen_nil, Z.add_0_r, Z.eqb_refl. done.
  - pose proof (zlen_nonneg codes). rewrite (proj2 (Z.eqb_neq _ _)) by (zlen; lia).
    pose proof (advance_wf r [b] ((c :: codes) ++ k) Hwf Hr) as Hwf'.
    pose proof (rest_advance r [b] ((c :: codes) ++ k) Hwf Hr) as Hr'.
    rewrite (IH fuel _ (BuffReader.advance 1 r)); try done.
    + by rewrite advance_advance.
    + cbn in Hfuel |- *. lia.
    + cbn. lia.
Qed.

Lemma suback_zlen_header_bytes self :
  wf self ->
  zlen (header_bytes self) + zlen (reason_codes self) =
  1 + zlen (vbi_bytes (rem_len self)) + rem_len self.
Proof.
  intros (_ & _ & _ & _ & _ & _ & _ & _ & _ & Hl).
  unfold header_bytes, rem_len. zlen. lia.
Qed.

(** The cursor stands behind the properties of a packet that starts the
    buffer. *)
Lemma read_reason_codes_at self r k :
  wf self -> BuffReader.wf r -> BuffReader.rest r = reason_codes self ++ k ->
  BuffReader.position r = zlen (header_bytes self) ->
  read_reason_codes (set_reason_codes [] (received self), r) =
  (Ok tt, (received self, BuffReader.advance (zlen (reason_codes self)) r)).
Proof.
  intros Hwf Hr Hrest Hp. pose proof (suback_zlen_header_bytes _ Hwf) as Hl.
  destruct Hwf as (_ & _ & _ & _ & Hm & Hrl & _).
  pose proof (zlen_vbi_bytes (rem_len self)). pose proof Hrl as Hv.
  unfold vbi_ok, MAX_ENCODABLE in Hv. pose proof (zlen_nonneg (reason_codes self)).
  unfold read_reason_codes. erewrite bind_ok by reflexivity. cbn [remain_len set_reason_codes received set_remaining_len packet fst].
  rewrite encode_ok by done. unfold pad4.
  erewrite bind_ok by reflexivity. rewrite len_ok by done.
  erewrite bind_ok by reflexivity.
  erewrite bind_ok by (unfold lift; by rewrite checked_ok by lia).
  erewrite bind_ok by (unfold lift; by rewrite checked_ok by lia).
  erewrite bind_ok by reflexivity. cbn [snd]. rewrite Z.geb_leb.
  destruct (decide (reason_codes self = [])) as [Hc|Hc].
  - rewrite Hc in *. change (zlen (@nil Z)) with 0 in *.
    rewrite (proj2 (Z.leb_le _ _)), advance_0 by lia. rewrite <- Hc. by destruct self.
  - assert (0 < zlen (reason_codes self))
      by (destruct (reason_codes self); [done|unfold zlen; cbn [length]; lia]).
    rewrite (proj2 (Z.leb_gt _ _)) by lia.
    erewrite bind_ok by reflexivity. pose proof (rest_app_len _ _ _ Hr Hrest) as Hlen.
    cbn [snd]. rewrite (reason_loop_reads (reason_codes self) (loop_fuel r) _ _ _ _ Hr Hrest Hc).
    + rewrite suback_push_reasons_room by done. by destruct self.
    + unfold loop_fuel. unfold zlen in Hlen. lia.
    + lia.
Qed.

Lemma suback_decode_bytes self k n :
  wf self -> Forall plain (properties self) -> bytes_ok (ztake n (bytes self ++ k)) ->
  zlen (bytes self) <= n <= zlen (bytes self ++ k) ->
  decode (new, BuffReader.new (bytes self ++ k) n) =
  (Ok tt, (received self, BuffReader.mk (bytes self ++ k) (zlen (bytes self)) n)).
Proof.
  intros Hwf Hpl Hb Hn. pose proof (zlen_nonneg (bytes self)).
  set (r := BuffReader.new (bytes self ++ k) n).
  assert (Hr : BuffReader.wf r) by (apply BuffReader_new_wf; [done|lia]).
  assert (Hrest : BuffReader.rest r =
    header_bytes self ++ reason_codes self ++ ztake (n - zlen (bytes self)) k).
  { unfold r. rewrite rest_new_app by lia. unfold bytes at 1. by rewrite <- app_assoc. }
  rewrite (suback_decode_header _ Hwf Hpl r _ Hr Hrest).
  pose proof (advance_wf _ _ _ Hr Hrest) as Hr'. pose proof (rest_advance _ _ _ Hr Hrest) as Hrest'.
  rewrite (read_reason_codes_at _ _ _ Hwf Hr' Hrest') by done.
  rewrite advance_advance, <- zlen_app. done.
Qed.

(** *** Every input *)

(** Every turn reads a byte, so the fuel exceeds the turns. *)
Lemma suback_reason_loop_ends fuel stop p r :
  BuffReader.wf r -> BuffReader.len r - BuffReader.position r < Z.of_nat fuel ->
  loop_post (fun _ => True) r (reason_loop fuel stop (p, r)).
Proof.
  revert stop p r. induction fuel as [|fuel IH]; intros stop p r Hwf Hf; [destruct Hwf; lia|].
  cbn [reason_loop]. pose proof (read_u8_runs decode_panics r Hwf) as Hd.
  unfold mbind at 1, M_bind at 1, on_snd; cbn [fst snd].
  destruct (BuffReader.read_u8 r) as [[b|e|x|] r1]; try done.
  destruct Hd as (Hwf1 & Hb1 & Hl1 & Hp1 & _).
  assert (Hmv : moved 0 r r1) by (unfold moved; repeat split; try apply Hwf1; auto; lia).
  unfold mbind, M_bind, on_fst, modify, gets; cbn [fst snd]. cbv zeta.
  destruct (_ =? _); [by split|].
  match goal with |- context [reason_loop fuel ?s ?st] => specialize (IH s st.1 st.2 Hwf1 ltac:(cbn; lia)) end.
  cbn [fst snd] in IH. unfold loop_post in *.
  destruct (reason_loop fuel _ _) as [[u|e|y|] [p2 r2]]; try done.
  destruct IH as [Hmv2 _]. split; [|done]. apply (moved_trans 0 0 0 r r1); [done|done|lia].
Qed.

Lemma suback_decode_ends : ends decode.
Proof.
  unfold decode, ends.
  eapply triple_bind with (n1 := 2) (n2 := 0);
    [exact (decode_fixed_header_triple decode_panics (fun _ => True) (or_introl eq_refl))| |lia].
  intros x. case_match; [done|].
  apply triple_weaken with (n := 0) (Pre := fun self : t MAX_REASONS MAX_PROPERTIES => vbi_ok (remain_len self))
    (Post := fun _ _ => True); [|done|by intros p (b & n & q & _ & Hn & _ & _ & ->)|done].
  eapply triple_read with (n2 := 0); [apply read_u16_runs|intros w _|lia].
  eapply triple_modify with (Mid := fun self => vbi_ok (remain_len self)); [done|].
  eapply triple_bind with (n1 := 1) (n2 := 0) (Mid := fun _ self => vbi_ok (remain_len self));
    [by apply decode_properties_triple| |lia].
  intros _. unfold read_reason_codes. apply (triple_gets _ remain_len). intros n p r Hwf [HI Hp].
  cbn in HI. subst n. pose proof (zlen_vbi_bytes (remain_len p)). pose proof HI as HI'.
  unfold vbi_ok, MAX_ENCODABLE in HI'.
  rewrite encode_ok by done. erewrite bind_ok by reflexivity. unfold pad4. rewrite len_ok by done.
  erewrite bind_ok by reflexivity.
  erewrite bind_ok by (unfold lift; by rewrite checked_ok by lia).
  erewrite bind_ok by (unfold lift; by rewrite checked_ok by lia).
  erewrite bind_ok by reflexivity. cbn [fst snd].
  destruct (_ >=? _); [by split; [apply moved_refl|]|].
  erewrite bind_ok by reflexivity. cbn [fst snd].
  apply (suback_reason_loop_ends (loop_fuel r)); [done|]. unfold loop_fuel. destruct Hwf. lia.
Qed.
End packet.
End SubackPacket.

Module UnsubackPacket.
Record t {MAX_REASONS MAX_PROPERTIES : Z} : Type := mk {
  fixed_header : Z;
  remain_len : Z;
  packet_identifier : Z;
  property_len : Z;
  properties : list Property.t;
  reason_codes : list Z
}.
Arguments t MAX_REASONS MAX_PROPERTIES : clear implicits.
Arguments mk {MAX_REASONS MAX_PROPERTIES}.

Section packet.
Context `{Profile} `{HeaplessVec} {MAX_REASONS MAX_PROPERTIES : Z}.

Definition new : t MAX_REASONS MAX_PROPERTIES :=
  mk (PacketType.into_u8 PacketType.Unsuback) 0 0 0 [] [].

#[global] Instance packet : Packet (t MAX_REASONS MAX_PROPERTIES) := {|
  set_property_len value self := mk (fixed_header self) (remain_len self)
      (packet_identifier self) value (properties self) (reason_codes self);
  get_property_len := property_len;
  push_to_properties property self := mk (fixed_header self) (remain_len self)
      (packet_identifier self) (property_len self)
      (push MAX_PROPERTIES (properties self) property) (reason_codes self);
  property_allowed self property := Property.unsuback_property property;
  set_fixed_header header self := mk header (remain_len self)
      (packet_identifier self) (property_len self) (properties self)
      (reason_codes self);
  set_remaining_len remaining_len' self := mk (fixed_header self) remaining_len'
      (packet_identifier self) (property_len self) (properties self)
      (reason_codes self)
|}.

#[global] #[refine] Instance packet_laws : PacketLaws (t MAX_REASONS MAX_PROPERTIES) := {|
  properties_of := properties;
  with_properties l self := mk (fixed_header self) (remain_len self)
      (packet_identifier self) (property_len self) l (reason_codes self);
  max_properties := MAX_PROPERTIES
|}.
Proof. all: by intros; repeat match goal with p : t _ _ |- _ => destruct p end. Defined.

Definition set_packet_identifier (v : Z) (self : t MAX_REASONS MAX_PROPERTIES) : t MAX_REASONS MAX_PROPERTIES :=
    mk (fixed_header self) (remain_len self) v (property_len self)
    (properties self) (reason_codes self).
Definition set_reason_codes (v : list Z) (self : t MAX_REASONS MAX_PROPERTIES) : t MAX_REASONS MAX_PROPERTIES :=
    mk (fixed_header self) (remain_len self) (packet_identifier self)
    (property_len self) (properties self) v.

Definition push_reason (b : Z) (self : t MAX_REASONS MAX_PROPERTIES) : t MAX_REASONS MAX_PROPERTIES :=
  set_reason_codes (push MAX_REASONS (reason_codes self) b) self.

Fixpoint reason_loop (fuel : nat) (i : Z) : M (t MAX_REASONS MAX_PROPERTIES * BuffReader.t) BufferError unit :=
  match fuel with
  | O => lift OutOfFuel
  | S fuel =>
    b ← on_snd BuffReader.read_u8;
    on_fst (modify (push_reason b)) ;;;
    let i := i + 1 in
    if i =? MAX_REASONS then mret tt else reason_loop fuel i
  end.

Definition read_reason_codes : M (t MAX_REASONS MAX_PROPERTIES * BuffReader.t) BufferError unit :=
  fuel ← gets (fun st => loop_fuel st.2);
  reason_loop fuel 0.

Definition encode (self : t MAX_REASONS MAX_PROPERTIES) (buffer : list Z) (buffer_len : Z)
  : outcome BufferError Z * list Z := (Err WrongPacketToEncode, buffer).

Definition decode : M (t MAX_REASONS MAX_PROPERTIES * BuffReader.t) BufferError unit :=
  x ← decode_fixed_header;
  if bool_decide (x ≠ PacketType.Unsuback) then throw PacketTypeMismatch
  else
    v ← on_snd BuffReader.read_u16;
    on_fst (modify (set_packet_identifier v)) ;;;
    decode_properties ;;;
    read_reason_codes.

(** *** Specification *)

Definition rem_len (self : t MAX_REASONS MAX_PROPERTIES) : Z :=
  2 + zlen (vbi_bytes (property_len self)) + property_len self
  + zlen (reason_codes self).

Definition wf (self : t MAX_REASONS MAX_PROPERTIES) : Prop :=
  byte_ok (fixed_header self)
  /\ PacketType.from_u8 (fixed_header self) = PacketType.Unsuback
  /\ 0 <= packet_identifier self < 2 ^ 16 /\ bytes_ok (reason_codes self)
  /\ zlen (reason_codes self) = MAX_REASONS /\ reason_codes self <> []
  /\ vbi_ok (rem_len self)
  /\ properties_wf MAX_PROPERTIES (property_len self) (properties self).

(** The packet the client decodes. *)
Definition received (self : t MAX_REASONS MAX_PROPERTIES) : t MAX_REASONS MAX_PROPERTIES :=
  set_remaining_len (rem_len self) self.

Definition header_bytes (self : t MAX_REASONS MAX_PROPERTIES) : list Z :=
  [fixed_header self] ++ vbi_bytes (rem_len self)
  ++ be_bytes 2 (packet_identifier self)
  ++ vbi_bytes (property_len self) ++ Property.list_bytes (properties self).

(** The form a server sends; the client only reads it. *)
Definition bytes (self : t MAX_REASONS MAX_PROPERTIES) : list Z := header_bytes self ++ reason_codes self.

Lemma unsuback_bytes_framed self : wf self -> framed (bytes self).
Proof.
  intros Hwf. assert (Hps : properties_wf MAX_PROPERTIES (property_len self) (properties self))
    by apply Hwf. assert (Hrl : vbi_ok (rem_len self)) by apply Hwf.
  destruct Hwf as (Hh & _ & Hi & Hb & _).
  unfold bytes, header_bytes. rewrite <- !app_assoc.
  eexists _, (rem_len self), _. split; [reflexivity|split; [done|split]].
  - unfold rem_len. zlen. rewrite (zlen_properties _ _ _ Hps). lia.
  - by bytes.
Qed.

Lemma unsuback_decode_header self :
  wf self -> Forall plain (properties self) ->
  leads decode new (header_bytes self) read_reason_codes
    (set_reason_codes [] (received self)).
Proof.
  intros Hwf Hpl. assert (Hps : properties_wf MAX_PROPERTIES (property_len self) (properties self))
    by apply Hwf. assert (Hrl : vbi_ok (rem_len self)) by apply Hwf.
  destruct Hwf as (Hh & Ht & Hi & _). unfold decode, header_bytes.
  change ([fixed_header self] ++ vbi_bytes (rem_len self) ++ ?l)
    with ((fixed_header self :: vbi_bytes (rem_len self)) ++ l).
  eapply decodes_bind; [by apply decode_fixed_header_decodes|].
  rewrite Ht, bool_decide_eq_false_2 by auto.
  eapply decodes_read; [by auto with reads|]. apply decodes_modify.
  rewrite <- (app_nil_r (vbi_bytes _ ++ _)).
  eapply decodes_bind; [|apply decodes_ret].
  apply decode_properties_self; [done|done|done|]. unfold set_reason_codes.
  by destruct self.
Qed.

(** *** The reason codes *)

Lemma unsuback_push_reasons codes p :
  fold_left (fun p b => push_reason b p) codes p =
  set_reason_codes (fold_left (push MAX_REASONS) codes (reason_codes p)) p.
Proof.
  revert p. induction codes as [|b codes IH]; intros p; cbn [fold_left].
  - by destruct p.
  - rewrite IH. by destruct p.
Qed.

Lemma unsuback_push_reasons_room codes p :
  reason_codes p = [] -> zlen codes <= MAX_REASONS ->
  fold_left (fun p b => push_reason b p) codes p = set_reason_codes codes p.
Proof.
  intros Hp Hl. rewrite unsuback_push_reasons, Hp, push_all by (rewrite zlen_nil; pose proof (zlen_nonneg codes); lia).
  by rewrite zlen_nil, Z.sub_0_r, ztake_all by lia.
Qed.

Lemma reason_loop_decodes codes fuel i p :
  codes <> [] -> (length codes <= fuel)%nat -> i + zlen codes = MAX_REASONS ->
  decodes (reason_loop fuel i) p codes tt (fold_left (fun p b => push_reason b p) codes p).
Proof.
  revert fuel i p. induction codes as [|b codes IH]; intros fuel i p Hne Hfuel Hmax; [done|].
  destruct fuel as [|fuel]; [cbn in Hfuel; lia|]. cbn [reason_loop].
  change (b :: codes) with ([b] ++ codes). eapply decodes_read; [apply read_u8_reads|].
  apply decodes_modify. cbn [fold_left app]. zlen. destruct codes as [|c codes].
  - rewrite zlen_nil in *. rewrite (proj2 (Z.eqb_eq _ _)) by lia. apply decodes_ret.
  - pose proof (zlen_nonneg codes). rewrite (proj2 (Z.eqb_neq _ _)) by (zlen; lia).
    apply IH; [done|cbn in Hfuel |- *; lia|lia].
Qed.

Lemma unsuback_decode_bytes self :
  wf self -> Forall plain (properties self) ->
  decodes decode new (bytes self) tt (received self).
Proof.
  intros Hwf Hpl r k Hr Hrest. unfold bytes in Hrest. rewrite <- app_assoc in Hrest.
  rewrite (unsuback_decode_header _ Hwf Hpl r _ Hr Hrest).
  pose proof (advance_wf _ _ _ Hr Hrest) as Hr'. pose proof (rest_advance _ _ _ Hr Hrest) as Hrest'.
  pose proof (rest_app_len _ _ _ Hr' Hrest') as Hlen.
  destruct Hwf as (_ & _ & _ & _ & Hm & Hne & _).
  unfold read_reason_codes. erewrite bind_ok by reflexivity.
  set (r1 := BuffReader.advance _ r) in *. cbn [snd].
  rewrite (reason_loop_decodes (reason_codes self) (loop_fuel r1) 0 _ Hne) with (k := k);
    [|unfold loop_fuel; unfold zlen in Hlen; lia|lia|done|done].
  subst r1.
  rewrite unsuback_push_reasons_room, advance_advance by (done || lia).
  unfold bytes. rewrite zlen_app. unfold set_reason_codes. by destruct self.
Qed.

(** *** Every input *)

(** Every turn reads a byte, so the fuel exceeds the turns. *)
Lemma unsuback_reason_loop_ends fuel stop p r :
  BuffReader.wf r -> BuffReader.len r - BuffReader.position r < Z.of_nat fuel ->
  loop_post (fun _ => True) r (reason_loop fuel stop (p, r)).
Proof.
  revert stop p r. induction fuel as [|fuel IH]; intros stop p r Hwf Hf; [destruct Hwf; lia|].
  cbn [reason_loop]. pose proof (read_u8_runs decode_panics r Hwf) as Hd.
  unfold mbind at 1, M_bind at 1, on_snd; cbn [fst snd].
  destruct (BuffReader.read_u8 r) as [[b|e|x|] r1]; try done.
  destruct Hd as (Hwf1 & Hb1 & Hl1 & Hp1 & _).
  assert (Hmv : moved 0 r r1) by (unfold moved; repeat split; try apply Hwf1; auto; lia).
  unfold mbind, M_bind, on_fst, modify, gets; cbn [fst snd]. cbv zeta.
  destruct (_ =? _); [by split|].
  match goal with |- context [reason_loop fuel ?s ?st] => specialize (IH s st.1 st.2 Hwf1 ltac:(cbn; lia)) end.
  cbn [fst snd] in IH. unfold loop_post in *.
  destruct (reason_loop fuel _ _) as [[u|e|y|] [p2 r2]]; try done.
  destruct IH as [Hmv2 _]. split; [|done]. apply (moved_trans 0 0 0 r r1); [done|done|lia].
Qed.

Lemma unsuback_decode_ends : ends decode.
Proof.
  unfold decode. repeat ends_step. intros p r Hwf _. unfold read_reason_codes.
  erewrite bind_ok by reflexivity. cbn [fst snd].
  apply (unsuback_reason_loop_ends (loop_fuel r)); [done|]. unfold loop_fuel. destruct Hwf. lia.
Qed.
End packet.
End UnsubackPacket.

(** ** Properties *)

(** SUBSCRIBE and UNSUBSCRIBE with at least one filter: the encoder writes
    the packet, filters in the order they were added, behind its remaining
    length, or reports [InsufficientBufferSize]. *)
Theorem subscribe_encode `{Profile} FS PS (p : SubscriptionPacket.t FS PS)
  (q : UnsubscriptionPacket.t FS PS) buf n
  (Hp : SubscriptionPacket.wf p) (Hq : UnsubscriptionPacket.wf q) (Hn : 0 <= n <= zlen buf) :
  (if zlen (SubscriptionPacket.bytes p) <=? n then
     SubscriptionPacket.encode p buf n =
       (Ok (zlen (SubscriptionPacket.bytes p)),
        SubscriptionPacket.bytes p ++ zdrop (zlen (SubscriptionPacket.bytes p)) buf)
   else exists buf', SubscriptionPacket.encode p buf n = (Err InsufficientBufferSize, buf')) /\
  (if zlen (UnsubscriptionPacket.bytes q) <=? n then
     UnsubscriptionPacket.encode q buf n =
       (Ok (zlen (UnsubscriptionPacket.bytes q)),
        UnsubscriptionPacket.bytes q ++ zdrop (zlen (UnsubscriptionPacket.bytes q)) buf)
   else exists buf', UnsubscriptionPacket.encode q buf n = (Err InsufficientBufferSize, buf')).
Proof.
  destruct (SubscriptionPacket.subscription_encode_bytes p Hp buf n Hn) as [Hok Herr].
  destruct (UnsubscriptionPacket.unsubscription_encode_bytes q Hq buf n Hn) as [Hok' Herr'].
  split; [destruct (Z.leb_spec (zlen (SubscriptionPacket.bytes p)) n)
         |destruct (Z.leb_spec (zlen (UnsubscriptionPacket.bytes q)) n)]; auto.
Qed.

Definition sample_filters : list TopicFilter.t :=
  [TopicFilter.mk (EncodedString.mk [97; 47; 35] 3) 1; TopicFilter.mk (EncodedString.mk [98] 1) 0].

Lemma subscribe_encode_witness :
  SubscriptionPacket.encode (H := dev_profile)
    (SubscriptionPacket.mk (MAX_FILTERS := 4) (MAX_PROPERTIES := 4) 0x82 0 9 0 [] 2 sample_filters)
    (replicate 20 0) 20 =
    (Ok 15, [0x82; 13; 0; 9; 0; 0; 3; 97; 47; 35; 1; 0; 1; 98; 0; 0; 0; 0; 0; 0]).
Proof.
  apply (subscribe_encode (H := dev_profile) 4 4
    (SubscriptionPacket.mk (MAX_FILTERS := 4) (MAX_PROPERTIES := 4) 0x82 0 9 0 [] 2 sample_filters)
    (UnsubscriptionPacket.mk (MAX_FILTERS := 4) (MAX_PROPERTIES := 4) 0xA2 0 9 0 [] 2 sample_filters)
    (replicate 20 0) 20); concrete.
Defined.

Lemma encode_missing `{Profile} FS PS (p : SubscriptionPacket.t FS PS) buf n :
  vbi_ok (SubscriptionPacket.property_len p) ->
  zlen (SubscriptionPacket.topic_filters p) < SubscriptionPacket.topic_filter_len p
  \/ SubscriptionPacket.topic_filter_len p <= 0 ->
  is_panic (SubscriptionPacket.encode p buf n).1 = true.
Proof.
  intros Hv Hm. unfold SubscriptionPacket.encode, run_writer.
  destruct (filters_len (E := BufferError) 3 (SubscriptionPacket.topic_filters p)
    (SubscriptionPacket.topic_filter_len p)) as [a|e|x|] eqn:Hf;
    pose proof (filters_len_missing (E := BufferError) 3 _ _ Hm) as Hx;
    unfold is_panic in Hx; rewrite Hf in Hx; try done.
  erewrite bind_panic; [done|].
  rewrite (bind_ok _ _ _ (pad4 (vbi_bytes (SubscriptionPacket.property_len p))) _)
    by (unfold lift; by rewrite encode_ok).
  rewrite (bind_ok _ _ _ (zlen (vbi_bytes (SubscriptionPacket.property_len p))) _)
    by (unfold lift, pad4; by rewrite len_ok).
  reflexivity.
Qed.

(** The filters of SUBSCRIBE are counted apart from the vector that holds
    them.  A filter added to a full vector is dropped but counted, and the
    packet then cannot be encoded: the encoder panics; so it does on a packet
    without a filter. *)
Theorem subscribe_dropped_filter_panics `{Profile} `{HeaplessVec} FS PS
  (p : SubscriptionPacket.t FS PS) topic qos buf n
  (Hv : vbi_ok (SubscriptionPacket.property_len p))
  (Hc : SubscriptionPacket.topic_filter_len p = zlen (SubscriptionPacket.topic_filters p))
  (Hfull : zlen (SubscriptionPacket.topic_filters p) = FS) (Hmax : FS < 2 ^ 16 - 1) :
  (exists q, SubscriptionPacket.add_new_filter (E := BufferError) topic qos p = Ok q /\
     SubscriptionPacket.topic_filters q = SubscriptionPacket.topic_filters p /\
     is_panic (SubscriptionPacket.encode q buf n).1 = true) /\
  is_panic (SubscriptionPacket.encode (SubscriptionPacket.new (MAX_FILTERS := FS)
    (MAX_PROPERTIES := PS)) buf n).1 = true.
Proof.
  pose proof (zlen_nonneg (SubscriptionPacket.topic_filters p)). split.
  - unfold SubscriptionPacket.add_new_filter. cbv zeta.
    rewrite checked_ok, push_full by lia.
    eexists. split; [reflexivity|split; [reflexivity|]].
    apply encode_missing; [done|left]. cbn. lia.
  - apply encode_missing; [by vm_compute|by right].
Qed.

Lemma subscribe_dropped_filter_panics_witness :
  is_panic (SubscriptionPacket.encode (H := dev_profile)
    (SubscriptionPacket.new (MAX_FILTERS := 1) (MAX_PROPERTIES := 0)) (replicate 20 0) 20).1 = true.
Proof.
  apply (subscribe_dropped_filter_panics (H := dev_profile) (H0 := list_vec) 1 0
    (SubscriptionPacket.mk 0x82 0 1 0 [] 1 [TopicFilter.mk (EncodedString.mk [97] 1) 0])
    [98] QualityOfService.QoS0 (replicate 20 0) 20); concrete.
Defined.

(** SUBACK and UNSUBACK as a server sends them, at the start of the receive
    buffer, decode to their fields, with a reason code per filter.  For SUBACK
    the vector may have room to spare; for UNSUBACK the codes must fill it, for
    that is where its loop stops. *)
Theorem suback_unsuback_decode `{Profile} `{HeaplessVec} RS PS
  (p : SubackPacket.t RS PS) (q : UnsubackPacket.t RS PS)
  (Hp : SubackPacket.wf p) (Hq : UnsubackPacket.wf q)
  (Hpl : Forall plain (SubackPacket.properties p))
  (Hql : Forall plain (UnsubackPacket.properties q)) :
  (exists r, SubackPacket.decode (SubackPacket.new,
       BuffReader.new (SubackPacket.bytes p) (zlen (SubackPacket.bytes p))) =
     (Ok tt, (set_remaining_len (SubackPacket.rem_len p) p, r)) /\ BuffReader.rest r = []) /\
  (exists r, UnsubackPacket.decode (UnsubackPacket.new,
       BuffReader.new (UnsubackPacket.bytes q) (zlen (UnsubackPacket.bytes q))) =
     (Ok tt, (set_remaining_len (UnsubackPacket.rem_len q) q, r)) /\ BuffReader.rest r = []).
Proof.
  pose proof (framed_bytes _ (SubackPacket.suback_bytes_framed p Hp)) as Hb.
  pose proof (framed_bytes _ (UnsubackPacket.unsuback_bytes_framed q Hq)) as Hb'.
  assert (Hend : forall bs : list Z, bytes_ok bs ->
    BuffReader.wf (BuffReader.new bs (zlen bs)) /\
    BuffReader.rest (BuffReader.new bs (zlen bs)) = bs ++ [] /\
    BuffReader.rest (BuffReader.mk bs (zlen bs) (zlen bs)) = []).
  { intros bs Hbs. pose proof (zlen_nonneg bs).
    split; [|split; [|by unfold BuffReader.rest; cbn; rewrite Z.sub_diag, ztake_0 by lia]].
    - apply BuffReader_new_wf; [by rewrite ztake_all by lia|lia].
    - pose proof (rest_new_app bs [] (zlen bs)) as Hr. rewrite app_nil_r in Hr.
      rewrite Hr, Z.sub_diag, ztake_0 by lia. done. }
  split.
  - eexists. split; [|by apply (Hend _ Hb)].
    pose proof (SubackPacket.suback_decode_bytes p [] (zlen (SubackPacket.bytes p)) Hp Hpl) as Hd.
    rewrite app_nil_r in Hd. apply Hd; [by rewrite ztake_all by lia|lia].
  - destruct (Hend _ Hb') as (Hr & Hrest & He). eexists. split.
    + by apply (UnsubackPacket.unsuback_decode_bytes q Hq Hql _ _ Hr Hrest).
    + exact He.
Qed.

Lemma suback_unsuback_decode_witness :
  let p : SubackPacket.t 3 4 := SubackPacket.mk 0x90 0 9 0 [] [1; 0x80] in
  SubackPacket.bytes p = [0x90; 5; 0; 9; 0; 1; 0x80] /\
  exists r, SubackPacket.decode (H := dev_profile) (H0 := list_vec) (SubackPacket.new,
      BuffReader.new (SubackPacket.bytes p) (zlen (SubackPacket.bytes p))) =
    (Ok tt, (set_remaining_len (Packet := SubackPacket.packet (H0 := list_vec)) 5 p, r)) /\
    BuffReader.rest r = [].
Proof.
  intros p. split; [reflexivity|].
  refine (proj1 (suback_unsuback_decode (H := dev_profile) (H0 := list_vec) 3 4 p
    (UnsubackPacket.mk 0xB0 0 9 0 [] [0; 0; 0x11]) _ _ _ _)); concrete.
Defined.
