(* ===== verification/ClientConfig.v ===== *)
(** The client's configuration and its packet identifiers:
    rust-mqtt/src/client/client_config.rs and rust-mqtt/src/utils/rng_generator.rs. *)
From S2P Require Import Prelude.
From S2P Require Import Utf8.
From S2P Require Import Types.
From S2P Require Import Vbi.
From S2P Require Import Heapless.
From S2P Require Import Codes.
From S2P Require Import Property.

(** [rand_core::RngCore], of which the client calls [next_u32] only. *)
Class RngCore (R : Type) : Type := {
  next_u32 : forall {E}, R -> outcome E Z * R;
}.

Module CountingRng.
(** [CountingRng(pub u64)] *)
Record t : Type := mk { ctr : Z }.

Definition next_u64 `{Profile} {E} (self : t) : outcome E Z * t :=
  match ctr self +u64 1 with
  | Ok v =>
    let v := if v >? 65535 then 1 else v in
    (Ok v, mk v)
  | Err e => (Err e, self)
  | Panic p => (Panic p, self)
  | OutOfFuel => (OutOfFuel, self)
  end.

#[global] Instance rng `{Profile} : RngCore t := {|
  next_u32 E self :=
    match next_u64 self with
    | (Ok v, self') => (Ok (wrap 32 v), self')
    | (o, self') => (o, self')
    end
|}.

(** The identifiers are the numbers 1 .. 65535, over and over. *)
Definition wf (self : t) : Prop := 0 <= ctr self <= 65535.

Definition next (n : Z) : Z := if n =? 65535 then 1 else n + 1.

Lemma next_u32_ok `{Profile} {E} self :
  wf self -> next_u32 (E := E) self = (Ok (next (ctr self)), mk (next (ctr self)))
    /\ wf (mk (next (ctr self))) /\ 1 <= next (ctr self) <= 65535.
Proof.
  unfold wf, next. intros Hs. cbn [next_u32 rng ctr]. unfold next_u64.
  rewrite checked_ok by lia. rewrite Z.gtb_ltb.
  destruct (Z.ltb_spec 65535 (ctr self + 1)), (Z.eqb_spec (ctr self) 65535); try lia;
    rewrite wrap_small by lia; repeat split; lia.
Qed.
End CountingRng.

Inductive MqttVersion : Type := MQTTv3 | MQTTv5.

#[export] Instance MqttVersion_eq_dec : EqDecision MqttVersion.
Proof. solve_decision. Defined.

Module ClientConfig.
Record t {MAX_PROPERTIES : Z} {R : Type} : Type := mk {
  max_subscribe_qos : QualityOfService.t;
  keep_alive : Z;
  username_flag : bool;
  username : EncodedString.t;
  password_flag : bool;
  password : BinaryData.t;
  properties : list Property.t;
  max_packet_size : Z;
  mqtt_version : MqttVersion;
  rng : R;
  will_flag : bool;
  will_topic : EncodedString.t;
  will_payload : BinaryData.t;
  will_retain : bool;
  client_id : EncodedString.t
}.
Arguments t MAX_PROPERTIES R : clear implicits.
Arguments mk {MAX_PROPERTIES R}.

Section config.
Context `{HeaplessVec} {MAX_PROPERTIES : Z} {R : Type}.

Definition new (version : MqttVersion) (rng : R) : t MAX_PROPERTIES R :=
  mk QualityOfService.QoS0 60 false EncodedString.new false BinaryData.new []
    265000 version rng false EncodedString.new BinaryData.new false EncodedString.new.

Definition set_max_subscribe_qos (v : QualityOfService.t) (self : t MAX_PROPERTIES R) : t MAX_PROPERTIES R :=
    mk v (keep_alive self) (username_flag self) (username self)
    (password_flag self) (password self) (properties self) (max_packet_size self)
    (mqtt_version self) (rng self) (will_flag self) (will_topic self)
    (will_payload self) (will_retain self) (client_id self).
Definition set_username_flag (v : bool) (self : t MAX_PROPERTIES R) : t MAX_PROPERTIES R :=
    mk (max_subscribe_qos self) (keep_alive self) v (username self)
    (password_flag self) (password self) (properties self) (max_packet_size self)
    (mqtt_version self) (rng self) (will_flag self) (will_topic self)
    (will_payload self) (will_retain self) (client_id self).
Definition set_username (v : EncodedString.t) (self : t MAX_PROPERTIES R) : t MAX_PROPERTIES R :=
    mk (max_subscribe_qos self) (keep_alive self) (username_flag self) v
    (password_flag self) (password self) (properties self) (max_packet_size self)
    (mqtt_version self) (rng self) (will_flag self) (will_topic self)
    (will_payload self) (will_retain self) (client_id self).
Definition set_password_flag (v : bool) (self : t MAX_PROPERTIES R) : t MAX_PROPERTIES R :=
    mk (max_subscribe_qos self) (keep_alive self) (username_flag self)
    (username self) v (password self) (properties self) (max_packet_size self)
    (mqtt_version self) (rng self) (will_flag self) (will_topic self)
    (will_payload self) (will_retain self) (client_id self).
Definition set_password (v : BinaryData.t) (self : t MAX_PROPERTIES R) : t MAX_PROPERTIES R :=
    mk (max_subscribe_qos self) (keep_alive self) (username_flag self)
    (username self) (password_flag self) v (properties self)
    (max_packet_size self) (mqtt_version self) (rng self) (will_flag self)
    (will_topic self) (will_payload self) (will_retain self) (client_id self).
Definition set_properties (v : list Property.t) (self : t MAX_PROPERTIES R) : t MAX_PROPERTIES R :=
    mk (max_subscribe_qos self) (keep_alive self) (username_flag self)
    (username self) (password_flag self) (password self) v (max_packet_size self)
    (mqtt_version self) (rng self) (will_flag self) (will_topic self)
    (will_payload self) (will_retain self) (client_id self).
Definition set_rng (v : R) (self : t MAX_PROPERTIES R) : t MAX_PROPERTIES R := mk
    (max_subscribe_qos self) (keep_alive self) (username_flag self)
    (username self) (password_flag self) (password self) (properties self)
    (max_packet_size self) (mqtt_version self) v (will_flag self)
    (will_topic self) (will_payload self) (will_retain self) (client_id self).
Definition set_will_flag (v : bool) (self : t MAX_PROPERTIES R) : t MAX_PROPERTIES R :=
    mk (max_subscribe_qos self) (keep_alive self) (username_flag self)
    (username self) (password_flag self) (password self) (properties self)
    (max_packet_size self) (mqtt_version self) (rng self) v (will_topic self)
    (will_payload self) (will_retain self) (client_id self).
Definition set_will_topic (v : EncodedString.t) (self : t MAX_PROPERTIES R) : t MAX_PROPERTIES R :=
    mk (max_subscribe_qos self) (keep_alive self) (username_flag self)
    (username self) (password_flag self) (password self) (properties self)
    (max_packet_size self) (mqtt_version self) (rng self) (will_flag self) v
    (will_payload self) (will_retain self) (client_id self).
Definition set_will_payload (v : BinaryData.t) (self : t MAX_PROPERTIES R) : t MAX_PROPERTIES R :=
    mk (max_subscribe_qos self) (keep_alive self) (username_flag self)
    (username self) (password_flag self) (password self) (properties self)
    (max_packet_size self) (mqtt_version self) (rng self) (will_flag self)
    (will_topic self) v (will_retain self) (client_id self).
Definition set_will_retain (v : bool) (self : t MAX_PROPERTIES R) : t MAX_PROPERTIES R :=
    mk (max_subscribe_qos self) (keep_alive self) (username_flag self)
    (username self) (password_flag self) (password self) (properties self)
    (max_packet_size self) (mqtt_version self) (rng self) (will_flag self)
    (will_topic self) (will_payload self) v (client_id self).
Definition set_client_id (v : EncodedString.t) (self : t MAX_PROPERTIES R) : t MAX_PROPERTIES R :=
    mk (max_subscribe_qos self) (keep_alive self) (username_flag self)
    (username self) (password_flag self) (password self) (properties self)
    (max_packet_size self) (mqtt_version self) (rng self) (will_flag self)
    (will_topic self) (will_payload self) (will_retain self) v.

(** The public fields that clients set themselves. *)
Definition set_keep_alive (v : Z) (self : t MAX_PROPERTIES R) : t MAX_PROPERTIES R :=
    mk (max_subscribe_qos self) v (username_flag self) (username self)
    (password_flag self) (password self) (properties self) (max_packet_size self)
    (mqtt_version self) (rng self) (will_flag self) (will_topic self)
    (will_payload self) (will_retain self) (client_id self).
Definition set_max_packet_size (v : Z) (self : t MAX_PROPERTIES R) : t MAX_PROPERTIES R :=
    mk (max_subscribe_qos self) (keep_alive self) (username_flag self) (username self)
    (password_flag self) (password self) (properties self) v
    (mqtt_version self) (rng self) (will_flag self) (will_topic self)
    (will_payload self) (will_retain self) (client_id self).

Definition add_max_subscribe_qos (qos : QualityOfService.t) (self : t MAX_PROPERTIES R)
  : t MAX_PROPERTIES R := set_max_subscribe_qos qos self.

Definition add_will (topic payload : list Z) (retain : bool) (self : t MAX_PROPERTIES R)
  : t MAX_PROPERTIES R :=
  let topic_s := EncodedString.of_str topic in
  let payload_d := BinaryData.of_bytes payload in
  let self := set_will_flag true self in
  let self := set_will_retain retain self in
  let self := set_will_topic topic_s self in
  set_will_payload payload_d self.

Definition add_username (username : list Z) (self : t MAX_PROPERTIES R)
  : t MAX_PROPERTIES R :=
  let username_s := EncodedString.of_str username in
  let self := set_username_flag true self in
  set_username username_s self.

Definition add_password (password : list Z) (self : t MAX_PROPERTIES R)
  : t MAX_PROPERTIES R :=
  let password_s := BinaryData.of_bytes password in
  let self := set_password password_s self in
  set_password_flag true self.

Definition add_property (prop : Property.t) (self : t MAX_PROPERTIES R)
  : t MAX_PROPERTIES R :=
  if zlen (properties self) <? MAX_PROPERTIES
  then set_properties (push MAX_PROPERTIES (properties self) prop) self
  else self.

(** Returns the length of the new property, or 0. *)
Definition add_max_packet_size_as_prop (self : t MAX_PROPERTIES R)
  : Z * t MAX_PROPERTIES R :=
  if zlen (properties self) <? MAX_PROPERTIES
  then
    let prop := Property.MaximumPacketSize (max_packet_size self) in
    (5, set_properties (push MAX_PROPERTIES (properties self) prop) self)
  else (0, self).

Definition add_client_id (client_id : list Z) (self : t MAX_PROPERTIES R)
  : t MAX_PROPERTIES R := set_client_id (EncodedString.of_str client_id) self.

(** The properties stay within the capacity of their vector. *)
Lemma add_property_capacity prop self :
  zlen (properties self) <= MAX_PROPERTIES ->
  zlen (properties (add_property prop self)) <= MAX_PROPERTIES.
Proof.
  intros Hl. unfold add_property. destruct (_ <? _); [|done]. by apply zlen_push.
Qed.
End config.
End ClientConfig.

(** ** Properties *)

(** [n] draws, and the state behind them. *)
Fixpoint draw `{Profile} {E} (n : nat) (self : CountingRng.t) : outcome E (list Z) * CountingRng.t :=
  match n with
  | O => (Ok [], self)
  | S n =>
    match next_u32 self with
    | (Ok v, self) =>
      match draw n self with
      | (Ok l, self) => (Ok (v :: l), self)
      | r => r
      end
    | (Err e, self) => (Err e, self)
    | (Panic p, self) => (Panic p, self)
    | (OutOfFuel, self) => (OutOfFuel, self)
    end
  end.

(** The number of the [i]-th draw. *)
Definition identifier (c : Z) (i : nat) : Z := (c + Z.of_nat i) mod 65535 + 1.

Lemma draw_ok `{Profile} {E} n self :
  CountingRng.wf self ->
  exists self', draw (E := E) n self =
    (Ok (map (identifier (CountingRng.ctr self)) (seq 0 n)), self') /\ CountingRng.wf self'.
Proof.
  revert self. induction n as [|n IH]; intros self Hs; [by exists self|]. cbn [draw].
  destruct (CountingRng.next_u32_ok (E := E) self Hs) as (-> & Hs' & _).
  destruct (IH _ Hs') as (s2 & -> & Hs2). exists s2. split; [|done].
  cbn [seq map]. rewrite <- seq_shift, map_map. unfold CountingRng.wf in Hs.
  do 2 f_equal. f_equal.
  - unfold CountingRng.next, identifier. rewrite Z.add_0_r.
    destruct (Z.eqb_spec (CountingRng.ctr self) 65535) as [->|]; [done|].
    rewrite Z.mod_small by lia. done.
  - apply map_ext. intros i. unfold identifier. cbn [CountingRng.ctr]. unfold CountingRng.next.
    f_equal. destruct (Z.eqb_spec (CountingRng.ctr self) 65535) as [E1|E1].
    + rewrite E1. replace (65535 + Z.of_nat (S i)) with (1 + Z.of_nat i + 1 * 65535) by lia.
      by rewrite Z.mod_add.
    + f_equal. lia.
Qed.

(** The packet identifiers of the client: the draws are the numbers
    1 .. 65535 in a circle, so none is 0 and 65535 requests in a row have
    different identifiers. *)
Theorem identifiers_distinct `{Profile} n self
  (Hs : CountingRng.wf self) (Hn : (n <= Z.to_nat 65535)%nat) :
  exists l self', draw (E := ReasonCode.t) n self = (Ok l, self') /\
    length l = n /\ NoDup l /\ Forall (fun v => 1 <= v <= 65535) l.
Proof.
  destruct (draw_ok (E := ReasonCode.t) n self Hs) as (self' & Hd & _).
  eexists _, _. split; [exact Hd|]. split; [by rewrite length_map, length_seq|]. split.
  - apply NoDup_ListNoDup, Finite.Injective_map_NoDup_in; [|apply List.seq_NoDup].
    intros i j Hi%in_seq Hj%in_seq Hij. unfold identifier in Hij.
    Z.div_mod_to_equations. lia.
  - apply List.Forall_forall. intros v (i & <- & _)%in_map_iff. unfold identifier.
    pose proof (Z.mod_pos_bound (CountingRng.ctr self + Z.of_nat i) 65535). lia.
Qed.

Lemma identifiers_distinct_witness :
  exists l self', draw (H := dev_profile) (E := ReasonCode.t) 3 (CountingRng.mk 65534) = (Ok l, self') /\
    length l = 3%nat /\ NoDup l /\ Forall (fun v => 1 <= v <= 65535) l.
Proof. apply (identifiers_distinct (H := dev_profile) 3 (CountingRng.mk 65534)); [concrete|lia]. Defined.
