(* ===== verification/Network.v ===== *)
(** The connection and the framing of packets: rust-mqtt/src/network/mod.rs
    and [receive_packet] of rust-mqtt/src/client/raw_client.rs.

    [Io] is the [embedded_io_async] stream the client is generic over; a call
    is one completed [await].  [receive_packet] is modelled for both values of
    the [tls] feature.  Its second loop ends only when the stream delivers:
    the fuel bounds the number of reads. *)
From S2P Require Import Prelude.
From S2P Require Import Utf8.
From S2P Require Import Types.
From S2P Require Import Vbi.
From S2P Require Import BuffReader.
From S2P Require Import BuffWriter.
From S2P Require Import Codes.

(** [read(&mut buf)] with a buffer of [n] bytes returns the bytes it stored,
    [write(buf)] the number of bytes it took; [None] is an error. *)
Class Io (T : Type) : Type := {
  io_read : T -> Z -> option (list Z) * T;
  io_write : T -> list Z -> option Z * T;
}.

(** The documented behaviour of the stream.  [incoming t bs]: the peer has sent
    [bs], still unread, and will send no more of this exchange; a read takes
    some of them, at least one.  A write may take a part of what it is given; the
    stream keeps a history: [handed t] is what has been given to [write] so far,
    one buffer behind the other. *)
Class IoLaws (T : Type) `{Io T} : Type := {
  incoming : T -> list Z -> Prop;
  handed : T -> list Z;
  read_incoming : forall t bs n, incoming t bs -> bs <> [] -> 0 < n ->
    exists k t', 1 <= k <= n /\ k <= zlen bs /\
      io_read t n = (Some (ztake k bs), t') /\
      incoming t' (zdrop k bs) /\ handed t' = handed t;
  read_bounded : forall t n bs t', 0 <= n -> io_read t n = (Some bs, t') -> zlen bs <= n;
  write_handed : forall t bs n t', io_write t bs = (Some n, t') ->
    0 <= n <= zlen bs /\ handed t' = handed t ++ bs /\
    forall k, incoming t k -> incoming t' k;
}.

(** No write reports an error.  How much of its buffer each takes is open. *)
Definition no_write_fails (T : Type) `{Io T} : Prop :=
  forall (t : T) bs, exists n t', io_write t bs = (Some n, t').

Module NetworkConnection.
Record t {T : Type} : Type := mk { io : T }.
Arguments t T : clear implicits.
Arguments mk {T}.

Section connection.
Context {T : Type} `{Io T}.

Definition new (io : T) : t T := mk io.

Definition send (buffer : list Z) : M (t T) ReasonCode.t unit := fun self =>
  let '(r, io') := io_write (io self) buffer in
  (match r with Some _ => Ok tt | None => Err ReasonCode.NetworkError end, mk io').

(** The bytes stored at the start of a buffer of [n] bytes. *)
Definition receive (n : Z) : M (t T) ReasonCode.t (list Z) := fun self =>
  let '(r, io') := io_read (io self) n in
  (match r with Some bs => Ok bs | None => Err ReasonCode.NetworkError end, mk io').
End connection.
End NetworkConnection.

Section receive_packet.
Context `{Profile} {T : Type} `{Io T}.

(** The variables of [receive_packet]: its [writer], and the two borrows. *)
Record rx : Type := mk_rx {
  writer : BuffWriter.t;
  recv_buffer : list Z;
  conn : NetworkConnection.t T
}.

Abbreviation X := (M rx ReasonCode.t).

Definition on_writer {E A} (m : M BuffWriter.t E A) : M rx E A := fun s =>
  let '(o, w) := m (writer s) in (o, mk_rx w (recv_buffer s) (conn s)).

(** [conn.receive(&mut recv_buffer[a..b])] *)
Definition receive_at (a b : Z) : X Z := fun s =>
  if (a <=? b) && (b <=? zlen (recv_buffer s)) then
    let '(o, conn') := NetworkConnection.receive (b - a) (conn s) in
    match o with
    | Ok bs =>
      match copy_into (recv_buffer s) a (a + zlen bs) bs with
      | Ok buf' => (Ok (zlen bs), mk_rx (writer s) buf' conn')
      | Err e => (Err e, mk_rx (writer s) (recv_buffer s) conn')
      | Panic p => (Panic p, mk_rx (writer s) (recv_buffer s) conn')
      | OutOfFuel => (OutOfFuel, mk_rx (writer s) (recv_buffer s) conn')
      end
    | Err e => (Err e, mk_rx (writer s) (recv_buffer s) conn')
    | Panic p => (Panic p, mk_rx (writer s) (recv_buffer s) conn')
    | OutOfFuel => (OutOfFuel, mk_rx (writer s) (recv_buffer s) conn')
    end
  else (Panic PSlice, s).

(** [writer.insert_ref(n, &recv_buffer[a..b])], an error of which becomes
    [BuffError]. *)
Definition insert_from (n a b : Z) : X unit := fun s =>
  match slice (E := ReasonCode.t) (recv_buffer s) a b with
  | Ok bs =>
    let '(o, w) := BuffWriter.insert_ref n bs (writer s) in
    (map_err (fun _ => ReasonCode.BuffError) o, mk_rx w (recv_buffer s) (conn s))
  | Err e => (Err e, s)
  | Panic p => (Panic p, s)
  | OutOfFuel => (OutOfFuel, s)
  end.

(** The result of [writer.get_rem_len()], as a value. *)
Definition get_rem_len : X (option (list Z)) := fun s =>
  match BuffWriter.get_rem_len (writer s) with
  | (Ok v, w) => (Ok (Some v), mk_rx w (recv_buffer s) (conn s))
  | (Err _, w) => (Ok None, mk_rx w (recv_buffer s) (conn s))
  | (Panic p, w) => (Panic p, mk_rx w (recv_buffer s) (conn s))
  | (OutOfFuel, w) => (OutOfFuel, mk_rx w (recv_buffer s) (conn s))
  end.

(** The first loop: the type and the length, byte by byte.  It returns the
    length and the number of bytes read. *)
Fixpoint length_loop (fuel : nat) (i : Z) : X (list Z * Z) :=
  match fuel with
  | O => lift OutOfFuel
  | S fuel =>
    pos ← gets (fun s => BuffWriter.position (writer s));
    len ← receive_at pos (pos + 1);
    if len =? 0 then throw ReasonCode.NetworkError
    else
      i ← lift (i +usize len);
      pos ← gets (fun s => BuffWriter.position (writer s));
      insert_from len pos i ;;;
      if i >? 1 then
        rem_len ← get_rem_len;
        match rem_len with
        | Some v => mret (v, i)
        | None =>
          if i >=? 5 then throw ReasonCode.NetworkError
          else length_loop fuel i
        end
      else length_loop fuel i
  end.

(** The second loop: the rest of the packet. *)
Fixpoint body_loop (fuel : nat) (target_len rem_len_len i : Z) : X Z :=
  match fuel with
  | O => lift OutOfFuel
  | S fuel =>
    pos ← gets (fun s => BuffWriter.position (writer s));
    if pos =? target_len + rem_len_len then mret (target_len + rem_len_len)
    else
      left ← lift (target_len -usize i);
      len ← receive_at pos (pos + left);
      i ← lift (i +usize len);
      pos ← gets (fun s => BuffWriter.position (writer s));
      insert_from len pos (pos + i) ;;;
      body_loop fuel target_len rem_len_len i
  end.

(** An unterminated length panics inside [decode]. *)
Definition decode_len (v : list Z) : outcome ReasonCode.t Z :=
  map_err (fun _ => ReasonCode.BuffError) (VariableByteIntegerDecoder.decode v).

(** Five turns of the first loop are enough: see [length_loop_packet]. *)
Definition receive_packet (fuel : nat) : X Z :=
  '(v, i) ← length_loop 5 0;
  target_len ← lift (decode_len v);
  body_loop fuel target_len i 0.

(** With the feature [tls]: one read. *)
Definition receive_packet_tls : X Z :=
  n ← gets (fun s => zlen (recv_buffer s));
  len ← receive_at 0 n;
  pos ← gets (fun s => BuffWriter.position (writer s));
  insert_from len pos (pos + len) ;;;
  mret len.
End receive_packet.
Arguments rx T : clear implicits.

(** ** Receiving a packet *)

Section receive_lemmas.
Context `{Profile} {T : Type} `{IoLaws T}.
Implicit Types (s : rx T) (pre suf : list Z).

(** [pre] has been received, [suf] is on its way; the buffers have the
    lengths [n] and [m], and nothing has been handed to the stream but [out]. *)
Definition receiving (n m : Z) (out pre suf : list Z) (s : rx T) : Prop :=
  BuffWriter.wf (writer s) /\ BuffWriter.written (writer s) = pre /\
  BuffWriter.len (writer s) = n /\ zlen (recv_buffer s) = m /\
  incoming (NetworkConnection.io (conn s)) suf /\
  handed (NetworkConnection.io (conn s)) = out.

Lemma receiving_position n m out pre suf s :
  receiving n m out pre suf s -> BuffWriter.position (writer s) = zlen pre.
Proof.
  intros (Hw & <- & _). unfold BuffWriter.written, BuffWriter.wf in *.
  rewrite zlen_take; lia.
Qed.

(** One read, and its copy into the packet buffer; [i] is the end of the
    slice the caller takes, relative to the position. *)
Lemma receive_step n m out pre suf s w :
  receiving n m out pre suf s -> suf <> [] -> 0 < w -> zlen pre + w <= m ->
  exists k s1, 1 <= k <= w /\ k <= zlen suf /\
    receive_at (zlen pre) (zlen pre + w) s = (Ok k, s1) /\
    BuffWriter.position (writer s1) = zlen pre /\
    forall i, k <= i -> zlen pre + i <= m -> zlen pre + k <= n ->
      exists s2, insert_from k (zlen pre) (zlen pre + i) s1 = (Ok tt, s2) /\
        receiving n m out (pre ++ ztake k suf) (zdrop k suf) s2.
Proof.
  intros Hs Hne Hw Hm. pose proof (receiving_position _ _ _ _ _ _ Hs) as Hpos.
  destruct Hs as (Hwf & Hpre & Hn & Hl & Hin & Hout).
  destruct (read_incoming _ _ w Hin Hne Hw) as (k & t' & Hk & Hks & Hrd & Hin' & Hout').
  pose proof (zlen_nonneg pre). pose proof (zlen_take k suf ltac:(lia)) as Hzk.
  set (rb := ztake (zlen pre) (recv_buffer s) ++ ztake k suf
    ++ zdrop (zlen pre + k) (recv_buffer s)).
  exists k, (mk_rx (writer s) rb (NetworkConnection.mk t')).
  split; [done|split; [done|split; [|split; [done|]]]].
  - unfold receive_at, NetworkConnection.receive.
    rewrite (proj2 (Z.leb_le _ _)), (proj2 (Z.leb_le _ _)) by lia. cbn [andb].
    replace (zlen pre + w - zlen pre) with w by lia. rewrite Hrd, Hzk.
    rewrite copy_into_ok by lia. done.
  - intros i Hi Him Hkn. unfold insert_from; cbn [recv_buffer writer conn].
    assert (Hrb : zlen rb = m).
    { unfold rb. zlen. rewrite zlen_take, zlen_drop by lia. lia. }
    rewrite slice_ok by lia. replace (zlen pre + i - zlen pre) with i by lia.
    assert (Hd : zdrop (zlen pre) rb = ztake k suf ++ zdrop (zlen pre + k) (recv_buffer s)).
    { unfold rb. replace (zlen pre) with (zlen (ztake (zlen pre) (recv_buffer s))) at 1
        by (rewrite zlen_take; lia). apply zdrop_app_len. }
    rewrite Hd. replace i with (zlen (ztake k suf) + (i - k)) by lia.
    rewrite ztake_app_plus by lia.
    destruct (insert_ref_writes k (ztake k suf)
      (ztake k suf ++ ztake (i - k) (zdrop (zlen pre + k) (recv_buffer s)))
      (eq_sym Hzk) (ex_intro _ _ eq_refl) (writer s) Hwf) as [Hins _].
    assert (Hfit : BuffWriter.fits (ztake k suf) (writer s))
      by (unfold BuffWriter.fits; lia).
    rewrite (Hins Hfit). eexists; split; [reflexivity|].
    split; [by apply put_wf|]. cbn [writer recv_buffer conn NetworkConnection.io].
    rewrite written_put by done. repeat split; congruence || done.
Qed.

(** The second loop ends with the packet in the buffer, however the stream
    cuts it, if the receive buffer has room for twice the body. *)
Lemma body_loop_packet fuel n m out target hl pre suf more i s :
  receiving n m out pre (suf ++ more) s ->
  zlen pre = hl + i -> 0 <= i -> 1 <= hl -> i + zlen suf = target ->
  hl + 2 * target <= m -> hl + target <= n -> hl + 2 * target < 2 ^ 32 ->
  (length suf < fuel)%nat ->
  exists s', body_loop fuel target hl i s = (Ok (target + hl), s') /\
    receiving n m out (pre ++ suf) more s'.
Proof.
  revert pre suf i s. induction fuel as [|fuel IH];
    intros pre suf i s Hs Hpre Hi Hhl Hsuf Hm Hn Hmax Hfuel; [lia|].
  cbn [body_loop]. erewrite bind_ok by reflexivity.
  rewrite (receiving_position _ _ _ _ _ _ Hs). pose proof (zlen_nonneg suf).
  destruct (Z.eqb_spec (zlen pre) (target + hl)) as [E|E].
  - assert (suf = []) as -> by (destruct suf; [done|unfold zlen in *; cbn in *; lia]).
    exists s. split; [done|]. by rewrite app_nil_r.
  - assert (Hne : suf <> []) by (intros ->; rewrite zlen_nil in *; lia).
    erewrite bind_ok by (unfold lift; by rewrite checked_ok by lia).
    destruct (receive_step _ _ _ _ _ _ (target - i) Hs) as (k & s1 & Hk & Hks & Hrd & Hp1 & Hins);
      [by destruct suf|lia|lia|].
    rewrite (bind_ok _ _ _ _ _ Hrd).
    erewrite bind_ok by (unfold lift; by rewrite checked_ok by lia).
    erewrite bind_ok by reflexivity. rewrite Hp1.
    destruct (Hins (i + k)) as (s2 & Hi2 & Hs2); [lia..|].
    rewrite (bind_ok _ _ _ _ _ Hi2).
    assert (Hkl : k <= zlen suf) by lia.
    rewrite ztake_app_le, zdrop_app_le in Hs2 by lia.
    pose proof (zlen_take k suf ltac:(lia)). pose proof (zlen_drop k suf ltac:(lia)).
    edestruct (IH (pre ++ ztake k suf) (zdrop k suf) (i + k) s2) as (s3 & Hb & Hs3);
      [done|zlen; lia|lia|lia|lia|lia|lia|lia| |].
    { unfold zlen in *. lia. }
    exists s3. split; [done|]. by rewrite <- app_assoc, ztake_zdrop in Hs3.
Qed.

(** One turn of the first loop. *)
Lemma length_loop_turn fuel n m out pre b suf s :
  receiving n m out pre (b :: suf) s -> zlen pre + 1 <= m -> zlen pre + 1 <= n ->
  zlen pre < 5 ->
  exists s', receiving n m out (pre ++ [b]) suf s' /\
    length_loop (S fuel) (zlen pre) s =
    (if zlen pre + 1 >? 1 then
       rem_len ← get_rem_len;
       match rem_len with
       | Some v => mret (v, zlen pre + 1)
       | None => if zlen pre + 1 >=? 5 then throw ReasonCode.NetworkError
                 else length_loop fuel (zlen pre + 1)
       end
     else length_loop fuel (zlen pre + 1)) s'.
Proof.
  intros Hs Hm Hn H5. pose proof (zlen_nonneg pre). cbn [length_loop].
  erewrite bind_ok by reflexivity. rewrite (receiving_position _ _ _ _ _ _ Hs).
  destruct (receive_step _ _ _ _ _ _ 1 Hs) as (k & s1 & Hk & Hks & Hrd & Hp1 & Hins);
    [done|lia|lia|]. assert (k = 1) as -> by lia.
  rewrite (bind_ok _ _ _ _ _ Hrd). cbn [Z.eqb].
  erewrite bind_ok by (unfold lift; by rewrite checked_ok by lia).
  erewrite bind_ok by reflexivity. rewrite Hp1.
  destruct (Hins 1) as (s2 & Hi2 & Hs2); [lia..|].
  rewrite (bind_ok _ _ _ _ _ Hi2). exists s2. by split.
Qed.

(** The length as [get_rem_len] sees it, before and at its last byte. *)
Lemma get_rem_len_partial n m out h v c suf rest s :
  receiving n m out (h :: v) rest s -> (exists x, vbi_ok x /\ vbi_bytes x = v ++ c :: suf) ->
  v <> [] -> get_rem_len s = (Ok None, s).
Proof.
  intros Hs (x & Hx & Hv) Hne. pose proof (receiving_position _ _ _ _ _ _ Hs) as Hp.
  destruct Hs as (_ & Hw & _). pose proof (zlen_vbi_bytes x) as Hl. rewrite Hv in Hl. zlen.
  pose proof (zlen_nonneg suf). pose proof (zlen_nonneg v).
  unfold get_rem_len, BuffWriter.get_rem_len. erewrite bind_ok by reflexivity.
  rewrite Hp, Z.geb_leb, (proj2 (Z.leb_gt _ _)) by lia.
  erewrite bind_ok by (unfold lift; by rewrite checked_ok by lia).
  rewrite <- (ztake_zdrop (BuffWriter.position (writer s)) (BuffWriter.buffer (writer s))).
  unfold BuffWriter.written in Hw. rewrite Hw. unfold lift.
  replace (1 + zlen v - 1) with (zlen v) by lia. cbn [app].
  erewrite rem_len_partial by done. by destruct s.
Qed.

Lemma get_rem_len_full n m out h x rest s :
  receiving n m out (h :: vbi_bytes x) rest s -> vbi_ok x ->
  get_rem_len s = (Ok (Some (pad4 (vbi_bytes x))), s).
Proof.
  intros Hs Hx. pose proof (receiving_position _ _ _ _ _ _ Hs) as Hp.
  destruct Hs as (_ & Hw & _). pose proof (zlen_vbi_bytes x) as Hl. zlen.
  unfold get_rem_len, BuffWriter.get_rem_len. erewrite bind_ok by reflexivity.
  rewrite (bind_ok _ _ _ (zlen (vbi_bytes x)) (writer s)).
  2: { rewrite Hp, Z.geb_leb. destruct (Z.leb_spec 5 (1 + zlen (vbi_bytes x))).
       - unfold mret, M_ret. do 2 f_equal. lia.
       - unfold lift. rewrite checked_ok by lia. do 2 f_equal. lia. }
  rewrite <- (ztake_zdrop (BuffWriter.position (writer s)) (BuffWriter.buffer (writer s))).
  unfold BuffWriter.written in Hw. rewrite Hw. unfold lift. cbn [app].
  rewrite rem_len_full by done. by destruct s.
Qed.

(** From the second byte on. *)
Lemma length_loop_bytes fuel n m out h x v suf more s :
  receiving n m out (h :: v) (suf ++ more) s -> vbi_ok x -> vbi_bytes x = v ++ suf ->
  suf <> [] -> 1 + zlen (vbi_bytes x) <= m -> 1 + zlen (vbi_bytes x) <= n ->
  (length suf <= fuel)%nat ->
  exists s', length_loop fuel (1 + zlen v) s =
    (Ok (pad4 (vbi_bytes x), 1 + zlen (vbi_bytes x)), s') /\
    receiving n m out (h :: vbi_bytes x) more s'.
Proof.
  revert v suf s. induction fuel as [|fuel IH]; intros v suf s Hs Hx Hv Hne Hm Hn Hfuel;
    destruct suf as [|b suf]; try done; [cbn in Hfuel; lia|].
  pose proof (zlen_vbi_bytes x) as Hl. rewrite Hv in Hl. zlen.
  pose proof (zlen_nonneg suf). pose proof (zlen_nonneg v).
  assert (Hvx : zlen (vbi_bytes x) = zlen v + (1 + zlen suf)) by (rewrite Hv; by zlen).
  destruct (length_loop_turn fuel _ _ _ _ _ _ _ Hs) as (s1 & Hs1 & Hturn); [zlen; lia..|].
  zlen. rewrite Hturn. rewrite Z.gtb_ltb, (proj2 (Z.ltb_lt _ _)) by lia.
  cbn [app] in Hs1. destruct suf as [|c suf].
  - rewrite <- Hv in Hs1. rewrite (bind_ok _ _ _ _ _ (get_rem_len_full _ _ _ _ _ _ _ Hs1 Hx)).
    exists s1. split; [|done]. unfold mret, M_ret. do 3 f_equal. rewrite Hvx, zlen_nil. lia.
  - assert (Hv' : vbi_bytes x = (v ++ [b]) ++ c :: suf) by (by rewrite <- app_assoc).
    rewrite (bind_ok _ _ _ _ _ (get_rem_len_partial _ _ _ _ _ _ _ _ _ Hs1
      (ex_intro _ x (conj Hx Hv')) ltac:(by destruct v))).
    pose proof (zlen_nonneg suf). zlen. rewrite Z.geb_leb, (proj2 (Z.leb_gt _ _)) by lia.
    destruct (IH (v ++ [b]) (c :: suf) s1) as (s2 & Hl2 & Hs2); try done; [lia..|cbn in *; lia|].
    exists s2. split; [|done]. rewrite <- Hl2. f_equal. zlen. lia.
Qed.

Lemma length_loop_packet n m out h x more s :
  receiving n m out [] (h :: vbi_bytes x ++ more) s -> vbi_ok x ->
  1 + zlen (vbi_bytes x) <= m -> 1 + zlen (vbi_bytes x) <= n ->
  exists s', length_loop 5 0 s = (Ok (pad4 (vbi_bytes x), 1 + zlen (vbi_bytes x)), s') /\
    receiving n m out (h :: vbi_bytes x) more s'.
Proof.
  intros Hs Hx Hm Hn. pose proof (zlen_vbi_bytes x).
  destruct (length_loop_turn 4 _ _ _ [] _ _ _ Hs) as (s1 & Hs1 & Hturn);
    [rewrite zlen_nil; lia..|].
  rewrite zlen_nil in Hturn. rewrite Hturn. cbn [Z.gtb Z.compare Z.add].
  apply (length_loop_bytes 4 n m out h x [] (vbi_bytes x)); try done.
  - intros Hnil. rewrite Hnil, zlen_nil in *. lia.
  - unfold zlen in *. lia.
Qed.

(** *** An unterminated length *)

(** One turn on a byte that does not end the length. *)
Lemma length_loop_partial fuel n m out h v b suf d e s :
  receiving n m out (h :: v) (b :: suf) s ->
  (exists x, vbi_ok x /\ vbi_bytes x = (v ++ [b]) ++ d :: e) -> 5 <= m -> 5 <= n ->
  exists s', receiving n m out (h :: v ++ [b]) suf s' /\
    length_loop (S fuel) (1 + zlen v) s = length_loop fuel (1 + zlen (v ++ [b])) s'.
Proof.
  intros Hs Hx Hm Hn. assert (Hl : zlen v <= 2).
  { destruct Hx as (x & _ & Hv). pose proof (zlen_vbi_bytes x) as Hl. rewrite Hv in Hl.
    pose proof (zlen_nonneg e). zlen. lia. }
  pose proof (zlen_nonneg v).
  destruct (length_loop_turn fuel _ _ _ _ _ _ _ Hs) as (s1 & Hs1 & Hturn); [zlen; lia..|].
  exists s1. split; [done|]. zlen. rewrite Hturn, Z.gtb_ltb, (proj2 (Z.ltb_lt _ _)) by lia.
  rewrite (bind_ok _ _ _ _ _ (get_rem_len_partial _ _ _ h (v ++ [b]) d e _ _ Hs1 Hx
    ltac:(by destruct v))).
  rewrite Z.geb_leb, (proj2 (Z.leb_gt _ _)) by lia. f_equal. lia.
Qed.

(** Four continuation bytes: the loop takes them for the length. *)
Lemma length_loop_unterminated n m out h c1 c2 c3 c4 more s :
  receiving n m out [] (h :: c1 :: c2 :: c3 :: c4 :: more) s ->
  Forall (fun b => 128 <= b < 256) [c1; c2; c3; c4] -> 5 <= m -> 5 <= n ->
  exists s', length_loop 5 0 s = (Ok ([c1; c2; c3; c4], 5), s').
Proof.
  intros Hs Hc Hm Hn. rewrite !list.Forall_cons in Hc. destruct Hc as (Hc1 & Hc2 & Hc3 & Hc4 & _).
  set (x := (c1 - 128) + 128 * (c2 - 128) + 16384 * (c3 - 128) + 2097152).
  assert (Hx : vbi_ok x) by (unfold x, vbi_ok, MAX_ENCODABLE; lia).
  assert (Hv : vbi_bytes x = [c1; c2; c3; 1]).
  { subst x. vbi_cases (c1 - 128 + 128 * (c2 - 128) + 16384 * (c3 - 128) + 2097152); try lia.
    repeat (f_equal; try divmod). }
  destruct (length_loop_turn 4 _ _ _ [] _ _ _ Hs) as (s1 & Hs1 & Ht1); [zlen; lia..|].
  change (zlen (@nil Z)) with 0 in Ht1. rewrite Ht1.
  change (0 + 1 >? 1) with false. change (0 + 1) with 1. cbv iota.
  destruct (length_loop_partial 3 _ _ _ h [] c1 _ c2 [c3; 1] _ Hs1) as (s2 & Hs2 & Ht2);
    [by exists x|done..|].
  change (1 + zlen []) with 1 in Ht2. rewrite Ht2.
  destruct (length_loop_partial 2 _ _ _ h [c1] c2 _ c3 [1] _ Hs2) as (s3 & Hs3 & Ht3);
    [by exists x|done..|].
  change ([] ++ [c1]) with [c1]. rewrite Ht3.
  destruct (length_loop_partial 1 _ _ _ h [c1; c2] c3 _ 1 [] _ Hs3) as (s4 & Hs4 & Ht4);
    [by exists x|done..|].
  change ([c1] ++ [c2]) with [c1; c2]. rewrite Ht4.
  destruct (length_loop_turn 0 _ _ _ _ _ _ _ Hs4) as (s5 & Hs5 & Ht5); [unfold zlen; cbn; lia..|].
  change (1 + zlen ([c1; c2] ++ [c3])) with (zlen (h :: [c1; c2] ++ [c3])). rewrite Ht5.
  cbn [app] in Hs5. pose proof (receiving_position _ _ _ _ _ _ Hs5) as Hp.
  destruct Hs5 as (_ & Hw & _). exists s5.
  change (zlen (h :: [c1; c2] ++ [c3]) + 1) with 5. change (5 >? 1) with true. cbv iota.
  rewrite (bind_ok _ _ _ (Some [c1; c2; c3; c4]) s5); [done|].
  unfold get_rem_len, BuffWriter.get_rem_len. erewrite bind_ok by reflexivity.
  change (zlen [h; c1; c2; c3; c4]) with 5 in Hp. rewrite Hp. change (5 >=? 5) with true. cbv iota.
  erewrite bind_ok by reflexivity.
  rewrite <- (ztake_zdrop (BuffWriter.position (writer s5)) (BuffWriter.buffer (writer s5))).
  unfold BuffWriter.written in Hw. rewrite Hw. unfold lift. cbn [app].
  rewrite BuffWriter.rem_len_unterminated by done. by destruct s5.
Qed.

(** The whole: a packet that fits is received whatever the stream's
    fragmentation, given room for twice the body. *)
Lemma receive_packet_ok fuel n m out h x body more s :
  receiving n m out [] (h :: vbi_bytes x ++ body ++ more) s -> vbi_ok x -> zlen body = x ->
  1 + zlen (vbi_bytes x) + 2 * x <= m -> 1 + zlen (vbi_bytes x) + x <= n ->
  (length body < fuel)%nat ->
  exists s', receive_packet fuel s = (Ok (1 + zlen (vbi_bytes x) + x), s') /\
    receiving n m out (h :: vbi_bytes x ++ body) more s'.
Proof.
  intros Hs Hx Hb Hm Hn Hfuel. pose proof (zlen_vbi_bytes x). pose proof Hx as Hx'.
  unfold vbi_ok, MAX_ENCODABLE in Hx'.
  destruct (length_loop_packet _ _ _ _ _ _ _ Hs Hx) as (s1 & Hl1 & Hs1); [lia..|].
  unfold receive_packet. rewrite (bind_ok _ _ _ _ _ Hl1). cbn beta iota.
  unfold decode_len, pad4. rewrite decode_ok by done. cbn [map_err].
  erewrite bind_ok by reflexivity.
  destruct (body_loop_packet fuel n m out x (1 + zlen (vbi_bytes x)) _ body more 0 s1 Hs1)
    as (s2 & Hl2 & Hs2); [zlen; lia|lia..|].
  exists s2. split; [|done]. rewrite Hl2. f_equal. f_equal. lia.
Qed.
End receive_lemmas.

(** At the end of the stream a read returns no byte; the second loop then reads
    again and again. *)
Lemma body_loop_eof `{Profile} {T} `{Io T} fuel target hl i (s : rx T) :
  (forall n, io_read (NetworkConnection.io (conn s)) n =
     (Some [], NetworkConnection.io (conn s))) ->
  BuffWriter.wf (writer s) -> BuffWriter.position (writer s) = hl + i ->
  0 <= i < target -> target < 2 ^ 32 ->
  hl + 2 * target <= zlen (recv_buffer s) -> hl + target <= BuffWriter.len (writer s) ->
  0 <= hl -> (body_loop fuel target hl i s).1 = OutOfFuel.
Proof.
  intros Heof Hwf Hp Hi Ht Hm Hn Hhl. revert s Heof Hwf Hp Hm Hn.
  induction fuel as [|fuel IH]; intros s Heof Hwf Hp Hm Hn; [done|]. cbn [body_loop].
  erewrite bind_ok by reflexivity. rewrite (proj2 (Z.eqb_neq _ _)) by lia.
  erewrite bind_ok by (unfold lift; by rewrite checked_ok by lia).
  pose proof (zlen_nonneg (recv_buffer s)).
  rewrite (bind_ok _ _ _ 0 s).
  2: { unfold receive_at, NetworkConnection.receive. rewrite Hp.
       rewrite (proj2 (Z.leb_le _ _)), (proj2 (Z.leb_le _ _)) by lia. cbn [andb].
       rewrite Heof, zlen_nil, Z.add_0_r.
       rewrite copy_into_ok by (rewrite ?zlen_nil; lia).
       cbn [app]. rewrite ztake_zdrop. by destruct s as [? ? []]. }
  erewrite bind_ok by (unfold lift; by rewrite checked_ok by lia).
  erewrite bind_ok by reflexivity. rewrite Z.add_0_r.
  assert (Hins : insert_from 0 (BuffWriter.position (writer s))
    (BuffWriter.position (writer s) + i) s = (Ok tt, s)).
  { unfold insert_from. rewrite slice_ok by lia.
    destruct (insert_ref_writes 0 [] (ztake (BuffWriter.position (writer s) + i
      - BuffWriter.position (writer s)) (zdrop (BuffWriter.position (writer s)) (recv_buffer s)))
      eq_refl (ex_intro _ _ eq_refl) _ Hwf) as [Hok _].
    rewrite Hok by (unfold BuffWriter.fits; rewrite zlen_nil; lia).
    rewrite put_nil by done. by destruct s. }
  rewrite (bind_ok _ _ _ _ _ Hins). by apply IH.
Qed.

(** ** Properties *)

Section receive_properties.
Context `{Profile} {T : Type} `{IoLaws T}.
Context (buf rbuf : list Z) (n : Z) (io : T).
Hypothesis room : 0 <= n <= zlen buf.

(** The call the client makes. *)
Definition started : rx T := mk_rx (BuffWriter.new buf n) rbuf (NetworkConnection.new io).

Lemma started_receiving bs :
  incoming io bs -> receiving n (zlen rbuf) (handed io) [] bs started.
Proof.
  intros Hin. split; [unfold BuffWriter.wf; cbn; lia|]. by repeat split.
Qed.

(** C1: the packet that arrives is in the packet buffer when [receive_packet]
    returns its length, however the stream cuts it into reads, and the bytes
    behind it are still to be read; it needs room for twice the body in the
    receive buffer, and a turn of its loop per byte at most. *)
Theorem receive_packet_reassembles fuel h x body more :
  incoming io (h :: vbi_bytes x ++ body ++ more) -> vbi_ok x -> zlen body = x ->
  1 + zlen (vbi_bytes x) + 2 * x <= zlen rbuf -> 1 + zlen (vbi_bytes x) + x <= n ->
  (length body < fuel)%nat ->
  exists s', receive_packet fuel started = (Ok (1 + zlen (vbi_bytes x) + x), s') /\
    BuffWriter.written (writer s') = h :: vbi_bytes x ++ body /\
    incoming (NetworkConnection.io (conn s')) more /\
    handed (NetworkConnection.io (conn s')) = handed io.
Proof.
  intros Hin Hx Hb Hm Hn Hfuel.
  destruct (receive_packet_ok fuel _ _ _ _ _ _ _ _ (started_receiving _ Hin) Hx Hb Hm Hn Hfuel)
    as (s' & Hr & _ & Hw & _ & _ & Hin' & Hout'). by exists s'.
Qed.

(** Two packets a peer can send to stop the client with a panic: four
    bytes of length that all announce another (then the length's decoder
    indexes past its four bytes), and a length the receive buffer cannot
    hold. *)
Theorem receive_packet_hostile fuel h c1 c2 c3 c4 x more more' io' :
  incoming io (h :: c1 :: c2 :: c3 :: c4 :: more) ->
  Forall (fun b => 128 <= b < 256) [c1; c2; c3; c4] ->
  5 <= zlen rbuf -> 5 <= n ->
  incoming io' (h :: vbi_bytes x ++ more') -> vbi_ok x ->
  zlen rbuf < 1 + zlen (vbi_bytes x) + x ->
  (exists s', receive_packet fuel started = (Panic PIndex, s')) /\
  (exists s', receive_packet (S fuel) (mk_rx (BuffWriter.new buf n) rbuf (NetworkConnection.new io'))
     = (Panic PSlice, s')).
Proof.
  intros Hin Hc Hm Hn Hin' Hx Hl. pose proof (zlen_vbi_bytes x) as Hv.
  assert (Hpos : 0 < x) by lia. split.
  - destruct (length_loop_unterminated _ _ _ _ _ _ _ _ _ _ (started_receiving _ Hin) Hc Hm Hn)
      as [s1 Hs1].
    exists s1. unfold receive_packet. rewrite (bind_ok _ _ _ _ _ Hs1). cbn beta iota.
    unfold decode_len. by rewrite decode_overrun.
  - assert (Hs : receiving n (zlen rbuf) (handed io') [] (h :: vbi_bytes x ++ more')
      (mk_rx (BuffWriter.new buf n) rbuf (NetworkConnection.new io'))).
    { split; [unfold BuffWriter.wf; cbn; lia|]. by repeat split. }
    destruct (length_loop_packet _ _ _ _ _ _ _ Hs Hx) as (s1 & Hl1 & Hs1); [lia..|].
    exists s1. unfold receive_packet. rewrite (bind_ok _ _ _ _ _ Hl1). cbn beta iota.
    unfold decode_len, pad4. rewrite decode_ok by done. cbn [map_err].
    erewrite bind_ok by reflexivity. cbn [body_loop]. erewrite bind_ok by reflexivity.
    rewrite (receiving_position _ _ _ _ _ _ Hs1), zlen_cons.
    destruct (Z.eqb_spec (1 + zlen (vbi_bytes x)) (x + (1 + zlen (vbi_bytes x)))); [lia|].
    destruct Hs1 as (_ & _ & _ & Hrb & _). unfold vbi_ok, MAX_ENCODABLE in Hx.
    erewrite bind_ok by (unfold lift; by rewrite checked_ok by lia).
    apply bind_panic. unfold receive_at. rewrite Hrb.
    by rewrite (proj2 (Z.leb_gt (1 + zlen (vbi_bytes x) + (x - 0)) (zlen rbuf))), andb_false_r by lia.
Qed.

(** A peer that closes the connection behind the length of a packet is
    never noticed: each read returns 0 bytes and the loop reads again, for as
    long as it is run. *)
Theorem receive_packet_eof fuel h x :
  (forall t k, incoming t [] -> io_read t k = (Some [], t)) ->
  incoming io (h :: vbi_bytes x) -> vbi_ok x -> 0 < x ->
  1 + zlen (vbi_bytes x) + 2 * x <= zlen rbuf -> 1 + zlen (vbi_bytes x) + x <= n ->
  (receive_packet fuel started).1 = OutOfFuel.
Proof.
  intros Heof Hin Hx Hpos Hm Hn. pose proof (zlen_vbi_bytes x) as Hv.
  pose proof (started_receiving _ Hin) as Hs. rewrite <- (app_nil_r (h :: _)) in Hs.
  destruct (length_loop_packet _ _ _ _ _ _ _ Hs Hx) as (s1 & Hl1 & Hs1); [lia..|].
  unfold receive_packet. rewrite (bind_ok _ _ _ _ _ Hl1). cbn beta iota.
  unfold decode_len, pad4. rewrite decode_ok by done. cbn [map_err].
  erewrite bind_ok by reflexivity.
  pose proof (receiving_position _ _ _ _ _ _ Hs1) as Hp. rewrite zlen_cons in Hp.
  destruct Hs1 as (Hwf & _ & Hl & Hrb & Hin1 & _). unfold vbi_ok, MAX_ENCODABLE in Hx.
  apply body_loop_eof; try done; try lia. intros k. by apply Heof.
Qed.
End receive_properties.

(** ** A stream to run the model: chunks to deliver, bytes handed to it

    A write takes at most sixteen bytes. *)

Module ScriptedIo.
Record t : Type := mk { chunks : list (list Z); out : list Z }.

#[global] Instance io : Io t := {|
  io_read self n :=
    match chunks self with
    | [] => (Some [], self)
    | c :: cs =>
      if zlen c <=? n then (Some c, mk cs (out self))
      else (Some (ztake n c), mk (zdrop n c :: cs) (out self))
    end;
  io_write self bs := (Some (Z.min 16 (zlen bs)), mk (chunks self) (out self ++ bs))
|}.

Definition incoming (self : t) (bs : list Z) : Prop :=
  concat (chunks self) = bs /\ Forall (fun c => c <> []) (chunks self).

Lemma zlen_pos {A} (c : list A) : c <> [] -> 1 <= zlen c.
Proof. destruct c; [done|]. intros _. zlen. pose proof (zlen_nonneg c). lia. Qed.

#[global] #[refine] Instance laws : IoLaws t := {|
  Network.incoming := incoming;
  handed := out
|}.
Proof.
  - intros [[|c cs] o] bs n [Hc Hf] Hne Hn; cbn in Hc; [by subst|].
    inversion Hf as [|? ? Hc1 Hcs]; subst. apply zlen_pos in Hc1.
    pose proof (zlen_nonneg (concat cs)). cbn [io_read io chunks].
    destruct (Z.leb_spec (zlen c) n) as [Hle|Hlt].
    + exists (zlen c), (mk cs o). zlen. rewrite ztake_app_len, zdrop_app_len.
      split; [lia|split; [lia|split; [done|by split]]].
    + exists n, (mk (zdrop n c :: cs) o). zlen.
      rewrite ztake_app_le, zdrop_app_le by lia.
      split; [lia|split; [lia|split; [done|split; [|done]]]].
      split; [done|]. constructor; [|done]. intros Hnil.
      pose proof (zlen_drop n c ltac:(lia)) as Hd. rewrite Hnil, zlen_nil in Hd. lia.
  - intros [[|c cs] o] n bs t' Hn Hr; cbn in Hr; [by injection Hr as <- <-|].
    destruct (Z.leb_spec (zlen c) n); injection Hr as <- <-; [done|].
    rewrite zlen_take by lia. lia.
  - intros t bs n t' Hw. injection Hw as <- <-. pose proof (zlen_nonneg bs).
    cbn [out]. repeat split; done || lia || apply H0.
Defined.

Lemma io_writes : no_write_fails t.
Proof. intros self bs. by do 2 eexists. Qed.

(** *** A stream whose last read is fixed

    [bs] is on its way, its last [zlen tl] bytes in a read of their own. *)
Definition incoming_tail (tl : list Z) (self : t) (bs : list Z) : Prop :=
  incoming self bs /\
  (zlen tl < zlen bs -> exists c, chunks self = [c; tl]).

#[refine] Definition tail_laws (tl : list Z) : IoLaws t := {|
  Network.incoming := incoming_tail tl;
  handed := out
|}.
Proof.
  - intros [[|c cs] o] bs n [[Hc Hf] Htl] Hne Hn; cbn in Hc; [by subst|].
    inversion Hf as [|? ? Hc1 Hcs]; subst. apply zlen_pos in Hc1.
    pose proof (zlen_nonneg (concat cs)). cbn [io_read io chunks] in *.
    destruct (Z.leb_spec (zlen c) n) as [Hle|Hlt].
    + exists (zlen c), (mk cs o). zlen. rewrite ztake_app_len, zdrop_app_len.
      split; [lia|split; [lia|split; [done|split; [split; [by split|]|done]]]].
      intros Hl. destruct Htl as [c' Hc']; [lia|]. injection Hc' as <- ->. cbn in Hl.
      rewrite app_nil_r in Hl. lia.
    + exists n, (mk (zdrop n c :: cs) o). zlen.
      rewrite ztake_app_le, zdrop_app_le by lia.
      split; [lia|split; [lia|split; [done|split; [split; [split; [done|]|]|done]]]].
      * constructor; [|done]. intros Hnil.
        pose proof (zlen_drop n c ltac:(lia)) as Hd. rewrite Hnil, zlen_nil in Hd. lia.
      * intros Hl. rewrite zlen_app, zlen_drop in Hl by lia.
        destruct Htl as [c' Hc']; [lia|]. injection Hc' as -> ->. by exists (zdrop n c').
  - exact (read_bounded (T := t)).
  - intros t bs n t' Hw. injection Hw as <- <-. pose proof (zlen_nonneg bs).
    cbn [out]. repeat split; done || lia || apply H0.
Defined.

(** A read of a whole chunk. *)
Lemma receive_chunk `{Profile} (s : rx t) c cs o a w :
  NetworkConnection.io (conn s) = mk (c :: cs) o -> 0 <= a -> zlen c <= w ->
  a + w <= zlen (recv_buffer s) ->
  exists s', receive_at a (a + w) s = (Ok (zlen c), s') /\
    NetworkConnection.io (conn s') = mk cs o /\ writer s' = writer s /\
    zlen (recv_buffer s') = zlen (recv_buffer s) /\
    ztake (zlen c) (zdrop a (recv_buffer s')) = c.
Proof.
  intros Hio Ha Hc Hw. pose proof (zlen_nonneg c).
  unfold receive_at, NetworkConnection.receive.
  rewrite (proj2 (Z.leb_le _ _)), (proj2 (Z.leb_le _ _)) by lia. cbn [andb].
  rewrite Hio. cbn [io_read io chunks]. replace (a + w - a) with w by lia.
  rewrite (proj2 (Z.leb_le _ _)) by lia. rewrite copy_into_ok by lia.
  eexists. split; [reflexivity|]. cbn [conn writer recv_buffer NetworkConnection.io].
  split; [done|split; [done|split]].
  - zlen. rewrite zlen_take, zlen_drop by lia. lia.
  - replace a with (zlen (ztake a (recv_buffer s))) at 1 by (rewrite zlen_take; lia).
    by rewrite zdrop_app_len, ztake_app_len.
Qed.
End ScriptedIo.

(** The copy of what one read stored. *)
Lemma insert_chunk `{Profile} {T} (s : rx T) c a :
  BuffWriter.wf (writer s) -> ztake (zlen c) (zdrop a (recv_buffer s)) = c ->
  0 <= a -> a + zlen c <= zlen (recv_buffer s) ->
  BuffWriter.position (writer s) + zlen c <= BuffWriter.len (writer s) ->
  insert_from (zlen c) a (a + zlen c) s =
  (Ok tt, mk_rx (BuffWriter.put c (writer s)) (recv_buffer s) (conn s)).
Proof.
  intros Hw Hc Ha Hl Hfit. pose proof (zlen_nonneg c). unfold insert_from.
  rewrite slice_ok by lia. rewrite Z.add_simpl_l, Hc.
  destruct (insert_ref_writes (zlen c) c c eq_refl (ex_intro _ [] (eq_sym (app_nil_r c))) _ Hw)
    as [Hok _]. by rewrite Hok.
Qed.

(** Receive buffers of exactly the packet's length are not enough.  When
    the body comes in two reads, the second slice that is copied out of the
    receive buffer ends behind it, and the client stops with a panic. *)
Theorem receive_packet_fragments `{Profile} fuel h x b1 b2 buf rbuf o
  (Hx : vbi_ok x) (Hb : zlen b1 + zlen b2 = x) (H1 : b1 <> []) (H2 : b2 <> [])
  (Hn : 1 + zlen (vbi_bytes x) + x <= zlen buf)
  (Hm : zlen rbuf = 1 + zlen (vbi_bytes x) + x) :
  exists s', receive_packet (S (S fuel))
    (started buf rbuf (zlen buf) (ScriptedIo.mk [h :: vbi_bytes x ++ b1; b2] o)) = (Panic PSlice, s').
Proof.
  pose proof (zlen_vbi_bytes x) as Hv. apply ScriptedIo.zlen_pos in H1, H2.
  set (io := ScriptedIo.mk _ _). set (s := started _ _ _ _).
  assert (Hs : receiving (H1 := ScriptedIo.tail_laws b2) (zlen buf) (zlen rbuf) o []
    (h :: vbi_bytes x ++ b1 ++ b2) s).
  { apply (started_receiving (H1 := ScriptedIo.tail_laws b2) buf rbuf (zlen buf) io); [lia|].
    split; [split|].
    - cbn. rewrite app_nil_r. by rewrite <- app_assoc.
    - constructor; [done|]. constructor; [|done]. intros ->. by rewrite zlen_nil in H2.
    - intros _. by eexists. }
  destruct (length_loop_packet (H1 := ScriptedIo.tail_laws b2) _ _ _ _ _ _ _ Hs Hx)
    as (s1 & Hl1 & Hs1); [lia..|]. clear Hs.
  pose proof (receiving_position (H1 := ScriptedIo.tail_laws b2) _ _ _ _ _ _ Hs1) as Hp1.
  rewrite zlen_cons in Hp1. destruct Hs1 as (Hw1 & _ & Hlen & Hrb1 & [[Hcat _] Hch] & _).
  destruct Hch as [c Hch]; [rewrite zlen_app; lia|]. rewrite Hch in Hcat. cbn in Hcat.
  rewrite app_nil_r in Hcat. apply app_inv_tail in Hcat as ->.
  unfold receive_packet. rewrite (bind_ok _ _ _ _ _ Hl1). cbn beta iota.
  unfold decode_len, pad4. rewrite decode_ok by done. cbn [map_err].
  erewrite bind_ok by reflexivity. clear Hl1.
  set (hl := 1 + zlen (vbi_bytes x)) in *. unfold vbi_ok, MAX_ENCODABLE in Hx.
  cbn [body_loop]. erewrite bind_ok by reflexivity. rewrite Hp1.
  destruct (Z.eqb_spec hl (x + hl)); [lia|].
  erewrite bind_ok by (unfold lift; by rewrite checked_ok by lia).
  destruct (NetworkConnection.io (conn s1)) as [chs o1] eqn:Hio. cbn in Hch. subst chs.
  destruct (ScriptedIo.receive_chunk s1 b1 [b2] o1 hl (x - 0) Hio) as (s2 & Hr2 & Hio2 & Hw2 & Hrb2 & Hc2);
    [lia..|].
  rewrite (bind_ok _ _ _ _ _ Hr2).
  erewrite bind_ok by (unfold lift; by rewrite checked_ok by lia).
  erewrite bind_ok by reflexivity. rewrite Hw2, Hp1, Z.add_0_l.
  rewrite <- Hw2 in Hw1, Hp1, Hlen.
  rewrite (bind_ok _ _ _ _ _ (insert_chunk s2 b1 hl Hw1 Hc2 ltac:(lia) ltac:(lia) ltac:(lia))).
  set (s3 := mk_rx _ _ _). erewrite bind_ok by reflexivity.
  assert (Hp3 : BuffWriter.position (writer s3) = hl + zlen b1) by (cbn; lia). rewrite Hp3.
  destruct (Z.eqb_spec (hl + zlen b1) (x + hl)); [lia|].
  erewrite bind_ok by (unfold lift; by rewrite checked_ok by lia).
  destruct (ScriptedIo.receive_chunk s3 b2 [] o1 (hl + zlen b1) (x - zlen b1) Hio2)
    as (s4 & Hr4 & _ & Hw4 & Hrb4 & _); [lia..|cbn; lia|].
  rewrite (bind_ok _ _ _ _ _ Hr4).
  erewrite bind_ok by (unfold lift; by rewrite checked_ok by lia).
  erewrite bind_ok by reflexivity. rewrite Hw4, Hp3.
  exists s4. apply bind_panic. unfold insert_from. rewrite slice_panic; [done|].
  rewrite Hrb4. cbn. lia.
Qed.

(** The witnesses: a PUBACK of 6 bytes. *)
Definition sample_packet : list Z := [0x40; 4; 3; 9; 0; 0].

Lemma receive_packet_reassembles_witness :
  exists s', receive_packet (H := dev_profile) 5
    (started (replicate 8 0) (replicate 10 0) 8 (ScriptedIo.mk [[0x40; 4; 3]; [9]; [0; 0; 0xD0]; [0]] [])) =
    (Ok 6, s') /\
    BuffWriter.written (writer s') = sample_packet /\
    ScriptedIo.incoming (NetworkConnection.io (conn s')) [0xD0; 0] /\
    ScriptedIo.out (NetworkConnection.io (conn s')) = [].
Proof.
  apply (receive_packet_reassembles (H := dev_profile) (replicate 8 0) (replicate 10 0) 8
    (ScriptedIo.mk [[0x40; 4; 3]; [9]; [0; 0; 0xD0]; [0]] []) ltac:(concrete) 5 0x40 4
    [3; 9; 0; 0] [0xD0; 0]); try concrete.
Defined.

Lemma receive_packet_hostile_witness :
  (exists s', receive_packet (H := dev_profile) 1 (started (replicate 8 0) (replicate 10 0) 8
     (ScriptedIo.mk [[0x20; 255; 255]; [255; 255]] [])) = (Panic PIndex, s')) /\
  (exists s', receive_packet (H := dev_profile) 1
     (mk_rx (BuffWriter.new (replicate 8 0) 8) (replicate 10 0)
       (NetworkConnection.new (ScriptedIo.mk [[0x20; 200; 1]] []))) = (Panic PSlice, s')).
Proof.
  apply (receive_packet_hostile (H := dev_profile) (replicate 8 0) (replicate 10 0) 8
    (ScriptedIo.mk [[0x20; 255; 255]; [255; 255]] []) ltac:(concrete) 0
    0x20 255 255 255 255 200 [] [] (ScriptedIo.mk [[0x20; 200; 1]] [])); try concrete.
Defined.

Lemma receive_packet_eof_witness :
  (receive_packet (H := dev_profile) 1000 (started (replicate 8 0) (replicate 10 0) 8
     (ScriptedIo.mk [[0x40; 4]] []))).1 = OutOfFuel.
Proof.
  apply (receive_packet_eof (H := dev_profile) (replicate 8 0) (replicate 10 0) 8
    (ScriptedIo.mk [[0x40; 4]] []) ltac:(concrete) 1000 0x40 4); try concrete.
  intros [[|c cs] o] k [Hc Hf]; [done|]. inversion Hf as [|? ? Hne]; subst. by destruct c.
Defined.

Lemma receive_packet_fragments_witness :
  exists s', receive_packet (H := dev_profile) 2
    (started (replicate 6 0) (replicate 6 0) 6 (ScriptedIo.mk [[0x40; 4; 3]; [9; 0; 0]] [])) =
    (Panic PSlice, s').
Proof.
  apply (receive_packet_fragments (H := dev_profile) 0 0x40 4 [3] [9; 0; 0] (replicate 6 0)
    (replicate 6 0) []); concrete.
Defined.
