(* ===== verification/RawClient.v ===== *)
(** The packet-level client: [RawMqttClient] of rust-mqtt/src/client/raw_client.rs.

    A method runs on the whole client.  Strings are byte lists; [fuel] bounds
    the reads of the body of a packet in [poll]. *)
From S2P Require Import Prelude.
From S2P Require Import Utf8.
From S2P Require Import Types.
From S2P Require Import Vbi.
From S2P Require Import BuffReader.
From S2P Require Import BuffWriter.
From S2P Require Import Heapless.
From S2P Require Import Codes.
From S2P Require Import Property.
From S2P Require Import Packet.
From S2P Require Import Acks.
From S2P Require Import ServerPackets.
From S2P Require Import PublishPacket.
From S2P Require Import ConnectPacket.
From S2P Require Import Subscriptions.
From S2P Require Import ClientConfig.
From S2P Require Import Network.

Inductive Event : Type :=
| EConnack
| EPuback (id : Z)
| ESuback (id : Z)
| EUnsuback (id : Z)
| EPingresp
| EMessage (topic payload : list Z)
| EDisconnect (reason : ReasonCode.t).

Module RawMqttClient.
Record t {T : Type} {MAX_PROPERTIES : Z} {R : Type} : Type := mk {
  connection : option (NetworkConnection.t T);
  buffer : list Z;
  buffer_len : Z;
  recv_buffer : list Z;
  recv_buffer_len : Z;
  config : ClientConfig.t MAX_PROPERTIES R
}.
Arguments t T MAX_PROPERTIES R : clear implicits.
Arguments mk {T MAX_PROPERTIES R}.

Section client.
Context `{Profile} `{HeaplessVec} {T : Type} `{Io T} {MAX_PROPERTIES : Z}
  {R : Type} `{RngCore R}.

Abbreviation self_t := (t T MAX_PROPERTIES R).
Abbreviation C := (M self_t ReasonCode.t).

Definition new (network_driver : T) (buffer : list Z) (buffer_len : Z)
    (recv_buffer : list Z) (recv_buffer_len : Z)
    (config : ClientConfig.t MAX_PROPERTIES R) : self_t :=
  mk (Some (NetworkConnection.new network_driver)) buffer buffer_len
    recv_buffer recv_buffer_len config.

Definition set_connection (c : option (NetworkConnection.t T)) (self : self_t) : self_t :=
  mk c (buffer self) (buffer_len self) (recv_buffer self) (recv_buffer_len self)
    (config self).
Definition set_buffer (b : list Z) (self : self_t) : self_t :=
  mk (connection self) b (buffer_len self) (recv_buffer self) (recv_buffer_len self)
    (config self).
Definition set_recv_buffer (b : list Z) (self : self_t) : self_t :=
  mk (connection self) (buffer self) (buffer_len self) b (recv_buffer_len self)
    (config self).
Definition set_config (c : ClientConfig.t MAX_PROPERTIES R) (self : self_t) : self_t :=
  mk (connection self) (buffer self) (buffer_len self) (recv_buffer self)
    (recv_buffer_len self) c.

(** [if self.connection.is_none() { return Err(NetworkError) }] *)
Definition connected {A} (m : C A) : C A :=
  c ← gets connection;
  match c with None => throw ReasonCode.NetworkError | Some _ => m end.

(** [packet.encode(self.buffer, self.buffer_len)]: its result, as a value. *)
Definition try_encode (enc : list Z -> Z -> outcome BufferError Z * list Z)
  : C (Z + BufferError) := fun self =>
  let '(o, b) := enc (buffer self) (buffer_len self) in
  (match o with
   | Ok n => Ok (inl n)
   | Err e => Ok (inr e)
   | Panic p => Panic p
   | OutOfFuel => OutOfFuel
   end, set_buffer b self).

(** [conn.send(bytes)] on [self.connection.as_mut().unwrap()] *)
Definition conn_send (bytes : list Z) : C unit := fun self =>
  match connection self with
  | None => (Panic PUnwrap, self)
  | Some conn =>
    let '(o, conn') := NetworkConnection.send bytes conn in
    (o, set_connection (Some conn') self)
  end.

(** [conn.send(&self.buffer[0..n])] *)
Definition send_buffer (n : Z) : C unit :=
  b ← gets buffer;
  bytes ← lift (slice b 0 n);
  conn_send bytes.

(** The tail of the senders: an encoding error becomes [BuffError]. *)
Definition send_packet (enc : list Z -> Z -> outcome BufferError Z * list Z) : C unit :=
  len ← try_encode enc;
  match len with
  | inr _ => throw ReasonCode.BuffError
  | inl n => send_buffer n
  end.

(** [self.config.rng.next_u32() as u16] *)
Definition next_identifier : C Z := fun self =>
  let '(o, rng') := next_u32 (E := ReasonCode.t) (ClientConfig.rng (config self)) in
  (v ← o; Ok (wrap 16 v), set_config (ClientConfig.set_rng rng' (config self)) self).

(** The CONNECT packet of the configuration. *)
Definition connect_packet (config : ClientConfig.t MAX_PROPERTIES R)
  : outcome ReasonCode.t (ConnectPacket.t MAX_PROPERTIES 0) :=
  let connect := ConnectPacket.new (MAX_PROPERTIES := MAX_PROPERTIES)
    (MAX_WILL_PROPERTIES := 0) in
  let connect := ConnectPacket.set_keep_alive (ClientConfig.keep_alive config) connect in
  let '(o, connect) := add_properties (ClientConfig.properties config) connect in
  property_len ← o;
  let connect := set_property_len property_len connect in
  let connect := if ClientConfig.username_flag config
    then ConnectPacket.add_username (ClientConfig.username config) connect else connect in
  let connect := if ClientConfig.password_flag config
    then ConnectPacket.add_password (ClientConfig.password config) connect else connect in
  let connect := if ClientConfig.will_flag config
    then ConnectPacket.add_will (ClientConfig.will_topic config)
           (ClientConfig.will_payload config) (ClientConfig.will_retain config) connect
    else connect in
  Ok (ConnectPacket.add_client_id (ClientConfig.client_id config) connect).

Definition connect_to_broker_v5 : C unit :=
  connected (
    modify (fun self =>
      set_config (ClientConfig.add_max_packet_size_as_prop (config self)).2 self) ;;;
    c ← gets config;
    connect ← lift (connect_packet c);
    send_packet (ConnectPacket.encode connect)).

(** The dispatch on the protocol version that every public method does. *)
Definition v5 {A} (m : C A) : C A :=
  c ← gets config;
  match ClientConfig.mqtt_version c with
  | MQTTv3 => throw ReasonCode.UnsupportedProtocolVersion
  | MQTTv5 => m
  end.

Definition connect_to_broker : C unit := v5 connect_to_broker_v5.

Definition disconnect_v5 : C unit :=
  connected (
    let disconnect := DisconnectPacket.new (MAX_PROPERTIES := MAX_PROPERTIES) in
    len ← try_encode (DisconnectPacket.encode disconnect);
    match len with
    | inr _ =>
      modify (set_connection None) ;;;
      throw ReasonCode.BuffError
    | inl n =>
      b ← gets buffer;
      bytes ← lift (slice b 0 n);
      (** A failed send is only logged. *)
      (fun self =>
         match conn_send bytes self with
         | (Err _, self') => (Ok tt, self')
         | r => r
         end) ;;;
      modify (set_connection None) ;;;
      mret tt
    end).

Definition disconnect : C unit := v5 disconnect_v5.

Definition publish_packet (topic_name message : list Z) (qos : QualityOfService.t)
    (retain : bool) (identifier : Z) : PublishPacket.t MAX_PROPERTIES :=
  let packet := PublishPacket.new (MAX_PROPERTIES := MAX_PROPERTIES) in
  let packet := PublishPacket.add_topic_name topic_name packet in
  let packet := PublishPacket.add_qos qos packet in
  let packet := PublishPacket.add_identifier identifier packet in
  let packet := PublishPacket.add_message message packet in
  PublishPacket.add_retain retain packet.

Definition send_message_v5 (topic_name message : list Z) (qos : QualityOfService.t)
    (retain : bool) : C Z :=
  connected (
    identifier ← next_identifier;
    let packet := publish_packet topic_name message qos retain identifier in
    send_packet (PublishPacket.encode packet) ;;;
    mret identifier).

Definition send_message (topic_name message : list Z) (qos : QualityOfService.t)
    (retain : bool) : C Z := v5 (send_message_v5 topic_name message qos retain).

(** [for topic_name in topic_names.iter() { subs.add_new_filter(..) }] *)
Fixpoint add_filters {TOPICS : Z} (topic_names : list (list Z)) (qos : QualityOfService.t)
    (subs : SubscriptionPacket.t TOPICS MAX_PROPERTIES)
  : outcome ReasonCode.t (SubscriptionPacket.t TOPICS MAX_PROPERTIES) :=
  match topic_names with
  | [] => Ok subs
  | topic_name :: topic_names =>
    subs ← SubscriptionPacket.add_new_filter topic_name qos subs;
    add_filters topic_names qos subs
  end.

Definition subscribe_to_topics_v5 (TOPICS : Z) (topic_names : list (list Z)) : C Z :=
  connected (
    identifier ← next_identifier;
    c ← gets config;
    let subs := SubscriptionPacket.set_packet_identifier identifier
      (SubscriptionPacket.new (MAX_FILTERS := TOPICS) (MAX_PROPERTIES := MAX_PROPERTIES)) in
    subs ← lift (add_filters topic_names (ClientConfig.max_subscribe_qos c) subs);
    send_packet (SubscriptionPacket.encode subs) ;;;
    mret identifier).

Definition subscribe_to_topics (TOPICS : Z) (topic_names : list (list Z)) : C Z :=
  v5 (subscribe_to_topics_v5 TOPICS topic_names).

Definition unsubscribe_from_topic_v5 (topic_name : list Z) : C Z :=
  connected (
    identifier ← next_identifier;
    let unsub := UnsubscriptionPacket.set_packet_identifier identifier
      (UnsubscriptionPacket.new (MAX_FILTERS := 1) (MAX_PROPERTIES := MAX_PROPERTIES)) in
    unsub ← lift (UnsubscriptionPacket.add_new_filter topic_name unsub);
    send_packet (UnsubscriptionPacket.encode unsub) ;;;
    mret identifier).

Definition unsubscribe_from_topic (topic_name : list Z) : C Z :=
  v5 (unsubscribe_from_topic_v5 topic_name).

Definition send_ping_v5 : C unit :=
  connected (send_packet (PingreqPacket.encode PingreqPacket.new)).

Definition send_ping : C unit := v5 send_ping_v5.

(** [receive_packet(self.buffer, self.buffer_len, self.recv_buffer, conn)] *)
Definition receive (fuel : nat) : C Z := fun self =>
  match connection self with
  | None => (Panic PUnwrap, self)
  | Some conn =>
    let '(o, s) := receive_packet fuel
      (mk_rx (BuffWriter.new (buffer self) (buffer_len self)) (recv_buffer self) conn) in
    (o, mk (Some (Network.conn s)) (BuffWriter.buffer (writer s)) (buffer_len self)
          (Network.recv_buffer s) (recv_buffer_len self) (config self))
  end.

(** [packet.decode(&mut BuffReader::new(self.buffer, read))]: the packet, an
    error of which becomes [BuffError]. *)
Definition decode_as {P} (dec : M (P * BuffReader.t) BufferError unit) (new : P)
    (read : Z) : C P := fun self =>
  let '(o, (p, _)) := dec (new, BuffReader.new (buffer self) read) in
  (match o with
   | Ok _ => Ok p
   | Err _ => Err ReasonCode.BuffError
   | Panic x => Panic x
   | OutOfFuel => OutOfFuel
   end, self).

(** The acknowledgement of a QoS 1 message, built in the receive buffer. *)
Definition send_puback (packet_identifier : Z) : C unit :=
  let puback := PubackPacket.set_reason_code 0x00
    (PubackPacket.set_packet_identifier packet_identifier
      (PubackPacket.new (MAX_PROPERTIES := MAX_PROPERTIES))) in
  self ← gets (fun self => self);
  let '(o, b) := PubackPacket.encode puback (recv_buffer self) (recv_buffer_len self) in
  modify (set_recv_buffer b) ;;;
  n ← lift (map_err (fun _ => ReasonCode.BuffError) o);
  bytes ← lift (slice b 0 n);
  conn_send bytes.

(** The reasons of a SUBACK, against the QoS that was asked for. *)
Fixpoint check_reasons (expected : Z) (reasons : list Z) : outcome ReasonCode.t unit :=
  match reasons with
  | [] => Ok tt
  | reason_code :: reasons =>
    if negb (reason_code =? expected) then Err (ReasonCode.from_u8 reason_code)
    else check_reasons expected reasons
  end.

(** What [poll] does with the packet of [read] bytes in [buffer]. *)
Definition dispatch (MAX_TOPICS read : Z) : C Event :=
  b ← gets buffer;
  first ← lift (map_err (fun _ => ReasonCode.BuffError)
                  (BuffReader.peek_u8 (BuffReader.new b read)).1);
  match PacketType.from_u8 first with
  | PacketType.Reserved
  | PacketType.Connect
  | PacketType.Subscribe
  | PacketType.Unsubscribe
  | PacketType.Pingreq => throw ReasonCode.ProtocolError
  | PacketType.Pubrec | PacketType.Pubrel | PacketType.Pubcomp
  | PacketType.Auth => throw ReasonCode.ImplementationSpecificError
  | PacketType.Connack =>
    packet ← decode_as ConnackPacket.decode
      (ConnackPacket.new (MAX_PROPERTIES := MAX_PROPERTIES)) read;
    if negb (ConnackPacket.connect_reason_code packet =? 0x00)
    then throw (ReasonCode.from_u8 (ConnackPacket.connect_reason_code packet))
    else mret EConnack
  | PacketType.Puback =>
    packet ← decode_as PubackPacket.decode
      (PubackPacket.new (MAX_PROPERTIES := MAX_PROPERTIES)) read;
    if negb (PubackPacket.reason_code packet =? 0)
    then throw (ReasonCode.from_u8 (PubackPacket.reason_code packet))
    else mret (EPuback (PubackPacket.packet_identifier packet))
  | PacketType.Suback =>
    packet ← decode_as SubackPacket.decode
      (SubackPacket.new (MAX_REASONS := MAX_TOPICS) (MAX_PROPERTIES := MAX_PROPERTIES)) read;
    c ← gets config;
    lift (check_reasons
      (Z.shiftr (QualityOfService.into_u8 (ClientConfig.max_subscribe_qos c)) 1)
      (SubackPacket.reason_codes packet)) ;;;
    mret (ESuback (SubackPacket.packet_identifier packet))
  | PacketType.Unsuback =>
    packet ← decode_as UnsubackPacket.decode
      (UnsubackPacket.new (MAX_REASONS := 1) (MAX_PROPERTIES := MAX_PROPERTIES)) read;
    mret (EUnsuback (UnsubackPacket.packet_identifier packet))
  | PacketType.Pingresp =>
    _ ← decode_as PingrespPacket.decode PingrespPacket.new read;
    mret EPingresp
  | PacketType.Publish =>
    packet ← decode_as PublishPacket.decode (PublishPacket.new (MAX_PROPERTIES := 5)) read;
    (if Z.land (PublishPacket.fixed_header packet) 0x06
          =? QualityOfService.into_u8 QualityOfService.QoS1
     then send_puback (PublishPacket.packet_identifier packet) else mret tt) ;;;
    message ← lift (unwrap (PublishPacket.message packet));
    mret (EMessage (EncodedString.string (PublishPacket.topic_name packet)) message)
  | PacketType.Disconnect =>
    disc ← decode_as DisconnectPacket.decode (DisconnectPacket.new (MAX_PROPERTIES := 5)) read;
    mret (EDisconnect (ReasonCode.from_u8 (DisconnectPacket.disconnect_reason disc)))
  end.

Definition poll (fuel : nat) (MAX_TOPICS : Z) : C Event :=
  connected (
    read ← receive fuel;
    dispatch MAX_TOPICS read).
End client.
End RawMqttClient.

(** ** The client at rest

    [at_rest n m k cfg out inc]: the client is connected, its packet buffer
    takes [n] bytes, its receive buffer has [m] of which it encodes into [k];
    it has handed [out] to its stream and [inc] is on its way. *)

Import RawMqttClient.

Section client_lemmas.
Context `{Profile} `{HeaplessVec} {T : Type} `{IoLaws T} {MAX_PROPERTIES : Z}
  {R : Type} `{RngCore R}.
Hypothesis writes_ok : no_write_fails T.
Implicit Types (self : RawMqttClient.t T MAX_PROPERTIES R).

Definition at_rest (n m k : Z) (cfg : ClientConfig.t MAX_PROPERTIES R)
    (out inc : list Z) self : Prop :=
  exists io, connection self = Some (NetworkConnection.mk io) /\
    incoming io inc /\ handed io = out /\
    buffer_len self = n /\ 0 <= n <= zlen (buffer self) /\
    zlen (recv_buffer self) = m /\ recv_buffer_len self = k /\ 0 <= k <= m /\
    config self = cfg.

Lemma at_rest_connected {A} (op : M (RawMqttClient.t T MAX_PROPERTIES R) ReasonCode.t A)
    n m k cfg out inc self :
  at_rest n m k cfg out inc self -> connected op self = op self.
Proof.
  intros (io & Hc & _). unfold connected. erewrite bind_ok by reflexivity. by rewrite Hc.
Qed.

Lemma conn_send_ok n m k cfg out inc bs self :
  at_rest n m k cfg out inc self ->
  exists self', conn_send bs self = (Ok tt, self') /\
    at_rest n m k cfg (out ++ bs) inc self' /\ buffer self' = buffer self /\
    recv_buffer self' = recv_buffer self.
Proof.
  intros (io & Hc & Hin & Hout & Hrest). destruct (writes_ok io bs) as (w & io' & Hw).
  destruct (write_handed _ _ _ _ Hw) as (_ & Hs & Hi).
  unfold conn_send, NetworkConnection.send. rewrite Hc. cbn [NetworkConnection.io].
  rewrite Hw. eexists; split; [reflexivity|split; [|done]].
  exists io'. split; [done|]. rewrite Hs, Hout. split; [by apply Hi|done].
Qed.

(** A packet that fits is handed to the stream as its bytes. *)
Lemma send_packet_ok n m k cfg out inc enc bs self :
  at_rest n m k cfg out inc self -> encodes enc bs -> zlen bs <= n ->
  exists self', send_packet enc self = (Ok tt, self') /\
    at_rest n m k cfg (out ++ bs) inc self'.
Proof.
  intros Hs Henc Hfit. pose proof Hs as (io & Hc & Hin & Hout & Hn & Hb & Hrest).
  destruct (Henc (buffer self) n Hb) as [Hok _]. specialize (Hok Hfit).
  pose proof (zlen_nonneg bs).
  unfold send_packet.
  rewrite (bind_ok _ _ _ (inl (zlen bs)) (set_buffer (bs ++ zdrop (zlen bs) (buffer self)) self))
    by (unfold try_encode; by rewrite Hn, Hok).
  unfold send_buffer. erewrite bind_ok by reflexivity. cbn [buffer set_buffer].
  rewrite slice_prefix. erewrite bind_ok by reflexivity.
  assert (Hs' : at_rest n m k cfg out inc (set_buffer (bs ++ zdrop (zlen bs) (buffer self)) self)).
  { exists io. do 3 (split; [done|]). split; [done|]. cbn [buffer set_buffer].
    split; [zlen; rewrite zlen_drop by lia; lia|done]. }
  destruct (conn_send_ok _ _ _ _ _ _ bs _ Hs') as (self' & Hsend & Hs2 & _). eauto.
Qed.

(** A packet that does not fit is not sent. *)
Lemma send_packet_short n m k cfg out inc enc bs self :
  at_rest n m k cfg out inc self -> encodes enc bs -> n < zlen bs ->
  exists self', send_packet enc self = (Err ReasonCode.BuffError, self') /\
    connection self' = connection self.
Proof.
  intros (io & Hc & Hin & Hout & Hn & Hb & Hrest) Henc Hfit.
  destruct (Henc (buffer self) n Hb) as [_ Herr]. destruct (Herr Hfit) as [b' Hb'].
  unfold send_packet. rewrite (bind_ok _ _ _ (inr InsufficientBufferSize) (set_buffer b' self))
    by (unfold try_encode; by rewrite Hn, Hb').
  by eexists.
Qed.

Lemma receive_framed fuel n m k cfg out bs more self :
  at_rest n m k cfg out (bs ++ more) self -> framed bs ->
  2 * zlen bs <= m -> zlen bs <= n -> (length bs <= fuel)%nat ->
  exists self' rest, receive fuel self = (Ok (zlen bs), self') /\
    at_rest n m k cfg out more self' /\ buffer self' = bs ++ rest.
Proof.
  intros (io & Hc & Hin & Hout & Hn & Hb & Hm & Hk & Hkm & Hcfg)
    (h & x & body & -> & Hx & Hbody & Hok) Hfit Hfitn Hfuel.
  pose proof (zlen_nonneg body). pose proof (zlen_nonneg (vbi_bytes x)).
  cbn [app] in Hin. rewrite <- app_assoc in Hin. zlen.
  unfold receive. rewrite Hc.
  set (s := mk_rx (BuffWriter.new (buffer self) (buffer_len self)) (recv_buffer self)
    (NetworkConnection.mk io)).
  assert (Hs : receiving n m out [] (h :: vbi_bytes x ++ body ++ more) s).
  { split; [unfold BuffWriter.wf; cbn; lia|]. by repeat split. }
  destruct (receive_packet_ok fuel n m out h x body more s Hs) as (s' & Hr & Hs'); try done.
  { lia. } { lia. }
  { cbn [length] in Hfuel. rewrite length_app in Hfuel. lia. }
  rewrite Hr. pose proof (receiving_position _ _ _ _ _ _ Hs') as Hp.
  destruct Hs' as ((Hw1 & Hw2) & Hwr & Hl & Hm' & Hin' & Hout').
  eexists _, _. split; [do 2 f_equal; lia|split].
  - destruct (Network.conn s') as [io'] eqn:Hio. exists io'. cbn [connection buffer recv_buffer].
    repeat split; try done; try lia; cbn; lia.
  - cbn [buffer]. rewrite <- (ztake_zdrop (BuffWriter.position (writer s'))
      (BuffWriter.buffer (writer s'))).
    unfold BuffWriter.written in Hwr. by rewrite Hwr.
Qed.

(** [poll] receives the packet and looks at its type. *)
Lemma poll_framed fuel MAX_TOPICS n m k cfg out bs more self :
  at_rest n m k cfg out (bs ++ more) self -> framed bs ->
  2 * zlen bs <= m -> zlen bs <= n -> (length bs <= fuel)%nat ->
  exists self' rest, poll fuel MAX_TOPICS self = dispatch MAX_TOPICS (zlen bs) self' /\
    at_rest n m k cfg out more self' /\ buffer self' = bs ++ rest.
Proof.
  intros Hs Hf Hm Hn Hfuel. unfold poll. erewrite at_rest_connected by done.
  destruct (receive_framed fuel _ _ _ _ _ _ _ _ Hs Hf Hm Hn Hfuel) as (self' & rest & Hr & Hs' & Hb).
  exists self', rest. by rewrite (bind_ok _ _ _ _ _ Hr).
Qed.

Lemma peek_first bs rest read h tl :
  bs = h :: tl -> read = zlen bs ->
  (BuffReader.peek_u8 (BuffReader.new (bs ++ rest) read)).1 = Ok h.
Proof.
  intros -> ->. unfold BuffReader.peek_u8. erewrite bind_ok by reflexivity.
  cbn [BuffReader.position BuffReader.len BuffReader.new]. pose proof (zlen_nonneg tl). zlen.
  by rewrite Z.geb_leb, (proj2 (Z.leb_gt _ _)) by lia.
Qed.

Lemma decode_as_decodes {P} (dec : M (P * BuffReader.t) BufferError unit) new bs rest p self :
  decodes dec new bs tt p -> bytes_ok bs -> buffer self = bs ++ rest ->
  decode_as (MAX_PROPERTIES := MAX_PROPERTIES) (R := R) (T := T)
    dec new (zlen bs) self = (Ok p, self).
Proof.
  intros Hdec Hok Hb. pose proof (zlen_nonneg bs). pose proof (zlen_nonneg rest).
  unfold decode_as. rewrite Hb.
  assert (Hwf : BuffReader.wf (BuffReader.new (bs ++ rest) (zlen bs))).
  { apply BuffReader_new_wf; [by rewrite ztake_app_len|zlen; lia]. }
  by rewrite (Hdec _ [] Hwf) by (rewrite rest_new_app by lia; f_equal; by rewrite ztake_0 by lia).
Qed.

(** *** Any bytes *)

Definition safe_call {A} (K : panic_reason -> Prop) (Q : A -> Prop)
    (res : outcome ReasonCode.t A * RawMqttClient.t T MAX_PROPERTIES R) : Prop :=
  match res with
  | (Ok a, _) => Q a
  | (Err _, _) => True
  | (Panic x, _) => K x
  | (OutOfFuel, _) => False
  end.

Lemma decode_as_safe {P} (K : panic_reason -> Prop) n
    (dec : M (P * BuffReader.t) BufferError unit) new read Q self :
  triple K n (fun _ => True) dec (fun _ => Q) ->
  bytes_ok (ztake read (buffer self)) -> 0 <= read <= zlen (buffer self) ->
  safe_call K Q (decode_as dec new read self) /\ (decode_as dec new read self).2 = self.
Proof.
  intros Hdec Hb Hr. pose proof (Hdec new _ (BuffReader_new_wf _ _ Hb Hr) I) as Hd.
  unfold decode_as. destruct (dec _) as [[u|e|x|] [p r]]; by repeat split; try apply Hd.
Qed.

Lemma safe_bind {A B} K (m : M (RawMqttClient.t T MAX_PROPERTIES R) ReasonCode.t A) (Q : A -> Prop)
    (f : A -> M (RawMqttClient.t T MAX_PROPERTIES R) ReasonCode.t B) Q' self :
  safe_call K Q (m self) /\ (m self).2 = self ->
  (forall a, Q a -> safe_call K Q' (f a self)) -> safe_call K Q' ((m ≫= f) self).
Proof.
  intros [Hm Hs] Hf. unfold mbind, M_bind.
  destruct (m self) as [[a|e|x|] s']; cbn in *; subst; auto.
Qed.

Lemma safe_weaken {A} (K K' : panic_reason -> Prop) (Q : A -> Prop)
    (m : M (RawMqttClient.t T MAX_PROPERTIES R) ReasonCode.t A) self :
  (forall x, K x -> K' x) -> safe_call K Q (m self) /\ (m self).2 = self ->
  safe_call K' Q (m self) /\ (m self).2 = self.
Proof. intros HK [Hm Hs]. split; [|done]. destruct (m self) as [[a|e|x|] s']; cbn in *; auto. Qed.

Lemma check_reasons_total expected l :
  check_reasons expected l = Ok tt \/ exists e, check_reasons expected l = Err e.
Proof.
  induction l as [|c l IH]; [by left|]. cbn [check_reasons].
  destruct (negb _); [right; by eexists|exact IH].
Qed.

(** *** One lemma per packet the server sends *)

Section poll.
Context (fuel : nat) (MAX_TOPICS n m k : Z) (cfg : ClientConfig.t MAX_PROPERTIES R)
  (out more : list Z) (self : RawMqttClient.t T MAX_PROPERTIES R).

(** [bs] has arrived and fits. *)
Definition arrived (bs : list Z) : Prop :=
  at_rest n m k cfg out (bs ++ more) self /\ 2 * zlen bs <= m /\ zlen bs <= n /\
  (length bs <= fuel)%nat.

(** [poll] answers [o], having handed on [out'], and is at rest again. *)
Definition answers (o : outcome ReasonCode.t Event) (out' : list Z) : Prop :=
  exists self', poll fuel MAX_TOPICS self = (o, self') /\ at_rest n m k cfg out' more self'.

Lemma answers_dispatch bs o :
  arrived bs -> framed bs ->
  (forall self' rest, at_rest n m k cfg out more self' -> buffer self' = bs ++ rest ->
     dispatch MAX_TOPICS (zlen bs) self' = (o, self')) -> answers o out.
Proof.
  intros (Hs & Hm & Hn & Hfuel) Hf Hd.
  destruct (poll_framed fuel MAX_TOPICS _ _ _ _ _ _ _ _ Hs Hf Hm Hn Hfuel)
    as (self' & rest & Hp & Hs' & Hb).
  exists self'. rewrite Hp. by rewrite (Hd _ _ Hs' Hb).
Qed.

Local Ltac start_dispatch Hb Ht :=
  unfold dispatch; erewrite bind_ok by reflexivity;
  rewrite Hb; erewrite peek_first by reflexivity;
  erewrite bind_ok by reflexivity; rewrite Ht.

(** The acknowledgement the client builds. *)
Definition ack (packet_identifier : Z) : PubackPacket.t MAX_PROPERTIES :=
  PubackPacket.set_reason_code 0x00
    (PubackPacket.set_packet_identifier packet_identifier PubackPacket.new).

Lemma ack_wf id : 0 <= MAX_PROPERTIES -> 0 <= id < 2 ^ 16 -> PubackPacket.wf (ack id).
Proof.
  intros HM Hid. repeat split; try done; by cbn; lia.
Qed.

Lemma send_puback_ok id self0 :
  at_rest n m k cfg out more self0 -> 0 <= MAX_PROPERTIES -> 0 <= id < 2 ^ 16 -> 6 <= k ->
  exists self', send_puback id self0 = (Ok tt, self') /\
    at_rest n m k cfg (out ++ PubackPacket.bytes (ack id)) more self'.
Proof.
  intros Hs HM Hid Hk6. pose proof Hs as (io & Hc & Hin & Hout & Hn & Hb & Hm & Hkl & Hk & Hcfg).
  unfold send_puback. erewrite bind_ok by reflexivity. rewrite Hkl.
  destruct (PubackPacket.puback_encode_bytes (ack id) (ack_wf id HM Hid) (recv_buffer self0) k
    ltac:(lia)) as [Hok _].
  change (PubackPacket.set_reason_code 0 _) with (ack id).
  assert (Hl : zlen (PubackPacket.bytes (ack id)) = 6) by done.
  rewrite Hok by lia. set (b' := PubackPacket.bytes (ack id) ++ _).
  erewrite bind_ok by reflexivity. erewrite bind_ok by reflexivity.
  unfold b' at 1. rewrite slice_prefix. erewrite bind_ok by reflexivity.
  assert (Hs' : at_rest n m k cfg out more (set_recv_buffer b' self0)).
  { assert (Hb' : zlen b' = m) by (unfold b'; rewrite zlen_app, zlen_drop by lia; lia).
    exists io. do 5 (split; [done|]). split; [exact Hb'|done]. }
  destruct (conn_send_ok _ _ _ _ _ _ (PubackPacket.bytes (ack id)) _ Hs')
    as (self' & Hsend & Hs2 & _). eauto.
Qed.

Lemma poll_publish (p : PublishPacket.t 5) :
  PublishPacket.wf p -> Forall plain (PublishPacket.properties p) ->
  0 <= MAX_PROPERTIES -> 6 <= k -> arrived (PublishPacket.bytes p) ->
  answers (Ok (EMessage (EncodedString.string (PublishPacket.topic_name p))
                 (PublishPacket.payload p)))
    (out ++ if Z.land (PublishPacket.fixed_header p) 0x06 =? 2
            then PubackPacket.bytes (ack (PublishPacket.packet_identifier p)) else []).
Proof.
  intros Hp Hpl HM Hk (Hs & Hm & Hn & Hfuel). pose proof (PublishPacket.publish_bytes_framed p Hp) as Hf.
  destruct (poll_framed fuel MAX_TOPICS _ _ _ _ _ _ _ _ Hs Hf Hm Hn Hfuel)
    as (self' & rest & Hpoll & Hs' & Hb). unfold answers. rewrite Hpoll.
  pose proof Hp as (_ & Ht & _ & Hi & [msg Hmsg] & _). start_dispatch Hb Ht.
  pose proof (zlen_nonneg rest).
  rewrite (bind_ok _ _ _ (PublishPacket.received p) self').
  2: { unfold decode_as. rewrite Hb, PublishPacket.publish_decode_bytes; try done.
       - rewrite ztake_app_len. by apply framed_bytes.
       - zlen. lia. }
  change (PublishPacket.fixed_header (PublishPacket.received p)) with (PublishPacket.fixed_header p).
  change (PublishPacket.packet_identifier (PublishPacket.received p))
    with (if PublishPacket.has_id p then PublishPacket.packet_identifier p else 1).
  change (PublishPacket.message (PublishPacket.received p)) with (PublishPacket.message p).
  change (PublishPacket.topic_name (PublishPacket.received p)) with (PublishPacket.topic_name p).
  assert (Hpay : PublishPacket.payload p = msg) by (unfold PublishPacket.payload; by rewrite Hmsg).
  rewrite Hpay, Hmsg. change (QualityOfService.into_u8 QualityOfService.QoS1) with 2.
  destruct (Z.eqb_spec (Z.land (PublishPacket.fixed_header p) 0x06) 2) as [Hq|Hq].
  - assert (Hhas : PublishPacket.has_id p = true) by (unfold PublishPacket.has_id; by rewrite Hq).
    rewrite Hhas. destruct (send_puback_ok _ _ Hs' HM Hi Hk) as (self2 & Hsend & Hs2).
    rewrite (bind_ok _ _ _ _ _ Hsend). by exists self2.
  - rewrite app_nil_r. by exists self'.
Qed.

Lemma poll_pingresp b :
  PacketType.from_u8 b = PacketType.Pingresp -> byte_ok b -> arrived [b; 0] ->
  answers (Ok EPingresp) out.
Proof.
  intros Ht Hbb Ha. assert (Hf : framed [b; 0]).
  { exists b, 0, []. split; [done|split; [done|split; [done|]]].
    apply (bytes_ok_app [b] [0]); by apply bytes_ok_one. }
  apply (answers_dispatch _ _ Ha Hf). intros self' rest Hs' Hb. start_dispatch Hb Ht.
  by rewrite (bind_ok _ _ _ _ _ (decode_as_decodes _ _ [b; 0] rest _ self'
    (proj1 (PingrespPacket.pingresp_decode_bytes b 0 ltac:(done) Ht) eq_refl) (framed_bytes _ Hf) Hb)).
Qed.

Lemma poll_connack (p : ConnackPacket.t MAX_PROPERTIES) :
  ConnackPacket.wf p -> Forall plain (ConnackPacket.properties p) -> arrived (ConnackPacket.bytes p) ->
  answers (if ConnackPacket.connect_reason_code p =? 0 then Ok EConnack
           else Err (ReasonCode.from_u8 (ConnackPacket.connect_reason_code p))) out.
Proof.
  intros Hp Hpl Ha. pose proof (ConnackPacket.connack_bytes_framed p Hp) as Hf.
  apply (answers_dispatch _ _ Ha Hf). intros self' rest Hs' Hb.
  pose proof Hp as (_ & Ht & _). start_dispatch Hb Ht.
  rewrite (bind_ok _ _ _ _ _ (decode_as_decodes _ _ _ rest _ self' (ConnackPacket.connack_decode_bytes p Hp Hpl)
    (framed_bytes _ Hf) Hb)).
  cbn. by destruct (_ =? 0).
Qed.

Lemma poll_puback (p : PubackPacket.t MAX_PROPERTIES) :
  PubackPacket.wf p -> Forall plain (PubackPacket.properties p) -> arrived (PubackPacket.bytes p) ->
  answers (if PubackPacket.reason_code p =? 0 then Ok (EPuback (PubackPacket.packet_identifier p))
           else Err (ReasonCode.from_u8 (PubackPacket.reason_code p))) out.
Proof.
  intros Hp Hpl Ha. pose proof (PubackPacket.puback_bytes_framed p Hp) as Hf.
  apply (answers_dispatch _ _ Ha Hf). intros self' rest Hs' Hb.
  pose proof Hp as (_ & Ht & _). start_dispatch Hb Ht.
  rewrite (bind_ok _ _ _ _ _ (decode_as_decodes _ _ _ rest _ self' (PubackPacket.puback_decode_bytes p Hp Hpl)
    (framed_bytes _ Hf) Hb)).
  cbn. by destruct (_ =? 0).
Qed.

Lemma poll_unsuback (p : UnsubackPacket.t 1 MAX_PROPERTIES) :
  UnsubackPacket.wf p -> Forall plain (UnsubackPacket.properties p) -> arrived (UnsubackPacket.bytes p) ->
  answers (Ok (EUnsuback (UnsubackPacket.packet_identifier p))) out.
Proof.
  intros Hp Hpl Ha. pose proof (UnsubackPacket.unsuback_bytes_framed p Hp) as Hf.
  apply (answers_dispatch _ _ Ha Hf). intros self' rest Hs' Hb.
  pose proof Hp as (_ & Ht & _). start_dispatch Hb Ht.
  by rewrite (bind_ok _ _ _ _ _ (decode_as_decodes _ _ _ rest _ self' (UnsubackPacket.unsuback_decode_bytes p Hp Hpl)
    (framed_bytes _ Hf) Hb)).
Qed.

Lemma poll_disconnect (p : DisconnectPacket.t 5) :
  DisconnectPacket.wf p -> Forall plain (DisconnectPacket.properties p) -> arrived (DisconnectPacket.bytes p) ->
  answers (Ok (EDisconnect (ReasonCode.from_u8 (DisconnectPacket.disconnect_reason p)))) out.
Proof.
  intros Hp Hpl Ha. pose proof (DisconnectPacket.disconnect_bytes_framed p Hp) as Hf.
  apply (answers_dispatch _ _ Ha Hf). intros self' rest Hs' Hb.
  pose proof Hp as (_ & Ht & _). start_dispatch Hb Ht.
  by rewrite (bind_ok _ _ _ _ _ (decode_as_decodes _ _ _ rest _ self' (DisconnectPacket.disconnect_decode_bytes p Hp Hpl)
    (framed_bytes _ Hf) Hb)).
Qed.

Lemma poll_suback (p : SubackPacket.t MAX_TOPICS MAX_PROPERTIES) :
  SubackPacket.wf p -> Forall plain (SubackPacket.properties p) -> arrived (SubackPacket.bytes p) ->
  answers (check_reasons
      (Z.shiftr (QualityOfService.into_u8 (ClientConfig.max_subscribe_qos cfg)) 1)
      (SubackPacket.reason_codes p) ;;;
    Ok (ESuback (SubackPacket.packet_identifier p))) out.
Proof.
  intros Hp Hpl Ha. pose proof (SubackPacket.suback_bytes_framed p Hp) as Hf.
  apply (answers_dispatch _ _ Ha Hf). intros self' rest Hs' Hb.
  pose proof Hp as (_ & Ht & _). start_dispatch Hb Ht.
  pose proof (zlen_nonneg rest).
  rewrite (bind_ok _ _ _ (SubackPacket.received p) self').
  2: { unfold decode_as. rewrite Hb, SubackPacket.suback_decode_bytes; try done.
       - rewrite ztake_app_len. by apply framed_bytes.
       - zlen. lia. }
  erewrite bind_ok by reflexivity. destruct Hs' as (io & _ & _ & _ & _ & _ & _ & _ & _ & ->).
  cbn [SubackPacket.received SubackPacket.reason_codes set_remaining_len SubackPacket.packet].
  unfold mbind, M_bind, outcome_bind, lift. by destruct (check_reasons _ _).
Qed.
End poll.

Lemma peek_total buf read :
  0 <= read <= zlen buf ->
  (exists b, (BuffReader.peek_u8 (BuffReader.new buf read)).1 = Ok b) \/
  (exists e, (BuffReader.peek_u8 (BuffReader.new buf read)).1 = Err e).
Proof.
  intros Hr. unfold BuffReader.peek_u8. erewrite bind_ok by reflexivity.
  cbn [BuffReader.position BuffReader.len BuffReader.buffer BuffReader.new]. rewrite Z.geb_leb.
  destruct (Z.leb_spec read 0); [right; by eexists|left].
  destruct buf as [|b tl]; [change (zlen (@nil Z)) with 0 in Hr; lia|]. by exists b.
Qed.

Lemma ack_encodes id :
  0 <= MAX_PROPERTIES -> encodes (PubackPacket.encode (ack id)) (PubackPacket.bytes (ack id)).
Proof.
  intros HM. apply writes_encodes. change (PubackPacket.property_len (ack id)) with 0.
  encode_sums. unfold PubackPacket.bytes.
  change (PubackPacket.property_len (ack id)) with 0.
  change (PubackPacket.properties (ack id)) with (@nil Property.t).
  change (PubackPacket.rem_len (ack id)) with 4. change (0 + zlen (vbi_bytes 0) + 3) with 4.
  assert (vbi_ok 0 /\ vbi_ok 4) as [? ?] by done. encode_fields.
  apply (write_properties_writes []). constructor.
Qed.

Lemma send_puback_safe K id self :
  0 <= MAX_PROPERTIES -> 0 <= recv_buffer_len self <= zlen (recv_buffer self) ->
  is_Some (connection self) -> safe_call K (fun _ => True) (send_puback id self).
Proof.
  intros HM Hk [conn Hc]. unfold send_puback. erewrite bind_ok by reflexivity.
  change (PubackPacket.set_reason_code 0 _) with (ack id).
  destruct (ack_encodes id HM (recv_buffer self) (recv_buffer_len self) Hk) as [Hok Herr].
  destruct (Z.le_gt_cases (zlen (PubackPacket.bytes (ack id))) (recv_buffer_len self)) as [Hl|Hl].
  - rewrite (Hok Hl). erewrite bind_ok by reflexivity. erewrite bind_ok by reflexivity.
    rewrite slice_prefix. erewrite bind_ok by reflexivity.
    unfold conn_send. cbn [connection set_recv_buffer]. rewrite Hc.
    unfold NetworkConnection.send. destruct (io_write _ _) as [[w|] io']; done.
  - destruct (Herr Hl) as [b' ->]. by erewrite bind_ok by reflexivity.
Qed.

Lemma dispatch_safe MAX_TOPICS read self :
  bytes_ok (ztake read (buffer self)) -> 0 <= read <= zlen (buffer self) ->
  0 <= MAX_PROPERTIES -> 0 <= recv_buffer_len self <= zlen (recv_buffer self) ->
  is_Some (connection self) ->
  safe_call PublishPacket.publish_panics (fun _ => True) (dispatch MAX_TOPICS read self).
Proof.
  intros Hb Hr HM Hk Hc. unfold dispatch. erewrite bind_ok by reflexivity.
  destruct (peek_total (buffer self) read Hr) as [[first ->] | [e ->]]; [|done].
  cbn [map_err]. erewrite bind_ok by reflexivity.
  assert (Hdec : forall P n (dec : M (P * BuffReader.t) BufferError unit) new,
    triple decode_panics n (fun _ => True) dec (fun _ _ => True) ->
    safe_call PublishPacket.publish_panics (fun _ => True) (decode_as dec new read self) /\
    (decode_as dec new read self).2 = self).
  { intros P n dec new Hd. apply safe_weaken with (K := decode_panics); [by left|].
    by eapply (decode_as_safe _ n). }
  destruct (PacketType.from_u8 first); try done.
  - eapply safe_bind; [exact (Hdec _ 0 _ _ ConnackPacket.connack_decode_ends)|]. intros p _. by case_match.
  - eapply safe_bind.
    { eapply (decode_as_safe _ 0), Hr; [|exact Hb]. apply PublishPacket.publish_decode_ends. }
    intros p [msg Hm]. cbn beta in *. rewrite Hm. destruct (_ =? _).
    + pose proof (send_puback_safe PublishPacket.publish_panics
        (PublishPacket.packet_identifier p) self HM Hk Hc) as Hs.
      unfold mbind, M_bind. by destruct (send_puback _ _) as [[u|e|x|] s'].
    + done.
  - eapply safe_bind; [exact (Hdec _ 0 _ _ PubackPacket.puback_decode_ends)|]. intros p _. by case_match.
  - eapply safe_bind; [exact (Hdec _ 0 _ _ SubackPacket.suback_decode_ends)|]. intros p _.
    erewrite bind_ok by reflexivity. unfold mbind, M_bind, lift.
    by destruct (check_reasons_total (Z.shiftr (QualityOfService.into_u8
      (ClientConfig.max_subscribe_qos (config self))) 1) (SubackPacket.reason_codes p)) as [-> | [e ->]].
  - eapply safe_bind; [exact (Hdec _ 0 _ _ UnsubackPacket.unsuback_decode_ends)|]. by intros p _.
  - eapply safe_bind; [exact (Hdec _ 0 _ _ PingrespPacket.pingresp_decode_ends)|]. by intros p _.
  - eapply safe_bind; [exact (Hdec _ 0 _ _ DisconnectPacket.disconnect_decode_ends)|]. by intros p _.
Qed.
End client_lemmas.

(** ** Properties *)

(** C10: whatever bytes a packet is made of, what [poll] does with it ends: with
    an event, an error, or a panic of one of three kinds (an unterminated
    variable byte integer, a 16-bit length that overflows, a PUBLISH whose
    message ends before it starts); it neither loops nor panics on a missing
    message, a failed acknowledgement or a refused reason code. *)
Theorem poll_dispatch_total `{Profile} `{HeaplessVec} {T} `{Io T} {MAX_PROPERTIES} {R}
  (MAX_TOPICS read : Z) (self : RawMqttClient.t T MAX_PROPERTIES R)
  (Hb : bytes_ok (ztake read (buffer self))) (Hr : 0 <= read <= zlen (buffer self))
  (HM : 0 <= MAX_PROPERTIES) (Hk : 0 <= recv_buffer_len self <= zlen (recv_buffer self))
  (Hc : connection self <> None) :
  match (dispatch MAX_TOPICS read self).1 with
  | Ok _ | Err _ => True
  | Panic x => x = PIndex \/ x = POverflow \/ x = PSlice
  | OutOfFuel => False
  end.
Proof.
  assert (Hs : is_Some (connection self)) by (destruct (connection self); [by eexists|done]).
  pose proof (dispatch_safe MAX_TOPICS read self Hb Hr HM Hk Hs) as Hd.
  destruct (dispatch MAX_TOPICS read self) as [[e|e|x|] s]; try done.
  destruct Hd as [[-> | ->] | ->]; cbn; auto.
Qed.

Definition idle_client : RawMqttClient.t ScriptedIo.t 4 CountingRng.t :=
  RawMqttClient.new (ScriptedIo.mk [] []) [0x30; 1; 0; 1; 97; 0] 6 (replicate 8 0) 8
    (ClientConfig.new MQTTv5 (CountingRng.mk 1)).

Lemma poll_dispatch_total_witness :
  (dispatch (H := dev_profile) (H0 := list_vec) 0 6 idle_client).1 = Panic PSlice /\
  match (dispatch (H := dev_profile) (H0 := list_vec) 0 6 idle_client).1 with
  | Ok _ | Err _ => True
  | Panic x => x = PIndex \/ x = POverflow \/ x = PSlice
  | OutOfFuel => False
  end.
Proof.
  split; [vm_compute; reflexivity|].
  refine (poll_dispatch_total (H := dev_profile) (H0 := list_vec) 0 6 idle_client _ _ _ _ _);
    [concrete..|discriminate].
Defined.
