(* ===== verification/MqttClient.v ===== *)
(** The request/response client: [MqttClient] of rust-mqtt/src/client/client.rs.

    Every request sends its packet and polls once: a packet of another kind
    that arrives in between is lost, as the source says. *)
From S2P Require Import Prelude.
From S2P Require Import Utf8.
From S2P Require Import Types.
From S2P Require Import Vbi.
From S2P Require Import BuffReader.
From S2P Require Import BuffWriter.
From S2P Require Import Heapless.
From S2P Require Import Codes.
From S2P Require Import Property.
From S2P Require Import Packet.
From S2P Require Import Acks.
From S2P Require Import ServerPackets.
From S2P Require Import PublishPacket.
From S2P Require Import ConnectPacket.
From S2P Require Import Subscriptions.
From S2P Require Import ClientConfig.
From S2P Require Import Network.
From S2P Require Import RawClient.

Module MqttClient.
Section client.
Context `{Profile} `{HeaplessVec} {T : Type} `{Io T} {MAX_PROPERTIES : Z}
  {R : Type} `{RngCore R}.

(** [raw] is the only field. *)
Abbreviation self_t := (RawMqttClient.t T MAX_PROPERTIES R).
Abbreviation C := (M self_t ReasonCode.t).

Definition new (network_driver : T) (buffer : list Z) (buffer_len : Z)
    (recv_buffer : list Z) (recv_buffer_len : Z)
    (config : ClientConfig.t MAX_PROPERTIES R) : self_t :=
  RawMqttClient.new network_driver buffer buffer_len recv_buffer recv_buffer_len config.

Definition connect_to_broker (fuel : nat) : C unit :=
  RawMqttClient.connect_to_broker ;;;
  e ← RawMqttClient.poll fuel 0;
  match e with
  | EConnack => mret tt
  | EDisconnect reason => throw reason
  | _ => throw ReasonCode.ImplementationSpecificError
  end.

Definition disconnect : C unit :=
  RawMqttClient.disconnect ;;;
  mret tt.

Definition send_message (fuel : nat) (topic_name message : list Z)
    (qos : QualityOfService.t) (retain : bool) : C unit :=
  identifier ← RawMqttClient.send_message topic_name message qos retain;
  if bool_decide (qos = QualityOfService.QoS1) then
    e ← RawMqttClient.poll fuel 0;
    match e with
    | EPuback ack_identifier =>
      if identifier =? ack_identifier then mret tt
      else throw ReasonCode.PacketIdentifierNotFound
    | EDisconnect reason => throw reason
    | _ => throw ReasonCode.ImplementationSpecificError
    end
  else mret tt.

Definition subscribe_to_topics (fuel : nat) (TOPICS : Z) (topic_names : list (list Z))
  : C unit :=
  identifier ← RawMqttClient.subscribe_to_topics TOPICS topic_names;
  e ← RawMqttClient.poll fuel TOPICS;
  match e with
  | ESuback ack_identifier =>
    if identifier =? ack_identifier then mret tt
    else throw ReasonCode.PacketIdentifierNotFound
  | EDisconnect reason => throw reason
  | _ => throw ReasonCode.ImplementationSpecificError
  end.

Definition unsubscribe_from_topic (fuel : nat) (topic_name : list Z) : C unit :=
  identifier ← RawMqttClient.unsubscribe_from_topic topic_name;
  e ← RawMqttClient.poll fuel 0;
  match e with
  | EUnsuback ack_identifier =>
    if identifier =? ack_identifier then mret tt
    else throw ReasonCode.PacketIdentifierNotFound
  | EDisconnect reason => throw reason
  | _ => throw ReasonCode.ImplementationSpecificError
  end.

Definition subscribe_to_topic (fuel : nat) (topic_name : list Z) : C unit :=
  let '(topic_names, pushed) := vec_push 1 [] topic_name in
  lift (if pushed then Ok tt else Panic PUnwrap) ;;;
  identifier ← RawMqttClient.subscribe_to_topics 1 topic_names;
  e ← RawMqttClient.poll fuel 1;
  match e with
  | ESuback ack_identifier =>
    if identifier =? ack_identifier then mret tt
    else throw ReasonCode.PacketIdentifierNotFound
  | EDisconnect reason => throw reason
  | _ => throw ReasonCode.ImplementationSpecificError
  end.

Definition receive_message (fuel : nat) : C (list Z * list Z) :=
  e ← RawMqttClient.poll fuel 0;
  match e with
  | EMessage topic payload => mret (topic, payload)
  | EDisconnect reason => throw reason
  | _ => throw ReasonCode.ImplementationSpecificError
  end.

Definition send_ping (fuel : nat) : C unit :=
  RawMqttClient.send_ping ;;;
  e ← RawMqttClient.poll fuel 0;
  match e with
  | EPingresp => mret tt
  | EDisconnect reason => throw reason
  | _ => throw ReasonCode.ImplementationSpecificError
  end.
End client.
End MqttClient.

Import RawMqttClient.

(** ** Requests against a server *)

Section requests.
Context `{Profile} `{HeaplessVec} {T : Type} `{IoLaws T} {MAX_PROPERTIES : Z}
  {R : Type} `{RngCore R}.
Hypothesis writes_ok : no_write_fails T.
Hypothesis capacity : 0 <= MAX_PROPERTIES.
Context (fuel : nat) (n m k : Z) (cfg : ClientConfig.t MAX_PROPERTIES R)
  (out more : list Z) (self : RawMqttClient.t T MAX_PROPERTIES R).
Hypothesis version : ClientConfig.mqtt_version cfg = MQTTv5.

Lemma v5_dispatch {A} (op : M (RawMqttClient.t T MAX_PROPERTIES R) ReasonCode.t A) inc s :
  at_rest n m k cfg out inc s -> v5 op s = op s.
Proof.
  intros (io & _ & _ & _ & _ & _ & _ & _ & _ & Hc).
  unfold v5. erewrite bind_ok by reflexivity. by rewrite Hc, version.
Qed.

Lemma next_identifier_ok inc v rng' s :
  at_rest n m k cfg out inc s ->
  next_u32 (E := ReasonCode.t) (ClientConfig.rng cfg) = (Ok v, rng') ->
  exists s', next_identifier s = (Ok (wrap 16 v), s') /\
    at_rest n m k (ClientConfig.set_rng rng' cfg) out inc s'.
Proof.
  intros (io & H1' & H2' & H3' & H4 & H5 & H6 & H7 & H8 & Hc) Hv.
  unfold next_identifier. rewrite Hc, Hv. eexists; split; [reflexivity|].
  by exists io.
Qed.

Lemma publish_packet_rem_len topic message qos retain id :
  zlen topic < 2 ^ 16 ->
  0 <= PublishPacket.rem_len (publish_packet (MAX_PROPERTIES := MAX_PROPERTIES)
    topic message qos retain id) <= zlen topic + zlen message + 5.
Proof.
  intros Ht. pose proof (zlen_nonneg topic). pose proof (zlen_nonneg message).
  set (p := publish_packet _ _ _ _ _).
  unfold PublishPacket.rem_len. change (PublishPacket.property_len p) with 0.
  change (zlen (vbi_bytes 0)) with 1. change (PublishPacket.payload p) with message.
  change (EncodedString.len (PublishPacket.topic_name p)) with (wrap 16 (zlen topic)).
  rewrite wrap_small by lia. destruct (PublishPacket.has_id p); lia.
Qed.

(** The PUBLISH packet of a request is well formed. *)
Lemma publish_packet_wf topic message qos retain id :
  zlen topic < 2 ^ 16 -> bytes_ok topic -> valid_utf8 topic = true -> bytes_ok message ->
  zlen topic + zlen message + 5 <= MAX_ENCODABLE -> 0 <= id < 2 ^ 16 ->
  PublishPacket.wf (publish_packet (MAX_PROPERTIES := MAX_PROPERTIES)
    topic message qos retain id).
Proof.
  intros Ht Hb Hu Hm Hl Hid. pose proof (zlen_nonneg topic). pose proof (zlen_nonneg message).
  set (p := publish_packet _ _ _ _ _).
  assert (Hh : byte_ok (PublishPacket.fixed_header p)
    /\ PacketType.from_u8 (PublishPacket.fixed_header p) = PacketType.Publish)
    by (destruct qos, retain; done).
  pose proof (publish_packet_rem_len topic message qos retain id Ht) as Hrl. fold p in Hrl.
  split; [apply Hh|split; [apply Hh|]]. split; [by apply EncodedString_of_str_wf|].
  split; [done|]. split; [by eexists|]. split; [done|].
  split; [unfold vbi_ok; lia|]. by repeat split; try done; cbn; try lia.
Qed.

(** Its size. *)
Lemma zlen_publish_packet topic message qos retain id :
  zlen topic < 2 ^ 16 -> bytes_ok topic -> valid_utf8 topic = true -> bytes_ok message ->
  zlen topic + zlen message + 5 <= MAX_ENCODABLE -> 0 <= id < 2 ^ 16 ->
  zlen (PublishPacket.bytes (publish_packet (MAX_PROPERTIES := MAX_PROPERTIES)
    topic message qos retain id)) <= zlen topic + zlen message + 10.
Proof.
  intros Ht Hb Hu Hm Hl Hid.
  pose proof (publish_packet_wf topic message qos retain id Ht Hb Hu Hm Hl Hid) as Hwf.
  pose proof (zlen_nonneg topic). pose proof (zlen_nonneg message).
  set (p := publish_packet _ _ _ _ _) in *.
  pose proof (publish_packet_rem_len topic message qos retain id Ht) as Hrl. fold p in Hrl.
  unfold PublishPacket.bytes. rewrite zlen_app, (PublishPacket.publish_zlen_header_bytes p Hwf).
  pose proof (zlen_vbi_bytes (PublishPacket.rem_len p)) as Hv.
  pose proof Hwf as (_ & _ & _ & _ & _ & _ & Hr & _). lia.
Qed.

(** A server that answers one request. *)
Section publish.
Context (topic message : list Z) (retain : bool) (v : Z) (rng' : R).
Hypothesis topic_ok : zlen topic < 2 ^ 16 /\ bytes_ok topic /\ valid_utf8 topic = true.
Hypothesis message_ok : bytes_ok message.
Hypothesis size_ok : zlen topic + zlen message + 5 <= MAX_ENCODABLE.
Hypothesis rng_ok : next_u32 (E := ReasonCode.t) (ClientConfig.rng cfg) = (Ok v, rng').

Lemma raw_send_message_ok qos inc :
  at_rest n m k cfg out inc self ->
  let p := publish_packet (MAX_PROPERTIES := MAX_PROPERTIES) topic message qos retain (wrap 16 v) in
  zlen (PublishPacket.bytes p) <= n ->
  exists s', RawMqttClient.send_message topic message qos retain self = (Ok (wrap 16 v), s') /\
    at_rest n m k (ClientConfig.set_rng rng' cfg) (out ++ PublishPacket.bytes p) inc s'.
Proof.
  intros Hs p Hfit. unfold RawMqttClient.send_message. erewrite v5_dispatch by done.
  unfold send_message_v5. erewrite at_rest_connected by done.
  destruct (next_identifier_ok _ _ _ _ Hs rng_ok) as (s1 & Hid & Hs1).
  rewrite (bind_ok _ _ _ _ _ Hid). fold p.
  destruct topic_ok as (Ht & Hb & Hu).
  pose proof (publish_packet_wf topic message qos retain (wrap 16 v) Ht Hb Hu message_ok size_ok
    ltac:(by apply wrap_range)) as Hwf. fold p in Hwf.
  destruct (send_packet_ok writes_ok _ _ _ _ _ _ _ _ _ Hs1 (PublishPacket.publish_encode_bytes p Hwf) Hfit)
    as (s2 & Hsend & Hs2).
  rewrite (bind_ok _ _ _ _ _ Hsend). by exists s2.
Qed.

Let p := publish_packet (MAX_PROPERTIES := MAX_PROPERTIES) topic message
  QualityOfService.QoS1 retain (wrap 16 v).

End publish.

(** C5: a message from the server whose properties, five at most, are not binary
    is delivered with its topic and payload; at QoS 1 the PUBACK with its
    identifier is handed to the stream, whose writes report no error (how much of
    it is taken is not looked at); at the other levels nothing is handed to it.
    The client is one of MQTT 5; the packet fits the packet buffer and half the
    receive buffer, the PUBACK the part of the receive buffer the client may use. *)
Theorem receive_message_delivers (p : PublishPacket.t 5) :
  PublishPacket.wf p -> Forall plain (PublishPacket.properties p) ->
  at_rest n m k cfg out (PublishPacket.bytes p ++ more) self ->
  zlen (PublishPacket.bytes p) <= n -> 2 * zlen (PublishPacket.bytes p) <= m -> 6 <= k ->
  (length (PublishPacket.bytes p) <= fuel)%nat ->
  exists self',
    MqttClient.receive_message fuel self =
    (Ok (EncodedString.string (PublishPacket.topic_name p), PublishPacket.payload p), self') /\
    at_rest n m k cfg
      (out ++ if Z.land (PublishPacket.fixed_header p) 0x06 =? 2
              then PubackPacket.bytes (ack (MAX_PROPERTIES := MAX_PROPERTIES)
                     (PublishPacket.packet_identifier p)) else [])
      more self'.
Proof.
  intros Hp Hpl Hs Hn Hm Hk Hfuel. unfold MqttClient.receive_message.
  destruct (poll_publish writes_ok fuel 0 n m k cfg out more self p Hp Hpl capacity Hk)
    as (s1 & Hpoll & Hs1); [by split|].
  rewrite (bind_ok _ _ _ _ _ Hpoll). by exists s1.
Qed.

(** *** Subscriptions and pings *)

(** The SUBSCRIBE packet of one topic. *)
Definition subscribe_packet (topic : list Z) (id : Z) : SubscriptionPacket.t 1 MAX_PROPERTIES :=
  SubscriptionPacket.mk 0x82 0 id 0 [] 1
    [TopicFilter.mk (EncodedString.of_str topic)
       (Z.lor 0 (Z.shiftr (QualityOfService.into_u8 (ClientConfig.max_subscribe_qos cfg)) 1))].

Lemma subscribe_packet_wf topic id :
  zlen topic < 2 ^ 16 - 5 -> bytes_ok topic -> valid_utf8 topic = true ->
  SubscriptionPacket.wf (subscribe_packet topic id).
Proof.
  intros Ht Hb Hu. pose proof (zlen_nonneg topic).
  pose proof (EncodedString_of_str_wf topic ltac:(lia) Hb Hu) as Hs.
  set (p := subscribe_packet topic id).
  assert (Hf : TopicFilter.wf (TopicFilter.mk (EncodedString.of_str topic)
    (Z.lor 0 (Z.shiftr (QualityOfService.into_u8 (ClientConfig.max_subscribe_qos cfg)) 1)))).
  { split; [done|]. by destruct (ClientConfig.max_subscribe_qos cfg). }
  assert (Hl : zlen (SubscriptionPacket.filter_bytes p) = zlen topic + 3).
  { unfold SubscriptionPacket.filter_bytes, p. cbn [subscribe_packet SubscriptionPacket.topic_filters map concat].
    rewrite app_nil_r, zlen_TopicFilter_bytes by done. cbn [TopicFilter.filter].
    change (EncodedString.len (EncodedString.of_str topic)) with (wrap 16 (zlen topic)).
    rewrite wrap_small by lia. lia. }
  split; [done|split; [done|split; [by constructor|split; [lia|split]]]].
  - unfold SubscriptionPacket.rem_len, vbi_ok, MAX_ENCODABLE. rewrite Hl.
    change (SubscriptionPacket.property_len p) with 0. change (zlen (vbi_bytes 0)) with 1. lia.
  - by repeat split; try done; cbn; try lia.
Qed.

Section subscribe.
Context (topic : list Z) (v : Z) (rng' : R).
Hypothesis topic_ok : zlen topic < 2 ^ 16 - 5 /\ bytes_ok topic /\ valid_utf8 topic = true.
Hypothesis rng_ok : next_u32 (E := ReasonCode.t) (ClientConfig.rng cfg) = (Ok v, rng').

Lemma raw_subscribe_ok inc :
  at_rest n m k cfg out inc self ->
  zlen (SubscriptionPacket.bytes (subscribe_packet topic (wrap 16 v))) <= n ->
  exists s', RawMqttClient.subscribe_to_topics 1 [topic] self = (Ok (wrap 16 v), s') /\
    at_rest n m k (ClientConfig.set_rng rng' cfg)
      (out ++ SubscriptionPacket.bytes (subscribe_packet topic (wrap 16 v))) inc s'.
Proof.
  intros Hs Hfit. unfold RawMqttClient.subscribe_to_topics. erewrite v5_dispatch by done.
  unfold subscribe_to_topics_v5. erewrite at_rest_connected by done.
  destruct (next_identifier_ok _ _ _ _ Hs rng_ok) as (s1 & Hid & Hs1).
  rewrite (bind_ok _ _ _ _ _ Hid). erewrite bind_ok by reflexivity.
  pose proof Hs1 as (io & _ & _ & _ & _ & _ & _ & _ & _ & Hcfg). rewrite Hcfg.
  rewrite (bind_ok _ _ _ (subscribe_packet topic (wrap 16 v)) s1).
  2: { cbn [add_filters]. unfold SubscriptionPacket.add_new_filter. cbv zeta.
       rewrite push_room by done. by rewrite checked_ok by done. }
  destruct topic_ok as (Ht & Hb & Hu).
  destruct (send_packet_ok writes_ok _ _ _ _ _ _ _ _ _ Hs1
    (SubscriptionPacket.subscription_encode_bytes _ (subscribe_packet_wf topic (wrap 16 v) Ht Hb Hu)) Hfit)
    as (s2 & Hsend & Hs2).
  rewrite (bind_ok _ _ _ _ _ Hsend). by exists s2.
Qed.

End subscribe.

(** A ping hands PINGREQ to the stream and succeeds on the server's PINGRESP. *)
Theorem send_ping_pingresp b :
  byte_ok b -> PacketType.from_u8 b = PacketType.Pingresp ->
  at_rest n m k cfg out ([b; 0] ++ more) self -> 2 <= n -> 4 <= m -> (2 <= fuel)%nat ->
  exists self', MqttClient.send_ping fuel self = (Ok tt, self') /\
    at_rest n m k cfg (out ++ [0xC0; 0]) more self'.
Proof.
  intros Hb Ht Hs Hn Hm Hfuel. unfold MqttClient.send_ping.
  destruct (send_packet_ok writes_ok _ _ _ _ _ _ _ _ _ Hs
    (PingreqPacket.pingreq_encode_bytes PingreqPacket.new) Hn) as (s1 & Hsend & Hs1).
  assert (Hraw : RawMqttClient.send_ping self = (Ok tt, s1)).
  { unfold RawMqttClient.send_ping. erewrite v5_dispatch by done. unfold send_ping_v5.
    by erewrite at_rest_connected by done. }
  rewrite (bind_ok _ _ _ _ _ Hraw).
  destruct (poll_pingresp fuel 0 n m k cfg (out ++ [0xC0; 0]) more s1 b Ht Hb)
    as (s2 & Hp & Hs2); [by split|].
  rewrite (bind_ok _ _ _ _ _ Hp). by exists s2.
Qed.

(** Disconnecting drops the connection, whether its packet can be written or not. *)
Lemma disconnect_ok (s : RawMqttClient.t T MAX_PROPERTIES R) :
  connection s <> None -> ClientConfig.mqtt_version (config s) = MQTTv5 ->
  4 <= buffer_len s <= zlen (buffer s) ->
  exists s', MqttClient.disconnect s = (Ok tt, s') /\ connection s' = None /\ config s' = config s.
Proof.
  intros Hc Hv Hb. destruct (connection s) as [[io]|] eqn:Hio; [|done].
  set (d := DisconnectPacket.new (MAX_PROPERTIES := MAX_PROPERTIES)).
  assert (Hwf : DisconnectPacket.wf d) by (repeat split; done || cbn; lia || done).
  destruct (DisconnectPacket.disconnect_encode_bytes d Hwf (buffer s) (buffer_len s) ltac:(lia)) as [Henc _].
  assert (Hbs : DisconnectPacket.bytes d = [0xE0; 2; 0; 0]) by done. rewrite Hbs in Henc.
  specialize (Henc (proj1 Hb)).
  set (s1 := set_buffer ([0xE0; 2; 0; 0] ++ zdrop 4 (buffer s)) s).
  assert (Hsend : exists r io', conn_send [0xE0; 2; 0; 0] s1 =
    (r, set_connection (Some (NetworkConnection.mk io')) s1) /\
    (r = Ok tt \/ r = Err ReasonCode.NetworkError)).
  { unfold conn_send, NetworkConnection.send. cbn [connection s1 set_buffer]. rewrite Hio.
    cbn [NetworkConnection.io]. destruct (io_write io _) as [[w|] io']; do 2 eexists; split; auto. }
  destruct Hsend as (r & io' & Hsend & Hr).
  exists (set_connection None (set_connection (Some (NetworkConnection.mk io')) s1)).
  split; [|done]. unfold MqttClient.disconnect, RawMqttClient.disconnect.
  erewrite bind_ok; [reflexivity|]. unfold v5. erewrite bind_ok by reflexivity. rewrite Hv.
  unfold disconnect_v5, connected. erewrite bind_ok by reflexivity. rewrite Hio. fold d.
  erewrite bind_ok by (unfold try_encode; rewrite Henc; reflexivity).
  cbv iota. erewrite bind_ok by reflexivity. cbn [buffer set_buffer].
  change (zlen [224; 2; 0; 0]) with 4 in *.
  rewrite (bind_ok _ _ _ [0xE0; 2; 0; 0] s1)
    by (unfold lift; by rewrite (slice_prefix [0xE0; 2; 0; 0])).
  erewrite bind_ok by (rewrite Hsend; destruct Hr as [-> | ->]; reflexivity).
  by erewrite bind_ok by reflexivity.
Qed.

(** Without a connection every request is refused and changes nothing. *)
Lemma not_connected {A} (op : M (RawMqttClient.t T MAX_PROPERTIES R) ReasonCode.t A) s :
  connection s = None -> connected op s = (Err ReasonCode.NetworkError, s).
Proof. intros Hc. unfold connected. erewrite bind_ok by reflexivity. by rewrite Hc. Qed.

Lemma no_connection {A} (op : M (RawMqttClient.t T MAX_PROPERTIES R) ReasonCode.t A) s :
  connection s = None -> ClientConfig.mqtt_version (config s) = MQTTv5 ->
  v5 (connected op) s = (Err ReasonCode.NetworkError, s).
Proof.
  intros Hc Hv. unfold v5. erewrite bind_ok by reflexivity. rewrite Hv.
  by apply not_connected.
Qed.

Lemma connect_refused (s : RawMqttClient.t T MAX_PROPERTIES R) :
  connection s = None -> ClientConfig.mqtt_version (config s) = MQTTv5 ->
  MqttClient.connect_to_broker fuel s = (Err ReasonCode.NetworkError, s).
Proof. intros Hc Hv. by apply bind_err, no_connection. Qed.

(** Disconnecting drops the connection; after that every request is refused
    with [NetworkError] and changes nothing. *)
Theorem disconnect_drops (s : RawMqttClient.t T MAX_PROPERTIES R) :
  connection s <> None -> ClientConfig.mqtt_version (config s) = MQTTv5 ->
  4 <= buffer_len s <= zlen (buffer s) ->
  exists s', MqttClient.disconnect s = (Ok tt, s') /\ connection s' = None /\
    forall topic message qos retain,
      MqttClient.send_message fuel topic message qos retain s' = (Err ReasonCode.NetworkError, s') /\
      MqttClient.receive_message fuel s' = (Err ReasonCode.NetworkError, s') /\
      MqttClient.connect_to_broker fuel s' = (Err ReasonCode.NetworkError, s') /\
      MqttClient.send_ping fuel s' = (Err ReasonCode.NetworkError, s').
Proof.
  intros Hconn Hv Hb. destruct (disconnect_ok s Hconn Hv Hb) as (s' & Hd & Hc & Hcfg).
  exists s'. do 2 (split; [done|]). intros topic message qos retain. rewrite <- Hcfg in Hv.
  split; [|split; [|split]].
  - by apply bind_err, no_connection.
  - by apply bind_err, not_connected.
  - by apply connect_refused.
  - by apply bind_err, no_connection.
Qed.

(** *** The CONNECT packet of a configuration *)

Definition config_ok (c : ClientConfig.t MAX_PROPERTIES R) : Prop :=
  Forall (fun x => Property.wf x /\ zlen (Property.payload x) < 2 ^ 16) (ClientConfig.properties c)
  /\ zlen (ClientConfig.properties c) <= MAX_PROPERTIES
  /\ zlen (Property.list_bytes (ClientConfig.properties c)) <= MAX_ENCODABLE
  /\ (ClientConfig.username_flag c = true -> EncodedString.wf (ClientConfig.username c))
  /\ (ClientConfig.password_flag c = true -> BinaryData.wf (ClientConfig.password c))
  /\ (ClientConfig.will_flag c = true ->
      EncodedString.wf (ClientConfig.will_topic c) /\ BinaryData.wf (ClientConfig.will_payload c))
  /\ EncodedString.wf (ClientConfig.client_id c).

Lemma zlen_filter_bytes (f : Property.t -> bool) ps :
  zlen (Property.list_bytes (List.filter f ps)) <= zlen (Property.list_bytes ps).
Proof.
  induction ps as [|x ps IH]; [done|]. unfold Property.list_bytes in *. cbn [List.filter].
  pose proof (zlen_nonneg (Property.bytes x)).
  destruct (f x); cbn [map concat]; zlen; lia.
Qed.

Lemma zlen_filter {A} (f : A -> bool) (l : list A) : zlen (List.filter f l) <= zlen l.
Proof. unfold zlen. pose proof (List.filter_length_le f l). lia. Qed.

(** It carries the properties a CONNECT packet may have, in their order, and
    the flags say which fields follow. *)
Lemma connect_packet_ok c :
  config_ok c -> exists p, connect_packet c = Ok p
    /\ ConnectPacket.properties p = List.filter Property.connect_property (ClientConfig.properties c)
    /\ ConnectPacket.client_id p = ClientConfig.client_id c
    /\ ConnectPacket.keep_alive p = ClientConfig.keep_alive c
    /\ ConnectPacket.has 0x80 p = ClientConfig.username_flag c
    /\ ConnectPacket.has 0x40 p = ClientConfig.password_flag c
    /\ ConnectPacket.has 0x04 p = ClientConfig.will_flag c
    /\ (vbi_ok (zlen (ConnectPacket.body p)) -> ConnectPacket.wf p).
Proof.
  intros (Hps & Hcap & Hlen & Hu & Hp & Hw & Hid). unfold connect_packet.
  set (p0 := ConnectPacket.set_keep_alive _ _).
  set (ps := List.filter Property.connect_property (ClientConfig.properties c)).
  assert (Hwf : Forall Property.wf ps).
  { apply List.Forall_forall. intros x [Hx _]%List.filter_In.
    rewrite List.Forall_forall in Hps. by apply Hps. }
  pose proof (zlen_filter_bytes Property.connect_property (ClientConfig.properties c)) as Hfl.
  pose proof (zlen_filter Property.connect_property (ClientConfig.properties c)) as Hfc.
  fold ps in Hfl, Hfc. unfold MAX_ENCODABLE in Hlen.
  pose proof (add_properties_loop_ok (E := ReasonCode.t) _ p0 0 Hps ltac:(done)
    ltac:(change (property_allowed p0) with Property.connect_property; fold ps; lia))
    as Hadd.
  change (property_allowed p0) with Property.connect_property in Hadd. fold ps in Hadd.
  rewrite push_properties_room in Hadd by (done || cbn; lia).
  unfold add_properties. rewrite Hadd, Z.add_0_l. cbn [mbind outcome_bind].
  eexists. split; [reflexivity|].
  assert (Hpw : properties_wf MAX_PROPERTIES (zlen (Property.list_bytes ps)) ps).
  { split; [done|split; [lia|split; [|done]]].
    pose proof (zlen_nonneg (Property.list_bytes ps)). unfold vbi_ok, MAX_ENCODABLE. lia. }
  destruct (ClientConfig.username_flag c), (ClientConfig.password_flag c),
    (ClientConfig.will_flag c), (ClientConfig.will_retain c);
    (do 6 (split; [reflexivity|]); intros Hv; split; [exact Hid|]; split; [exact Hpw|];
     split; [intros Hf; first [discriminate Hf|by split; [|by apply Hw]]|];
     split; [intros Hf; first [discriminate Hf|by apply Hu]|];
     split; [intros Hf; first [discriminate Hf|by apply Hp]|exact Hv]).
Qed.

Lemma raw_connect_ok (p : ConnectPacket.t MAX_PROPERTIES 0) inc :
  let c := (ClientConfig.add_max_packet_size_as_prop cfg).2 in
  config_ok c -> connect_packet c = Ok p -> vbi_ok (zlen (ConnectPacket.body p)) ->
  at_rest n m k cfg out inc self -> zlen (ConnectPacket.bytes p) <= n ->
  exists s', RawMqttClient.connect_to_broker self = (Ok tt, s') /\
    at_rest n m k c (out ++ ConnectPacket.bytes p) inc s'.
Proof.
  intros c Hc Hp Hv Hs Hfit.
  destruct (connect_packet_ok c Hc) as (p' & Hp' & _ & _ & _ & _ & _ & _ & Hwf).
  rewrite Hp in Hp'. injection Hp' as <-.
  assert (Hs1 : at_rest n m k c out inc (set_config c self)).
  { destruct Hs as (io & Hs). exists io. repeat split; apply Hs || done. }
  destruct (send_packet_ok writes_ok _ _ _ _ _ _ _ _ _ Hs1
    (ConnectPacket.connect_encode_bytes p (Hwf Hv)) Hfit) as (s2 & Hsend & Hs2).
  exists s2. split; [|done].
  unfold RawMqttClient.connect_to_broker. erewrite v5_dispatch by done.
  unfold connect_to_broker_v5. erewrite at_rest_connected by done.
  pose proof Hs as (io & _ & _ & _ & _ & _ & _ & _ & _ & Hcfg).
  erewrite bind_ok by reflexivity. rewrite Hcfg. fold c.
  erewrite bind_ok by reflexivity. cbn [config set_config].
  erewrite bind_ok by (unfold lift; by rewrite Hp). exact Hsend.
Qed.

(** C7: connecting, on a stream whose writes report no error, hands the CONNECT
    packet of the configuration to the stream (how much of it a write takes is
    not looked at).  When the server's answer is a CONNACK whose properties are not
    binary, it succeeds exactly when the server accepts; otherwise the server's
    reason is returned.  The configuration is one of MQTT 5 whose texts and
    properties, the maximum packet size added, can be encoded; both packets fit
    the packet buffer, and the CONNACK half the receive buffer. *)
Theorem connect_to_broker_connack (a : ConnackPacket.t MAX_PROPERTIES)
    (p : ConnectPacket.t MAX_PROPERTIES 0) :
  let c := (ClientConfig.add_max_packet_size_as_prop cfg).2 in
  config_ok c -> connect_packet c = Ok p -> vbi_ok (zlen (ConnectPacket.body p)) ->
  ConnackPacket.wf a -> Forall plain (ConnackPacket.properties a) ->
  at_rest n m k cfg out (ConnackPacket.bytes a ++ more) self ->
  zlen (ConnectPacket.bytes p) <= n -> zlen (ConnackPacket.bytes a) <= n ->
  2 * zlen (ConnackPacket.bytes a) <= m -> (length (ConnackPacket.bytes a) <= fuel)%nat ->
  exists self',
    MqttClient.connect_to_broker fuel self =
    (if ConnackPacket.connect_reason_code a =? 0 then Ok tt
     else Err (ReasonCode.from_u8 (ConnackPacket.connect_reason_code a)), self') /\
    at_rest n m k c (out ++ ConnectPacket.bytes p) more self'.
Proof.
  intros c Hc Hp Hv Ha Hpl Hs Hfit Hn Hm Hfuel. unfold MqttClient.connect_to_broker.
  destruct (raw_connect_ok p _ Hc Hp Hv Hs Hfit) as (s2 & Hraw & Hs2).
  rewrite (bind_ok _ _ _ _ _ Hraw).
  destruct (poll_connack fuel 0 n m k c (out ++ ConnectPacket.bytes p) more s2 a Ha Hpl)
    as (s3 & Hpoll & Hs3); [by split|].
  unfold mbind, M_bind. rewrite Hpoll. exists s3. split; [|done]. by destruct (_ =? 0).
Qed.

(** Connecting again with the same client adds the Maximum Packet Size
    property again: the second CONNECT packet carries it twice. *)
Theorem reconnect_duplicates_packet_size (c : ClientConfig.t MAX_PROPERTIES R) :
  let again := (ClientConfig.add_max_packet_size_as_prop
                  (ClientConfig.add_max_packet_size_as_prop c).2).2 in
  config_ok again -> zlen (ClientConfig.properties c) + 2 <= MAX_PROPERTIES ->
  exists p, connect_packet again = Ok p /\
    ConnectPacket.properties p =
      List.filter Property.connect_property (ClientConfig.properties c) ++
      [Property.MaximumPacketSize (ClientConfig.max_packet_size c);
       Property.MaximumPacketSize (ClientConfig.max_packet_size c)].
Proof.
  intros again Hc Hroom. destruct (connect_packet_ok again Hc) as (p & Hp & Hps & _).
  exists p. split; [done|]. rewrite Hps.
  assert (Hagain : ClientConfig.properties again = ClientConfig.properties c ++
    [Property.MaximumPacketSize (ClientConfig.max_packet_size c);
     Property.MaximumPacketSize (ClientConfig.max_packet_size c)]).
  { unfold again, ClientConfig.add_max_packet_size_as_prop.
    rewrite (proj2 (Z.ltb_lt (zlen (ClientConfig.properties c)) _)) by lia.
    cbn [snd ClientConfig.properties ClientConfig.set_properties].
    rewrite push_room by lia. rewrite zlen_app, zlen_cons, zlen_nil.
    rewrite (proj2 (Z.ltb_lt _ _)) by lia.
    cbn [snd ClientConfig.properties ClientConfig.set_properties].
    rewrite push_room by (rewrite zlen_app, zlen_cons, zlen_nil; lia).
    by rewrite <- app_assoc. }
  by rewrite Hagain, List.filter_app.
Qed.
End requests.

(** ** A client on a scripted server *)

#[local] Existing Instance list_vec.
#[local] Existing Instance dev_profile.

Definition sample_config : ClientConfig.t 4 CountingRng.t :=
  ClientConfig.new MQTTv5 (CountingRng.mk 776).

Definition sample_client (chunks : list (list Z)) : RawMqttClient.t ScriptedIo.t 4 CountingRng.t :=
  MqttClient.new (ScriptedIo.mk chunks []) (replicate 64 0) 64 (replicate 64 0) 64 sample_config.

Lemma sample_at_rest chunks :
  Forall (fun c => c <> []) chunks ->
  at_rest 64 64 64 sample_config [] (concat chunks ++ []) (sample_client chunks).
Proof.
  intros Hc. exists (ScriptedIo.mk chunks []). rewrite app_nil_r.
  split; [done|split; [by split|]]. by repeat split.
Qed.


Lemma receive_message_delivers_witness :
  exists self',
    MqttClient.receive_message 32
      (sample_client [[0x32; 8; 0; 1; 97]; [3; 9; 0; 5; 6]]) = (Ok ([97], [5; 6]), self') /\
    at_rest 64 64 64 sample_config [0x40; 4; 3; 9; 0; 0] [] self'.
Proof.
  apply (receive_message_delivers (MAX_PROPERTIES := 4)
    ScriptedIo.io_writes ltac:(concrete) 32 64 64 64 sample_config [] []
    (sample_client [[0x32; 8; 0; 1; 97]; [3; 9; 0; 5; 6]])
    (PublishPacket.mk 0x32 0 (EncodedString.mk [97] 1) 777 0 [] (Some [5; 6]))); try concrete.
  apply (sample_at_rest [[0x32; 8; 0; 1; 97]; [3; 9; 0; 5; 6]]). by repeat constructor.
Defined.

Definition sample_connect_packet : ConnectPacket.t 4 0 :=
  ConnectPacket.mk 0x10 0 4 0x4d515454 5 0x02 60 5 [Property.MaximumPacketSize 265000]
    EncodedString.new 0 [] EncodedString.new BinaryData.new EncodedString.new BinaryData.new.

Lemma connect_to_broker_connack_witness :
  exists self',
    MqttClient.connect_to_broker 16 (sample_client [[0x20; 3; 0; 0x87; 0]]) =
      (Err ReasonCode.NotAuthorized, self') /\
    at_rest 64 64 64 (ClientConfig.add_max_packet_size_as_prop sample_config).2
      [0x10; 18; 0; 4; 77; 81; 84; 84; 5; 2; 0; 60; 5; 0x27; 0; 4; 11; 40; 0; 0] [] self'.
Proof.
  apply (connect_to_broker_connack (MAX_PROPERTIES := 4)
    ScriptedIo.io_writes 16 64 64 64 sample_config [] []
    (sample_client [[0x20; 3; 0; 0x87; 0]]) eq_refl
    (ConnackPacket.mk 0x20 0 0 0x87 0 []) sample_connect_packet); try concrete.
  apply (sample_at_rest [[0x20; 3; 0; 0x87; 0]]). by repeat constructor.
Defined.


Lemma send_ping_pingresp_witness :
  exists self', MqttClient.send_ping 2 (sample_client [[0xD0]; [0]]) = (Ok tt, self') /\
    at_rest 64 64 64 sample_config [0xC0; 0] [] self'.
Proof.
  apply (send_ping_pingresp (MAX_PROPERTIES := 4) ScriptedIo.io_writes
    2 64 64 64 sample_config [] [] (sample_client [[0xD0]; [0]]) eq_refl 0xD0); try concrete.
  apply (sample_at_rest [[0xD0]; [0]]). by repeat constructor.
Defined.

Lemma disconnect_drops_witness :
  exists s', MqttClient.disconnect (sample_client []) = (Ok tt, s') /\ connection s' = None /\
    forall topic message qos retain,
      MqttClient.send_message 8 topic message qos retain s' = (Err ReasonCode.NetworkError, s') /\
      MqttClient.receive_message 8 s' = (Err ReasonCode.NetworkError, s') /\
      MqttClient.connect_to_broker 8 s' = (Err ReasonCode.NetworkError, s') /\
      MqttClient.send_ping 8 s' = (Err ReasonCode.NetworkError, s').
Proof. apply (disconnect_drops (MAX_PROPERTIES := 4) ltac:(done) 8 (sample_client [])); [discriminate|concrete..]. Defined.

Lemma reconnect_duplicates_packet_size_witness :
  exists p, connect_packet (ClientConfig.add_max_packet_size_as_prop
        (ClientConfig.add_max_packet_size_as_prop sample_config).2).2 = Ok p /\
    ConnectPacket.properties p = [Property.MaximumPacketSize 265000; Property.MaximumPacketSize 265000].
Proof.
  apply (reconnect_duplicates_packet_size (MAX_PROPERTIES := 4) sample_config); concrete.
Defined.
