(* ===== verification/EndToEnd.v ===== *)
(** One MQTT client's publications, received by another: [send_message] and
    [receive_message] of rust-mqtt/src/client/client.rs put together.

    A broker that forwards a packet as it came is a stream from one to the other.
    The client does not look at how much of a buffer a write takes: the bytes it
    has handed to its stream are those that travel only where every write takes
    the whole. *)
From S2P Require Import Prelude.
From S2P Require Import Utf8.
From S2P Require Import Types.
From S2P Require Import Vbi.
From S2P Require Import BuffWriter.
From S2P Require Import Heapless.
From S2P Require Import Codes.
From S2P Require Import Property.
From S2P Require Import Packet.
From S2P Require Import Acks.
From S2P Require Import PublishPacket.
From S2P Require Import ClientConfig.
From S2P Require Import Network.
From S2P Require Import RawClient.
From S2P Require Import MqttClient.

Import RawMqttClient.

(** ** The packets of a publication *)

(** A topic, a message and the flag. *)
Definition publication : Type := list Z * list Z * bool.

Definition publication_ok (limit : Z) (x : publication) : Prop :=
  let '(topic, message, _) := x in
  bytes_ok topic /\ valid_utf8 topic = true /\ bytes_ok message /\
  zlen topic < 2 ^ 16 /\ zlen topic + zlen message + 10 <= limit /\
  zlen topic + zlen message + 5 <= MAX_ENCODABLE.

Section packets.
Context `{HeaplessVec}.

(** The bytes of a PUBLISH packet do not depend on how many properties its
    type has room for, nor on the identifier at level 0. *)
Lemma publish_bytes_room {A B} topic message retain id id' :
  PublishPacket.bytes (publish_packet (MAX_PROPERTIES := A) topic message QualityOfService.QoS0 retain id) =
  PublishPacket.bytes (publish_packet (MAX_PROPERTIES := B) topic message QualityOfService.QoS0 retain id').
Proof. by destruct retain. Qed.

Lemma publish_bytes_qos1 {A B} topic message retain id :
  PublishPacket.bytes (publish_packet (MAX_PROPERTIES := A) topic message QualityOfService.QoS1 retain id) =
  PublishPacket.bytes (publish_packet (MAX_PROPERTIES := B) topic message QualityOfService.QoS1 retain id).
Proof. by destruct retain. Qed.

Lemma publication_packet {A} limit topic message retain qos id :
  0 <= A -> publication_ok limit (topic, message, retain) -> 0 <= id < 2 ^ 16 ->
  let p := publish_packet (MAX_PROPERTIES := A) topic message qos retain id in
  PublishPacket.wf p /\ zlen (PublishPacket.bytes p) <= limit.
Proof.
  intros HA (Hb & Hu & Hm & Ht & Hl & Henc) Hid p.
  split; [apply publish_packet_wf; assumption|].
  pose proof (zlen_publish_packet (MAX_PROPERTIES := A) HA topic message qos retain id Ht Hb Hu Hm Henc Hid).
  unfold p. lia.
Qed.

Lemma publish_packet_fields {A} topic message retain qos id :
  qos <> QualityOfService.INVALID ->
  let p := publish_packet (MAX_PROPERTIES := A) topic message qos retain id in
  EncodedString.string (PublishPacket.topic_name p) = topic /\ PublishPacket.payload p = message /\
  PublishPacket.properties p = [] /\ PublishPacket.packet_identifier p = id /\
  (Z.land (PublishPacket.fixed_header p) 0x06 =? 2) = bool_decide (qos = QualityOfService.QoS1).
Proof. intros Hq. by destruct qos, retain; repeat split. Qed.

End packets.

(** ** The two ends *)

Section ends.
Context `{Profile} `{HeaplessVec}.

(** The sender, and what it sends one after the other at level 0. *)
Section sender.
Context {T : Type} `{IoLaws T} {MAX_PROPERTIES : Z} {R : Type} `{RngCore R}.

Fixpoint send_all (fuel : nat) (xs : list publication)
  : M (RawMqttClient.t T MAX_PROPERTIES R) ReasonCode.t unit :=
  match xs with
  | [] => mret tt
  | (topic, message, retain) :: xs =>
    MqttClient.send_message fuel topic message QualityOfService.QoS0 retain ;;;
    send_all fuel xs
  end.

Hypothesis writes_ok : no_write_fails T.
Hypothesis capacity : 0 <= MAX_PROPERTIES.
Hypothesis random : forall r : R, exists v r', next_u32 (E := ReasonCode.t) r = (Ok v, r').

(** What is on the wire. *)
Definition wire (xs : list publication) : list Z :=
  concat (map (fun x : publication => let '(topic, message, retain) := x in
    PublishPacket.bytes (publish_packet (MAX_PROPERTIES := 5) topic message QualityOfService.QoS0 retain 1)) xs).

Lemma send_all_ok fuel n m k xs : forall cfg out inc s,
  Forall (publication_ok n) xs -> ClientConfig.mqtt_version cfg = MQTTv5 ->
  at_rest (MAX_PROPERTIES := MAX_PROPERTIES) n m k cfg out inc s ->
  exists cfg' s', send_all fuel xs s = (Ok tt, s') /\ at_rest n m k cfg' (out ++ wire xs) inc s'.
Proof.
  induction xs as [|[[topic message] retain] xs IH]; intros cfg out inc s Hxs Hv Hs; cbn [send_all].
  { exists cfg, s. unfold wire. cbn [map concat]. by rewrite app_nil_r. }
  apply List.Forall_cons_iff in Hxs as [Hx Hxs]. destruct (random (ClientConfig.rng cfg)) as (v & r' & Hr).
  destruct (publication_packet (A := MAX_PROPERTIES) n topic message retain QualityOfService.QoS0 (wrap 16 v)
    capacity Hx ltac:(by apply wrap_range)) as [_ Hfit].
  destruct Hx as (Hb & Hu & Hm & Ht & Hl & Henc).
  destruct (raw_send_message_ok writes_ok capacity n m k cfg out s Hv topic message retain v r'
    (conj Ht (conj Hb Hu)) Hm Henc Hr QualityOfService.QoS0 inc Hs Hfit)
    as (s1 & Hsend & Hs1).
  destruct (IH (ClientConfig.set_rng r' cfg) _ _ _ Hxs ltac:(by destruct cfg) Hs1) as (cfg' & s2 & He & Hs2). exists cfg', s2. split.
  - assert (Hq : MqttClient.send_message fuel topic message QualityOfService.QoS0 retain s = (Ok tt, s1)).
    { unfold MqttClient.send_message. rewrite (bind_ok _ _ _ _ _ Hsend). by rewrite bool_decide_eq_false_2. }
    by rewrite (bind_ok _ _ _ _ _ Hq).
  - unfold wire in *. cbn [map concat]. rewrite app_assoc. by rewrite (publish_bytes_room (B := 5) _ _ _ _ 1) in Hs2.
Qed.
End sender.

(** The receiver, and the messages it takes one after the other. *)
Section receiver.
Context {T : Type} `{IoLaws T} {MAX_PROPERTIES : Z} {R : Type} `{RngCore R}.

Fixpoint receive_all (fuel : nat) (count : nat)
  : M (RawMqttClient.t T MAX_PROPERTIES R) ReasonCode.t (list (list Z * list Z)) :=
  match count with
  | O => mret []
  | S count =>
    x ← MqttClient.receive_message fuel;
    xs ← receive_all fuel count;
    mret (x :: xs)
  end.

Hypothesis writes_ok : no_write_fails T.
Hypothesis capacity : 0 <= MAX_PROPERTIES.

(** A packet of a publication arrives: it is delivered, and acknowledged at
    level 1. *)
Lemma receive_publication fuel n m k (cfg : ClientConfig.t MAX_PROPERTIES R) out more limit topic message retain qos id (s : RawMqttClient.t T MAX_PROPERTIES R) :
  qos = QualityOfService.QoS0 /\ id = 1 \/ qos = QualityOfService.QoS1 -> 0 <= id < 2 ^ 16 ->
  publication_ok limit (topic, message, retain) ->
  limit <= n -> 2 * limit <= m -> 6 <= k -> (Z.to_nat limit <= fuel)%nat ->
  let p := publish_packet (MAX_PROPERTIES := 5) topic message qos retain id in
  at_rest (MAX_PROPERTIES := MAX_PROPERTIES) n m k cfg out (PublishPacket.bytes p ++ more) s ->
  exists s', MqttClient.receive_message fuel s = (Ok (topic, message), s') /\
    at_rest n m k cfg
      (out ++ if bool_decide (qos = QualityOfService.QoS1)
              then PubackPacket.bytes (ack (MAX_PROPERTIES := MAX_PROPERTIES) id) else []) more s'.
Proof.
  intros Hq Hid Hx Hn Hm Hk Hfuel p Hs.
  destruct (publication_packet (A := 5) limit topic message retain qos id ltac:(lia) Hx Hid) as [Hwf Hfit].
  fold p in Hwf, Hfit.
  destruct (publish_packet_fields (A := 5) topic message retain qos id) as (Et & Em & Ep & Ei & Eq);
    [destruct Hq as [[-> _]| ->]; discriminate|]. fold p in Et, Em, Ep, Ei, Eq.
  assert (Harr : arrived fuel n m k cfg out more s (PublishPacket.bytes p)).
  { split; [done|]. pose proof (zlen_nonneg (PublishPacket.bytes p)). unfold zlen in *.
    split; [lia|split; [lia|lia]]. }
  destruct (poll_publish writes_ok fuel 0 n m k cfg out more s p Hwf) as (s' & Hp & Hs').
  - rewrite Ep. constructor.
  - done.
  - done.
  - done.
  - rewrite Et, Em, ?Ei, ?Eq in *. exists s'. unfold MqttClient.receive_message.
    rewrite (bind_ok _ _ _ _ _ Hp). done.
Qed.

Lemma receive_all_ok fuel n m k (cfg : ClientConfig.t MAX_PROPERTIES R) out limit xs :
  forall more (s : RawMqttClient.t T MAX_PROPERTIES R),
  Forall (publication_ok limit) xs ->
  limit <= n -> 2 * limit <= m -> 6 <= k -> (Z.to_nat limit <= fuel)%nat ->
  at_rest (MAX_PROPERTIES := MAX_PROPERTIES) n m k cfg out (wire xs ++ more) s ->
  exists s', receive_all fuel (length xs) s = (Ok (map fst xs), s') /\ at_rest n m k cfg out more s'.
Proof.
  induction xs as [|[[topic message] retain] xs IH]; intros more s Hxs Hn Hm Hk Hfuel Hs;
    cbn [length receive_all map]; [by exists s|].
  apply List.Forall_cons_iff in Hxs as [Hx Hxs]. unfold wire in Hs. cbn [map concat] in Hs.
  rewrite <- app_assoc in Hs. fold (wire xs) in Hs.
  destruct (receive_publication fuel n m k cfg out (wire xs ++ more) limit topic message retain
    QualityOfService.QoS0 1 s (or_introl (conj eq_refl eq_refl)) ltac:(lia) Hx Hn Hm Hk Hfuel Hs)
    as (s1 & H1' & Hs1).
  rewrite bool_decide_eq_false_2, app_nil_r in Hs1 by done.
  destruct (IH more s1 Hxs Hn Hm Hk Hfuel Hs1) as (s2 & H2' & Hs2). exists s2. split; [|done].
  rewrite (bind_ok _ _ _ _ _ H1'). by rewrite (bind_ok _ _ _ _ _ H2').
Qed.
End receiver.

(** ** From one to the other *)

Section composition.
Context {T T' : Type} `{IoLaws T} `{IoLaws T'} {A B : Z} {R R' : Type} `{RngCore R} `{RngCore R'}.
Hypothesis sender_writes : no_write_fails T.
Hypothesis receiver_writes : no_write_fails T'.
Hypothesis capacities : 0 <= A /\ 0 <= B.
Hypothesis random : forall r : R, exists v r', next_u32 (E := ReasonCode.t) r = (Ok v, r').
Context (fuel : nat) (limit n m k n' m' k' : Z) (cfg : ClientConfig.t A R) (cfg' : ClientConfig.t B R')
  (out out' inc more : list Z) (s : RawMqttClient.t T A R) (r : RawMqttClient.t T' B R').
Hypothesis sender_v5 : ClientConfig.mqtt_version cfg = MQTTv5.
Hypothesis sender_room : limit <= n.
Hypothesis receiver_room : limit <= n' /\ 2 * limit <= m' /\ 6 <= k' /\ (Z.to_nat limit <= fuel)%nat.

(** C3: A stream of messages.  On a stream whose writes report no error, a client
    can publish any sequence of messages at level 0.  If the bytes it hands to
    its stream arrive at another client, as they do where every write takes the
    whole of its buffer (which the code does not check), however the reads cut
    them, then that client receives the same topics and payloads, in the same
    order, and nothing is left of them in its stream.  The sender is a client of
    MQTT 5 whose generator of numbers never fails, the topics are UTF-8, and the
    messages have room in the buffers: a topic and a message of together ten
    bytes less than the sender's packet buffer and the receiver's, and half the
    receive buffer. *)
Theorem mqtt_stream_delivered (xs : list publication)
  (Hxs : Forall (publication_ok limit) xs) (Hs : at_rest n m k cfg out inc s) :
  exists cfg1 s1 bytes, send_all fuel xs s = (Ok tt, s1) /\ at_rest n m k cfg1 (out ++ bytes) inc s1 /\
    (at_rest n' m' k' cfg' out' (bytes ++ more) r ->
     exists r1, receive_all fuel (length xs) r = (Ok (map fst xs), r1) /\
       at_rest n' m' k' cfg' out' more r1).
Proof.
  destruct (send_all_ok sender_writes (proj1 capacities) random fuel n m k xs cfg out inc s)
    as (cfg1 & s1 & Hsend & Hs1); [|done..|].
  { eapply List.Forall_impl; [|exact Hxs]. intros [[topic message] retain] (?&?&?&?&?&?).
    repeat (split; [done || lia|]). done. }
  exists cfg1, s1, (wire xs). split; [done|]. split; [done|]. intros Hr.
  destruct receiver_room as (?&?&?&?).
  by apply (receive_all_ok receiver_writes (proj2 capacities) fuel n' m' k' cfg' out' limit).
Qed.

(** C23: A handshake.  On streams whose writes report no error: there are a
    request and a reply of six bytes such that a publication at level 1 succeeds
    if the reply arrives, and has then handed the request to its stream; and a
    client at which the request arrives delivers the topic and the payload, and
    hands the reply to its own stream.  So the acknowledgement a client makes
    is the one the publisher waits for.  (What is handed to a stream is what
    arrives where writes take the whole of their buffers.)  The clients, the topic
    and the buffers are as the stream of messages needs them. *)
Theorem mqtt_qos1_handshake topic message retain (more' : list Z)
  (Hx : publication_ok limit (topic, message, retain)) (Hn : 12 <= n) (Hm : 12 <= m)
  (Hfuel : (6 <= fuel)%nat) :
  exists cfg1 request reply, zlen reply = 6 /\
    (at_rest n m k cfg out (reply ++ more') s ->
     exists s1, MqttClient.send_message fuel topic message QualityOfService.QoS1 retain s = (Ok tt, s1) /\
       at_rest n m k cfg1 (out ++ request) more' s1) /\
    (at_rest n' m' k' cfg' out' (request ++ more) r ->
     exists r1, MqttClient.receive_message fuel r = (Ok (topic, message), r1) /\
       at_rest n' m' k' cfg' (out' ++ reply) more r1).
Proof.
  destruct (random (ClientConfig.rng cfg)) as (v & rng' & Hr).
  destruct capacities as [HA HB], receiver_room as (Hn' & Hm' & Hk' & Hf).
  assert (Hid : 0 <= wrap 16 v < 2 ^ 16) by (by apply wrap_range).
  set (p := publish_packet (MAX_PROPERTIES := A) topic message QualityOfService.QoS1 retain (wrap 16 v)).
  exists (ClientConfig.set_rng rng' cfg), (PublishPacket.bytes p),
    (PubackPacket.bytes (ack (MAX_PROPERTIES := A) (wrap 16 v))).
  split; [done|split].
  - intros Hs.
    destruct (publication_packet (A := A) limit topic message retain QualityOfService.QoS1 (wrap 16 v)
      HA Hx Hid) as [_ Hfit]. fold p in Hfit.
    destruct Hx as (Hb & Hu & Hmsg & Ht & Hl & Henc).
    destruct (raw_send_message_ok sender_writes HA n m k cfg out s sender_v5 topic message retain v rng'
      (conj Ht (conj Hb Hu)) Hmsg Henc Hr QualityOfService.QoS1 _ Hs (Z.le_trans _ _ _ Hfit sender_room))
      as (s1 & Hsend & Hs1). fold p in Hs1.
    destruct (poll_puback fuel 0 n m k (ClientConfig.set_rng rng' cfg) (out ++ PublishPacket.bytes p) more'
      s1 (ack (wrap 16 v)) (ack_wf _ HA Hid) ltac:(constructor)) as (s2 & Hp & Hs2).
    { assert (Hz : length (PubackPacket.bytes (ack (MAX_PROPERTIES := A) (wrap 16 v))) = 6%nat) by done.
      split; [done|]. unfold zlen. rewrite Hz. split; [lia|split; [lia|done]]. }
    exists s2. split; [|done]. unfold MqttClient.send_message. rewrite (bind_ok _ _ _ _ _ Hsend).
    rewrite bool_decide_eq_true_2 by done. cbn [PubackPacket.reason_code ack] in Hp.
    rewrite (bind_ok _ _ _ _ _ Hp). by rewrite Z.eqb_refl.
  - intros Hr'. unfold p in Hr'. rewrite (publish_bytes_qos1 (B := 5)) in Hr'.
    destruct (receive_publication receiver_writes HB fuel n' m' k' cfg' out' more limit topic message retain
      QualityOfService.QoS1 (wrap 16 v) r (or_intror eq_refl) Hid Hx Hn' Hm' Hk' Hf Hr')
      as (r1 & He & Hr1). by exists r1.
Qed.
End composition.
End ends.

(** ** At concrete inputs *)

Module SampleEnds.
#[export] Instance constant : RngCore unit := { next_u32 := fun E r => (Ok 7, r) }.

Definition config : ClientConfig.t 4 unit := ClientConfig.new MQTTv5 tt.
Definition client (chunks : list (list Z)) : RawMqttClient.t ScriptedIo.t 4 unit :=
  MqttClient.new (ScriptedIo.mk chunks []) (replicate 64 0) 64 (replicate 64 0) 64 config.

Lemma client_at_rest chunks :
  Forall (fun c => c <> []) chunks -> at_rest 64 64 64 config [] (concat chunks ++ []) (client chunks).
Proof.
  intros Hc. exists (ScriptedIo.mk chunks []). rewrite app_nil_r.
  split; [done|split; [by split|]]. by repeat split.
Qed.

Definition messages : list publication := [([97], [5; 6], false); ([98], [], true)].

Lemma messages_ok : Forall (publication_ok 32) messages.
Proof. repeat constructor; try discriminate; done. Qed.
End SampleEnds.
Import SampleEnds.
#[local] Existing Instance list_vec.
#[local] Existing Instance dev_profile.

(** Two messages, cut in three pieces. *)
Lemma mqtt_stream_delivered_witness :
  exists cfg1 s1 bytes,
    send_all 32 messages (client []) = (Ok tt, s1) /\ at_rest 64 64 64 cfg1 ([] ++ bytes) [] s1 /\
    (at_rest 64 64 64 config [] (bytes ++ []) (client [[0x30; 6; 0; 1]; [97; 0; 5; 6; 0x31; 4]; [0; 1; 98; 0]]) ->
     exists r1, receive_all 32 2 (client [[0x30; 6; 0; 1]; [97; 0; 5; 6; 0x31; 4]; [0; 1; 98; 0]]) =
       (Ok [([97], [5; 6]); ([98], [])], r1) /\ at_rest 64 64 64 config [] [] r1).
Proof.
  apply (mqtt_stream_delivered (A := 4) (B := 4) ScriptedIo.io_writes ScriptedIo.io_writes
    ltac:(concrete) ltac:(by intros []; exists 7, tt) 32 32 64 64 64 64 64 64 config config [] [] [] []
    (client []) (client [[0x30; 6; 0; 1]; [97; 0; 5; 6; 0x31; 4]; [0; 1; 98; 0]]) eq_refl
    ltac:(concrete) ltac:(concrete) messages messages_ok).
  apply (client_at_rest []). constructor.
Defined.

Example stream_pieces :
  concat [[0x30; 6; 0; 1]; [97; 0; 5; 6; 0x31; 4]; [0; 1; 98; 0]] = wire messages.
Proof. reflexivity. Qed.

Lemma mqtt_qos1_handshake_witness :
  exists cfg1 request reply, zlen reply = 6 /\
    (at_rest 64 64 64 config [] (reply ++ []) (client [[0x40; 4]; [0; 7; 0; 0]]) ->
     exists s1, MqttClient.send_message 32 [97] [5; 6] QualityOfService.QoS1 false
         (client [[0x40; 4]; [0; 7; 0; 0]]) = (Ok tt, s1) /\ at_rest 64 64 64 cfg1 ([] ++ request) [] s1) /\
    (at_rest 64 64 64 config [] (request ++ []) (client [[0x32; 8; 0; 1; 97; 0; 7; 0; 5; 6]]) ->
     exists r1, MqttClient.receive_message 32 (client [[0x32; 8; 0; 1; 97; 0; 7; 0; 5; 6]]) =
         (Ok ([97], [5; 6]), r1) /\ at_rest 64 64 64 config ([] ++ reply) [] r1).
Proof.
  apply (mqtt_qos1_handshake (A := 4) (B := 4) ScriptedIo.io_writes ScriptedIo.io_writes
    ltac:(concrete) ltac:(by intros []; exists 7, tt) 32 32 64 64 64 64 64 64 config config [] [] []
    (client [[0x40; 4]; [0; 7; 0; 0]]) (client [[0x32; 8; 0; 1; 97; 0; 7; 0; 5; 6]]) eq_refl
    ltac:(concrete) ltac:(concrete) [97] [5; 6] false []); try concrete.
Defined.
