(* ===== verification/Sntp.v ===== *)
(** The SNTP client: sntpc/src/types.rs and sntpc/src/lib.rs.

    The target is little-endian, so [to_be] swaps bytes.  The UDP socket, the
    clock behind the timestamp generator and the resolution of addresses are
    not part of the repository: they are classes, over a world [W] that a call
    may change. *)
From S2P Require Import Prelude.

Definition MODE_MASK : Z := 7.
Definition MODE_SHIFT : Z := 0.
Definition VERSION_MASK : Z := 56.
Definition VERSION_SHIFT : Z := 3.
Definition LI_MASK : Z := 192.
Definition LI_SHIFT : Z := 6.
Definition PSEC_IN_SEC : Z := 1000000000000.
Definition NSEC_IN_SEC : Z := 1000000000.
Definition USEC_IN_SEC : Z := 1000000.
Definition MSEC_IN_SEC : Z := 1000.
Definition SECONDS_MASK : Z := 0xffffffff00000000.
Definition SECONDS_FRAC_MASK : Z := 0xffffffff.
Definition u32_MAX : Z := 0xffffffff.

Inductive Units : Type := Milliseconds | Microseconds.

(** The errors of the client. *)
Inductive Error : Type :=
| IncorrectOriginTimestamp
| IncorrectMode
| IncorrectLeapIndicator
| IncorrectResponseVersion
| IncorrectStratumHeaders
| IncorrectPayload
| Network
| AddressResolve
| ResponseAddressMismatch
| IncorrectPayload1 (a b : Z)
| SendError
| ReceiveError
| IpDecode
| NetworkBind.

(** A checked [i64] operation. *)
Definition checked_i64 {E} `{Profile} (z : Z) : outcome E Z :=
  if (- 2 ^ 63 <=? z) && (z <? 2 ^ 63) then Ok z
  else if overflow_checks then Panic POverflow else Ok (to_signed 64 z).

Module NtpPacket.
Record t : Type := mk {
  li_vn_mode : Z;
  stratum : Z;
  poll : Z;
  precision : Z;
  root_delay : Z;
  root_dispersion : Z;
  ref_id : Z;
  ref_timestamp : Z;
  origin_timestamp : Z;
  recv_timestamp : Z;
  tx_timestamp : Z
}.

Definition NTP_TIMESTAMP_DELTA : Z := 2208988800.
Definition SNTP_CLIENT_MODE : Z := 3.
Definition SNTP_VERSION : Z := Z.shiftl 4 3.

Definition wf (p : t) : Prop :=
  byte_ok (li_vn_mode p) /\ byte_ok (stratum p) /\ - 128 <= poll p < 128 /\
  - 128 <= precision p < 128 /\ 0 <= root_delay p < 2 ^ 32 /\
  0 <= root_dispersion p < 2 ^ 32 /\ 0 <= ref_id p < 2 ^ 32 /\
  0 <= ref_timestamp p < 2 ^ 64 /\ 0 <= origin_timestamp p < 2 ^ 64 /\
  0 <= recv_timestamp p < 2 ^ 64 /\ 0 <= tx_timestamp p < 2 ^ 64.
End NtpPacket.

Module NtpTimestamp.
Record t : Type := mk { seconds : Z; seconds_fraction : Z }.

Definition from_u64 {E} `{Profile} (v : Z) : outcome E t :=
  seconds ← Z.shiftr (Z.land v SECONDS_MASK) 32 -u64 NtpPacket.NTP_TIMESTAMP_DELTA;
  let seconds := to_signed 64 seconds in
  let microseconds := to_signed 64 (Z.land v SECONDS_FRAC_MASK) in
  Ok (mk seconds microseconds).
End NtpTimestamp.

Module NtpResult.
Record t : Type := mk {
  seconds : Z;
  seconds_fraction : Z;
  roundtrip : Z;
  offset : Z;
  stratum : Z;
  precision : Z
}.

Definition new {E} `{Profile} (seconds seconds_fraction roundtrip offset stratum precision : Z)
  : outcome E t :=
  seconds ← seconds +u32 seconds_fraction / u32_MAX;
  let seconds_fraction := seconds_fraction mod u32_MAX in
  Ok (mk seconds seconds_fraction roundtrip offset stratum precision).
End NtpResult.

Module SendRequestResult.
Record t : Type := mk { originate_timestamp : Z; version : Z }.

Definition from (ntp_packet : NtpPacket.t) : t :=
  mk (NtpPacket.tx_timestamp ntp_packet) (NtpPacket.li_vn_mode ntp_packet).
End SendRequestResult.

(** [u32::to_be] and [u64::to_be] on a little-endian target. *)
Definition to_be (n : nat) (v : Z) : Z := be_value (le_bytes n v).

Module RawNtpPacket.
(** A raw packet is an array of 48 bytes. *)
Definition size : Z := 48.

Definition at_ (raw : list Z) (i : Z) : Z := nth (Z.to_nat i) raw 0.
Definition sub (raw : list Z) (a b : Z) : list Z := ztake (b - a) (zdrop a raw).

Definition into_packet (val : list Z) : NtpPacket.t :=
  NtpPacket.mk (at_ val 0) (at_ val 1) (to_signed 8 (at_ val 2)) (to_signed 8 (at_ val 3))
    (le_value (sub val 4 8)) (le_value (sub val 8 12)) (le_value (sub val 12 16))
    (le_value (sub val 16 24)) (le_value (sub val 24 32)) (le_value (sub val 32 40))
    (le_value (sub val 40 48)).

Definition from_packet (val : NtpPacket.t) : list Z :=
  [NtpPacket.li_vn_mode val; NtpPacket.stratum val; wrap 8 (NtpPacket.poll val);
   wrap 8 (NtpPacket.precision val)]
  ++ be_bytes 4 (NtpPacket.root_delay val) ++ be_bytes 4 (NtpPacket.root_dispersion val)
  ++ be_bytes 4 (NtpPacket.ref_id val) ++ be_bytes 8 (NtpPacket.ref_timestamp val)
  ++ be_bytes 8 (NtpPacket.origin_timestamp val) ++ be_bytes 8 (NtpPacket.recv_timestamp val)
  ++ be_bytes 8 (NtpPacket.tx_timestamp val).
End RawNtpPacket.

(** ** Pure parts of lib.rs *)

Definition shifter (val mask shift : Z) : Z := Z.shiftr (Z.land val mask) shift.

Definition convert_from_network (packet : NtpPacket.t) : NtpPacket.t :=
  NtpPacket.mk (NtpPacket.li_vn_mode packet) (NtpPacket.stratum packet)
    (NtpPacket.poll packet) (NtpPacket.precision packet)
    (to_be 4 (NtpPacket.root_delay packet)) (to_be 4 (NtpPacket.root_dispersion packet))
    (to_be 4 (NtpPacket.ref_id packet)) (to_be 8 (NtpPacket.ref_timestamp packet))
    (to_be 8 (NtpPacket.origin_timestamp packet)) (to_be 8 (NtpPacket.recv_timestamp packet))
    (to_be 8 (NtpPacket.tx_timestamp packet)).

Section calculations.
Context `{Profile} {E : Type}.

Definition convert_delays (sec fraction units : Z) : outcome E Z :=
  a ← sec *u64 units;
  b ← fraction *u64 units;
  a +u64 b / u32_MAX.

Definition roundtrip_calculate (t1 t2 t3 t4 : Z) (units : Units) : outcome E Z :=
  let delta := wrap 64 (wrap 64 (t4 - t1) - wrap 64 (t3 - t2)) in
  let delta_sec := Z.shiftr (Z.land delta SECONDS_MASK) 32 in
  let delta_sec_fraction := Z.land delta SECONDS_FRAC_MASK in
  match units with
  | Milliseconds => convert_delays delta_sec delta_sec_fraction MSEC_IN_SEC
  | Microseconds => convert_delays delta_sec delta_sec_fraction USEC_IN_SEC
  end.

(** [/ 2] truncates towards zero. *)
Definition offset_calculate (t1 t2 t3 t4 : Z) (units : Units) : outcome E Z :=
  let theta := Z.quot (to_signed 64
    (to_signed 64 (wrap 64 (t2 - t1)) + to_signed 64 (wrap 64 (t3 - t4)))) 2 in
  let theta_sec := Z.shiftr (Z.land (Z.abs theta) SECONDS_MASK) 32 in
  let theta_sec_fraction := Z.land (Z.abs theta) SECONDS_FRAC_MASK in
  match units with
  | Milliseconds =>
    v ← convert_delays theta_sec theta_sec_fraction MSEC_IN_SEC;
    checked_i64 (to_signed 64 v * Z.sgn theta)
  | Microseconds =>
    v ← convert_delays theta_sec theta_sec_fraction USEC_IN_SEC;
    checked_i64 (to_signed 64 v * Z.sgn theta)
  end.
End calculations.

Definition fraction_to_milliseconds (sec_fraction : Z) : Z :=
  wrap 32 (sec_fraction * MSEC_IN_SEC / u32_MAX).
Definition fraction_to_microseconds (sec_fraction : Z) : Z :=
  wrap 32 (sec_fraction * USEC_IN_SEC / u32_MAX).
Definition fraction_to_nanoseconds (sec_fraction : Z) : Z :=
  wrap 32 (sec_fraction * NSEC_IN_SEC / u32_MAX).
Definition fraction_to_picoseconds (sec_fraction : Z) : Z :=
  wrap 64 (sec_fraction * PSEC_IN_SEC / u32_MAX).

Definition SNTP_UNICAST : Z := 4.
Definition SNTP_BROADCAST : Z := 5.
Definition LI_MAX_VALUE : Z := 3.

Definition process_response `{Profile} (send_req_result : SendRequestResult.t) (resp : list Z)
    (recv_timestamp : Z) : outcome Error NtpResult.t :=
  let packet := convert_from_network (RawNtpPacket.into_packet resp) in
  if negb (SendRequestResult.originate_timestamp send_req_result
           =? NtpPacket.origin_timestamp packet)
  then Err IncorrectOriginTimestamp
  else
    let mode := shifter (NtpPacket.li_vn_mode packet) MODE_MASK MODE_SHIFT in
    let li := shifter (NtpPacket.li_vn_mode packet) LI_MASK LI_SHIFT in
    let resp_version := shifter (NtpPacket.li_vn_mode packet) VERSION_MASK VERSION_SHIFT in
    let req_version :=
      shifter (SendRequestResult.version send_req_result) VERSION_MASK VERSION_SHIFT in
    if negb (mode =? SNTP_UNICAST) && negb (mode =? SNTP_BROADCAST) then Err IncorrectMode
    else if li >? LI_MAX_VALUE then Err IncorrectLeapIndicator
    else if negb (req_version =? resp_version) then Err IncorrectResponseVersion
    else if NtpPacket.stratum packet =? 0 then Err IncorrectStratumHeaders
    else
      let t1 := NtpPacket.origin_timestamp packet in
      let t2 := NtpPacket.recv_timestamp packet in
      let t3 := NtpPacket.tx_timestamp packet in
      let t4 := recv_timestamp in
      roundtrip ← roundtrip_calculate t1 t2 t3 t4 Microseconds;
      offset ← offset_calculate t1 t2 t3 t4 Microseconds;
      timestamp ← NtpTimestamp.from_u64 (NtpPacket.tx_timestamp packet);
      NtpResult.new (wrap 32 (NtpTimestamp.seconds timestamp))
        (wrap 32 (NtpTimestamp.seconds_fraction timestamp))
        roundtrip offset (NtpPacket.stratum packet) (NtpPacket.precision packet).

(** ** The client

    [W] is the world: the clock, the network. *)

Class NtpTimestampGenerator (W G : Type) : Type := {
  init : G -> W -> G * W;
  timestamp_sec : G -> Z;
  timestamp_subsec_micros : G -> Z;
}.

(** [recv_from(buf)] with a buffer of [n] bytes returns the datagram it stored
    at the start of the buffer and where it came from. *)
Class NtpUdpSocket (W U A Addr : Type) : Type := {
  send_to : U -> list Z -> A -> W -> outcome Error Z * W;
  recv_from : U -> Z -> W -> outcome Error (list Z * Addr) * W;
}.

Class ToSocketAddrs (A Addr : Type) : Type := {
  to_socket_addrs : A -> option (list Addr);
}.

Section client.
Context `{Profile} {W G U A Addr : Type} `{EqDecision Addr}
  `{NtpTimestampGenerator W G} `{NtpUdpSocket W U A Addr} `{ToSocketAddrs A Addr}.

Definition get_ntp_timestamp {E} (timestamp_gen : G) : outcome E Z :=
  s ← timestamp_sec timestamp_gen +u64 NtpPacket.NTP_TIMESTAMP_DELTA;
  m ← timestamp_subsec_micros timestamp_gen *u64 u32_MAX;
  wrap 64 (Z.shiftl s 32) +u64 m / USEC_IN_SEC.

Definition new_packet (timestamp_gen : G) : M W Error NtpPacket.t :=
  timestamp_gen ← (fun w => let '(g, w) := init timestamp_gen w in (Ok g, w));
  tx_timestamp ← lift (get_ntp_timestamp timestamp_gen);
  mret (NtpPacket.mk (Z.lor NtpPacket.SNTP_CLIENT_MODE NtpPacket.SNTP_VERSION)
    0 0 0 0 0 0 0 0 0 tx_timestamp).

Definition send_request (dest : A) (req : NtpPacket.t) (socket : U) : M W Error unit := fun w =>
  let buf := RawNtpPacket.from_packet req in
  match send_to socket buf dest w with
  | (Ok size, w) => (if size =? zlen buf then Ok tt else Err Network, w)
  | (Err _, w) => (Err Network, w)
  | (Panic p, w) => (Panic p, w)
  | (OutOfFuel, w) => (OutOfFuel, w)
  end.

Definition sntp_send_request (dest : A) (socket : U) (context : G)
  : M W Error SendRequestResult.t :=
  request ← new_packet context;
  send_request dest request socket ;;;
  mret (SendRequestResult.from request).

Definition sntp_process_response (dest : A) (socket : U) (context : G)
    (send_req_result : SendRequestResult.t) : M W Error NtpResult.t :=
  '(datagram, src) ← recv_from socket RawNtpPacket.size;
  let response := zlen datagram in
  let response_buf := datagram ++ replicate (48 - length datagram) 0 in
  timestamp_gen ← (fun w => let '(g, w) := init context w in (Ok g, w));
  recv_timestamp ← lift (get_ntp_timestamp timestamp_gen);
  match to_socket_addrs dest with
  | None => throw AddressResolve
  | Some it =>
    if negb (existsb (fun addr => bool_decide (addr = src)) it) then throw ResponseAddressMismatch
    else if negb (response =? RawNtpPacket.size)
    then throw (IncorrectPayload1 response RawNtpPacket.size)
    else lift (process_response send_req_result response_buf recv_timestamp)
  end.

Definition get_time (pool_addrs : A) (socket : U) (context : G) : M W Error NtpResult.t :=
  result ← sntp_send_request pool_addrs socket context;
  sntp_process_response pool_addrs socket context result.
End client.

(** ** Lemmas *)

(** Splitting a 64-bit fixed-point number into its two words. *)
Lemma high_word v : 0 <= v < 2 ^ 64 -> Z.shiftr (Z.land v SECONDS_MASK) 32 = v / 2 ^ 32.
Proof.
  intros Hv. rewrite Z.shiftr_land. change (Z.shiftr SECONDS_MASK 32) with (Z.ones 32).
  rewrite Z.land_ones, Z.shiftr_div_pow2 by lia. apply Z.mod_small.
  split; [by apply Z.div_pos; lia|]. apply Z.div_lt_upper_bound; lia.
Qed.

Lemma low_word v : Z.land v SECONDS_FRAC_MASK = v mod 2 ^ 32.
Proof. change SECONDS_FRAC_MASK with (Z.ones 32). by apply Z.land_ones. Qed.

(** Microseconds of a 32.32 fixed-point time, as [convert_delays] computes
    them: the fraction is divided by [2 ^ 32 - 1]. *)
Definition micros (x : Z) : Z := x / 2 ^ 32 * USEC_IN_SEC + x mod 2 ^ 32 * USEC_IN_SEC / u32_MAX.

Lemma micros_bounds x :
  0 <= x -> x * USEC_IN_SEC - 2 ^ 32 < micros x * 2 ^ 32 <= x * USEC_IN_SEC + USEC_IN_SEC.
Proof.
  intros Hx. unfold micros, USEC_IN_SEC, u32_MAX.
  pose proof (Z.div_mod x (2 ^ 32) ltac:(lia)). pose proof (Z.mod_pos_bound x (2 ^ 32) ltac:(lia)).
  set (q := x / 2 ^ 32) in *. set (r := x mod 2 ^ 32) in *.
  pose proof (Z.div_mod (r * 1000000) 4294967295 ltac:(lia)).
  pose proof (Z.mod_pos_bound (r * 1000000) 4294967295 ltac:(lia)).
  set (f := r * 1000000 / 4294967295) in *. lia.
Qed.

Lemma micros_range x : 0 <= x < 2 ^ 64 -> 0 <= micros x < 2 ^ 53.
Proof.
  intros Hx. pose proof (micros_bounds x ltac:(lia)). unfold USEC_IN_SEC in *. lia.
Qed.

Lemma convert_delays_micros `{Profile} {E} x :
  0 <= x < 2 ^ 64 ->
  convert_delays (E := E) (Z.shiftr (Z.land x SECONDS_MASK) 32) (Z.land x SECONDS_FRAC_MASK)
    USEC_IN_SEC = Ok (micros x).
Proof.
  intros Hx. rewrite high_word, low_word by done. unfold convert_delays.
  pose proof (micros_range x Hx). unfold micros, USEC_IN_SEC, u32_MAX in *.
  assert (0 <= x / 2 ^ 32 < 2 ^ 32)
    by (split; [apply Z.div_pos; lia|apply Z.div_lt_upper_bound; lia]).
  pose proof (Z.mod_pos_bound x (2 ^ 32) ltac:(lia)).
  unfold mbind, outcome_bind. by rewrite !checked_ok by lia.
Qed.

Lemma to_signed_wrap z : - 2 ^ 63 <= z < 2 ^ 63 -> to_signed 64 (wrap 64 z) = z.
Proof.
  intros Hz. unfold to_signed, wrap. rewrite Z.mod_mod by lia.
  change (2 ^ (64 - 1)) with (2 ^ 63).
  destruct (Z.ltb_spec (z mod 2 ^ 64) (2 ^ 63)); Z.div_mod_to_equations; lia.
Qed.

Lemma to_signed_id z : - 2 ^ 63 <= z < 2 ^ 63 -> to_signed 64 z = z.
Proof.
  intros Hz. unfold to_signed, wrap. change (2 ^ (64 - 1)) with (2 ^ 63).
  destruct (Z.ltb_spec (z mod 2 ^ 64) (2 ^ 63)); Z.div_mod_to_equations; lia.
Qed.

Lemma wrap_sub a b : wrap 64 (wrap 64 a - wrap 64 b) = wrap 64 (a - b).
Proof. unfold wrap. by rewrite <- Zminus_mod. Qed.

(** Reading a big-endian field as little-endian and swapping it. *)
Lemma to_be_le_value n v :
  0 <= v < 2 ^ (8 * Z.of_nat n) -> to_be n (le_value (be_bytes n v)) = v.
Proof.
  intros Hv. unfold to_be, le_value, le_bytes.
  assert (Hl : length (rev (be_bytes n v)) = n) by (by rewrite length_rev, length_be_bytes).
  rewrite <- Hl at 1. rewrite be_bytes_value.
  - rewrite rev_involutive. by apply be_value_bytes_small.
  - apply List.Forall_rev, be_bytes_ok.
Qed.

Lemma to_signed_wrap8 v : - 128 <= v < 128 -> to_signed 8 (wrap 8 v) = v.
Proof.
  intros Hv. unfold to_signed, wrap. rewrite Z.mod_mod by lia.
  change (2 ^ (8 - 1)) with 128. change (2 ^ 8) with 256.
  destruct (Z.ltb_spec (v mod 256) 128); Z.div_mod_to_equations; lia.
Qed.

(** The fields of a raw packet, one behind the other. *)
Lemma sub_skip l k a b n :
  zlen l = n -> n <= a -> RawNtpPacket.sub (l ++ k) a b = RawNtpPacket.sub k (a - n) (b - n).
Proof.
  intros <- Ha. pose proof (zlen_nonneg l). unfold RawNtpPacket.sub.
  replace (zdrop a (l ++ k)) with (zdrop (a - zlen l) k).
  - f_equal. lia.
  - replace a with (zlen l + (a - zlen l)) at 2 by lia.
    by rewrite <- zdrop_zdrop, zdrop_app_len by lia.
Qed.

Lemma sub_head l k n : zlen l = n -> RawNtpPacket.sub (l ++ k) 0 n = l.
Proof.
  intros <-. unfold RawNtpPacket.sub. by rewrite Z.sub_0_r, zdrop_0, ztake_app_len.
Qed.

Local Ltac fields :=
  repeat match goal with
  | |- context [RawNtpPacket.sub (?l ++ ?k) ?a ?b] =>
      let n := eval vm_compute in (zlen l) in
      let a' := eval vm_compute in a in
      lazymatch a' with
      | 0 => rewrite (sub_head l k b) by done
      | _ => rewrite (sub_skip l k a b n) by (done || lia);
             let b' := eval vm_compute in (b - n) in
             let a'' := eval vm_compute in (a - n) in
             change (a - n) with a''; change (b - n) with b'
      end
  end.

Lemma into_from_packet p :
  NtpPacket.wf p ->
  convert_from_network (RawNtpPacket.into_packet (RawNtpPacket.from_packet p)) = p.
Proof.
  intros (H1 & H2 & H3 & H4 & H5 & H6 & H7 & H8 & H9 & H10 & H11).
  destruct p as [li st po pr rd rdi ri rt ot rct tt].
  unfold RawNtpPacket.into_packet, RawNtpPacket.from_packet, convert_from_network;
    cbn -[to_signed wrap le_value RawNtpPacket.sub RawNtpPacket.at_ to_be app] in *.
  set (h := [li; st; wrap 8 po; wrap 8 pr]).
  rewrite <- (app_nil_r (be_bytes 8 tt)).
  change (RawNtpPacket.at_ (h ++ _) 0) with li. change (RawNtpPacket.at_ (h ++ _) 1) with st.
  change (RawNtpPacket.at_ (h ++ _) 2) with (wrap 8 po).
  change (RawNtpPacket.at_ (h ++ _) 3) with (wrap 8 pr).
  fields. rewrite !to_signed_wrap8, !to_be_le_value by (cbn; lia). done.
Qed.

(** ** Properties *)

(** An NTP packet written in network order is read back, field by field,
    after [convert_from_network]. *)
Theorem ntp_packet_roundtrip p (Hp : NtpPacket.wf p) :
  let raw := RawNtpPacket.from_packet p in
  zlen raw = RawNtpPacket.size /\ bytes_ok raw /\
  convert_from_network (RawNtpPacket.into_packet raw) = p.
Proof.
  intros raw. split; [done|split; [|by apply into_from_packet]].
  destruct Hp as (H1 & H2 & _). unfold raw, RawNtpPacket.from_packet.
  apply bytes_ok_app; [|by auto 10 with bytes].
  pose proof (wrap_range 8 (NtpPacket.poll p) ltac:(lia)).
  pose proof (wrap_range 8 (NtpPacket.precision p) ltac:(lia)).
  by repeat (constructor; [done|]).
Qed.

Definition sample_reply : NtpPacket.t :=
  NtpPacket.mk 0x24 1 6 (-20) 0 10 0x47505300 16420000000000000000 16429131440647569408
    16429131440647569500 16429131440647569510.

Lemma ntp_packet_roundtrip_witness :
  let raw := RawNtpPacket.from_packet sample_reply in
  zlen raw = 48 /\ bytes_ok raw /\ convert_from_network (RawNtpPacket.into_packet raw) = sample_reply.
Proof. apply (ntp_packet_roundtrip sample_reply). concrete. Defined.

(** The result a valid reply gives. *)
Definition reply_result `{Profile} (p : NtpPacket.t) (t4 : Z) : outcome Error NtpResult.t :=
  let t1 := NtpPacket.origin_timestamp p in
  let t2 := NtpPacket.recv_timestamp p in
  let t3 := NtpPacket.tx_timestamp p in
  roundtrip ← roundtrip_calculate t1 t2 t3 t4 Microseconds;
  offset ← offset_calculate t1 t2 t3 t4 Microseconds;
  timestamp ← NtpTimestamp.from_u64 t3;
  NtpResult.new (wrap 32 (NtpTimestamp.seconds timestamp))
    (wrap 32 (NtpTimestamp.seconds_fraction timestamp))
    roundtrip offset (NtpPacket.stratum p) (NtpPacket.precision p).

(** What RFC 4330 has the client check, in the order of the code. *)
Definition reply_error (req : SendRequestResult.t) (p : NtpPacket.t) : option Error :=
  if negb (SendRequestResult.originate_timestamp req =? NtpPacket.origin_timestamp p)
  then Some IncorrectOriginTimestamp
  else if negb (NtpPacket.li_vn_mode p mod 8 =? 4) && negb (NtpPacket.li_vn_mode p mod 8 =? 5)
  then Some IncorrectMode
  else if negb (SendRequestResult.version req / 8 mod 8 =? NtpPacket.li_vn_mode p / 8 mod 8)
  then Some IncorrectResponseVersion
  else if NtpPacket.stratum p =? 0 then Some IncorrectStratumHeaders
  else None.

Lemma shifter_mode b : shifter b MODE_MASK MODE_SHIFT = b mod 8.
Proof.
  unfold shifter, MODE_MASK, MODE_SHIFT. rewrite Z.shiftr_0_r.
  change 7 with (Z.ones 3). by rewrite Z.land_ones by lia.
Qed.

Lemma shifter_version b : shifter b VERSION_MASK VERSION_SHIFT = b / 8 mod 8.
Proof.
  unfold shifter, VERSION_MASK, VERSION_SHIFT. rewrite Z.shiftr_land.
  change (Z.shiftr 56 3) with (Z.ones 3). by rewrite Z.land_ones, Z.shiftr_div_pow2 by lia.
Qed.

(** The leap indicator is two bits wide. *)
Lemma shifter_li b : 0 <= shifter b LI_MASK LI_SHIFT <= 3.
Proof.
  unfold shifter, LI_MASK, LI_SHIFT. rewrite Z.shiftr_land.
  change (Z.shiftr 192 6) with (Z.ones 2). rewrite Z.land_ones by lia.
  pose proof (Z.mod_pos_bound (Z.shiftr b 6) (2 ^ 2) ltac:(lia)). lia.
Qed.

(** The packet a datagram holds. *)
Definition reply_packet (resp : list Z) : NtpPacket.t :=
  convert_from_network (RawNtpPacket.into_packet resp).

Lemma process_response_cases `{Profile} req resp t4 :
  process_response req resp t4 =
  match reply_error req (reply_packet resp) with
  | Some e => Err e
  | None => reply_result (reply_packet resp) t4
  end.
Proof.
  unfold process_response. change (convert_from_network _) with (reply_packet resp).
  set (p := reply_packet resp). unfold reply_error, reply_result.
  rewrite shifter_mode, !shifter_version. unfold SNTP_UNICAST, SNTP_BROADCAST, LI_MAX_VALUE.
  destruct (negb (SendRequestResult.originate_timestamp req =? _)); [done|].
  destruct (negb _ && negb _); [done|].
  pose proof (shifter_li (NtpPacket.li_vn_mode p)).
  rewrite Z.gtb_ltb, (proj2 (Z.ltb_ge _ _)) by lia.
  destruct (negb _); [done|]. by destruct (NtpPacket.stratum p =? 0).
Qed.

Lemma reply_packet_from p : NtpPacket.wf p -> reply_packet (RawNtpPacket.from_packet p) = p.
Proof. apply into_from_packet. Qed.

(** The offset in units of 2^-32 s. *)
Definition offset_units (t1 t2 t3 t4 : Z) : Z :=
  Z.quot (to_signed 64
    (to_signed 64 (wrap 64 (t2 - t1)) + to_signed 64 (wrap 64 (t3 - t4)))) 2.

Lemma to_signed_range z : - 2 ^ 63 <= to_signed 64 z < 2 ^ 63.
Proof.
  unfold to_signed, wrap. change (2 ^ (64 - 1)) with (2 ^ 63).
  destruct (Z.ltb_spec (z mod 2 ^ 64) (2 ^ 63)); Z.div_mod_to_equations; lia.
Qed.

(** The round trip and the offset are computed for all timestamps, without
    overflow. *)
Lemma roundtrip_calculate_micros `{Profile} {E} t1 t2 t3 t4 :
  roundtrip_calculate (E := E) t1 t2 t3 t4 Microseconds =
  Ok (micros (wrap 64 (wrap 64 (t4 - t1) - wrap 64 (t3 - t2)))).
Proof. apply convert_delays_micros, wrap_range. lia. Qed.

Lemma offset_calculate_micros `{Profile} {E} t1 t2 t3 t4 :
  offset_calculate (E := E) t1 t2 t3 t4 Microseconds =
  Ok (micros (Z.abs (offset_units t1 t2 t3 t4)) * Z.sgn (offset_units t1 t2 t3 t4)).
Proof.
  unfold offset_calculate. fold (offset_units t1 t2 t3 t4).
  assert (Hth : Z.abs (offset_units t1 t2 t3 t4) < 2 ^ 64).
  { unfold offset_units. set (u := to_signed 64 (_ + _)).
    pose proof (to_signed_range (to_signed 64 (wrap 64 (t2 - t1))
      + to_signed 64 (wrap 64 (t3 - t4)))). fold u in H0.
    pose proof (Z.quot_rem' u 2). pose proof (Z.rem_bound_abs u 2 ltac:(lia)). lia. }
  set (theta := offset_units t1 t2 t3 t4) in *.
  pose proof (micros_range (Z.abs theta) ltac:(lia)) as Hmr.
  unfold mbind, outcome_bind. rewrite convert_delays_micros by lia.
  rewrite to_signed_id by lia. unfold checked_i64.
  by rewrite (proj2 (Z.leb_le _ _)), (proj2 (Z.ltb_lt _ _)) by nia.
Qed.

(** Without overflow checks arithmetic wraps. *)
Lemma checked_release {E} `{Profile} w z :
  overflow_checks = false -> checked (E := E) w z = Ok (wrap w z).
Proof.
  intros Ho. unfold checked, in_width. rewrite Ho.
  destruct (Z.leb_spec 0 z), (Z.ltb_spec z (2 ^ w)); try done. by rewrite wrap_small by lia.
Qed.

(** The arithmetic behind the checks: the seconds of the server are counted
    from 1970, which underflows when the server's timestamp is before that. *)
Lemma reply_result_eq `{Profile} p t4 :
  NtpPacket.wf p ->
  let sec := NtpPacket.tx_timestamp p / 2 ^ 32 in
  let frac := NtpPacket.tx_timestamp p mod 2 ^ 32 in
  let t1 := NtpPacket.origin_timestamp p in
  let t2 := NtpPacket.recv_timestamp p in
  let t3 := NtpPacket.tx_timestamp p in
  reply_result p t4 =
  if overflow_checks && (sec <? NtpPacket.NTP_TIMESTAMP_DELTA) then Panic POverflow
  else Ok (NtpResult.mk
    (wrap 32 (sec - NtpPacket.NTP_TIMESTAMP_DELTA + frac / u32_MAX)) (frac mod u32_MAX)
    (micros (wrap 64 (wrap 64 (t4 - t1) - wrap 64 (t3 - t2))))
    (micros (Z.abs (offset_units t1 t2 t3 t4)) * Z.sgn (offset_units t1 t2 t3 t4))
    (NtpPacket.stratum p) (NtpPacket.precision p)).
Proof.
  intros (_ & _ & _ & _ & _ & _ & _ & _ & _ & _ & Ht) sec frac t1 t2 t3.
  unfold reply_result, mbind, outcome_bind.
  rewrite roundtrip_calculate_micros, offset_calculate_micros. fold t1 t2 t3.
  unfold NtpTimestamp.from_u64, mbind, outcome_bind.
  rewrite high_word, low_word by done.
  change (t3 / 2 ^ 32) with sec. change (t3 mod 2 ^ 32) with frac.
  assert (Hsec : 0 <= sec < 2 ^ 32)
    by (split; [apply Z.div_pos; lia|apply Z.div_lt_upper_bound; lia]).
  pose proof (Z.mod_pos_bound t3 (2 ^ 32) ltac:(lia)) as Hfrac.
  change (t3 mod 2 ^ 32) with frac in Hfrac.
  assert (Hf : 0 <= frac / u32_MAX <= 1) by (unfold u32_MAX; split; [apply Z.div_pos; lia|]; apply Z.div_le_upper_bound; lia).
  unfold NtpPacket.NTP_TIMESTAMP_DELTA in *.
  assert (Hm : to_signed 64 frac = frac) by (apply to_signed_id; lia).
  assert (Hwf : wrap 32 frac = frac) by (apply wrap_small; lia).
  destruct (Z.ltb_spec sec 2208988800) as [Hlt|Hge].
  - rewrite andb_true_r, checked_overflow by lia. destruct overflow_checks eqn:Ho; [done|].
    cbn -[wrap to_signed checked]. rewrite to_signed_wrap, Hm, Hwf by lia.
    unfold NtpResult.new, mbind, outcome_bind.
    rewrite checked_release by done. unfold wrap. by rewrite Zplus_mod_idemp_l.
  - rewrite andb_false_r, checked_ok by lia. cbn -[wrap to_signed checked].
    rewrite (to_signed_id (sec - 2208988800)), Hm, Hwf by lia.
    unfold NtpResult.new, mbind, outcome_bind.
    rewrite (wrap_small 32 (sec - 2208988800)) by lia.
    rewrite checked_ok by lia. by rewrite (wrap_small 32) by lia.
Qed.

Lemma reply_result_never_errs `{Profile} p t4 e : NtpPacket.wf p -> reply_result p t4 <> Err e.
Proof. intros Hp. rewrite reply_result_eq by done. by case_match. Qed.

(** C14: the validation of a reply: it is refused exactly when it does not carry
    the request's timestamp, is not of a server mode, is of another version or
    has stratum 0, with the error of the first check that fails; the leap
    indicator, in particular the alarm value 3, is never a reason. *)
Theorem process_response_validates `{Profile} req p t4 (Hp : NtpPacket.wf p) :
  process_response req (RawNtpPacket.from_packet p) t4 =
    (match reply_error req p with Some e => Err e | None => reply_result p t4 end) /\
  (process_response req (RawNtpPacket.from_packet p) t4 <> Err IncorrectLeapIndicator).
Proof.
  rewrite process_response_cases, reply_packet_from by done. split; [done|].
  assert (Hr : reply_error req p <> Some IncorrectLeapIndicator)
    by (unfold reply_error; repeat case_match; done).
  destruct (reply_error req p); [congruence|].
  by apply reply_result_never_errs.
Qed.

(** The alarm value of the leap indicator and a wrong version. *)
Lemma process_response_validates_witness :
  process_response (H := dev_profile) (SendRequestResult.mk 16429131440647569408 0x23)
    (RawNtpPacket.from_packet sample_reply) 16429131440647569600 =
    reply_result (H := dev_profile) sample_reply 16429131440647569600 /\
  process_response (H := dev_profile) (SendRequestResult.mk 16429131440647569408 0x23)
    (RawNtpPacket.from_packet sample_reply) 16429131440647569600 <> Err IncorrectLeapIndicator.
Proof.
  apply (process_response_validates (H := dev_profile)
    (SendRequestResult.mk 16429131440647569408 0x23) sample_reply 16429131440647569600). concrete.
Defined.

Lemma to_signed_cong z : exists k, to_signed 64 z = z - k * 2 ^ 64.
Proof.
  unfold to_signed, wrap. pose proof (Z.div_mod z (2 ^ 64) ltac:(lia)) as Hz.
  destruct (z mod 2 ^ 64 <? 2 ^ (64 - 1)); [exists (z / 2 ^ 64)|exists (z / 2 ^ 64 + 1)]; lia.
Qed.

Lemma wrap_cong z : exists k, wrap 64 z = z - k * 2 ^ 64.
Proof.
  exists (z / 2 ^ 64). unfold wrap. pose proof (Z.div_mod z (2 ^ 64) ltac:(lia)). lia.
Qed.

(** The offset in units of 2^-32 s is that of the two differences, up to 2^63. *)
Lemma offset_units_cong t1 t2 t3 t4 x :
  (exists k, t2 - t1 + (t3 - t4) = x - k * 2 ^ 64) ->
  exists k, offset_units t1 t2 t3 t4 = Z.quot (x - k * 2 ^ 64) 2 /\
    - 2 ^ 63 <= x - k * 2 ^ 64 < 2 ^ 63.
Proof.
  intros [k0 Hx]. unfold offset_units.
  destruct (wrap_cong (t2 - t1)) as [k1 H1], (wrap_cong (t3 - t4)) as [k2 H2].
  destruct (to_signed_cong (wrap 64 (t2 - t1))) as [k3 H3], (to_signed_cong (wrap 64 (t3 - t4))) as [k4 H4].
  set (s := to_signed 64 _ + to_signed 64 _) in *.
  pose proof (to_signed_range s) as Hr. destruct (to_signed_cong s) as [k5 H5].
  exists (k0 + k1 + k2 + k3 + k4 + k5).
  replace (x - _ * 2 ^ 64) with (to_signed 64 s); [done|]. subst s. lia.
Qed.

(** C15: the clock arithmetic of SNTP.  The server's clock is [o] ahead of the
    client's; the request leaves at [a] by the client's clock and travels for
    [d1], the server answers [p] later, the reply travels for [d2]; all in units
    of 2^-32 s, and the timestamps are their low 64 bits, so that the era may
    roll over in between.  The round trip is the time on the network to the
    microsecond (of less than 136 years).  The offset is right to half of it and
    a microsecond if the clocks are less than 34 years apart, the time on the
    network included; clocks that are farther apart, as that of a client that
    starts at 1970, give the offset less a multiple of 68 years ([2 ^ 63] units),
    the one that is nearest to zero. *)
Theorem sntp_clock `{Profile} a o d1 p d2
  (Hd : 0 <= d1 /\ 0 <= d2) (Hsmall : d1 + d2 < 2 ^ 64) :
  let t1 := wrap 64 a in
  let t2 := wrap 64 (a + d1 + o) in
  let t3 := wrap 64 (a + d1 + p + o) in
  let t4 := wrap 64 (a + d1 + p + d2) in
  exists roundtrip offset k,
    roundtrip_calculate (E := Error) t1 t2 t3 t4 Microseconds = Ok roundtrip /\
    offset_calculate (E := Error) t1 t2 t3 t4 Microseconds = Ok offset /\
    - 2 ^ 32 < roundtrip * 2 ^ 32 - (d1 + d2) * USEC_IN_SEC <= USEC_IN_SEC /\
    2 * Z.abs (offset * 2 ^ 32 - (o - k * 2 ^ 63) * USEC_IN_SEC) <=
      (d1 + d2 + 1) * USEC_IN_SEC + 2 * 2 ^ 32 /\
    - 2 ^ 63 <= 2 * (o - k * 2 ^ 63) + d1 - d2 < 2 ^ 63 /\
    (2 * Z.abs o + d1 + d2 < 2 ^ 63 -> k = 0).
Proof.
  intros t1 t2 t3 t4.
  assert (Hdelta : wrap 64 (wrap 64 (t4 - t1) - wrap 64 (t3 - t2)) = d1 + d2).
  { subst t1 t2 t3 t4. rewrite (wrap_sub (a + d1 + p + d2)), (wrap_sub (a + d1 + p + o)), wrap_sub.
    replace (a + d1 + p + d2 - a - (a + d1 + p + o - (a + d1 + o))) with (d1 + d2) by lia.
    apply wrap_small. lia. }
  destruct (offset_units_cong t1 t2 t3 t4 (2 * o + d1 - d2)) as (k & Htheta & Hk).
  { subst t1 t2 t3 t4. destruct (wrap_cong a) as [k1 ->], (wrap_cong (a + d1 + o)) as [k2 ->],
      (wrap_cong (a + d1 + p + o)) as [k3 ->], (wrap_cong (a + d1 + p + d2)) as [k4 ->].
    exists (k2 - k1 + k3 - k4). lia. }
  set (w := 2 * o + d1 - d2 - k * 2 ^ 64) in *. set (theta := Z.quot w 2) in *.
  pose proof (Z.quot_rem' w 2) as Hq. pose proof (Z.rem_bound_abs w 2 ltac:(lia)) as Hr. fold theta in Hq.
  exists (micros (d1 + d2)), (micros (Z.abs theta) * Z.sgn theta), k.
  split; [|split; [|split; [|split; [|split]]]].
  - rewrite roundtrip_calculate_micros. by rewrite Hdelta.
  - rewrite offset_calculate_micros. by rewrite Htheta.
  - pose proof (micros_bounds (d1 + d2) ltac:(lia)). lia.
  - pose proof (micros_bounds (Z.abs theta) ltac:(lia)) as Hmb. unfold USEC_IN_SEC in *.
    destruct (Z.lt_trichotomy theta 0) as [Hs|[Hs|Hs]].
    + rewrite Z.sgn_neg by done. lia.
    + rewrite Hs in *. change (micros (Z.abs 0)) with 0. lia.
    + rewrite Z.sgn_pos by done. lia.
  - lia.
  - lia.
Qed.

(** Across the end of an era: the clock of the client stands a second before it;
    and a client that starts at 1970, 54 years behind. *)
Lemma sntp_clock_witness :
  let a := 2 ^ 64 - 2 ^ 32 in
  (exists roundtrip offset,
    roundtrip_calculate (H := dev_profile) (E := Error) (wrap 64 a) (wrap 64 (a + 2 ^ 31 + 2 ^ 34))
      (wrap 64 (a + 2 ^ 31 + 2 ^ 30 + 2 ^ 34)) (wrap 64 (a + 2 ^ 31 + 2 ^ 30 + 2 ^ 32)) Microseconds =
      Ok roundtrip /\
    offset_calculate (H := dev_profile) (E := Error) (wrap 64 a) (wrap 64 (a + 2 ^ 31 + 2 ^ 34))
      (wrap 64 (a + 2 ^ 31 + 2 ^ 30 + 2 ^ 34)) (wrap 64 (a + 2 ^ 31 + 2 ^ 30 + 2 ^ 32)) Microseconds =
      Ok offset /\
    - 2 ^ 32 < roundtrip * 2 ^ 32 - (2 ^ 31 + 2 ^ 32) * USEC_IN_SEC <= USEC_IN_SEC /\
    2 * Z.abs (offset * 2 ^ 32 - 2 ^ 34 * USEC_IN_SEC) <=
      (2 ^ 31 + 2 ^ 32 + 1) * USEC_IN_SEC + 2 * 2 ^ 32) /\
  let seen := 2208988800 * 2 ^ 32 in
  exists offset, offset_calculate (H := dev_profile) (E := Error) (wrap 64 seen)
      (wrap 64 (seen + 0 + 1700000000 * 2 ^ 32)) (wrap 64 (seen + 0 + 0 + 1700000000 * 2 ^ 32))
      (wrap 64 (seen + 0 + 0 + 0)) Microseconds = Ok offset /\
    2 * Z.abs (offset * 2 ^ 32 - (1700000000 * 2 ^ 32 - 2 ^ 63) * USEC_IN_SEC) <=
      USEC_IN_SEC + 2 * 2 ^ 32.
Proof.
  intros a. split.
  - destruct (sntp_clock (H := dev_profile) a (2 ^ 34) (2 ^ 31) (2 ^ 30) (2 ^ 32) ltac:(lia) ltac:(lia))
      as (r & o & k & H1 & H2 & H3 & H4 & _ & H5).
    rewrite H5, Z.mul_0_l, Z.sub_0_r in H4 by lia. exists r, o. exact (conj H1 (conj H2 (conj H3 H4))).
  - intros seen.
    destruct (sntp_clock (H := dev_profile) seen (1700000000 * 2 ^ 32) 0 0 0 ltac:(lia) ltac:(lia))
      as (r & o & k & _ & H2 & _ & H4 & H5 & _).
    assert (k = 1) as -> by lia. exists o. split; [exact H2|lia].
Defined.

(** What a valid reply gives, for every time stamp: the seconds since 1970
    of the server's clock (plus one when the fraction is all ones), the rest of
    the fraction, round trip and offset in microseconds, all without overflow,
    with one exception: a server whose timestamp is in the next NTP era, that is
    from February 2036 on, underflows the subtraction of 70 years, which panics
    where overflows are checked and gives the right seconds modulo 2^32 where
    they wrap. *)
Theorem process_response_result `{Profile} req p t4 (Hp : NtpPacket.wf p)
  (Hv : reply_error req p = None) :
  let sec := NtpPacket.tx_timestamp p / 2 ^ 32 in
  let frac := NtpPacket.tx_timestamp p mod 2 ^ 32 in
  let t1 := NtpPacket.origin_timestamp p in
  let t2 := NtpPacket.recv_timestamp p in
  let t3 := NtpPacket.tx_timestamp p in
  process_response req (RawNtpPacket.from_packet p) t4 =
  if overflow_checks && (sec <? NtpPacket.NTP_TIMESTAMP_DELTA) then Panic POverflow
  else Ok (NtpResult.mk
    (wrap 32 (sec - NtpPacket.NTP_TIMESTAMP_DELTA + frac / u32_MAX)) (frac mod u32_MAX)
    (micros (wrap 64 (wrap 64 (t4 - t1) - wrap 64 (t3 - t2))))
    (micros (Z.abs (offset_units t1 t2 t3 t4)) * Z.sgn (offset_units t1 t2 t3 t4))
    (NtpPacket.stratum p) (NtpPacket.precision p)).
Proof.
  intros sec frac t1 t2 t3. rewrite process_response_cases, reply_packet_from, Hv by done.
  by apply reply_result_eq.
Qed.

(** A reply of 8 February 2036, a second into the new era. *)
Definition era1_reply : NtpPacket.t :=
  NtpPacket.mk 0x24 1 6 (-20) 0 10 0x47505300 0 18446744073709551000 4294967296 4294967297.

Lemma process_response_result_witness :
  process_response (H := dev_profile) (SendRequestResult.mk 18446744073709551000 0x23)
    (RawNtpPacket.from_packet era1_reply) 4294967300 = Panic POverflow /\
  process_response (H := release_profile) (SendRequestResult.mk 18446744073709551000 0x23)
    (RawNtpPacket.from_packet era1_reply) 4294967300 =
    Ok (NtpResult.mk 2085978497 1 1000000 500000 1 (-20)).
Proof.
  assert (Hp : NtpPacket.wf era1_reply) by concrete.
  split;
    refine (process_response_result (SendRequestResult.mk 18446744073709551000 0x23)
      era1_reply _ Hp eq_refl).
Defined.

(** The packet [new_packet] builds for a time stamp. *)
Definition request_packet (tx : Z) : NtpPacket.t := NtpPacket.mk 0x23 0 0 0 0 0 0 0 0 0 tx.

Section get_time_properties.
Context `{Profile} {W G U A Addr : Type} `{EqDecision Addr}
  `{!NtpTimestampGenerator W G} `{!NtpUdpSocket W U A Addr} `{!ToSocketAddrs A Addr}.
Context (dest : A) (socket : U) (context g1 : G) (w0 w1 : W) (tx : Z).
Context (Hinit : init context w0 = (g1, w1)).
Context (Htx : get_ntp_timestamp (E := Error) (W := W) g1 = Ok tx).

Lemma get_time_sends :
  sntp_send_request dest socket context w0 =
  match send_to socket (RawNtpPacket.from_packet (request_packet tx)) dest w1 with
  | (Ok size, w) =>
    (if size =? 48 then Ok (SendRequestResult.mk tx 0x23) else Err Network, w)
  | (Err _, w) => (Err Network, w)
  | (Panic p, w) => (Panic p, w)
  | (OutOfFuel, w) => (OutOfFuel, w)
  end.
Proof.
  unfold sntp_send_request, new_packet, send_request, mbind, M_bind, lift.
  rewrite Hinit, Htx. cbn -[RawNtpPacket.from_packet zlen].
  change (NtpPacket.mk _ _ _ _ _ _ _ _ _ _ tx) with (request_packet tx).
  destruct (send_to socket _ dest w1) as [[size| | |] w]; try done.
  change (zlen (RawNtpPacket.from_packet (request_packet tx))) with 48.
  by destruct (size =? 48).
Qed.

(** The exchange, once the request went out. *)
Lemma get_time_exchange w2 datagram src w3 g2 w4 t4 addrs :
  send_to socket (RawNtpPacket.from_packet (request_packet tx)) dest w1 = (Ok 48, w2) ->
  recv_from socket 48 w2 = (Ok (datagram, src), w3) ->
  init context w3 = (g2, w4) ->
  get_ntp_timestamp (E := Error) (W := W) g2 = Ok t4 ->
  to_socket_addrs dest = Some addrs ->
  get_time dest socket context w0 =
  (if bool_decide (src ∈ addrs) then
     if zlen datagram =? 48 then
       match reply_error (SendRequestResult.mk tx 0x23) (reply_packet datagram) with
       | Some e => Err e
       | None => reply_result (reply_packet datagram) t4
       end
     else Err (IncorrectPayload1 (zlen datagram) 48)
   else Err ResponseAddressMismatch, w4).
Proof.
  intros Hs Hr Hi Ht Ha. unfold get_time, mbind, M_bind. rewrite get_time_sends, Hs. cbn [Z.eqb Pos.eqb].
  unfold sntp_process_response, mbind, M_bind, lift.
  change RawNtpPacket.size with 48. rewrite Hr. cbn [fst snd]. rewrite Hi, Ht, Ha.
  assert (Hin : existsb (fun addr => bool_decide (addr = src)) addrs = bool_decide (src ∈ addrs)).
  { clear -addrs. induction addrs as [|a l IH]; [done|]. cbn [existsb].
    rewrite IH, <- bool_decide_or. apply bool_decide_ext. rewrite elem_of_cons. intuition congruence. }
  rewrite Hin. destruct (bool_decide (src ∈ addrs)); [|done]. cbn [negb].
  destruct (Z.eqb_spec (zlen datagram) 48) as [Hl|Hl]; [|done]. cbn [negb].
  assert (Hz : (48 - length datagram)%nat = 0%nat) by (unfold zlen in Hl; lia).
  rewrite Hz. cbn [replicate]. rewrite app_nil_r.
  by rewrite process_response_cases.
Qed.

(** C16: the whole exchange.  A failing or a short send is an error of the
    network.  Once the request went out, the result is the validated reply only
    when the datagram came from an address of the server (a spoofed source is
    refused before its contents are read), is a whole packet, and passes the
    checks against the time stamp that was sent. *)
Theorem get_time_checks sent w2
  (Hs : send_to socket (RawNtpPacket.from_packet (request_packet tx)) dest w1 = (sent, w2)) :
  (sent <> Ok 48 -> is_panic sent = false -> sent <> OutOfFuel ->
   get_time dest socket context w0 = (Err Network, w2)) /\
  (forall datagram src w3 g2 w4 t4 addrs,
    sent = Ok 48 -> recv_from socket 48 w2 = (Ok (datagram, src), w3) ->
    init context w3 = (g2, w4) -> get_ntp_timestamp (E := Error) (W := W) g2 = Ok t4 ->
    to_socket_addrs dest = Some addrs ->
    get_time dest socket context w0 =
    (if bool_decide (src ∈ addrs) then
       if zlen datagram =? 48 then
         match reply_error (SendRequestResult.mk tx 0x23) (reply_packet datagram) with
         | Some e => Err e
         | None => reply_result (reply_packet datagram) t4
         end
       else Err (IncorrectPayload1 (zlen datagram) 48)
     else Err ResponseAddressMismatch, w4)).
Proof.
  split.
  - intros Hn Hp Hf. unfold get_time, mbind at 1, M_bind at 1. rewrite get_time_sends, Hs.
    destruct sent as [size|e|p|]; try done. destruct (Z.eqb_spec size 48); [by subst|done].
  - intros datagram src w3 g2 w4 t4 addrs ->. by apply get_time_exchange.
Qed.
End get_time_properties.

(** A world for the witness: the clock, and the address replies come from. *)
Module SampleWorld.
Definition W : Type := Z * Z.

#[global] Instance generator : NtpTimestampGenerator W Z := {
  init := fun _ w => (fst w, (fst w + 1, snd w));
  timestamp_sec := fun g => g;
  timestamp_subsec_micros := fun _ => 500000;
}.

(** The time stamp of 14 November 2023 and a half second. *)
Definition tx : Z := 3908988800 * 2 ^ 32 + 2147483647.

Definition reply : NtpPacket.t :=
  NtpPacket.mk 0x24 1 6 (-20) 0 10 0x47505300 0 tx (tx + 2 ^ 32) (tx + 2 ^ 32 + 2 ^ 30).

#[global] Instance udp : NtpUdpSocket W unit (list Z) Z := {
  send_to := fun _ buf _ w => (Ok (zlen buf), w);
  recv_from := fun _ _ w => (Ok (RawNtpPacket.from_packet reply, snd w), w);
}.

#[global] Instance addrs : ToSocketAddrs (list Z) Z := { to_socket_addrs := fun a => Some a }.
End SampleWorld.

(** The answer of the server 7, and the same datagram from the host 9. *)
Lemma get_time_checks_witness :
  get_time (H := dev_profile) (W := SampleWorld.W) (G := Z) (Addr := Z) [7; 8] tt 0 (1700000000, 7) =
    (Ok (NtpResult.mk 1700000001 3221225471 750000 625000 1 (-20)), (1700000002, 7)) /\
  get_time (H := dev_profile) (W := SampleWorld.W) (G := Z) (Addr := Z) [7; 8] tt 0 (1700000000, 9) =
    (Err ResponseAddressMismatch, (1700000002, 9)).
Proof.
  split.
  - refine (proj2 (get_time_checks (H := dev_profile) (W := SampleWorld.W) (G := Z) (Addr := Z)
      [7; 8] tt 0 1700000000 (1700000000, 7) (1700000001, 7) SampleWorld.tx eq_refl eq_refl (Ok 48)
      (1700000001, 7) eq_refl) _ 7 (1700000001, 7) 1700000001 (1700000002, 7) _ [7; 8]
      eq_refl eq_refl eq_refl eq_refl eq_refl).
  - refine (proj2 (get_time_checks (H := dev_profile) (W := SampleWorld.W) (G := Z) (Addr := Z)
      [7; 8] tt 0 1700000000 (1700000000, 9) (1700000001, 9) SampleWorld.tx eq_refl eq_refl (Ok 48)
      (1700000001, 9) eq_refl) _ 9 (1700000001, 9) 1700000001 (1700000002, 9) _ [7; 8]
      eq_refl eq_refl eq_refl eq_refl eq_refl).
Defined.

(** A time goes through the wire format and back: the client's time stamp
    for [s] seconds and [m] microseconds after 1970, read as a time stamp and
    scaled to microseconds, is the same time to the microsecond, as long as the
    NTP era lasts; the fraction never carries into the seconds. *)
Theorem timestamp_roundtrip `{Profile} {W G E} `{!NtpTimestampGenerator W G} (g : G)
  (Hs : 0 <= timestamp_sec (W := W) g < 2 ^ 32 - NtpPacket.NTP_TIMESTAMP_DELTA)
  (Hm : 0 <= timestamp_subsec_micros (W := W) g < USEC_IN_SEC) :
  exists ts frac,
    get_ntp_timestamp (E := E) (W := W) g = Ok ts /\ 0 <= ts < 2 ^ 64 /\
    NtpTimestamp.from_u64 (E := E) ts = Ok (NtpTimestamp.mk (timestamp_sec (W := W) g) frac) /\
    0 <= frac < u32_MAX /\
    timestamp_subsec_micros (W := W) g - 1 <= fraction_to_microseconds frac
      <= timestamp_subsec_micros (W := W) g.
Proof.
  unfold get_ntp_timestamp.
  set (s := timestamp_sec g) in *. set (m := timestamp_subsec_micros g) in *.
  unfold NtpPacket.NTP_TIMESTAMP_DELTA, USEC_IN_SEC, u32_MAX in *.
  set (frac := m * 4294967295 / 1000000).
  assert (Hf : frac * 1000000 <= m * 4294967295 < frac * 1000000 + 1000000)
    by (unfold frac; Z.div_mod_to_equations; lia).
  exists ((s + 2208988800) * 2 ^ 32 + frac), frac.
  unfold mbind, outcome_bind. rewrite !checked_ok by lia.
  rewrite Z.shiftl_mul_pow2, wrap_small by lia. fold frac. rewrite checked_ok by lia.
  split; [done|]. split; [lia|].
  split; [|split; [lia|]].
  - unfold NtpTimestamp.from_u64. rewrite high_word, low_word by lia.
    rewrite Z.div_add_l, Z.add_comm, Z.mod_add, (Z.div_small frac), Z.mod_small by lia.
    unfold mbind, outcome_bind, NtpPacket.NTP_TIMESTAMP_DELTA. rewrite checked_ok by lia.
    rewrite !to_signed_id by lia. do 2 f_equal. lia.
  - unfold fraction_to_microseconds, USEC_IN_SEC, u32_MAX.
    assert (m - 1 <= frac * 1000000 / 4294967295 <= m)
      by (split; [apply Z.div_le_lower_bound; lia|apply Z.div_le_upper_bound; lia]).
    rewrite wrap_small; [done|]. split; [apply Z.div_pos; lia|lia].
Qed.

Lemma timestamp_roundtrip_witness :
  exists ts frac,
    get_ntp_timestamp (H := dev_profile) (E := Error) (W := SampleWorld.W) 1700000000 = Ok ts /\
    0 <= ts < 2 ^ 64 /\
    NtpTimestamp.from_u64 (H := dev_profile) (E := Error) ts = Ok (NtpTimestamp.mk 1700000000 frac) /\
    0 <= frac < u32_MAX /\ 500000 - 1 <= fraction_to_microseconds frac <= 500000.
Proof.
  refine (timestamp_roundtrip (H := dev_profile) (W := SampleWorld.W) (E := Error) 1700000000 _ _);
    concrete.
Defined.
