(* ===== verification/F32.v ===== *)
(** [f32]: the arithmetic of the program's floating-point numbers, and
    [map_cellv_soc] of
    stm32f407_controller/src/bin/tasks/can_processors_ze50.rs.

    A number is its pattern of 32 bits, a [Z].  The operations are those of
    IEEE 754, binary32, with rounding to nearest even; the pattern of a NaN that
    an operation makes is not specified by Rust: [NanPattern] is any of them. *)
From Stdlib Require Import SpecFloat.
From S2P Require Import Prelude.

Abbreviation prec := 24.
Abbreviation emax := 128.

(** ** Patterns and values *)

Definition decode (b : Z) : spec_float :=
  let s := 2 ^ 31 <=? b in
  let e := b / 2 ^ 23 mod 2 ^ 8 in
  let m := b mod 2 ^ 23 in
  if e =? 255 then if m =? 0 then S754_infinity s else S754_nan
  else if e =? 0 then
    match m with Zpos p => S754_finite s p (-149) | _ => S754_zero s end
  else
    match m + 2 ^ 23 with Zpos p => S754_finite s p (e - 150) | _ => S754_nan end.

(** The pattern of a NaN: all ones for an exponent, and a payload. *)
Class NanPattern : Type := {
  nan_bits : Z;
  nan_range : 0 <= nan_bits < 2 ^ 32;
  nan_is_nan : decode nan_bits = S754_nan;
}.

(** The quiet NaN of the ARM hardware. *)
#[refine, export] Instance default_nan : NanPattern := {| nan_bits := 0x7FC00000 |}.
Proof.
  - split; [discriminate|reflexivity].
  - reflexivity.
Defined.

Definition sign_bit (s : bool) : Z := if s then 2 ^ 31 else 0.

Section f32.
Context `{NanPattern}.

Definition encode (x : spec_float) : Z :=
  match x with
  | S754_zero s => sign_bit s
  | S754_infinity s => sign_bit s + 255 * 2 ^ 23
  | S754_nan => nan_bits
  | S754_finite s m e =>
    sign_bit s + (if Z.pos m <? 2 ^ 23 then Z.pos m else (e + 150) * 2 ^ 23 + (Z.pos m - 2 ^ 23))
  end.

(** ** Arithmetic *)

Definition f32_add (x y : Z) : Z := encode (SFadd prec emax (decode x) (decode y)).
Definition f32_sub (x y : Z) : Z := encode (SFsub prec emax (decode x) (decode y)).
Definition f32_mul (x y : Z) : Z := encode (SFmul prec emax (decode x) (decode y)).
Definition f32_div (x y : Z) : Z := encode (SFdiv prec emax (decode x) (decode y)).
Definition f32_le (x y : Z) : bool := SFleb (decode x) (decode y).

(** [n as f32] of an integer. *)
Definition f32_of_Z (n : Z) : Z := encode (binary_normalize prec emax n 0 false).

(** A literal [m / d], rounded once. *)
Definition f32_lit (m d : Z) : Z :=
  encode (SFdiv prec emax (binary_normalize prec emax m 0 false) (binary_normalize prec emax d 0 false)).

(** The integer part, towards zero. *)
Definition trunc (x : spec_float) : Z :=
  match x with
  | S754_finite s m e => (if s then Z.opp else fun z => z) (Z.shiftl (Z.pos m) e)
  | _ => 0
  end.

(** [x as u16]: saturating, and 0 for a NaN. *)
Definition as_u16 (x : Z) : Z :=
  match decode x with
  | S754_infinity s => if s then 0 else 0xffff
  | x => Z.max 0 (Z.min 0xffff (trunc x))
  end.

(** ** The state of charge from a cell's voltage, with the feature v65 *)
Definition map_cellv_soc (value : Z) : Z :=
  let CELL100 := f32_lit 4175 1 in
  let CELL0 := f32_lit 3500 1 in
  let old_range := f32_sub CELL100 CELL0 in
  let new_range := f32_sub (f32_lit 100 1) (f32_lit 1 10) in
  f32_add (f32_div (f32_mul (f32_sub value CELL0) new_range) old_range) (f32_lit 1 10).
End f32.

(** [f32::to_be_bytes] and [f32::from_be_bytes]. *)
Definition f32_to_be_bytes (x : Z) : list Z := be_bytes 4 x.
Definition f32_from_be_bytes (bs : list Z) : Z := be_value bs.

(** ** The patterns are the numbers *)

(** ** Patterns and values agree *)

Section patterns.
Context `{NanPattern}.

Lemma pattern_fields b :
  0 <= b < 2 ^ 32 ->
  b = sign_bit (2 ^ 31 <=? b) + b / 2 ^ 23 mod 2 ^ 8 * 2 ^ 23 + b mod 2 ^ 23 /\
  0 <= b / 2 ^ 23 mod 2 ^ 8 <= 255 /\ 0 <= b mod 2 ^ 23 < 2 ^ 23.
Proof.
  intros Hb. unfold sign_bit. destruct (Z.leb_spec (2 ^ 31) b); Z.div_mod_to_equations; lia.
Qed.

(** Every pattern but those of NaNs stands for one number. *)
Lemma encode_decode b : 0 <= b < 2 ^ 32 -> decode b <> S754_nan -> encode (decode b) = b.
Proof.
  intros Hb. destruct (pattern_fields b Hb) as (He & Hx & Hm). unfold decode.
  set (s := 2 ^ 31 <=? b) in *. set (e := b / 2 ^ 23 mod 2 ^ 8) in *.
  set (m := b mod 2 ^ 23) in *. clearbody s e m.
  destruct (Z.eqb_spec e 255) as [->|He1].
  { destruct (Z.eqb_spec m 0) as [->|]; [|done]. cbn [encode]. lia. }
  destruct (Z.eqb_spec e 0) as [->|He2]; intros _.
  - destruct m as [|p|p]; cbn [encode]; [lia| |lia].
    rewrite (proj2 (Z.ltb_lt (Z.pos p) (2 ^ 23))) by lia. lia.
  - destruct (m + 2 ^ 23) as [|p|p] eqn:Hp; [lia| |lia]. cbn [encode].
    rewrite (proj2 (Z.ltb_ge (Z.pos p) (2 ^ 23))) by lia. lia.
Qed.

Lemma f32_bytes_roundtrip x : 0 <= x < 2 ^ 32 -> f32_from_be_bytes (f32_to_be_bytes x) = x.
Proof. intros Hx. apply (be_value_bytes_small 4). lia. Qed.

Lemma as_u16_range x : 0 <= as_u16 x < 2 ^ 16.
Proof. unfold as_u16. destruct (decode x) as [s|[]| |s m e]; cbn [trunc]; lia. Qed.
End patterns.

(** ** The state of charge *)

(** The state of charge of a cell at [v] mV, and how far it is from the line
    through 0.1 at 3500 mV and 100 at 4175 mV, compared with 1/10000. *)
Definition cell_soc (v : Z) : Z := map_cellv_soc (f32_of_Z v).

Definition near_line (v : Z) : bool :=
  match decode (cell_soc v) with
  | S754_finite negative m e =>
    (e <=? 0) && (10000 * Z.abs ((if negative then Z.neg m else Z.pos m) * 6750 - 2 ^ (- e) * (675 + (v - 3500) * 999)) <=? 2 ^ (- e) * 6750)
  | _ => false
  end.

Fixpoint from_to (n : nat) (v : Z) (f : Z -> bool) : bool :=
  match n with O => true | S n => f v && from_to n (v + 1) f end.

Lemma from_to_spec f n : forall v w, from_to n v f = true -> v <= w < v + Z.of_nat n -> f w = true.
Proof.
  induction n as [|n IH]; intros v w Hf Hw; [lia|]. cbn in Hf. apply andb_true_iff in Hf as [H1 H2].
  destruct (Z.eq_dec w v) as [->|Hne]; [done|]. apply (IH (v + 1)); [done|lia].
Qed.

Lemma soc_steps : from_to 676 3500 (fun v =>
  f32_le (f32_lit 1 10) (cell_soc v) && f32_le (cell_soc v) (f32_lit 100 1) && near_line v &&
  negb (f32_le (cell_soc (v + 1)) (cell_soc v))) = true.
Proof. vm_compute. reflexivity. Qed.

(** The ends of the range, and the voltages next to them. *)
Lemma soc_ends :
  (cell_soc 3500 =? f32_lit 1 10) && (cell_soc 4175 =? f32_lit 100 1) &&
  negb (f32_le (f32_of_Z 0) (cell_soc 3499)) && negb (f32_le (cell_soc 4176) (f32_of_Z 100)) &&
  near_line 3499 && near_line 4176 = true.
Proof. vm_compute. reflexivity. Qed.

(** C37: The estimate of the state of charge.  Between 3500 and 4175 mV it goes
    from 0.1 to 100, grows with each millivolt, and is never further than
    0.0001 from the straight line; rounding does no harm.  Beyond these voltages
    it is not limited: at 3499 mV it is below 0 and at 4176 mV above 100, on the
    same straight line. *)
Theorem cellv_soc_linear v (Hv : 3500 <= v <= 4175) :
  f32_le (f32_lit 1 10) (cell_soc v) = true /\ f32_le (cell_soc v) (f32_lit 100 1) = true /\
  near_line v = true /\ f32_le (cell_soc (v + 1)) (cell_soc v) = false /\
  cell_soc 3500 = f32_lit 1 10 /\ cell_soc 4175 = f32_lit 100 1 /\
  f32_le (f32_of_Z 0) (cell_soc 3499) = false /\ f32_le (cell_soc 4176) (f32_of_Z 100) = false /\
  near_line 3499 = true /\ near_line 4176 = true.
Proof.
  pose proof (from_to_spec _ _ _ v soc_steps ltac:(lia)) as Hs. cbv beta in Hs.
  rewrite !andb_true_iff, negb_true_iff in Hs. destruct Hs as [[[H1 H2] H3] H4].
  pose proof soc_ends as He.
  rewrite !andb_true_iff, !Z.eqb_eq, !negb_true_iff in He. destruct He as [[[[[H5 H6] H7] H8] H9] H10].
  do 9 (split; [assumption|]). assumption.
Qed.

Lemma cellv_soc_linear_witness : cell_soc 3837 = 1112008556 /\ near_line 3837 = true.
Proof. split; [vm_compute; reflexivity|apply (cellv_soc_linear 3837); lia]. Defined.
