(* ===== verification/Contactor.v ===== *)
(** The contactor tasks: stm32f407_controller/src/bin/tasks/mod.rs.

    A task waits for a value of the signal CONTACTOR_STATE and drives two
    outputs, the precharge contactor (a pin) and the main contactor (a PWM
    channel).  One turn of its loop is a function from the value and the
    variable [active] to the commands it gives and the new [active]; [run] is
    the loop.  The hardware below interprets the commands, with a clock in
    milliseconds that only [Timer::after] moves. *)
From S2P Require Import Prelude.

Inductive command : Type :=
| PreSet (high : bool)
| PwmEnable
| PwmDisable
| PwmDuty (duty : Z)
| Wait (ms : Z).

(** The duty that holds the contactor, [(max / 4) * 3]. *)
Definition hold (max : Z) : Z := max / 4 * 3.

Definition contactor_main_task (max : Z) (active state : bool) : list command * bool :=
  match state, active with
  | false, true => ([PwmDisable], false)
  | true, false => ([PwmEnable; PwmDuty max; Wait 100; PwmDuty (hold max)], true)
  | true, true => ([], active)
  | _, _ => ([], active)
  end.

Definition contactor_both_task (max : Z) (active state : bool) : list command * bool :=
  match state, active with
  | false, true => ([PwmDisable; PreSet false], false)
  | true, false =>
    ([PreSet true; Wait 500; PwmEnable; PwmDuty max; Wait 100; PreSet false;
      PwmDuty (hold max)], true)
  | true, true => ([], active)
  | _, _ => ([], active)
  end.

(** The loop, over the values the task takes from the signal. *)
Fixpoint run (task : bool -> bool -> list command * bool) (active : bool) (states : list bool)
  : list command * bool :=
  match states with
  | [] => ([], active)
  | state :: states =>
    let '(cmds, active) := task active state in
    let '(cmds', active) := run task active states in
    (cmds ++ cmds', active)
  end.

(** [max = pwm.get_max_duty() - 1]; the channel starts disabled, the pin low. *)
Definition max_duty {E} `{Profile} (get_max_duty : Z) : outcome E Z := checked 16 (get_max_duty - 1).

(** ** The hardware *)

Module Hardware.
Record t : Type := mk {
  pre : bool;
  pre_since : Z;
  main : bool;
  duty : Z;
  clock : Z
}.

Definition off : t := mk false 0 false 0 0.

Definition apply (h : t) (c : command) : t :=
  match c with
  | PreSet high =>
    mk high (if high then clock h else pre_since h) (main h) (duty h) (clock h)
  | PwmEnable => mk (pre h) (pre_since h) true (duty h) (clock h)
  | PwmDisable => mk (pre h) (pre_since h) false (duty h) (clock h)
  | PwmDuty d => mk (pre h) (pre_since h) (main h) d (clock h)
  | Wait ms => mk (pre h) (pre_since h) (main h) (duty h) (clock h + ms)
  end.

Definition exec (h : t) (cmds : list command) : t := fold_left apply cmds h.
End Hardware.
Import Hardware.

(** [P] holds of every state and the command given in it. *)
Fixpoint always (P : Hardware.t -> command -> Prop) (h : Hardware.t) (cmds : list command) : Prop :=
  match cmds with
  | [] => True
  | c :: cmds => P h c /\ always P (apply h c) cmds
  end.

Lemma always_app P h l k : always P h l -> always P (exec h l) k -> always P h (l ++ k).
Proof.
  revert h. induction l as [|c l IH]; intros h; [done|]. intros [H1 H2] H3. split; auto.
Qed.

Lemma exec_app h l k : exec h (l ++ k) = exec (exec h l) k.
Proof. apply fold_left_app. Qed.

(** The state between two turns of the loop. *)
Definition resting (max : Z) (active : bool) (h : Hardware.t) : Prop :=
  main h = active /\ pre h = false /\ (active = true -> duty h = hold max).

(** What the tasks promise of every command: the main contactor is only
    switched on when the precharge contactor has been closed for 500 ms; the
    precharge contactor carries current for at most 600 ms; the duty is never
    above [max]. *)
Definition careful (max : Z) (h : Hardware.t) (c : command) : Prop :=
  (c = PwmEnable -> pre h = true /\ clock h - pre_since h = 500) /\
  (pre h = true -> clock h - pre_since h <= 600) /\
  (forall d, c = PwmDuty d -> 0 <= d <= max).

Lemma hold_range max : 0 <= max -> 0 <= hold max <= max /\ 3 * max - 9 <= 4 * hold max.
Proof. intros Hm. unfold hold. Z.div_mod_to_equations. lia. Qed.

(** One turn of the task with both contactors. *)
Lemma both_turn max active h state :
  0 <= max -> resting max active h ->
  let '(cmds, active') := contactor_both_task max active state in
  active' = state /\ resting max state (exec h cmds) /\ always (careful max) h cmds.
Proof.
  intros Hm (H1 & H2 & H3). pose proof (hold_range max Hm).
  destruct state, active; cbn; unfold resting, careful; cbn; rewrite ?H2;
    repeat split; try done; try lia; try (intros; simplify_eq; lia); auto.
Qed.

Lemma main_turn max active h state :
  0 <= max -> resting max active h ->
  let '(cmds, active') := contactor_main_task max active state in
  active' = state /\ resting max state (exec h cmds).
Proof.
  intros Hm (H1 & H2 & H3).
  destruct state, active; cbn; unfold resting; cbn; repeat split; auto; done.
Qed.

(** What the rest of the controller relies on: a task that leaves the main
    contactor in the state it was told. *)
Class Follows (max : Z) (task : bool -> bool -> list command * bool) : Prop :=
  follows : forall active h state, resting max active h ->
    let '(cmds, active') := task active state in
    active' = state /\ resting max state (exec h cmds).

Lemma main_follows max : 0 <= max -> Follows max (contactor_main_task max).
Proof. intros Hm active h state. by apply main_turn. Qed.

Lemma both_follows max : 0 <= max -> Follows max (contactor_both_task max).
Proof.
  intros Hm active h state Hr. pose proof (both_turn max active h state Hm Hr) as H.
  destruct (contactor_both_task max active state). by destruct H as (? & ? & _).
Qed.

(** ** Properties *)

(** The value the task took last, closed contactors being [true]. *)
Definition last_state (active : bool) (states : list bool) : bool := List.last states active.

Lemma last_state_cons active state states :
  last_state active (state :: states) = last_state state states.
Proof. apply last_cons_default. Qed.

(** C12: the contactors follow the signal.  After any sequence of values the
    main contactor is on exactly if the last value was [true], then held at
    three quarters of the duty, and the precharge contactor is off; along the
    way, the main contactor is never switched on unless precharge has run for
    500 ms, precharge never runs for more than 600 ms, and the duty stays in
    its range. *)
Theorem contactor_both_sequence max states (Hm : 0 <= max) :
  let '(cmds, active) := run (contactor_both_task max) false states in
  let h := exec off cmds in
  active = last_state false states /\ main h = active /\ pre h = false /\
  (active = true -> duty h = hold max) /\ always (careful max) off cmds.
Proof.
  assert (Hg : forall active h, resting max active h ->
    let '(cmds, active') := run (contactor_both_task max) active states in
    active' = last_state active states /\ resting max active' (exec h cmds) /\
    always (careful max) h cmds).
  { induction states as [|s states IH]; intros active h Hr; [done|]. cbn [run].
    pose proof (both_turn max active h s Hm Hr) as Ht.
    destruct (contactor_both_task max active s) as [cmds a1]. destruct Ht as (-> & Hr1 & Ha1).
    specialize (IH s (exec h cmds) Hr1).
    destruct (run _ s states) as [cmds' a2]. destruct IH as (-> & Hr2 & Ha2).
    rewrite exec_app, last_state_cons. auto using always_app. }
  specialize (Hg false off ltac:(done)).
  destruct (run _ false states) as [cmds a]. destruct Hg as (-> & (H1 & H2 & H3) & H4). auto.
Qed.

(** Closed, held, opened and closed again, with the 840 steps of a 1 kHz channel. *)
Lemma contactor_both_sequence_witness :
  let '(cmds, active) := run (contactor_both_task 839) false [true; true; false; true] in
  let h := exec off cmds in
  active = true /\ main h = true /\ pre h = false /\ duty h = 627 /\ always (careful 839) off cmds.
Proof.
  pose proof (contactor_both_sequence 839 [true; true; false; true] ltac:(lia)) as H.
  destruct H as (H1 & H2 & H3 & H4 & H5).
  exact (conj H1 (conj H2 (conj H3 (conj (H4 H1) H5)))).
Defined.
