(* ===== verification/Inverter.v ===== *)
(** The inverter tasks: stm32f407_controller/src/bin/tasks/can_processors_solax.rs
    (Solax and FoxESS), can_processors_pylontech.rs (PylonTech, BYD, GoodWe) and
    can_processors_pylontech_forceh2.rs (Force H2).

    A task is a loop; [Solax.turn] and the others are one turn of it, from the
    event it waits for, on the task's variables and the shared statics.  The
    protocol crates and [bms_standard] are not part of the repository: they are
    parameters.  A turn reads the clock once, [now] in ticks. *)
From S2P Require Import Prelude.

Inductive CanId : Type := Standard (id : Z) | Extended (id : Z).

(** [frame.id()] of the CAN driver. *)
Class CanFrame (Frame : Type) : Type := frame_id : Frame -> CanId.

(** The errors of the protocol crates that the tasks tell apart. *)
Inductive InverterError (X : Type) : Type :=
| InvalidFrameEncode (id : Z)
| BadId (id : Z)
| TimeStamp (time : list Z)
| UnwantedFrame
| OtherError (x : X).
Arguments InvalidFrameEncode {X}.
Arguments BadId {X}.
Arguments TimeStamp {X}.
Arguments UnwantedFrame {X}.
Arguments OtherError {X}.

Inductive Fault : Type := InvFault | BmsFault | NoFault.

Definition LAST_READING_TIMEOUT_SECS : Z := 10.

(** The statics the tasks share.  A signal holds the last value given to it
    until it is taken. *)
Module Statics.
Record t {Frame Bms : Type} : Type := mk {
  last_bms_message : option Z;
  bms : Bms;
  contactor_state : option bool;
  send_mqtt : option bool;
  inverter_tx : list Frame;
  fault : Fault
}.
Arguments t Frame Bms : clear implicits.
Arguments mk {Frame Bms}.

Section statics.
Context {Frame Bms : Type}.

Definition signal_contactor (b : bool) (s : t Frame Bms) : t Frame Bms :=
  mk (last_bms_message s) (bms s) (Some b) (send_mqtt s) (inverter_tx s) (fault s).
Definition signal_mqtt (b : bool) (s : t Frame Bms) : t Frame Bms :=
  mk (last_bms_message s) (bms s) (contactor_state s) (Some b) (inverter_tx s) (fault s).
Definition send (frames : list Frame) (s : t Frame Bms) : t Frame Bms :=
  mk (last_bms_message s) (bms s) (contactor_state s) (send_mqtt s) (inverter_tx s ++ frames)
    (fault s).
Definition set_fault (f : Fault) (s : t Frame Bms) : t Frame Bms :=
  mk (last_bms_message s) (bms s) (contactor_state s) (send_mqtt s) (inverter_tx s) f.
End statics.
End Statics.
Import Statics.

Section timeout.
Context (TICK_HZ : Z).

(** [time.elapsed().as_secs() > LAST_READING_TIMEOUT_SECS] *)
Definition timed_out (now time : Z) : bool :=
  (now - time) / TICK_HZ >? LAST_READING_TIMEOUT_SECS.

(** The BMS was heard of within the last eleven seconds. *)
Definition fresh {Frame Bms} (now : Z) (s : Statics.t Frame Bms) : Prop :=
  exists time, last_bms_message s = Some time /\ now - time < 11 * TICK_HZ.

Lemma timed_out_false now time :
  0 < TICK_HZ -> timed_out now time = false <-> now - time < 11 * TICK_HZ.
Proof.
  intros Hz. unfold timed_out, LAST_READING_TIMEOUT_SECS.
  rewrite Z.gtb_ltb, Z.ltb_ge. split; intros Hd.
  - pose proof (Z.mul_div_le (now - time) TICK_HZ Hz).
    pose proof (Z.mod_pos_bound (now - time) TICK_HZ Hz).
    pose proof (Z.div_mod (now - time) TICK_HZ ltac:(lia)). nia.
  - assert ((now - time) / TICK_HZ < 11); [|lia]. apply Z.div_lt_upper_bound; lia.
Qed.
End timeout.

(** A statement under a [cfg]. *)
Definition when {S} (b : bool) (f : S -> S) (s : S) : S := if b then f s else s.

Module Solax.
Section solax.
Context {Frame Bms Inv X : Type} `{CanFrame Frame}.
Context (TICK_HZ : Z) (mqtt tesla_m3 : bool).
(** [inverter.parser(frame, &bms, true)], which may change the inverter. *)
Context (parser : Inv -> Frame -> Bms -> bool -> (list Frame + InverterError X) * Inv).

Record t : Type := mk {
  inverter : Inv;
  initalised : bool;
  statics : Statics.t Frame Bms
}.

(** The contactor is the vehicle's own business with a Tesla battery. *)
Definition signal (b : bool) (s : Statics.t Frame Bms) : Statics.t Frame Bms :=
  when (negb tesla_m3) (signal_contactor b) s.

(** The verdict on a response: are the communications valid?  [None] is
    [continue]. *)
Definition verdict (response : list Frame + InverterError X) : option bool :=
  match response with
  | inl _ => Some true
  | inr (InvalidFrameEncode _) => Some false
  | inr (BadId _) => Some false
  | inr (TimeStamp _) => None
  | inr UnwantedFrame => None
  | inr (OtherError _) => Some true
  end.

Definition turn (now : Z) (frame : Frame) (self : t) : t :=
  let s := statics self in
  let wanted := match frame_id frame with Extended id => id =? 0x1871 | Standard _ => true end in
  if negb wanted then self
  else
    match last_bms_message s with
    | None => mk (inverter self) (initalised self) (signal false s)
    | Some time =>
      if timed_out TICK_HZ now time then mk (inverter self) (initalised self) (signal false s)
      else
        let '(response, inverter') := parser (inverter self) frame (bms s) true in
        let s :=
          match response with
          | inl frames => when mqtt (signal_mqtt true) (send frames s)
          | inr _ => s
          end in
        match verdict response with
        | None => mk inverter' (initalised self) s
        | Some inverter_comms_valid =>
          let s :=
            if initalised self then s
            else set_fault (if inverter_comms_valid then NoFault else InvFault) s in
          let s := signal (inverter_comms_valid && initalised self) s in
          mk inverter' inverter_comms_valid s
        end
    end.
End solax.
Arguments t Frame Bms Inv : clear implicits.
Arguments mk {Frame Bms Inv}.
End Solax.

(** PylonTech, BYD and GoodWe: every second the task sends, unasked. *)
Module Pylontech.
Section pylontech.
Context {Frame Bms : Type} (TICK_HZ : Z) (mqtt : bool) (valid : Bms -> bool).
(** [Inverter::iter::<Frame>(bms)] *)
Context (iter : Bms -> list Frame).

Definition turn (now : Z) (s : Statics.t Frame Bms) : Statics.t Frame Bms :=
  let inverter_comms_valid := false in
  let late :=
    match last_bms_message s with Some time => timed_out TICK_HZ now time | None => false end in
  if late then signal_contactor inverter_comms_valid s
  else if negb (valid (bms s)) then s
  else when mqtt (signal_mqtt true) (signal_contactor inverter_comms_valid (send (iter (bms s)) s)).
End pylontech.
End Pylontech.

Module ForceH2.
Section forceh2.
Context {Frame Bms Inv X : Type} `{CanFrame Frame}.
Context (TICK_HZ : Z) (mqtt : bool) (valid : Bms -> bool).
(** [inverter.parser(&bms, frame)] *)
Context (parser : Inv -> Bms -> Frame -> (list Frame + X) * Inv).

Definition turn (now : Z) (frame : Frame) (self : Inv * Statics.t Frame Bms)
  : Inv * Statics.t Frame Bms :=
  let '(inverter, s) := self in
  let wanted := match frame_id frame with Extended id => id =? 0x4210 | Standard _ => false end in
  if negb wanted then self
  else
    let late :=
      match last_bms_message s with Some time => timed_out TICK_HZ now time | None => false end in
    if late then (inverter, signal_contactor false s)
    else if negb (valid (bms s)) then self
    else
      let '(response, inverter') := parser inverter (bms s) frame in
      let '(inverter_comms_valid, s) :=
        match response with inl frames => (true, send frames s) | inr _ => (false, s) end in
      (inverter', when mqtt (signal_mqtt true) (signal_contactor inverter_comms_valid s)).
End forceh2.
End ForceH2.
