(* ===== verification/Controller.v ===== *)
(** The tasks together: the inverter task, the contactor task and the BMS task,
    which share the statics, as a step relation.

    A step is what one task does between two awaits: a turn of the inverter
    task, a turn of the contactor task on the value it takes from the signal,
    an update of the BMS data, or time going by.  The contactor task awaits
    inside its turn too, but what it does there touches no other task, and the
    signal keeps the last value for it. *)
From S2P Require Import Prelude.
From S2P Require Import Contactor.
From S2P Require Import Inverter.
Import Hardware.

(** What the step relation needs of an inverter task: its state holds the
    statics.  [W] is the task's state, [Ev] the event it waits for. *)
Class InverterTask (W Ev Frame Bms : Type) : Type := {
  task_starts : W -> Prop;
  task_turn : Z -> Ev -> W -> W;
  task_statics : W -> Statics.t Frame Bms;
  set_statics : Statics.t Frame Bms -> W -> W;
  statics_set : forall s w, task_statics (set_statics s w) = s;
}.

(** Taking the signal, and an update of the BMS data, with the time it was heard
    of or without. *)
Definition take_signal {Frame Bms} (s : Statics.t Frame Bms) : Statics.t Frame Bms :=
  Statics.mk (Statics.last_bms_message s) (Statics.bms s) None (Statics.send_mqtt s)
    (Statics.inverter_tx s) (Statics.fault s).
Definition update_bms {Frame Bms} (heard : bool) (now : Z) (b : Bms) (s : Statics.t Frame Bms)
  : Statics.t Frame Bms :=
  Statics.mk (if heard then Some now else Statics.last_bms_message s) b (Statics.contactor_state s) (Statics.send_mqtt s)
    (Statics.inverter_tx s) (Statics.fault s).

Section system.
Context {W Ev Frame Bms : Type} `{InverterTask W Ev Frame Bms}.
Context (max : Z) (contactor_task : bool -> bool -> list command * bool)
  `{!Follows max contactor_task}.

(** [log] is a history of the inverter task's events, the last first, each with
    the time and the task's state it met. *)
Record sys : Type := mk_sys {
  inverter : W;
  active : bool;
  hw : Hardware.t;
  now : Z;
  log : list (Z * Ev * W)
}.

Definition do_inverter (ev : Ev) (s : sys) : sys :=
  mk_sys (task_turn (now s) ev (inverter s)) (active s) (hw s) (now s)
    ((now s, ev, inverter s) :: log s).
Definition on_statics (f : Statics.t Frame Bms -> Statics.t Frame Bms) (w : W) : W :=
  set_statics (f (task_statics w)) w.
Definition do_contactor (b : bool) (s : sys) : sys :=
  let '(cmds, active) := contactor_task (active s) b in
  mk_sys (on_statics take_signal (inverter s)) active (exec (hw s) cmds) (now s) (log s).
Definition do_bms (heard : bool) (b : Bms) (s : sys) : sys :=
  mk_sys (on_statics (update_bms heard (now s) b) (inverter s)) (active s) (hw s) (now s) (log s).
Definition do_time (dt : Z) (s : sys) : sys :=
  mk_sys (inverter s) (active s) (hw s) (now s + dt) (log s).

Inductive step : sys -> sys -> Prop :=
| step_inverter s ev : step s (do_inverter ev s)
| step_contactor s b :
  Statics.contactor_state (task_statics (inverter s)) = Some b -> step s (do_contactor b s)
| step_bms s heard b : step s (do_bms heard b s)
| step_time s dt : 0 <= dt -> step s (do_time dt s).

(** The controller starts with open contactors and an empty signal. *)
Definition initial (s : sys) : Prop :=
  task_starts (inverter s) /\
  Statics.contactor_state (task_statics (inverter s)) = None /\ active s = false /\
  hw s = off /\ log s = [].

Inductive reachable : sys -> Prop :=
| reachable_initial s : initial s -> reachable s
| reachable_step s s' : reachable s -> step s s' -> reachable s'.

(** The state the contactors are in, or on their way to. *)
Definition target (s : sys) : bool :=
  match Statics.contactor_state (task_statics (inverter s)) with
  | Some b => b
  | None => active s
  end.

(** The contactor task is at rest between its turns, in every reachable state. *)
Lemma reachable_resting s : reachable s -> resting max (active s) (hw s).
Proof.
  induction 1 as [s (_ & _ & -> & -> & _)|s s' _ IH Hs]; [by repeat split|].
  destruct Hs as [s ev|s b Hb|s heard b|s dt _]; try done. unfold do_contactor.
  pose proof (follows (active s) (hw s) b IH) as Hf.
  destruct (contactor_task (active s) b). by destruct Hf as (-> & ?).
Qed.

(** Only the inverter task moves the target. *)
Lemma target_step s s' :
  reachable s -> step s s' ->
  target s' = target s /\ log s' = log s \/
  exists ev, s' = do_inverter ev s.
Proof.
  intros Hr Hs. revert Hr. destruct Hs as [s1 ev|s1 b Hb|s1 heard b|s1 dt _]; intros Hr;
    [by right; exists ev|left..]; [|by unfold target, do_bms, on_statics; cbn; rewrite statics_set|done].
  pose proof (follows (active s1) (hw s1) b (reachable_resting s1 Hr)) as Hf.
  unfold target, do_contactor, on_statics. rewrite Hb.
  destruct (contactor_task (active s1) b). cbn. rewrite statics_set. by destruct Hf.
Qed.
End system.
Arguments sys : clear implicits.
Arguments mk_sys {W Ev}.

(** ** Solax and FoxESS *)

Section solax.
Context {Frame Bms Inv X : Type} `{CanFrame Frame}.
Context (TICK_HZ : Z) (mqtt : bool).
Context (parser : Inv -> Frame -> Bms -> bool -> (list Frame + InverterError X) * Inv).

#[local] Instance solax_task : InverterTask (Solax.t Frame Bms Inv) Frame Frame Bms := {
  task_starts := fun w => Solax.initalised w = false;
  task_turn := Solax.turn TICK_HZ mqtt false parser;
  task_statics := Solax.statics;
  set_statics := fun s w => Solax.mk (Solax.inverter w) (Solax.initalised w) s;
  statics_set := fun s w => eq_refl;
}.

(** What a frame amounts to: nothing, a BMS that was silent for too long, or a
    response that is good or bad. *)
Inductive report : Type := Late | Judged (good : bool).

Definition observe (e : Z * Frame * Solax.t Frame Bms Inv) : option report :=
  let '(now, frame, w) := e in
  let s := Solax.statics w in
  if match frame_id frame with Extended id => id =? 0x1871 | Standard _ => true end then
    match Statics.last_bms_message s with
    | Some time =>
      if timed_out TICK_HZ now time then Some Late
      else Judged <$> Solax.verdict (parser (Solax.inverter w) frame (Statics.bms s) true).1
    | None => Some Late
    end
  else None.

Definition reports (l : list (Z * Frame * Solax.t Frame Bms Inv)) : list report :=
  omap observe l.

(** The judgements, without the silences. *)
Definition judgements (l : list report) : list bool :=
  omap (fun r => match r with Judged b => Some b | Late => None end) l.

Definition last_good (l : list report) : bool :=
  match judgements l with true :: _ => true | _ => false end.

(** The contactors are to be closed when the last report is good and the last
    judgement before it was good too, however many silences lie between. *)
Definition closed_by (l : list report) : bool :=
  match l with
  | Judged true :: l => last_good l
  | _ => false
  end.

Lemma solax_turn_reports now frame w :
  let w' := Solax.turn TICK_HZ mqtt false parser now frame w in
  match observe (now, frame, w) with
  | None =>
    Solax.initalised w' = Solax.initalised w /\
    Statics.contactor_state (Solax.statics w') = Statics.contactor_state (Solax.statics w)
  | Some Late =>
    Solax.initalised w' = Solax.initalised w /\
    Statics.contactor_state (Solax.statics w') = Some false
  | Some (Judged b) =>
    Solax.initalised w' = b /\
    Statics.contactor_state (Solax.statics w') = Some (b && Solax.initalised w)
  end.
Proof.
  cbn. unfold Solax.turn.
  destruct (match frame_id frame with Extended id => id =? 0x1871 | Standard _ => true end);
    [|done]. cbn [negb].
  destruct (Statics.last_bms_message _) as [time|]; [|done].
  destruct (timed_out TICK_HZ now time); [done|].
  destruct (parser _ _ _ _) as [response inv']. cbn.
  destruct response as [frames|[id|id|ts| |x]]; cbn; destruct mqtt, (Solax.initalised w); done.
Qed.

(** What the task's variables and the signal say about its reports. *)
Definition tracks (s : sys (Solax.t Frame Bms Inv) Frame) : Prop :=
  Solax.initalised (inverter s) = last_good (reports (log s)) /\
  target s = closed_by (reports (log s)).

Lemma tracks_turn s ev :
  tracks s ->
  tracks (do_inverter ev s).
Proof.
  intros [Hi Ht]. pose proof (solax_turn_reports (now s) ev (inverter s)) as Hturn.
  unfold tracks, target, reports in *. cbn [do_inverter log inverter active omap list_omap] in *.
  destruct (observe _) as [[|b]|]; destruct Hturn as [Hi' Hc']; cbn in Hi', Hc' |- *;
    rewrite Hi', Hc'.
  - done.
  - rewrite Hi. unfold last_good at 1. cbn. by destruct b.
  - done.
Qed.

Lemma reachable_tracks max contactor_task `{!Follows max contactor_task} s :
  reachable contactor_task s -> tracks s.
Proof.
  induction 1 as [s (Hi & Hc & Ha & Hh & Hl)|s s' Hr IH Hs].
  { unfold tracks, target. rewrite Hc, Ha, Hl. by split. }
  destruct (target_step max contactor_task s s' Hr Hs) as [[Ht Hl]|[ev ->]]; [|by apply tracks_turn].
  destruct Hs as [s ev|s b Hb|s heard b|s dt Hdt]; [by apply tracks_turn|..];
    destruct IH as [Hi Hc]; (split; [|rewrite Ht]);
    unfold do_contactor; try destruct (contactor_task _ _); done.
Qed.

(** The response that closed the contactors met a BMS heard of recently. *)
Lemma closed_by_fresh l :
  0 < TICK_HZ -> closed_by (reports l) = true ->
  exists now frame w, In (now, frame, w) l /\ observe (now, frame, w) = Some (Judged true) /\
    fresh TICK_HZ now (Solax.statics w).
Proof.
  intros Hz. induction l as [|[[now frame] w] l IH]; [done|].
  unfold reports. cbn [omap list_omap]. fold (reports l).
  destruct (observe (now, frame, w)) as [[|[|]]|] eqn:Ho; try done; intros Hc.
  - exists now, frame, w. split; [by left|split; [done|]].
    unfold observe in Ho. destruct (match frame_id frame with Extended id => id =? 0x1871
      | Standard _ => true end); [|done].
    destruct (Statics.last_bms_message _) as [time|] eqn:Hl; [|done].
    exists time. split; [done|]. apply timed_out_false; [done|].
    by destruct (timed_out TICK_HZ now time).
  - destruct (IH Hc) as (n & f & v & Hin & Hrest). exists n, f, v. split; [by right|done].
Qed.

(** What [closed_by] says of the history: a good response that met a good
    judgement, and nothing but frames without a report since. *)
Lemma closed_by_split l :
  closed_by (reports l) = true ->
  exists later n f w earlier, l = later ++ (n, f, w) :: earlier /\
    Forall (fun e => observe e = None) later /\ observe (n, f, w) = Some (Judged true) /\
    last_good (reports earlier) = true.
Proof.
  induction l as [|[[n f] w] l IH]; [done|]. unfold reports. cbn [omap list_omap]. fold (reports l).
  destruct (observe (n, f, w)) as [[|[|]]|] eqn:Ho; try done; intros Hc.
  - by exists [], n, f, w, l.
  - destruct (IH Hc) as (later & n' & f' & w' & earlier & -> & Hl & Hrest).
    exists ((n, f, w) :: later), n', f', w', earlier. split; [done|]. split; [by constructor|done].
Qed.

(** C8: the Solax and FoxESS controllers.  In every reachable state, whatever
    the order of the tasks, the main contactor is on, or about to be switched
    on, exactly if the last report of the inverter task was a good response and
    the judgement before was good as well.  In particular one frame that meets
    a silent BMS, or one bad response, opens it.  (The silences in between do
    not count: after one, a single good response closes the contactor again.) *)
Theorem solax_contactor_history max contactor_task `{!Follows max contactor_task}
  (s : sys (Solax.t Frame Bms Inv) Frame) (Hz : 0 < TICK_HZ)
  (Hr : reachable contactor_task s) :
  target s = closed_by (reports (log s)) /\
  (Statics.contactor_state (Solax.statics (inverter s)) = None ->
   main (hw s) = closed_by (reports (log s)) /\ pre (hw s) = false) /\
  (target s = true -> exists now frame w, In (now, frame, w) (log s) /\
    observe (now, frame, w) = Some (Judged true) /\ fresh TICK_HZ now (Solax.statics w)).
Proof.
  destruct (reachable_tracks max contactor_task s Hr) as [_ Ht].
  split; [done|split; [|intros Hc; apply closed_by_fresh; [done|by rewrite <- Ht]]].
  intros Hn. destruct (reachable_resting max contactor_task s Hr) as (-> & -> & _).
  unfold target in Ht. cbn in Ht. by rewrite Hn in Ht.
Qed.

(** The frames the task answers, and a BMS that was silent for too long. *)
Definition wanted (frame : Frame) : bool :=
  match frame_id frame with Extended id => id =? 0x1871 | Standard _ => true end.

Definition silent (now : Z) (s : Statics.t Frame Bms) : bool :=
  match Statics.last_bms_message s with
  | Some time => timed_out TICK_HZ now time
  | None => true
  end.

(** A turn leaves the BMS data alone and asks the inverter's protocol once. *)
Lemma solax_turn_keeps now frame w :
  wanted frame = true -> silent now (Solax.statics w) = false ->
  let w' := Solax.turn TICK_HZ mqtt false parser now frame w in
  Statics.last_bms_message (Solax.statics w') = Statics.last_bms_message (Solax.statics w) /\
  Statics.bms (Solax.statics w') = Statics.bms (Solax.statics w) /\
  Solax.inverter w' = (parser (Solax.inverter w) frame (Statics.bms (Solax.statics w)) true).2.
Proof.
  unfold wanted, silent. intros Hw Hs. cbn. unfold Solax.turn. rewrite Hw. cbn [negb].
  destruct (Statics.last_bms_message _) as [time|] eqn:Hl; [|done]. rewrite Hs.
  destruct (parser _ _ _ _) as [response inv']. cbn. rewrite <- Hl.
  by destruct response as [frames|[id|id|ts| |x]]; cbn; destruct mqtt, (Solax.initalised w).
Qed.

Lemma observe_silent now frame w :
  wanted frame = true -> silent now (Solax.statics w) = true -> observe (now, frame, w) = Some Late.
Proof.
  unfold wanted, silent, observe. intros -> Hs.
  destruct (Statics.last_bms_message _); [by rewrite Hs|done].
Qed.

Lemma observe_judged now frame w b :
  wanted frame = true -> silent now (Solax.statics w) = false ->
  Solax.verdict (parser (Solax.inverter w) frame (Statics.bms (Solax.statics w)) true).1 = Some b ->
  observe (now, frame, w) = Some (Judged b).
Proof.
  unfold wanted, silent, observe. intros -> Hs Hv.
  destruct (Statics.last_bms_message _); [by rewrite Hs, Hv|done].
Qed.

(** What a judgement of the history met. *)
Lemma observe_inv now frame w b :
  observe (now, frame, w) = Some (Judged b) ->
  wanted frame = true /\
  Solax.verdict (parser (Solax.inverter w) frame (Statics.bms (Solax.statics w)) true).1 = Some b /\
  exists t, Statics.last_bms_message (Solax.statics w) = Some t /\ timed_out TICK_HZ now t = false.
Proof.
  unfold wanted, observe.
  destruct (match frame_id frame with Extended id => id =? 0x1871 | Standard _ => true end); [|done].
  destruct (Statics.last_bms_message _) as [t|]; [|done].
  destruct (timed_out TICK_HZ now t) eqn:Ht; [done|].
  destruct (Solax.verdict _) as [b'|]; [|done]. intros [= ->]. split; [done|]. split; [done|by exists t].
Qed.

(** The contactor task does as it is told at its next turn. *)
Lemma contactor_obeys max contactor_task `{!Follows max contactor_task}
  (s : sys (Solax.t Frame Bms Inv) Frame) b :
  reachable contactor_task s -> Statics.contactor_state (Solax.statics (inverter s)) = Some b ->
  reachable contactor_task (do_contactor contactor_task b s) /\
  main (hw (do_contactor contactor_task b s)) = b.
Proof.
  intros Hr Hb. split; [by eapply reachable_step, step_contactor|].
  unfold do_contactor.
  pose proof (follows (active s) (hw s) b (reachable_resting max contactor_task s Hr)) as Hf.
  destruct (contactor_task (active s) b). destruct Hf as (_ & Hm & _). exact Hm.
Qed.

(** C20: the Solax and FoxESS controllers get where they should.  From every
    reachable state: if the BMS is silent, the next frame of the inverter and one
    turn of the contactor task open the main contactor; if it is not and the
    protocol answers the inverter's frame well, and again when the frame is
    repeated, these two frames and one turn of the contactor task close it. *)
Theorem solax_responds max contactor_task `{!Follows max contactor_task}
  (s : sys (Solax.t Frame Bms Inv) Frame) frame
  (Hr : reachable contactor_task s) (Hw : wanted frame = true) :
  let w := inverter s in
  let bms := Statics.bms (Solax.statics w) in
  let answer := fun inv => parser inv frame bms true in
  (silent (now s) (Solax.statics w) = true ->
   let s' := do_contactor contactor_task false (do_inverter frame s) in
   reachable contactor_task s' /\ main (hw s') = false) /\
  (silent (now s) (Solax.statics w) = false ->
   Solax.verdict (answer (Solax.inverter w)).1 = Some true ->
   Solax.verdict (answer (answer (Solax.inverter w)).2).1 = Some true ->
   let s' := do_contactor contactor_task true (do_inverter frame (do_inverter frame s)) in
   reachable contactor_task s' /\ main (hw s') = true).
Proof.
  intros w bms answer.
  assert (Hr1 : reachable contactor_task (do_inverter frame s)) by by eapply reachable_step, step_inverter.
  pose proof (solax_turn_reports (now s) frame w) as H1. cbv zeta in H1.
  split.
  - intros Hs. rewrite observe_silent in H1 by done. by apply (contactor_obeys max contactor_task), H1.
  - intros Hs Hv1 Hv2. rewrite (observe_judged _ _ _ true) in H1 by done.
    destruct (solax_turn_keeps (now s) frame w Hw Hs) as (Hlast & Hbms & Hinv).
    pose proof (solax_turn_reports (now s) frame (inverter (do_inverter frame s))) as H2.
    cbv zeta in H2. rewrite (observe_judged _ _ _ true) in H2.
    + refine (contactor_obeys max contactor_task (do_inverter frame (do_inverter frame s)) true _ _);
        [by eapply reachable_step, step_inverter|].
      destruct H2 as [_ H2]. destruct H1 as [Hi _].
      change (Solax.initalised (inverter (do_inverter frame s)) = true) in Hi. by rewrite Hi in H2.
    + done.
    + unfold silent in *. cbn [do_inverter inverter task_turn solax_task]. fold w. by rewrite Hlast.
    + cbn [do_inverter inverter task_turn solax_task]. fold w. by rewrite Hbms, Hinv.
Qed.
End solax.

(** ** PylonTech, BYD and GoodWe *)

Section pylontech.
Context {Frame Bms : Type} (TICK_HZ : Z) (mqtt : bool) (valid : Bms -> bool)
  (iter : Bms -> list Frame).

#[local] Instance pylontech_task : InverterTask (Statics.t Frame Bms) unit Frame Bms := {
  task_starts := fun _ => True;
  task_turn := fun now _ => Pylontech.turn TICK_HZ mqtt valid iter now;
  task_statics := fun w => w;
  set_statics := fun s _ => s;
  statics_set := fun s w => eq_refl;
}.

Lemma pylontech_turn_signal now (s : Statics.t Frame Bms) :
  let s' := Pylontech.turn TICK_HZ mqtt valid iter now s in
  Statics.contactor_state s' = Statics.contactor_state s \/
  Statics.contactor_state s' = Some false.
Proof.
  cbn. unfold Pylontech.turn. case_match; [by right|].
  destruct (valid (Statics.bms s)), mqtt; cbn; auto.
Qed.

(** With a PylonTech, BYD or GoodWe inverter the contactors never close:
    the task's variable [inverter_comms_valid] is set to [false] at the start
    of each turn and is all it ever signals. *)
Theorem pylontech_never_closes max contactor_task `{!Follows max contactor_task}
  (s : sys (Statics.t Frame Bms) unit) (Hr : reachable contactor_task s) :
  main (hw s) = false /\ pre (hw s) = false.
Proof.
  assert (Ha : active s = false /\ Statics.contactor_state (inverter s) <> Some true).
  { induction Hr as [s (_ & Hc & Ha & _)|s s' Hr [IH1 IH2] Hs]; [by cbn in Hc; rewrite Hc|].
    destruct Hs as [s ev|s b Hb|s heard b|s dt Hdt]; [..|done|done].
    - split; [done|]. cbn. by destruct (pylontech_turn_signal (now s) (inverter s)) as [->| ->].
    - assert (b = false) as -> by (cbn in Hb; destruct b; [by rewrite Hb in IH2|done]).
      unfold do_contactor. pose proof (follows (active s) (hw s) false
        (reachable_resting max contactor_task s Hr)) as Hf.
      destruct (contactor_task _ _). by destruct Hf as (-> & _). }
  destruct (reachable_resting max contactor_task s Hr) as (-> & -> & _). by destruct Ha.
Qed.
End pylontech.

(** ** Force H2 *)

Section forceh2.
Context {Frame Bms Inv X : Type} `{CanFrame Frame}.
Context (TICK_HZ : Z) (mqtt : bool) (valid : Bms -> bool).
Context (parser : Inv -> Bms -> Frame -> (list Frame + X) * Inv).
Abbreviation W := (Inv * Statics.t Frame Bms)%type.

#[local] Instance forceh2_task : InverterTask W Frame Frame Bms := {
  task_starts := fun _ => True;
  task_turn := ForceH2.turn TICK_HZ mqtt valid parser;
  task_statics := snd;
  set_statics := fun s w => (w.1, s);
  statics_set := fun s w => eq_refl;
}.

(** A frame of the inverter that meets a silent BMS opens the contactors, one
    that is answered closes them, one that is not opens them; one that meets
    invalid BMS data changes nothing. *)
Definition force_report (e : Z * Frame * W) : option bool :=
  let '(now, frame, (inv, s)) := e in
  if match frame_id frame with Extended id => id =? 0x4210 | Standard _ => false end then
    if match Statics.last_bms_message s with Some t => timed_out TICK_HZ now t | None => false end
    then Some false
    else if valid (Statics.bms s) then
      Some (match (parser inv (Statics.bms s) frame).1 with inl _ => true | inr _ => false end)
    else None
  else None.

Definition last_report (l : list (Z * Frame * W)) : bool :=
  match omap force_report l with b :: _ => b | [] => false end.

Lemma forceh2_turn_report now frame (w : W) :
  Statics.contactor_state (ForceH2.turn TICK_HZ mqtt valid parser now frame w).2 =
  match force_report (now, frame, w) with
  | Some b => Some b
  | None => Statics.contactor_state w.2
  end.
Proof.
  destruct w as [inv s]. unfold ForceH2.turn, force_report.
  destruct (match frame_id frame with Extended id => id =? 0x4210 | Standard _ => false end);
    [cbn [negb]|done].
  destruct (match Statics.last_bms_message s with Some t => timed_out TICK_HZ now t
    | None => false end); [done|].
  destruct (valid (Statics.bms s)); [cbn [negb]|done].
  destruct (parser inv (Statics.bms s) frame) as [[frames|x] inv']; by destruct mqtt.
Qed.

(** With a Force H2 inverter the contactors follow the last report; in
    particular BMS data that turned invalid leaves them as they are. *)
Theorem forceh2_contactor_history max contactor_task `{!Follows max contactor_task}
  (s : sys W Frame) (Hr : reachable contactor_task s) :
  target s = last_report (log s) /\
  (Statics.contactor_state (inverter s).2 = None ->
   main (hw s) = last_report (log s) /\ pre (hw s) = false).
Proof.
  assert (Ht : target s = last_report (log s)).
  { induction Hr as [s (_ & Hc & Ha & _ & Hl)|s s' Hr IH Hs].
    { unfold target. by rewrite Hc, Ha, Hl. }
    destruct (target_step max contactor_task s s' Hr Hs) as [[-> ->]|[ev ->]]; [done|].
    unfold target, last_report in *. cbn [do_inverter inverter active log omap list_omap].
    cbn [task_statics forceh2_task task_turn] in *.
    rewrite forceh2_turn_report. by destruct (force_report _). }
  split; [done|]. intros Hn.
  destruct (reachable_resting max contactor_task s Hr) as (-> & -> & _).
  unfold target in Ht. cbn in Ht. by rewrite Hn in Ht.
Qed.
End forceh2.

(** A controller with an inverter that repeats each frame, and a charged run of
    it: the BMS reports, the inverter asks twice, the contactor task wakes up. *)
Definition echo (inv : unit) (frame : CanId) (_ : bool) (_ : bool)
  : (list CanId + InverterError Empty_set) * unit := (inl [frame], inv).

#[local] Instance can_id_frame : CanFrame CanId := fun f => f.

Section closed_run.
#[local] Existing Instance solax_task.
#[local] Instance echo_task : InverterTask (Solax.t CanId bool unit) CanId CanId bool :=
  solax_task 1000 true echo.

Definition closed_run : sys (Solax.t CanId bool unit) CanId :=
  do_contactor (contactor_both_task 839) true
    (do_inverter (Extended 0x1871)
      (do_inverter (Extended 0x1871)
        (do_time 5000
          (do_bms true true
            (mk_sys (Solax.mk tt false (Statics.mk None false None None [] NoFault))
              false off 0 []))))).

Lemma closed_run_reachable : reachable (contactor_both_task 839) closed_run.
Proof.
  eapply reachable_step; [|by apply step_contactor].
  do 2 (eapply reachable_step; [|apply step_inverter]).
  eapply reachable_step; [|by apply step_time].
  eapply reachable_step; [|apply step_bms].
  by apply reachable_initial.
Qed.
End closed_run.

Lemma solax_contactor_history_witness :
  target (H := solax_task 1000 true echo) closed_run = true /\ main (hw closed_run) = true.
Proof.
  pose proof (both_follows 839 ltac:(lia)) as Hf.
  destruct (solax_contactor_history 1000 true echo 839 (contactor_both_task 839) closed_run
    ltac:(lia) closed_run_reachable) as (H1 & H2 & _).
  split; [rewrite H1; reflexivity|]. rewrite (proj1 (H2 eq_refl)). reflexivity.
Defined.

(** The BMS that closed the contactors falls silent, and is heard of again. *)
Section responding_run.
#[local] Existing Instance echo_task.

Definition silent_run : sys (Solax.t CanId bool unit) CanId := do_time 20000 closed_run.
Definition heard_run : sys (Solax.t CanId bool unit) CanId := do_bms true true silent_run.

Lemma solax_responds_witness :
  main (hw silent_run) = true /\
  main (hw (do_contactor (contactor_both_task 839) false
    (do_inverter (Extended 0x1871) silent_run))) = false /\
  main (hw (do_contactor (contactor_both_task 839) true
    (do_inverter (Extended 0x1871) (do_inverter (Extended 0x1871) heard_run)))) = true.
Proof.
  pose proof (both_follows 839 ltac:(lia)) as Hf.
  assert (Hr : reachable (contactor_both_task 839) silent_run)
    by (eapply reachable_step; [apply closed_run_reachable|by apply step_time]).
  split; [reflexivity|split].
  - apply (proj1 (solax_responds 1000 true echo 839 (contactor_both_task 839) silent_run
      (Extended 0x1871) Hr eq_refl)). reflexivity.
  - refine (proj2 (proj2 (solax_responds 1000 true echo 839 (contactor_both_task 839) heard_run
      (Extended 0x1871) _ eq_refl) _ _ _)); [|reflexivity..].
    eapply reachable_step; [exact Hr|apply step_bms].
Defined.
End responding_run.

(** A second with a PylonTech inverter, and the contactor task. *)
Section open_run.
#[local] Instance broadcast_task : InverterTask (Statics.t Z bool) unit Z bool :=
  pylontech_task 1000 true (fun b => b) (fun _ => [1; 2; 3]).

Definition open_run : sys (Statics.t Z bool) unit :=
  do_contactor (contactor_both_task 839) false
    (do_inverter tt
      (do_time 1000 (do_bms true true
        (mk_sys (Statics.mk None false None None [] NoFault) false off 0 [])))).

Lemma open_run_reachable : reachable (contactor_both_task 839) open_run.
Proof.
  eapply reachable_step; [|by apply step_contactor].
  eapply reachable_step; [|apply step_inverter].
  eapply reachable_step; [|by apply step_time].
  eapply reachable_step; [|apply step_bms].
  by apply reachable_initial.
Qed.
End open_run.

Lemma pylontech_never_closes_witness :
  Statics.inverter_tx (inverter open_run) = [1; 2; 3] /\ main (hw open_run) = false.
Proof.
  pose proof (both_follows 839 ltac:(lia)) as Hf. split; [reflexivity|].
  apply (pylontech_never_closes 1000 true (fun b => b) (fun _ => [1; 2; 3]) 839
    (contactor_both_task 839) open_run open_run_reachable).
Defined.

(** The BMS data turns invalid while a Force H2 inverter holds the contactors. *)
Section force_run.
#[local] Instance force_task : InverterTask (unit * Statics.t CanId bool) CanId CanId bool :=
  forceh2_task (X := Empty_set) 1000 true (fun b => b) (fun inv _ f => (inl [f], inv)).

Definition force_run : sys (unit * Statics.t CanId bool) CanId :=
  do_inverter (Extended 0x4210)
    (do_bms true false
      (do_contactor (contactor_main_task 839) true
        (do_inverter (Extended 0x4210)
          (do_bms true true
            (mk_sys (tt, Statics.mk None false None None [] NoFault) false off 0 []))))).

Lemma force_run_reachable : reachable (contactor_main_task 839) force_run.
Proof.
  eapply reachable_step; [|apply step_inverter].
  eapply reachable_step; [|apply step_bms].
  eapply reachable_step; [|by apply step_contactor].
  eapply reachable_step; [|apply step_inverter].
  eapply reachable_step; [|apply step_bms].
  by apply reachable_initial.
Qed.
End force_run.

Lemma forceh2_contactor_history_witness :
  Statics.bms (inverter force_run).2 = false /\ main (hw force_run) = true.
Proof.
  pose proof (main_follows 839 ltac:(lia)) as Hf. split; [reflexivity|].
  destruct (forceh2_contactor_history (X := Empty_set) 1000 true (fun b => b)
    (fun inv _ f => (inl [f], inv)) 839 (contactor_main_task 839) force_run force_run_reachable)
    as [_ H]. exact (proj1 (H eq_refl)).
Defined.
