(* ===== verification/Modbus.v ===== *)
(** The Modbus gateway: stm32f407_controller/src/bin/tasks/modbus, its files
    models.rs, conversions.rs, flow.rs and the loop of modbus_tcp_gateway.rs.

    The bridge takes Modbus TCP requests and forwards them to a serial (RTU)
    device; the client does the reverse.  The features [modbus_bridge] and
    [modbus_client] choose between the two versions of [process_flow].  The
    drivers of the serial port and of the socket, and the crate that computes
    the CRC, are classes. *)
From S2P Require Import Prelude.
From S2P Require Import Heapless.

Inductive ModbusError : Type :=
| Rtu | Tcp | Slice | Push | RtuTimeout | RtuRxFail | CrcRx | ReadExactError
| TcpRxFail (n : Z) | RtuIlligal | TcpConnect | TcpAccept | InvalidTransactionId
| RtuPayloadTooShort | InvalidFilter | ConversionSlice.

(** [State::<MODBUS>] of the crate crc16: the CRC of a byte string. *)
Class Crc16 : Type := {
  crc16 : list Z -> Z;
  crc16_range : forall s, 0 <= crc16 s < 2 ^ 16;
}.

(** The serial port: [None] and [false] are errors.  [read] fills its buffer of
    [n] bytes, [read_until_idle] stores at most [n]. *)
Class Uart (U : Type) : Type := {
  uart_flush : U -> bool * U;
  uart_write : U -> list Z -> bool * U;
  uart_read : U -> Z -> option (list Z) * U;
  uart_read_until_idle : U -> Z -> option (list Z) * U;
}.

(** The socket: [read] stores at most [n] bytes, [read_exact] [n]. *)
Class Socket (T : Type) : Type := {
  tcp_read : T -> Z -> option (list Z) * T;
  tcp_read_exact : T -> Z -> option (list Z) * T;
  tcp_write : T -> list Z -> option Z * T;
}.

Definition MODBUS_ERROR_VAL : Z := 80.
Definition MODBUS_VEC_SIZE : Z := 512.
Definition MODBUS_TCP_REQ_VEC_SIZE : Z := 12.
Definition MODBUS_RTU_REQ_VEC_SIZE : Z := 8.
Definition MODBUS_PROTO : list Z := [0; 0].

(** ** The transaction counter, an atomic [u16] *)

Definition increment_transaction_id : M Z ModbusError Z := fun current =>
  if current =? 0xffff then (Ok 0, 0) else (Ok (current + 1), current + 1).

Definition get_transaction_id : M Z ModbusError Z := gets id.

Definition set_transaction_id (val : Z) : M Z ModbusError unit := modify (fun _ => val).

(** ** Checksums *)

Section crc.
Context `{Crc16}.

Definition create_crc (s : list Z) : list Z := le_bytes 2 (crc16 s).

Definition crc_check (payload : list Z) : outcome ModbusError unit :=
  if zlen payload <? 4 then Err RtuRxFail
  else
    let response := ztake (zlen payload - 2) payload in
    let crc_check := zdrop (zlen payload - 2) payload in
    if bool_decide (crc_check = le_bytes 2 (crc16 response)) then Ok tt else Err CrcRx.
End crc.

Definition is_rtu_error (s : list Z) : bool :=
  match s !! 2%nat with Some v => MODBUS_ERROR_VAL <=? v | None => false end.

(** [s.get(2).map(|bytes_len| (bytes_len + 2) as usize)], an [u8] addition. *)
Definition payload_length `{Profile} (s : list Z) : outcome ModbusError (option Z) :=
  match s !! 2%nat with
  | Some bytes_len => n ← bytes_len +u8 2; Ok (Some n)
  | None => Ok None
  end.

(** ** conversions.rs *)

Section conversions.
Context `{Profile} `{HeaplessExtend} `{Crc16}.

(** [output.extend_from_slice(xs).map_err(|_| ConversionSlice)] *)
Definition extend_from_slice (cap : Z) (output xs : list Z) : outcome ModbusError (list Z) :=
  let '(output, ok) := vec_extend_from_slice cap output xs in
  if ok : bool then Ok output else Err ConversionSlice.

(** [output.extend_from_slice(a).and(output.extend_from_slice(b))]: both run. *)
Definition extend_both (cap : Z) (output a b : list Z) : outcome ModbusError (list Z) :=
  let '(output, ok1) := vec_extend_from_slice cap output a in
  let '(output, ok2) := vec_extend_from_slice cap output b in
  if (ok1 : bool) && (ok2 : bool) then Ok output else Err ConversionSlice.

(** [input.split_at(mid)] *)
Definition split_at (input : list Z) (mid : Z) : outcome ModbusError (list Z * list Z) :=
  if (0 <=? mid) && (mid <=? zlen input) then Ok (ztake mid input, zdrop mid input)
  else Panic PSlice.

Definition convert_rtu_request_payload_to_tcp_request_payload (input : list Z)
  : M Z ModbusError (list Z) :=
  if zlen input <? 4 then throw RtuPayloadTooShort
  else
    id ← increment_transaction_id;
    lift (
      mid ← zlen input -usize 2;
      '(payload, _) ← split_at input mid;
      output ← vec_extend MODBUS_TCP_REQ_VEC_SIZE [] (be_bytes 2 id);
      output ← vec_extend MODBUS_TCP_REQ_VEC_SIZE output MODBUS_PROTO;
      output ← vec_extend MODBUS_TCP_REQ_VEC_SIZE output (be_bytes 2 (wrap 16 (zlen payload)));
      extend_from_slice MODBUS_TCP_REQ_VEC_SIZE output payload).

Definition convert_tcp_reponse_payload_to_rtu_response_payload (input : list Z)
  : M Z ModbusError (list Z) :=
  if zlen input <? 7 then throw (TcpRxFail (zlen input))
  else
    '(mbap, pdu) ← lift (split_at input 6);
    b0 ← lift (idx mbap 0);
    b1 ← lift (idx mbap 1);
    let rx_id := be_value [b0; b1] in
    id ← get_transaction_id;
    if negb (id =? rx_id) then throw InvalidTransactionId
    else lift (
      len ← idx input 5;
      pdu ← slice pdu 0 len;
      extend_both MODBUS_VEC_SIZE [] pdu (create_crc pdu)).

Definition convert_tcp_request_payload_to_rtu_request_payload (input : list Z)
  : M Z ModbusError (list Z) :=
  if zlen input <? 7 then throw (TcpRxFail (zlen input))
  else
    '(mbap, pdu) ← lift (split_at input 6);
    b0 ← lift (idx mbap 0);
    b1 ← lift (idx mbap 1);
    set_transaction_id (be_value [b0; b1]) ;;;
    lift (extend_both MODBUS_RTU_REQ_VEC_SIZE [] pdu (create_crc pdu)).

Definition convert_rtu_reponse_payload_to_tcp_response_payload (input : list Z)
  : M Z ModbusError (list Z) :=
  id ← get_transaction_id;
  lift (
    mid ← zlen input -usize 2;
    '(payload, _) ← split_at input mid;
    output ← vec_extend MODBUS_VEC_SIZE [] (be_bytes 2 id);
    output ← vec_extend MODBUS_VEC_SIZE output MODBUS_PROTO;
    output ← vec_extend MODBUS_VEC_SIZE output (be_bytes 2 (wrap 16 (zlen payload)));
    extend_from_slice MODBUS_VEC_SIZE output payload).
End conversions.

(** ** models.rs *)

(** [usart::Error], [tcp::Error] and [ReadExactError] and their conversions. *)
Definition io_result {S A} (e : ModbusError) (r : option A) : M S ModbusError A :=
  match r with Some a => mret a | None => throw e end.

(** Run an operation on a part of the state. *)
Definition on_part {S T E A} (get : S -> T) (set : T -> S -> S) (m : M T E A) : M S E A :=
  fun s => let '(o, t) := m (get s) in (o, set t s).

Module ModbusRtu.
Record t {U : Type} : Type := mk {
  serial : U;
  tx_en : bool;
  response : list Z;
  request : list Z
}.
Arguments t U : clear implicits.
Arguments mk {U}.

Section rtu.
Context `{Profile} `{HeaplessVec} `{HeaplessExtend} `{Crc16} {U : Type} `{Uart U}.

Definition set_serial (u : U) (s : t U) : t U := mk u (tx_en s) (response s) (request s).
Definition set_tx_en (b : bool) (s : t U) : t U := mk (serial s) b (response s) (request s).
Definition set_response (r : list Z) (s : t U) : t U := mk (serial s) (tx_en s) r (request s).
Definition set_request (r : list Z) (s : t U) : t U := mk (serial s) (tx_en s) (response s) r.

(** The converters may draw a transaction identifier from the counter. *)
Definition convert_request (converter : list Z -> M Z ModbusError (list Z)) (self : t U)
  : M Z ModbusError (list Z) := converter (request self).
Definition convert_response (converter : list Z -> M Z ModbusError (list Z)) (self : t U)
  : M Z ModbusError (list Z) := converter (response self).

Definition new (serial : U) : t U := mk serial false [] [].

(** An operation of the serial port. *)
Definition on_serial {A} (f : U -> A * U) : M (t U) ModbusError A := fun s =>
  let '(a, u) := f (serial s) in (Ok a, set_serial u s).

(** [op.await?] *)
Definition done_or_rtu (ok : bool) : M (t U) ModbusError unit :=
  if ok then mret tt else throw Rtu.

Definition transmit (payload : list Z) : M (t U) ModbusError unit :=
  ok ← on_serial uart_flush;
  done_or_rtu ok ;;;
  modify (set_tx_en true) ;;;
  ok ← on_serial (fun u => uart_write u payload);
  done_or_rtu ok ;;;
  ok ← on_serial uart_flush;
  done_or_rtu ok ;;;
  modify (set_tx_en false).

(** [for _ in 0..pll], with the buffer of one byte, which keeps its value when
    a read stores nothing; the push runs before the result of the read counts. *)
Fixpoint receive_loop (pll : nat) (buf : Z) : M (t U) ModbusError unit :=
  match pll with
  | O => mret tt
  | S pll =>
    read ← on_serial (fun u => uart_read_until_idle u 1);
    let buf := match read with Some (x :: _) => x | _ => buf end in
    response0 ← gets response;
    let '(response1, pushed) := vec_push MODBUS_VEC_SIZE response0 buf in
    modify (set_response response1) ;;;
    match read with
    | None => throw RtuRxFail
    | Some _ => if pushed : bool then receive_loop pll buf else throw Push
    end
  end.

Definition receive : M (t U) ModbusError unit :=
  modify (set_response []) ;;;
  read ← on_serial (fun u => uart_read u 3);
  buf ← io_result Rtu read;
  len ← lift (payload_length buf);
  match len with
  | None => throw RtuPayloadTooShort
  | Some pll =>
    response0 ← gets response;
    response1 ← lift (vec_extend MODBUS_VEC_SIZE response0 buf);
    modify (set_response response1) ;;;
    receive_loop (Z.to_nat pll) 0 ;;;
    response0 ← gets response;
    lift (crc_check response0)
  end.

(** With [modbus_bridge]. *)
Definition send_and_receive (rtu_req : list Z) : M (t U) ModbusError unit :=
  modify (set_response []) ;;;
  transmit rtu_req ;;;
  receive.

(** With [modbus_client]. *)
Definition send (payload : list Z) : M (t U) ModbusError unit := transmit payload.

Definition listen : M (t U) ModbusError unit :=
  modify (set_request []) ;;;
  read ← on_serial (fun u => uart_read u 8);
  buf ← io_result Rtu read;
  request0 ← gets request;
  request1 ← lift (vec_extend MODBUS_RTU_REQ_VEC_SIZE request0 buf);
  modify (set_request request1) ;;;
  lift (crc_check request1).
End rtu.
End ModbusRtu.

Module ModbusTcp.
Record t {T : Type} : Type := mk {
  socket : T;
  response : list Z;
  request : list Z
}.
Arguments t T : clear implicits.
Arguments mk {T}.

Section tcp.
Context `{Profile} `{HeaplessVec} `{HeaplessExtend} {T : Type} `{Socket T}.

Definition set_socket (x : T) (s : t T) : t T := mk x (response s) (request s).
Definition set_response (r : list Z) (s : t T) : t T := mk (socket s) r (request s).
Definition set_request (r : list Z) (s : t T) : t T := mk (socket s) (response s) r.

(** The converters may draw a transaction identifier from the counter. *)
Definition convert_request (converter : list Z -> M Z ModbusError (list Z)) (self : t T)
  : M Z ModbusError (list Z) := converter (request self).
Definition convert_response (converter : list Z -> M Z ModbusError (list Z)) (self : t T)
  : M Z ModbusError (list Z) := converter (response self).

Definition new (socket : T) : t T := mk socket [] [].

Definition on_socket {A} (f : T -> A * T) : M (t T) ModbusError A := fun s =>
  let '(a, x) := f (socket s) in (Ok a, set_socket x s).

(** The number of bytes written is not looked at. *)
Definition transmit (payload : list Z) : M (t T) ModbusError Z :=
  n ← on_socket (fun x => tcp_write x payload);
  io_result Tcp n.

(** With [modbus_bridge]. *)
Definition send (payload : list Z) : M (t T) ModbusError unit :=
  _ ← transmit payload;
  mret tt.

Definition listen : M (t T) ModbusError unit :=
  modify (set_request []) ;;;
  read ← on_socket (fun x => tcp_read_exact x 12);
  read_buf ← io_result ReadExactError read;
  request0 ← gets request;
  request1 ← lift (vec_extend MODBUS_TCP_REQ_VEC_SIZE request0 read_buf);
  modify (set_request request1).

(** With [modbus_client]: a read stores its bytes at the start of the buffer. *)
Fixpoint receive_loop (bytes_len : nat) (buf : Z) : M (t T) ModbusError unit :=
  match bytes_len with
  | O => mret tt
  | S bytes_len =>
    read ← on_socket (fun x => tcp_read x 1);
    bs ← io_result Tcp read;
    let buf := match bs with x :: _ => x | [] => buf end in
    response0 ← gets response;
    let '(response1, pushed) := vec_push MODBUS_VEC_SIZE response0 buf in
    modify (set_response response1) ;;;
    if pushed : bool then receive_loop bytes_len buf else throw Push
  end.

Definition receive : M (t T) ModbusError Z :=
  modify (set_response []) ;;;
  read ← on_socket (fun x => tcp_read x 6);
  bs ← io_result Tcp read;
  let buf := bs ++ replicate (6 - length bs) 0 in
  response0 ← gets response;
  response1 ← lift (vec_extend MODBUS_VEC_SIZE response0 buf);
  modify (set_response response1) ;;;
  b4 ← lift (idx buf 4);
  b5 ← lift (idx buf 5);
  receive_loop (Z.to_nat (be_value [b4; b5])) 0 ;;;
  gets (fun s => zlen (response s)).

Definition send_and_receive (payload : list Z) : M (t T) ModbusError unit :=
  modify (set_response []) ;;;
  _ ← transmit payload;
  _ ← receive;
  mret tt.
End tcp.
End ModbusTcp.

(** ** flow.rs *)

Inductive LedCommand : Type := Led3On | Led3Off.

Module Gateway.
Record t {T U : Type} : Type := mk {
  counter : Z;
  modbus_tcp : ModbusTcp.t T;
  modbus_rtu : ModbusRtu.t U;
  led : option LedCommand
}.
Arguments t T U : clear implicits.
Arguments mk {T U}.

Section flow.
Context `{Profile} `{HeaplessVec} `{HeaplessExtend} `{Crc16} {T U : Type} `{Socket T} `{Uart U}.

Definition with_counter {A} (m : M Z ModbusError A) : M (t T U) ModbusError A :=
  on_part counter (fun c s => mk c (modbus_tcp s) (modbus_rtu s) (led s)) m.
Definition with_tcp {A} (m : M (ModbusTcp.t T) ModbusError A) : M (t T U) ModbusError A :=
  on_part modbus_tcp (fun x s => mk (counter s) x (modbus_rtu s) (led s)) m.
Definition with_rtu {A} (m : M (ModbusRtu.t U) ModbusError A) : M (t T U) ModbusError A :=
  on_part modbus_rtu (fun x s => mk (counter s) (modbus_tcp s) x (led s)) m.
Definition signal_led (c : LedCommand) : M (t T U) ModbusError unit :=
  modify (fun s => mk (counter s) (modbus_tcp s) (modbus_rtu s) (Some c)).

(** [process_flow] with the feature [modbus_bridge]. *)
Definition process_flow_bridge : M (t T U) ModbusError unit :=
  signal_led Led3Off ;;;
  with_tcp ModbusTcp.listen ;;;
  tcp ← gets modbus_tcp;
  rtu_req ← with_counter (ModbusTcp.convert_request convert_tcp_request_payload_to_rtu_request_payload tcp);
  with_rtu (ModbusRtu.send_and_receive rtu_req) ;;;
  rtu ← gets modbus_rtu;
  tcp_send ← with_counter (ModbusRtu.convert_response convert_rtu_reponse_payload_to_tcp_response_payload rtu);
  with_tcp (ModbusTcp.send tcp_send) ;;;
  signal_led Led3On.

(** [process_flow] with the feature [modbus_client], without [OB737]. *)
Definition process_flow_client : M (t T U) ModbusError unit :=
  signal_led Led3Off ;;;
  with_rtu ModbusRtu.listen ;;;
  rtu ← gets modbus_rtu;
  tcp_payload ← with_counter (ModbusRtu.convert_request convert_rtu_request_payload_to_tcp_request_payload rtu);
  with_tcp (ModbusTcp.send_and_receive tcp_payload) ;;;
  tcp ← gets modbus_tcp;
  rtu_send ← with_counter (ModbusTcp.convert_response convert_tcp_reponse_payload_to_rtu_response_payload tcp);
  with_rtu (ModbusRtu.send rtu_send) ;;;
  signal_led Led3On.
End flow.

(** The loop of a connection in [modbus_task]: does it go on after the outcome
    of [process_flow], or its timeout ([None])? *)
Definition inner_continues {A} (process : option (outcome ModbusError A)) : bool :=
  match process with
  | Some (Ok _) => true
  | Some (Err (TcpRxFail _)) => false
  | Some (Err ReadExactError) => false
  | Some (Err _) => true
  | _ => false
  end.
End Gateway.

(** ** Lemmas *)

Section crc_lemmas.
Context `{Crc16}.

Lemma zlen_create_crc s : zlen (create_crc s) = 2.
Proof. reflexivity. Qed.

Lemma create_crc_ok s : bytes_ok (create_crc s).
Proof. apply List.Forall_rev, be_bytes_ok. Qed.

(** A frame with its own checksum behind it is accepted, any other is not. *)
Lemma crc_check_iff s c :
  2 <= zlen s -> zlen c = 2 ->
  crc_check (s ++ c) = if bool_decide (c = create_crc s) then Ok tt else Err CrcRx.
Proof.
  intros Hs Hc. unfold crc_check. zlen. rewrite (proj2 (Z.ltb_ge _ _)) by lia.
  replace (zlen s + zlen c - 2) with (zlen s) by lia. by rewrite ztake_app_len, zdrop_app_len.
Qed.

Lemma crc_check_ok s : 2 <= zlen s -> crc_check (s ++ create_crc s) = Ok tt.
Proof. intros Hs. rewrite crc_check_iff by done. by rewrite bool_decide_eq_true_2. Qed.
End crc_lemmas.

Section conversion_lemmas.
Context `{Profile} `{HeaplessExtend} `{Crc16}.

Lemma split_at_app a b n : n = zlen a -> split_at (a ++ b) n = Ok (a, b).
Proof.
  intros ->. unfold split_at. pose proof (zlen_nonneg a). pose proof (zlen_nonneg b). zlen.
  rewrite (proj2 (Z.leb_le _ _)), (proj2 (Z.leb_le _ _)) by lia.
  by rewrite ztake_app_len, zdrop_app_len.
Qed.

Lemma extend_both_ok cap l a b :
  zlen l + zlen a + zlen b <= cap -> extend_both cap l a b = Ok (l ++ a ++ b).
Proof.
  intros Hl. pose proof (zlen_nonneg b). unfold extend_both.
  rewrite extend_slice_room by lia. rewrite extend_slice_room by (zlen; lia).
  by rewrite <- app_assoc.
Qed.

(** The MBAP header of a TCP packet. *)
Definition mbap (id n : Z) : list Z := be_bytes 2 id ++ MODBUS_PROTO ++ be_bytes 2 n.

Lemma zlen_mbap id n : zlen (mbap id n) = 6.
Proof. reflexivity. Qed.

Lemma id_value b0 b1 : byte_ok b0 -> byte_ok b1 -> be_bytes 2 (be_value [b0; b1]) = [b0; b1].
Proof. intros Hb0 Hb1. apply (be_bytes_value [b0; b1]). constructor; [done|]. by constructor. Qed.

(** A TCP request of a bridge becomes the RTU request with the same PDU. *)
Lemma tcp_request_to_rtu b0 b1 h pdu c :
  zlen h = 4 -> 1 <= zlen pdu <= 6 ->
  convert_tcp_request_payload_to_rtu_request_payload (b0 :: b1 :: h ++ pdu) c =
  (Ok (pdu ++ create_crc pdu), be_value [b0; b1]).
Proof.
  intros Hh Hp. unfold convert_tcp_request_payload_to_rtu_request_payload.
  rewrite (proj2 (Z.ltb_ge _ _)) by (zlen; lia).
  change (b0 :: b1 :: h ++ pdu) with ((b0 :: b1 :: h) ++ pdu).
  unfold mbind, M_bind, lift. rewrite split_at_app by (zlen; lia).
  change (idx (b0 :: b1 :: h) 0) with (Ok (E := ModbusError) b0).
  change (idx (b0 :: b1 :: h) 1) with (Ok (E := ModbusError) b1).
  unfold set_transaction_id, modify.
  by rewrite extend_both_ok by (zlen; rewrite zlen_create_crc; unfold MODBUS_RTU_REQ_VEC_SIZE; lia).
Qed.

(** An RTU response becomes the TCP response with the identifier of the
    request. *)
Lemma rtu_response_to_tcp r crc c :
  zlen crc = 2 -> zlen r <= 506 ->
  convert_rtu_reponse_payload_to_tcp_response_payload (r ++ crc) c =
  (Ok (mbap c (zlen r) ++ r), c).
Proof.
  intros Hc Hr. pose proof (zlen_nonneg r).
  unfold convert_rtu_reponse_payload_to_tcp_response_payload, get_transaction_id.
  unfold mbind, M_bind, gets, lift, id, outcome_bind. zlen.
  rewrite checked_ok by lia. rewrite split_at_app by lia. rewrite wrap_small by lia.
  unfold MODBUS_VEC_SIZE, mbap, MODBUS_PROTO.
  repeat rewrite extend_room by (zlen; lia).
  unfold extend_from_slice. rewrite extend_slice_room by (zlen; lia).
  cbn [app]. by rewrite <- !app_assoc.
Qed.

(** An RTU request of a client becomes the TCP request with the next identifier. *)
Lemma rtu_request_to_tcp p crc c :
  zlen crc = 2 -> 2 <= zlen p <= 6 -> 0 <= c < 2 ^ 16 ->
  convert_rtu_request_payload_to_tcp_request_payload (p ++ crc) c =
  (Ok (mbap (wrap 16 (c + 1)) (zlen p) ++ p), wrap 16 (c + 1)).
Proof.
  intros Hc Hp Hid. unfold convert_rtu_request_payload_to_tcp_request_payload.
  zlen. rewrite (proj2 (Z.ltb_ge _ _)) by lia.
  assert (Hi : increment_transaction_id c = (Ok (wrap 16 (c + 1)), wrap 16 (c + 1))).
  { unfold increment_transaction_id. destruct (Z.eqb_spec c 65535) as [->|Hne]; [done|].
    by rewrite wrap_small by lia. }
  erewrite bind_ok by apply Hi. unfold mbind, lift, outcome_bind.
  rewrite checked_ok by lia. rewrite split_at_app by lia. rewrite (wrap_small 16 (zlen p)) by lia.
  unfold MODBUS_TCP_REQ_VEC_SIZE, mbap, MODBUS_PROTO.
  repeat rewrite extend_room by (zlen; lia).
  unfold extend_from_slice. rewrite extend_slice_room by (zlen; lia).
  cbn [app]. by rewrite <- !app_assoc.
Qed.

(** A TCP response with the current identifier becomes the RTU response; of its
    length only the low byte counts. *)
Lemma tcp_response_to_rtu id r c :
  1 <= zlen r <= 506 -> 0 <= id < 2 ^ 16 ->
  convert_tcp_reponse_payload_to_rtu_response_payload (mbap id (zlen r) ++ r) c =
  (if c =? id then
     let pdu := ztake (zlen r mod 256) r in Ok (pdu ++ create_crc pdu)
   else Err InvalidTransactionId, c).
Proof.
  intros Hr Hid. unfold convert_tcp_reponse_payload_to_rtu_response_payload.
  zlen. rewrite zlen_mbap. rewrite (proj2 (Z.ltb_ge _ _)) by lia.
  unfold mbind, M_bind, lift. rewrite split_at_app by done.
  set (b0 := id / 2 ^ (8 * Z.of_nat 1) mod 256). set (b1 := id / 2 ^ (8 * Z.of_nat 0) mod 256).
  change (idx (mbap id (zlen r)) 0) with (Ok (E := ModbusError) b0).
  change (idx (mbap id (zlen r)) 1) with (Ok (E := ModbusError) b1).
  assert (Hv : be_value [b0; b1] = id) by (apply (be_value_bytes_small 2); lia). cbv beta iota. rewrite Hv.
  unfold get_transaction_id, gets, Datatypes.id. destruct (Z.eqb_spec c id) as [->|Hne]; [|done].
  cbn [negb].
  assert (Hi : idx (E := ModbusError) (mbap id (zlen r) ++ r) 5 = Ok (zlen r mod 256)).
  { rewrite <- (Z.div_1_r (zlen r)) at 2. reflexivity. }
  unfold outcome_bind. rewrite Hi.
  assert (Hm : 0 <= zlen r mod 256 <= zlen r)
    by (split; [apply Z.mod_pos_bound; lia|apply Z.mod_le; lia]).
  rewrite slice_ok by lia. rewrite zdrop_0, Z.sub_0_r.
  rewrite extend_both_ok; [done|]. rewrite zlen_create_crc, zlen_nil.
  rewrite zlen_take by lia. unfold MODBUS_VEC_SIZE.
  pose proof (Z.mod_pos_bound (zlen r) 256 ltac:(lia)). lia.
Qed.

Lemma short_response input c :
  zlen input = 6 ->
  convert_tcp_reponse_payload_to_rtu_response_payload input c = (Err (TcpRxFail 6), c).
Proof. intros Hi. unfold convert_tcp_reponse_payload_to_rtu_response_payload. by rewrite Hi. Qed.
End conversion_lemmas.

(** ** The lines

    A serial line with a device behind it: a frame that is written reaches the
    device, whose answer waits to be read. *)
Class SerialLine (U : Type) `{Uart U} : Type := {
  waiting : U -> list Z;
  written : U -> list (list Z);
  device : list Z -> list Z;
  flush_line : forall u, exists u', uart_flush u = (true, u') /\
    waiting u' = waiting u /\ written u' = written u;
  write_line : forall u bs, exists u', uart_write u bs = (true, u') /\
    waiting u' = waiting u ++ device bs /\ written u' = written u ++ [bs];
  read_line : forall u n bs rest, waiting u = bs ++ rest -> zlen bs = n ->
    exists u', uart_read u n = (Some bs, u') /\ waiting u' = rest /\ written u' = written u;
  idle_line : forall u b rest, waiting u = b :: rest ->
    exists u', uart_read_until_idle u 1 = (Some [b], u') /\
      waiting u' = rest /\ written u' = written u;
}.

(** A connection: [incoming] is all that the peer is still to send, [outgoing]
    the buffers that were given to [write], of which the socket may take a part
    only, or which it may refuse.  A read gives at least a byte, and no more
    than is asked for, as long as there are bytes to come; [read_exact] asks
    until it has them all, and fails if the peer leaves before. *)
Class TcpPeer (T : Type) `{Socket T} : Type := {
  incoming : T -> list Z;
  outgoing : T -> list (list Z);
  read_exact_peer : forall x n bs rest, incoming x = bs ++ rest -> zlen bs = n ->
    exists x', tcp_read_exact x n = (Some bs, x') /\ incoming x' = rest /\ outgoing x' = outgoing x;
  read_exact_short : forall x n, zlen (incoming x) < n ->
    exists x', tcp_read_exact x n = (None, x') /\ outgoing x' = outgoing x;
  read_peer : forall x n, 0 < n -> incoming x <> [] ->
    exists bs x', tcp_read x n = (Some bs, x') /\ 1 <= zlen bs <= n /\
      incoming x = bs ++ incoming x' /\ outgoing x' = outgoing x;
  write_peer : forall x bs, let x' := (tcp_write x bs).2 in
    incoming x' = incoming x /\ outgoing x' = outgoing x ++ [bs];
}.

Section rtu_lemmas.
Context `{Profile} `{HeaplessVec} `{HeaplessExtend} `{Crc16} {U : Type} `{SerialLine U}.
Import ModbusRtu.
Implicit Type s : ModbusRtu.t U.

(** The state of the serial side, the driver off. *)
Definition rtu_at (resp req w : list Z) (wr : list (list Z)) s : Prop :=
  tx_en s = false /\ response s = resp /\ request s = req /\
  waiting (serial s) = w /\ written (serial s) = wr.

Lemma transmit_ok p resp req w wr s :
  rtu_at resp req w wr s ->
  exists s', transmit p s = (Ok tt, s') /\ rtu_at resp req (w ++ device p) (wr ++ [p]) s'.
Proof.
  destruct s as [u en rs rq]. intros (He & Hr & Hq & Hw & Hwr). cbn in *. subst.
  destruct (flush_line u) as (u1 & Hf1 & Hw1 & Hwr1).
  destruct (write_line u1 p) as (u2 & Hf2 & Hw2 & Hwr2).
  destruct (flush_line u2) as (u3 & Hf3 & Hw3 & Hwr3).
  unfold transmit, on_serial, done_or_rtu, modify, mbind, M_bind; cbn.
  rewrite Hf1; cbn. rewrite Hf2; cbn. rewrite Hf3; cbn.
  eexists; split; [reflexivity|]. unfold rtu_at; cbn. by rewrite Hw3, Hwr3, Hw2, Hwr2, Hw1, Hwr1.
Qed.

Lemma receive_loop_ok bs : forall b resp req w wr s,
  rtu_at resp req (bs ++ w) wr s -> zlen resp + zlen bs <= MODBUS_VEC_SIZE ->
  exists s', receive_loop (length bs) b s = (Ok tt, s') /\ rtu_at (resp ++ bs) req w wr s'.
Proof.
  induction bs as [|x bs IH]; intros b resp req w wr s Hs Hl.
  { exists s. by rewrite app_nil_r. }
  pose proof (zlen_nonneg bs). zlen. cbn [receive_loop length].
  destruct s as [u en rs rq], Hs as (He & Hr & Hq & Hw & Hwr). cbn in He, Hr, Hq, Hw, Hwr. subst.
  destruct (idle_line u x (bs ++ w) Hw) as (u1 & Hf & Hw1 & Hwr1).
  unfold on_serial at 1, mbind at 1, M_bind at 1; cbn [serial]. rewrite Hf.
  unfold gets, modify, mbind, M_bind; cbn [set_serial response tx_en request serial].
  rewrite vec_push_room by lia. cbn [set_response].
  destruct (IH x (resp ++ [x]) req w (written u) (set_response (resp ++ [x])
    (set_serial u1 (mk u false resp req)))) as (s' & He' & Hs').
  { by repeat split. }
  { zlen. lia. }
  exists s'. split; [exact He'|]. by rewrite <- app_assoc in Hs'.
Qed.

(** A reply of the device: its address, a function code, the number of data
    bytes and the data; behind it the checksum. *)
Definition reply (unit fn : Z) (data : list Z) : list Z := unit :: fn :: zlen data :: data.

Lemma zlen_reply unit fn data : zlen (reply unit fn data) = 3 + zlen data.
Proof. unfold reply. zlen. lia. Qed.

(** Is the checksum behind the reply the right one? *)
Definition judge (unit fn : Z) (data crc : list Z) : outcome ModbusError Datatypes.unit :=
  if bool_decide (crc = create_crc (reply unit fn data)) then Ok tt else Err CrcRx.

(** A whole frame is taken from the line whether its checksum is right or not. *)
Lemma receive_reply unit fn data c resp req w wr s :
  rtu_at resp req (reply unit fn data ++ c ++ w) wr s ->
  zlen data < 254 -> zlen c = 2 ->
  exists s', receive s = (judge unit fn data c, s') /\
    rtu_at (reply unit fn data ++ c) req w wr s'.
Proof.
  intros Hs Hd Hc. pose proof (zlen_nonneg data).
  destruct s as [u en rs rq], Hs as (He & Hr & Hq & Hw & Hwr). cbn in He, Hr, Hq, Hw, Hwr. subst.
  destruct (read_line u 3 [unit; fn; zlen data] (data ++ c ++ w)) as (u1 & Hf & Hw1 & Hwr1);
    [by rewrite Hw|done|].
  unfold receive. erewrite bind_ok by reflexivity.
  erewrite bind_ok by (unfold on_serial; cbn; by rewrite Hf).
  do 2 erewrite bind_ok by (cbn; unfold lift, mbind, outcome_bind; by rewrite ?checked_ok by lia).
  cbv iota beta. erewrite bind_ok by reflexivity. cbn [response set_serial set_response].
  erewrite bind_ok
    by (unfold lift; by rewrite extend_room by (zlen; unfold MODBUS_VEC_SIZE; lia)).
  erewrite bind_ok by reflexivity. cbn [app set_response].
  destruct (receive_loop_ok (data ++ c) 0 [unit; fn; zlen data] req w (written u)
    (set_response [unit; fn; zlen data] (set_serial u1 (mk u false [] req))))
    as (s' & Hl & Hs').
  { repeat split; cbn; [by rewrite <- app_assoc|done]. }
  { zlen. unfold MODBUS_VEC_SIZE. lia. }
  assert (Hlen : length (data ++ c) = Z.to_nat (zlen data + 2)).
  { rewrite length_app. unfold zlen in *. lia. }
  rewrite Hlen in Hl. erewrite bind_ok by exact Hl. erewrite bind_ok by reflexivity.
  exists s'. destruct Hs' as (Hen & Hresp & Hrest). unfold lift. rewrite Hresp. change ([unit; fn; zlen data] ++ data ++ c) with (reply unit fn data ++ c).
  rewrite crc_check_iff by (rewrite ?zlen_reply; lia). split; [done|]. split; [done|]. by split.
Qed.
End rtu_lemmas.

Section tcp_lemmas.
Context `{Profile} `{HeaplessVec} `{HeaplessExtend} {T : Type} `{TcpPeer T}.
Import ModbusTcp.
Implicit Type s : ModbusTcp.t T.

Definition tcp_at (resp req inc : list Z) (out : list (list Z)) s : Prop :=
  response s = resp /\ request s = req /\ incoming (socket s) = inc /\ outgoing (socket s) = out.

(** What the task makes of the result of a write. *)
Definition write_report (x : T) (p : list Z) : outcome ModbusError unit :=
  match (tcp_write x p).1 with Some _ => Ok tt | None => Err Tcp end.

Lemma send_reports p resp req inc out s :
  tcp_at resp req inc out s ->
  exists s', send p s = (write_report (socket s) p, s') /\
    tcp_at resp req inc (out ++ [p]) s' /\ socket s' = (tcp_write (socket s) p).2.
Proof.
  destruct s as [x rs rq]. intros (Hr & Hq & Hi & Ho). cbn in *. subst.
  pose proof (write_peer x p) as [Hi1 Ho1]. unfold write_report.
  exists (mk (tcp_write x p).2 resp req). split; [|by repeat split].
  unfold send, transmit, on_socket, io_result, mbind, M_bind; cbn.
  destruct (tcp_write x p) as [[n|] x1]; reflexivity.
Qed.

Lemma listen_ok req0 resp req rest out s :
  tcp_at resp req0 (req ++ rest) out s -> zlen req = 12 ->
  exists s', listen s = (Ok tt, s') /\ tcp_at resp req rest out s'.
Proof.
  destruct s as [x rs rq]. intros (Hr & Hq & Hi & Ho) Hl. cbn in *. subst.
  destruct (read_exact_peer x 12 req rest Hi Hl) as (x1 & Hf & Hi1 & Ho1).
  eexists. unfold listen. split.
  - erewrite bind_ok by reflexivity.
    erewrite bind_ok by (unfold on_socket; cbn; by rewrite Hf).
    do 2 erewrite bind_ok by reflexivity.
    erewrite bind_ok
      by (unfold lift; by rewrite extend_room by (zlen; unfold MODBUS_TCP_REQ_VEC_SIZE; cbn; lia)).
    reflexivity.
  - by repeat split.
Qed.

Lemma tcp_receive_loop_ok bs : forall b resp req rest out s,
  tcp_at resp req (bs ++ rest) out s -> zlen resp + zlen bs <= MODBUS_VEC_SIZE ->
  exists s', receive_loop (length bs) b s = (Ok tt, s') /\ tcp_at (resp ++ bs) req rest out s'.
Proof.
  induction bs as [|x bs IH]; intros b resp req rest out s Hs Hl.
  { exists s. by rewrite app_nil_r. }
  pose proof (zlen_nonneg bs). zlen.
  destruct s as [k rs rq], Hs as (Hr & Hq & Hi & Ho). cbn in Hr, Hq, Hi, Ho. subst.
  destruct (read_peer k 1 ltac:(lia) ltac:(by rewrite Hi)) as (xs & k1 & Hf & Hn & Hi1 & Ho1).
  assert (Hxs : xs = [x] /\ incoming k1 = bs ++ rest).
  { rewrite Hi in Hi1. destruct xs as [|y [|z xs]]; [by zlen; lia| |].
    - by injection Hi1 as <- <-.
    - pose proof (zlen_nonneg xs). zlen. lia. }
  clear Hi1. destruct Hxs as [-> Hi1].
  destruct (IH x (resp ++ [x]) req rest (outgoing k) (set_response (resp ++ [x])
    (set_socket k1 (mk k resp req)))) as (s' & He' & Hs').
  { by repeat split. }
  { zlen. lia. }
  exists s'. split; [|by rewrite <- app_assoc in Hs'].
  cbn [receive_loop length]. erewrite bind_ok by (unfold on_socket; cbn; by rewrite Hf).
  do 2 erewrite bind_ok by reflexivity. cbn [response set_socket].
  rewrite vec_push_room by lia. erewrite bind_ok by reflexivity. exact He'.
Qed.

(** What the first read gives of the header fills the buffer from its start. *)
Definition header_read (header : list Z) (k : Z) : list Z :=
  ztake k header ++ replicate (6 - length (ztake k header)) 0.

Lemma zlen_header_read header k : zlen header = 6 -> 1 <= k <= 6 -> zlen (header_read header k) = 6.
Proof.
  intros Hh Hk. unfold header_read. rewrite zlen_app. pose proof (zlen_take k header ltac:(lia)).
  unfold zlen in *. rewrite length_replicate. lia.
Qed.

(** The first read gives the first bytes of what is to come. *)
Lemma first_read (x : T) header rest :
  incoming x = header ++ rest -> zlen header = 6 ->
  exists k x1, 1 <= k <= 6 /\ tcp_read x 6 = (Some (ztake k header), x1) /\
    incoming x1 = zdrop k header ++ rest /\ outgoing x1 = outgoing x.
Proof.
  intros Hi Hh.
  destruct (read_peer x 6) as (bs & x1 & Hf & Hn & Hi1 & Ho1);
    [lia|rewrite Hi; by destruct header|].
  rewrite Hi in Hi1. exists (zlen bs), x1. split; [done|].
  rewrite <- (ztake_app_le _ rest), <- (zdrop_app_le _ rest) by lia.
  by rewrite Hi1, ztake_app_len, zdrop_app_len.
Qed.

(** What [receive] does after a first read of [k] bytes of the header. *)
Lemma receive_header header k x x1 resp req :
  zlen header = 6 -> 1 <= k <= 6 -> tcp_read x 6 = (Some (ztake k header), x1) ->
  receive (mk x resp req) = (
    b4 ← lift (idx (header_read header k) 4);
    b5 ← lift (idx (header_read header k) 5);
    receive_loop (Z.to_nat (be_value [b4; b5])) 0 ;;;
    gets (fun s => zlen (response s))) (mk x1 (header_read header k) req).
Proof.
  intros Hh Hk Hf. pose proof (zlen_header_read header k Hh Hk) as Hbuf.
  unfold receive. erewrite bind_ok by reflexivity.
  erewrite bind_ok by (unfold on_socket; cbn; by rewrite Hf).
  do 2 erewrite bind_ok by reflexivity. cbv zeta. fold (header_read header k).
  cbn [response set_socket set_response].
  erewrite bind_ok by (unfold lift; rewrite extend_room by
    (rewrite Hbuf, zlen_nil; unfold MODBUS_VEC_SIZE; lia); reflexivity).
  by erewrite bind_ok by reflexivity.
Qed.

(** A part of the header says that nothing follows, if less than 256 bytes do. *)
Lemma header_part id n k :
  0 <= n <= 255 -> 1 <= k < 6 ->
  header_read (mbap id n) k !! 4%nat = Some 0 /\ header_read (mbap id n) k !! 5%nat = Some 0.
Proof.
  intros Hn Hk.
  assert (Hb4 : n / 2 ^ (8 * Z.of_nat 1) mod 256 = 0) by (rewrite Z.div_small by (cbn; lia); done).
  assert (Hc : k = 1 \/ k = 2 \/ k = 3 \/ k = 4 \/ k = 5) by lia.
  unfold header_read. destruct Hc as [->|[->|[->|[->| ->]]]]; split; try reflexivity.
  transitivity (Some (n / 2 ^ (8 * Z.of_nat 1) mod 256)); [reflexivity|by rewrite Hb4].
Qed.

(** A response of the peer, the header with the length and as many bytes, of
    which the first read gives [k] bytes: if that is the whole header, the
    whole response is received; if not, a response of at most 255 bytes is
    taken for an empty one. *)
Lemma tcp_receive_cases id r resp req rest out s :
  tcp_at resp req (mbap id (zlen r) ++ r ++ rest) out s -> zlen r <= 506 ->
  exists k, 1 <= k <= 6 /\ (tcp_read (socket s) 6).1 = Some (ztake k (mbap id (zlen r))) /\
    (k = 6 -> exists s', receive s = (Ok (6 + zlen r), s') /\
      tcp_at (mbap id (zlen r) ++ r) req rest out s') /\
    (k < 6 -> zlen r <= 255 -> exists s', receive s = (Ok 6, s') /\
      tcp_at (header_read (mbap id (zlen r)) k) req
        (zdrop k (mbap id (zlen r)) ++ r ++ rest) out s').
Proof.
  intros Hs Hl. pose proof (zlen_nonneg r). pose proof (zlen_mbap id (zlen r)) as Hm.
  destruct s as [x rs rq], Hs as (Hr & Hq & Hi & Ho). cbn in Hr, Hq, Hi, Ho. subst.
  destruct (first_read x _ _ Hi Hm) as (k & x1 & Hk & Hf & Hi1 & Ho1).
  exists k. split; [done|]. split; [cbn; by rewrite Hf|].
  rewrite (receive_header _ _ _ _ resp req Hm Hk Hf). split.
  - intros ->. rewrite zdrop_all in Hi1 by lia. cbn [app] in Hi1.
    assert (Hh6 : header_read (mbap id (zlen r)) 6 = mbap id (zlen r)) by reflexivity. rewrite Hh6.
    destruct (tcp_receive_loop_ok r 0 (mbap id (zlen r)) req rest (outgoing x)
      (mk x1 (mbap id (zlen r)) req)) as (s' & Hloop & Hs').
    { by repeat split. }
    { rewrite zlen_mbap. unfold MODBUS_VEC_SIZE. lia. }
    exists s'. split; [|done]. do 2 erewrite bind_ok by reflexivity.
    set (b4 := zlen r / 2 ^ (8 * Z.of_nat 1) mod 256).
    set (b5 := zlen r / 2 ^ (8 * Z.of_nat 0) mod 256).
    assert (Hv : be_value [b4; b5] = zlen r) by (apply (be_value_bytes_small 2); lia).
    rewrite Hv. replace (Z.to_nat (zlen r)) with (length r) by (unfold zlen; lia).
    erewrite bind_ok by exact Hloop. unfold gets.
    destruct Hs' as (-> & _). zlen. by rewrite zlen_mbap.
  - intros Hk6 Hr. exists (mk x1 (header_read (mbap id (zlen r)) k) req). split; [|by repeat split].
    destruct (header_part id (zlen r) k ltac:(lia) ltac:(lia)) as [Hz4 Hz5].
    erewrite bind_ok by (unfold lift; rewrite (idx_ok _ 4 0 ltac:(lia) Hz4); reflexivity).
    erewrite bind_ok by (unfold lift; rewrite (idx_ok _ 5 0 ltac:(lia) Hz5); reflexivity).
    erewrite bind_ok by reflexivity. unfold gets. cbn [response]. by rewrite zlen_header_read.
Qed.

(** A request to a peer that answers it. *)
Lemma tcp_exchange p id r resp req rest out n s :
  tcp_at resp req (mbap id (zlen r) ++ r ++ rest) out s -> zlen r <= 506 ->
  (tcp_write (socket s) p).1 = Some n ->
  exists k, 1 <= k <= 6 /\
    (tcp_read (tcp_write (socket s) p).2 6).1 = Some (ztake k (mbap id (zlen r))) /\
    (k = 6 -> exists s', send_and_receive p s = (Ok tt, s') /\
      tcp_at (mbap id (zlen r) ++ r) req rest (out ++ [p]) s') /\
    (k < 6 -> zlen r <= 255 -> exists s', send_and_receive p s = (Ok tt, s') /\
      tcp_at (header_read (mbap id (zlen r)) k) req
        (zdrop k (mbap id (zlen r)) ++ r ++ rest) (out ++ [p]) s').
Proof.
  intros Hs Hr Hw.
  destruct (send_reports p [] req (mbap id (zlen r) ++ r ++ rest) out (set_response [] s))
    as (x1 & Hx1 & Hax1 & Hsock); [by destruct Hs as (_ & ? & ?)|].
  cbn [socket set_response] in Hsock. unfold write_report in Hx1. cbn [socket set_response] in Hx1. rewrite Hw in Hx1.
  assert (Hrun : forall a s', receive x1 = (Ok a, s') -> send_and_receive p s = (Ok tt, s')).
  { intros a s' Hrec. unfold send_and_receive. erewrite bind_ok by reflexivity.
    unfold send in Hx1. apply bind_ok_inv in Hx1 as (m & x1' & Hn & [=]). subst x1'.
    erewrite bind_ok by exact Hn. by erewrite bind_ok by exact Hrec. }
  destruct (tcp_receive_cases id r [] req rest _ x1 Hax1 Hr) as (k & Hk & Hread & Hall & Hpart).
  exists k. split; [done|]. rewrite <- Hsock. split; [done|]. split.
  - intros Hk6. destruct (Hall Hk6) as (s' & He & Hs'). eauto.
  - intros Hk6 Hr6. destruct (Hpart Hk6 Hr6) as (s' & He & Hs'). eauto.
Qed.
End tcp_lemmas.

Section flow_properties.
Context `{Profile} `{HeaplessVec} `{HeaplessExtend} `{Crc16} {T U : Type}
  `{TcpPeer T} `{SerialLine U}.
Import Gateway.
Implicit Type g : Gateway.t T U.

Lemma with_tcp_ok {A} (m : M (ModbusTcp.t T) ModbusError A) g a x :
  m (modbus_tcp g) = (Ok a, x) ->
  with_tcp m g = (Ok a, mk (counter g) x (modbus_rtu g) (led g)).
Proof. intros Hm. unfold with_tcp, on_part. by rewrite Hm. Qed.

Lemma with_rtu_ok {A} (m : M (ModbusRtu.t U) ModbusError A) g a x :
  m (modbus_rtu g) = (Ok a, x) ->
  with_rtu m g = (Ok a, mk (counter g) (modbus_tcp g) x (led g)).
Proof. intros Hm. unfold with_rtu, on_part. by rewrite Hm. Qed.

Lemma with_counter_ok {A} (m : M Z ModbusError A) g a c :
  m (counter g) = (Ok a, c) ->
  with_counter m g = (Ok a, mk c (modbus_tcp g) (modbus_rtu g) (led g)).
Proof. intros Hm. unfold with_counter, on_part. by rewrite Hm. Qed.

Lemma with_rtu_err {A} (m : M (ModbusRtu.t U) ModbusError A) g e x :
  m (modbus_rtu g) = (Err e, x) ->
  with_rtu m g = (Err e, mk (counter g) (modbus_tcp g) x (led g)).
Proof. intros Hm. unfold with_rtu, on_part. by rewrite Hm. Qed.

Lemma with_tcp_run {A} (m : M (ModbusTcp.t T) ModbusError A) g o x :
  m (modbus_tcp g) = (o, x) ->
  with_tcp m g = (o, mk (counter g) x (modbus_rtu g) (led g)).
Proof. intros Hm. unfold with_tcp, on_part. by rewrite Hm. Qed.

Lemma with_counter_err {A} (m : M Z ModbusError A) g e c :
  m (counter g) = (Err e, c) ->
  with_counter m g = (Err e, mk c (modbus_tcp g) (modbus_rtu g) (led g)).
Proof. intros Hm. unfold with_counter, on_part. by rewrite Hm. Qed.

(** The response of the bridge to the request with the identifier [b0; b1]. *)
Definition bridge_response (b0 b1 unit fn : Z) (data : list Z) : list Z :=
  [b0; b1] ++ MODBUS_PROTO ++ be_bytes 2 (3 + zlen data) ++ reply unit fn data.

(** One request to the bridge, whether the device's reply arrives unharmed or
    not. *)
Lemma bridge_exchange g b0 b1 h pdu unit fn data crc resp req resp' req' rest out wr :
  byte_ok b0 /\ byte_ok b1 -> zlen h = 4 -> zlen pdu = 6 -> zlen data < 254 -> zlen crc = 2 ->
  tcp_at resp req (b0 :: b1 :: h ++ pdu ++ rest) out (modbus_tcp g) ->
  rtu_at resp' req' [] wr (modbus_rtu g) ->
  device (U := U) (pdu ++ create_crc pdu) = reply unit fn data ++ crc ->
  let response := bridge_response b0 b1 unit fn data in
  let good := bool_decide (crc = create_crc (reply unit fn data)) in
  exists x g', process_flow_bridge g =
      ((if good then write_report x response else Err CrcRx), g') /\
    tcp_at resp (b0 :: b1 :: h ++ pdu) rest (out ++ if good then [response] else [])
      (modbus_tcp g') /\
    rtu_at (reply unit fn data ++ crc) req' [] (wr ++ [pdu ++ create_crc pdu]) (modbus_rtu g') /\
    (good = true -> write_report x response = Ok tt -> led g' = Some Led3On).
Proof.
  intros Hb Hh Hp Hd Hc Htcp Hrtu Hdev response good. pose proof (zlen_nonneg data).
  unfold process_flow_bridge. erewrite bind_ok by reflexivity.
  destruct (listen_ok req resp (b0 :: b1 :: h ++ pdu) rest out (modbus_tcp g)) as (x1 & He1 & Hx1).
  { cbn. by rewrite <- app_assoc. }
  { zlen. lia. }
  erewrite bind_ok by (apply with_tcp_ok; exact He1). erewrite bind_ok by reflexivity.
  cbn [modbus_tcp]. unfold ModbusTcp.convert_request. rewrite (proj1 (proj2 Hx1)).
  erewrite bind_ok by (apply with_counter_ok, tcp_request_to_rtu; lia).
  destruct (transmit_ok (pdu ++ create_crc pdu) [] req' [] wr
    (ModbusRtu.set_response [] (modbus_rtu g))) as (y1 & Hy1 & Hat1).
  { by destruct Hrtu as (? & _ & ?). }
  rewrite Hdev in Hat1. cbn [app] in Hat1. rewrite <- (app_nil_r crc) in Hat1.
  destruct (receive_reply unit fn data crc _ _ [] _ _ Hat1 Hd Hc) as (y2 & Hy2 & Hat2).
  assert (Hrun : ModbusRtu.send_and_receive (pdu ++ create_crc pdu) (modbus_rtu g) =
    (judge unit fn data crc, y2)).
  { unfold ModbusRtu.send_and_receive. erewrite bind_ok by reflexivity.
    erewrite bind_ok by exact Hy1. exact Hy2. }
  unfold judge in Hrun |- *. fold good in Hrun |- *. destruct good; cbv iota in Hrun |- *.
  - erewrite bind_ok by (apply with_rtu_ok; exact Hrun).
    erewrite bind_ok by reflexivity. cbn [modbus_rtu]. unfold ModbusRtu.convert_response. rewrite (proj1 (proj2 Hat2)).
    erewrite bind_ok
      by (apply with_counter_ok, rtu_response_to_tcp; [done|rewrite zlen_reply; lia]).
    cbn [counter]. rewrite zlen_reply. unfold mbap. rewrite id_value by apply Hb.
    rewrite <- !app_assoc. fold (bridge_response b0 b1 unit fn data). fold response.
    destruct (send_reports response _ _ _ _ _ Hx1) as (x2 & He2 & Hx2 & _).
    exists (ModbusTcp.socket x1). unfold write_report in He2 |- *.
    destruct (tcp_write _ response).1 as [n|]; eexists.
    + split; [erewrite bind_ok by (apply with_tcp_run; exact He2); reflexivity|]. by cbn.
    + split; [erewrite bind_err by (apply with_tcp_run; exact He2); reflexivity|]. by cbn.
  - exists (ModbusTcp.socket x1). eexists.
    split; [erewrite bind_err by (apply with_rtu_err; exact Hrun); reflexivity|].
    cbn. by rewrite !app_nil_r.
Qed.

(** The bridge.  A Modbus TCP request for six bytes of PDU is forwarded
    to the serial device with a checksum in place of its header; when the
    device answers, its reply is given to one write behind a header with the
    identifier of the request and the length of the reply.  The requests behind
    it are still to be read, and the driver of the serial line is off. *)
Theorem modbus_bridge_flow g b0 b1 h pdu unit fn data resp req resp' req' rest out wr
  (Hb : byte_ok b0 /\ byte_ok b1)
  (Hh : zlen h = 4) (Hp : zlen pdu = 6) (Hd : zlen data < 254)
  (Htcp : tcp_at resp req (b0 :: b1 :: h ++ pdu ++ rest) out (modbus_tcp g))
  (Hrtu : rtu_at resp' req' [] wr (modbus_rtu g))
  (Hdev : device (U := U) (pdu ++ create_crc pdu) =
    reply unit fn data ++ create_crc (reply unit fn data))
  (Hwrites : forall (x : T) bs, (tcp_write x bs).1 <> None) :
  let response := [b0; b1] ++ MODBUS_PROTO ++ be_bytes 2 (3 + zlen data) ++ reply unit fn data in
  exists g', process_flow_bridge g = (Ok tt, g') /\
    tcp_at resp (b0 :: b1 :: h ++ pdu) rest (out ++ [response]) (modbus_tcp g') /\
    waiting (ModbusRtu.serial (modbus_rtu g')) = [] /\
    written (ModbusRtu.serial (modbus_rtu g')) = wr ++ [pdu ++ create_crc pdu] /\
    ModbusRtu.tx_en (modbus_rtu g') = false /\ led g' = Some Led3On.
Proof.
  destruct (bridge_exchange g b0 b1 h pdu unit fn data (create_crc (reply unit fn data)) resp req resp'
    req' rest out wr Hb Hh Hp Hd eq_refl Htcp Hrtu Hdev) as (x & g' & He & Ht & Hr & Hl).
  rewrite bool_decide_eq_true_2 in He, Ht, Hl by done.
  assert (Hok : write_report x (bridge_response b0 b1 unit fn data) = Ok tt)
    by (unfold write_report; specialize (Hwrites x (bridge_response b0 b1 unit fn data));
        by destruct (tcp_write x _).1).
  rewrite Hok in He. exists g'. destruct Hr as (? & _ & _ & ? & ?). by repeat split; auto; apply Ht.
Qed.

Lemma rtu_listen_ok p resp req rest wr (s : ModbusRtu.t U) :
  rtu_at resp req (p ++ create_crc p ++ rest) wr s -> zlen p = 6 ->
  exists s', ModbusRtu.listen s = (Ok tt, s') /\
    rtu_at resp (p ++ create_crc p) rest wr s'.
Proof.
  destruct s as [u en rs rq]. intros (He & Hr & Hq & Hw & Hwr) Hp. cbn in *. subst.
  destruct (read_line u 8 (p ++ create_crc p) rest) as (u1 & Hf & Hw1 & Hwr1).
  { by rewrite Hw, <- app_assoc. }
  { zlen. rewrite zlen_create_crc. lia. }
  unfold ModbusRtu.listen. eexists. split.
  - erewrite bind_ok by reflexivity.
    erewrite bind_ok by (unfold ModbusRtu.on_serial; cbn -[create_crc]; by rewrite Hf).
    do 2 erewrite bind_ok by reflexivity.
    erewrite bind_ok by (unfold lift; rewrite extend_room by (zlen; rewrite zlen_create_crc;
      unfold MODBUS_RTU_REQ_VEC_SIZE; cbn; lia); reflexivity).
    erewrite bind_ok by reflexivity. unfold lift. cbn [app ModbusRtu.request ModbusRtu.set_request
      ModbusRtu.set_serial].
    by rewrite crc_check_ok by lia.
  - by repeat split.
Qed.

(** C26: the client, over a serial line without errors and a socket whose write
    of the request reports none.  A request of six bytes of PDU is taken from
    the line and given to one write, without its checksum and behind a header
    with the next transaction identifier.  The server answers to that identifier
    with up to 506 bytes.  If the first read of the socket gives the six bytes of
    the header at once, however the rest is cut, the response is written to the
    line with a checksum, whole if it has at most 255 bytes; of 256 to 506 only
    as many bytes as the low byte of their number says.  If that read gives a
    part of the header only, since its count is not looked at, a response of at
    most 255 bytes is lost: the flow ends with [TcpRxFail], which ends the
    connection, and nothing more is written to the line. *)
Theorem modbus_client_flow g p r resp req wr resp' req' rest out n
  (Hc : 0 <= counter g < 2 ^ 16) (Hp : zlen p = 6) (Hr : 1 <= zlen r <= 506)
  (Hrtu : rtu_at resp req (p ++ create_crc p) wr (modbus_rtu g)) :
  let id := wrap 16 (counter g + 1) in
  let asked := mbap id 6 ++ p in
  let answer := mbap id (zlen r) ++ r in
  let told := ztake (zlen r mod 256) r in
  let write := tcp_write (ModbusTcp.socket (modbus_tcp g)) asked in
  tcp_at resp' req' (answer ++ rest) out (modbus_tcp g) ->
  write.1 = Some n ->
  (zlen r <= 255 -> told = r) /\
  exists k, 1 <= k <= 6 /\ (tcp_read write.2 6).1 = Some (ztake k answer) /\
    (k = 6 -> exists g', process_flow_client g = (Ok tt, g') /\
      counter g' = id /\
      outgoing (ModbusTcp.socket (modbus_tcp g')) = out ++ [asked] /\
      incoming (ModbusTcp.socket (modbus_tcp g')) = rest /\
      written (ModbusRtu.serial (modbus_rtu g')) = wr ++ [told ++ create_crc told] /\
      ModbusRtu.tx_en (modbus_rtu g') = false /\ led g' = Some Led3On) /\
    (k < 6 -> zlen r <= 255 -> exists g', process_flow_client g = (Err (TcpRxFail 6), g') /\
      inner_continues (Some (process_flow_client g).1) = false /\
      outgoing (ModbusTcp.socket (modbus_tcp g')) = out ++ [asked] /\
      written (ModbusRtu.serial (modbus_rtu g')) = wr /\
      ModbusRtu.tx_en (modbus_rtu g') = false /\ led g' = Some Led3Off).
Proof.
  intros id asked answer told write Htcp Hw. unfold answer in Htcp |- *. rewrite <- app_assoc in Htcp.
  assert (Hid : 0 <= id < 2 ^ 16) by (apply wrap_range; lia).
  split. { intros Hl. unfold told. rewrite Z.mod_small by lia. by apply ztake_all. }
  destruct (rtu_listen_ok p resp req [] wr (modbus_rtu g)) as (y1 & Hy1 & Hat1);
    [by rewrite app_nil_r|done|].
  destruct (tcp_exchange asked id r resp' req' rest out n (modbus_tcp g) Htcp ltac:(lia) Hw)
    as (k & Hk & Hread & Hall & Hpart).
  exists k. split; [done|]. split.
  { unfold write. by rewrite ztake_app_le by (rewrite zlen_mbap; lia). }
  assert (Hrun : forall x2, ModbusTcp.send_and_receive asked (modbus_tcp g) = (Ok tt, x2) ->
    process_flow_client g = (
      rtu_send ← with_counter (convert_tcp_reponse_payload_to_rtu_response_payload (ModbusTcp.response x2));
      with_rtu (ModbusRtu.send rtu_send) ;;;
      signal_led Led3On) (mk id x2 y1 (Some Led3Off))).
  { intros x2 Hx2. unfold process_flow_client. erewrite bind_ok by reflexivity.
    erewrite bind_ok by (apply with_rtu_ok; exact Hy1). erewrite bind_ok by reflexivity.
    cbn [modbus_rtu]. unfold ModbusRtu.convert_request. rewrite (proj1 (proj2 (proj2 Hat1))).
    erewrite bind_ok by (apply with_counter_ok, rtu_request_to_tcp; [done|lia|exact Hc]).
    rewrite Hp. erewrite bind_ok by (apply with_tcp_ok; exact Hx2). by erewrite bind_ok by reflexivity. }
  split; intros Hk6; [|intros Hr6].
  - destruct (Hall Hk6) as (x2 & Hx2 & Hax2). rewrite (Hrun _ Hx2), (proj1 Hax2).
    erewrite bind_ok
      by (apply with_counter_ok; cbn [counter]; rewrite tcp_response_to_rtu, Z.eqb_refl by lia;
          reflexivity).
    destruct (transmit_ok (told ++ create_crc told) _ _ _ _ _ Hat1) as (y2 & Hy2 & Hat2).
    erewrite bind_ok by (apply with_rtu_ok; exact Hy2).
    eexists; split; [reflexivity|]. cbn.
    destruct Hat2 as (? & _ & _ & _ & ?), Hax2 as (_ & _ & ? & ?). by repeat split.
  - destruct (Hpart Hk6 Hr6) as (x2 & Hx2 & Hax2). rewrite (Hrun _ Hx2), (proj1 Hax2).
    erewrite bind_err
      by (apply with_counter_err; cbn [counter]; by rewrite short_response by (by rewrite zlen_header_read)).
    eexists; split; [reflexivity|]. cbn.
    destruct Hat1 as (? & _ & _ & _ & ?), Hax2 as (_ & _ & _ & ?). by repeat split.
Qed.
End flow_properties.

Section conversion_properties.
Context `{Profile} `{HeaplessExtend} `{Crc16}.

(** The conversions of the client and of the bridge are inverse to each
    other.  A serial request that goes out under a transaction identifier comes
    back the same frame, and sets the bridge's identifier to it; the reply to
    it, of at most 255 bytes, comes back the same frame, and only under that
    identifier. *)
Theorem modbus_conversions_roundtrip p r c c' other
  (Hc : 0 <= c < 2 ^ 16) (Hp : 2 <= zlen p <= 6) (Hr : 1 <= zlen r <= 255) :
  let id := wrap 16 (c + 1) in
  exists request response,
    convert_rtu_request_payload_to_tcp_request_payload (p ++ create_crc p) c = (Ok request, id) /\
    convert_tcp_request_payload_to_rtu_request_payload request c' =
      (Ok (p ++ create_crc p), id) /\
    convert_rtu_reponse_payload_to_tcp_response_payload (r ++ create_crc r) id =
      (Ok response, id) /\
    convert_tcp_reponse_payload_to_rtu_response_payload response other =
      (if other =? id then Ok (r ++ create_crc r) else Err InvalidTransactionId, other).
Proof.
  intros id. assert (Hid : 0 <= id < 2 ^ 16) by (apply wrap_range; lia).
  exists (mbap id (zlen p) ++ p), (mbap id (zlen r) ++ r).
  split; [by apply rtu_request_to_tcp|]. split; [|split].
  - set (b1 := id / 2 ^ (8 * Z.of_nat 1) mod 256). set (b0 := id / 2 ^ (8 * Z.of_nat 0) mod 256).
    change (mbap id (zlen p) ++ p) with (b1 :: b0 :: (MODBUS_PROTO ++ be_bytes 2 (zlen p)) ++ p).
    rewrite tcp_request_to_rtu by (done || lia). f_equal.
    by apply (be_value_bytes_small 2).
  - by apply rtu_response_to_tcp; [|lia].
  - rewrite tcp_response_to_rtu by lia. rewrite Z.mod_small, ztake_all by lia. done.
Qed.
End conversion_properties.

Section faults.
Context `{Profile} `{HeaplessVec} `{HeaplessExtend} `{Crc16} {U : Type} `{Uart U}.

(** Two faults of the serial side.  A device that announces 254 or 255
    bytes of data makes the length, an [u8], overflow: the task panics where
    overflows are checked.  And a write that fails returns with the driver of
    the line still on, so that no device can answer any more. *)
Theorem modbus_serial_faults (s : ModbusRtu.t U) unit fn n u1 payload u2 u3
  (Hn : 254 <= n < 256) (Hchecks : overflow_checks = true)
  (Hread : uart_read (ModbusRtu.serial s) 3 = (Some [unit; fn; n], u1))
  (Hflush : uart_flush (ModbusRtu.serial s) = (true, u2))
  (Hwrite : uart_write u2 payload = (false, u3)) :
  (ModbusRtu.receive s).1 = Panic POverflow /\
  (ModbusRtu.transmit payload s).1 = Err Rtu /\
  ModbusRtu.tx_en (ModbusRtu.transmit payload s).2 = true.
Proof.
  split.
  - unfold ModbusRtu.receive. erewrite bind_ok by reflexivity.
    erewrite bind_ok by (unfold ModbusRtu.on_serial; cbn; by rewrite Hread).
    erewrite bind_ok by reflexivity. erewrite bind_panic; [done|].
    unfold lift, payload_length, mbind, outcome_bind. cbn [lookup list_lookup].
    by rewrite checked_overflow, Hchecks by lia.
  - assert (Ht : exists s', ModbusRtu.transmit payload s = (Err Rtu, s') /\
      ModbusRtu.tx_en s' = true); [|by destruct Ht as (s' & -> & ?)].
    eexists. split.
    + unfold ModbusRtu.transmit.
      erewrite bind_ok by (unfold ModbusRtu.on_serial; by rewrite Hflush).
      do 2 erewrite bind_ok by reflexivity.
      erewrite bind_ok by (unfold ModbusRtu.on_serial; cbn; by rewrite Hwrite).
      by apply bind_err.
    + reflexivity.
Qed.
End faults.

(** ** Concrete lines *)

Module SampleLines.
(** CRC-16/MODBUS, bit by bit. *)
Definition crc_bit (crc : Z) : Z :=
  if Z.testbit crc 0 then Z.lxor (Z.shiftr crc 1) 0xA001 else Z.shiftr crc 1.
Definition modbus_crc (s : list Z) : Z :=
  wrap 16 (fold_left (fun crc b => Nat.iter 8 crc_bit (Z.lxor crc b)) s 0xFFFF).

#[refine, global] Instance crc : Crc16 := {| crc16 := modbus_crc |}.
Proof. intros s. by apply wrap_range. Defined.

(** A meter that answers every request with two registers, and the line to it:
    the bytes that wait and the frames that were written. *)
Definition meter : list Z := reply 1 4 [0x12; 0x34; 0x56; 0x78].
Definition line : Type := list Z * list (list Z).

#[global] Instance line_uart : Uart line := {
  uart_flush := fun u => (true, u);
  uart_write := fun u bs => (true, (u.1 ++ meter ++ create_crc meter, u.2 ++ [bs]));
  uart_read := fun u n =>
    if n <=? zlen u.1 then (Some (ztake n u.1), (zdrop n u.1, u.2)) else (None, u);
  uart_read_until_idle := fun u _ =>
    match u.1 with b :: bs => (Some [b], (bs, u.2)) | [] => (None, u) end;
}.

#[refine, global] Instance line_laws : SerialLine line := {|
  waiting := fst; written := snd; device := fun _ => meter ++ create_crc meter
|}.
Proof.
  - intros u. by exists u.
  - intros u bs. by eexists.
  - intros u n bs rest Hw <-. cbn. rewrite Hw. pose proof (zlen_nonneg rest).
    rewrite (proj2 (Z.leb_le _ _)) by (zlen; lia). rewrite ztake_app_len, zdrop_app_len.
    by eexists.
  - intros u b rest Hw. cbn. rewrite Hw. by eexists.
Defined.

(** A client that asks, or a server that answers; the socket takes nine bytes of
    a write at most, and a read gives what is asked for if there is as much. *)
Definition conn : Type := list Z * list (list Z).

#[global] Instance conn_socket : Socket conn := {
  tcp_read := fun x n => (Some (ztake n x.1), (zdrop n x.1, x.2));
  tcp_read_exact := fun x n =>
    if n <=? zlen x.1 then (Some (ztake n x.1), (zdrop n x.1, x.2)) else (None, x);
  tcp_write := fun x bs => (Some (Z.min 9 (zlen bs)), (x.1, x.2 ++ [bs]));
}.

(** The laws of a connection that keeps what is to come and what was given to
    write, in a state that may hold more. *)
Lemma read_some (inc : list Z) n :
  0 < n -> inc <> [] -> 1 <= zlen (ztake n inc) <= n /\ inc = ztake n inc ++ zdrop n inc.
Proof.
  intros Hn Hi. rewrite ztake_zdrop. split; [|done]. destruct inc as [|x inc]; [done|].
  unfold ztake, zlen. rewrite length_take. cbn [length]. lia.
Qed.

#[refine, global] Instance conn_peer : TcpPeer conn := {|
  incoming := fst; outgoing := snd
|}.
Proof.
  - intros x n bs rest Hw <-. cbn. rewrite Hw. pose proof (zlen_nonneg rest).
    rewrite (proj2 (Z.leb_le _ _)) by (zlen; lia). rewrite ztake_app_len, zdrop_app_len.
    by eexists.
  - intros x n Hn. cbn. rewrite (proj2 (Z.leb_gt _ _)) by exact Hn. by eexists.
  - intros x n Hn Hi. destruct (read_some x.1 n Hn Hi) as [Hl Hx].
    eexists _, _. split; [reflexivity|]. by cbn.
  - intros x bs. done.
Defined.

(** The same, but a read gives four bytes at most. *)
Record slow : Type := mk_slow { fast : conn }.

#[global] Instance slow_socket : Socket slow := {
  tcp_read := fun x n => let '(r, c) := tcp_read (fast x) (Z.min n 4) in (r, mk_slow c);
  tcp_read_exact := fun x n => let '(r, c) := tcp_read_exact (fast x) n in (r, mk_slow c);
  tcp_write := fun x bs => let '(r, c) := tcp_write (fast x) bs in (r, mk_slow c);
}.

#[refine, global] Instance slow_peer : TcpPeer slow := {|
  incoming := fun x => incoming (fast x); outgoing := fun x => outgoing (fast x)
|}.
Proof.
  - intros x n bs rest Hw Hn. destruct (read_exact_peer (fast x) n bs rest Hw Hn) as (c & Hc & ? & ?).
    exists (mk_slow c). change (tcp_read_exact x n) with (let '(r, c) := tcp_read_exact (fast x) n in (r, mk_slow c)). by rewrite Hc.
  - intros x n Hn. destruct (read_exact_short (fast x) n Hn) as (c & Hc & ?).
    exists (mk_slow c). change (tcp_read_exact x n) with (let '(r, c) := tcp_read_exact (fast x) n in (r, mk_slow c)). by rewrite Hc.
  - intros x n Hn Hi. destruct (read_peer (fast x) (Z.min n 4) ltac:(lia) Hi) as (bs & c & Hc & Hb & ? & ?).
    exists bs, (mk_slow c).
    change (tcp_read x n) with (let '(r, c) := tcp_read (fast x) (Z.min n 4) in (r, mk_slow c)). rewrite Hc. split; [done|]. split; [lia|done].
  - intros x bs. exact (write_peer (fast x) bs).
Defined.

Definition pdu : list Z := [1; 4; 0; 144; 0; 2].
Definition gateway {T} (socket : T) (waiting : list Z) : Gateway.t T line :=
  Gateway.mk 0 (ModbusTcp.new socket) (ModbusRtu.new (waiting, [])) None.

(** A line that breaks when it is written to. *)
#[local] Instance broken : Uart unit := {
  uart_flush := fun u => (true, u);
  uart_write := fun u _ => (false, u);
  uart_read := fun u _ => (Some [1; 4; 254], u);
  uart_read_until_idle := fun u _ => (None, u);
}.
End SampleLines.
Import SampleLines.
#[local] Existing Instance dev_profile.
#[local] Existing Instance list_vec.
#[local] Existing Instance list_extend.
#[local] Existing Instance broken.

(** The catalogue's check value of CRC-16/MODBUS. *)
Example modbus_crc_check : modbus_crc [49; 50; 51; 52; 53; 54; 55; 56; 57] = 0x4B37.
Proof. reflexivity. Qed.

Lemma modbus_bridge_flow_witness :
  exists g',
    Gateway.process_flow_bridge (T := conn) (gateway ([0x12; 0x34; 0; 0; 0; 6] ++ pdu ++ [9], []) []) =
      (Ok tt, g') /\
    outgoing (ModbusTcp.socket (Gateway.modbus_tcp g')) =
      [[0x12; 0x34; 0; 0; 0; 7; 1; 4; 4; 0x12; 0x34; 0x56; 0x78]] /\
    written (ModbusRtu.serial (Gateway.modbus_rtu g')) = [pdu ++ create_crc pdu].
Proof.
  assert (Hdev : device (U := line) (pdu ++ create_crc pdu) =
    reply 1 4 [0x12; 0x34; 0x56; 0x78] ++ create_crc (reply 1 4 [0x12; 0x34; 0x56; 0x78]))
    by reflexivity.
  destruct (modbus_bridge_flow (T := conn) (gateway ([0x12; 0x34; 0; 0; 0; 6] ++ pdu ++ [9], []) [])
    0x12 0x34 [0; 0; 0; 6] pdu 1 4 [0x12; 0x34; 0x56; 0x78] [] [] [] [] [9] [] []
    ltac:(concrete) eq_refl eq_refl eq_refl ltac:(repeat split) ltac:(repeat split) Hdev)
    as (g' & H1 & (_ & _ & _ & H2) & _ & H3 & _); [done|].
  exists g'. exact (conj H1 (conj H2 H3)).
Defined.

(** The response of the meter, over a socket that gives the whole header and over
    one that gives four bytes of it. *)
Lemma modbus_client_flow_witness :
  let answer := mbap 1 7 ++ meter in
  (exists g',
    Gateway.process_flow_client (T := conn) (gateway (answer, []) (pdu ++ create_crc pdu)) = (Ok tt, g') /\
    Gateway.counter g' = 1 /\
    outgoing (ModbusTcp.socket (Gateway.modbus_tcp g')) = [[0; 1; 0; 0; 0; 6] ++ pdu] /\
    written (ModbusRtu.serial (Gateway.modbus_rtu g')) = [meter ++ create_crc meter]) /\
  exists g',
    Gateway.process_flow_client (T := slow) (gateway (mk_slow (answer, [])) (pdu ++ create_crc pdu)) =
      (Err (TcpRxFail 6), g') /\
    written (ModbusRtu.serial (Gateway.modbus_rtu g')) = [].
Proof.
  intros answer. split.
  - destruct (modbus_client_flow (T := conn) (gateway (answer, []) (pdu ++ create_crc pdu)) pdu meter
      [] [] [] [] [] [] [] 9 ltac:(concrete) eq_refl ltac:(concrete) ltac:(repeat split)
      ltac:(repeat split) eq_refl) as (_ & k & Hk & Hread & Hall & _).
    assert (k = 6) as -> by (revert Hread; assert (k = 1 \/ k = 2 \/ k = 3 \/ k = 4 \/ k = 5 \/ k = 6) as
      [->|[->|[->|[->|[->| ->]]]]] by lia; vm_compute; intros; congruence).
    destruct (Hall eq_refl) as (g' & H1 & H2 & H3 & _ & H4 & _).
    exists g'. exact (conj H1 (conj H2 (conj H3 H4))).
  - destruct (modbus_client_flow (T := slow) (gateway (mk_slow (answer, [])) (pdu ++ create_crc pdu)) pdu meter
      [] [] [] [] [] [] [] 9 ltac:(concrete) eq_refl ltac:(concrete) ltac:(repeat split)
      ltac:(repeat split) eq_refl) as (_ & k & Hk & Hread & _ & Hpart).
    assert (k = 4) as -> by (revert Hread; assert (k = 1 \/ k = 2 \/ k = 3 \/ k = 4 \/ k = 5 \/ k = 6) as
      [->|[->|[->|[->|[->| ->]]]]] by lia; vm_compute; intros; congruence).
    destruct (Hpart ltac:(lia) ltac:(concrete)) as (g' & H1 & _ & _ & H2 & _).
    exists g'. exact (conj H1 H2).
Defined.

Lemma modbus_conversions_roundtrip_witness :
  exists request response,
    convert_rtu_request_payload_to_tcp_request_payload (pdu ++ create_crc pdu) 65535 =
      (Ok request, 0) /\
    convert_tcp_request_payload_to_rtu_request_payload request 7 =
      (Ok (pdu ++ create_crc pdu), 0) /\
    convert_rtu_reponse_payload_to_tcp_response_payload (meter ++ create_crc meter) 0 =
      (Ok response, 0) /\
    convert_tcp_reponse_payload_to_rtu_response_payload response 3 =
      (Err InvalidTransactionId, 3).
Proof. apply (modbus_conversions_roundtrip pdu meter 65535 7 3); concrete. Defined.

Lemma modbus_serial_faults_witness :
  (ModbusRtu.receive (ModbusRtu.new tt)).1 = Panic POverflow /\
  (ModbusRtu.transmit pdu (ModbusRtu.new tt)).1 = Err Rtu /\
  ModbusRtu.tx_en (ModbusRtu.transmit pdu (ModbusRtu.new tt)).2 = true.
Proof. apply (modbus_serial_faults (ModbusRtu.new tt) 1 4 254 tt pdu tt tt); done. Defined.
