(* ===== verification/ModbusTask.v ===== *)
(** The life of the gateway's connections: the TCP modes of
    stm32f407_controller/src/bin/tasks/modbus/models.rs, waiting for,
    connecting and closing the socket, and the loops of modbus_tcp_gateway.rs.

    A turn of the outer loop serves one connection.  [late] stands for the timer
    of the inner loop: the state it leaves the gateway in if it fires before the
    [process_flow] that starts in a given state is done, which is a state the
    process can be dropped in ([cut]).  The task's own doings are logged in
    order, the waits among them. *)
From S2P Require Import Prelude.
From S2P Require Import Heapless.
From S2P Require Import Modbus.

(** ** The modes *)

Inductive SocketAddr : Type := V4 (octets : list Z) (p : Z) | V6 (octets : list Z) (p : Z).

Definition port (sa : SocketAddr) : Z := match sa with V4 _ p => p | V6 _ p => p end.

Inductive ModbusRtuMode : Type := RtuClient | RtuServer.
Inductive ModbusTcpMode : Type := TcpClient (sa : SocketAddr) | TcpServer (sa : SocketAddr).

Definition mode_builder (tcp_mode : ModbusTcpMode) : ModbusRtuMode * ModbusTcpMode :=
  match tcp_mode with
  | TcpClient sa => (RtuClient, TcpClient sa)
  | TcpServer p => (RtuServer, TcpServer p)
  end.

Definition get_port (self : ModbusTcpMode) : Z :=
  match self with
  | TcpClient socket => match socket with V4 _ p => p | V6 _ p => p end
  | TcpServer p => port p
  end.

Definition get_ip (self : ModbusTcpMode) : option SocketAddr :=
  match self with TcpClient socket => Some socket | TcpServer _ => None end.

Record IpEndpoint : Type := mk_endpoint { addr : list Z; endpoint_port : Z }.

(** [From<ModbusTcpMode> for IpEndpoint]; [Ipv4Address::default()] is 0.0.0.0. *)
Definition into_endpoint {E} (val : ModbusTcpMode) : outcome E IpEndpoint :=
  match val with
  | TcpClient (V4 octets p) => Ok (mk_endpoint octets p)
  | TcpClient (V6 _ _) => Panic PTodo
  | TcpServer p => Ok (mk_endpoint [0; 0; 0; 0] (port p))
  end.

(** ** The socket

    [tcp_open] drops the socket and makes a new one on the same stack. *)
Class SocketControl (T : Type) : Type := {
  tcp_open : T -> T;
  tcp_accept : T -> Z -> bool * T;
  tcp_connect : T -> IpEndpoint -> bool * T;
  tcp_closed : T -> bool;
  tcp_close : T -> T;
  tcp_abort : T -> T;
}.

Inductive action : Type :=
| Opens | Accepts (p : Z) | Connects (ep : IpEndpoint) | Sleeps (ms : Z) | Closes | Aborts.

(** The task: the gateway and what it has done. *)
Record t {T U : Type} : Type := mk { gateway : Gateway.t T U; actions : list action }.
Arguments t T U : clear implicits.
Arguments mk {T U}.

(** The states in which a computation can be dropped while it waits. *)
Inductive cut {E : Type} : forall S A, M S E A -> S -> S -> Prop :=
| cut_here S A (m : M S E A) s : cut S A m s s
| cut_first S A B (m : M S E A) (f : A -> M S E B) s s' : cut S A m s s' -> cut S B (m ≫= f) s s'
| cut_then S A B (m : M S E A) (f : A -> M S E B) s a s1 s' :
  m s = (Ok a, s1) -> cut S B (f a) s1 s' -> cut S B (m ≫= f) s s'
| cut_part S T A (get : S -> T) (set : T -> S -> S) (m : M T E A) s x :
  cut T A m (get s) x -> cut S A (on_part get set m) s (set x s).
Arguments cut {E S A}.

Section task.
Context `{Profile} `{HeaplessVec} `{HeaplessExtend} `{Crc16} {T U : Type}
  `{Socket T} `{Uart U} `{SocketControl T}.
Abbreviation C := (M (t T U) ModbusError).

Definition set_tcp (x : ModbusTcp.t T) (s : t T U) : t T U :=
  mk (Gateway.mk (Gateway.counter (gateway s)) x (Gateway.modbus_rtu (gateway s))
        (Gateway.led (gateway s))) (actions s).
Definition act (a : action) (s : t T U) : t T U := mk (gateway s) (actions s ++ [a]).
Definition on_tcp (f : T -> T) (s : t T U) : t T U :=
  let x := Gateway.modbus_tcp (gateway s) in
  set_tcp (ModbusTcp.set_socket (f (ModbusTcp.socket x)) x) s.

(** [Timer::after(Duration::from_millis(ms)).await] *)
Definition sleep (ms : Z) : C unit := modify (act (Sleeps ms)).

(** An operation of the socket that may fail. *)
Definition try_tcp (f : T -> bool * T) (e : ModbusError) : C unit := fun s =>
  let x := Gateway.modbus_tcp (gateway s) in
  let '(ok, sock) := f (ModbusTcp.socket x) in
  (if ok then Ok tt else Err e, set_tcp (ModbusTcp.set_socket sock x) s).

Definition wait_connection (tcpmode : ModbusTcpMode) : C unit :=
  modify (act (Accepts (get_port tcpmode))) ;;;
  try_tcp (fun x => tcp_accept x (get_port tcpmode)) TcpAccept.

Definition connect (tcpmode : ModbusTcpMode) : C unit :=
  ip ← lift (into_endpoint tcpmode);
  modify (act (Connects ip)) ;;;
  try_tcp (fun x => tcp_connect x ip) TcpConnect.

Definition reset (timeout : Z) : C unit :=
  closed ← gets (fun s => tcp_closed (ModbusTcp.socket (Gateway.modbus_tcp (gateway s))));
  if closed : bool then mret tt
  else
    sleep timeout ;;;
    modify (fun s => act Closes (on_tcp tcp_close s)) ;;;
    sleep 100 ;;;
    modify (fun s => act Aborts (on_tcp tcp_abort s)).

(** [ModbusTcp::new(TcpSocket::new(..), tcpmode, 1000)] *)
Definition open_socket : C unit := modify (fun s =>
  act Opens (set_tcp (ModbusTcp.new (tcp_open (ModbusTcp.socket (Gateway.modbus_tcp (gateway s))))) s)).

Definition timeout : Z := 1000.

Section loops.
Context (process_flow : M (Gateway.t T U) ModbusError unit).
Context (late : Gateway.t T U -> option (Gateway.t T U)).

(** The loop [inner]. *)
Fixpoint inner (fuel : nat) : C unit := fun s =>
  match fuel with
  | O => (OutOfFuel, s)
  | S fuel =>
    match late (gateway s) with
    | Some g => (Ok tt, mk g (actions s))
    | None =>
      let '(process, g) := process_flow (gateway s) in
      let s := mk g (actions s) in
      match process with
      | Panic p => (Panic p, s)
      | OutOfFuel => (OutOfFuel, s)
      | _ => if Gateway.inner_continues (Some process) then inner fuel s else (Ok tt, s)
      end
    end
  end.

(** A turn of the outer loop with [modbus_bridge]. *)
Definition bridge_turn (fuel : nat) (tcpmode : ModbusTcpMode) : C unit :=
  open_socket ;;;
  connected ← attempt (wait_connection tcpmode);
  match connected with
  | inr e => reset timeout
  | inl _ => inner fuel ;;; reset timeout
  end.

(** With [modbus_client]. *)
Definition client_turn (fuel : nat) (tcpmode : ModbusTcpMode) : C unit :=
  open_socket ;;;
  connected ← attempt (connect tcpmode);
  match connected with
  | inr e => reset timeout ;;; sleep 2000
  | inl _ => inner fuel ;;; reset timeout
  end.
End loops.

(** What [modbus_task] makes of the addresses: the bridge listens on
    "0.0.0.0:502", and both are clients by their mode. *)
Definition bridge_mode : ModbusTcpMode := TcpClient (V4 [0; 0; 0; 0] 502).
Definition client_mode (remote : SocketAddr) : ModbusTcpMode := TcpClient remote.
End task.

(** ** A connection to the bridge *)

(** A request of the peer and what the device makes of it: a reply, with the
    right checksum or another. *)
Record exchange : Type := mk_exchange {
  id0 : Z; id1 : Z;
  header : list Z;
  pdu : list Z;
  unit_id : Z; fn : Z;
  data : list Z;
  crc : list Z
}.

Section session.
Context `{Profile} `{HeaplessVec} `{HeaplessExtend} `{Crc16} {T U : Type}
  `{TcpPeer T} `{SerialLine U} `{!SocketControl T}.
Implicit Type s : t T U.

Definition request (e : exchange) : list Z := id0 e :: id1 e :: header e ++ pdu e.
Definition reply_of (e : exchange) : list Z := reply (unit_id e) (fn e) (data e).
Definition response (e : exchange) : list Z :=
  bridge_response (id0 e) (id1 e) (unit_id e) (fn e) (data e).
Definition good (e : exchange) : bool := bool_decide (crc e = create_crc (reply_of e)).

Definition wf_exchange (e : exchange) : Prop :=
  (byte_ok (id0 e) /\ byte_ok (id1 e)) /\ zlen (header e) = 4 /\ zlen (pdu e) = 6 /\
  zlen (data e) < 254 /\ zlen (crc e) = 2 /\
  device (U := U) (pdu e ++ create_crc (pdu e)) = reply_of e ++ crc e.

(** What the peer is sent, and what the device. *)
Definition responses (es : list exchange) : list (list Z) :=
  map response (List.filter good es).
Definition frames (es : list exchange) : list (list Z) :=
  map (fun e => pdu e ++ create_crc (pdu e)) es.

Lemma bridge_flow_exchange e g resp req resp' req' rest out wr :
  wf_exchange e ->
  tcp_at resp req (request e ++ rest) out (Gateway.modbus_tcp g) ->
  rtu_at resp' req' [] wr (Gateway.modbus_rtu g) ->
  exists o g' r' q', Gateway.process_flow_bridge g = (o, g') /\
    Gateway.inner_continues (Some o) = true /\
    (o = Ok tt \/ o = Err CrcRx \/ o = Err Tcp) /\
    tcp_at resp (request e) rest (out ++ responses [e]) (Gateway.modbus_tcp g') /\
    rtu_at r' q' [] (wr ++ frames [e]) (Gateway.modbus_rtu g').
Proof.
  intros (Hb & Hh & Hp & Hd & Hc & Hdev) Htcp Hrtu.
  unfold request in Htcp. cbn [app] in Htcp. rewrite <- app_assoc in Htcp.
  destruct (bridge_exchange g (id0 e) (id1 e) (header e) (pdu e) (unit_id e) (fn e) (data e) (crc e)
    resp req resp' req' rest out wr Hb Hh Hp Hd Hc Htcp Hrtu Hdev) as (x & g' & He & Ht & Hr & _).
  fold (response e) in He, Ht.
  change (bool_decide (crc e = create_crc (reply (unit_id e) (fn e) (data e)))) with (good e) in He, Ht.
  eexists _, g', _, _. split; [exact He|]. unfold responses; cbn [List.filter].
  unfold write_report. destruct (good e), (tcp_write x (response e)).1; cbn [map];
    (split; [done|]; split; [tauto|]; split; [exact Ht|exact Hr]).
Qed.

(** What is left of the gateway if the timer drops it while it waits for a request:
    the LED is off and the request empty, and the socket has read what it has. *)
Definition gave_up (g g' : Gateway.t T U) : Prop :=
  exists x', outgoing x' = outgoing (ModbusTcp.socket (Gateway.modbus_tcp g)) /\
    g' = Gateway.mk (Gateway.counter g)
      (ModbusTcp.mk x' (ModbusTcp.response (Gateway.modbus_tcp g)) [])
      (Gateway.modbus_rtu g) (Some Led3Off).

(** The timer of 30 s fires in the wait for a request only, when no whole
    request is still to come. *)
Definition timer_in_wait (late : Gateway.t T U -> option (Gateway.t T U)) : Prop :=
  forall g g', late g = Some g' ->
    zlen (incoming (ModbusTcp.socket (Gateway.modbus_tcp g))) < 12 /\ gave_up g g'.

(** Without a whole request to come the loop ends, by the timer or by the end of
    the connection. *)
Lemma inner_end late fuel s resp req resp' req' rest out wr :
  timer_in_wait late -> (0 < fuel)%nat -> zlen rest < 12 ->
  tcp_at resp req rest out (Gateway.modbus_tcp (gateway s)) ->
  rtu_at resp' req' [] wr (Gateway.modbus_rtu (gateway s)) ->
  exists s', inner Gateway.process_flow_bridge late fuel s = (Ok tt, s') /\
    actions s' = actions s /\
    outgoing (ModbusTcp.socket (Gateway.modbus_tcp (gateway s'))) = out /\
    Gateway.modbus_rtu (gateway s') = Gateway.modbus_rtu (gateway s) /\
    Gateway.led (gateway s') = Some Led3Off.
Proof.
  intros Hlate Hf Hrest Htcp Hrtu. destruct fuel as [|fuel]; [lia|]. cbn [inner].
  destruct s as [[c [x rs rq] y ld] l]. cbn [gateway actions Gateway.modbus_tcp Gateway.modbus_rtu] in *.
  destruct Htcp as (Hr & Hq & Hi & Ho). cbn in Hr, Hq, Hi, Ho. subst.
  destruct (late _) as [g'|] eqn:Hl.
  - destruct (Hlate _ _ Hl) as [_ (x' & Hx & ->)]. eexists. split; [reflexivity|]. by cbn.
  - destruct (read_exact_short x 12 ltac:(exact Hrest)) as (x' & Hx & Hout).
    assert (He : Gateway.process_flow_bridge (Gateway.mk c (ModbusTcp.mk x resp req) y ld) =
      (Err ReadExactError, Gateway.mk c (ModbusTcp.mk x' resp []) y (Some Led3Off))).
    { unfold Gateway.process_flow_bridge. erewrite bind_ok by reflexivity.
      apply bind_err. unfold Gateway.with_tcp, on_part. cbn [Gateway.modbus_tcp].
      unfold ModbusTcp.listen. erewrite bind_ok by reflexivity.
      erewrite bind_ok by (unfold ModbusTcp.on_socket; cbn; by rewrite Hx). reflexivity. }
    rewrite He. eexists. split; [reflexivity|]. by cbn.
Qed.

Lemma inner_session late es : forall fuel s resp req resp' req' rest out wr,
  timer_in_wait late ->
  Forall wf_exchange es -> (length es < fuel)%nat -> zlen rest < 12 ->
  tcp_at resp req (concat (map request es) ++ rest) out (Gateway.modbus_tcp (gateway s)) ->
  rtu_at resp' req' [] wr (Gateway.modbus_rtu (gateway s)) ->
  exists s', inner Gateway.process_flow_bridge late fuel s = (Ok tt, s') /\
    actions s' = actions s /\
    outgoing (ModbusTcp.socket (Gateway.modbus_tcp (gateway s'))) = out ++ responses es /\
    ModbusRtu.tx_en (Gateway.modbus_rtu (gateway s')) = false /\
    written (ModbusRtu.serial (Gateway.modbus_rtu (gateway s'))) = wr ++ frames es /\
    Gateway.led (gateway s') = Some Led3Off.
Proof.
  induction es as [|e es IH]; intros fuel s resp req resp' req' rest out wr Hlate Hes Hf Hrest Htcp Hrtu.
  - destruct (inner_end late fuel s resp req resp' req' rest out wr Hlate Hf Hrest Htcp Hrtu)
      as (s' & Hs & Ha & Ho & Hr & Hled).
    exists s'. rewrite Hr, !app_nil_r. destruct Hrtu as (? & _ & _ & _ & ?). by repeat split.
  - destruct s as [g l], fuel as [|fuel]; [cbn in Hf; lia|]. cbn [inner gateway actions] in *.
    apply List.Forall_cons_iff in Hes as [He Hes]. cbn [map concat] in Htcp. rewrite <- app_assoc in Htcp.
    destruct (late g) as [g'|] eqn:Hl.
    { exfalso. destruct (Hlate _ _ Hl) as [Hlen _]. destruct Htcp as (_ & _ & Hi & _). rewrite Hi in Hlen.
      destruct He as (_ & Hh & Hp & _). revert Hlen. unfold request at 1. zlen.
      pose proof (zlen_nonneg (concat (map request es))). pose proof (zlen_nonneg rest). lia. }
    destruct (bridge_flow_exchange e g _ _ _ _ _ _ _ He Htcp Hrtu)
      as (o & g' & r' & q' & Hp & Hc & Ho & Ht & Hr).
    rewrite Hp. destruct (IH fuel (mk g' l) _ _ _ _ rest _ _ Hlate Hes ltac:(cbn in Hf; lia) Hrest Ht Hr)
      as (s' & Hs & Ha & Hout & Hen & Hwr & Hled).
    exists s'. split; [by destruct Ho as [->|[-> | ->]]; exact Hs|].
    rewrite Hout, Hwr, <- !app_assoc. unfold responses, frames. cbn [List.filter].
    by destruct (good e).
Qed.


(** A timer that fires while the request is written to the serial line drops
    the process with the driver of the line on, and so the turn leaves it. *)
Lemma bridge_dropped_driver_on e g resp req resp' req' rest out wr u1
  (He : wf_exchange e)
  (Htcp : tcp_at resp req (request e ++ rest) out (Gateway.modbus_tcp g))
  (Hrtu : rtu_at resp' req' [] wr (Gateway.modbus_rtu g))
  (Hflush : uart_flush (ModbusRtu.serial (Gateway.modbus_rtu g)) = (true, u1)) :
  exists g', cut Gateway.process_flow_bridge g g' /\
    ModbusRtu.tx_en (Gateway.modbus_rtu g') = true.
Proof.
  destruct He as (Hb & Hh & Hp & _). destruct g as [c x y l].
  unfold request in Htcp. cbn [app] in Htcp. rewrite <- app_assoc in Htcp.
  destruct (listen_ok req resp (request e) rest out x) as (x1 & He1 & Hx1).
  { unfold request. cbn [app]. by rewrite <- app_assoc. }
  { unfold request. zlen. lia. }
  assert (Hcut : exists y', cut (ModbusRtu.send_and_receive (pdu e ++ create_crc (pdu e))) y y' /\
    ModbusRtu.tx_en y' = true).
  { eexists. split.
    - unfold ModbusRtu.send_and_receive. eapply cut_then; [reflexivity|].
      apply cut_first. unfold ModbusRtu.transmit.
      eapply cut_then; [unfold ModbusRtu.on_serial; cbn in Hflush |- *; by rewrite Hflush|].
      eapply cut_then; [reflexivity|]. eapply cut_then; [reflexivity|]. apply cut_here.
    - reflexivity. }
  destruct Hcut as (y' & Hcut & Hen).
  eexists. split.
  - unfold Gateway.process_flow_bridge. eapply cut_then; [reflexivity|].
    eapply cut_then; [apply with_tcp_ok; exact He1|].
    eapply cut_then; [reflexivity|]. cbn [Gateway.modbus_tcp].
    unfold ModbusTcp.convert_request. rewrite (proj1 (proj2 Hx1)).
    eapply cut_then.
    { apply with_counter_ok. unfold request. apply tcp_request_to_rtu; lia. }
    eapply cut_first. unfold Gateway.with_rtu. apply cut_part. exact Hcut.
  - exact Hen.
Qed.
End session.

Section client.
Context `{Profile} `{HeaplessVec} `{HeaplessExtend} `{Crc16} {T U : Type}
  `{Socket T} `{Uart U} `{SocketControl T}.
Implicit Type s : t T U.

(** A server that cannot be reached: the turn ends with a pause, of two seconds
    and the time it takes to close the socket if it is not closed, so that the
    next attempt comes no sooner.  A server with an IPv6 address stops the task
    at once. *)
Theorem modbus_client_connect process_flow late fuel s octets p x1
  (Hconn : tcp_connect (tcp_open (ModbusTcp.socket (Gateway.modbus_tcp (gateway s))))
    (mk_endpoint octets p) = (false, x1)) :
  (exists s', client_turn process_flow late fuel (client_mode (V4 octets p)) s = (Ok tt, s') /\
    actions s' = actions s ++ [Opens; Connects (mk_endpoint octets p)] ++
      (if tcp_closed x1 then [] else [Sleeps 1000; Closes; Sleeps 100; Aborts]) ++ [Sleeps 2000]) /\
  (client_turn process_flow late fuel (client_mode (V6 octets p)) s).1 = Panic PTodo.
Proof.
  split; [|reflexivity]. unfold client_turn. erewrite bind_ok by reflexivity.
  erewrite bind_ok.
  2: { apply attempt_err. unfold connect. do 2 erewrite bind_ok by reflexivity.
       unfold try_tcp. cbn. rewrite Hconn. reflexivity. }
  cbv beta iota. unfold reset. unfold mbind at 1 2, M_bind at 1 2. unfold gets at 1.
  cbn [gateway set_tcp Gateway.modbus_tcp ModbusTcp.socket ModbusTcp.set_socket].
  destruct (tcp_closed x1); eexists; (split; [reflexivity|]); cbn; by rewrite <- !app_assoc.
Qed.
End client.

(** ** A sample connection

    The device spoils its reply to the requests of the unit 2. *)
Module SampleTask.
Import SampleLines.

Definition spoil (bs : list Z) : list Z := if nth 0 bs 0 =? 2 then [0; 0] else create_crc meter.

Definition wire : Type := list Z * list (list Z).

#[global] Instance wire_uart : Uart wire := {
  uart_flush := fun u => (true, u);
  uart_write := fun u bs => (true, (u.1 ++ meter ++ spoil bs, u.2 ++ [bs]));
  uart_read := fun u n =>
    if n <=? zlen u.1 then (Some (ztake n u.1), (zdrop n u.1, u.2)) else (None, u);
  uart_read_until_idle := fun u _ =>
    match u.1 with b :: bs => (Some [b], (bs, u.2)) | [] => (None, u) end;
}.

#[refine, global] Instance wire_laws : SerialLine wire := {|
  waiting := fst; written := snd; device := fun bs => meter ++ spoil bs
|}.
Proof.
  - intros u. by exists u.
  - intros u bs. by eexists.
  - intros u n bs rest Hw <-. cbn. rewrite Hw. pose proof (zlen_nonneg rest).
    rewrite (proj2 (Z.leb_le _ _)) by (zlen; lia). rewrite ztake_app_len, zdrop_app_len.
    by eexists.
  - intros u b rest Hw. cbn. rewrite Hw. by eexists.
Defined.

(** What a peer that connects sends, what waits, what was sent, and whether the
    socket is closed. *)
Record sock : Type := mk_sock { script : list Z; inc : list Z; out : list (list Z); closed : bool }.

#[global] Instance sock_socket : Socket sock := {
  tcp_read := fun x n =>
    (Some (ztake n (inc x)), mk_sock (script x) (zdrop n (inc x)) (out x) (closed x));
  tcp_read_exact := fun x n =>
    if n <=? zlen (inc x)
    then (Some (ztake n (inc x)), mk_sock (script x) (zdrop n (inc x)) (out x) (closed x))
    else (None, mk_sock (script x) [] (out x) false);
  tcp_write := fun x bs => (Some (zlen bs), mk_sock (script x) (inc x) (out x ++ [bs]) (closed x));
}.

#[refine, global] Instance sock_peer : TcpPeer sock := {|
  incoming := inc; outgoing := out
|}.
Proof.
  - intros x n bs rest Hw <-. cbn. rewrite Hw. pose proof (zlen_nonneg rest).
    rewrite (proj2 (Z.leb_le _ _)) by (zlen; lia). rewrite ztake_app_len, zdrop_app_len.
    by eexists.
  - intros x n Hn. cbn. rewrite (proj2 (Z.leb_gt _ _)) by exact Hn. by eexists.
  - intros x n Hn Hi. destruct (read_some (inc x) n Hn Hi) as [Hl Hx].
    eexists _, _. split; [reflexivity|]. by cbn.
  - intros x bs. done.
Defined.

#[global] Instance sock_control : SocketControl sock := {
  tcp_open := fun x => mk_sock (script x) [] [] true;
  tcp_accept := fun x p => (p =? 502, mk_sock [] (script x) [] false);
  tcp_connect := fun x _ => (false, x);
  tcp_closed := closed;
  tcp_close := fun x => x;
  tcp_abort := fun x => mk_sock (script x) [] (out x) true;
}.

Definition ask (unit : Z) (c : list Z) : exchange :=
  mk_exchange 0 unit [0; 0; 0; 6] [unit; 4; 0; 144; 0; 2] 1 4 [0x12; 0x34; 0x56; 0x78] c.
Definition asked : list exchange := [ask 1 (create_crc meter); ask 2 [0; 0]; ask 3 (create_crc meter)].

Definition start (sent : list Z) : t sock wire :=
  mk (Gateway.mk 0 (ModbusTcp.new (mk_sock sent [] [] true)) (ModbusRtu.new ([], [])) None) [].
End SampleTask.
Import SampleTask.
#[local] Existing Instance dev_profile.
#[local] Existing Instance list_vec.
#[local] Existing Instance list_extend.
#[local] Existing Instance SampleLines.crc.

(** Three requests, the second answered with a wrong checksum, and three bytes
    more: two responses; once the peer leaves, once the timer ends the wait. *)
Definition never (g : Gateway.t sock wire) : option (Gateway.t sock wire) := None.
Definition tired (g : Gateway.t sock wire) : option (Gateway.t sock wire) :=
  let x := ModbusTcp.socket (Gateway.modbus_tcp g) in
  if zlen (inc x) <? 12
  then Some (Gateway.mk (Gateway.counter g)
    (ModbusTcp.mk (mk_sock (script x) [] (out x) false) (ModbusTcp.response (Gateway.modbus_tcp g)) [])
    (Gateway.modbus_rtu g) (Some Led3Off))
  else None.


Lemma modbus_client_connect_witness :
  exists s', client_turn (T := sock) (U := wire) Gateway.process_flow_client (fun _ => None) 4
      (client_mode (V4 [10; 0; 0; 7] 502)) (start []) = (Ok tt, s') /\
    actions s' = [Opens; Connects (mk_endpoint [10; 0; 0; 7] 502); Sleeps 2000].
Proof.
  assert (Hc : tcp_connect (tcp_open (mk_sock [] [] [] true)) (mk_endpoint [10; 0; 0; 7] 502) =
    (false, mk_sock [] [] [] true)) by reflexivity.
  destruct (modbus_client_connect (T := sock) (U := wire) Gateway.process_flow_client (fun _ => None) 4
    (start []) [10; 0; 0; 7] 502 (mk_sock [] [] [] true) Hc) as [(s' & Hs & Ha) _].
  exists s'. exact (conj Hs Ha).
Defined.
