(* ===== verification/Ob737.v ===== *)
(** The filter for the energy meter OB737: the module [ob737] of
    stm32f407_controller/src/bin/tasks/modbus/flow.rs, and the [process_flow] of
    the client that uses it.

    The inverter asks for the registers of its own meter; the filter replaces
    the request by one for the OB737, and the response by one in the inverter's
    layout.  The features that select the filter and its use are spelled
    differently ("ob737" and "OB737"), and only the second is declared, so that
    the two never are in one build; what is modelled is what the sources say
    with both.  Floating-point numbers are their patterns (F32). *)
From S2P Require Import Prelude.
From S2P Require Import Heapless.
From S2P Require Import F32.
From S2P Require Import Modbus.

Module FoxOb737.
Record t : Type := mk {
  request : list Z;
  meters : list Z;
  reactive : Z;
  read_first : bool
}.

Definition default : t := mk [] [0; 0; 0] 0 false.

Definition FOX_REQ : list Z := [1; 3].

(** [response_data.chunks(4)] *)
Fixpoint chunks_loop (fuel : nat) (l : list Z) : list (list Z) :=
  match fuel, l with
  | S fuel, _ :: _ => ztake 4 l :: chunks_loop fuel (zdrop 4 l)
  | _, _ => []
  end.
Definition chunks (l : list Z) : list (list Z) := chunks_loop (length l) l.

(** [f32::from_be_bytes([v[0], v[1], v[2], v[3]])] *)
Definition float_of (v : list Z) : outcome ModbusError Z :=
  v0 ← idx v 0;
  v1 ← idx v 1;
  v2 ← idx v 2;
  v3 ← idx v 3;
  Ok (f32_from_be_bytes [v0; v1; v2; v3]).

Section filter.
Context `{HeaplessVec} `{HeaplessExtend} `{Crc16} `{NanPattern}.

Definition set_request (r : list Z) (s : t) : t := mk r (meters s) (reactive s) (read_first s).
Definition set_meters (m : list Z) (s : t) : t := mk (request s) m (reactive s) (read_first s).
Definition set_reactive (r : Z) (s : t) : t := mk (request s) (meters s) r (read_first s).

Definition unwrapped (cap : Z) (output xs : list Z) : outcome ModbusError (list Z) :=
  let '(output, ok) := vec_extend_from_slice cap output xs in
  if ok : bool then Ok output else Panic PUnwrap.

Definition fox_to_om737_tcp_request_filter (input : list Z) : M t ModbusError (list Z) :=
  modify (set_request input) ;;;
  '(mbap, pdu) ← lift (split_at input 6);
  head ← lift (slice pdu 0 2);
  if negb (bool_decide (FOX_REQ = head)) then throw InvalidFilter
  else
    first ← gets read_first;
    let pl_request :=
      if first : bool then [0; 0; 0; 6; 1; 4; 0; 144; 0; 6] else [0; 0; 0; 6; 1; 4; 1; 16; 0; 8] in
    modify (fun s => mk (request s) (meters s) (reactive s) (negb (read_first s))) ;;;
    id ← lift (slice mbap 0 2);
    output ← lift (unwrapped MODBUS_TCP_REQ_VEC_SIZE [] id);
    output ← lift (unwrapped MODBUS_TCP_REQ_VEC_SIZE output pl_request);
    if zlen output =? 12 then mret output else panics PAssert.

(** [.enumerate().take(3).for_each(..)]; at most three chunks come, so the
    index is in range. *)
Fixpoint store_meters (u : Z) (cs : list (list Z)) : M t ModbusError unit :=
  match cs with
  | [] => mret tt
  | v :: cs =>
    x ← lift (float_of v);
    m ← gets meters;
    m ← lift (set_idx m u (f32_mul x (f32_lit 10000 1)));
    modify (set_meters m) ;;;
    store_meters (u + 1) cs
  end.

(** [.skip(3).take(1).for_each(..)] *)
Definition store_reactive (cs : list (list Z)) : M t ModbusError unit :=
  match drop 3 cs with
  | [] => mret tt
  | v :: _ =>
    x ← lift (float_of v);
    modify (set_reactive (as_u16 x))
  end.

(** [let _ = payload.extend_from_slice(xs)] *)
Definition extended (payload xs : list Z) : list Z := (vec_extend_from_slice MODBUS_VEC_SIZE payload xs).1.
Definition pushed (payload : list Z) (x : Z) : list Z := (vec_push MODBUS_VEC_SIZE payload x).1.

Definition fox_payload : M t ModbusError (list Z) :=
  s ← gets id;
  head ← lift (slice (request s) 0 2);
  len ← lift (idx (request s) 5);
  m0 ← lift (idx (meters s) 0);
  m1 ← lift (idx (meters s) 1);
  m2 ← lift (idx (meters s) 2);
  let payload := extended [] head in
  let payload := pushed payload len in
  let payload := extended payload (f32_to_be_bytes m0) in
  let payload := extended payload (f32_to_be_bytes m1) in
  let payload := extended payload (f32_to_be_bytes m2) in
  let payload := extended payload (be_bytes 2 (reactive s)) in
  body ← lift (slice payload 0 17);
  mret (extended payload (create_crc body)).

Definition om737_to_fox_rtu_request_filter (input : list Z) : M t ModbusError (list Z) :=
  bytes_len ← lift (idx input 2);
  if bytes_len =? 12 then
    response_data ← lift (slice_from input 3);
    store_meters 0 (take 3 (chunks response_data)) ;;;
    fox_payload
  else if bytes_len =? 16 then
    response_data ← lift (slice_from input 3);
    store_reactive (chunks response_data) ;;;
    fox_payload
  else mret input.
End filter.
End FoxOb737.

Section flow.
Context `{Profile} `{HeaplessVec} `{HeaplessExtend} `{Crc16} `{NanPattern} {T U : Type}
  `{Socket T} `{Uart U}.
Import Gateway.

(** A filter of its own for each request: [let mut ob737 = FoxOb737::default()].
    This version of [process_flow] is for the feature [OB737], its filter for
    [ob737]; no build has both. *)
Definition process_flow_ob737 : M (Gateway.t T U) ModbusError unit :=
  signal_led Led3Off ;;;
  with_rtu ModbusRtu.listen ;;;
  rtu ← gets modbus_rtu;
  f ← with_counter (ModbusRtu.convert_request convert_rtu_request_payload_to_tcp_request_payload rtu);
  let '(r, ob737) := FoxOb737.fox_to_om737_tcp_request_filter f FoxOb737.default in
  tcp_payload ← lift r;
  with_tcp (ModbusTcp.send_and_receive tcp_payload) ;;;
  tcp ← gets modbus_tcp;
  f ← with_counter (ModbusTcp.convert_response convert_tcp_reponse_payload_to_rtu_response_payload tcp);
  let '(r, ob737) := FoxOb737.om737_to_fox_rtu_request_filter f ob737 in
  rtu_send ← lift r;
  with_rtu (ModbusRtu.send rtu_send) ;;;
  signal_led Led3On.
End flow.

(** ** What the filter makes of a request and a response *)

Section filter_properties.
Context `{Profile} `{HeaplessVec} `{HeaplessExtend} `{Crc16} `{NanPattern}.
Import FoxOb737.

Lemma slice_two (b0 b1 : Z) (l : list Z) : slice (E := ModbusError) (b0 :: b1 :: l) 0 2 = Ok [b0; b1].
Proof. apply (slice_prefix [b0; b1] l). Qed.

(** A request of the inverter to the unit 1, function 3, asks the OB737 for eight
    registers from 0x110, whatever was asked. *)
Lemma fox_request_filtered b0 b1 h rest :
  zlen h = 4 ->
  fox_to_om737_tcp_request_filter (b0 :: b1 :: h ++ FOX_REQ ++ rest) default =
  (Ok ([b0; b1] ++ [0; 0; 0; 6; 1; 4; 1; 16; 0; 8]),
   mk (b0 :: b1 :: h ++ FOX_REQ ++ rest) [0; 0; 0] 0 true).
Proof.
  intros Hh. unfold fox_to_om737_tcp_request_filter. erewrite bind_ok by reflexivity.
  assert (Hsplit : split_at (b0 :: b1 :: h ++ FOX_REQ ++ rest) 6 = Ok (b0 :: b1 :: h, FOX_REQ ++ rest)).
  { change (b0 :: b1 :: h ++ FOX_REQ ++ rest) with ((b0 :: b1 :: h) ++ FOX_REQ ++ rest).
    apply split_at_app. zlen. lia. }
  erewrite bind_ok by (unfold lift; rewrite Hsplit; reflexivity). cbv beta iota.
  erewrite bind_ok by (unfold lift; rewrite (slice_prefix (E := ModbusError) FOX_REQ rest
    : slice (FOX_REQ ++ rest) 0 2 = Ok FOX_REQ); reflexivity).
  rewrite bool_decide_eq_true_2 by done. cbn [negb].
  do 2 erewrite bind_ok by reflexivity. cbn [read_first default set_request].
  erewrite bind_ok by (unfold lift; rewrite slice_two; reflexivity).
  unfold unwrapped, MODBUS_TCP_REQ_VEC_SIZE.
  erewrite bind_ok by (unfold lift; rewrite extend_slice_room by (zlen; lia); reflexivity).
  erewrite bind_ok by (unfold lift; rewrite extend_slice_room by (zlen; lia); reflexivity).
  reflexivity.
Qed.

(** The fourth float of a response of sixteen bytes. *)
Definition fourth (regs : list Z) : Z := as_u16 (be_value (zdrop 12 regs)).

(** The frame the inverter gets: the first bytes and the length of the request
    that was kept, no power on any phase, and the fourth float. *)
Definition fox_frame (b0 b1 len reactive : Z) : list Z :=
  [b0; b1; len] ++ replicate 12 0 ++ be_bytes 2 reactive.

Lemma extended_room l xs : zlen l + zlen xs <= 512 -> extended l xs = l ++ xs.
Proof. intros Hl. unfold extended. by rewrite extend_slice_room. Qed.

Lemma pushed_room l x : zlen l < 512 -> pushed l x = l ++ [x].
Proof. intros Hl. unfold pushed. by rewrite vec_push_room. Qed.

Lemma fox_response_filtered u fn regs crc s b0 b1 b2 b3 b4 len rest :
  zlen regs = 16 -> zlen crc = 2 -> request s = b0 :: b1 :: b2 :: b3 :: b4 :: len :: rest ->
  meters s = [0; 0; 0] ->
  (om737_to_fox_rtu_request_filter ([u; fn; 16] ++ regs ++ crc) s).1 =
  Ok (fox_frame b0 b1 len (fourth regs) ++ create_crc (fox_frame b0 b1 len (fourth regs))).
Proof.
  intros Hr Hc Hreq Hm.
  do 16 (destruct regs as [|? regs]; [zlen; lia|]). destruct regs; [|zlen; pose proof (zlen_nonneg regs); lia].
  do 2 (destruct crc as [|? crc]; [zlen; lia|]). destruct crc; [|zlen; pose proof (zlen_nonneg crc); lia].
  unfold om737_to_fox_rtu_request_filter. erewrite bind_ok by reflexivity.
  cbv beta. change (16 =? 12) with false. change (16 =? 16) with true. cbv iota.
  do 2 erewrite bind_ok by reflexivity.
  destruct s as [r m re rf]. cbn in Hreq, Hm. subst r m.
  unfold fox_payload. erewrite bind_ok by reflexivity. unfold id. cbn [request meters reactive set_reactive].
  erewrite bind_ok by (unfold lift; rewrite slice_two; reflexivity).
  do 4 erewrite bind_ok by reflexivity.
  rewrite (extended_room []) by (zlen; lia).
  rewrite (pushed_room ([] ++ [b0; b1])) by (zlen; lia).
  set (l3 := ([] ++ [b0; b1]) ++ [len]). assert (Hl3 : zlen l3 = 3) by reflexivity. change (f32_to_be_bytes 0) with [0; 0; 0; 0].
  rewrite (extended_room l3), (extended_room (l3 ++ _)), (extended_room ((l3 ++ _) ++ _)),
    (extended_room (((l3 ++ _) ++ _) ++ _)) by (zlen; lia).
  match goal with |- context [slice (E := ModbusError) ?l 0 17] =>
    erewrite bind_ok by (unfold lift; rewrite (slice_full (E := ModbusError) l
      : slice l 0 17 = Ok l); reflexivity) end.
  rewrite (extended_room ((((l3 ++ _) ++ _) ++ _) ++ _)) by (zlen; rewrite ?zlen_create_crc; lia).
  reflexivity.
Qed.
End filter_properties.

Section flow_properties.
Context `{Profile} `{HeaplessVec} `{HeaplessExtend} `{Crc16} `{NanPattern} {T U : Type}
  `{TcpPeer T} `{SerialLine U}.
Import Gateway FoxOb737.

(** C31: The OB737 client, code under the features [OB737] (its flow) and
    [ob737] (its filter), which no build sets together, so that no build has
    it; over a serial line without errors and a socket whose write of the
    request reports none and whose first read gives the whole header of the
    response.  Whatever registers the inverter asks of its meter with function 3
    of the unit 1, the OB737 is asked for the eight registers from 0x110, since
    every request has a filter of its own; the frame handed to the inverter for
    a response of sixteen bytes of data starts with the transaction identifier
    and the length of the request where the unit, the function and the number of
    bytes belong, says that no phase has any power, and ends with the fourth
    float of the response as a 16-bit integer that saturates. *)
Theorem modbus_ob737_flow g p regs u fn resp req wr resp' req' rest out n
  (Hc : 0 <= counter g < 2 ^ 16) (Hp : zlen p = 4) (Hr : zlen regs = 16)
  (Hrtu : rtu_at resp req ((FOX_REQ ++ p) ++ create_crc (FOX_REQ ++ p)) wr (modbus_rtu g)) :
  let id := wrap 16 (counter g + 1) in
  let asked := be_bytes 2 id ++ [0; 0; 0; 6; 1; 4; 1; 16; 0; 8] in
  let answer := [u; fn; 16] ++ regs in
  let told := be_bytes 2 id ++ [6] ++ replicate 12 0 ++ be_bytes 2 (fourth regs) in
  let write := tcp_write (ModbusTcp.socket (modbus_tcp g)) asked in
  tcp_at resp' req' (mbap id 19 ++ answer ++ rest) out (modbus_tcp g) ->
  write.1 = Some n -> (tcp_read write.2 6).1 = Some (mbap id 19) ->
  0 <= fourth regs < 2 ^ 16 /\
  exists g', process_flow_ob737 g = (Ok tt, g') /\
    counter g' = id /\
    outgoing (ModbusTcp.socket (modbus_tcp g')) = out ++ [asked] /\
    written (ModbusRtu.serial (modbus_rtu g')) = wr ++ [told ++ create_crc told] /\
    led g' = Some Led3On.
Proof.
  intros id asked answer told write Htcp Hw Hread. split; [apply as_u16_range|].
  assert (Hid : 0 <= id < 2 ^ 16) by (apply wrap_range; lia).
  assert (Hp6 : zlen (FOX_REQ ++ p) = 6) by (rewrite zlen_app, Hp; reflexivity).
  assert (Ha : zlen answer = 19) by (unfold answer; by rewrite zlen_app, Hr).
  rewrite <- Ha in Htcp, Hread.
  destruct (tcp_exchange asked id answer resp' req' rest out n (modbus_tcp g) Htcp ltac:(lia) Hw)
    as (k & Hk & Hread' & Hall & _).
  assert (Hk6 : k = 6).
  { unfold write in Hread. rewrite Hread in Hread'. injection Hread' as Hl.
    apply (f_equal zlen) in Hl. rewrite zlen_take in Hl by (rewrite zlen_mbap; lia).
    rewrite zlen_mbap in Hl. lia. }
  destruct (Hall Hk6) as (x2 & Hx2 & Hax2).
  unfold process_flow_ob737. erewrite bind_ok by reflexivity.
  destruct (rtu_listen_ok (FOX_REQ ++ p) resp req [] wr (modbus_rtu g)) as (y1 & Hy1 & Hat1);
    [by rewrite app_nil_r|done|].
  erewrite bind_ok by (apply with_rtu_ok; exact Hy1). erewrite bind_ok by reflexivity.
  cbn [modbus_rtu]. unfold ModbusRtu.convert_request. rewrite (proj1 (proj2 (proj2 Hat1))).
  erewrite bind_ok by (apply with_counter_ok, (rtu_request_to_tcp (FOX_REQ ++ p)); [apply zlen_create_crc|lia|exact Hc]).
  fold id. rewrite Hp6.
  set (b0 := id / 2 ^ (8 * Z.of_nat 1) mod 256). set (b1 := id / 2 ^ (8 * Z.of_nat 0) mod 256).
  change (mbap id 6 ++ FOX_REQ ++ p) with (b0 :: b1 :: [0; 0; 0; 6] ++ FOX_REQ ++ p).
  rewrite (fox_request_filtered b0 b1 [0; 0; 0; 6] p) by done. unfold lift at 1. erewrite bind_ok by reflexivity.
  change ([b0; b1] ++ [0; 0; 0; 6; 1; 4; 1; 16; 0; 8]) with asked.
  erewrite bind_ok by (apply with_tcp_ok; exact Hx2). erewrite bind_ok by reflexivity.
  cbn [modbus_tcp]. unfold ModbusTcp.convert_response. rewrite (proj1 Hax2).
  erewrite bind_ok by (apply with_counter_ok; cbn [counter]; rewrite tcp_response_to_rtu, Z.eqb_refl
    by lia; reflexivity).
  rewrite (Z.mod_small (zlen _)) by lia. rewrite ztake_all by lia. unfold answer at 1. rewrite <- app_assoc.
  pose proof (fox_response_filtered u fn regs (create_crc answer)
    (mk (b0 :: b1 :: [0; 0; 0; 6] ++ FOX_REQ ++ p) [0; 0; 0] 0 true) b0 b1 0 0 0 6 (FOX_REQ ++ p)
    Hr (zlen_create_crc _) eq_refl eq_refl) as Hfox.
  destruct (om737_to_fox_rtu_request_filter _ _) as [r f]. cbn [fst] in Hfox. subst r.
  erewrite bind_ok by reflexivity.
  change (fox_frame b0 b1 6 (fourth regs)) with told.
  destruct (transmit_ok (told ++ create_crc told) _ _ _ _ _ Hat1) as (y2 & Hy2 & Hat2).
  erewrite bind_ok by (apply with_rtu_ok; exact Hy2).
  eexists; split; [reflexivity|]. cbn.
  destruct Hat2 as (? & _ & _ & _ & ?), Hax2 as (_ & _ & _ & ?). by repeat split.
Qed.
End flow_properties.

(** An OB737 whose registers are those of the comment in the source, and whose
    fourth float is 300.7. *)
Module SampleMeter.
Import SampleLines.
Definition registers : list Z :=
  [0x3D; 0x13; 0x74; 0xBC; 0x3F; 0x41; 0x89; 0x37; 0x3E; 0xB0; 0x20; 0xC5; 0x43; 0x96; 0x59; 0x9A].
Definition answer : list Z := mbap 1 19 ++ [1; 4; 16] ++ registers.

Definition question : list Z := FoxOb737.FOX_REQ ++ [0; 0; 0; 2].
Definition client : Gateway.t conn line :=
  gateway (answer, []) (question ++ create_crc question).
End SampleMeter.
Import SampleMeter.
#[local] Existing Instance dev_profile.
#[local] Existing Instance list_vec.
#[local] Existing Instance list_extend.

Lemma modbus_ob737_flow_witness :
  exists g', process_flow_ob737 client = (Ok tt, g') /\
    written (ModbusRtu.serial (Gateway.modbus_rtu g')) =
      [[0; 1; 6; 0; 0; 0; 0; 0; 0; 0; 0; 0; 0; 0; 0; 1; 44] ++
        create_crc [0; 1; 6; 0; 0; 0; 0; 0; 0; 0; 0; 0; 0; 0; 0; 1; 44]].
Proof.
  destruct (modbus_ob737_flow client [0; 0; 0; 2] registers 1 4 [] [] [] [] [] [] [] 9
    ltac:(cbn; lia) eq_refl eq_refl ltac:(repeat split) ltac:(repeat split) eq_refl eq_refl)
    as (_ & g' & H1 & _ & _ & H2 & _).
  exists g'. exact (conj H1 H2).
Defined.
