(* ===== verification/Writer.v ===== *)
(** Formatting into a buffer: stm32f407_controller/src/bin/utils/bytes_writer.rs,
    and the copy of its [ByteMutWriterCap] in syslog-emb/src/lib.rs.

    [SliceWriter] is that of stm32f407_controller/src/bin/tasks/mqtt.rs.
    [write!] calls [write_str] for each literal piece and each argument of its
    format string; a formatted text is the list of these pieces.  Integers are
    printed in decimal, as [core::fmt] does.

    [FmtWrite] is the trait; [BoundedText] is what the modules that format text
    rely on, and what the writers promise. *)
From stdpp Require Import strings.
From S2P Require Import Prelude.
From S2P Require Import Utf8.

(** A string literal, as bytes. *)
Fixpoint str (s : String.string) : list Z :=
  match s with
  | String.EmptyString => []
  | String.String c s => Z.of_N (Ascii.N_of_ascii c) :: str s
  end.
Arguments str s%_string_scope.

(** [core::fmt::Write], with [Borrow<[u8]>]. *)
Inductive FmtError : Type := FmtErr.

Class FmtWrite (W : Type) : Type := {
  fmt_write_str : list Z -> M W FmtError unit;
  fmt_borrow : forall E, W -> outcome E (list Z);
}.
Arguments fmt_borrow {W _ E}.

(** [write!(self, ..)] *)
Fixpoint write_fmt {W} `{FmtWrite W} (pieces : list (list Z)) : M W FmtError unit :=
  match pieces with
  | [] => mret tt
  | s :: pieces => fmt_write_str s ;;; write_fmt pieces
  end.

(** ** [Display] of unsigned integers *)

Fixpoint digits (fuel : nat) (n : Z) : list Z :=
  match fuel with
  | O => []
  | S fuel => if n <? 10 then [48 + n] else digits fuel (n / 10) ++ [48 + n mod 10]
  end.

(** Twenty digits are enough for 64 bits. *)
Definition decimal (n : Z) : list Z := digits 20 n.

(** The number a string of digits stands for. *)
Definition undecimal (l : list Z) : Z := fold_left (fun acc d => 10 * acc + (d - 48)) l 0.

(** ** The writers

    [ByteMutWriter] borrows its buffer, [ByteMutWriterCap] owns an array of [N]
    bytes; the code of their methods is the same. *)
Module ByteMutWriter.
Record t : Type := mk { buf : list Z; cursor : Z }.

Definition new (buf : list Z) : t := mk buf 0.

Definition capacity (self : t) : Z := zlen (buf self).

Definition clear (self : t) : t := mk (replicate (length (buf self)) 0) 0.

(** [&self.buf[0..self.cursor]], which is also [borrow()]. *)
Definition borrow {E} (self : t) : outcome E (list Z) := slice (buf self) 0 (cursor self).

(** [str::from_utf8(..).unwrap()] *)
Definition as_str {E} (self : t) : outcome E (list Z) :=
  bytes ← borrow self;
  if valid_utf8 bytes then Ok bytes else Panic PUnwrap.

Definition len (self : t) : Z := cursor self.
Definition empty (self : t) : bool := cursor self =? 0.
Definition full (self : t) : bool := capacity self =? cursor self.

(** The loop copies while both the rest of the buffer and the string last. *)
Definition write_str (s : list Z) : M t FmtError unit := fun self =>
  let cap := capacity self in
  match slice (E := FmtError) (buf self) (cursor self) cap with
  | Ok rest =>
    let copied := ztake (Z.min (zlen rest) (zlen s)) s in
    (Ok tt, mk (ztake (cursor self) (buf self) ++ copied ++ zdrop (zlen copied) rest)
              (Z.min cap (cursor self + zlen s)))
  | Err e => (Err e, self)
  | Panic p => (Panic p, self)
  | OutOfFuel => (OutOfFuel, self)
  end.
End ByteMutWriter.

Module ByteMutWriterCap.
Definition new (N : Z) : ByteMutWriter.t := ByteMutWriter.new (replicate (Z.to_nat N) 0).
Definition as_str {E} : ByteMutWriter.t -> outcome E (list Z) := ByteMutWriter.as_str.
Definition clear : ByteMutWriter.t -> ByteMutWriter.t := ByteMutWriter.clear.
Definition write_str : list Z -> M ByteMutWriter.t FmtError unit := ByteMutWriter.write_str.

(** [String::<N>::from_str(self.as_str()).unwrap()]: the string has the room of
    the buffer. *)
Definition to_string {E} (self : ByteMutWriter.t) : outcome E (list Z) :=
  s ← as_str self;
  if zlen s <=? ByteMutWriter.capacity self then Ok s else Panic PUnwrap.
End ByteMutWriterCap.
Import ByteMutWriter.

#[export] Instance ByteMutWriter_write : FmtWrite ByteMutWriter.t := {
  fmt_write_str := write_str;
  fmt_borrow := fun E => borrow (E := E);
}.

(** [SliceWriter(&mut [u8])]: the bytes it has filled, and the slice it is left
    with.  Its [write_str] writes all of a string or nothing. *)
Module SliceWriter.
Record t : Type := mk { filled : list Z; left : list Z }.

Definition new (buf : list Z) : t := mk [] buf.

Definition write_str (s : list Z) : M t FmtError unit := fun self =>
  if zlen (left self) <? zlen s then (Err FmtErr, self)
  else (Ok tt, mk (filled self ++ s) (zdrop (zlen s) (left self))).
End SliceWriter.

#[export] Instance SliceWriter_write : FmtWrite SliceWriter.t := {
  fmt_write_str := SliceWriter.write_str;
  fmt_borrow := fun E w => Ok (SliceWriter.filled w);
}.

(** ** Lemmas *)

Lemma digits_range fuel n : 0 <= n -> Forall (fun d => 48 <= d <= 57) (digits fuel n).
Proof.
  revert n. induction fuel as [|fuel IH]; intros n Hn; cbn; [done|].
  destruct (Z.ltb_spec n 10); [by repeat constructor; lia|].
  apply Forall_app. split; [apply IH, Z.div_pos; lia|].
  pose proof (Z.mod_pos_bound n 10 ltac:(lia)). by repeat constructor; lia.
Qed.

Lemma undecimal_app l d : undecimal (l ++ [d]) = 10 * undecimal l + (d - 48).
Proof. unfold undecimal. by rewrite fold_left_app. Qed.

Lemma undecimal_digits fuel n : 0 <= n < 10 ^ Z.of_nat fuel -> undecimal (digits fuel n) = n.
Proof.
  revert n. induction fuel as [|fuel IH]; intros n Hn; [cbn in *; lia|].
  cbn [digits]. destruct (Z.ltb_spec n 10); [cbn; lia|].
  rewrite undecimal_app, IH.
  - pose proof (Z.div_mod n 10 ltac:(lia)). lia.
  - replace (Z.of_nat (S fuel)) with (1 + Z.of_nat fuel) in Hn by lia.
    rewrite Z.pow_add_r in Hn by lia. split; [apply Z.div_pos; lia|].
    apply Z.div_lt_upper_bound; lia.
Qed.

Lemma zlen_digits fuel k n :
  0 <= n < 10 ^ Z.of_nat k -> (1 <= k)%nat -> 1 <= zlen (digits (S fuel) n) <= Z.of_nat k.
Proof.
  revert fuel n. induction k as [|k IH]; intros fuel n Hn Hk; [lia|]. cbn [digits].
  destruct (Z.ltb_spec n 10); [zlen; lia|]. zlen.
  destruct k as [|k]; [cbn in Hn; lia|]. destruct fuel as [|fuel]; [cbn [digits]; zlen; lia|].
  assert (Hd : 0 <= n / 10 < 10 ^ Z.of_nat (S k)).
  { replace (Z.of_nat (S (S k))) with (1 + Z.of_nat (S k)) in Hn by lia.
    rewrite Z.pow_add_r in Hn by lia. split; [apply Z.div_pos; lia|].
    apply Z.div_lt_upper_bound; lia. }
  specialize (IH fuel (n / 10) Hd ltac:(lia)). lia.
Qed.

Lemma zlen_decimal k n :
  0 <= n < 10 ^ Z.of_nat k -> (1 <= k)%nat -> 1 <= zlen (decimal n) <= Z.of_nat k.
Proof. apply zlen_digits. Qed.

Lemma zlen_decimal_pos n : 1 <= zlen (decimal n).
Proof.
  unfold decimal. cbn [digits]. destruct (n <? 10); zlen; [lia|].
  match goal with |- 1 <= zlen ?l + _ => pose proof (zlen_nonneg l) end. lia.
Qed.

Lemma decimal_ascii n : 0 <= n -> ascii (decimal n).
Proof.
  intros Hn. eapply List.Forall_impl; [|by apply (digits_range 20)]. cbn. lia.
Qed.

(** The invariant of a writer, and what it holds: [text], cut to its capacity. *)
Definition holds (cap : Z) (text : list Z) (w : t) : Prop :=
  zlen (buf w) = cap /\ cursor w = Z.min cap (zlen text) /\
  ztake (cursor w) (buf w) = ztake cap text.

Lemma holds_new b : holds (zlen b) [] (new b).
Proof.
  pose proof (zlen_nonneg b). unfold holds, new. cbn [buf cursor]. split; [done|].
  split; [zlen; lia|]. unfold ztake. by rewrite take_nil.
Qed.

Lemma write_str_holds cap text s w :
  holds cap text w ->
  exists w', write_str s w = (Ok tt, w') /\ holds cap (text ++ s) w'.
Proof.
  intros (Hc & Hp & Ht). pose proof (zlen_nonneg text). pose proof (zlen_nonneg s).
  pose proof (zlen_nonneg (buf w)).
  unfold write_str, capacity. rewrite Hc, slice_ok by lia. eexists; split; [reflexivity|].
  rewrite (ztake_all (zdrop _ _)) by (rewrite zlen_drop; lia).
  set (k := Z.min _ _).
  assert (Hk : k = Z.min (cap - cursor w) (zlen s)) by (unfold k; rewrite zlen_drop; lia).
  assert (Hzk : zlen (ztake k s) = k) by (rewrite zlen_take; lia).
  unfold holds; cbn [buf cursor]. rewrite Hzk, zdrop_zdrop by lia.
  split; [|split].
  - zlen. rewrite Hzk, zlen_take, zlen_drop by lia. lia.
  - zlen. lia.
  - assert (Hpre : zlen (ztake (cursor w) (buf w)) = cursor w) by (rewrite zlen_take; lia).
    destruct (Z.le_gt_cases cap (zlen text)) as [Hf|Hf].
    + replace (Z.min cap (cursor w + zlen s)) with (cursor w) by lia.
      rewrite ztake_app_le, ztake_all by lia. rewrite Ht. by rewrite ztake_app_le by lia.
    + assert (Htext : ztake (cursor w) (buf w) = text) by (rewrite Ht; apply ztake_all; lia).
      rewrite Htext. replace (Z.min cap (cursor w + zlen s)) with (zlen text + k) by lia.
      rewrite ztake_app_plus by lia. rewrite ztake_app_le, (ztake_all (ztake k s)) by lia.
      destruct (Z.le_gt_cases (cap - cursor w) (zlen s)).
      * replace cap with (zlen text + k) at 1 by lia. by rewrite ztake_app_plus by lia.
      * rewrite !ztake_all by (zlen; lia). done.
Qed.

Lemma borrow_holds {E} cap text w : holds cap text w -> borrow (E := E) w = Ok (ztake cap text).
Proof.
  intros (Hc & Hp & Ht). pose proof (zlen_nonneg text). pose proof (zlen_nonneg (buf w)).
  unfold borrow. rewrite slice_ok by lia. by rewrite zdrop_0, Z.sub_0_r, Ht.
Qed.

(** What a writer holds always fits in a string of its size. *)
Lemma to_string_holds {E} cap text w :
  holds cap text w ->
  ByteMutWriterCap.to_string (E := E) w = ByteMutWriterCap.as_str w.
Proof.
  intros Hw. pose proof Hw as (Hc & Hp & Ht). unfold ByteMutWriterCap.to_string, ByteMutWriterCap.as_str, as_str.
  rewrite (borrow_holds _ _ _ Hw). cbn [mbind outcome_bind]. destruct (valid_utf8 _); [|done].
  cbn [mbind outcome_bind]. rewrite (proj2 (Z.leb_le _ _)); [done|]. unfold capacity.
  rewrite Hc, <- Ht. pose proof (zlen_nonneg (buf w)). pose proof (zlen_nonneg text). rewrite zlen_take by lia. lia.
Qed.

(** The whole buffer: [base], overwritten from its start. *)
Definition over (base text : list Z) : t :=
  mk (ztake (zlen base) text ++ zdrop (zlen text) base) (Z.min (zlen base) (zlen text)).

Lemma over_new base : new base = over base [].
Proof.
  pose proof (zlen_nonneg base). unfold new, over, ztake. rewrite take_nil. cbn [app].
  f_equal. change (zlen []) with 0. lia.
Qed.

Lemma write_str_over base text s :
  write_str s (over base text) = (Ok tt, over base (text ++ s)).
Proof.
  pose proof (zlen_nonneg text). pose proof (zlen_nonneg s). pose proof (zlen_nonneg base).
  assert (Hcap : zlen (buf (over base text)) = zlen base).
  { cbn [over buf]. destruct (Z.le_gt_cases (zlen base) (zlen text)).
    - rewrite zdrop_all by lia. rewrite app_nil_r, zlen_take by lia. lia.
    - rewrite ztake_all by lia. zlen. rewrite zlen_drop by lia. lia. }
  unfold write_str, capacity. rewrite Hcap.
  cbn [over buf cursor] in *. rewrite slice_ok by lia.
  destruct (Z.le_gt_cases (zlen base) (zlen text)) as [Hf|Hf].
  - rewrite (zdrop_all base (zlen text)), app_nil_r in * by lia.
    rewrite !(Z.min_l (zlen base) (zlen text)) by lia.
    rewrite Z.sub_diag, !(ztake_0 (zdrop _ _) 0) by lia.
    change (zlen []) with 0. rewrite Z.min_l, (ztake_0 s 0) by lia. change (zlen []) with 0.
    rewrite zdrop_0. cbn [app]. rewrite app_nil_r, ztake_ztake by lia.
    unfold over. rewrite zlen_app, zdrop_all, app_nil_r, ztake_app_le by lia. do 2 f_equal. lia.
  - rewrite (ztake_all text) in * by lia. rewrite !(Z.min_r (zlen base) (zlen text)) by lia.
    rewrite zdrop_app_len, ztake_app_len, (ztake_all (zdrop (zlen text) base)) by (rewrite zlen_drop by lia; lia).
    rewrite zlen_drop by lia. unfold over. f_equal. f_equal; [|zlen; lia].
    rewrite zlen_app, <- zdrop_zdrop by lia.
    assert (Htake : ztake (zlen base) (text ++ s) = text ++ ztake (zlen base - zlen text) s).
    { rewrite <- ztake_app_plus by lia. f_equal. lia. }
    rewrite Htake, <- app_assoc. f_equal.
    destruct (Z.le_gt_cases (zlen base - zlen text) (zlen s)).
    + rewrite Z.min_l by lia. f_equal. rewrite zlen_take by lia.
      rewrite !zdrop_all by (rewrite zlen_drop by lia; lia). done.
    + rewrite Z.min_r by lia. by rewrite !ztake_all by lia.
Qed.

Lemma write_fmt_over base pieces : forall text,
  write_fmt pieces (over base text) = (Ok tt, over base (text ++ concat pieces)).
Proof.
  induction pieces as [|s pieces IH]; intros text; cbn [write_fmt concat]; [by rewrite app_nil_r|].
  erewrite bind_ok by apply write_str_over. by rewrite IH, <- app_assoc.
Qed.

(** What a bounded writer promises: it never fails, and keeps what fits. *)
Class BoundedText (W : Type) `{FmtWrite W} : Type := {
  text_holds : Z -> list Z -> W -> Prop;
  text_write : forall cap text s w, text_holds cap text w ->
    exists w', fmt_write_str s w = (Ok tt, w') /\ text_holds cap (text ++ s) w';
  text_borrow : forall E cap text w, text_holds cap text w ->
    fmt_borrow (E := E) w = Ok (ztake cap text);
}.

#[export] Instance ByteMutWriter_text : BoundedText ByteMutWriter.t := {
  text_holds := holds;
  text_write := write_str_holds;
  text_borrow := @borrow_holds;
}.

Lemma write_fmt_text `{BoundedText W} cap pieces : forall text w,
  text_holds cap text w ->
  exists w', write_fmt pieces w = (Ok tt, w') /\ text_holds cap (text ++ concat pieces) w'.
Proof.
  induction pieces as [|s pieces IH]; intros text w Hw; cbn [write_fmt concat].
  { exists w. by rewrite app_nil_r. }
  destruct (text_write cap text s w Hw) as (w1 & H1 & Hw1).
  destruct (IH _ _ Hw1) as (w2 & H2 & Hw2). exists w2.
  erewrite bind_ok by exact H1. rewrite app_assoc. by split.
Qed.

(** ** Properties *)

(** C39: formatting into a buffer keeps the longest prefix of the text that
    fits, however the text is cut into pieces, and never fails: the writer's
    contents are those of one write of the whole text.  Nothing tells the
    caller that the rest was dropped; if the cut falls inside a character,
    [as_str] panics. *)
Theorem write_fmt_prefix {E} (buffer : list Z) (pieces : list (list Z)) :
  exists w w',
    write_fmt pieces (new buffer) = (Ok tt, w) /\
    write_str (concat pieces) (new buffer) = (Ok tt, w') /\
    cursor w = cursor w' /\ cursor w = Z.min (zlen buffer) (zlen (concat pieces)) /\
    borrow (E := E) w = Ok (ztake (zlen buffer) (concat pieces)) /\
    borrow (E := E) w' = borrow (E := E) w /\
    as_str (E := E) w =
      (if valid_utf8 (ztake (zlen buffer) (concat pieces))
       then Ok (ztake (zlen buffer) (concat pieces)) else Panic PUnwrap).
Proof.
  destruct (@write_fmt_text _ _ ByteMutWriter_text _ pieces [] _ (holds_new buffer)) as (w & H1 & Hw).
  destruct (write_str_holds _ [] (concat pieces) _ (holds_new buffer)) as (w' & H2 & Hw').
  exists w, w'. cbn [app text_holds ByteMutWriter_text] in *.
  rewrite !(borrow_holds _ _ _ Hw), !(borrow_holds _ _ _ Hw').
  repeat split; try done; [by rewrite (proj1 (proj2 Hw)), (proj1 (proj2 Hw'))|apply Hw|].
  unfold as_str. by rewrite (borrow_holds _ _ _ Hw).
Qed.

(** The decimal form of an integer of up to 64 bits is digits only, at most
    twenty, and determines the integer. *)
Theorem decimal_roundtrip n (Hn : 0 <= n < 2 ^ 64) :
  Forall (fun d => 48 <= d <= 57) (decimal n) /\ 1 <= zlen (decimal n) <= 20 /\
  undecimal (decimal n) = n.
Proof.
  assert (Hn' : 0 <= n < 10 ^ Z.of_nat 20) by (change (10 ^ Z.of_nat 20) with (10 ^ 20); lia).
  split; [apply digits_range; lia|]. split; [|by apply undecimal_digits].
  by apply (zlen_decimal 20); [|lia].
Qed.

Lemma decimal_roundtrip_witness :
  Forall (fun d => 48 <= d <= 57) (decimal 18446744073709551615) /\
  1 <= zlen (decimal 18446744073709551615) <= 20 /\
  undecimal (decimal 18446744073709551615) = 18446744073709551615.
Proof. apply (decimal_roundtrip 18446744073709551615). lia. Defined.
