(* ===== verification/SntpUtils.v ===== *)
(** Setting the clock of a desktop system: sntpc/src/utils/mod.rs and
    utils/unix/mod.rs, utils/windows/mod.rs.

    The calendar (chrono) and the processes of the operating system are not part
    of the repository: they are classes.  A command is the list of its words. *)
From stdpp Require Import strings.
From S2P Require Import Prelude.
From S2P Require Import Sntp.
From S2P Require Import Writer.

#[local] Open Scope list_scope.

(** ** The calendar

    [timestamp_opt(sec, nsec).single()] in UTC, with [with_timezone(&Local)]. *)
Class Calendar (DateTime : Type) : Type := {
  timestamp_single : Z -> Z -> option DateTime;
  with_timezone_local : DateTime -> DateTime;
  year : DateTime -> Z;
  month : DateTime -> Z;
  day : DateTime -> Z;
  hour : DateTime -> Z;
  minute : DateTime -> Z;
  second : DateTime -> Z;
}.

(** Its documented behaviour: the second argument counts nanoseconds; beyond a
    second it is for leap seconds only, and beyond two it is an error.  A date
    since 1970 has fields in their ranges. *)
Class CalendarLaws (DateTime : Type) `{Calendar DateTime} : Prop := {
  timestamp_valid : forall sec nsec, 0 <= sec < 2 ^ 32 -> 0 <= nsec < NSEC_IN_SEC ->
    exists t, timestamp_single sec nsec = Some t;
  timestamp_invalid : forall sec nsec, 2 * NSEC_IN_SEC <= nsec -> timestamp_single sec nsec = None;
  fields_range : forall sec nsec t, 0 <= sec < 2 ^ 32 -> timestamp_single sec nsec = Some t ->
    let l := with_timezone_local t in
    0 <= year l < 10000 /\ 1 <= month l <= 12 /\ 1 <= day l <= 31 /\
    0 <= hour l < 24 /\ 0 <= minute l < 60 /\ 0 <= second l < 60;
}.

(** ** Processes

    [status] runs a command to its end: the exit code, or none if a signal ended
    it.  [spawn] starts one, and [wait] tells whether it could be waited for. *)
Class Processes (W : Type) : Type := {
  status : list (list Z) -> W -> option (option Z) * W;
  spawn : list (list Z) -> W -> bool * W;
  wait : W -> bool * W;
}.

(** [{:02}] *)
Definition two_digits (n : Z) : list Z := if n <? 10 then 48 :: decimal n else decimal n.

Module Unix.
Section unix.
Context {DateTime W E : Type} `{Calendar DateTime} `{Processes W}.

Definition time_str (time : DateTime) : list Z :=
  decimal (month time) ++ str "/" ++ decimal (day time) ++ str "/" ++ decimal (year time) ++ str " " ++
  two_digits (hour time) ++ str ":" ++ two_digits (minute time) ++ str ":" ++ two_digits (second time).

Definition command (time : DateTime) : list (list Z) := [str "date"; str "-s"; time_str time].

Definition sync_time (time : DateTime) : M W E unit := fun w =>
  match status (command time) w with
  | (None, w) => (Panic PUnwrap, w)
  | (Some code, w) =>
    if bool_decide (code = Some 0) then (Ok tt, w)
    else match code with Some _ => (Ok tt, w) | None => (Panic PUnwrap, w) end
  end.
End unix.
End Unix.

Module Windows.
Section windows.
Context {DateTime W E : Type} `{Calendar DateTime} `{Processes W}.

Definition quote : list Z := [34].

Definition time_str (time : DateTime) : list Z :=
  str "powershell Set-Date -Date " ++ quote ++
  decimal (day time) ++ str "/" ++ decimal (month time) ++ str "/" ++ decimal (year time) ++ str " " ++
  decimal (hour time) ++ str ":" ++ decimal (minute time) ++ str ":" ++ decimal (second time) ++ quote.

Definition command (time : DateTime) : list (list Z) := [str "cmd"; str "/C"; time_str time].

Definition sync_time (time : DateTime) : M W E unit := fun w =>
  match spawn (command time) w with
  | (true, w) => let '(ok, w) := wait w in (if ok then Ok tt else Panic PUnwrap, w)
  | (false, w) => (Ok tt, w)
  end.
End windows.
End Windows.

Section utils.
Context {DateTime W E : Type} `{Calendar DateTime} `{Processes W}.

(** [sync_time] is that of the system. *)
Definition update_system_time (sync_time : DateTime -> M W E unit) (sec nsec : Z) : M W E unit :=
  match timestamp_single sec nsec with
  | Some time => sync_time (with_timezone_local time)
  | None => mret tt
  end.
End utils.

(** ** Reading a command back *)

(** The numbers in a text: the runs of digits in it. *)
Fixpoint numbers_from (acc : list Z) (s : list Z) : list Z :=
  match s with
  | [] => if zlen acc =? 0 then [] else [undecimal acc]
  | d :: s =>
    if (48 <=? d) && (d <=? 57) then numbers_from (acc ++ [d]) s
    else if zlen acc =? 0 then numbers_from [] s else undecimal acc :: numbers_from [] s
  end.
Definition numbers (s : list Z) : list Z := numbers_from [] s.

Definition digit (d : Z) : Prop := 48 <= d <= 57.

Lemma numbers_run l : forall acc s, Forall digit l ->
  numbers_from acc (l ++ s) = numbers_from (acc ++ l) s.
Proof.
  induction l as [|d l IH]; intros acc s Hl; cbn [app]; [by rewrite app_nil_r|].
  apply List.Forall_cons_iff in Hl as [Hd Hl]. cbn [numbers_from].
  unfold digit in Hd. rewrite (proj2 (Z.leb_le _ _)), (proj2 (Z.leb_le _ _)) by lia. cbn [andb].
  rewrite IH by done. by rewrite <- app_assoc.
Qed.

(** A number, and a separator behind it. *)
Lemma numbers_sep l n c s :
  Forall digit l -> l <> [] -> undecimal l = n -> ~ digit c ->
  numbers (l ++ c :: s) = n :: numbers s.
Proof.
  intros Hl Hne <- Hc. unfold numbers. rewrite numbers_run by done. cbn [app numbers_from].
  destruct ((48 <=? c) && (c <=? 57)) eqn:Hd; [exfalso; apply Hc; unfold digit; lia|].
  destruct l; [done|]. rewrite (proj2 (Z.eqb_neq _ _)); [done|]. pose proof (zlen_nonneg l). zlen. lia.
Qed.

Lemma numbers_end l n : Forall digit l -> l <> [] -> undecimal l = n -> numbers l = [n].
Proof.
  intros Hl Hne <-. unfold numbers. rewrite <- (app_nil_r l) at 1. rewrite numbers_run by done.
  cbn [app numbers_from]. destruct l; [done|]. rewrite (proj2 (Z.eqb_neq _ _)); [done|].
  pose proof (zlen_nonneg l). zlen. lia.
Qed.

Lemma numbers_skip c s : ~ digit c -> numbers (c :: s) = numbers s.
Proof.
  intros Hc. unfold numbers. cbn [numbers_from].
  destruct ((48 <=? c) && (c <=? 57)) eqn:Hd; [exfalso; apply Hc; unfold digit; lia|done].
Qed.

Lemma decimal_digits n : 0 <= n < 10000 ->
  Forall digit (decimal n) /\ decimal n <> [] /\ undecimal (decimal n) = n.
Proof.
  intros Hn. split; [by apply digits_range; lia|]. split; [|apply undecimal_digits; lia].
  intros Hd. pose proof (zlen_decimal_pos n) as Hp. rewrite Hd in Hp. by cbn in Hp.
Qed.

Lemma two_digits_digits n : 0 <= n < 10000 ->
  Forall digit (two_digits n) /\ two_digits n <> [] /\ undecimal (two_digits n) = n.
Proof.
  intros Hn. destruct (decimal_digits n Hn) as (Hd & Hne & Hu). unfold two_digits.
  destruct (n <? 10); [|done]. split; [by constructor; [unfold digit; lia|]|]. split; [done|].
  rewrite <- Hu at 2. by unfold undecimal.
Qed.

Lemma numbers_text l s :
  forallb (fun c => negb ((48 <=? c) && (c <=? 57))) l = true -> numbers (l ++ s) = numbers s.
Proof.
  induction l as [|c l IH]; cbn [app forallb]; [done|]. intros [Hc Hl]%andb_true_iff.
  rewrite numbers_skip; [auto|]. unfold digit. intros Hd. lia.
Qed.

(** A field with the separator behind it. *)
Lemma numbers_field l n c s :
  Forall digit l /\ l <> [] /\ undecimal l = n -> ~ digit c ->
  numbers (l ++ [c] ++ s) = n :: numbers s.
Proof. intros (? & ? & ?). by apply numbers_sep. Qed.

Lemma numbers_last l n : Forall digit l /\ l <> [] /\ undecimal l = n -> numbers l = [n].
Proof. intros (? & ? & ?). by apply numbers_end. Qed.

Ltac fields :=
  change (str "/") with [47]; change (str " ") with [32]; change (str ":") with [58];
  repeat (erewrite numbers_field;
    [|(apply decimal_digits || apply two_digits_digits); lia|unfold digit; lia]).

Section properties.
Context {DateTime W E : Type} `{CalendarLaws DateTime} `{Processes W}.

(** The fields of a local time, in the ranges of [fields_range]. *)
Definition in_range (l : DateTime) : Prop :=
  0 <= year l < 10000 /\ 1 <= month l <= 12 /\ 1 <= day l <= 31 /\
  0 <= hour l < 24 /\ 0 <= minute l < 60 /\ 0 <= second l < 60.

Lemma unix_numbers (l : DateTime) : in_range l ->
  numbers (Unix.time_str l) = [month l; day l; year l; hour l; minute l; second l].
Proof.
  intros Hr. unfold in_range in Hr. unfold Unix.time_str. fields.
  by rewrite (numbers_last _ (second l)) by (apply two_digits_digits; lia).
Qed.

Lemma windows_numbers (l : DateTime) : in_range l ->
  numbers (Windows.time_str l) = [day l; month l; year l; hour l; minute l; second l].
Proof.
  intros Hr. unfold in_range in Hr. unfold Windows.time_str, Windows.quote.
  rewrite numbers_text by reflexivity.
  rewrite numbers_text by reflexivity.
  rewrite <- (app_nil_r [34]). fields. done.
Qed.

(** C40: Setting the clock.  A time with a number of nanoseconds runs one command,
    whose text reads back as the fields of the local time: month and day first
    for [date] of Unix, day and month first for [Set-Date] of Windows.  On Unix
    the program panics if the command cannot be started or ends without an exit
    code; an exit code other than 0 is no error.  Two
    thousand million and more, which a fraction of an NTP time stamp
    (a 32-bit number) can be, set no clock and report nothing. *)
Theorem system_time_set sec nsec w
  (Hsec : 0 <= sec < 2 ^ 32) (Hn : 0 <= nsec < 2 ^ 32) :
  (nsec < NSEC_IN_SEC -> exists t, timestamp_single sec nsec = Some t /\
     let l := with_timezone_local t in
     (exists text, numbers text = [month l; day l; year l; hour l; minute l; second l] /\
        let ended := status [str "date"; str "-s"; text] w in
        update_system_time (E := E) Unix.sync_time sec nsec w
          = (match ended.1 with Some (Some _) => Ok tt | _ => Panic PUnwrap end, ended.2)) /\
     exists text, numbers text = [day l; month l; year l; hour l; minute l; second l] /\
       let started := spawn [str "cmd"; str "/C"; text] w in
       (update_system_time (E := E) Windows.sync_time sec nsec w).2
         = if started.1 then (wait started.2).2 else started.2) /\
  (2 * NSEC_IN_SEC <= nsec -> forall sync_time,
     update_system_time (E := E) sync_time sec nsec w = (Ok tt, w)).
Proof.
  unfold update_system_time. split.
  - intros Hns. destruct (timestamp_valid sec nsec Hsec ltac:(lia)) as [t Ht].
    pose proof (fields_range sec nsec t Hsec Ht : in_range _) as Hr.
    exists t. split; [done|]. rewrite Ht. split.
    + exists (Unix.time_str (with_timezone_local t)). split; [by apply unix_numbers|].
      unfold Unix.sync_time, Unix.command. destruct (status _ w) as [[code|] w']; [|done].
      case_bool_decide as Hc; [by rewrite Hc|]. by destruct code.
    + exists (Windows.time_str (with_timezone_local t)). split; [by apply windows_numbers|].
      unfold Windows.sync_time, Windows.command. destruct (spawn _ w) as [[] w']; [|done].
      cbn. by destruct (wait w') as [ok w''].
  - intros Hns sync_time. by rewrite (timestamp_invalid sec nsec Hns).
Qed.
End properties.

(** ** A system whose days are all the same

    Dates are seconds; the calendar knows the time of the day and puts it on the
    seventh of March 2024.  The world is the list of the commands. *)
Module SampleSystem.
#[global] Instance calendar : Calendar Z := {
  timestamp_single := fun sec nsec => if nsec <? NSEC_IN_SEC then Some sec else None;
  with_timezone_local := fun t => t + 3600;
  year := fun _ => 2024; month := fun _ => 3; day := fun _ => 7;
  hour := fun t => t / 3600 mod 24;
  minute := fun t => t / 60 mod 60;
  second := fun t => t mod 60;
}.

#[global] Instance laws : CalendarLaws Z.
Proof.
  split.
  - intros sec nsec _ Hn. exists sec. cbn. by rewrite (proj2 (Z.ltb_lt _ _)) by lia.
  - intros sec nsec Hn. cbn. rewrite (proj2 (Z.ltb_ge _ _)); [done|]. unfold NSEC_IN_SEC in *. lia.
  - intros sec nsec t _ _. cbn.
    pose proof (Z.mod_pos_bound ((t + 3600) / 3600) 24). pose proof (Z.mod_pos_bound ((t + 3600) / 60) 60).
    pose proof (Z.mod_pos_bound (t + 3600) 60). lia.
Qed.

#[global] Instance processes : Processes (list (list (list Z))) := {
  status := fun c w => (Some (Some 0), w ++ [c]);
  spawn := fun c w => (true, w ++ [c]);
  wait := fun w => (true, w);
}.
End SampleSystem.

(** Noon and a bit, and a fraction passed as it came. *)
Lemma system_time_set_witness :
  let set := update_system_time (DateTime := Z) (E := unit) in
  set Unix.sync_time 39845 500000000 [] =
    (Ok tt, [[str "date"; str "-s"; str "3/7/2024 12:04:05"]]) /\
  set Windows.sync_time 39845 3000000000 [] = (Ok tt, []) /\
  exists text, numbers text = [3; 7; 2024; 12; 4; 5] /\
    (set Unix.sync_time 39845 500000000 []).2 = [[str "date"; str "-s"; text]].
Proof.
  intros set. split; [vm_compute; reflexivity|]. split.
  - exact (proj2 (system_time_set (DateTime := Z) (E := unit) 39845 3000000000 []
      ltac:(lia) ltac:(lia)) ltac:(unfold NSEC_IN_SEC; lia) Windows.sync_time).
  - destruct (proj1 (system_time_set (DateTime := Z) (E := unit) 39845 500000000 []
      ltac:(lia) ltac:(lia)) ltac:(unfold NSEC_IN_SEC; lia)) as (t & Ht & (text & Hnum & Hrun) & _).
    injection Ht as <-. exists text. split; [exact Hnum|]. exact (f_equal snd Hrun).
Defined.
