(* ===== verification/Display.v ===== *)
(** The display: stm32f407_controller/src/bin/tasks/display/mod.rs.

    [display_task] sets the screen up and then draws, every five seconds, nine
    lines of text with what the battery last said: [setup] and [turn].  The
    numbers are [f32] patterns (F32), printed with one decimal as [core::fmt]
    does: rounded to nearest, to even where two are as near.  The screen and the
    battery's data come from other crates: [Screen] and [Readings]. *)
From Stdlib Require Import SpecFloat.
From stdpp Require Import strings.
From S2P Require Import Prelude.
From S2P Require Import Heapless.
From S2P Require Import Writer.
From S2P Require Import F32.

#[local] Open Scope list_scope.

(** ** [{:.1}] of an [f32] *)

(** The whole number nearest to [num / den], the even one of two. *)
Definition round_even (num den : Z) : Z :=
  let q := num / den in
  let r := num mod den in
  if 2 * r <? den then q
  else if den <? 2 * r then q + 1
  else if Z.even q then q else q + 1.

(** The tenths in [m * 2 ^ e]. *)
Definition tenths (m : positive) (e : Z) : Z := round_even (Z.pos m * 10 * 2 ^ Z.max 0 e) (2 ^ Z.max 0 (- e)).

(** Forty digits are enough for the largest finite number. *)
Definition tenths_pieces (n : Z) : list (list Z) := [digits 40 (n / 10); str "."; [48 + n mod 10]].

Definition sign_piece (s : bool) : list Z := if s then str "-" else [].

Definition f32_pieces (x : Z) : list (list Z) :=
  match decode x with
  | S754_nan => [str "NaN"]
  | S754_infinity s => [sign_piece s; str "inf"]
  | S754_zero s => sign_piece s :: tenths_pieces 0
  | S754_finite s m e => sign_piece s :: tenths_pieces (tenths m e)
  end.

Definition shown (x : Z) : list Z := concat (f32_pieces x).

(** [heapless::String<20>] as a writer: a piece that does not fit is an error. *)
Definition TEXT_SIZE : Z := 20.

#[export] Instance String_write `{HeaplessExtend} : FmtWrite (list Z) := {
  fmt_write_str := fun s text =>
    let '(text, ok) := vec_extend_from_slice TEXT_SIZE text s in
    if ok : bool then (Ok tt, text) else (Err FmtErr, text);
  fmt_borrow := fun E text => Ok text
}.

Inductive Alignment : Type := Left | Center | Right.

(** The screen: its upper left corner, [Text::draw] of a text at a point,
    [clear] and [flush]. *)
Class Screen (W : Type) : Type := {
  top_left : W -> Z * Z;
  screen_init : W -> bool * W;
  screen_clear : W -> bool * W;
  draw_text : W -> list Z -> Z * Z -> Alignment -> bool * W;
  flush : W -> bool * W;
}.

(** The fields and methods of [bms_standard::Bms] that are shown. *)
Class Readings (Bms : Type) : Type := {
  bms_soc : Bms -> Z;
  bms_pack_volts : Bms -> Z;
  cell_range_mv_maximum : Bms -> Z;
  cell_range_mv_minimum : Bms -> Z;
  temps_maximum : Bms -> Z;
  temps_minimum : Bms -> Z;
  bms_current : Bms -> Z;
  bms_kwh_remaining : Bms -> Z;
  bms_charge_max : Bms -> Z;
  bms_discharge_max : Bms -> Z;
  get_balancing_cells : Bms -> Z;
  bms_valid : Bms -> bool;
}.

Module DisplayFormat.
Record t : Type := mk {
  soc : Z;
  volts : Z;
  cell_mv_high : Z;
  cell_mv_low : Z;
  cell_temp_high : Z;
  cell_temp_low : Z;
  amps : Z;
  kwh : Z;
  charge : Z;
  discharge : Z;
  bal : Z;
  valid : bool
}.

Definition from_bms {Bms} `{Readings Bms} (b : Bms) : t :=
  mk (bms_soc b) (bms_pack_volts b) (cell_range_mv_maximum b) (cell_range_mv_minimum b)
    (temps_maximum b) (temps_minimum b) (bms_current b) (bms_kwh_remaining b)
    (bms_charge_max b) (bms_discharge_max b) (get_balancing_cells b) (bms_valid b).
End DisplayFormat.

Module Line.
Record t : Type := mk { key : list Z; value : Z; unit : list Z }.
Definition new : list Z -> Z -> list Z -> t := mk.
End Line.

Section task.
Context `{HeaplessExtend} `{NanPattern} {W : Type} `{Screen W}.

Definition lines (data : DisplayFormat.t) : list Line.t := [
  Line.new (str "---- BMS ----") (f32_lit 0 1) [];
  Line.new (str "SoC") (DisplayFormat.soc data) (str "%");
  Line.new (str "Remaining ") (DisplayFormat.kwh data) (str "kWh");
  Line.new (str "Voltage") (DisplayFormat.volts data) (str "V");
  Line.new (str "Cell Temp") (DisplayFormat.cell_temp_high data) (str "oC");
  Line.new (str "Cell V High") (f32_of_Z (DisplayFormat.cell_mv_high data)) (str "mV");
  Line.new (str "Cell V Low") (f32_of_Z (DisplayFormat.cell_mv_low data)) (str "mV");
  Line.new (str "Current ") (DisplayFormat.amps data) (str "A");
  Line.new (str "Balancing ") (f32_of_Z (DisplayFormat.bal data)) (str "#")
].

(** [.unwrap()] of what the screen answers. *)
Definition must {E} (f : W -> bool * W) : M W E Datatypes.unit := fun w =>
  let '(ok, w) := f w in if ok : bool then (Ok tt, w) else (Panic PUnwrap, w).

Definition column (j : Alignment) : Z :=
  match j with Left => 1 | Center => 80 | Right => 160 end.

Definition format_line {E} (s : list Z) (l : Z) (j : Alignment) : M W E Datatypes.unit :=
  tl ← gets top_left;
  must (fun w => draw_text w s (tl.1 + column j, tl.2 + l * 14) j).

(** [write!(&mut s, "{:.1}{}", line.value, line.unit).unwrap()], [s] empty. *)
Definition write_value {E} (line : Line.t) : outcome E (list Z) :=
  match write_fmt (f32_pieces (Line.value line) ++ [Line.unit line]) [] with
  | (Ok _, s) => Ok s
  | (Panic p, _) => Panic p
  | _ => Panic PUnwrap
  end.

Fixpoint draw_lines {E} (i : Z) (ls : list Line.t) : M W E Datatypes.unit :=
  match ls with
  | [] => mret tt
  | line :: ls =>
    s ← lift (write_value line);
    format_line (Line.key line) i Left ;;;
    format_line s i Right ;;;
    draw_lines (i + 1) ls
  end.

Definition setup {E} : M W E Datatypes.unit := must screen_init ;;; must screen_clear.

Definition turn {E} {Bms} `{Readings Bms} (bms : Bms) : M W E Datatypes.unit :=
  let data := DisplayFormat.from_bms bms in
  title ← lift (idx (lines data) 0);
  format_line (Line.key title) 0 Center ;;;
  draw_lines 1 (drop 1 (lines data)) ;;;
  must flush.

(** The task, over what [BMS] holds at each tick. *)
Fixpoint turns {E} {Bms} `{Readings Bms} (seen : list Bms) : M W E Datatypes.unit :=
  match seen with
  | [] => mret tt
  | bms :: seen => turn bms ;;; turns seen
  end.

Definition display_task {E} {Bms} `{Readings Bms} (seen : list Bms) : M W E Datatypes.unit :=
  setup ;;; turns seen.
End task.

(** ** Rounding *)

Lemma round_even_nearest num den :
  0 < den -> 0 <= num -> 0 <= round_even num den /\ 2 * Z.abs (round_even num den * den - num) <= den.
Proof.
  intros Hd Hn. unfold round_even. pose proof (Z.div_mod num den ltac:(lia)).
  pose proof (Z.mod_pos_bound num den Hd). pose proof (Z.div_pos num den Hn Hd).
  destruct (Z.ltb_spec (2 * (num mod den)) den); [|destruct (Z.ltb_spec den (2 * (num mod den)));
    [|destruct (Z.even (num / den))]]; split; nia.
Qed.

Lemma tenths_nonneg m e : 0 <= tenths m e.
Proof. apply round_even_nearest; [apply Z.pow_pos_nonneg; lia|]. pose proof (Z.pow_pos_nonneg 2 (Z.max 0 e)). lia. Qed.

(** [n] tenths read back. *)
Lemma tenths_text n :
  0 <= n < 10 ^ 40 ->
  10 * undecimal (digits 40 (n / 10)) + (48 + n mod 10 - 48) = n.
Proof.
  intros Hn. rewrite undecimal_digits.
  - pose proof (Z.div_mod n 10). lia.
  - split; [apply Z.div_pos; lia|]. apply Z.div_lt_upper_bound; [lia|].
    change (10 ^ Z.of_nat 40) with (10 ^ 40). lia.
Qed.

Lemma zlen_sign s : 0 <= zlen (sign_piece s) <= 1.
Proof. by destruct s. Qed.

Lemma zlen_tenths k n :
  0 <= n < 10 ^ (Z.of_nat k + 1) -> (1 <= k)%nat ->
  zlen (concat (tenths_pieces n)) <= Z.of_nat k + 2.
Proof.
  intros Hn Hk. unfold tenths_pieces. cbn [concat]. rewrite app_nil_r, !zlen_app.
  assert (Hd : 0 <= n / 10 < 10 ^ Z.of_nat k).
  { split; [apply Z.div_pos; lia|]. apply Z.div_lt_upper_bound; [lia|].
    rewrite Z.pow_add_r in Hn by lia. lia. }
  pose proof (zlen_digits 39 k (n / 10) Hd Hk). change (zlen (str ".")) with 1.
  change (zlen [48 + n mod 10]) with 1. lia.
Qed.

(** A finite number and its pattern: at most 24 bits, and an exponent that
    makes it less than [2 ^ 128]. *)
Lemma decode_finite x s m e :
  0 <= x < 2 ^ 32 -> decode x = S754_finite s m e -> Z.pos m < 2 ^ 24 /\ e <= 104.
Proof.
  intros Hx. destruct (pattern_fields x Hx) as (_ & He & Hm). unfold decode.
  destruct (Z.eqb_spec (x / 2 ^ 23 mod 2 ^ 8) 255); [by destruct (x mod 2 ^ 23 =? 0)|].
  destruct (x / 2 ^ 23 mod 2 ^ 8 =? 0).
  - destruct (x mod 2 ^ 23); intros Hq; [done|injection Hq; lia|done].
  - destruct (x mod 2 ^ 23 + 2 ^ 23) eqn:Hp; intros Hq; [done|injection Hq; lia|done].
Qed.

Lemma round_even_below num den k : 0 < den -> 0 <= num -> num <= k * den -> round_even num den <= k.
Proof.
  intros Hd Hn Hk. destruct (round_even_nearest num den Hd Hn) as [_ Hr].
  destruct (Z.le_gt_cases (round_even num den) k) as [|Hgt]; [done|]. exfalso. nia.
Qed.

Lemma tenths_bound m e : Z.pos m < 2 ^ 24 -> e <= 104 -> tenths m e < 10 ^ 40.
Proof.
  intros Hm He. unfold tenths.
  assert (Hden : 0 < 2 ^ Z.max 0 (- e)) by (apply Z.pow_pos_nonneg; lia).
  assert (Hpow : 0 < 2 ^ Z.max 0 e <= 2 ^ 104).
  { split; [apply Z.pow_pos_nonneg; lia|]. apply Z.pow_le_mono_r; lia. }
  apply Z.le_lt_trans with (2 ^ 24 * 10 * 2 ^ 104); [|reflexivity].
  apply round_even_below; [done|nia|]. nia.
Qed.

(** ** The text of a value *)

Section text.
Context `{HeaplessExtend}.

Lemma write_fmt_string pieces : forall text,
  if zlen (text ++ concat pieces) <=? TEXT_SIZE
  then write_fmt pieces text = (Ok tt, text ++ concat pieces)
  else zlen text <= TEXT_SIZE -> exists text', write_fmt pieces text = (Err FmtErr, text').
Proof.
  induction pieces as [|s pieces IH]; intros text; cbn [concat write_fmt].
  { rewrite app_nil_r. destruct (Z.leb_spec (zlen text) TEXT_SIZE); [done|lia]. }
  rewrite app_assoc. specialize (IH (text ++ s)). pose proof (zlen_nonneg (concat pieces)).
  destruct (Z.le_gt_cases (zlen text + zlen s) TEXT_SIZE) as [Hs|Hs].
  - assert (Hw : fmt_write_str s text = (Ok tt, text ++ s)) by (cbn; by rewrite extend_slice_room).
    destruct (_ <=? _).
    + by erewrite bind_ok by exact Hw.
    + intros _. erewrite bind_ok by exact Hw. apply IH. zlen. lia.
  - assert (Hw : fmt_write_str s text = (Err FmtErr, text)) by (cbn; by rewrite extend_slice_full by lia).
    destruct (Z.leb_spec (zlen ((text ++ s) ++ concat pieces)) TEXT_SIZE) as [Hl|Hl].
    + rewrite !zlen_app in Hl. lia.
    + intros _. exists text. by erewrite bind_err by exact Hw.
Qed.

Definition value_text (line : Line.t) : list Z := shown (Line.value line) ++ Line.unit line.
Definition fits (line : Line.t) : bool := zlen (value_text line) <=? TEXT_SIZE.

Lemma write_value_spec {E} line :
  write_value (E := E) line = if fits line then Ok (value_text line) else Panic PUnwrap.
Proof.
  unfold write_value, fits. pose proof (write_fmt_string (f32_pieces (Line.value line) ++ [Line.unit line]) []) as Hw.
  assert (Hc : [] ++ concat (f32_pieces (Line.value line) ++ [Line.unit line]) = value_text line).
  { cbn [app]. rewrite concat_app. cbn [concat]. by rewrite app_nil_r. }
  rewrite Hc in Hw. destruct (zlen (value_text line) <=? TEXT_SIZE).
  - by rewrite Hw.
  - destruct Hw as [t' ->]; [by vm_compute|done].
Qed.
End text.

(** A number of at most [k] digits before the point. *)
Definition digits_before (k : nat) (x : Z) : Prop :=
  match decode x with
  | S754_finite s m e => tenths m e < 10 ^ (Z.of_nat k + 1)
  | _ => True
  end.

Lemma zlen_shown k x : (1 <= k)%nat -> digits_before k x -> zlen (shown x) <= Z.of_nat k + 3.
Proof.
  intros Hk. unfold digits_before, shown, f32_pieces.
  destruct (decode x) as [s|s| |s m e]; cbn [concat]; intros Hx; try rewrite !zlen_app;
    try pose proof (zlen_sign s).
  - pose proof (zlen_tenths k 0).
    assert (0 < 10 ^ (Z.of_nat k + 1)) by (apply Z.pow_pos_nonneg; lia). lia.
  - change (zlen (str "inf")) with 3. change (zlen []) with 0. lia.
  - change (zlen (str "NaN")) with 3. change (zlen []) with 0. lia.
  - pose proof (zlen_tenths k (tenths m e) (conj (tenths_nonneg m e) Hx) Hk). lia.
Qed.

(** An integer of 16 bits is shown as itself. *)
Definition exact `{NanPattern} (n : Z) : bool :=
  match decode (f32_of_Z n) with
  | S754_zero false => n =? 0
  | S754_finite false m e => (e <=? 0) && (Z.pos m =? n * 2 ^ (- e))
  | _ => false
  end.

Lemma small_integers_exact `{NanPattern} : from_to (Z.to_nat (2 ^ 16)) 0 exact = true.
Proof. vm_compute. reflexivity. Qed.

Lemma digits_more f g n : (1 <= f)%nat -> 0 <= n < 10 ^ Z.of_nat f -> digits (f + g) n = digits f n.
Proof.
  revert n. induction f as [|f IH]; intros n Hf Hn; [lia|].
  cbn [digits Nat.add]. destruct (Z.ltb_spec n 10); [done|]. f_equal. apply IH.
  { destruct f; [cbn in Hn; lia|lia]. }
  split; [apply Z.div_pos; lia|]. apply Z.div_lt_upper_bound; [lia|].
  replace (Z.of_nat (S f)) with (1 + Z.of_nat f) in Hn by lia. rewrite Z.pow_add_r in Hn by lia. lia.
Qed.

Lemma integer_shown `{NanPattern} n :
  0 <= n < 2 ^ 16 -> shown (f32_of_Z n) = decimal n ++ str ".0".
Proof.
  intros Hn. pose proof (from_to_spec exact _ 0 n small_integers_exact ltac:(lia)) as He.
  unfold exact in He. unfold shown, f32_pieces.
  assert (Hd : forall k, k = 10 * n -> concat (sign_piece false :: tenths_pieces k) = decimal n ++ str ".0").
  { intros k ->. unfold tenths_pieces. cbn [concat sign_piece app].
    rewrite (Z.mul_comm 10 n), Z.div_mul, Z.mod_mul by lia. unfold decimal.
    rewrite (digits_more 20 20) by (try lia; change (10 ^ Z.of_nat 20) with (10 ^ 20); lia). done. }
  destruct (decode (f32_of_Z n)) as [[]|[]| |[] m e]; try discriminate.
  - apply Z.eqb_eq in He as ->. by apply Hd.
  - apply andb_true_iff in He as [He Hm]. apply Z.leb_le in He. apply Z.eqb_eq in Hm.
    apply Hd. unfold tenths, round_even. rewrite Hm, (Z.max_l 0 e), (Z.max_r 0 (- e)) by lia.
    assert (0 < 2 ^ (- e)) by (apply Z.pow_pos_nonneg; lia).
    replace (n * 2 ^ (- e) * 10 * 2 ^ 0) with (10 * n * 2 ^ (- e)) by ring.
    rewrite Z.div_mul, Z.mod_mul by lia. by rewrite (proj2 (Z.ltb_lt (2 * 0) _)) by lia.
Qed.

(** ** The page *)

Inductive item : Type := Text (s : list Z) (at_ : Z * Z) (j : Alignment) | Flushed.

(** A screen that works: it draws what it is told to. *)
Class WorkingScreen (W : Type) `{Screen W} : Type := {
  drawn : W -> list item;
  draw_works w s p j : exists w', draw_text w s p j = (true, w') /\
    drawn w' = drawn w ++ [Text s p j] /\ top_left w' = top_left w;
  flush_works w : exists w', flush w = (true, w') /\
    drawn w' = drawn w ++ [Flushed] /\ top_left w' = top_left w;
}.

(** The two texts of line [i], and those of all lines from there. *)
Definition line_items (tl : Z * Z) (i : Z) (line : Line.t) : list item := [
  Text (Line.key line) (tl.1 + 1, tl.2 + i * 14) Left;
  Text (value_text line) (tl.1 + 160, tl.2 + i * 14) Right
].

Fixpoint items (tl : Z * Z) (i : Z) (ls : list Line.t) : list item :=
  match ls with
  | [] => []
  | line :: ls => line_items tl i line ++ items tl (i + 1) ls
  end.

Definition title_item (tl : Z * Z) : item :=
  Text (str "---- BMS ----") (tl.1 + 80, tl.2) Center.

(** The lines before the first that does not fit. *)
Fixpoint fitting (ls : list Line.t) : list Line.t :=
  match ls with
  | [] => []
  | line :: ls => if fits line then line :: fitting ls else []
  end.

Section page.
Context `{HeaplessExtend} `{NanPattern} {W : Type} `{WorkingScreen W}.

Lemma format_line_ok {E} (w : W) s l j :
  exists w', format_line (E := E) s l j w = (Ok tt, w') /\
    drawn w' = drawn w ++ [Text s ((top_left w).1 + column j, (top_left w).2 + l * 14) j] /\
    top_left w' = top_left w.
Proof.
  destruct (draw_works w s ((top_left w).1 + column j, (top_left w).2 + l * 14) j) as (w' & Hd & Hw & Ht).
  exists w'. split; [|done]. unfold format_line. erewrite bind_ok by reflexivity.
  unfold must. by rewrite Hd.
Qed.

Lemma draw_lines_spec {E} ls : forall i (w : W),
  exists w', draw_lines (E := E) i ls w = (if forallb fits ls then Ok tt else Panic PUnwrap, w') /\
    drawn w' = drawn w ++ items (top_left w) i (fitting ls) /\ top_left w' = top_left w.
Proof.
  induction ls as [|line ls IH]; intros i w; cbn [draw_lines forallb fitting].
  { exists w. by rewrite app_nil_r. }
  destruct (fits line) eqn:Hf; cbn [andb].
  - destruct (format_line_ok (E := E) w (Line.key line) i Left) as (w1 & He1 & D1 & T1).
    destruct (format_line_ok (E := E) w1 (value_text line) i Right) as (w2 & He2 & D2 & T2).
    destruct (IH (i + 1) w2) as (w3 & He3 & D3 & T3). exists w3. split.
    + erewrite bind_ok by (unfold lift; rewrite write_value_spec, Hf; reflexivity).
      erewrite bind_ok by exact He1. erewrite bind_ok by exact He2. exact He3.
    + split; [|congruence]. rewrite D3, D2, T2, D1, T1. cbn [items line_items app]. by rewrite <- !app_assoc.
  - exists w. split; [|by rewrite app_nil_r].
    erewrite bind_panic; [reflexivity|]. unfold lift. by rewrite write_value_spec, Hf.
Qed.

Lemma fitting_all ls : forallb fits ls = true -> fitting ls = ls.
Proof.
  induction ls as [|l ls IH]; [done|]. cbn. intros Hf. apply andb_true_iff in Hf as [-> Hf]. by rewrite IH.
Qed.

(** What a turn does: the title and, if the eight values fit in twenty
    characters with their units, a line for each, after which the screen is
    updated; else the title and the lines before the first that does not fit, and a panic. *)
Lemma turn_spec {E Bms} `{Readings Bms} (bms : Bms) (w : W) :
  let tl := top_left w in
  let values := drop 1 (lines (DisplayFormat.from_bms bms)) in
  exists w', top_left w' = tl /\
    turn (E := E) bms w = (if forallb fits values then Ok tt else Panic PUnwrap, w') /\
    drawn w' = drawn w ++ title_item tl :: items tl 1 (fitting values) ++
      (if forallb fits values then [Flushed] else []).
Proof.
  intros tl values. unfold turn. erewrite bind_ok by reflexivity.
  destruct (format_line_ok (E := E) w (str "---- BMS ----") 0 Center) as (w1 & He1 & D1 & T1).
  erewrite bind_ok by exact He1. fold values.
  destruct (draw_lines_spec (E := E) values 1 w1) as (w2 & He2 & D2 & T2). cbn [column] in D1.
  rewrite Z.add_0_r in D1. rewrite T1 in D2, T2. rewrite D1 in D2. fold tl in D2, T2.
  destruct (forallb fits values).
  - destruct (flush_works w2) as (w3 & He3 & D3 & T3). exists w3. split; [congruence|]. split.
    + erewrite bind_ok by exact He2. unfold must. by rewrite He3.
    + rewrite D3, D2. unfold title_item. by rewrite <- !app_assoc.
  - exists w2. split; [done|]. split.
    + by erewrite bind_panic by exact He2.
    + rewrite D2. unfold title_item. by rewrite app_nil_r, <- app_assoc.
Qed.

(** What the battery may say for every value to fit: at most fourteen digits
    before the point, or no number at all. *)
Definition sane {Bms} `{Readings Bms} (b : Bms) : Prop :=
  Forall (digits_before 14) [bms_soc b; bms_kwh_remaining b; bms_pack_volts b; temps_maximum b; bms_current b] /\
  Forall (fun n => 0 <= n < 2 ^ 16) [cell_range_mv_maximum b; cell_range_mv_minimum b; get_balancing_cells b].

Lemma fits_digits key x unit : digits_before 14 x -> zlen unit <= 3 -> fits (Line.new key x unit) = true.
Proof.
  intros Hx Hu. apply Z.leb_le. unfold value_text, TEXT_SIZE. cbn [Line.new Line.value Line.unit].
  rewrite zlen_app. pose proof (zlen_shown 14 x ltac:(lia) Hx). lia.
Qed.

Lemma fits_integer key n unit :
  0 <= n < 2 ^ 16 -> zlen unit <= 3 -> fits (Line.new key (f32_of_Z n) unit) = true.
Proof.
  intros Hn Hu. apply Z.leb_le. unfold value_text, TEXT_SIZE. cbn [Line.new Line.value Line.unit].
  rewrite integer_shown, !zlen_app by done.
  pose proof (zlen_decimal 5 n ltac:(change (10 ^ Z.of_nat 5) with 100000; lia) ltac:(lia)).
  change (zlen (str ".0")) with 2. lia.
Qed.

Lemma sane_fits {Bms} `{Readings Bms} (b : Bms) :
  sane b -> forallb fits (drop 1 (lines (DisplayFormat.from_bms b))) = true.
Proof.
  intros [Hd Hi]. do 5 apply List.Forall_cons_iff in Hd as [? Hd].
  do 3 apply List.Forall_cons_iff in Hi as [? Hi].
  cbn [lines drop forallb DisplayFormat.from_bms DisplayFormat.soc DisplayFormat.kwh DisplayFormat.volts
    DisplayFormat.cell_temp_high DisplayFormat.cell_mv_high DisplayFormat.cell_mv_low
    DisplayFormat.amps DisplayFormat.bal].
  assert (Hlen : zlen (str "%") <= 3 /\ zlen (str "kWh") <= 3 /\ zlen (str "V") <= 3 /\ zlen (str "oC") <= 3 /\
    zlen (str "mV") <= 3 /\ zlen (str "A") <= 3 /\ zlen (str "#") <= 3) by (repeat split; discriminate).
  destruct Hlen as (? & ? & ? & ? & ? & ? & ?).
  rewrite !andb_true_iff.
  repeat split; first [by apply fits_digits|by apply fits_integer].
Qed.

(** One update of the screen. *)
Definition page {Bms} `{Readings Bms} (tl : Z * Z) (b : Bms) : list item :=
  title_item tl :: items tl 1 (drop 1 (lines (DisplayFormat.from_bms b))) ++ [Flushed].

(** C30: The display.  As long as what the battery says has at most fourteen
    digits before the point, the task draws at each tick the whole page: the
    title, centred, and on each of the eight lines below it a key at the left
    and the value with its unit at the right, and updates the screen.  A tick
    whose values do not all fit draws the lines before the first that does not,
    without updating the screen, and panics. *)
Theorem display_pages {E Bms} `{Readings Bms} (seen : list Bms) (last : Bms) (w : W)
  (Hsane : Forall sane seen)
  (Hlast : forallb fits (drop 1 (lines (DisplayFormat.from_bms last))) = false) :
  let pages := concat (map (page (top_left w)) seen) in
  (exists w', turns (E := E) seen w = (Ok tt, w') /\ drawn w' = drawn w ++ pages) /\
  exists w', turns (E := E) (seen ++ [last]) w = (Panic PUnwrap, w') /\
    drawn w' = drawn w ++ pages ++ title_item (top_left w) ::
      items (top_left w) 1 (fitting (drop 1 (lines (DisplayFormat.from_bms last)))).
Proof.
  intros pages. subst pages. revert w.
  induction seen as [|b seen IH]; intros w; cbn [turns app map concat].
  - split; [exists w; by rewrite app_nil_r|].
    destruct (turn_spec (E := E) last w) as (w' & _ & He & Hd). rewrite Hlast in He, Hd.
    exists w'. split; [by erewrite bind_panic by exact He|]. by rewrite app_nil_r in Hd.
  - apply List.Forall_cons_iff in Hsane as [Hb Hs]. pose proof (sane_fits b Hb) as Hf.
    destruct (turn_spec (E := E) b w) as (w1 & T1 & He & Hd). rewrite Hf in He, Hd.
    rewrite fitting_all in Hd by done.
    change (title_item _ :: _ ++ _) with (page (top_left w) b) in Hd.
    destruct (IH Hs w1) as [(w2 & He2 & D2) (w3 & He3 & D3)]. rewrite T1, Hd in D2, D3.
    split; [exists w2|exists w3]; (split; [by erewrite bind_ok by exact He|]).
    + by rewrite D2, <- app_assoc.
    + by rewrite D3, <- !app_assoc.
Qed.
End page.

(** The text of a number is its sign, digits, a point and one digit; read
    back, it is a tenth that no other tenth is nearer to the number than. *)
Theorem display_value_nearest x s m e
  (Hx : 0 <= x < 2 ^ 32) (Hd : decode x = S754_finite s m e) :
  exists whole tenth, shown x = sign_piece s ++ whole ++ str "." ++ [tenth] /\
    Forall (fun d => 48 <= d <= 57) (whole ++ [tenth]) /\
    let n := undecimal (whole ++ [tenth]) in
    2 * Z.abs (n * 2 ^ Z.max 0 (- e) - Z.pos m * 10 * 2 ^ Z.max 0 e) <= 2 ^ Z.max 0 (- e).
Proof.
  destruct (decode_finite x s m e Hx Hd) as [Hm He].
  pose proof (tenths_bound m e Hm He) as Hb. pose proof (tenths_nonneg m e) as Hn.
  exists (digits 40 (tenths m e / 10)), (48 + tenths m e mod 10).
  unfold shown, f32_pieces. rewrite Hd. split; [|split].
  - unfold tenths_pieces. cbn [concat]. by rewrite app_nil_r.
  - apply Forall_app. split; [apply digits_range, Z.div_pos; lia|].
    pose proof (Z.mod_pos_bound (tenths m e) 10 ltac:(lia)). by repeat constructor; lia.
  - cbv zeta. rewrite undecimal_app, tenths_text by lia.
    apply round_even_nearest; [apply Z.pow_pos_nonneg; lia|].
    pose proof (Z.pow_pos_nonneg 2 (Z.max 0 e)). lia.
Qed.

(** ** At concrete inputs *)

Module SampleScreen.
#[export] Instance screen : Screen (list item) := {
  top_left := fun _ => (0, 0);
  screen_init := fun w => (true, w);
  screen_clear := fun w => (true, w);
  draw_text := fun w s p j => (true, w ++ [Text s p j]);
  flush := fun w => (true, w ++ [Flushed]);
}.

#[refine, export] Instance working : WorkingScreen (list item) := {| drawn := id |}.
Proof. all: intros; eexists; by repeat split. Defined.

(** A battery by its voltage, the other values fixed. *)
#[export] Instance readings : Readings Z := {
  bms_soc := fun _ => f32_lit 2025 100;
  bms_pack_volts := id;
  cell_range_mv_maximum := fun _ => 4101;
  cell_range_mv_minimum := fun _ => 4099;
  temps_maximum := fun _ => f32_lit (-5) 100;
  temps_minimum := fun _ => f32_lit (-2) 1;
  bms_current := fun _ => nan_bits;
  bms_kwh_remaining := fun _ => f32_lit 264 10;
  bms_charge_max := fun _ => 0;
  bms_discharge_max := fun _ => 0;
  get_balancing_cells := fun _ => 3;
  bms_valid := fun _ => true;
}.
End SampleScreen.
Import SampleScreen.
#[local] Existing Instance list_extend.

Example page_texts :
  map (fun l => value_text l) (drop 1 (lines (DisplayFormat.from_bms (f32_lit 3606 10)))) =
  [str "20.2%"; str "26.4kWh"; str "360.6V"; str "-0.1oC"; str "4101.0mV"; str "4099.0mV"; str "NaNA"; str "3.0#"].
Proof. vm_compute. reflexivity. Qed.

(** A voltage of 10 ^ 18 has eighteen digits: too many. *)
Lemma display_pages_witness :
  exists w', turns (E := unit) [f32_lit 3606 10; f32_lit (10 ^ 18) 1] [] = (Panic PUnwrap, w') /\
    length w' = 23%nat.
Proof.
  destruct (display_pages (E := unit) [f32_lit 3606 10] (f32_lit (10 ^ 18) 1) ([] : list item))
    as [_ (w' & He & Hd)].
  - constructor; [|constructor]. split.
    + do 5 (constructor; [vm_compute; first [exact I|reflexivity]|]). constructor.
    + do 3 (constructor; [vm_compute; split; [discriminate|reflexivity]|]). constructor.
  - vm_compute. reflexivity.
  - exists w'. split; [exact He|]. rewrite (Hd : w' = _). vm_compute. reflexivity.
Defined.

Lemma display_value_nearest_witness :
  exists whole tenth, shown (f32_lit 2025 100) = whole ++ str "." ++ [tenth] /\
    Forall (fun d => 48 <= d <= 57) (whole ++ [tenth]).
Proof.
  assert (Hd : decode (f32_lit 2025 100) = S754_finite false 10616832 (-19)) by (vm_compute; reflexivity).
  destruct (display_value_nearest (f32_lit 2025 100) false 10616832 (-19)) as (whole & tenth & Hs & Hr & _).
  - vm_compute. by split.
  - exact Hd.
  - exists whole, tenth. exact (conj Hs Hr).
Defined.
