(* ===== verification/Syslog.v ===== *)
(** The syslog client: syslog-emb/src/lib.rs.

    A message becomes one line, sent over TCP or UDP.  The sockets and the
    calendar type of the clock are not part of the repository: they are
    classes.  The line is formatted into a buffer of the caller, any type with
    [core::fmt::Write]. *)
From stdpp Require Import strings.
From S2P Require Import Prelude.
From S2P Require Import Utf8.
From S2P Require Import Writer.

Inductive SyslogError : Type := ConnectionReset | NoRoute | SocketNotBound.

(** [embassy_net::tcp::Error] and [embassy_net::udp::SendError]. *)
Inductive TcpError : Type := TcpConnectionReset.
Inductive UdpError : Type := UdpNoRoute | UdpSocketNotBound.

Definition from_tcp (err : TcpError) : SyslogError :=
  match err with TcpConnectionReset => ConnectionReset end.

Definition from_udp (err : UdpError) : SyslogError :=
  match err with UdpNoRoute => NoRoute | UdpSocketNotBound => SocketNotBound end.

(** [impl Display for SyslogError] *)
Definition fmt_error (e : SyslogError) : list Z :=
  match e with
  | ConnectionReset => str "ConnectionReset"
  | NoRoute => str "NoRoute"
  | SocketNotBound => str "SocketNotBound"
  end.

Class LogSockets (T U IpEndpoint : Type) : Type := {
  log_write : T -> list Z -> (Z + TcpError) * T;
  log_send_to : U -> list Z -> IpEndpoint -> (unit + UdpError) * U;
}.

(** [embassy_stm32::rtc::DateTime] *)
Class DateTime (D : Type) : Type := {
  year : D -> Z;
  month : D -> Z;
  day : D -> Z;
  hour : D -> Z;
  minute : D -> Z;
  second : D -> Z;
  year_range : forall d, 0 <= year d < 2 ^ 16;
  month_range : forall d, 0 <= month d < 2 ^ 8;
  day_range : forall d, 0 <= day d < 2 ^ 8;
  hour_range : forall d, 0 <= hour d < 2 ^ 8;
  minute_range : forall d, 0 <= minute d < 2 ^ 8;
  second_range : forall d, 0 <= second d < 2 ^ 8;
}.

Module SyslogMessage.
Record t {D : Type} : Type := mk {
  priority : Z;
  hostname : list Z;
  source : list Z;
  proc_id : list Z;
  message : list Z;
  message_data : list Z;
  datetime : D
}.
Arguments t D : clear implicits.
Arguments mk {D}.
End SyslogMessage.
Import SyslogMessage.

Module Syslog.
Section syslog.
Context {T U IpEndpoint D W : Type} `{LogSockets T U IpEndpoint} `{DateTime D} `{FmtWrite W}.

Inductive SyslogSocket : Type := Tcp (socket : T) | Udp (socket : U) (ip : IpEndpoint).

Record t : Type := mk { socket : SyslogSocket }.

Definition new (socket : SyslogSocket) : t := mk socket.

Definition transmit (data : list Z) : M t SyslogError unit := fun self =>
  match socket self with
  | Tcp so =>
    let '(r, so) := log_write so data in
    (match r with inl _ => Ok tt | inr e => Err (from_tcp e) end, mk (Tcp so))
  | Udp so ip =>
    let '(r, so) := log_send_to so data ip in
    (match r with inl _ => Ok tt | inr e => Err (from_udp e) end, mk (Udp so ip))
  end.

(** The static [MSG_COUNTER], an [AtomicU32], the buffer [buf] and [self]. *)
Record world : Type := mk_world { msg_counter : Z; buf : W; self : t }.

Definition fetch_add : M world SyslogError Z := fun s =>
  (Ok (msg_counter s), mk_world (wrap 32 (msg_counter s + 1)) (buf s) (self s)).

(** The arguments of the two [write!]. *)
Definition time_pieces (dt : D) : list (list Z) :=
  [decimal (year dt); str "-"; decimal (month dt); str "-"; decimal (day dt); str "T";
   decimal (hour dt); str ":"; decimal (minute dt); str ":"; decimal (second dt); str ".0Z"].

Definition line_pieces (message : SyslogMessage.t D) (time : list Z) (counter : Z) : list (list Z) :=
  [str "<"; decimal (priority message); str ">1 "; time; str " "; hostname message; str " ";
   proc_id message; str " ID"; decimal counter; str " ["; message_data message; str "] ";
   SyslogMessage.message message; [10]].

(** [write!(..).unwrap()] into [time], and [time.as_str()]. *)
Definition time_str (dt : D) : outcome SyslogError (list Z) :=
  let '(r, time) := write_fmt (time_pieces dt) (ByteMutWriterCap.new 50) in
  match r with
  | Ok _ => ByteMutWriter.as_str time
  | Err _ => Panic PUnwrap
  | Panic p => Panic p
  | OutOfFuel => OutOfFuel
  end.

(** [writeln!(buf, ..).unwrap()] *)
Definition write_line (pieces : list (list Z)) : M world SyslogError unit := fun s =>
  let '(r, buf) := write_fmt pieces (buf s) in
  (unwrap_res r, mk_world (msg_counter s) buf (self s)).

Definition with_self {A} (m : M t SyslogError A) : M world SyslogError A := fun s =>
  let '(o, self) := m (self s) in (o, mk_world (msg_counter s) (buf s) self).

Definition send (message : SyslogMessage.t D) : M world SyslogError unit :=
  counter ← fetch_add;
  time ← lift (time_str (datetime message));
  write_line (line_pieces message time counter) ;;;
  data ← (fun s => (fmt_borrow (buf s), s));
  with_self (transmit data).
End syslog.
Arguments SyslogSocket : clear implicits.
Arguments t : clear implicits.
Arguments world : clear implicits.
End Syslog.
Import Syslog.

(** ** Properties *)

Section syslog.
Context {T U IpEndpoint D W : Type} `{LogSockets T U IpEndpoint} `{DateTime D} `{BoundedText W}.

(** The time stamp, and the line of a message. *)
Definition timestamp (dt : D) : list Z := concat (time_pieces dt).
Definition line (m : SyslogMessage.t D) (counter : Z) : list Z :=
  concat (line_pieces m (timestamp (datetime m)) counter).

Lemma str_ascii s : forallb (fun b => (0 <=? b) && (b <=? 127)) (str s) = true -> ascii (str s).
Proof.
  unfold ascii. induction (str s) as [|b l IH]; cbn; [by constructor|].
  intros Hb. apply andb_prop in Hb as [Hb Hl]. constructor; [lia|auto].
Qed.

Lemma timestamp_ascii dt : ascii (timestamp dt).
Proof.
  pose proof (year_range dt). pose proof (month_range dt). pose proof (day_range dt).
  pose proof (hour_range dt). pose proof (minute_range dt). pose proof (second_range dt).
  unfold timestamp, time_pieces. cbn [concat]. unfold ascii.
  repeat (apply Forall_app; split); try (apply decimal_ascii; lia); try by apply str_ascii.
  by constructor.
Qed.

(** It is never cut: the buffer has 50 bytes, the longest stamp 28. *)
Lemma zlen_timestamp dt : zlen (timestamp dt) <= 28.
Proof.
  assert (H8 : forall n, 0 <= n < 2 ^ 8 -> zlen (decimal n) <= 3).
  { intros n Hn. apply (zlen_decimal 3); [cbn; lia|lia]. }
  pose proof (zlen_decimal 5 (year dt)) as Hy. pose proof (year_range dt).
  specialize (Hy ltac:(change (10 ^ Z.of_nat 5) with 100000; lia) ltac:(lia)).
  pose proof (H8 _ (month_range dt)). pose proof (H8 _ (day_range dt)).
  pose proof (H8 _ (hour_range dt)). pose proof (H8 _ (minute_range dt)).
  pose proof (H8 _ (second_range dt)).
  unfold timestamp, time_pieces. cbn [concat]. zlen.
  change (zlen (str "-")) with 1. change (zlen (str "T")) with 1.
  change (zlen (str ":")) with 1. change (zlen (str ".0Z")) with 3. lia.
Qed.

Lemma time_str_ok dt : time_str dt = Ok (timestamp dt).
Proof.
  unfold time_str.
  destruct (@write_fmt_text _ _ ByteMutWriter_text _ (time_pieces dt) [] _
    (holds_new (replicate (Z.to_nat 50) 0))) as (w & Hw & Hh).
  unfold ByteMutWriterCap.new. rewrite Hw. unfold ByteMutWriter.as_str.
  rewrite (borrow_holds _ _ _ Hh). cbn [app]. fold (timestamp dt). pose proof (zlen_timestamp dt).
  rewrite ztake_all by (change (zlen (replicate (Z.to_nat 50) 0)) with 50; lia).
  cbn [mbind outcome_bind]. by rewrite ascii_valid by apply timestamp_ascii.
Qed.

(** What the transport answers, as the result of [send]. *)
Definition delivered (data : list Z) (so : SyslogSocket T U IpEndpoint)
  : outcome SyslogError unit * SyslogSocket T U IpEndpoint :=
  match so with
  | Tcp so => ((match (log_write so data).1 with inl _ => Ok tt | inr e => Err (from_tcp e) end),
      Tcp (log_write so data).2)
  | Udp so ip => ((match (log_send_to so data ip).1 with inl _ => Ok tt | inr e => Err (from_udp e) end),
      Udp (log_send_to so data ip).2 ip)
  end.

Lemma transmit_delivered data so :
  transmit data (Syslog.mk so) = ((delivered data so).1, Syslog.mk (delivered data so).2).
Proof.
  destruct so as [so|so ip]; unfold transmit, delivered; cbn.
  - by destruct (log_write so data).
  - by destruct (log_send_to so data ip).
Qed.

(** [send] hands the transport one datagram, the line of the message with
    the next number of the counter, after whatever the buffer still holds, cut
    to the buffer's capacity; the result is the transport's, and nothing
    panics.  The counter wraps at 32 bits.  So a buffer that is not cleared
    sends the old lines again. *)
Theorem syslog_send_line (m : SyslogMessage.t D) c (b : W) so cap old
  (Hb : text_holds cap old b) :
  exists b',
    send m (mk_world c b (Syslog.mk so)) =
      ((delivered (ztake cap (old ++ line m c)) so).1,
       mk_world (wrap 32 (c + 1)) b'
         (Syslog.mk (delivered (ztake cap (old ++ line m c)) so).2)) /\
    text_holds cap (old ++ line m c) b'.
Proof.
  destruct (write_fmt_text cap (line_pieces m (timestamp (datetime m)) c) old b Hb)
    as (b' & Hw & Hb').
  exists b'. split; [|done]. unfold send.
  erewrite bind_ok by reflexivity. erewrite bind_ok by (unfold lift; by rewrite time_str_ok).
  erewrite bind_ok by (unfold write_line; cbn [buf msg_counter self]; by rewrite Hw).
  erewrite bind_ok by (cbn; by rewrite (text_borrow _ _ _ _ Hb')).
  unfold with_self; cbn [self msg_counter buf]. by rewrite transmit_delivered.
Qed.
End syslog.

(** A UDP socket that records what it is given. *)
Module SampleLog.
#[export] Instance sockets : LogSockets unit (list (list Z)) unit := {
  log_write := fun t data => (inr TcpConnectionReset, t);
  log_send_to := fun u data _ => (inl tt, u ++ [data]);
}.

#[export, refine] Instance date : DateTime unit := {
  year := fun _ => 2024; month := fun _ => 1; day := fun _ => 5;
  hour := fun _ => 9; minute := fun _ => 7; second := fun _ => 3;
}.
Proof. all: by intros. Defined.

Definition message : SyslogMessage.t unit :=
  SyslogMessage.mk 14 (str "bms") (str "inverter") (str "7") (str "ready") (str "soc=42") tt.
End SampleLog.
Import SampleLog.

(** Neither the fields of the time are padded nor is the source of the message sent. *)
Example syslog_line_text :
  line SampleLog.message 4294967295 =
  str "<14>1 2024-1-5T9:7:3.0Z bms 7 ID4294967295 [soc=42] ready" ++ [10].
Proof. vm_compute. reflexivity. Qed.

Lemma syslog_send_line_witness :
  exists b',
    send (W := ByteMutWriter.t) SampleLog.message
      (mk_world 4294967295 (ByteMutWriter.new (replicate 80 0)) (Syslog.mk (Udp [] tt))) =
    (Ok tt, mk_world 0 b'
      (Syslog.mk (Udp [line SampleLog.message 4294967295] tt))).
Proof.
  destruct (syslog_send_line (IpEndpoint := unit) (T := unit) (H2 := ByteMutWriter_text) SampleLog.message 4294967295
    (ByteMutWriter.new (replicate 80 0)) (Udp [] tt) 80 [] (holds_new (replicate 80 0)))
    as (b' & Hb' & _).
  exists b'. rewrite Hb'. vm_compute. reflexivity.
Defined.
