(* ===== verification/Errors.v ===== *)
(** The texts of errors: stm32f407_controller/src/bin/errors/mod.rs and
    tasks/modbus/error.rs, and [BufferError] of rust-mqtt/src/utils/types.rs. *)
From stdpp Require Import strings.
From S2P Require Import Prelude.
From S2P Require Import Types.
From S2P Require Import Modbus.
From S2P Require Import Writer.

Inductive StmError : Type :=
| InvalidConfigData | ConfigDeserializeError | FileNotFound | InvalidFileName
| InvalidHttpRequest | InvalidIpDetails | InvalidDnsDetails | BadMqttIp | BadMqttPort.

(** [impl Display] *)
Definition fmt_stm_error (e : StmError) : list Z :=
  match e with
  | InvalidConfigData => str "Invalid config data"
  | ConfigDeserializeError => str "Error deserializing config"
  | FileNotFound => str "File not found"
  | InvalidFileName => str "Bad filename"
  | InvalidHttpRequest => str "InvalidHttpRequest"
  | InvalidIpDetails => str "InvalidIpDetails"
  | InvalidDnsDetails => str "InvalidDnsDetails"
  | BadMqttIp => str "BadMqttIp"
  | BadMqttPort => str "BadMqttPort"
  end.

(** [debug] is the text of the driver's [ConnectError]. *)
Definition fmt_modbus_error (debug : list Z) (e : ModbusError) : list Z :=
  match e with
  | Rtu => str "RTU error"
  | Tcp => str "TCP error"
  | Slice => str "Slice error"
  | Push => str "Push error"
  | RtuTimeout => str "RtuTimeout error"
  | RtuRxFail => str "RtuRxFail error"
  | CrcRx => str "CrcRxFail error"
  | ReadExactError => str "ReadExactError error"
  | TcpRxFail v => app (str "TcpRxFail error ") (decimal v)
  | RtuIlligal => str "RtuIlligal error"
  | TcpConnect => app (str "Tcp Connect error ") debug
  | TcpAccept => str "Tcp Accept error"
  | InvalidTransactionId => str "Tcp Transaction Counter mismatch"
  | RtuPayloadTooShort => str "Rtu payload is too short"
  | InvalidFilter => str "Invalid Modbus filter match"
  | ConversionSlice => str "Conversion slice error"
  end.

Definition fmt_buffer_error (e : BufferError) : list Z :=
  match e with
  | Utf8Error => str "Error encountered during UTF8 decoding!"
  | InsufficientBufferSize => str "Buffer size is not sufficient for packet!"
  | VariableByteIntegerError => str "Error encountered during variable byte integer decoding / encoding!"
  | IdNotFound => str "Packet identifier not found!"
  | EncodingError => str "Error encountered during packet encoding!"
  | DecodingError => str "Error encountered during packet decoding!"
  | PacketTypeMismatch => str "Packet type not matched during decoding (Received different packet type than encode type)!"
  | WrongPacketToDecode => str "Not able to decode packet, this packet is used just for sending to broker, not receiving by client!"
  | WrongPacketToEncode => str "Not able to encode packet, this packet is used only from server to client not the opposite way!"
  | PropertyNotFound => str "Property with ID not found!"
  end.

(** A text tells which error it is. *)
Lemma buffer_error_texts e e' : fmt_buffer_error e = fmt_buffer_error e' -> e = e'.
Proof. by destruct e, e'. Qed.

Lemma stm_error_texts e e' : fmt_stm_error e = fmt_stm_error e' -> e = e'.
Proof. by destruct e, e'. Qed.
