(* ===== verification/Http.v ===== *)
(** The web server: stm32f407_controller/src/bin/web/http.rs.

    [serve] is the loop of a connection in [spawned_http], from the accepted
    socket on.  The request parser (httparse), the URL parser (url_lite) and
    the JSON printer are not part of the repository: they are arguments, as are
    the pages that [include_bytes!] takes from web/html and the BMS data.
    The socket is that of the MQTT client, class [Io].  Setting up and closing
    the socket are left out: [serve] tells whether it is closed. *)
From stdpp Require Import strings.
From S2P Require Import Prelude.
From S2P Require Import Utf8.
From S2P Require Import Network.
From S2P Require Import Writer.
From S2P Require Import Errors.

Module FileName.
Inductive t : Type := Index | Settings.

Definition as_bytes (self : t) : list Z :=
  match self with Index => str "index.html" | Settings => str "settings.html" end.

Definition from_bytes (filename : list Z) : outcome StmError t :=
  if bool_decide (filename = str "index.html") then Ok Index
  else if bool_decide (filename = str "settings.html") then Ok Settings
  else Err InvalidFileName.
End FileName.

Module HttpType.
Inductive t : Type := Json | Html | Plain.

Definition as_str (self : t) : list Z :=
  match self with
  | Json => str "application/json"
  | Html => str "text/html"
  | Plain => str "text/plain"
  end.
End HttpType.

Inductive HttpError : Type := Error.

Module HttpRequestType.
Inductive t : Type := Get | Post | Invalid.

Definition from_str (slice : list Z) : t :=
  if bool_decide (slice = str "GET") then Get
  else if bool_decide (slice = str "POST") then Post
  else Invalid.

Definition decode (method : option (list Z)) : outcome StmError t :=
  match method with
  | None => Err InvalidHttpRequest
  | Some slice => Ok (from_str slice)
  end.
End HttpRequestType.

(** ** Bodies and responses *)

(** [for .. in cells.zip(bal)], with [write!(&mut writer, "{},{},", num, boolean as u8)] *)
Fixpoint cell_stats_loop (cells : list (Z * bool)) : M ByteMutWriter.t HttpError unit :=
  match cells with
  | [] => mret tt
  | (num, boolean) :: cells =>
    (fun w =>
       let '(r, w) := write_fmt [decimal num; str ","; decimal (if boolean : bool then 1 else 0); str ","] w in
       (map_err (fun _ => Error) r, w)) ;;;
    cell_stats_loop cells
  end.

Definition cell_stats `{Profile} (buf : list Z) (cell_mv : list Z) (bal_cells : list bool)
  : outcome HttpError (list Z) :=
  let '(r, writer) := cell_stats_loop (zip cell_mv bal_cells) (ByteMutWriter.new buf) in
  _ ← r;
  last ← ByteMutWriter.cursor writer -usize 1;
  slice (ByteMutWriter.buf writer) 0 last.

Definition response_pieces (h : HttpType.t) (body : list Z) : list (list Z) :=
  [str "HTTP/1.1 200 OK" ++ [13; 10] ++ str "Content-Type: "; HttpType.as_str h;
   [13; 10] ++ str "Content-Length: "; decimal (zlen body); [13; 10; 13; 10]; body].

Definition construct_response (body : list Z) (h : HttpType.t)
  : M ByteMutWriter.t FmtError unit :=
  if valid_utf8 body then write_fmt (response_pieces h body)
  else panics PUnwrap.

(** ** A connection *)

Inductive parsed : Type := ParseError | Partial | Complete (path : option (list Z)).

Inductive ended : Type := Closed | LeftOpen.

(** What the handlers read: the pages and the shared data. *)
Record site : Type := mk_site {
  INDEX_HTML : list Z;
  SETTINGS_HTML : list Z;
  CELLS_HTML : list Z;
  config_json : list Z;
  bms_json : list Z;
  cell_mv : list Z;
  bal_cells : list bool
}.

Section serve.
Context `{Profile} {T : Type} `{Io T}.
Context (parse : list Z -> parsed) (url_path : list Z -> option (option (list Z))) (www : site).

Record conn : Type := mk_conn { socket : T; buffer : list Z; pos : Z }.

(** [conn] after the accept. *)
Definition accepted (socket : T) : conn := mk_conn socket (replicate 1024 0) 0.

(** [socket.write(data).await], the result of which is only logged. *)
Definition write_all (data : list Z) : M conn FmtError unit := fun s =>
  (Ok tt, mk_conn (io_write (socket s) data).2 (buffer s) (pos s)).

(** The read: [None] leaves the loop.  A read stores its bytes at the start of
    the buffer; [out] is taken at [pos]. *)
Definition read : M conn FmtError (option (list Z)) := fun s =>
  match io_read (socket s) 1024 with
  | (None, so) => (Ok None, mk_conn so (buffer s) (pos s))
  | (Some [], so) => (Ok None, mk_conn so (buffer s) (pos s))
  | (Some bs, so) =>
    let buffer := bs ++ zdrop (zlen bs) (buffer s) in
    match pos s +usize zlen bs with
    | Ok pos' =>
      match slice buffer (pos s) pos' with
      | Ok out => (Ok (Some out), mk_conn so buffer pos')
      | Err e => (Err e, mk_conn so buffer (pos s))
      | Panic p => (Panic p, mk_conn so buffer (pos s))
      | OutOfFuel => (OutOfFuel, mk_conn so buffer (pos s))
      end
    | Err e => (Err e, mk_conn so buffer (pos s))
    | Panic p => (Panic p, mk_conn so buffer (pos s))
    | OutOfFuel => (OutOfFuel, mk_conn so buffer (pos s))
    end
  end.

(** [if let Ok(r) = construct_response(..) { socket.write(&r.buf[..r.cursor()]) }] *)
Definition respond (body : list Z) (h : HttpType.t) : M conn FmtError unit := fun s =>
  let '(r, response) := construct_response body h (ByteMutWriter.new (replicate (Z.to_nat (1024 * 12)) 0)) in
  match r with
  | Ok _ =>
    match ByteMutWriter.borrow response with
    | Ok data => write_all data s
    | Err e => (Err e, s)
    | Panic p => (Panic p, s)
    | OutOfFuel => (OutOfFuel, s)
    end
  | Err _ => (Ok tt, s)
  | Panic p => (Panic p, s)
  | OutOfFuel => (OutOfFuel, s)
  end.

Definition route (path : option (list Z)) : M conn FmtError ended :=
  match path with
  | None => respond (SETTINGS_HTML www) HttpType.Html ;;; mret Closed
  | Some path =>
    if bool_decide (path = str "/favicon.ico") then mret LeftOpen
    else if bool_decide (path = str "/api/config") then
      respond (config_json www) HttpType.Json ;;; mret Closed
    else if bool_decide (path = str "/api/cells") then
      stats_str ← lift (unwrap_res (cell_stats (replicate 672 0) (cell_mv www) (bal_cells www)));
      respond stats_str HttpType.Plain ;;; mret Closed
    else if bool_decide (path = str "/api/bms") then
      respond (bms_json www) HttpType.Json ;;; mret Closed
    else if bool_decide (path = str "/settings") then
      respond (SETTINGS_HTML www) HttpType.Html ;;; mret Closed
    else if bool_decide (path = str "/cells") then
      respond (CELLS_HTML www) HttpType.Html ;;; mret Closed
    else respond (INDEX_HTML www) HttpType.Html ;;; mret Closed
  end.

Fixpoint serve (fuel : nat) : M conn FmtError ended :=
  match fuel with
  | O => lift OutOfFuel
  | S fuel =>
    buf ← read;
    match buf with
    | None => mret LeftOpen
    | Some buf =>
      match parse buf with
      | ParseError => mret LeftOpen
      | Partial => serve fuel
      | Complete None => write_all (str "FOO") ;;; mret LeftOpen
      | Complete (Some path) =>
        match url_path path with
        | None => mret LeftOpen
        | Some path => route path
        end
      end
    end
  end.
End serve.
Arguments conn : clear implicits.
Arguments mk_conn {T}.

(** ** Cell statistics *)

(** The fields of a text, separated by commas. *)
Fixpoint join (fields : list (list Z)) : list Z :=
  match fields with
  | [] => []
  | [x] => x
  | x :: fields => x ++ str "," ++ join fields
  end.

Definition cell_fields (cells : list (Z * bool)) : list (list Z) :=
  flat_map (fun '(mv, b) => [decimal mv; decimal (if b : bool then 1 else 0)]) cells.

Definition cell_text (cells : list (Z * bool)) : list Z :=
  concat (map (fun f => f ++ str ",") (cell_fields cells)).

Lemma cell_text_join cells : cells <> [] -> cell_text cells = join (cell_fields cells) ++ str ",".
Proof.
  unfold cell_text. intros Hc.
  assert (Hf : cell_fields cells <> []) by (by destruct cells as [|[??] ?]).
  revert Hf. generalize (cell_fields cells) as l. clear.
  induction l as [|x l IH]; [done|]. intros _. destruct l as [|y l].
  - cbn. by rewrite app_nil_r.
  - rewrite map_cons. cbn [concat]. change (join (x :: y :: l)) with (x ++ str "," ++ join (y :: l)).
    rewrite <- !app_assoc. f_equal. f_equal. apply (IH ltac:(done)).
Qed.

Lemma cell_stats_loop_holds cap cells : forall text w,
  holds cap text w ->
  exists w', cell_stats_loop cells w = (Ok tt, w') /\ holds cap (text ++ cell_text cells) w'.
Proof.
  induction cells as [|[mv b] cells IH]; intros text w Hw; cbn [cell_stats_loop].
  { exists w. unfold cell_text. cbn. by rewrite app_nil_r. }
  destruct (@write_fmt_text _ _ ByteMutWriter_text cap
    [decimal mv; str ","; decimal (if b then 1 else 0); str ","] text w Hw) as (w1 & H1 & Hw1).
  destruct (IH _ _ Hw1) as (w2 & H2 & Hw2). exists w2.
  erewrite bind_ok by (rewrite H1; reflexivity). split; [done|].
  cbn [text_holds ByteMutWriter_text] in Hw2. unfold cell_text in *.
  cbn [cell_fields flat_map app map concat] in *. rewrite app_nil_r, <- !app_assoc in Hw2.
  rewrite <- !app_assoc. exact Hw2.
Qed.

(** The stats are the written text without its last byte. *)
Lemma cell_stats_text `{Profile} buf mv bal :
  zlen buf <= isize_max ->
  cell_stats buf mv bal =
    let text := ztake (zlen buf) (cell_text (zip mv bal)) in
    if zlen text =? 0 then (if overflow_checks then Panic POverflow else Panic PSlice)
    else Ok (ztake (zlen text - 1) text).
Proof.
  unfold isize_max. intros Hbuf. pose proof (zlen_nonneg buf).
  destruct (cell_stats_loop_holds (zlen buf) (zip mv bal) [] _ (holds_new buf))
    as (w & Hw & Hc & Hp & Ht).
  unfold cell_stats. rewrite Hw. cbn [app mbind outcome_bind] in *. cbv zeta.
  set (text := cell_text (zip mv bal)) in *. pose proof (zlen_nonneg text).
  assert (Hz : zlen (ztake (zlen buf) text) = ByteMutWriter.cursor w).
  { rewrite <- Ht, zlen_take; lia. }
  rewrite Hz. destruct (Z.eqb_spec (ByteMutWriter.cursor w) 0) as [->|Hn].
  - rewrite checked_overflow by lia. destruct overflow_checks; [done|].
    change (wrap 32 (0 - 1)) with 4294967295. cbn. apply slice_panic. lia.
  - rewrite checked_ok by lia. cbn. rewrite slice_ok by lia. f_equal.
    rewrite zdrop_0, Z.sub_0_r, <- Ht. by rewrite ztake_ztake by lia.
Qed.

(** ** Responses *)

(** The whole response, which is cut to the 12288 bytes of the buffer. *)
Definition response_text (h : HttpType.t) (body : list Z) : list Z := concat (response_pieces h body).

Section responses.
Context `{Profile} {T : Type} `{Io T}.

Lemma respond_ok body h (s : conn T) :
  valid_utf8 body = true ->
  respond body h s =
    (Ok tt, mk_conn (io_write (socket s) (ztake 12288 (response_text h body))).2 (buffer s) (pos s)).
Proof.
  intros Hb. unfold respond, construct_response. rewrite Hb.
  destruct (@write_fmt_text _ _ ByteMutWriter_text _ (response_pieces h body) [] _
    (holds_new (replicate (Z.to_nat (1024 * 12)) 0))) as (w & -> & Hw).
  cbn [text_holds ByteMutWriter_text app] in Hw. rewrite (borrow_holds _ _ _ Hw).
  reflexivity.
Qed.

Lemma respond_then {A} (a : A) body h so buf p :
  valid_utf8 body = true ->
  (respond body h ;;; mret a) (mk_conn so buf p) =
    (Ok a, mk_conn (io_write so (ztake 12288 (response_text h body))).2 buf p).
Proof. intros Hb. by erewrite bind_ok by by apply respond_ok. Qed.
End responses.

(** A header announces the length of the whole body. *)
Lemma response_text_header h body :
  exists header, response_text h body = header ++ body /\ 60 <= zlen header.
Proof.
  eexists. split.
  { unfold response_text, response_pieces. cbn [concat].
    rewrite app_nil_r, !app_assoc. reflexivity. }
  pose proof (zlen_decimal_pos (zlen body)). zlen. destruct h; cbn [HttpType.as_str];
    repeat match goal with |- context [zlen (str ?s)] =>
      let n := eval vm_compute in (zlen (str s)) in change (zlen (str s)) with n end;
    zlen; lia.
Qed.

(** ** Properties *)

(** The cell statistics as they are meant. *)
Definition cell_line (www : site) : list Z := join (cell_fields (zip (cell_mv www) (bal_cells www))).

(** At least one cell, and at most 96 of less than 10 V: [96 * 7] bytes. *)
Definition cells_ok (mv : list Z) (bal : list bool) : Prop :=
  zip mv bal <> [] /\ zlen (zip mv bal) <= 96 /\ Forall (fun v => 0 <= v < 10000) mv.

(** The page of a path; none for the icon. *)
Definition page (www : site) (path : option (list Z)) : option (HttpType.t * list Z) :=
  match path with
  | None => Some (HttpType.Html, SETTINGS_HTML www)
  | Some path =>
    if bool_decide (path = str "/favicon.ico") then None
    else Some (
      if bool_decide (path = str "/api/config") then (HttpType.Json, config_json www)
      else if bool_decide (path = str "/api/cells") then (HttpType.Plain, cell_line www)
      else if bool_decide (path = str "/api/bms") then (HttpType.Json, bms_json www)
      else if bool_decide (path = str "/settings") then (HttpType.Html, SETTINGS_HTML www)
      else if bool_decide (path = str "/cells") then (HttpType.Html, CELLS_HTML www)
      else (HttpType.Html, INDEX_HTML www))
  end.

Lemma zlen_cell_text cells :
  Forall (fun c : Z * bool => 0 <= c.1 < 10000) cells -> zlen (cell_text cells) <= 7 * zlen cells.
Proof.
  unfold cell_text. induction 1 as [|[mv b] cells Hmv _ IH]; [done|].
  cbn [cell_fields flat_map app map concat fst] in *. zlen. change (zlen (str ",")) with 1.
  pose proof (zlen_decimal 4 mv ltac:(change (10 ^ Z.of_nat 4) with 10000; lia) ltac:(lia)).
  assert (zlen (decimal (if b then 1 else 0)) = 1) by (by destruct b).
  fold (cell_fields cells). lia.
Qed.

Lemma zip_fst_Forall (P : Z -> Prop) mv : forall bal : list bool,
  Forall P mv -> Forall (fun c : Z * bool => P c.1) (zip mv bal).
Proof. intros bal Hmv. revert bal. induction Hmv; intros [|b bal]; cbn; auto. Qed.

(** What a text with at least one cell comes to, and when it is whole. *)
Lemma cell_stats_cut `{Profile} mv bal buf :
  zlen buf = 672 -> zip mv bal <> [] ->
  cell_stats buf mv bal =
    Ok (ztake (Z.min 672 (1 + zlen (join (cell_fields (zip mv bal)))) - 1)
          (join (cell_fields (zip mv bal)))).
Proof.
  intros Hbuf Hz. rewrite cell_stats_text by (unfold isize_max; lia). cbv zeta.
  rewrite Hbuf, (cell_text_join _ Hz). set (l := join _). pose proof (zlen_nonneg l).
  assert (Ht : zlen (ztake 672 (l ++ str ",")) = Z.min 672 (1 + zlen l)).
  { destruct (Z.le_gt_cases 672 (1 + zlen l)).
    - rewrite zlen_take; zlen; change (zlen (str ",")) with 1; lia.
    - rewrite ztake_all; zlen; change (zlen (str ",")) with 1; lia. }
  rewrite Ht, (proj2 (Z.eqb_neq _ _)) by lia. f_equal.
  by rewrite ztake_ztake, ztake_app_le by lia.
Qed.

Lemma cell_stats_ok `{Profile} mv bal buf :
  zlen buf = 672 -> cells_ok mv bal ->
  cell_stats buf mv bal = Ok (join (cell_fields (zip mv bal))).
Proof.
  intros Hbuf (Hz & Hn & Hmv). rewrite cell_stats_cut by done. f_equal.
  pose proof (zlen_cell_text _ (zip_fst_Forall _ _ bal Hmv)) as Hl.
  rewrite (cell_text_join _ Hz) in Hl. zlen. change (zlen (str ",")) with 1 in Hl.
  apply ztake_all. lia.
Qed.

(** On the buffer of 672 bytes, the statistics of at most 96 cells of less
    than 10 V are the voltages and balancing flags in order, separated by
    commas.  Any longer text is cut at 672 bytes and loses its last byte, and
    without cells the index underflows: the task panics. *)
Theorem cell_stats_line `{Profile} mv bal (buf : list Z) (Hbuf : zlen buf = 672) :
  (cells_ok mv bal -> cell_stats buf mv bal = Ok (join (cell_fields (zip mv bal)))) /\
  (zip mv bal <> [] ->
   cell_stats buf mv bal =
     Ok (ztake (Z.min 672 (1 + zlen (join (cell_fields (zip mv bal)))) - 1)
           (join (cell_fields (zip mv bal))))) /\
  (zip mv bal = [] -> is_panic (cell_stats buf mv bal) = true).
Proof.
  split; [by apply cell_stats_ok|]. split; [by apply cell_stats_cut|].
  intros Hz. rewrite cell_stats_text by (unfold isize_max; lia). rewrite Hz. cbn.
  replace (ztake (zlen buf) []) with (@nil Z) by (unfold ztake; by rewrite take_nil).
  cbn. by destruct overflow_checks.
Qed.

Lemma cell_stats_line_witness (* 96 cells of 3791 mV, one of them balancing *) :
  let mv := replicate 96 3791 in let bal := true :: replicate 95 false in
  cell_stats (H := dev_profile) (replicate 672 0) mv bal = Ok (join (cell_fields (zip mv bal))).
Proof.
  intros mv bal.
  refine (proj1 (cell_stats_line (H := dev_profile) mv bal (replicate 672 0) eq_refl) _).
  split; [done|]. split; [vm_compute; discriminate|]. by apply Forall_replicate.
Defined.

(** What the second read leaves behind the first, when it is not the longer. *)
Lemma second_slice bs1 bs2 n :
  zlen bs2 <= zlen bs1 -> zlen bs1 + zlen bs2 <= Z.of_nat n ->
  let zeros := replicate n 0 in
  ztake (zlen bs2) (zdrop (zlen bs1) (bs2 ++ zdrop (zlen bs2) (bs1 ++ zdrop (zlen bs1) zeros))) =
  replicate (length bs2) 0.
Proof.
  intros Hle Hn. cbv zeta. unfold zlen, ztake, zdrop in *. rewrite !Nat2Z.id.
  rewrite (drop_app_ge bs2) by lia. rewrite drop_drop.
  replace (length bs2 + (length bs1 - length bs2))%nat with (length bs1) by lia.
  rewrite drop_app_length, drop_replicate, take_replicate. f_equal. lia.
Qed.

Section connection.
Context `{Profile} {T : Type} `{Io T}.
Context (parse : list Z -> parsed) (url_path : list Z -> option (option (list Z))) (www : site).

Lemma read_first so bs so' :
  io_read so 1024 = (Some bs, so') -> bs <> [] -> zlen bs <= 1024 ->
  read (accepted so) = (Ok (Some bs), mk_conn so' (bs ++ zdrop (zlen bs) (replicate 1024 0)) (zlen bs)).
Proof.
  intros Hr Hne Hlen. pose proof (zlen_nonneg bs). unfold read, accepted; cbn [socket buffer pos].
  rewrite Hr. destruct bs as [|x l]; [done|]. set (bs := x :: l) in *.
  rewrite Z.add_0_l, checked_ok by lia. cbv iota beta.
  by rewrite slice_prefix.
Qed.

Lemma route_page so buf p path h body :
  page www path = Some (h, body) ->
  cells_ok (cell_mv www) (bal_cells www) -> valid_utf8 body = true ->
  route www path (mk_conn so buf p) =
    (Ok Closed, mk_conn (io_write so (ztake 12288 (response_text h body))).2 buf p).
Proof.
  intros Hpage Hcells Hbody.
  pose proof (cell_stats_ok _ _ (replicate 672 0) eq_refl Hcells) as Hcs.
  unfold page in Hpage. unfold route. destruct path as [path|].
  - destruct (bool_decide (path = str "/favicon.ico")); [done|].
    apply (inj Some) in Hpage.
    repeat match goal with
      |- context [bool_decide ?P] => destruct (bool_decide P); [injection Hpage as <- <-|] end;
      [by apply respond_then|idtac|by apply respond_then..|].
    + erewrite bind_ok by (unfold lift; rewrite Hcs; reflexivity). by apply respond_then.
    + injection Hpage as <- <-. by apply respond_then.
  - injection Hpage as <- <-. by apply respond_then.
Qed.
(** C32: with one to 96 cells of less than 10 V and pages that are text in UTF-8,
    a request that arrives in one read and asks for a known page is
    answered with one write, the response of that page, cut to the 12288 bytes
    of the buffer; the header announces the whole body, so a longer page, as the
    settings page is, never arrives complete.  The icon is not answered. *)
Theorem http_page_served fuel so so' bs p path
  (Hr : io_read so 1024 = (Some bs, so')) (Hne : bs <> []) (Hlen : zlen bs <= 1024)
  (Hparse : parse bs = Complete (Some p)) (Hurl : url_path p = Some path)
  (Hcells : cells_ok (cell_mv www) (bal_cells www))
  (Hpages : forall h body, page www path = Some (h, body) -> valid_utf8 body = true) :
  exists c, socket c =
    match page www path with
    | Some (h, body) => (io_write so' (ztake 12288 (response_text h body))).2
    | None => so'
    end /\
    serve parse url_path www (S fuel) (accepted so) =
      (Ok (match page www path with Some _ => Closed | None => LeftOpen end), c) /\
    (forall h body, page www path = Some (h, body) ->
      exists header, response_text h body = header ++ body /\
        (12288 - 60 < zlen body -> zlen (ztake 12288 (response_text h body)) < zlen header + zlen body)).
Proof.
  pose proof (read_first _ _ _ Hr Hne Hlen) as Hread.
  set (c1 := mk_conn so' _ _) in Hread.
  assert (Hs : serve parse url_path www (S fuel) (accepted so) = route www path c1).
  { cbn [serve]. erewrite bind_ok by exact Hread. cbv beta iota. by rewrite Hparse, Hurl. }
  rewrite Hs. destruct (page www path) as [[h body]|] eqn:Hp.
  - unfold c1. rewrite (route_page _ _ _ _ _ _ Hp Hcells (Hpages _ _ eq_refl)).
    eexists. split; [|split; [reflexivity|]]; [done|]. intros h' body' [= <- <-].
    destruct (response_text_header h body) as (header & Ht & Hh). exists header. split; [done|].
    intros Hlong. pose proof (zlen_nonneg body). rewrite zlen_take; [lia|rewrite Ht; zlen; lia].
  - exists c1. split; [done|]. split; [|done]. revert Hp. unfold page, route.
    destruct path as [path|]; [|done]. by destruct (bool_decide _).
Qed.

(** A request that arrives in two reads is lost.  The second read stores
    its bytes at the start of the buffer, but the slice given to the parser
    starts after the first: it holds zeros, when the second part is not the
    longer one; and the slice leaves the buffer, with a panic, when the parts
    are longer than 1024 bytes together. *)
Theorem http_split_request fuel so so1 so2 bs1 bs2
  (Hr1 : io_read so 1024 = (Some bs1, so1)) (Hr2 : io_read so1 1024 = (Some bs2, so2))
  (Hne1 : bs1 <> []) (Hne2 : bs2 <> []) (Hlen1 : zlen bs1 <= 1024) (Hlen2 : zlen bs2 <= 1024)
  (Hparse : parse bs1 = Partial) :
  (1024 < zlen bs1 + zlen bs2 ->
   (serve parse url_path www (S (S fuel)) (accepted so)).1 = Panic PSlice) /\
  (zlen bs2 <= zlen bs1 -> zlen bs1 + zlen bs2 <= 1024 ->
   parse (replicate (length bs2) 0) = ParseError ->
   exists c, socket c = so2 /\
     serve parse url_path www (S (S fuel)) (accepted so) = (Ok LeftOpen, c)).
Proof.
  pose proof (read_first _ _ _ Hr1 Hne1 Hlen1) as Hread.
  set (c1 := mk_conn so1 _ _) in Hread. pose proof (zlen_nonneg bs1). pose proof (zlen_nonneg bs2).
  assert (Hz : zlen (replicate 1024 0) = 1024) by reflexivity.
  set (zeros := replicate 1024 0) in *.
  assert (Hs : serve parse url_path www (S (S fuel)) (accepted so) =
    serve parse url_path www (S fuel) c1).
  { cbn [serve]. erewrite bind_ok by exact Hread. cbv beta iota. by rewrite Hparse. }
  rewrite Hs. cbn [serve]. assert (Hr2' : io_read (socket c1) 1024 = (Some bs2, so2)) by exact Hr2.
  assert (Hb : zlen (bs2 ++ zdrop (zlen bs2) (bs1 ++ zdrop (zlen bs1) zeros)) = 1024).
  { zlen. rewrite !zlen_drop; zlen; rewrite ?zlen_drop; lia. }
  split.
  - intros Hlong. erewrite (bind_panic read); [done|]. unfold read. rewrite Hr2'.
    destruct bs2 as [|x l]; [done|]. set (bs2 := x :: l) in *. cbn [buffer pos c1].
    rewrite checked_ok by lia. by rewrite slice_panic by lia.
  - intros Hle Hfit Hp.
    assert (Hread2 : exists c2, socket c2 = so2 /\
      read c1 = (Ok (Some (replicate (length bs2) 0)), c2)).
    { unfold read. rewrite Hr2'. destruct bs2 as [|x l]; [done|]. set (bs2 := x :: l) in *.
      cbn [buffer pos c1]. rewrite checked_ok by lia. rewrite slice_ok by lia.
      replace (zlen bs1 + zlen bs2 - zlen bs1) with (zlen bs2) by lia.
      pose proof (second_slice bs1 bs2 1024 Hle Hfit) as Hsl. cbv zeta in Hsl. fold zeros in Hsl.
      rewrite Hsl. by refine (ex_intro _ _ (conj _ eq_refl)). }
    destruct Hread2 as (c2 & Hc2 & Hread2). exists c2. split; [done|].
    erewrite bind_ok by exact Hread2. cbv beta iota. by rewrite Hp.
Qed.
Lemma respond_total body h (s : conn T) : (respond body h s).1 <> OutOfFuel.
Proof.
  destruct (valid_utf8 body) eqn:Hb; [by rewrite respond_ok by done|].
  unfold respond, construct_response. by rewrite Hb.
Qed.

Lemma respond_then_total {A} (a : A) body h (s : conn T) :
  ((respond body h ;;; mret a) s).1 <> OutOfFuel.
Proof.
  pose proof (respond_total body h s) as Hr. unfold mbind, M_bind.
  by destruct (respond body h s) as [[[]|e|p|] s'].
Qed.

Lemma route_total path (s : conn T) : (route www path s).1 <> OutOfFuel.
Proof.
  unfold route. destruct path as [path|]; [|by apply respond_then_total].
  destruct (bool_decide _); [done|]. destruct (bool_decide _); [by apply respond_then_total|].
  destruct (bool_decide _); [|by repeat destruct (bool_decide _); apply respond_then_total].
  rewrite cell_stats_text by (vm_compute; discriminate). cbv zeta.
  destruct (_ =? 0); [by destruct overflow_checks|].
  erewrite bind_ok by reflexivity. apply respond_then_total.
Qed.

(** A read that goes on fills the buffer further. *)
Lemma read_progress `{!IoLaws T} (c : conn T) :
  zlen (buffer c) = 1024 -> 0 <= pos c <= 1024 ->
  match read c with
  | (Ok (Some _), c') => zlen (buffer c') = 1024 /\ pos c < pos c' <= 1024
  | (OutOfFuel, _) => False
  | _ => True
  end.
Proof.
  intros Hb Hp. unfold read. destruct (io_read (socket c) 1024) as [[bs|] so] eqn:Hr; [|done].
  pose proof (read_bounded _ 1024 bs so ltac:(lia) Hr).
  destruct bs as [|x l]; [done|]. set (bs := x :: l) in *.
  assert (1 <= zlen bs) by (subst bs; zlen; pose proof (zlen_nonneg l); lia).
  rewrite checked_ok by lia.
  assert (Hz : zlen (bs ++ zdrop (zlen bs) (buffer c)) = 1024) by (zlen; rewrite zlen_drop; lia).
  destruct (Z.le_gt_cases (pos c + zlen bs) 1024).
  - rewrite slice_ok by lia. cbn [buffer pos]. lia.
  - by rewrite slice_panic by lia.
Qed.

Lemma serve_ends `{!IoLaws T} fuel : forall c : conn T,
  zlen (buffer c) = 1024 -> 0 <= pos c <= 1024 -> 1024 - pos c < Z.of_nat fuel ->
  (serve parse url_path www fuel c).1 <> OutOfFuel.
Proof.
  induction fuel as [|fuel IH]; intros c Hb Hp Hf; [lia|]. cbn [serve].
  pose proof (read_progress c Hb Hp) as Hr. unfold mbind at 1, M_bind at 1.
  destruct (read c) as [[[buf|]|e|p|] c'] eqn:He; try done.
  destruct (parse buf) as [| |[p|]]; try done.
  - apply IH; lia.
  - destruct (url_path p); [apply route_total|done].
Qed.

(** A connection ends, whatever the peer sends and however it is cut: each
    further read fills the buffer by at least a byte, so at most 1025 reads are
    made. *)
Theorem serve_terminates `{!IoLaws T} fuel so (Hfuel : (1025 <= fuel)%nat) :
  exists r c, serve parse url_path www fuel (accepted so) = (r, c) /\ r <> OutOfFuel.
Proof.
  pose proof (serve_ends fuel (accepted so) eq_refl ltac:(cbn; lia) ltac:(cbn; lia)) as Hs.
  destruct (serve parse url_path www fuel (accepted so)) as [r c]. by exists r, c.
Qed.
End connection.

(** ** A sample site *)

(** A parser for requests of one line: a path between blanks, complete when the
    request ends with a line feed. *)
Module SampleSite.
Import ScriptedIo.

Definition parse (l : list Z) : parsed :=
  match l with
  | 71 :: 69 :: 84 :: 32 :: rest =>
    if bool_decide (head (rev rest) = Some 10) then Complete (Some (take (length rest - 1) rest)) else Partial
  | 0 :: _ => ParseError
  | _ => Partial
  end.

Definition url_path (path : list Z) : option (option (list Z)) := Some (Some path).

Definition www : site :=
  mk_site (str "index") (replicate (Z.to_nat 12523) 32) (str "cells") (str "{}") (str "{}") [3791; 3805] [true; false].

Definition client (chunks : list (list Z)) : ScriptedIo.t := ScriptedIo.mk chunks [].
End SampleSite.
Import SampleSite.

Lemma http_page_served_witness :
  exists c, ScriptedIo.out (socket c) = response_text HttpType.Plain (str "3791,1,3805,0") /\
    serve (H := dev_profile) parse url_path www 1 (accepted (client [str "GET /api/cells" ++ [10]])) =
      (Ok Closed, c).
Proof.
  destruct (http_page_served (H := dev_profile) parse url_path www 0
    (client [str "GET /api/cells" ++ [10]]) (client []) (str "GET /api/cells" ++ [10])
    (str "/api/cells") (Some (str "/api/cells"))) as (c & Hc & Hs & _); try reflexivity.
  - discriminate.
  - vm_compute. discriminate.
  - split; [discriminate|]. split; [vm_compute; discriminate|].
    constructor; [lia|]. by constructor; [lia|].
  - intros h body Hp. vm_compute in Hp. injection Hp as <- <-. reflexivity.
  - exists c. split; [rewrite Hc; vm_compute; reflexivity|exact Hs].
Defined.

Lemma http_split_request_witness :
  exists c, ScriptedIo.out (socket c) = [] /\
    serve (H := dev_profile) parse url_path www 2 (accepted (client [str "GET /ce"; str "lls" ++ [10]])) =
      (Ok LeftOpen, c).
Proof.
  destruct (http_split_request (H := dev_profile) parse url_path www 0
    (client [str "GET /ce"; str "lls" ++ [10]]) (client [str "lls" ++ [10]]) (client [])
    (str "GET /ce") (str "lls" ++ [10])) as [_ Hs]; try reflexivity; try discriminate;
    try (vm_compute; discriminate).
  destruct Hs as (c & Hc & Hs); try reflexivity; try (vm_compute; discriminate).
  exists c. split; [by rewrite Hc|exact Hs].
Defined.

Lemma serve_terminates_witness :
  exists r c, serve (H := dev_profile) parse url_path www 1025
    (accepted (client (replicate 5 (str "GET ")))) = (r, c) /\ r <> OutOfFuel.
Proof. apply (serve_terminates (H := dev_profile) parse url_path www 1025). lia. Defined.
