(* ===== verification/NtpTask.v ===== *)
(** The NTP task: stm32f407_controller/src/bin/tasks/ntp/ntp_process.rs.

    The task asks the SNTP client for the time once, through an adapter of the
    UDP driver that implements the client's socket trait, and sets the clock of
    the board.  The UDP driver and the calendar library (chrono, chrono-tz) are
    not part of the repository: they are classes.  The server's
    address comes parsed; parsing it, and the loop that passes the clock on every
    second, are in Settings. *)
From S2P Require Import Prelude.
From S2P Require Import Sntp.

Inductive NtpError : Type := Parse.

(** [NaiveDateTime] and [chrono::DateTime<Tz>], with the zone [TZ] of the build.
    Local times are ahead of UTC by [utc_offset]. *)
Class Chrono (NaiveDateTime ChronoDateTime : Type) : Type := {
  from_timestamp_opt : Z -> option NaiveDateTime;
  naive_timestamp : NaiveDateTime -> Z;
  naive_timestamp_micros : NaiveDateTime -> Z;
  from_local_single : NaiveDateTime -> option ChronoDateTime;
  zoned_timestamp : ChronoDateTime -> Z;
  utc_offset : ChronoDateTime -> Z;
}.

(** Their documented behaviour: a day has at most 24 hours of offset, and every
    time within a hundred thousand years can be represented. *)
Class ChronoLaws (NaiveDateTime ChronoDateTime : Type) `{Chrono NaiveDateTime ChronoDateTime} : Prop := {
  from_timestamp_ok : forall s, - 2 ^ 40 <= s <= 2 ^ 40 ->
    exists nd, from_timestamp_opt s = Some nd /\ naive_timestamp nd = s;
  local_offset : forall nd dt, from_local_single nd = Some dt ->
    zoned_timestamp dt = naive_timestamp nd - utc_offset dt;
  offset_day : forall dt, - 86400 < utc_offset dt < 86400;
}.

(** The UDP driver, in the world [W]. *)
Class UdpDriver (W IpEndpoint : Type) : Type := {
  addr_bytes : IpEndpoint -> list Z;
  endpoint_port : IpEndpoint -> Z;
  udp_bind : Z -> W -> bool * W;
  udp_send_to : list Z -> IpEndpoint -> W -> bool * W;
  udp_recv_from : Z -> W -> option (list Z * IpEndpoint) * W;
}.

Section ntp.
Context `{Profile} {NaiveDateTime ChronoDateTime W IpEndpoint : Type}
  `{Chrono NaiveDateTime ChronoDateTime} `{UdpDriver W IpEndpoint}.

(** ** Times *)

(** [EpochTime(i64)] and [Time(ChronoDateTime<Tz>)] *)
Definition get_datetime (epoch : Z) : option NaiveDateTime := from_timestamp_opt epoch.

Definition epoch_from_time (value : ChronoDateTime) : Z := zoned_timestamp value.

Definition time_try_from_epoch (epoch : Z) : outcome NtpError ChronoDateTime :=
  match get_datetime epoch with
  | None => Err Parse
  | Some nd =>
    match from_local_single nd with
    | None => Err Parse
    | Some dt => Ok dt
    end
  end.

Definition time_try_from_result (time : NtpResult.t) : outcome NtpError ChronoDateTime :=
  time_try_from_epoch (NtpResult.seconds time).

(** ** The time stamp generator *)

Record StdTimestampGen : Type := mk_gen { datetime : NaiveDateTime }.

#[export] Instance std_generator : NtpTimestampGenerator W StdTimestampGen := {
  init := fun g w => (g, w);
  timestamp_sec := fun g => wrap 64 (naive_timestamp (datetime g));
  timestamp_subsec_micros := fun g => wrap 32 (naive_timestamp_micros (datetime g));
}.

(** ** The socket *)

(** A [SocketAddr]: the bytes of an IPv4 address, and a port. *)
Definition SocketAddr : Type := list Z * Z.

(** [NoStdUdpSocket], and [UdpSocketWrapper] around it; the socket itself is in
    the world. *)
Record UdpSocketWrapper : Type := mk_socket {
  socketaddress : SocketAddr;
  endpoint : IpEndpoint
}.

Definition bind (endpoint : IpEndpoint) : M W Error UdpSocketWrapper := fun w =>
  let ip := addr_bytes endpoint in
  if negb (zlen ip =? 4) then (Err IpDecode, w)
  else
    let socketaddress := (ip, endpoint_port endpoint) in
    let '(ok, w) := udp_bind (snd socketaddress) w in
    (if ok : bool then Ok (mk_socket socketaddress endpoint) else Err NetworkBind, w).

#[export] Instance wrapper_socket : NtpUdpSocket W UdpSocketWrapper SocketAddr SocketAddr := {
  send_to := fun self buf _dest w =>
    let '(ok, w) := udp_send_to buf (endpoint self) w in
    (if ok : bool then Ok (zlen buf) else Err SendError, w);
  recv_from := fun self n w =>
    let '(r, w) := udp_recv_from n w in
    (match r with
     | Some (bytes, _) => Ok (bytes, socketaddress self)
     | None => Err ReceiveError
     end, w);
}.

(** A [SocketAddr] resolves to itself. *)
#[export] Instance socket_addrs : ToSocketAddrs SocketAddr SocketAddr := {
  to_socket_addrs := fun a => Some [a];
}.

(** ** The task *)

(** From the binding of the socket to the new time of the clock. *)
Definition new_rtc_time (rtc_now : NaiveDateTime) (endpoint : IpEndpoint)
  : M W NtpError (option NaiveDateTime) := fun w =>
  let ntp_context := mk_gen rtc_now in
  match bind endpoint w with
  | (Ok ntpsocket, w) =>
    match get_time (socketaddress ntpsocket) ntpsocket ntp_context w with
    | (Ok time, w) =>
      (match time_try_from_result time with
       | Ok local_time => Ok (get_datetime (epoch_from_time local_time))
       | Err _ => Ok None
       | Panic p => Panic p
       | OutOfFuel => OutOfFuel
       end, w)
    | (Err _, w) => (Ok None, w)
    | (Panic p, w) => (Panic p, w)
    | (OutOfFuel, w) => (OutOfFuel, w)
    end
  | (Err _, w) => (Panic PUnwrap, w)
  | (Panic p, w) => (Panic p, w)
  | (OutOfFuel, w) => (OutOfFuel, w)
  end.
End ntp.

(** ** Properties *)

Section ntp_properties.
Context `{Profile} {NaiveDateTime ChronoDateTime W IpEndpoint : Type}
  `{ChronoLaws NaiveDateTime ChronoDateTime} `{UdpDriver W IpEndpoint}.
Context (rtc_now : NaiveDateTime).
Let seconds : Z := naive_timestamp rtc_now.
Let fraction : Z := wrap 32 (naive_timestamp_micros rtc_now).

(** The seconds a fraction of [fraction] microseconds carries: up to 4294. *)
Lemma fraction_range : 0 <= fraction * u32_MAX / USEC_IN_SEC < 4295 * 2 ^ 32.
Proof.
  pose proof (wrap_range 32 (naive_timestamp_micros rtc_now) ltac:(lia)). fold fraction in H3.
  unfold u32_MAX, USEC_IN_SEC. split; [apply Z.div_pos; lia|apply Z.div_lt_upper_bound; lia].
Qed.

Lemma std_ntp_timestamp {E} :
  0 <= seconds < 2 ^ 32 - NtpPacket.NTP_TIMESTAMP_DELTA - 4295 ->
  get_ntp_timestamp (E := E) (W := W) (mk_gen rtc_now) =
  Ok ((seconds + NtpPacket.NTP_TIMESTAMP_DELTA) * 2 ^ 32 + fraction * u32_MAX / USEC_IN_SEC).
Proof.
  intros Hs. unfold get_ntp_timestamp. cbn [timestamp_sec timestamp_subsec_micros std_generator datetime].
  fold seconds fraction. pose proof fraction_range as Hf. unfold NtpPacket.NTP_TIMESTAMP_DELTA in *.
  pose proof (wrap_range 32 (naive_timestamp_micros rtc_now) ltac:(lia)) as Hw. fold fraction in Hw.
  rewrite (wrap_small 64 seconds) by lia. unfold mbind, outcome_bind.
  rewrite checked_ok by lia. rewrite checked_ok by (unfold u32_MAX; lia).
  rewrite Z.shiftl_mul_pow2 by lia. rewrite wrap_small by lia. by rewrite checked_ok by lia.
Qed.

(** The time stamp of a request is ahead of the clock it is taken from.
    The generator gives the microseconds since 1970, truncated to 32 bits, where
    the client expects those of the current second: the seconds of the stamp are
    up to 4294 too many, by what the microseconds carry. *)
Theorem ntp_timestamp_skew {E} (Hs : 0 <= seconds < 2 ^ 32 - NtpPacket.NTP_TIMESTAMP_DELTA - 4295) :
  exists ts,
    get_ntp_timestamp (E := E) (W := W) (mk_gen rtc_now) = Ok ts /\
    ts / 2 ^ 32 =
      seconds + NtpPacket.NTP_TIMESTAMP_DELTA + fraction * u32_MAX / USEC_IN_SEC / 2 ^ 32 /\
    0 <= ts / 2 ^ 32 - (seconds + NtpPacket.NTP_TIMESTAMP_DELTA) <= 4294.
Proof.
  eexists. split; [by apply std_ntp_timestamp|].
  rewrite Z.div_add_l by lia. split; [done|].
  pose proof fraction_range as Hf. set (f := fraction * u32_MAX / USEC_IN_SEC) in *.
  assert (0 <= f / 2 ^ 32 < 4295)
    by (split; [apply Z.div_pos; lia|apply Z.div_lt_upper_bound; lia]).
  lia.
Qed.

(** The seconds since 1970 that a reply carries. *)
Definition server_time (p : NtpPacket.t) : Z :=
  wrap 32 (NtpPacket.tx_timestamp p / 2 ^ 32 - NtpPacket.NTP_TIMESTAMP_DELTA
    + NtpPacket.tx_timestamp p mod 2 ^ 32 / u32_MAX).

Lemma std_init (w : W) : init (mk_gen rtc_now) w = (mk_gen rtc_now, w).
Proof. reflexivity. Qed.

Lemma socket_resolves (sa : SocketAddr) : to_socket_addrs sa = Some [sa].
Proof. reflexivity. Qed.

(** The adapter, from the calls of the driver. *)
Lemma wrapper_sends sa ep dest w1 w2 :
  (forall buf, udp_send_to buf ep w1 = (true, w2)) ->
  forall p, send_to (mk_socket sa ep) (RawNtpPacket.from_packet p) dest w1 = (Ok 48, w2).
Proof. intros Hs p. cbn. by rewrite Hs. Qed.

Lemma wrapper_receives sa ep bytes from w2 w3 :
  udp_recv_from 48 w2 = (Some (bytes, from), w3) ->
  recv_from (mk_socket sa ep) 48 w2 = (Ok (bytes, sa), w3).
Proof. intros Hr. cbn. by rewrite Hr. Qed.

(** The task sets the clock from any datagram that answers its request.
    The adapter reports the server's address as the source of every datagram,
    so where it came from does not matter.  The server's time is taken for a
    local time of the zone [TZ]: the clock is set to UTC minus the offset of the
    zone, which is neither UTC nor the local time unless the offset is zero. *)
Theorem ntp_task_sets_clock ep w0 w1 w2 w3 p from off
  (Hs : 0 <= seconds < 2 ^ 32 - NtpPacket.NTP_TIMESTAMP_DELTA - 4295)
  (Hip : zlen (addr_bytes ep) = 4)
  (Hbind : udp_bind (endpoint_port ep) w0 = (true, w1))
  (Hsend : forall buf, udp_send_to buf ep w1 = (true, w2))
  (Hrecv : udp_recv_from 48 w2 = (Some (RawNtpPacket.from_packet p, from), w3))
  (Hp : NtpPacket.wf p)
  (Hvalid : reply_error
    (SendRequestResult.mk ((seconds + NtpPacket.NTP_TIMESTAMP_DELTA) * 2 ^ 32
       + fraction * u32_MAX / USEC_IN_SEC) 0x23) p = None)
  (Hera : NtpPacket.NTP_TIMESTAMP_DELTA <= NtpPacket.tx_timestamp p / 2 ^ 32)
  (Hlocal : forall nd, naive_timestamp nd = server_time p ->
    exists dt, from_local_single nd = Some dt /\ utc_offset dt = off) :
  exists nd',
    new_rtc_time rtc_now ep w0 = (Ok (Some nd'), w3) /\
    naive_timestamp nd' = server_time p - off.
Proof.
  set (unix := server_time p) in *.
  assert (Hunix : 0 <= unix < 2 ^ 32) by (apply wrap_range; lia).
  destruct (from_timestamp_ok unix ltac:(lia)) as (nd & Hnd & Hts).
  destruct (Hlocal nd Hts) as (dt & Hdt & <-).
  pose proof (local_offset nd dt Hdt) as Hoff. pose proof (offset_day dt).
  assert (Hz : - 2 ^ 40 <= zoned_timestamp dt <= 2 ^ 40) by (rewrite Hoff, Hts; lia).
  destruct (from_timestamp_ok _ Hz) as (nd' & Hnd' & Hts').
  exists nd'. split; [|lia].
  pose proof (std_ntp_timestamp (E := Error) Hs) as Htx.
  unfold new_rtc_time, bind. rewrite Hip. cbn [negb Z.eqb Pos.eqb snd]. rewrite Hbind.
  cbn [socketaddress].
  rewrite (get_time_exchange _ _ (mk_gen rtc_now) (mk_gen rtc_now) w1 w1 _ (std_init w1) Htx w2 (RawNtpPacket.from_packet p)
    (addr_bytes ep, endpoint_port ep) w3 (mk_gen rtc_now) w3 _ _ (wrapper_sends _ _ _ _ _ Hsend _)
    (wrapper_receives _ _ _ _ _ _ Hrecv) (std_init w3) Htx (socket_resolves _)).
  rewrite bool_decide_eq_true_2 by (apply elem_of_cons; by left).
  change (zlen (RawNtpPacket.from_packet p)) with 48. cbn [Z.eqb Pos.eqb].
  rewrite reply_packet_from, Hvalid, reply_result_eq by done.
  rewrite (proj2 (Z.ltb_ge _ _)), andb_false_r by lia. fold (server_time p). fold unix.
  unfold time_try_from_result, time_try_from_epoch, get_datetime. cbn [NtpResult.seconds].
  rewrite Hnd, Hdt. unfold epoch_from_time. by rewrite Hnd'.
Qed.
End ntp_properties.

(** ** A sample zone and driver

    The zone is an hour ahead of UTC, as London is in summer. *)
Module SampleClock.
#[export] Instance chrono : Chrono Z Z := {
  from_timestamp_opt := fun s => if (- 2 ^ 40 <=? s) && (s <=? 2 ^ 40) then Some s else None;
  naive_timestamp := fun nd => nd;
  naive_timestamp_micros := fun nd => nd * 1000000;
  from_local_single := fun nd => Some (nd - 3600);
  zoned_timestamp := fun dt => dt;
  utc_offset := fun _ => 3600;
}.

#[export] Instance laws : ChronoLaws Z Z.
Proof.
  split; cbn.
  - intros s Hs. rewrite (proj2 (Z.leb_le _ _)), (proj2 (Z.leb_le _ _)) by lia. by exists s.
  - by intros nd dt [= <-].
  - lia.
Qed.

(** The stamp of the request of a clock at 1700000000 s, and the reply to it. *)
Definition stamp : Z :=
  (1700000000 + NtpPacket.NTP_TIMESTAMP_DELTA) * 2 ^ 32
  + wrap 32 1700000000000000 * u32_MAX / USEC_IN_SEC.

Definition reply : NtpPacket.t :=
  NtpPacket.mk 0x24 1 6 (-20) 0 10 0x47505300 0 stamp (3926347200 * 2 ^ 32) (3926347200 * 2 ^ 32).

#[export] Instance driver : UdpDriver unit (list Z * Z) := {
  addr_bytes := fst;
  endpoint_port := snd;
  udp_bind := fun _ w => (true, w);
  udp_send_to := fun _ _ w => (true, w);
  udp_recv_from := fun _ w => (Some (RawNtpPacket.from_packet reply, ([6; 6; 6; 6], 9)), w);
}.
End SampleClock.
Import SampleClock.

(** The stamp of 14 November 2023 is 404 s ahead. *)
Lemma ntp_timestamp_skew_witness :
  exists ts,
    get_ntp_timestamp (H := dev_profile) (E := Error) (W := unit) (mk_gen (1700000000 : Z)) = Ok ts /\
    ts / 2 ^ 32 = 1700000000 + NtpPacket.NTP_TIMESTAMP_DELTA
      + wrap 32 1700000000000000 * u32_MAX / USEC_IN_SEC / 2 ^ 32 /\
    0 <= ts / 2 ^ 32 - (1700000000 + NtpPacket.NTP_TIMESTAMP_DELTA) <= 4294.
Proof.
  refine (ntp_timestamp_skew (H := dev_profile) (W := unit) (E := Error) (1700000000 : Z) _).
  vm_compute. split; [discriminate|reflexivity].
Defined.

(** The server says 2 June 2024, 20:00 UTC; the clock is set to 19:00. *)
Lemma ntp_task_sets_clock_witness :
  exists nd', new_rtc_time (H := dev_profile) (W := unit) (1700000000 : Z) ([10; 0; 0; 1], 123) tt =
    (Ok (Some nd'), tt) /\ nd' = 1717358400 - 3600.
Proof.
  destruct (ntp_task_sets_clock (H := dev_profile) (W := unit) (1700000000 : Z) ([10; 0; 0; 1], 123)
    tt tt tt tt reply ([6; 6; 6; 6], 9) 3600) as (nd' & Hn & Ht); try reflexivity.
  - vm_compute. split; [discriminate|reflexivity].
  - concrete.
  - vm_compute. discriminate.
  - intros nd _. by exists (nd - 3600).
  - exists nd'. split; [exact Hn|]. exact Ht.
Defined.
