(* ===== verification/Bms.v ===== *)
(** The BMS tasks: stm32f407_controller/src/bin/tasks/can_processors_ze40.rs,
    can_processors_ze50.rs and can_processors_tesla_m3.rs.

    Each vehicle has a task that sends periodic frames and one that reads the
    battery's frames.  As for the inverter tasks, a [turn] is one turn of the
    loop.  The decoders (ze40_bms, ze50_bms, tesla_m3_bms) and bms_standard are
    not part of the repository: they are classes over the types of their data.
    The frames a task builds itself are pairs of an id and bytes. *)
From S2P Require Import Prelude.
From S2P Require Import Inverter.
From S2P Require Import Controller.

(** [frame.data()] of the CAN driver. *)
Class CanData (Frame : Type) : Type := frame_data : Frame -> option (list Z).

(** [types::FRAME_BUFFER], and [tx.try_send(frame)] on a channel of that size:
    a frame that does not fit is dropped with a log message. *)
Definition FRAME_BUFFER : Z := 10.

Definition try_send {A} (channel : list A) (frame : A) : list A :=
  if zlen channel <? FRAME_BUFFER then channel ++ [frame] else channel.

(** [bms_standard::Bms], with what the tasks call of it; [F] stands for its
    numbers.  A setter may fail. *)
Class BmsStandard (Bms BmsError F Cells Balance Range : Type) : Type := {
  valid : Bms -> bool;
  set_valid : bool -> M Bms BmsError unit;
  set_current : F -> M Bms BmsError unit;
  set_soc : F -> M Bms BmsError unit;
  set_kwh : F -> M Bms BmsError unit;
  set_pack_temp : F -> M Bms BmsError unit;
  set_max_discharge_amps : F -> M Bms BmsError unit;
  set_max_charge_amps : F -> M Bms BmsError unit;
  set_cell_mv : Cells -> M Bms BmsError unit;
  set_cell_mv_low_high : F -> F -> M Bms BmsError unit;
  set_pack_volts : F -> M Bms BmsError unit;
  set_temps : F -> F -> M Bms BmsError unit;
  throttle_pack : M Bms BmsError unit;
  put_bal_cells : Balance -> Bms -> Bms;
  put_cell_range_mv : Range -> Bms -> Bms;
  put_pack_volts : F -> Bms -> Bms;
  put_discharge_max : F -> Bms -> Bms;
  charge_current_maximum : Bms -> F;
}.

Inductive LbcKey : Type := X5d | Xb2.

(** The statics, the channel and the signals of a BMS task. *)
Record shared {Frame Bms Mqtt : Type} : Type := mk_shared {
  statics : Statics.t Frame Bms;
  wdt : option bool;
  lbc_status : option LbcKey;
  bms_tx : list Frame;
  mqttfmt : Mqtt
}.
Arguments shared Frame Bms Mqtt : clear implicits.
Arguments mk_shared {Frame Bms Mqtt}.

Section shared.
Context {Frame Bms Mqtt : Type}.
Abbreviation S := (shared Frame Bms Mqtt).

Definition on_shared_statics (f : Statics.t Frame Bms -> Statics.t Frame Bms) (s : S) : S :=
  mk_shared (f (statics s)) (wdt s) (lbc_status s) (bms_tx s) (mqttfmt s).

(** [*LAST_BMS_MESSAGE.lock().await = Some(Instant::now())] *)
Definition touch (now : Z) : S -> S :=
  on_shared_statics (fun s => Statics.mk (Some now) (Statics.bms s) (Statics.contactor_state s)
    (Statics.send_mqtt s) (Statics.inverter_tx s) (Statics.fault s)).

(** Run a computation on the BMS data. *)
Definition with_bms {E A} (m : M Bms E A) : M S E A := fun s =>
  let st := statics s in
  let '(r, b) := m (Statics.bms st) in
  (r, on_shared_statics (fun st => Statics.mk (Statics.last_bms_message st) b
    (Statics.contactor_state st) (Statics.send_mqtt st) (Statics.inverter_tx st) (Statics.fault st)) s).

Definition signal_wdt (b : bool) (s : S) : S :=
  mk_shared (statics s) (Some b) (lbc_status s) (bms_tx s) (mqttfmt s).
Definition signal_lbc (k : LbcKey) (s : S) : S :=
  mk_shared (statics s) (wdt s) (Some k) (bms_tx s) (mqttfmt s).
(** [tx.send(frame).await] waits for room. *)
Definition send_bms (f : Frame) (s : S) : S :=
  mk_shared (statics s) (wdt s) (lbc_status s) (bms_tx s ++ [f]) (mqttfmt s).

(** [if let Ok(mut lock) = MQTTFMT.try_lock() { *lock = bms.into() }] *)
Definition push_all_to_mqtt (try_lock : bool) (from_bms : Bms -> Mqtt) (s : S) : S :=
  if try_lock
  then mk_shared (statics s) (wdt s) (lbc_status s) (bms_tx s) (from_bms (Statics.bms (statics s)))
  else s.

(** [if let Err(e) = update() { error!(..) }] *)
Definition log_error {E E'} (m : M S E unit) : M S E' unit := fun s =>
  match m s with
  | (Ok _, s) => (Ok tt, s)
  | (Err _, s) => (Ok tt, s)
  | (Panic p, s) => (Panic p, s)
  | (OutOfFuel, s) => (OutOfFuel, s)
  end.
End shared.

(** ** Renault ZE40 *)

Module Ze40.
(** [ze40_bms]. *)
Class Decoder (Data Frame ParseError DiagError F Cells Balance Range : Type) : Type := {
  rapid_data_processor : Frame -> Data -> (bool + ParseError) * Data;
  diag_data_processor : Frame -> Data -> (option Frame + DiagError) * Data;
  current_value : Data -> F;
  soc_value : Data -> F;
  kwh_remaining : Data -> F;
  pack_temp : Data -> F;
  pack_volts : Data -> F;
  max_charge_amps : Data -> F;
  cells_mv : Data -> Cells;
  bal_cells : Data -> Balance;
  cell_mv : Data -> Range;
  temp_minimum : Data -> F;
  temp_maximum : Data -> F;
  f35 : F;
}.

(** *** [bms_tx_periodic]: the key sent on each tick of 95 ms *)
Record tx : Type := mk_tx { counter : Z; lbc_key : option LbcKey }.

Definition tx_start : tx := mk_tx 0 None.

Definition t1_tick (s : tx) : option LbcKey * tx :=
  let counter := counter s + 1 in
  (lbc_key s,
   if (1 <=? counter) && (counter <=? 5) then mk_tx counter (Some X5d)
   else if (6 <=? counter) && (counter <=? 9) then mk_tx counter (Some Xb2)
   else mk_tx 0 (Some Xb2)).

(** The keys of the first [n] ticks. *)
Fixpoint keys (n : nat) (s : tx) : list (option LbcKey) :=
  match n with
  | O => []
  | Datatypes.S n => let '(k, s) := t1_tick s in k :: keys n s
  end.

(** A turn of the loop, with the timer that fired: the frames of ze40_bms go to
    the channel. *)
Definition tx_turn {Frame E} (request_frame : option LbcKey -> option Frame)
  (request_tx_frame : option Frame) (first : bool) (s : tx) (channel : list Frame)
  : outcome E (tx * list Frame) :=
  if first then
    let '(key, s) := t1_tick s in
    frame ← unwrap (request_frame key);
    Ok (s, try_send channel frame)
  else
    frame ← unwrap request_tx_frame;
    Ok (s, try_send channel frame).

(** *** [bms_rx] *)
Section ze40.
Context {Frame Bms Mqtt BmsError Data ParseError DiagError F Cells Balance Range : Type}.
Context `{Profile} `{CanFrame Frame} `{CanData Frame}
  `{BmsStandard Bms BmsError F Cells Balance Range}
  `{Decoder Data Frame ParseError DiagError F Cells Balance Range}.
Context (mqtt try_lock : bool) (from_bms : Bms -> Mqtt).

Record t : Type := mk {
  f55 : Z;
  faa : Z;
  data : Data;
  world : shared Frame Bms Mqtt
}.

Definition with_world {E A} (m : M (shared Frame Bms Mqtt) E A) : M t E A := fun s =>
  let '(r, w) := m (world s) in (r, mk (f55 s) (faa s) (data s) w).

Definition x445_signal (frame : Frame) : M t BmsError unit :=
  match frame_data frame with
  | None => mret tt
  | Some bytes =>
    lbc_key ← lift (idx bytes 2);
    if lbc_key =? 0xaa then
      modify (fun s => mk 0 (faa s) (data s) (world s)) ;;;
      faa0 ← gets faa;
      faa1 ← lift (faa0 +u8 1);
      if faa1 =? 4
      then modify (fun s => mk (f55 s) 0 (data s) (signal_lbc X5d (world s)))
      else modify (fun s => mk (f55 s) faa1 (data s) (world s))
    else
      modify (fun s => mk (f55 s) 0 (data s) (world s)) ;;;
      f0 ← gets f55;
      f1 ← lift (f0 +u8 1);
      if f1 =? 4
      then modify (fun s => mk 0 (faa s) (data s) (signal_lbc Xb2 (world s)))
      else modify (fun s => mk f1 (faa s) (data s) (world s))
  end.

(** The two closures [update]. *)
Definition rapid_update (data : Data) : M (shared Frame Bms Mqtt) BmsError unit :=
  modify (signal_wdt true) ;;;
  with_bms (
    set_valid false ;;;
    set_current (current_value data) ;;;
    set_soc (soc_value data) ;;;
    set_kwh (kwh_remaining data) ;;;
    set_pack_temp (pack_temp data) ;;;
    set_valid true).

Definition diag_update (data : Data) : M (shared Frame Bms Mqtt) BmsError unit :=
  with_bms (
    modify (put_bal_cells (bal_cells data)) ;;;
    modify (put_cell_range_mv (cell_mv data)) ;;;
    modify (put_pack_volts (pack_volts data)) ;;;
    set_valid false ;;;
    set_max_discharge_amps f35 ;;;
    set_cell_mv (cells_mv data) ;;;
    set_pack_volts (pack_volts data) ;;;
    set_temps (temp_minimum data) (temp_maximum data) ;;;
    set_max_charge_amps (max_charge_amps data) ;;;
    throttle_pack ;;;
    set_valid true ;;;
    modify (put_discharge_max f35)) ;;;
  modify (when mqtt (push_all_to_mqtt try_lock from_bms)).

Definition wanted (id : Z) : bool :=
  existsb (Z.eqb id) [0x155; 0x424; 0x425; 0x4ae; 0x7bb; 0x445].

Definition turn (now : Z) (frame : Frame) : M t BmsError unit :=
  match frame_id frame with
  | Extended _ => mret tt
  | Standard id =>
    if negb (wanted id) then mret tt
    else if id =? 0x445 then x445_signal frame
    else if negb (id =? 1979) then
      fun s =>
        let '(r, data) := rapid_data_processor frame (data s) in
        let s := mk (f55 s) (faa s) data (world s) in
        match r with
        | inr _ => (Ok tt, s)
        | inl false => (Ok tt, s)
        | inl true =>
          with_world (modify (touch now) ;;; log_error (rapid_update data)) s
        end
    else
      fun s =>
        let '(r, data) := diag_data_processor frame (data s) in
        let s := mk (f55 s) (faa s) data (world s) in
        match r with
        | inl None =>
          with_world (modify (fun w => touch now (signal_wdt true w)) ;;;
                      log_error (diag_update data)) s
        | inl (Some next_tx_frame) => with_world (modify (send_bms next_tx_frame)) s
        | inr _ => (Ok tt, s)
        end
  end.
End ze40.
Arguments t : clear implicits.
Arguments mk {Frame Bms Mqtt Data}.
End Ze40.

(** ** Renault ZE50 *)

Module Ze50.
(** [ze50_bms]. *)
Class Decoder (Data PayloadError F : Type) : Type := {
  process_payload : list Z -> Data -> (unit + PayloadError) * Data;
  req_code : Data -> Z;
  soc_value : Data -> F;
  v_low_cell : Data -> F;
  v_high_cell : Data -> F;
  pack_volts : Data -> F;
  current_value : Data -> F;
  temp_min : Data -> F;
  temp_max : Data -> F;
  kwh_remaining : Data -> F;
  pack_temp : Data -> F;
  init_payloads : list (list Z);
  preamble_payload_0 : list Z;
  preamble_payload_1 : list Z;
}.

Section ze50.
Context {Frame Bms Mqtt BmsError Data PayloadError F Cells Balance Range : Type}.
Context `{CanFrame Frame} `{CanData Frame} `{BmsStandard Bms BmsError F Cells Balance Range}
  `{Decoder Data PayloadError F}.
Context (mqtt try_lock : bool) (from_bms : Bms -> Mqtt).
(** The feature v65, with which the state of charge is estimated from the
    highest cell voltage. *)
Context (v65 : bool) (map_cellv_soc : F -> F).
(** [Frame::new(id, data).unwrap()] with eight bytes of data. *)
Context (frame_new : CanId -> list Z -> Frame).

(** The static [ZE50_DATA], the flag of the sender, and the shared state. *)
Record t : Type := mk {
  data : Data;
  preamble_frame_number_1 : bool;
  world : shared Frame Bms Mqtt
}.

(** The closure of [update], and [update]. *)
Definition update_bms_data (data : Data) : M (shared Frame Bms Mqtt) BmsError unit := fun s =>
  let max_charge_amps := charge_current_maximum (Statics.bms (statics s)) in
  (with_bms (
     set_valid false ;;;
     set_soc (if v65 then map_cellv_soc (v_high_cell data) else soc_value data) ;;;
     set_cell_mv_low_high (v_low_cell data) (v_high_cell data) ;;;
     set_pack_volts (pack_volts data) ;;;
     set_current (current_value data) ;;;
     set_temps (temp_min data) (temp_max data) ;;;
     set_kwh (kwh_remaining data) ;;;
     set_max_charge_amps max_charge_amps ;;;
     set_pack_temp (pack_temp data) ;;;
     throttle_pack ;;;
     set_valid true) ;;;
   modify (when mqtt (push_all_to_mqtt try_lock from_bms))) s.

Definition with_world {E A} (m : M (shared Frame Bms Mqtt) E A) : M t E A := fun s =>
  let '(r, w) := m (world s) in (r, mk (data s) (preamble_frame_number_1 s) w).

Definition update (now : Z) : M t BmsError unit := fun s =>
  with_world (modify (fun w => touch now (signal_wdt true w)) ;;;
              log_error (update_bms_data (data s))) s.

(** [sender(frame)] *)
Definition sender (frame : Frame) : M t BmsError unit :=
  with_world (modify (fun w =>
    mk_shared (statics w) (wdt w) (lbc_status w) (try_send (bms_tx w) frame) (mqttfmt w))).

Definition t1_tick : M t BmsError unit :=
  first ← gets preamble_frame_number_1;
  modify (fun s => mk (data s) (negb first) (world s)) ;;;
  sender (frame_new (Standard 0x373)
    (if first : bool then preamble_payload_0 else preamble_payload_1)).

Definition pid_id (pid : Z) : Z :=
  if pid =? 0x5d then 0x92 else if pid =? 0xc8 then 0x91 else 0x90.

Definition t2_tick (now : Z) : M t BmsError unit :=
  pid ← gets (fun s => req_code (data s));
  (if pid =? 0x1 then update now else mret tt) ;;;
  sender (frame_new (Extended 0x18DADBF1) [0x03; 0x22; pid_id pid; pid; 0xff; 0xff; 0xff; 0xff]).

(** One turn of [bms_rx]; [!0x18DAF1DB] is a complement. *)
Definition turn (now : Z) (frame : Frame) (s : t) : t :=
  match frame_id frame with
  | Standard _ => s
  | Extended id =>
    if id =? 2 ^ 32 - 1 - 0x18DAF1DB then s
    else
      match frame_data frame with
      | None => s
      | Some payload =>
        let '(r, data) := process_payload payload (data s) in
        mk data (preamble_frame_number_1 s)
          (match r with inl _ => touch now (world s) | inr _ => world s end)
      end
  end.
End ze50.
Arguments t : clear implicits.
Arguments mk {Frame Bms Mqtt Data}.
End Ze50.

(** ** Tesla Model 3 *)

Module TeslaM3.
Inductive ContactorCommand : Type := Open | Precharge | Close | Unimplemented.

(** [tesla_m3_bms]: the states the task tells apart. *)
Inductive ContactorState : Type := StateOpen | StateEconomized | StateOther.

Class Decoder (Data Frame DecodeError Bms BmsError : Type) : Type := {
  decode_frame : Frame -> Data -> (bool + DecodeError) * Data;
  contactor_state : Data -> ContactorState;
  (** Is [contactor_operation] [Unknown6]? *)
  operation_unknown6 : Data -> bool;
  update_bms : Data -> Bms -> (unit + BmsError) * Bms;
}.

(** *** [bms_tx_periodic]: a frame every 100 ms, for ever *)
Definition arrays : list (list Z) :=
  [[0x41; 0x01; 0x05; 0x00; 0x00; 0x00; 0x00; 0x6A];
   [0x41; 0x01; 0x05; 0x00; 0x00; 0x00; 0x40; 0xAA];
   [0x40; 0x41; 0x05; 0x0F; 0x00; 0x50; 0x51; 0x5F];
   [0x41; 0x01; 0x05; 0x00; 0x00; 0x00; 0x80; 0xEA];
   [0x40; 0x41; 0x05; 0x0F; 0x00; 0x50; 0x91; 0x9F];
   [0x40; 0x41; 0x05; 0x0F; 0x00; 0x50; 0xD1; 0xDF]].

(** One round of the outer loop. *)
Definition tx_round : list (CanId * list Z) := map (fun data => (Standard 0x221, data)) arrays.

Section tesla.
Context {Frame Bms Mqtt BmsError Data DecodeError : Type}.
Context `{Decoder Data Frame DecodeError Bms BmsError}.

(** [contactor] is the signal [CONTACTOR]. *)
Record t : Type := mk {
  data : Data;
  contactor_command : ContactorCommand;
  contactor : option ContactorCommand;
  world : shared Frame Bms Mqtt
}.

Definition is_close (c : ContactorCommand) : bool := match c with Close => true | _ => false end.
Definition is_precharge (c : ContactorCommand) : bool :=
  match c with Precharge => true | _ => false end.

(** The [match] on the contactors' states. *)
Definition follow (s : t) : t :=
  match contactor_state (data s), operation_unknown6 (data s) with
  | StateEconomized, true =>
    if is_close (contactor_command s) then s else mk (data s) Close (Some Close) (world s)
  | StateOpen, _ =>
    if is_precharge (contactor_command s) then s
    else mk (data s) Precharge (Some Precharge) (world s)
  | _, _ => s
  end.

Definition turn (now : Z) (frame : Frame) (s : t) : t :=
  let '(r, data) := decode_frame frame (data s) in
  let s := mk data (contactor_command s) (contactor s) (world s) in
  match r with
  | inr _ => s
  | inl update =>
    let s := follow s in
    let s := mk data (contactor_command s) (Some Precharge) (signal_wdt true (world s)) in
    if negb update then s
    else
      let st := statics (world s) in
      let '(r, b) := update_bms data (Statics.bms st) in
      let w := on_shared_statics (fun st => Statics.mk (Statics.last_bms_message st) b
        (Statics.contactor_state st) (Statics.send_mqtt st) (Statics.inverter_tx st)
        (Statics.fault st)) (world s) in
      mk data (contactor_command s) (contactor s)
        (match r with inl _ => signal_wdt true (touch now w) | inr _ => w end)
  end.
End tesla.
Arguments t : clear implicits.
Arguments mk {Frame Bms Mqtt Data}.
End TeslaM3.

(** ** The key schedule of the ZE40 *)

(** The key of tick [n], from zero: none, then five times each key in turn. *)
Definition key_at (n : nat) : option LbcKey :=
  match n with
  | O => None
  | S n => Some (if (n mod 10 <? 5)%nat then X5d else Xb2)
  end.

(** The state before tick [n + 1]. *)
Definition tx_at (n : nat) : Ze40.tx :=
  Ze40.mk_tx (Z.of_nat (S n mod 10)) (key_at (S n)).

Lemma t1_tick_at n : Ze40.t1_tick (tx_at n) = (key_at (S n), tx_at (S n)).
Proof.
  pose proof (Nat.div_mod n 10 ltac:(lia)) as Hd. pose proof (Nat.mod_upper_bound n 10 ltac:(lia)) as Hm.
  set (q := (n / 10)%nat) in *. set (r := (n mod 10)%nat) in *.
  assert (H1 : (S n mod 10 = S r mod 10)%nat)
    by (rewrite Hd; replace (S (10 * q + r)) with (S r + q * 10)%nat by lia; by rewrite Nat.Div0.mod_add).
  assert (H2 : (S (S n) mod 10 = S (S r) mod 10)%nat)
    by (rewrite Hd; replace (S (S (10 * q + r))) with (S (S r) + q * 10)%nat by lia; by rewrite Nat.Div0.mod_add).
  unfold tx_at, key_at. rewrite H2, H1. fold r. clearbody r. clear -Hm.
  do 10 (destruct r as [|r]; [reflexivity|]). lia.
Qed.

Lemma keys_at k : forall n, Ze40.keys k (tx_at n) = map key_at (seq (S n) k).
Proof.
  induction k as [|k IH]; intros n; [done|]. cbn [Ze40.keys seq map].
  by rewrite t1_tick_at, IH.
Qed.

(** The keys the ZE40 task sends repeat every ten ticks, five times the
    one and five times the other, after a first frame without a key; the
    counter never leaves the range of the schedule. *)
Theorem ze40_key_schedule n :
  Ze40.keys n Ze40.tx_start = map key_at (seq 0 n) /\
  forall k, (1 <= k)%nat -> key_at (k + 10) = key_at k.
Proof.
  split.
  - destruct n as [|n]; [done|]. cbn [Ze40.keys seq map]. f_equal.
    apply (keys_at n 0).
  - intros [|k] Hk; [lia|]. cbn [key_at Nat.add].
    replace (k + 10)%nat with (k + 1 * 10)%nat by lia. by rewrite Nat.Div0.mod_add.
Qed.

(** ** The tasks in the controller *)

Section refinement.
Context {Frame Bms Mqtt : Type}.
Abbreviation S := (shared Frame Bms Mqtt).

(** What a BMS task may do to the statics: nothing, or an update of the BMS
    data, with the present time or without. *)
Definition updates (now : Z) (s s' : S) : Prop :=
  statics s' = statics s \/ exists heard b, statics s' = update_bms heard now b (statics s).

Lemma updates_touch now s : updates now s (touch now s).
Proof. right. by exists true, (Statics.bms (statics s)). Qed.

(** Computations that leave the time of the last message alone. *)
Definition only_bms {E A} (m : M S E A) : Prop :=
  forall s, exists b, statics (m s).2 =
    Statics.mk (Statics.last_bms_message (statics s)) b (Statics.contactor_state (statics s))
      (Statics.send_mqtt (statics s)) (Statics.inverter_tx (statics s)) (Statics.fault (statics s)).

Lemma only_bms_with {E A} (m : M Bms E A) : only_bms (with_bms m : M S E A).
Proof.
  intros s. unfold with_bms. destruct (m (Statics.bms (statics s))) as [r b]. by exists b.
Qed.

Lemma only_bms_modify {E} (f : S -> S) :
  (forall s, statics (f s) = statics s) -> only_bms (modify f : M S E unit).
Proof.
  intros Hf s. exists (Statics.bms (statics s)). cbn. rewrite Hf. by destruct (statics s).
Qed.

Lemma only_bms_seq {E B} (m : M S E unit) (k : M S E B) :
  only_bms m -> only_bms k -> only_bms (m ;;; k).
Proof.
  intros Hm Hk s. specialize (Hm s). unfold mbind, M_bind.
  destruct (m s) as [[[]|e|p|] s1]; try exact Hm.
  destruct Hm as (b1 & H1). destruct (Hk s1) as (b2 & H2). exists b2. cbn [snd] in H1. rewrite H2, H1. done.
Qed.

Lemma only_bms_log {E E'} (m : M S E unit) : only_bms m -> only_bms (log_error m : M S E' unit).
Proof. intros Hm s. specialize (Hm s). unfold log_error. by destruct (m s) as [[[]|e|p|] s1]. Qed.

(** A refreshed time, then an update. *)
Lemma touch_updates {E A} now (f : S -> S) (m : M S E A) s :
  (forall s, statics (f s) = statics (touch now s)) -> only_bms m ->
  updates now s ((modify f ;;; m) s).2.
Proof.
  intros Hf Hm. right. destruct (Hm (f s)) as (b & Hb). exists true, b.
  change (((modify f ;;; m) s).2) with ((m (f s)).2). rewrite Hb, Hf. done.
Qed.

(** The same computation, with what it leaves behind. *)
Lemma touched_log {E E'} now (f : S -> S) (m : M S E unit) s :
  (forall s, statics (f s) = statics (touch now s)) -> only_bms m ->
  exists r s', (modify f ;;; (log_error m : M S E' unit)) s = (r, s') /\
    Statics.last_bms_message (statics s') = Some now /\ s' = (log_error (E' := E) m (f s)).2.
Proof.
  intros Hf Hm. destruct (Hm (f s)) as (b & Hb).
  exists (log_error (E' := E') m (f s)).1, (log_error (E' := E') m (f s)).2.
  split; [by rewrite <- surjective_pairing|].
  assert (Hs : (log_error (E' := E') m (f s)).2 = (m (f s)).2)
    by (unfold log_error; by destruct (m (f s)) as [[[]|e|p|] s']).
  rewrite Hs. split; [by rewrite Hb, Hf|].
  unfold log_error. by destruct (m (f s)) as [[[]|e|p|] s'].
Qed.

Lemma push_statics try_lock (f : Bms -> Mqtt) mqtt (s : S) :
  statics (when mqtt (push_all_to_mqtt try_lock f) s) = statics s.
Proof. by destruct mqtt, try_lock. Qed.
End refinement.

Section tasks.
Context {Frame Bms Mqtt BmsError F Cells Balance Range : Type}.
Context `{Profile} `{CanFrame Frame} `{CanData Frame}
  `{BmsStandard Bms BmsError F Cells Balance Range}.
Context (mqtt try_lock : bool) (from_bms : Bms -> Mqtt) (v65 : bool) (map_cellv_soc : F -> F).

Lemma rapid_update_only_bms {Data ParseError DiagError}
  `{!Ze40.Decoder Data Frame ParseError DiagError F Cells Balance Range} (data : Data) :
  only_bms (Ze40.rapid_update (Mqtt := Mqtt) data).
Proof. apply only_bms_seq; [by apply only_bms_modify|apply only_bms_with]. Qed.

Lemma diag_update_only_bms {Data ParseError DiagError}
  `{!Ze40.Decoder Data Frame ParseError DiagError F Cells Balance Range} (data : Data) :
  only_bms (Ze40.diag_update mqtt try_lock from_bms data).
Proof.
  apply only_bms_seq; [apply only_bms_with|]. apply only_bms_modify. intros s'. apply push_statics.
Qed.

Lemma ze40_turn_updates {Data ParseError DiagError}
  `{!Ze40.Decoder Data Frame ParseError DiagError F Cells Balance Range} now frame s :
  updates now (Ze40.world s) (Ze40.world (Ze40.turn mqtt try_lock from_bms now frame s).2).
Proof.
  unfold Ze40.turn. destruct (frame_id frame) as [id|]; [|by left].
  destruct (negb _); [by left|]. destruct (id =? 0x445).
  { left. unfold Ze40.x445_signal. destruct (frame_data frame) as [bytes|]; [|done].
    unfold mbind, M_bind, lift, gets, modify.
    destruct (idx bytes 2) as [k|e|p|]; try done. destruct (k =? 0xaa); cbn;
      (destruct (checked 8 _) as [c|e|p|]; try done); by destruct (c =? 4). }
  destruct (negb _).
  - destruct (Ze40.rapid_data_processor frame (Ze40.data s)) as [[[]|e] data]; try by left.
    unfold Ze40.with_world; cbn [Ze40.world Ze40.f55 Ze40.faa Ze40.data].
    pose proof (touch_updates (E := BmsError) now (touch now)
      (log_error (Ze40.rapid_update data)) (Ze40.world s) (fun _ => eq_refl)) as Hu.
    destruct ((modify (touch now) ;;; log_error (Ze40.rapid_update data)) (Ze40.world s)) as [r w].
    apply Hu, only_bms_log, rapid_update_only_bms.
  - destruct (Ze40.diag_data_processor frame (Ze40.data s)) as [[[tx|]|e] data]; try by left.
    unfold Ze40.with_world; cbn [Ze40.world Ze40.f55 Ze40.faa Ze40.data].
    pose proof (touch_updates (E := BmsError) now (fun w => touch now (signal_wdt true w))
      (log_error (Ze40.diag_update mqtt try_lock from_bms data)) (Ze40.world s) (fun _ => eq_refl)) as Hu.
    destruct ((modify _ ;;; log_error _) (Ze40.world s)) as [r w].
    apply Hu, only_bms_log, diag_update_only_bms.
Qed.

Lemma ze50_turn_updates {Data PayloadError} `{!Ze50.Decoder Data PayloadError F} now frame
  (s : Ze50.t Frame Bms Mqtt Data) :
  updates now (Ze50.world s) (Ze50.world (Ze50.turn now frame s)).
Proof.
  unfold Ze50.turn. destruct (frame_id frame) as [id|id]; [by left|].
  destruct (_ =? _); [by left|]. destruct (frame_data frame); [|by left].
  destruct (Ze50.process_payload _ _) as [[[]|e] data]; [apply updates_touch|by left].
Qed.

Lemma ze50_update_only_bms {Data PayloadError} `{!Ze50.Decoder Data PayloadError F} (data : Data) :
  only_bms (Ze50.update_bms_data (Frame := Frame) mqtt try_lock from_bms v65 map_cellv_soc data).
Proof.
  intros w. unfold Ze50.update_bms_data. apply only_bms_seq; [apply only_bms_with|].
  apply only_bms_modify. intros s'. apply push_statics.
Qed.

Lemma ze50_tick_updates {Data PayloadError} `{!Ze50.Decoder Data PayloadError F} frame_new now
  (s : Ze50.t Frame Bms Mqtt Data) :
  updates now (Ze50.world s)
    (Ze50.world (Ze50.t2_tick mqtt try_lock from_bms v65 map_cellv_soc frame_new now s).2).
Proof.
  unfold Ze50.t2_tick. erewrite bind_ok by reflexivity.
  destruct (_ =? 1); [|erewrite bind_ok by reflexivity; by left].
  assert (Hu : updates now (Ze50.world s)
    (Ze50.world (Ze50.update (BmsError := BmsError) mqtt try_lock from_bms v65 map_cellv_soc now s).2)).
  { unfold Ze50.update, Ze50.with_world; cbn [Ze50.world Ze50.data].
    pose proof (touch_updates (E := BmsError) now (fun w => touch now (signal_wdt true w))
      (log_error (Ze50.update_bms_data mqtt try_lock from_bms v65 map_cellv_soc (Ze50.data s))) (Ze50.world s)
      (fun _ => eq_refl)) as Hu.
    destruct ((modify _ ;;; log_error _) (Ze50.world s)) as [r w].
    apply Hu. apply only_bms_log, ze50_update_only_bms. }
  unfold mbind, M_bind.
  by destruct (Ze50.update mqtt try_lock from_bms v65 map_cellv_soc now s) as [[[]|e|p|] s'].
Qed.

Lemma follow_world {Data DecodeError} `{!TeslaM3.Decoder Data Frame DecodeError Bms BmsError}
  (s : TeslaM3.t Frame Bms Mqtt Data) : TeslaM3.world (TeslaM3.follow s) = TeslaM3.world s.
Proof.
  unfold TeslaM3.follow. destruct (TeslaM3.contactor_state (TeslaM3.data s)), (TeslaM3.operation_unknown6 (TeslaM3.data s));
    try done;
    by destruct (TeslaM3.contactor_command s).
Qed.

Lemma tesla_turn_updates {Data DecodeError}
  `{!TeslaM3.Decoder Data Frame DecodeError Bms BmsError} now frame
  (s : TeslaM3.t Frame Bms Mqtt Data) :
  updates now (TeslaM3.world s) (TeslaM3.world (TeslaM3.turn now frame s)).
Proof.
  unfold TeslaM3.turn. destruct (TeslaM3.decode_frame _ _) as [[update|e] data]; [|by left].
  destruct update; cbn [negb TeslaM3.world]; rewrite follow_world; [|by left].
  cbn [TeslaM3.world statics signal_wdt].
  destruct (TeslaM3.update_bms data _) as [[[]|e] b].
  - right. by exists true, b.
  - right. by exists false, b.
Qed.

(** The inverter and contactor tasks run with any of these BMS tasks. *)
Section with_inverter.
Context {W Ev : Type} `{!InverterTask W Ev Frame Bms}.
Context (contactor_task : bool -> bool -> list Contactor.command * bool).

(** The controller after a BMS task left the statics [st]. *)
Definition left_by (st : Statics.t Frame Bms) (s : sys W Ev) : sys W Ev :=
  mk_sys (set_statics st (inverter s)) (active s) (hw s) (now s) (log s).

Definition stepped (s : sys W Ev) (w w' : shared Frame Bms Mqtt) : Prop :=
  statics w' = statics w \/ step contactor_task s (left_by (statics w') s).

Lemma updates_stepped s (w w' : shared Frame Bms Mqtt) :
  statics w = task_statics (inverter s) -> updates (now s) w w' -> stepped s w w'.
Proof.
  intros Hw [Hu|(heard & b & Hu)]; [by left|]. right. rewrite Hu, Hw.
  apply (step_bms contactor_task s heard b).
Qed.

(** C19: the BMS tasks of all three vehicles implement the step of the
    controller that stands for them: a turn of the reading task, and the update
    a ZE50 sends for, leaves the statics it shares with the inverter and the
    contactor as they were or takes that step.  So what holds of every
    reachable state of the controller holds with each of these tasks. *)
Theorem bms_tasks_refine {Data ParseError DiagError Data50 PayloadError DataM3 DecodeError}
  `{!Ze40.Decoder Data Frame ParseError DiagError F Cells Balance Range}
  `{!Ze50.Decoder Data50 PayloadError F} `{!TeslaM3.Decoder DataM3 Frame DecodeError Bms BmsError}
  frame_new (s : sys W Ev) (frame : Frame)
  (s40 : Ze40.t Frame Bms Mqtt Data) (s50 : Ze50.t Frame Bms Mqtt Data50)
  (sm3 : TeslaM3.t Frame Bms Mqtt DataM3)
  (H40 : statics (Ze40.world s40) = task_statics (inverter s))
  (H50 : statics (Ze50.world s50) = task_statics (inverter s))
  (HM3 : statics (TeslaM3.world sm3) = task_statics (inverter s)) :
  stepped s (Ze40.world s40)
    (Ze40.world (Ze40.turn mqtt try_lock from_bms (now s) frame s40).2) /\
  stepped s (Ze50.world s50) (Ze50.world (Ze50.turn (now s) frame s50)) /\
  stepped s (Ze50.world s50)
    (Ze50.world (Ze50.t2_tick mqtt try_lock from_bms v65 map_cellv_soc frame_new (now s) s50).2) /\
  stepped s (TeslaM3.world sm3) (TeslaM3.world (TeslaM3.turn (now s) frame sm3)).
Proof.
  repeat split; apply updates_stepped; try done.
  - apply ze40_turn_updates.
  - apply ze50_turn_updates.
  - apply ze50_tick_updates.
  - apply tesla_turn_updates.
Qed.
End with_inverter.

(** *** The validity of the data

    The calls that change the data without deciding their validity. *)
Inductive setter : M Bms BmsError unit -> Prop :=
| setter_current x : setter (set_current x)
| setter_soc x : setter (set_soc x)
| setter_kwh x : setter (set_kwh x)
| setter_pack_temp x : setter (set_pack_temp x)
| setter_max_discharge_amps x : setter (set_max_discharge_amps x)
| setter_max_charge_amps x : setter (set_max_charge_amps x)
| setter_cell_mv x : setter (set_cell_mv x)
| setter_cell_mv_low_high x y : setter (set_cell_mv_low_high x y)
| setter_pack_volts x : setter (set_pack_volts x)
| setter_temps x y : setter (set_temps x y)
| setter_throttle_pack : setter throttle_pack
| setter_put_discharge_max x : setter (modify (put_discharge_max x)).

(** Data that were marked as valid or invalid, and not again since: the last call
    of [set_valid] that counts had this argument.  One with [false] counts in any
    case, one with [true] if it succeeds. *)
Inductive marked : bool -> Bms -> Prop :=
| marked_invalid b : marked false (set_valid false b).2
| marked_valid b : is_ok (set_valid true b).1 = true -> marked true (set_valid true b).2
| marked_refused v b : is_ok (set_valid true b).1 = false -> marked v b -> marked v (set_valid true b).2
| marked_setter v b m : setter m -> marked v b -> marked v (m b).2.

(** A computation that starts from invalid data and marks them as valid if it
    succeeds, and only then. *)
Definition closing (m : M Bms BmsError unit) : Prop :=
  forall b, marked false b -> marked (is_ok (m b).1) (m b).2.

Lemma closing_seq m k : setter m -> closing k -> closing (m ;;; k).
Proof.
  intros Hm Hk b Hb. pose proof (marked_setter false b m Hm Hb) as Hmb. unfold mbind, M_bind.
  destruct (m b) as [[[]|e|p|] b1]; [by apply Hk|done..].
Qed.

Lemma closing_valid : closing (set_valid true).
Proof.
  intros b Hb. destruct (is_ok (set_valid true b).1) eqn:Ho; by constructor.
Qed.

Lemma closing_valid_discharge x : closing (set_valid true ;;; modify (put_discharge_max x)).
Proof.
  intros b Hb. pose proof (closing_valid b Hb) as Hv. unfold mbind, M_bind.
  destruct (set_valid true b) as [[[]|e|p|] b']; [|done..].
  by apply (marked_setter _ _ _ (setter_put_discharge_max x)) in Hv.
Qed.

(** The same of a computation that starts with [set_valid(false)]. *)
Definition brackets (m : M Bms BmsError unit) : Prop :=
  forall b, marked (is_ok (m b).1) (m b).2.

Lemma brackets_valid m : closing m -> brackets (set_valid false ;;; m).
Proof.
  intros Hm b. pose proof (marked_invalid b) as Hb. unfold mbind, M_bind.
  destruct (set_valid false b) as [[[]|e|p|] b']; [by apply Hm|done..].
Qed.

Lemma brackets_modify f m : brackets m -> brackets (modify f ;;; m).
Proof. intros Hm b. apply Hm. Qed.

(** The data after a whole update. *)
Definition validated {E} (m : M (shared Frame Bms Mqtt) E unit) (s : shared Frame Bms Mqtt) : Prop :=
  marked (is_ok (m s).1) (Statics.bms (statics (m s).2)).

Lemma validated_with m s : brackets m -> validated (with_bms m) s.
Proof.
  intros Hm. specialize (Hm (Statics.bms (statics s))). unfold validated, with_bms.
  by destruct (m (Statics.bms (statics s))) as [[[]|e|p|] b].
Qed.

Lemma validated_push {E} (m : M (shared Frame Bms Mqtt) E unit) s :
  validated m s -> validated (m ;;; modify (when mqtt (push_all_to_mqtt try_lock from_bms))) s.
Proof.
  unfold validated, mbind, M_bind. destruct (m s) as [[[]|e|p|] s']; try done.
  cbn. by rewrite push_statics.
Qed.

Lemma validated_log {E} (m : M (shared Frame Bms Mqtt) E unit) s :
  validated m s -> marked (is_ok (m s).1) (Statics.bms (statics (log_error (E' := E) m s).2)).
Proof. unfold validated, log_error. by destruct (m s) as [[[]|e|p|] s']. Qed.

Local Ltac closing :=
  repeat first [apply closing_valid | apply closing_valid_discharge | apply closing_seq]; constructor.

Lemma rapid_update_validated {Data ParseError DiagError}
  `{!Ze40.Decoder Data Frame ParseError DiagError F Cells Balance Range} (data : Data) w :
  validated (Ze40.rapid_update (Mqtt := Mqtt) data) w.
Proof.
  apply (validated_with _ (signal_wdt true w)), brackets_valid. closing.
Qed.

Lemma diag_update_validated {Data ParseError DiagError}
  `{!Ze40.Decoder Data Frame ParseError DiagError F Cells Balance Range} (data : Data) w :
  validated (Ze40.diag_update mqtt try_lock from_bms data) w.
Proof.
  apply validated_push, validated_with. do 3 apply brackets_modify. apply brackets_valid.
  closing.
Qed.

Lemma ze50_update_validated {Data PayloadError} `{!Ze50.Decoder Data PayloadError F}
  (data : Data) w :
  validated (Ze50.update_bms_data mqtt try_lock from_bms v65 map_cellv_soc data) w.
Proof.
  refine (validated_push _ w _). apply validated_with, brackets_valid. closing.
Qed.

(** An update on data that was just heard of. *)
Lemma touched_validated now f (m : M (shared Frame Bms Mqtt) BmsError unit) s :
  (forall s, statics (f s) = statics (touch now s)) -> only_bms m -> validated m (f s) ->
  exists r s', (modify f ;;; (log_error m : M _ BmsError unit)) s = (r, s') /\
    Statics.last_bms_message (statics s') = Some now /\
    marked (is_ok (m (f s)).1) (Statics.bms (statics s')).
Proof.
  intros Hf Hm Hv. destruct (touched_log (E' := BmsError) now f m s Hf Hm) as (r & s' & He & Hl & ->).
  exists r, (log_error (E' := BmsError) m (f s)).2. split; [done|]. split; [done|by apply validated_log].
Qed.

(** C22: the updates of the ZE40 and of the ZE50.  The data are marked as invalid
    first, and as valid after every setter that may fail has succeeded: after an
    update that fails at any setter, the last [set_valid] that counts is the one
    with [false], after one that succeeds that with [true].  The time of the last
    message is refreshed in either case, so that the inverter tasks see a battery
    that is alive. *)
Theorem bms_update_validity {Data ParseError DiagError Data50 PayloadError}
  `{!Ze40.Decoder Data Frame ParseError DiagError F Cells Balance Range}
  `{!Ze50.Decoder Data50 PayloadError F} now frame id (s : Ze40.t Frame Bms Mqtt Data) data
  (s50 : Ze50.t Frame Bms Mqtt Data50)
  (Hid : frame_id frame = Standard id) (Hw : Ze40.wanted id = true) (Hk : id <> 0x445)
  (Hdata : if id =? 1979
    then Ze40.diag_data_processor frame (Ze40.data s) = (inl None, data)
    else Ze40.rapid_data_processor frame (Ze40.data s) = (inl true, data)) :
  (let w := statics (Ze40.world (Ze40.turn mqtt try_lock from_bms now frame s).2) in
   Statics.last_bms_message w = Some now /\
   marked
     (if id =? 1979
      then is_ok (Ze40.diag_update mqtt try_lock from_bms data
                    (touch now (signal_wdt true (Ze40.world s)))).1
      else is_ok (Ze40.rapid_update data (touch now (Ze40.world s))).1)
     (Statics.bms w)) /\
  (let w := statics (Ze50.world (Ze50.update mqtt try_lock from_bms v65 map_cellv_soc now s50).2) in
   Statics.last_bms_message w = Some now /\
   marked
     (is_ok (Ze50.update_bms_data mqtt try_lock from_bms v65 map_cellv_soc (Ze50.data s50)
               (touch now (signal_wdt true (Ze50.world s50)))).1)
     (Statics.bms w)).
Proof.
  split.
  - cbv zeta. unfold Ze40.turn. rewrite Hid, Hw, (proj2 (Z.eqb_neq _ _) Hk). cbn [negb].
    destruct (id =? 1979); cbn [negb]; rewrite Hdata; unfold Ze40.with_world;
      cbn [Ze40.world Ze40.f55 Ze40.faa Ze40.data].
    + destruct (touched_validated now (fun w => touch now (signal_wdt true w)) _ (Ze40.world s)
        (fun _ => eq_refl) (diag_update_only_bms data) (diag_update_validated data _))
        as (r & w' & -> & Hl & Hv). by split.
    + destruct (touched_validated now (touch now) _ (Ze40.world s) (fun _ => eq_refl)
        (rapid_update_only_bms data) (rapid_update_validated data _)) as (r & w' & -> & Hl & Hv).
      by split.
  - cbv zeta. unfold Ze50.update, Ze50.with_world; cbn [Ze50.world Ze50.data].
    destruct (touched_validated now (fun w => touch now (signal_wdt true w)) _ (Ze50.world s50)
      (fun _ => eq_refl) (ze50_update_only_bms (Ze50.data s50)) (ze50_update_validated (Ze50.data s50) _))
      as (r & w' & -> & Hl & Hv). by split.
Qed.
End tasks.

(** ** The key counters of the ZE40 *)

Section x445.
Context {Frame Bms Mqtt BmsError Data : Type} `{Profile} `{CanData Frame}.
Abbreviation T := (Ze40.t Frame Bms Mqtt Data).

(** Reading the frames of the id 0x445, one after the other. *)
Fixpoint x445_all (frames : list Frame) : M T BmsError unit :=
  match frames with
  | [] => mret tt
  | frame :: frames => Ze40.x445_signal frame ;;; x445_all frames
  end.

(** A frame with at least three bytes, the third being [k]. *)
Definition has_key (frame : Frame) (k : Z) : Prop :=
  exists bytes, frame_data frame = Some bytes /\ bytes !! 2%nat = Some k.

(** The length of the present run of keys 0xaa ([b = true]) or of others, the
    last key first, and the signal that is up. *)
Fixpoint run (b : bool) (ks : list Z) : Z :=
  match ks with
  | k :: ks => if eqb (k =? 0xaa) b then 1 + run b ks else 0
  | [] => 0
  end.

Fixpoint last_signal (ks : list Z) : option LbcKey :=
  match ks with
  | [] => None
  | k :: ks' =>
    if run (k =? 0xaa) ks mod 4 =? 0 then Some (if k =? 0xaa then X5d else Xb2)
    else last_signal ks'
  end.

(** The counters are the runs, modulo four. *)
Definition counts (ks : list Z) (s : T) : Prop :=
  Ze40.faa s = run true ks mod 4 /\ Ze40.f55 s = run false ks mod 4 /\
  lbc_status (Ze40.world s) = last_signal ks.

Lemma succ_mod4 n :
  0 <= n -> (1 + n) mod 4 = if n mod 4 + 1 =? 4 then 0 else n mod 4 + 1.
Proof. intros Hn. destruct (Z.eqb_spec (n mod 4 + 1) 4); Z.div_mod_to_equations; lia. Qed.

Lemma run_nonneg b ks : 0 <= run b ks.
Proof. induction ks as [|k ks IH]; [done|]. cbn. destruct (eqb _ b); lia. Qed.

Lemma x445_counts frame k ks s :
  has_key frame k -> counts ks s ->
  exists s', Ze40.x445_signal (BmsError := BmsError) frame s = (Ok tt, s') /\ counts (k :: ks) s'.
Proof.
  intros (bytes & Hd & Hk) (Ha & H5 & Hl). unfold Ze40.x445_signal. rewrite Hd.
  assert (Hi : idx (E := BmsError) bytes 2 = Ok k) by by apply (idx_ok bytes 2).
  erewrite bind_ok by (unfold lift; by rewrite Hi).
  pose proof (run_nonneg true ks) as Hra. pose proof (run_nonneg false ks) as Hrf.
  pose proof (Z.mod_pos_bound (run true ks) 4 ltac:(lia)) as Hma.
  pose proof (Z.mod_pos_bound (run false ks) 4 ltac:(lia)) as Hmf.
  unfold counts. destruct (k =? 170) eqn:Haa.
  - do 2 erewrite bind_ok by reflexivity. cbn [Ze40.faa].
    erewrite bind_ok by (unfold lift; by rewrite checked_ok by lia).
    cbn [run last_signal]. rewrite Haa. cbn [eqb]. rewrite Ha, succ_mod4 by lia.
    destruct (Z.eqb_spec (run true ks mod 4 + 1) 4) as [He|He]; eexists; (split; [reflexivity|]);
      cbn; [by rewrite ?Haa|]. rewrite ?Haa, (proj2 (Z.eqb_neq _ _)) by lia. done.
  - do 2 erewrite bind_ok by reflexivity. cbn [Ze40.f55].
    erewrite bind_ok by (unfold lift; by rewrite checked_ok by lia).
    cbn [run last_signal]. rewrite Haa. cbn [eqb]. rewrite H5, succ_mod4 by lia.
    destruct (Z.eqb_spec (run false ks mod 4 + 1) 4) as [He|He]; eexists; (split; [reflexivity|]);
      cbn; [by rewrite ?Haa|]. rewrite ?Haa, (proj2 (Z.eqb_neq _ _)) by lia. done.
Qed.

(** The ZE40 task counts the keys it receives.  After any frames that
    carry a key its two counters are the lengths, modulo four, of the run of
    0xaa or of other keys that is going on, one of them zero, and the signal
    that is up was given at the last fourth key in a row.  A frame too short to
    carry a key stops the task with a panic. *)
Theorem x445_runs frames ks s
  (Hf : Forall2 has_key frames ks)
  (Hs : Ze40.faa s = 0 /\ Ze40.f55 s = 0 /\ lbc_status (Ze40.world s) = None) :
  (exists s', x445_all frames s = (Ok tt, s') /\ counts (rev ks) s' /\
    (Ze40.faa s' = 0 \/ Ze40.f55 s' = 0)) /\
  (forall frame bytes (s' : T), frame_data frame = Some bytes -> zlen bytes <= 2 ->
    (Ze40.x445_signal (BmsError := BmsError) frame s').1 = Panic PIndex).
Proof.
  split.
  - assert (Hgen : forall done s, counts done s ->
      exists s', x445_all frames s = (Ok tt, s') /\ counts (rev ks ++ done) s').
    { clear Hs s. induction Hf as [|frame k frames ks Hk _ IH]; intros done s Hs; [by exists s|].
      destruct (x445_counts frame k done s Hk Hs) as (s1 & H1 & Hc).
      destruct (IH _ _ Hc) as (s2 & H2 & Hc2). exists s2. cbn [x445_all rev].
      erewrite bind_ok by exact H1. by rewrite <- app_assoc. }
    destruct (Hgen [] s) as (s' & He & Hc); [by unfold counts; destruct Hs as (-> & -> & ->)|].
    rewrite app_nil_r in Hc. exists s'. split; [done|]. split; [done|].
    destruct Hc as (-> & -> & _). destruct (rev ks) as [|k l]; [by left|]. cbn [run].
    destruct (k =? 0xaa); [by right|by left].
  - intros frame bytes s' Hd Hb. unfold Ze40.x445_signal. rewrite Hd.
    erewrite bind_panic; [done|]. unfold lift. by rewrite idx_panic.
Qed.
End x445.

(** ** The contactors of the Tesla *)

Section tesla_contactors.
Context {Frame Bms Mqtt BmsError Data DecodeError : Type}
  `{TeslaM3.Decoder Data Frame DecodeError Bms BmsError}.

(** The task, over the frames it reads, each with its time. *)
Definition tesla_run (frames : list (Z * Frame)) (s : TeslaM3.t Frame Bms Mqtt Data)
  : TeslaM3.t Frame Bms Mqtt Data :=
  fold_left (fun s '(now, frame) => TeslaM3.turn now frame s) frames s.

(** The Tesla task never asks for closed contactors.  What a turn signals
    for the contactors is overwritten, before anyone can take it, by the command
    to precharge; the state of the contactors that the battery reports makes no
    difference. *)
Theorem tesla_only_precharges frames s (Hs : TeslaM3.contactor s = None) :
  TeslaM3.contactor (tesla_run frames s) = None \/
  TeslaM3.contactor (tesla_run frames s) = Some TeslaM3.Precharge.
Proof.
  unfold tesla_run. revert s Hs.
  assert (Hgen : forall s : TeslaM3.t Frame Bms Mqtt Data,
    TeslaM3.contactor s = None \/ TeslaM3.contactor s = Some TeslaM3.Precharge ->
    let s' := fold_left (fun s '(now, frame) => TeslaM3.turn now frame s) frames s in
    TeslaM3.contactor s' = None \/ TeslaM3.contactor s' = Some TeslaM3.Precharge).
  { induction frames as [|[now frame] frames IH]; intros s Hs; [done|]. cbn [fold_left].
    apply IH. unfold TeslaM3.turn. destruct (TeslaM3.decode_frame _ _) as [[[]|e] data]; [right..|done].
    - cbn. by destruct (TeslaM3.update_bms _ _) as [[]].
    - done. }
  intros s Hs. apply Hgen. by left.
Qed.
End tesla_contactors.

(** ** Sample batteries

    A frame is its id and its bytes; the data of the battery is a flag and a
    state of charge, which cannot be more than 100. *)
Module SampleBattery.
Definition Frame : Type := (CanId * list Z)%type.
#[export] Instance frame_ids : CanFrame Frame := fst.
#[export] Instance frame_bytes : CanData Frame := fun f => Some f.2.

Definition Bms : Type := (bool * Z)%type.
Definition skip : M Bms unit unit := mret tt.

#[export] Instance standard : BmsStandard Bms unit Z unit unit unit := {
  valid := fst;
  set_valid := fun v => modify (fun b => (v, b.2));
  set_current := fun _ => skip;
  set_soc := fun x => if x <=? 100 then modify (fun b => (b.1, x)) else throw tt;
  set_kwh := fun _ => skip;
  set_pack_temp := fun _ => skip;
  set_max_discharge_amps := fun _ => skip;
  set_max_charge_amps := fun _ => skip;
  set_cell_mv := fun _ => skip;
  set_cell_mv_low_high := fun _ _ => skip;
  set_pack_volts := fun _ => skip;
  set_temps := fun _ _ => skip;
  throttle_pack := skip;
  put_bal_cells := fun _ b => b;
  put_cell_range_mv := fun _ b => b;
  put_pack_volts := fun _ b => b;
  put_discharge_max := fun _ b => b;
  charge_current_maximum := fun _ => 100;
}.

(** With these setters the mark is the flag. *)
Lemma marked_flag v (b : Bms) :
  marked (Bms := Bms) (BmsError := unit) (F := Z) (Cells := unit) (Balance := unit) (Range := unit) v b ->
  valid b = v.
Proof.
  induction 1 as [b|b _|v b Ho Hb IH|v b m Hm Hb IH]; [done..|].
  destruct Hm as [x|x|x|x|x|x|x|x y|x|x y| |x]; try exact IH. cbn. by destruct (x <=? 100).
Qed.

(** The third byte of a frame is the state of charge. *)
Definition third (f : Frame) : Z := nth 2 f.2 0.

#[export] Instance ze40 : Ze40.Decoder Z Frame unit unit Z unit unit unit := {
  Ze40.rapid_data_processor := fun f _ => (inl true, third f);
  Ze40.diag_data_processor := fun f _ => (inl None, third f);
  Ze40.current_value := id; Ze40.soc_value := id; Ze40.kwh_remaining := id; Ze40.pack_temp := id;
  Ze40.pack_volts := id; Ze40.max_charge_amps := id; Ze40.cells_mv := fun _ => tt;
  Ze40.bal_cells := fun _ => tt; Ze40.cell_mv := fun _ => tt; Ze40.temp_minimum := id;
  Ze40.temp_maximum := id; Ze40.f35 := 35;
}.

#[export] Instance ze50 : Ze50.Decoder Z unit Z := {
  Ze50.process_payload := fun p _ => (inl tt, nth 2 p 0);
  Ze50.req_code := fun _ => 1;
  Ze50.soc_value := id; Ze50.v_low_cell := id; Ze50.v_high_cell := id; Ze50.pack_volts := id;
  Ze50.current_value := id; Ze50.temp_min := id; Ze50.temp_max := id; Ze50.kwh_remaining := id;
  Ze50.pack_temp := id; Ze50.init_payloads := []; Ze50.preamble_payload_0 := [0];
  Ze50.preamble_payload_1 := [1];
}.

#[export] Instance tesla : TeslaM3.Decoder Z Frame unit Bms unit := {
  TeslaM3.decode_frame := fun f _ => (inl true, third f);
  TeslaM3.contactor_state := fun d => if d =? 0 then TeslaM3.StateOpen else TeslaM3.StateEconomized;
  TeslaM3.operation_unknown6 := fun _ => true;
  TeslaM3.update_bms := fun d b => (inl tt, (true, d));
}.

Definition statics0 : Statics.t Frame Bms := Statics.mk None (true, 50) None None [] NoFault.
Definition world0 : shared Frame Bms unit := mk_shared statics0 None None [] tt.
Definition frame (id soc : Z) : Frame := (Standard id, [0; 0; soc]).
End SampleBattery.
Import SampleBattery.

(** A state of charge of 120 is refused: the data is invalid, and fresh. *)
(** A state of charge above 100 is refused by the setter. *)
Lemma bms_update_validity_witness :
  let w := statics (Ze40.world (Ze40.turn (H := dev_profile) (BmsError := unit) true true (fun _ => tt) 7 (frame 0x155 120)
    (Ze40.mk 0 0 0 world0)).2) in
  Statics.last_bms_message w = Some 7 /\ valid (Statics.bms w) = false.
Proof.
  destruct (proj1 (bms_update_validity (H := dev_profile) true true (fun _ => tt) false id 7 (frame 0x155 120)
    0x155 (Ze40.mk 0 0 0 world0) 120 (Ze50.mk 50 true world0) eq_refl eq_refl ltac:(done) eq_refl))
    as [H1 H2].
  split; [exact H1|exact (marked_flag _ _ H2)].
Defined.

Lemma ze40_key_schedule_witness :
  Ze40.keys 13 Ze40.tx_start =
    None :: map Some [X5d; X5d; X5d; X5d; X5d; Xb2; Xb2; Xb2; Xb2; Xb2; X5d; X5d] /\
  key_at (3 + 10) = key_at 3.
Proof.
  split; [exact (proj1 (ze40_key_schedule 13))|apply (proj2 (ze40_key_schedule 13)); lia].
Defined.

Lemma x445_runs_witness :
  exists s', x445_all (H := dev_profile) (BmsError := unit) (map (frame 0x445) [0xaa; 0x55; 0x55; 0x55; 0x55; 0x55])
      (Ze40.mk 0 0 0 world0) = (Ok tt, s') /\
    Ze40.f55 s' = 1 /\ Ze40.faa s' = 0 /\ lbc_status (Ze40.world s') = Some Xb2.
Proof.
  destruct (x445_runs (H := dev_profile) (BmsError := unit)
    (map (frame 0x445) [0xaa; 0x55; 0x55; 0x55; 0x55; 0x55]) [0xaa; 0x55; 0x55; 0x55; 0x55; 0x55]
    (Ze40.mk 0 0 0 world0)) as [(s' & He & (Ha & H5 & Hl) & _) _].
  - by repeat (constructor; [by eexists|]).
  - done.
  - exists s'. by repeat split.
Defined.

Lemma tesla_only_precharges_witness :
  let s := tesla_run (BmsError := unit) [(1, frame 0x332 1); (2, frame 0x332 2)]
    (TeslaM3.mk 0 TeslaM3.Precharge None world0) in
  TeslaM3.contactor s = None \/ TeslaM3.contactor s = Some TeslaM3.Precharge.
Proof. apply (tesla_only_precharges (BmsError := unit)). reflexivity. Defined.

(** An inverter task that only waits. *)
#[local] Instance idle_task : InverterTask (Statics.t Frame Bms) unit Frame Bms := {
  task_starts := fun _ => True;
  task_turn := fun _ _ w => w;
  task_statics := fun w => w;
  set_statics := fun s _ => s;
  statics_set := fun s w => eq_refl;
}.

Lemma bms_tasks_refine_witness :
  let s := mk_sys statics0 false Contactor.Hardware.off 7 [] in
  stepped (Mqtt := unit) (Contactor.contactor_main_task 1000) s world0
    (Ze40.world (Ze40.turn (H := dev_profile) (BmsError := unit) true true (fun _ => tt) 7 (frame 0x155 80)
      (Ze40.mk 0 0 0 world0)).2).
Proof.
  refine (proj1 (bms_tasks_refine (H := dev_profile) (BmsError := unit) (Ev := unit) true true
    (fun _ => tt) false id (Contactor.contactor_main_task 1000) (fun i b => (i, b))
    (mk_sys statics0 false Contactor.Hardware.off 7 []) (frame 0x155 80) (Ze40.mk 0 0 0 world0)
    (Ze50.mk 50 true world0) (TeslaM3.mk 0 TeslaM3.Precharge None world0) _ _ _)); reflexivity.
Defined.
