(* ===== verification/Devices.v ===== *)
(** The LEDs, the CAN interfaces and the debug port:
    stm32f407_controller/src/bin/tasks/leds.rs, can_interfaces.rs and
    tcp_debug.rs.

    The two CAN interfaces move frames between a bus and two channels; the
    tasks of the other files use the other ends, and so does the debug port when
    it is compiled in.  [Can.step] is one move. *)
From stdpp Require Import strings.
From S2P Require Import Prelude.
From S2P Require Import Writer.
From S2P Require Import Inverter.
From S2P Require Import Bms.

#[local] Open Scope list_scope.

(** ** The LEDs

    A LED is an output pin that lights it when low. *)
Module Leds.
Inductive Led : Type := Led1 | Led2 | Led3.
Inductive LedCommand : Type := On (l : Led) | Off (l : Led) | Blink (l : Led) | Toggle (l : Led).

#[export] Instance Led_eq_dec : EqDecision Led.
Proof. solve_decision. Defined.

(** The levels of the pins, [true] being high; the clock, in milliseconds,
    moves in [Timer::after]. *)
Record t : Type := mk { led1 : bool; led2 : bool; led3 : bool; clock : Z }.

Definition get_led (l : Led) (self : t) : bool :=
  match l with Led1 => led1 self | Led2 => led2 self | Led3 => led3 self end.

Definition set_level (high : bool) (l : Led) (self : t) : t :=
  match l with
  | Led1 => mk high (led2 self) (led3 self) (clock self)
  | Led2 => mk (led1 self) high (led3 self) (clock self)
  | Led3 => mk (led1 self) (led2 self) high (clock self)
  end.

Definition wait (ms : Z) (self : t) : t := mk (led1 self) (led2 self) (led3 self) (clock self + ms).

Definition on (l : Led) (self : t) : t := set_level false l self.
Definition off (l : Led) (self : t) : t := set_level true l self.

(** The states a blink goes through, the last one last. *)
Definition blink (l : Led) (self : t) : list t :=
  let dark :=
    if negb (get_led l self) then
      let self := set_level true l self in [self; wait 100 self]
    else [] in
  let self := List.last dark self in
  let lit := set_level false l self in
  let waited := wait 100 lit in
  dark ++ [lit; waited; set_level true l waited].

Definition toggle (l : Led) (self : t) : t := set_level (negb (get_led l self)) l self.

Definition process_command (lc : LedCommand) (self : t) : list t :=
  match lc with
  | On l => [on l self]
  | Off l => [off l self]
  | Blink l => blink l self
  | Toggle l => [toggle l self]
  end.

(** [led_task], over the commands it takes from the signal. *)
Fixpoint led_task (commands : list LedCommand) (leds : t) : list t :=
  match commands with
  | [] => []
  | command :: commands =>
    let states := process_command command leds in
    states ++ led_task commands (List.last states leds)
  end.
End Leds.

(** ** The CAN interfaces *)

Module Can.
Section can.
Context {Frame : Type}.

(** A bus, the two channels of its interface, and the frames that have gone
    each way: [received] from the bus, [sent] to it, [handled] by the task that
    reads the receive channel, [made] by those that fill the transmit channel,
    and [debug_rx] and [debug_tx] by the debug port. *)
Record t : Type := mk {
  received : list Frame;
  sent : list Frame;
  ch_rx : list Frame;
  ch_tx : list Frame;
  handled : list Frame;
  made : list Frame;
  debug_rx : list Frame;
  debug_tx : list Frame
}.

Definition start : t := mk [] [] [] [] [] [] [] [].

(** What [select] gives to [can_routine], and the result of [rx.read()]. *)
Inductive event : Type := Read (envelope : option Frame) | Transmit (frame : Frame).

(** [ch_rx.send(frame).await] waits for room: [None] while there is none.
    [ch_tx.receive()] gives the oldest frame. *)
Definition can_routine (ev : event) (s : t) : option t :=
  match ev with
  | Read (Some frame) =>
    if zlen (ch_rx s) <? FRAME_BUFFER
    then Some (mk (received s ++ [frame]) (sent s) (ch_rx s ++ [frame]) (ch_tx s) (handled s) (made s)
                 (debug_rx s) (debug_tx s))
    else None
  | Read None => Some s
  | Transmit frame =>
    Some (mk (received s) (sent s ++ [frame]) (ch_rx s) (ch_tx s) (handled s) (made s) (debug_rx s)
            (debug_tx s))
  end.

(** The other ends of the channels. *)
Definition set_ch_rx (l : list Frame) (s : t) : t :=
  mk (received s) (sent s) l (ch_tx s) (handled s) (made s) (debug_rx s) (debug_tx s).
Definition set_ch_tx (l : list Frame) (s : t) : t :=
  mk (received s) (sent s) (ch_rx s) l (handled s) (made s) (debug_rx s) (debug_tx s).
Definition handle (f : Frame) (s : t) : t :=
  mk (received s) (sent s) (ch_rx s) (ch_tx s) (handled s ++ [f]) (made s) (debug_rx s) (debug_tx s).
Definition make (f : Frame) (s : t) : t :=
  mk (received s) (sent s) (ch_rx s) (ch_tx s) (handled s) (made s ++ [f]) (debug_rx s) (debug_tx s).
Definition debug (rx : bool) (f : Frame) (s : t) : t :=
  mk (received s) (sent s) (ch_rx s) (ch_tx s) (handled s) (made s)
    (if rx then debug_rx s ++ [f] else debug_rx s) (if rx then debug_tx s else debug_tx s ++ [f]).

(** A task that makes a frame drops it when the channel is full ([try_send]), or
    waits for room. *)
Inductive step (tcp_debug : bool) : t -> t -> Prop :=
| step_read f s s' : can_routine (Read f) s = Some s' -> step tcp_debug s s'
| step_transmit f l s s' :
  ch_tx s = f :: l -> can_routine (Transmit f) (set_ch_tx l s) = Some s' -> step tcp_debug s s'
| step_handle f l s : ch_rx s = f :: l -> step tcp_debug s (handle f (set_ch_rx l s))
| step_make f s :
  zlen (ch_tx s) < FRAME_BUFFER -> step tcp_debug s (make f (set_ch_tx (try_send (ch_tx s) f) s))
| step_drop f s :
  FRAME_BUFFER <= zlen (ch_tx s) -> step tcp_debug s (set_ch_tx (try_send (ch_tx s) f) s)
| step_debug_rx f l s :
  tcp_debug = true -> ch_rx s = f :: l -> step tcp_debug s (debug true f (set_ch_rx l s))
| step_debug_tx f l s :
  tcp_debug = true -> ch_tx s = f :: l -> step tcp_debug s (debug false f (set_ch_tx l s)).

Inductive reachable (tcp_debug : bool) : t -> Prop :=
| reachable_start : reachable tcp_debug start
| reachable_step s s' : reachable tcp_debug s -> step tcp_debug s s' -> reachable tcp_debug s'.

(** [l] is shuffled from [a] and [b], each in its order. *)
Inductive shuffle : list Frame -> list Frame -> list Frame -> Prop :=
| shuffle_nil : shuffle [] [] []
| shuffle_left a b l f : shuffle a b l -> shuffle (a ++ [f]) b (l ++ [f])
| shuffle_right a b l f : shuffle a b l -> shuffle a (b ++ [f]) (l ++ [f]).
End can.
Arguments t : clear implicits.
End Can.

(** ** The debug port *)

Module TcpDebug.
Section debug.
(** The text [{:x?}] makes of a frame's id and data. *)
Context {Frame : Type} (id_text data_text : Frame -> list Z).

(** [let mut buf = [0u8; 256]] *)
Definition buffer : ByteMutWriter.t := ByteMutWriter.new (replicate 256 0).

Definition line_pieces (label : list Z) (ms : Z) (frame : Frame) : list (list Z) :=
  [label; str " "; decimal ms; str "ms "; id_text frame; str " "; data_text frame; [10]].

(** A turn of the inner loop, with the channel the frame is from, the time since
    the connection, and what [socket.write] does: the bytes it is given, and
    whether the loop goes on. *)
Definition turn (rx : bool) (ms : Z) (frame : Frame) (written : bool) (buf : ByteMutWriter.t)
  : option (list Z) * bool * ByteMutWriter.t :=
  let label := if rx then str "BMS Rx" else str "BMS Tx" in
  let '(r, buf) := write_fmt (line_pieces label ms frame) buf in
  match r with
  | Ok _ =>
    if written then (Some (ByteMutWriter.buf buf), true, ByteMutWriter.clear buf)
    else (Some (ByteMutWriter.buf buf), false, buf)
  | _ => (None, true, ByteMutWriter.clear buf)
  end.

(** The inner loop: the blocks given to the socket. *)
Fixpoint inner (frames : list (bool * Z * Frame * bool)) (buf : ByteMutWriter.t) : list (list Z) :=
  match frames with
  | [] => []
  | (rx, ms, frame, written) :: frames =>
    let '(block, continue, buf) := turn rx ms frame written buf in
    let blocks := match block with Some block => [block] | None => [] end in
    if continue : bool then blocks ++ inner frames buf else blocks
  end.
End debug.
End TcpDebug.

(** ** Properties *)

Section leds.
Import Leds.

(** What a command does to one LED in the end, [true] being dark. *)
Definition effect (l : Led) (dark : bool) (lc : LedCommand) : bool :=
  match lc with
  | On l' => if bool_decide (l = l') then false else dark
  | Off l' | Blink l' => if bool_decide (l = l') then true else dark
  | Toggle l' => if bool_decide (l = l') then negb dark else dark
  end.

Lemma get_set_level l l' b s :
  get_led l (set_level b l' s) = if bool_decide (l = l') then b else get_led l s.
Proof. by destruct l, l'. Qed.

Lemma process_effect lc s l :
  get_led l (List.last (process_command lc s) s) = effect l (get_led l s) lc.
Proof.
  destruct s as [[] [] [] c], lc as [l'|l'|l'|l']; destruct l, l'; reflexivity.
Qed.

(** Each LED shows what the commands for it ask, whatever the others are
    told: after any commands it is lit by the last On, dark after the last Off
    or Blink, and a Toggle inverts it.  A blink shows 100 ms of light, with
    100 ms of dark before it if the LED was lit, and ends dark. *)
Theorem led_commands (commands : list LedCommand) (leds : Leds.t) l :
  get_led l (List.last (led_task commands leds) leds) =
    fold_left (effect l) commands (get_led l leds) /\
  map (fun s => (get_led l s, clock s - clock leds)) (process_command (Blink l) leds) =
    if get_led l leds then [(false, 0); (false, 100); (true, 100)]
    else [(true, 0); (true, 100); (false, 100); (false, 200); (true, 200)].
Proof.
  split.
  - revert leds. induction commands as [|lc commands IH]; intros leds; [done|].
    cbn [led_task fold_left]. by rewrite last_app_default, IH, process_effect.
  - destruct leds as [a b c t].
    destruct l; [destruct a|destruct b|destruct c]; cbn; repeat f_equal; lia.
Qed.
End leds.

Section can.
Context {Frame : Type}.
Import Can.

(** The invariant of the channels. *)
Definition channels_ok (tcp_debug : bool) (s : Can.t Frame) : Prop :=
  zlen (ch_rx s) <= FRAME_BUFFER /\ zlen (ch_tx s) <= FRAME_BUFFER /\
  (exists taken, shuffle (handled s) (debug_rx s) taken /\ received s = taken ++ ch_rx s) /\
  (exists taken, shuffle (sent s) (debug_tx s) taken /\ made s = taken ++ ch_tx s) /\
  (tcp_debug = false -> debug_rx s = [] /\ debug_tx s = []).

Lemma shuffle_alone (a l : list Frame) : shuffle a [] l -> l = a.
Proof.
  intros H. remember [] as b eqn:Hb. induction H as [|a b l f _ IH|a b l f _ IH]; [done| |].
  - by rewrite IH.
  - by destruct b.
Qed.

Lemma channels_step tcp_debug s s' :
  channels_ok tcp_debug s -> step tcp_debug s s' -> channels_ok tcp_debug s'.
Proof.
  intros (Hrx & Htx & (rx & Hsrx & Hrx') & (tx & Hstx & Htx') & Hd) Hs. unfold channels_ok.
  destruct Hs as [f s s' Hr|f l s s' Hl Hr|f l s Hl|f s Hl|f s Hl|f l s Hdbg Hl|f l s Hdbg Hl].
  - cbn in Hr. destruct f as [f|]; [|injection Hr as <-; eauto 10].
    destruct (Z.ltb_spec (zlen (ch_rx s)) FRAME_BUFFER); [|done].
    apply (inj Some) in Hr. subst s'. cbn. split; [zlen; lia|split; [done|split; [|eauto]]].
    exists rx. split; [done|]. by rewrite Hrx', app_assoc.
  - apply (inj Some) in Hr. subst s'. cbn. rewrite Hl in Htx, Htx'. rewrite zlen_cons in Htx.
    split; [done|split; [lia|split; [eauto|split; [|done]]]].
    exists (tx ++ [f]). split; [by apply shuffle_left|]. by rewrite Htx', <- app_assoc.
  - cbn. rewrite Hl in Hrx, Hrx'. rewrite zlen_cons in Hrx.
    split; [lia|split; [done|split; [|eauto]]].
    exists (rx ++ [f]). split; [by apply shuffle_left|]. by rewrite Hrx', <- app_assoc.
  - cbn. unfold try_send. rewrite (proj2 (Z.ltb_lt _ _)) by done.
    split; [done|split; [zlen; lia|split; [eauto|split; [|done]]]].
    exists tx. split; [done|]. by rewrite Htx', app_assoc.
  - cbn. unfold try_send. rewrite (proj2 (Z.ltb_ge _ _)) by done. eauto 10.
  - cbn. rewrite Hl in Hrx, Hrx'. rewrite zlen_cons in Hrx.
    split; [lia|split; [done|split; [|split; [eauto|by rewrite Hdbg]]]].
    exists (rx ++ [f]). split; [by apply shuffle_right|]. by rewrite Hrx', <- app_assoc.
  - cbn. rewrite Hl in Htx, Htx'. rewrite zlen_cons in Htx.
    split; [done|split; [lia|split; [eauto|split; [|by rewrite Hdbg]]]].
    exists (tx ++ [f]). split; [by apply shuffle_right|]. by rewrite Htx', <- app_assoc.
Qed.

Lemma channels_reachable tcp_debug (s : Can.t Frame) : reachable tcp_debug s -> channels_ok tcp_debug s.
Proof.
  induction 1 as [|s s' _ IH Hs]; [|by eapply channels_step].
  repeat split; try done; exists []; split; constructor.
Qed.

(** Without the debug port. *)
Lemma channels_alone (s : Can.t Frame) :
  reachable false s -> received s = handled s ++ ch_rx s /\ made s = sent s ++ ch_tx s.
Proof.
  intros Hr. destruct (channels_reachable false s Hr) as (_ & _ & Hsrx & Hstx & Hd).
  destruct (Hd eq_refl) as [Hdr Hdt].
  destruct Hsrx as (rx & Hs1 & ->), Hstx as (tx & Hs2 & ->). rewrite Hdr in Hs1. rewrite Hdt in Hs2.
  by rewrite (shuffle_alone _ _ Hs1), (shuffle_alone _ _ Hs2).
Qed.

(** C21: the CAN interface neither loses nor repeats nor reorders a frame it has
    taken: the frames from the bus are those its task handled, in order, and the
    at most ten that wait; the frames made for the bus are those sent and the at
    most ten that wait.  With the debug port each frame goes to the port or to
    its destination, never to both: a frame that is shown is not handled, or not
    sent. *)
Theorem can_frames_once tcp_debug (s : Can.t Frame) :
  reachable tcp_debug s ->
  zlen (ch_rx s) <= FRAME_BUFFER /\ zlen (ch_tx s) <= FRAME_BUFFER /\
  (exists taken, shuffle (handled s) (debug_rx s) taken /\ received s = taken ++ ch_rx s) /\
  (exists taken, shuffle (sent s) (debug_tx s) taken /\ made s = taken ++ ch_tx s) /\
  (tcp_debug = false -> received s = handled s ++ ch_rx s /\ made s = sent s ++ ch_tx s).
Proof.
  intros Hr. destruct (channels_reachable tcp_debug s Hr) as (Hrx & Htx & Hsrx & Hstx & _).
  do 4 (split; [done|]). intros ->. by apply channels_alone.
Qed.
End can.

Section debug.
Context {Frame : Type} (id_text data_text : Frame -> list Z).
Import TcpDebug.

(** A line and the zeros behind it. *)
Definition block (e : bool * Z * Frame * bool) : list Z :=
  let '(rx, ms, frame, _) := e in
  let line := concat (line_pieces id_text data_text (if rx then str "BMS Rx" else str "BMS Tx") ms frame) in
  ztake 256 line ++ replicate (256 - length line) 0.

Definition written (e : bool * Z * Frame * bool) : bool := e.2.

Lemma turn_block rx ms frame ok :
  let '(b, continue, buf) := turn id_text data_text rx ms frame ok buffer in
  b = Some (block (rx, ms, frame, ok)) /\ continue = ok /\ (ok = true -> buf = buffer).
Proof.
  unfold turn, buffer. rewrite over_new, write_fmt_over. cbn [app].
  unfold block. set (line := concat _).
  assert (Hbuf : ByteMutWriter.buf (over (replicate 256 0) line) =
    ztake 256 line ++ replicate (256 - length line) 0).
  { cbn [over ByteMutWriter.buf]. change (zlen (replicate 256 0)) with 256. f_equal.
    unfold zdrop, zlen. by rewrite Nat2Z.id, drop_replicate. }
  destruct ok; rewrite Hbuf; [|done]. do 2 (split; [done|]). intros _.
  rewrite <- over_new. unfold ByteMutWriter.clear, ByteMutWriter.new. rewrite Hbuf. do 2 f_equal.
  rewrite length_app, length_replicate. unfold ztake. rewrite length_take. lia.
Qed.

(** The debug port sends every frame as a block of 256 bytes: its line, cut
    if it is longer, and zeros, for it gives the socket the whole buffer and not
    the written part.  It stops at the first block that cannot be sent. *)
Theorem debug_blocks frames last more :
  Forall (fun e => written e = true) frames -> written last = false ->
  inner id_text data_text frames buffer = map block frames /\
  inner id_text data_text (frames ++ last :: more) buffer = map block (frames ++ [last]) /\
  Forall (fun b => zlen b = 256) (map block (frames ++ [last])).
Proof.
  intros Hf Hl. split; [|split].
  - induction Hf as [|[[[rx ms] frame] ok] frames Hok _ IH]; [done|]. cbn in Hok. subst ok.
    cbn [inner map]. pose proof (turn_block rx ms frame true) as Ht.
    destruct (turn _ _ _ _ _ _ _) as [[b c] buf]. destruct Ht as (-> & -> & Hb).
    by rewrite Hb, IH by done.
  - induction Hf as [|[[[rx ms] frame] ok] frames Hok _ IH].
    + destruct last as [[[rx ms] frame] ok]. cbn in Hl. subst ok. cbn [inner map app].
      pose proof (turn_block rx ms frame false) as Ht.
      destruct (turn _ _ _ _ _ _ _) as [[b c] buf]. by destruct Ht as (-> & -> & _).
    + cbn in Hok. subst ok. cbn [inner map app]. pose proof (turn_block rx ms frame true) as Ht.
      destruct (turn _ _ _ _ _ _ _) as [[b c] buf]. destruct Ht as (-> & -> & Hb).
      by rewrite Hb, IH by done.
  - apply Forall_map, List.Forall_forall. intros [[[rx ms] frame] ok] _. cbn [block].
    set (line := concat _). unfold zlen, ztake.
    rewrite length_app, length_take, length_replicate. lia.
Qed.
End debug.

(** ** Examples *)

(** A frame the debug port took from the transmit channel, and one that was
    sent: of two frames made, the bus sees one. *)
Definition debugged_run : Can.t Z :=
  Can.mk [7] [2] [] [] [7] [1; 2] [] [1].

Lemma debugged_run_reachable : Can.reachable true debugged_run.
Proof.
  assert (Hs : forall s s' : Can.t Z, Can.reachable true s -> Can.step true s s' -> Can.reachable true s')
    by (intros; by eapply Can.reachable_step).
  epose proof (Hs _ _ (Can.reachable_start true) (Can.step_make true 1 Can.start eq_refl)) as H1.
  epose proof (Hs _ _ H1 ltac:(by apply (Can.step_debug_tx true 1 []))) as H2.
  epose proof (Hs _ _ H2 ltac:(by apply (Can.step_make true 2))) as H3.
  epose proof (Hs _ _ H3 ltac:(by apply (Can.step_transmit true 2 []))) as H4.
  epose proof (Hs _ _ H4 ltac:(by apply (Can.step_read true (Some 7)))) as H5.
  epose proof (Hs _ _ H5 ltac:(by apply (Can.step_handle true 7 []))) as H6.
  exact H6.
Qed.

Lemma can_frames_once_witness :
  exists taken, Can.shuffle (Can.sent debugged_run) (Can.debug_tx debugged_run) taken /\
    Can.made debugged_run = taken ++ Can.ch_tx debugged_run.
Proof.
  exact (proj1 (proj2 (proj2 (proj2 (can_frames_once true debugged_run debugged_run_reachable))))).
Defined.

Lemma debug_blocks_witness :
  let text := fun z : Z => [z] in
  let sent := TcpDebug.inner text text [(true, 5, 65, true); (false, 70, 66, false); (true, 1, 1, true)]
    TcpDebug.buffer in
  zlen (concat sent) = 512 /\
  sent = map (block text text) [(true, 5, 65, true); (false, 70, 66, false)].
Proof.
  intros text sent. split; [vm_compute; reflexivity|].
  exact (proj1 (proj2 (debug_blocks text text [(true, 5, 65, true)] (false, 70, 66, false)
    [(true, 1, 1, true)] ltac:(by repeat constructor) eq_refl))).
Defined.
