(* ===== verification/DebugPort.v ===== *)
(** The connections of the debug port: the outer loop of
    stm32f407_controller/src/bin/tasks/tcp_debug.rs.

    A turn of the loop serves one connection.  What a line is, and how it is
    sent, is in Devices; the socket is that of the gateway (Modbus, ModbusTask).
    The frames are those the two channels deliver from the turn on, each with
    its channel and the time since the connection. *)
From S2P Require Import Prelude.
From S2P Require Import Writer.
From S2P Require Import Modbus.
From S2P Require Import ModbusTask.
From S2P Require Import Devices.

Module DebugPort.
Definition TCP_PORT : Z := 23.

(** What the task does, in order. *)
Inductive action : Type :=
| Led3Off | Sleeps (ms : Z) | Closes | Aborts | Accepts (port : Z) | Writes (bytes : list Z).

Section task.
Context {Frame T : Type} `{Socket T} `{SocketControl T} (id_text data_text : Frame -> list Z).

Definition arrival : Type := bool * Z * Frame.

Record t : Type := mk { socket : T; actions : list action }.

Definition act (a : action) (s : t) : t := mk (socket s) (actions s ++ [a]).
Definition on_socket (f : T -> T) (s : t) : t := mk (f (socket s)) (actions s).

(** The block [socket.write] is given, the loop's decision and its buffer. *)
Definition frame_turn (a : arrival) (buf : ByteMutWriter.t) (s : t) : bool * ByteMutWriter.t * t :=
  let '(rx, ms, frame) := a in
  let turn ok := TcpDebug.turn id_text data_text rx ms frame ok buf in
  match (turn true).1.1 with
  | Some bytes =>
    let '(written, x) := tcp_write (socket s) bytes in
    let s := act (Writes bytes) (mk x (actions s)) in
    match written with
    | Some _ => ((turn true).1.2, (turn true).2, s)
    | None => ((turn false).1.2, (turn false).2, act Closes (on_socket tcp_close s))
    end
  | None => ((turn true).1.2, (turn true).2, s)
  end.

(** The loop ['inner]: [None] when it waits for the next frame, or the frames
    that are left when the connection has ended. *)
Fixpoint inner (frames : list arrival) (buf : ByteMutWriter.t) (s : t) : option (list arrival) * t :=
  match frames with
  | [] => (None, s)
  | a :: frames =>
    let '(continue, buf, s) := frame_turn a buf s in
    if continue : bool then inner frames buf s else (Some frames, s)
  end.

(** [match socket.state()] at the head of the loop. *)
Definition reset (s : t) : t :=
  let s := act Led3Off s in
  if tcp_closed (socket s) then s
  else
    let s := act (Sleeps 100) s in
    let s := act Closes (on_socket tcp_close s) in
    let s := act (Sleeps 100) s in
    act Aborts (on_socket tcp_abort s).

Definition outer (frames : list arrival) (s : t) : option (list arrival) * t :=
  let s := reset s in
  let '(r, x) := tcp_accept (socket s) TCP_PORT in
  let s := act (Accepts TCP_PORT) (mk x (actions s)) in
  if r : bool then inner frames TcpDebug.buffer s else (Some frames, s).
End task.
Arguments t : clear implicits.
Arguments mk {T}.
End DebugPort.
Import DebugPort.

(** ** Properties *)
Section port.
Context {Frame T : Type} `{Socket T} `{SocketControl T} (id_text data_text : Frame -> list Z).
Implicit Type s : t T.

Definition block_of (a : arrival (Frame := Frame)) : list Z := block id_text data_text (a, true).

(** The socket takes the blocks, one after the other. *)
Fixpoint takes (x : T) (blocks : list (list Z)) : option T :=
  match blocks with
  | [] => Some x
  | b :: blocks =>
    match tcp_write x b with (Some _, x) => takes x blocks | (None, _) => None end
  end.

(** What the head of the loop does. *)
Definition resets (x : T) : list action :=
  Led3Off :: if tcp_closed x then [] else [Sleeps 100; Closes; Sleeps 100; Aborts].

Lemma reset_actions s : actions (reset s) = actions s ++ resets (socket s).
Proof.
  unfold reset, resets. cbn [socket act]. destruct (tcp_closed (socket s)); [done|].
  cbn. by rewrite <- !app_assoc.
Qed.

Lemma frame_turn_sent a s n x :
  tcp_write (socket s) (block_of a) = (Some n, x) ->
  frame_turn id_text data_text a TcpDebug.buffer s =
    (true, TcpDebug.buffer, mk x (actions s ++ [Writes (block_of a)])).
Proof.
  destruct a as [[rx ms] frame]. intros Hw. unfold frame_turn.
  pose proof (turn_block id_text data_text rx ms frame true) as Ht.
  destruct (TcpDebug.turn _ _ _ _ _ true _) as [[b c] buf]. destruct Ht as (-> & -> & Hb).
  cbn [fst snd]. change (block _ _ _) with (block_of (rx, ms, frame)). rewrite Hw. by rewrite Hb.
Qed.

Lemma frame_turn_failed a s x :
  tcp_write (socket s) (block_of a) = (None, x) ->
  exists buf, frame_turn id_text data_text a TcpDebug.buffer s =
    (false, buf, mk (tcp_close x) (actions s ++ [Writes (block_of a); Closes])).
Proof.
  destruct a as [[rx ms] frame]. intros Hw. unfold frame_turn.
  pose proof (turn_block id_text data_text rx ms frame true) as Ht.
  pose proof (turn_block id_text data_text rx ms frame false) as Hf.
  destruct (TcpDebug.turn _ _ _ _ _ true _) as [[b c] buf].
  destruct (TcpDebug.turn _ _ _ _ _ false _) as [[b' c'] buf'].
  destruct Ht as (-> & _ & _), Hf as (_ & -> & _).
  cbn [fst snd]. change (block _ _ _) with (block_of (rx, ms, frame)). rewrite Hw.
  eexists. unfold act, on_socket; cbn [socket actions]. by rewrite <- app_assoc.
Qed.

Lemma inner_sent frames : forall s x more,
  takes (socket s) (map block_of frames) = Some x ->
  inner id_text data_text (frames ++ more) TcpDebug.buffer s =
    inner id_text data_text more TcpDebug.buffer
      (mk x (actions s ++ map Writes (map block_of frames))).
Proof.
  induction frames as [|a frames IH]; intros [y l] x more; cbn [map takes app socket].
  - intros [= ->]. cbn [actions]. by rewrite app_nil_r.
  - destruct (tcp_write y (block_of a)) as [[n|] y'] eqn:Hw; [|done]. intros Hx.
    cbn [inner]. rewrite (frame_turn_sent a (mk y l) n y' Hw). cbn [actions].
    rewrite (IH (mk y' _) x more Hx). cbn [actions]. by rewrite <- app_assoc.
Qed.

(** A connection of the debug port.  The socket of the connection before is
    closed and aborted, with a wait before each, unless it is closed; then a
    peer is accepted on port 23 and gets a block for every frame, in order.
    While the peer takes the blocks the connection lasts, and nothing else ends
    it; when it does not take one, the frame of that block has left its channel
    and is lost, the socket is closed, and the next connection begins with the
    frames behind it. *)
Theorem debug_connection s x1 frames x
  (Hacc : tcp_accept (socket (reset s)) TCP_PORT = (true, x1))
  (Hsent : takes x1 (map block_of frames) = Some x) :
  let up := actions s ++ resets (socket s) ++ Accepts 23 :: map Writes (map block_of frames) in
  outer id_text data_text frames s = (None, mk x up) /\
  forall lost more x2, tcp_write x (block_of lost) = (None, x2) ->
    outer id_text data_text (frames ++ lost :: more) s =
      (Some more, mk (tcp_close x2) (up ++ [Writes (block_of lost); Closes])).
Proof.
  intros up.
  assert (Hup : forall more, outer id_text data_text (frames ++ more) s =
    inner id_text data_text more TcpDebug.buffer (mk x up)).
  { intros more. unfold outer. rewrite Hacc.
    rewrite (inner_sent frames (act (Accepts TCP_PORT) (mk x1 (actions (reset s)))) x more Hsent).
    cbn [actions act].
    rewrite reset_actions. unfold up. by rewrite <- !app_assoc. }
  split.
  - rewrite <- (app_nil_r frames) at 1. by rewrite Hup.
  - intros lost more x2 Hx. rewrite Hup. cbn [inner].
    destruct (frame_turn_failed lost (mk x up) x2 Hx) as [buf Hf]. by rewrite Hf.
Qed.
End port.

(** ** A peer that takes two blocks *)
Module SamplePeer.
(** The blocks it takes before it is gone, and whether the socket is closed. *)
Definition sock : Type := nat * bool.

#[global] Instance sock_socket : Socket sock := {
  tcp_read := fun x _ => (Some [], x);
  tcp_read_exact := fun x _ => (None, x);
  tcp_write := fun x bs =>
    match x.1 with O => (None, x) | S n => (Some (zlen bs), (n, x.2)) end;
}.

#[global] Instance sock_control : SocketControl sock := {
  tcp_open := fun x => x;
  tcp_accept := fun x p => (p =? 23, (2%nat, false));
  tcp_connect := fun x _ => (false, x);
  tcp_closed := snd;
  tcp_close := fun x => x;
  tcp_abort := fun x => (x.1, true);
}.
End SamplePeer.

(** Four frames: the peer is gone at the third, which is lost; the fourth is
    left for the next peer. *)
Lemma debug_connection_witness :
  let text := fun z : Z => [z] in
  let '(rest, s) := outer (T := SamplePeer.sock) text text
    [(true, 5, 65); (false, 70, 66); (true, 71, 67); (true, 72, 68)] (mk (0%nat, false) []) in
  rest = Some [(true, 72, 68)] /\ length (actions s) = 10%nat.
Proof.
  intros text.
  assert (Hc : outer (T := SamplePeer.sock) text text
      ([(true, 5, 65); (false, 70, 66)] ++ (true, 71, 67) :: [(true, 72, 68)]) (mk (0%nat, false) []) =
    (Some [(true, 72, 68)], mk (0%nat, false) ([Led3Off; Sleeps 100; Closes; Sleeps 100; Aborts; Accepts 23] ++
      map Writes (map (block_of text text) [(true, 5, 65); (false, 70, 66); (true, 71, 67)]) ++ [Closes]))).
  { exact (proj2 (debug_connection (T := SamplePeer.sock) text text (mk (0%nat, false) [])
      (2%nat, false) [(true, 5, 65); (false, 70, 66)] (0%nat, false) eq_refl eq_refl)
      (true, 71, 67) [(true, 72, 68)] (0%nat, false) eq_refl). }
  cbn [app] in Hc. rewrite Hc. split; reflexivity.
Defined.
