(* ===== verification/System.v ===== *)
(** The whole battery side at work: the two CAN buses with their interfaces, the
    BMS task and its sender, the inverter task and the contactor task.

    [plant] puts the parts of Devices, Bms and Controller together.  The tasks
    meet the buses at the channels: a turn of a reading task takes the oldest
    frame of its channel, and what it sends goes to the other channel.  A turn
    waits until the channel has room for what it sends, so its frames go there
    at once.  The statics the BMS task shares with the others are those of the
    controller.  [BmsTask] is what the plant needs of a BMS task; the three
    vehicles implement it, and [InverterFrames] is what it needs of the inverter
    task in addition to [InverterTask]. *)
From stdpp Require Import relations.
From S2P Require Import Prelude.
From S2P Require Import Contactor.
From S2P Require Import Inverter.
From S2P Require Import Controller.
From S2P Require Import Bms.
From S2P Require Import Devices.
Import Hardware.

(** A task only adds frames at the end of its channel. *)
Definition grows {Frame Bms Mqtt} (w w' : shared Frame Bms Mqtt) : Prop :=
  exists new, bms_tx w' = bms_tx w ++ new.

(** A BMS task: its statics and channel, a turn of the reading task, [None] if
    it panics, and what its sending task may do on a tick. *)
Class BmsTask (B Frame Bms Mqtt : Type) : Type := {
  task_world : B -> shared Frame Bms Mqtt;
  set_world : shared Frame Bms Mqtt -> B -> B;
  rx_turn : Z -> Frame -> B -> option B;
  tx_tick : Z -> B -> B -> Prop;
  world_set : forall w b, task_world (set_world w b) = w;
  rx_turn_updates : forall now f b b', rx_turn now f b = Some b' ->
    updates now (task_world b) (task_world b') /\ grows (task_world b) (task_world b');
  tx_tick_updates : forall now b b', tx_tick now b b' ->
    updates now (task_world b) (task_world b') /\ grows (task_world b) (task_world b');
}.

(** An inverter task adds frames to its channel and leaves the time of the last
    BMS message alone. *)
Class InverterFrames (W Frame Bms : Type) `{InverterTask W Frame Frame Bms} : Prop := {
  turn_sends : forall now f w, exists new,
    Statics.inverter_tx (task_statics (task_turn now f w)) = Statics.inverter_tx (task_statics w) ++ new;
  turn_keeps_time : forall now f w,
    Statics.last_bms_message (task_statics (task_turn now f w)) =
    Statics.last_bms_message (task_statics w);
}.

(** What the interface of a bus does on its own; the debug port sits on the bus
    of the BMS. *)
Section interface.
Context {Frame : Type}.
Import Can.

Inductive interface (tcp_debug : bool) : Can.t Frame -> Can.t Frame -> Prop :=
| interface_read f c c' : can_routine (Read f) c = Some c' -> interface tcp_debug c c'
| interface_transmit f l c c' :
  ch_tx c = f :: l -> can_routine (Transmit f) (set_ch_tx l c) = Some c' -> interface tcp_debug c c'
| interface_debug_rx f l c :
  tcp_debug = true -> ch_rx c = f :: l -> interface tcp_debug c (debug true f (set_ch_rx l c))
| interface_debug_tx f l c :
  tcp_debug = true -> ch_tx c = f :: l -> interface tcp_debug c (debug false f (set_ch_tx l c)).

(** A task puts frames into the channel, one by one. *)
Definition make_all (new : list Frame) (c : Can.t Frame) : Can.t Frame :=
  fold_left (fun c f => make f (set_ch_tx (try_send (ch_tx c) f) c)) new c.

Lemma interface_step tcp_debug c c' : interface tcp_debug c c' -> step tcp_debug c c'.
Proof.
  intros [f c1 c2 Hr|f l c1 c2 Hl Hr|f l c1 Hd Hl|f l c1 Hd Hl].
  - by eapply step_read.
  - by eapply step_transmit.
  - by eapply step_debug_rx.
  - by eapply step_debug_tx.
Qed.

Lemma make_all_reachable tcp_debug new : forall c,
  reachable tcp_debug c -> zlen (ch_tx c) + zlen new <= FRAME_BUFFER ->
  reachable tcp_debug (make_all new c) /\ ch_tx (make_all new c) = ch_tx c ++ new /\
  made (make_all new c) = made c ++ new /\ handled (make_all new c) = handled c /\
  received (make_all new c) = received c.
Proof.
  induction new as [|f new IH]; intros c Hc Hr.
  { unfold make_all; cbn. by rewrite !app_nil_r. }
  pose proof (zlen_nonneg new). zlen. unfold make_all. cbn [fold_left].
  assert (Htx : try_send (ch_tx c) f = ch_tx c ++ [f])
    by (unfold try_send; by rewrite (proj2 (Z.ltb_lt _ _)) by lia).
  destruct (IH (make f (set_ch_tx (try_send (ch_tx c) f) c))) as (H1 & H2 & H3 & H4 & H5).
  - eapply reachable_step; [exact Hc|]. apply step_make. lia.
  - rewrite Htx. cbn. zlen. lia.
  - fold (make_all new (make f (set_ch_tx (try_send (ch_tx c) f) c))).
    split; [exact H1|]. rewrite H2, H3, H4, H5, Htx.
    cbn [ch_tx made handled received make set_ch_tx]. by rewrite <- !app_assoc.
Qed.
End interface.

(** ** The plant *)

Section plant.
Context {W B Frame Bms Mqtt : Type} `{InverterTask W Frame Frame Bms}
  `{BmsTask B Frame Bms Mqtt}.
Context (tcp_debug : bool) (contactor_task : bool -> bool -> list command * bool).

(** [heard] is a history of the frames the BMS task took, with their times. *)
Record plant : Type := mk_plant {
  bms_bus : Can.t Frame;
  inv_bus : Can.t Frame;
  bms_task : B;
  ctl : sys W Frame;
  heard : list (Z * Frame)
}.

(** The BMS task with the statics and the channel as they are now. *)
Definition loaded (p : plant) : B :=
  let w := task_world (bms_task p) in
  set_world (mk_shared (task_statics (inverter (ctl p))) (wdt w) (lbc_status w)
    (Can.ch_tx (bms_bus p)) (mqttfmt w)) (bms_task p).

(** What a task that found [old] in its channel left there behind it. *)
Definition new_frames (old left : list Frame) : list Frame := zdrop (zlen old) left.
Definition fits (c : Can.t Frame) (new : list Frame) : Prop :=
  zlen (Can.ch_tx c) + zlen new <= FRAME_BUFFER.

(** The plant after the BMS task or its sender became [b], with [c] for its bus. *)
Definition stored (b : B) (c : Can.t Frame) (h : list (Z * Frame)) (p : plant) : plant :=
  mk_plant (make_all (new_frames (Can.ch_tx c) (bms_tx (task_world b))) c) (inv_bus p) b
    (left_by (statics (task_world b)) (ctl p)) h.

(** The frames an inverter's turn sends. *)
Definition answer (f : Frame) (p : plant) : list Frame :=
  new_frames (Statics.inverter_tx (task_statics (inverter (ctl p))))
    (Statics.inverter_tx (task_statics (inverter (do_inverter f (ctl p))))).

Inductive plant_step : plant -> plant -> Prop :=
| step_bms_bus p c :
  interface tcp_debug (bms_bus p) c ->
  plant_step p (mk_plant c (inv_bus p) (bms_task p) (ctl p) (heard p))
| step_inv_bus p c :
  interface false (inv_bus p) c ->
  plant_step p (mk_plant (bms_bus p) c (bms_task p) (ctl p) (heard p))
| step_bms_rx p f l b :
  Can.ch_rx (bms_bus p) = f :: l ->
  rx_turn (now (ctl p)) f (loaded p) = Some b ->
  fits (bms_bus p) (new_frames (Can.ch_tx (bms_bus p)) (bms_tx (task_world b))) ->
  plant_step p
    (stored b (Can.handle f (Can.set_ch_rx l (bms_bus p))) (heard p ++ [(now (ctl p), f)]) p)
| step_bms_tx p b :
  tx_tick (now (ctl p)) (loaded p) b ->
  fits (bms_bus p) (new_frames (Can.ch_tx (bms_bus p)) (bms_tx (task_world b))) ->
  plant_step p (stored b (bms_bus p) (heard p) p)
| step_inv_rx p f l :
  Can.ch_rx (inv_bus p) = f :: l -> fits (inv_bus p) (answer f p) ->
  plant_step p
    (mk_plant (bms_bus p) (make_all (answer f p) (Can.handle f (Can.set_ch_rx l (inv_bus p))))
       (bms_task p) (do_inverter f (ctl p)) (heard p))
| step_plant_contactor p b :
  Statics.contactor_state (task_statics (inverter (ctl p))) = Some b ->
  plant_step p (mk_plant (bms_bus p) (inv_bus p) (bms_task p) (do_contactor contactor_task b (ctl p))
                 (heard p))
| step_plant_time p dt :
  0 <= dt -> plant_step p (mk_plant (bms_bus p) (inv_bus p) (bms_task p) (do_time dt (ctl p)) (heard p)).

(** Empty channels, a BMS that was never heard of, and the controller's start. *)
Definition plant_initial (p : plant) : Prop :=
  bms_bus p = Can.start /\ inv_bus p = Can.start /\ heard p = [] /\ initial (ctl p) /\
  Statics.inverter_tx (task_statics (inverter (ctl p))) = [] /\
  Statics.last_bms_message (task_statics (inverter (ctl p))) = None.

Inductive plant_reachable : plant -> Prop :=
| plant_start p : plant_initial p -> plant_reachable p
| plant_next p p' : plant_reachable p -> plant_step p p' -> plant_reachable p'.
End plant.
Arguments plant : clear implicits.
Arguments mk_plant {W B Frame}.

Section plant_properties.
Context {W B Frame Bms Mqtt : Type} `{InverterTask W Frame Frame Bms} `{!InverterFrames W Frame Bms}
  `{BmsTask B Frame Bms Mqtt}.
Context (tcp_debug : bool) (max : Z) (contactor_task : bool -> bool -> list command * bool)
  `{!Follows max contactor_task}.
Implicit Type p : plant W B Frame.

Lemma interface_keeps (d : bool) (c c' : Can.t Frame) :
  interface d c c' -> Can.handled c' = Can.handled c /\ Can.made c' = Can.made c.
Proof.
  intros [f c1 c2 Hr|f l c1 c2 Hl Hr|f l c1 Hd Hl|f l c1 Hd Hl]; [| |done..].
  - unfold Can.can_routine in Hr. destruct f as [f|], (zlen (Can.ch_rx c1) <? FRAME_BUFFER); try done;
      by apply (inj Some) in Hr; subst.
  - by apply (inj Some) in Hr; subst.
Qed.

(** An update by the BMS task is a step of the controller. *)
Lemma updates_left_by (w w' : shared Frame Bms Mqtt) (s : sys W Frame) :
  updates (now s) w w' -> statics w = task_statics (inverter s) ->
  step contactor_task s (left_by (statics w') s) /\
  Statics.inverter_tx (task_statics (inverter (left_by (statics w') s))) =
    Statics.inverter_tx (task_statics (inverter s)).
Proof.
  intros Hu Hw.
  assert (He : exists heard b, statics w' = update_bms heard (now s) b (task_statics (inverter s))).
  { destruct Hu as [->|(heard & b & ->)]; rewrite Hw; [|by exists heard, b].
    exists false, (Statics.bms (task_statics (inverter s))). by destruct (task_statics (inverter s)). }
  destruct He as (heard & b & ->). split; [apply (step_bms contactor_task s heard b)|].
  cbn. by rewrite statics_set.
Qed.

Lemma loaded_statics p : statics (task_world (loaded p)) = task_statics (inverter (ctl p)).
Proof. unfold loaded. by rewrite world_set. Qed.

Lemma loaded_tx p : bms_tx (task_world (loaded p)) = Can.ch_tx (bms_bus p).
Proof. unfold loaded. by rewrite world_set. Qed.

(** What is known of every reachable plant. *)
Definition plant_ok p : Prop :=
  reachable contactor_task (ctl p) /\
  Can.reachable tcp_debug (bms_bus p) /\ Can.reachable false (inv_bus p) /\
  Can.handled (inv_bus p) = map (fun e => e.1.2) (rev (log (ctl p))) /\
  Can.made (inv_bus p) = Statics.inverter_tx (task_statics (inverter (ctl p))) /\
  map snd (heard p) = Can.handled (bms_bus p).

Lemma new_frames_app (old new : list Frame) : new_frames old (old ++ new) = new.
Proof. unfold new_frames. apply zdrop_app_len. Qed.

(** The BMS task's doings on its bus, and on the controller. *)
Lemma stored_ok p b c h :
  updates (now (ctl p)) (task_world (loaded p)) (task_world b) ->
  fits c (new_frames (Can.ch_tx c) (bms_tx (task_world b))) ->
  plant_ok p -> Can.reachable tcp_debug c -> map snd h = Can.handled c ->
  plant_ok (stored b c h p).
Proof.
  intros Hu Hfit (Hr & _ & Hi & Hl & Hm & _) Hc Hh.
  destruct (updates_left_by _ _ (ctl p) Hu (loaded_statics p)) as [Hs Htx].
  destruct (make_all_reachable tcp_debug _ c Hc Hfit) as (Hc' & _ & _ & Hh' & _).
  unfold plant_ok, stored. cbn [ctl bms_bus inv_bus heard].
  split; [by eapply reachable_step|]. split; [done|]. split; [done|].
  rewrite Htx, Hh'. by split; [|split].
Qed.

Lemma plant_step_ok p p' : plant_ok p -> plant_step tcp_debug contactor_task p p' -> plant_ok p'.
Proof.
  intros Hok Hs. pose proof Hok as (Hr & Hb & Hi & Hl & Hm & Hh).
  destruct Hs as [p c Hc|p c Hc|p f l b Hf Ht Hfit|p b Ht Hfit|p f l Hf Hfit|p b Hb'|p dt Hdt].
  - destruct (interface_keeps _ _ _ Hc) as [Hk1 Hk2].
    unfold plant_ok; cbn. rewrite Hk1. split; [done|]. split; [|done].
    by eapply Can.reachable_step, interface_step.
  - destruct (interface_keeps _ _ _ Hc) as [Hk1 Hk2].
    unfold plant_ok; cbn. rewrite Hk1, Hk2. do 2 (split; [done|]). split; [|done].
    by eapply Can.reachable_step, interface_step.
  - apply stored_ok; [by apply (rx_turn_updates _ _ _ _ Ht)|exact Hfit|done| |].
    + eapply Can.reachable_step; [exact Hb|by apply Can.step_handle].
    + rewrite map_app, Hh. done.
  - apply stored_ok; [by apply (tx_tick_updates _ _ _ Ht)|done..].
  - destruct (turn_sends (now (ctl p)) f (inverter (ctl p))) as [new Hnew].
    assert (Ha : answer f p = new).
    { unfold answer. cbn [do_inverter inverter]. rewrite Hnew. apply new_frames_app. }
    destruct (make_all_reachable false (answer f p) (Can.handle f (Can.set_ch_rx l (inv_bus p))))
      as (Hc' & _ & Hm' & Hh' & _); [|exact Hfit|].
    { eapply Can.reachable_step; [exact Hi|by apply Can.step_handle]. }
    unfold plant_ok; cbn [ctl bms_bus inv_bus heard].
    split; [eapply reachable_step; [exact Hr|apply step_inverter]|]. do 2 (split; [done|]).
    rewrite Hh', Hm'. cbn. rewrite Hl, Hm, Ha, Hnew, map_app. done.
  - destruct (target_step max contactor_task (ctl p) _ Hr (step_contactor _ _ _ Hb'))
      as [[_ Hlog]|[ev Hev]].
    + unfold plant_ok; cbn [ctl bms_bus inv_bus heard]. rewrite Hlog.
      split; [by eapply reachable_step, step_contactor|]. repeat (split; [done|]). split; [|done].
      unfold do_contactor, on_statics. destruct (contactor_task _ b). cbn. by rewrite statics_set.
    + exfalso. apply (f_equal (fun s => length (log s))) in Hev.
      unfold do_contactor in Hev. destruct (contactor_task _ b). cbn in Hev. lia.
  - unfold plant_ok; cbn. split; [by eapply reachable_step, step_time|done].
Qed.

Lemma plant_reachable_ok p : plant_reachable tcp_debug contactor_task p -> plant_ok p.
Proof.
  induction 1 as [p (Hb & Hi & Hh & Hc & Htx & _)|p p' _ IH Hs]; [|by eapply plant_step_ok].
  unfold plant_ok. rewrite Hb, Hi, Hh, Htx. pose proof Hc as (_ & _ & _ & _ & Hl). rewrite Hl.
  split; [by apply reachable_initial|]. repeat split; apply Can.reachable_start.
Qed.

(** C9: The parts together implement their specifications.  In every reachable
    state of the plant the controller is in a reachable state of the controller
    and the interfaces in reachable states of the interface, so that what holds
    of those holds here.  And the parts agree: what the inverter's bus delivered
    is what the inverter task answered, in order, and at most ten frames that
    wait; what the task sent is what went to the bus, and at most ten frames;
    and, without the debug port on the bus of the BMS, the BMS task handled the
    frames of its bus in order. *)
Theorem plant_refines p (Hr : plant_reachable tcp_debug contactor_task p) :
  reachable contactor_task (ctl p) /\
  Can.reachable tcp_debug (bms_bus p) /\ Can.reachable false (inv_bus p) /\
  Can.received (inv_bus p) = map (fun e => e.1.2) (rev (log (ctl p))) ++ Can.ch_rx (inv_bus p) /\
  Statics.inverter_tx (task_statics (inverter (ctl p))) =
    Can.sent (inv_bus p) ++ Can.ch_tx (inv_bus p) /\
  zlen (Can.ch_rx (inv_bus p)) <= FRAME_BUFFER /\ zlen (Can.ch_tx (inv_bus p)) <= FRAME_BUFFER /\
  (tcp_debug = false ->
   Can.received (bms_bus p) = map snd (heard p) ++ Can.ch_rx (bms_bus p)).
Proof.
  destruct (plant_reachable_ok p Hr) as (Hc & Hb & Hi & Hl & Hm & Hh).
  destruct (channels_reachable false _ Hi) as (H1 & H2 & _).
  do 3 (split; [done|]). rewrite <- Hl, <- Hm, Hh. destruct (channels_alone _ Hi) as [-> ->].
  repeat (split; [done|]). intros Hd. rewrite Hd in Hb. by destruct (channels_alone _ Hb).
Qed.
End plant_properties.

(** ** The three vehicles *)

(** Computations that leave the channel alone. *)
Section keeps_tx.
Context {Frame Bms Mqtt : Type}.
Abbreviation S := (shared Frame Bms Mqtt).

Definition keeps_tx {E A} (m : M S E A) : Prop := forall s, bms_tx (m s).2 = bms_tx s.

Lemma keeps_tx_with {E A} (m : M Bms E A) : keeps_tx (with_bms m : M S E A).
Proof. intros s. unfold with_bms. by destruct (m _). Qed.

Lemma keeps_tx_modify {E} (f : S -> S) : (forall s, bms_tx (f s) = bms_tx s) -> keeps_tx (modify f : M S E unit).
Proof. intros Hf s. apply Hf. Qed.

Lemma keeps_tx_seq {E B} (m : M S E unit) (k : M S E B) :
  keeps_tx m -> keeps_tx k -> keeps_tx (m ;;; k).
Proof.
  intros Hm Hk s. specialize (Hm s). unfold mbind, M_bind.
  destruct (m s) as [[[]|e|p|] s1]; try exact Hm. by rewrite (Hk s1), <- Hm.
Qed.

Lemma keeps_tx_log {E E'} (m : M S E unit) : keeps_tx m -> keeps_tx (log_error m : M S E' unit).
Proof. intros Hm s. specialize (Hm s). unfold log_error. by destruct (m s) as [[[]|e|p|] s1]. Qed.

Lemma keeps_tx_push {E} try_lock (f : Bms -> Mqtt) mqtt :
  keeps_tx (modify (when mqtt (push_all_to_mqtt try_lock f)) : M S E unit).
Proof. apply keeps_tx_modify. intros s. by destruct mqtt, try_lock. Qed.

Lemma grows_same (w w' : S) : bms_tx w' = bms_tx w -> grows w w'.
Proof. intros Hw. exists []. by rewrite app_nil_r. Qed.

Lemma grows_try_send (w w' : S) f : bms_tx w' = try_send (bms_tx w) f -> grows w w'.
Proof.
  unfold try_send. destruct (_ <? _); intros Hw; [by exists [f]|by apply grows_same].
Qed.

(** The world with one more frame offered to the channel. *)
Definition offer (f : Frame) (w : S) : S :=
  mk_shared (statics w) (wdt w) (lbc_status w) (try_send (bms_tx w) f) (mqttfmt w).

Lemma offer_updates now f (w : S) : updates now w (offer f w) /\ grows w (offer f w).
Proof. split; [by left|by eapply grows_try_send]. Qed.
End keeps_tx.

(** A sender that never touches the statics. *)
Class QuietSender (B Frame Bms Mqtt : Type) `{BmsTask B Frame Bms Mqtt} : Prop :=
  quiet : forall now b b', tx_tick now b b' -> statics (task_world b') = statics (task_world b).

Section vehicles.
Context {Frame Bms Mqtt BmsError F Cells Balance Range : Type}.
Context `{Profile} `{CanFrame Frame} `{CanData Frame}
  `{BmsStandard Bms BmsError F Cells Balance Range}.
Context (mqtt try_lock : bool) (from_bms : Bms -> Mqtt) (v65 : bool) (map_cellv_soc : F -> F).

(** *** The ZE40 *)
Section ze40.
Context {Data ParseError DiagError : Type}
  `{!Ze40.Decoder Data Frame ParseError DiagError F Cells Balance Range}.
Abbreviation B := (Ze40.t Frame Bms Mqtt Data).

Definition ze40_set (w : shared Frame Bms Mqtt) (b : B) : B :=
  Ze40.mk (Ze40.f55 b) (Ze40.faa b) (Ze40.data b) w.

(** A turn, [None] if it panics. *)
Definition ze40_rx (now : Z) (f : Frame) (b : B) : option B :=
  match Ze40.turn mqtt try_lock from_bms now f b with
  | (Ok _, b') => Some b'
  | _ => None
  end.

Lemma x445_keeps_tx f (b : B) :
  bms_tx (Ze40.world (Ze40.x445_signal (BmsError := BmsError) f b).2) = bms_tx (Ze40.world b).
Proof.
  unfold Ze40.x445_signal. destruct (frame_data f) as [bytes|]; [|done].
  unfold mbind, M_bind, lift, gets, modify.
  destruct (idx bytes 2) as [k|e|p|]; try done. destruct (k =? 0xaa); cbn;
    (destruct (checked 8 _) as [c|e|p|]; try done); by destruct (c =? 4).
Qed.

Lemma ze40_turn_grows now f (b : B) :
  grows (Ze40.world b) (Ze40.world (Ze40.turn mqtt try_lock from_bms now f b).2).
Proof.
  unfold Ze40.turn. destruct (frame_id f) as [id|]; [|by apply grows_same].
  destruct (negb _); [by apply grows_same|].
  destruct (id =? 0x445); [apply grows_same, x445_keeps_tx|].
  destruct (negb _).
  - destruct (Ze40.rapid_data_processor f (Ze40.data b)) as [[[]|e] data]; try by apply grows_same.
    unfold Ze40.with_world; cbn [Ze40.world Ze40.f55 Ze40.faa Ze40.data].
    assert (Hk : keeps_tx (modify (touch now) ;;;
      (log_error (Ze40.rapid_update data) : M (shared Frame Bms Mqtt) BmsError unit))).
    { apply keeps_tx_seq; [by apply keeps_tx_modify|]. apply keeps_tx_log.
      apply keeps_tx_seq; [by apply keeps_tx_modify|apply keeps_tx_with]. }
    specialize (Hk (Ze40.world b)). destruct ((modify _ ;;; log_error _) _) as [r w].
    by apply grows_same.
  - destruct (Ze40.diag_data_processor f (Ze40.data b)) as [[[tx|]|e] data]; try by apply grows_same.
    + by exists [tx].
    + unfold Ze40.with_world; cbn [Ze40.world Ze40.f55 Ze40.faa Ze40.data].
      assert (Hk : keeps_tx (modify (fun w => touch now (signal_wdt true w)) ;;;
        (log_error (Ze40.diag_update mqtt try_lock from_bms data) : M _ BmsError unit))).
      { apply keeps_tx_seq; [by apply keeps_tx_modify|]. apply keeps_tx_log.
        apply keeps_tx_seq; [apply keeps_tx_with|apply keeps_tx_push]. }
      specialize (Hk (Ze40.world b)). destruct ((modify _ ;;; log_error _) _) as [r w].
      by apply grows_same.
Qed.

#[refine, local] Instance ze40_task : BmsTask B Frame Bms Mqtt := {|
  task_world := Ze40.world;
  set_world := ze40_set;
  rx_turn := ze40_rx;
  tx_tick := fun _ b b' => exists f, b' = ze40_set (offer f (Ze40.world b)) b;
|}.
Proof.
  - done.
  - intros now f b b'. unfold ze40_rx.
    pose proof (ze40_turn_updates mqtt try_lock from_bms now f b) as Hu.
    pose proof (ze40_turn_grows now f b) as Hg.
    destruct (Ze40.turn _ _ _ now f b) as [[[]|e|p|] b1]; try done. by intros [= <-].
  - intros now b b' [f ->]. apply offer_updates.
Defined.

Lemma ze40_quiet : QuietSender B Frame Bms Mqtt.
Proof. by intros now b b' [f ->]. Qed.
End ze40.

(** *** The ZE50 *)
Section ze50.
Context {Data PayloadError : Type} `{!Ze50.Decoder Data PayloadError F}.
Context (frame_new : CanId -> list Z -> Frame).
Abbreviation B := (Ze50.t Frame Bms Mqtt Data).

Definition ze50_set (w : shared Frame Bms Mqtt) (b : B) : B :=
  Ze50.mk (Ze50.data b) (Ze50.preamble_frame_number_1 b) w.

Definition ze50_tick (now : Z) (b b' : B) : Prop :=
  Ze50.t1_tick (BmsError := BmsError) frame_new b = (Ok tt, b') \/
  Ze50.t2_tick mqtt try_lock from_bms v65 map_cellv_soc frame_new now b = (Ok tt, b').

Lemma ze50_update_keeps_tx now (b : B) :
  bms_tx (Ze50.world (Ze50.update (BmsError := BmsError) mqtt try_lock from_bms v65 map_cellv_soc now b).2) =
  bms_tx (Ze50.world b).
Proof.
  unfold Ze50.update, Ze50.with_world. cbn [Ze50.world Ze50.data].
  assert (Hk : keeps_tx (modify (fun w => touch now (signal_wdt true w)) ;;;
    (log_error (Ze50.update_bms_data mqtt try_lock from_bms v65 map_cellv_soc (Ze50.data b))
      : M (shared Frame Bms Mqtt) BmsError unit))).
  { apply keeps_tx_seq; [by apply keeps_tx_modify|]. apply keeps_tx_log.
    intros s. unfold Ze50.update_bms_data.
    apply keeps_tx_seq; [apply keeps_tx_with|apply keeps_tx_push]. }
  specialize (Hk (Ze50.world b)). by destruct ((modify _ ;;; log_error _) _) as [r w].
Qed.

Lemma ze50_tick_ok now (b b' : B) :
  ze50_tick now b b' ->
  updates now (Ze50.world b) (Ze50.world b') /\ grows (Ze50.world b) (Ze50.world b').
Proof.
  intros [Ht|Ht].
  - unfold Ze50.t1_tick in Ht. injection Ht as <-.
    apply (offer_updates (Bms := Bms) now _ (Ze50.world b)).
  - pose proof (ze50_tick_updates (BmsError := BmsError) mqtt try_lock from_bms v65 map_cellv_soc frame_new now b) as Hu.
    rewrite Ht in Hu. split; [exact Hu|].
    unfold Ze50.t2_tick in Ht. erewrite bind_ok in Ht by reflexivity.
    apply bind_ok_inv in Ht as ([] & b1 & Hb1 & Hb2). unfold Ze50.sender, Ze50.with_world in Hb2.
    cbn in Hb2. injection Hb2 as <-. eapply grows_try_send. cbn. f_equal.
    destruct (_ =? 1); [|by injection Hb1 as <-].
    pose proof (ze50_update_keeps_tx now b) as Hk. by rewrite Hb1 in Hk.
Qed.

#[refine, local] Instance ze50_task : BmsTask B Frame Bms Mqtt := {|
  task_world := Ze50.world;
  set_world := ze50_set;
  rx_turn := fun now f b => Some (Ze50.turn now f b);
  tx_tick := ze50_tick;
|}.
Proof.
  - done.
  - intros now f b b' [= <-]. split; [apply ze50_turn_updates|]. apply grows_same.
    unfold Ze50.turn. destruct (frame_id f) as [id|id]; [done|].
    destruct (_ =? _); [done|]. destruct (frame_data f); [|done].
    by destruct (Ze50.process_payload _ _) as [[[]|e] data].
  - apply ze50_tick_ok.
Defined.
End ze50.

(** *** The Tesla *)
Section tesla.
Context {Data DecodeError : Type} `{!TeslaM3.Decoder Data Frame DecodeError Bms BmsError}.
Context (frame_new : CanId * list Z -> Frame).
Abbreviation B := (TeslaM3.t Frame Bms Mqtt Data).

Definition tesla_set (w : shared Frame Bms Mqtt) (b : B) : B :=
  TeslaM3.mk (TeslaM3.data b) (TeslaM3.contactor_command b) (TeslaM3.contactor b) w.

#[refine, local] Instance tesla_task : BmsTask B Frame Bms Mqtt := {|
  task_world := TeslaM3.world;
  set_world := tesla_set;
  rx_turn := fun now f b => Some (TeslaM3.turn now f b);
  tx_tick := fun _ b b' => exists f, In f TeslaM3.tx_round /\
    b' = tesla_set (offer (frame_new f) (TeslaM3.world b)) b;
|}.
Proof.
  - done.
  - intros now f b b' [= <-]. split; [apply tesla_turn_updates|]. apply grows_same.
    unfold TeslaM3.turn. destruct (TeslaM3.decode_frame _ _) as [[update|e] data]; [|done].
    destruct update; cbn [negb TeslaM3.world]; rewrite follow_world; [|done]. by destruct (TeslaM3.update_bms data _) as [[[]|e] b'].
  - intros now b b' (f & _ & ->). apply offer_updates.
Defined.

Lemma tesla_quiet : QuietSender B Frame Bms Mqtt.
Proof. by intros now b b' (f & _ & ->). Qed.
End tesla.
End vehicles.

(** ** The battery that keeps the contactors closed *)

Section freshness.
Context {W B Frame Bms Mqtt : Type} `{InverterTask W Frame Frame Bms} `{!InverterFrames W Frame Bms}
  `{BmsTask B Frame Bms Mqtt} `{!QuietSender B Frame Bms Mqtt}.
Context (tcp_debug : bool) (contactor_task : bool -> bool -> list command * bool).
Implicit Type p : plant W B Frame.

(** The BMS task took a frame at the time [t], which is [n] or before. *)
Definition heard_at p (n t : Z) : Prop := (exists g, In (t, g) (heard p)) /\ t <= n.

Definition last_heard (w : W) : option Z := Statics.last_bms_message (task_statics w).

(** The times that the statics and the inverter task's history know are times of
    frames, and past. *)
Definition times_ok p : Prop :=
  (forall t, last_heard (inverter (ctl p)) = Some t -> heard_at p (now (ctl p)) t) /\
  forall n f w, In (n, f, w) (log (ctl p)) ->
    n <= now (ctl p) /\ forall t, last_heard w = Some t -> heard_at p n t.

Lemma times_ok_same p p' :
  times_ok p -> heard p' = heard p -> log (ctl p') = log (ctl p) ->
  now (ctl p) <= now (ctl p') -> last_heard (inverter (ctl p')) = last_heard (inverter (ctl p)) -> times_ok p'.
Proof.
  intros [Ht Hl] Hh Hlog Hnow Hlast. unfold times_ok, heard_at. rewrite Hh, Hlog, Hlast. split.
  - intros t Hg. destruct (Ht t Hg). split; [done|lia].
  - intros n f w Hin. destruct (Hl n f w Hin). split; [lia|done].
Qed.

Lemma last_heard_left_by st (s : sys W Frame) :
  last_heard (inverter (left_by st s)) = Statics.last_bms_message st.
Proof. unfold last_heard, left_by. cbn. by rewrite statics_set. Qed.

Lemma times_ok_step p p' : times_ok p -> plant_step tcp_debug contactor_task p p' -> times_ok p'.
Proof.
  intros Hok Hs. pose proof Hok as [Ht Hl].
  destruct Hs as [p c Hc|p c Hc|p f l b Hf Hb Hfit|p b Hb Hfit|p f l Hf Hfit|p b Hb|p dt Hdt];
    [by apply (times_ok_same p)..| | | | |by apply (times_ok_same p); cbn; try lia].
  - assert (Hgrow : forall n t, heard_at p n t ->
      heard_at (stored b (Can.handle f (Can.set_ch_rx l (bms_bus p))) (heard p ++ [(now (ctl p), f)]) p) n t).
    { intros n t [[g Hg] Hn]. split; [|done]. exists g. apply in_app_iff. by left. }
    split; [|intros n f' w Hin; destruct (Hl n f' w Hin); split; [done|by eauto]].
    intros t. cbn [stored ctl]. rewrite last_heard_left_by. intros Hlast.
    destruct (rx_turn_updates _ _ _ _ Hb) as [[Hu|(heard & d & Hu)] _];
      rewrite Hu, loaded_statics in Hlast; [by apply Hgrow, Ht|].
    destruct heard; [|by apply Hgrow, Ht]. injection Hlast as <-.
    split; [|done]. exists f. apply in_app_iff. right. by left.
  - apply (times_ok_same p); [done..|]. cbn [stored ctl].
    by rewrite last_heard_left_by, (quiet _ _ _ Hb), loaded_statics.
  - split.
    + intros t. unfold last_heard. cbn. rewrite turn_keeps_time. apply Ht.
    + intros n f' w [[= <- <- <-]|Hin]; [by split|by eapply Hl].
  - apply (times_ok_same p); [done..| | |]; unfold do_contactor, on_statics, last_heard; cbn;
      destruct (contactor_task _ b); cbn; [done..|by rewrite statics_set].
Qed.

Lemma plant_times_ok p : plant_reachable tcp_debug contactor_task p -> times_ok p.
Proof.
  induction 1 as [p (_ & _ & _ & (_ & _ & _ & _ & Hl) & _ & Ht)|p p' _ IH Hs];
    [|by eapply times_ok_step].
  split; [unfold last_heard; by rewrite Ht|by rewrite Hl].
Qed.
End freshness.

Section solax_plant.
Context {Frame Bms Mqtt Inv X B : Type} `{CanFrame Frame} `{BmsTask B Frame Bms Mqtt}
  `{!QuietSender B Frame Bms Mqtt}.
Context (TICK_HZ : Z) (mqtt : bool).
Context (parser : Inv -> Frame -> Bms -> bool -> (list Frame + InverterError X) * Inv).

#[local] Instance solax : InverterTask (Solax.t Frame Bms Inv) Frame Frame Bms :=
  solax_task TICK_HZ mqtt parser.

Lemma solax_frames : InverterFrames (Solax.t Frame Bms Inv) Frame Bms.
Proof.
  split; intros now f w; cbn; unfold Solax.turn;
    (destruct (match frame_id f with Extended id => id =? 0x1871 | Standard _ => true end);
      [|cbn; try (exists []; by rewrite app_nil_r); done]); cbn [negb];
    (destruct (Statics.last_bms_message (Solax.statics w)) as [time|] eqn:Hlast;
      [|cbn; try (exists []; by rewrite app_nil_r); done]);
    (destruct (timed_out TICK_HZ now time); [cbn; try (exists []; by rewrite app_nil_r); done|]);
    destruct (parser _ _ _ _) as [response inv'].
  - exists (match response with inl frames => frames | inr _ => [] end).
    destruct response as [frames|[id|id|ts| |x]]; cbn; destruct mqtt, (Solax.initalised w);
      cbn; by rewrite ?app_nil_r.
  - destruct response as [frames|[id|id|ts| |x]]; cbn; destruct mqtt, (Solax.initalised w); cbn; done.
Qed.

(** C6: Closed contactors have a live battery behind them.  With a Solax or
    FoxESS inverter and a battery whose sender leaves the statics alone, as the
    ZE40 is, in every reachable state of the plant: if the main contactor is on
    and nothing waits in the signal, then at a time [n] the inverter task took a
    wanted frame from its bus, less than eleven seconds after the BMS task had
    taken a frame of the battery from its own, and found a good response: the
    protocol answered, or met an error other than a frame it cannot encode, a
    bad identifier, a time stamp or an unwanted frame.  The judgement before
    was good as well, and since [n] no frame has had a judgement or found the
    battery silent. *)
Theorem closed_contactor_live_battery tcp_debug max contactor_task `{!Follows max contactor_task}
  (p : plant (Solax.t Frame Bms Inv) B Frame) (Hz : 0 < TICK_HZ)
  (Hr : plant_reachable tcp_debug contactor_task p)
  (Hq : Statics.contactor_state (Solax.statics (inverter (ctl p))) = None)
  (Hm : main (hw (ctl p)) = true) :
  exists later n f w earlier t g, log (ctl p) = later ++ (n, f, w) :: earlier /\
    Forall (fun e => observe TICK_HZ parser e = None) later /\
    wanted f = true /\
    Solax.verdict (parser (Solax.inverter w) f (Statics.bms (Solax.statics w)) true).1 = Some true /\
    last_good (reports TICK_HZ parser earlier) = true /\
    In (t, g) (heard p) /\ t <= n <= now (ctl p) /\ n - t < 11 * TICK_HZ /\
    In f (Can.received (inv_bus p)) /\ In g (Can.handled (bms_bus p)).
Proof.
  pose proof solax_frames as Hfr.
  destruct (plant_reachable_ok tcp_debug max contactor_task p Hr) as (Hc & _ & Hi & Hl & _ & Hh).
  destruct (plant_times_ok tcp_debug contactor_task p Hr) as [_ Htimes].
  destruct (reachable_tracks TICK_HZ mqtt parser max contactor_task (ctl p) Hc) as [_ Ht].
  pose proof (reachable_resting max contactor_task (ctl p) Hc) as (Hmain & _).
  unfold target in Ht. cbn [task_statics solax_task] in Ht. rewrite Hq in Ht.
  rewrite <- Hmain, Hm in Ht.
  destruct (closed_by_split TICK_HZ parser (log (ctl p)) (eq_sym Ht))
    as (later & n & f & w & earlier & Hlog & Hlater & Ho & Hgood).
  destruct (observe_inv TICK_HZ parser n f w true Ho) as (Hw & Hv & t & Hlast & Hto).
  assert (Hin : In (n, f, w) (log (ctl p))) by (rewrite Hlog; apply in_app_iff; right; by left).
  destruct (Htimes n f w Hin) as [Hn Hheard]. destruct (Hheard t Hlast) as [[g Hg] Htn].
  exists later, n, f, w, earlier, t, g. do 6 (split; [done|]). split; [done|].
  split; [by apply timed_out_false|]. split.
  - rewrite (proj1 (channels_alone _ Hi)), Hl. apply in_app_iff. left.
    apply in_map_iff. exists (n, f, w). by rewrite <- in_rev.
  - rewrite <- Hh. apply in_map_iff. by exists (t, g).
Qed.
End solax_plant.

(** ** A battery that is never missed *)

Section unheard.
Context {Frame Bms Mqtt BmsError F Cells Balance Range Data PayloadError : Type}.
Context `{BmsStandard Bms BmsError F Cells Balance Range} `{!Ze50.Decoder Data PayloadError F}.
Context (mqtt try_lock : bool) (from_bms : Bms -> Mqtt) (v65 : bool) (map_cellv_soc : F -> F)
  (frame_new : CanId -> list Z -> Frame).
Abbreviation B := (Ze50.t Frame Bms Mqtt Data).

(** The requests of the ZE50's sender, one per tick, at these times. *)
Fixpoint ze50_ticks (times : list Z) : M B BmsError unit :=
  match times with
  | [] => mret tt
  | now :: times => Ze50.t2_tick mqtt try_lock from_bms v65 map_cellv_soc frame_new now ;;; ze50_ticks times
  end.

Lemma ze50_tick_unheard now (b b' : B) :
  Ze50.req_code (Ze50.data b) = 1 ->
  Ze50.t2_tick (BmsError := BmsError) mqtt try_lock from_bms v65 map_cellv_soc frame_new now b = (Ok tt, b') ->
  Statics.last_bms_message (statics (Ze50.world b')) = Some now /\ Ze50.data b' = Ze50.data b.
Proof.
  intros Hreq Ht. unfold Ze50.t2_tick in Ht. erewrite bind_ok in Ht by reflexivity.
  rewrite Hreq in Ht. cbn [Z.eqb Pos.eqb] in Ht.
  apply bind_ok_inv in Ht as ([] & b1 & Hb1 & Hb2).
  unfold Ze50.sender, Ze50.with_world in Hb2. cbn in Hb2. injection Hb2 as <-. cbn.
  unfold Ze50.update, Ze50.with_world in Hb1. cbn [Ze50.world Ze50.data] in Hb1.
  destruct (touched_log (E' := BmsError) now (fun w => touch now (signal_wdt true w))
    (Ze50.update_bms_data mqtt try_lock from_bms v65 map_cellv_soc (Ze50.data b)) (Ze50.world b) (fun _ => eq_refl)
    (ze50_update_only_bms mqtt try_lock from_bms v65 map_cellv_soc (Ze50.data b))) as (r & s' & He & Hl & _).
  rewrite He in Hb1. injection Hb1 as -> <-. by split.
Qed.

(** A ZE50 battery that falls silent is not missed when the decoder waits
    for the first reading of its round (request code 1).  Each tick of the sender
    then refreshes the time of the last message although nothing was received,
    and the decoder stays where it is; so at every moment up to eleven seconds
    after the last tick, and ticks come four times a second, the inverter tasks
    find the battery alive. *)
Theorem ze50_silence_unnoticed TICK_HZ times t (b b' : B) (Hz : 0 < TICK_HZ)
  (Hreq : Ze50.req_code (Ze50.data b) = 1)
  (Hrun : ze50_ticks (times ++ [t]) b = (Ok tt, b')) :
  Statics.last_bms_message (statics (Ze50.world b')) = Some t /\ Ze50.data b' = Ze50.data b /\
  forall now, now - t < 11 * TICK_HZ -> fresh TICK_HZ now (statics (Ze50.world b')) /\
    timed_out TICK_HZ now t = false.
Proof.
  assert (Hl : Statics.last_bms_message (statics (Ze50.world b')) = Some t /\ Ze50.data b' = Ze50.data b).
  { revert b Hreq Hrun. induction times as [|now times IH]; intros b Hreq Hrun; cbn in Hrun;
      apply bind_ok_inv in Hrun as ([] & b1 & Hb1 & Hb2);
      destruct (ze50_tick_unheard _ _ _ Hreq Hb1) as [Hlast Hdata].
    - injection Hb2 as <-. by split.
    - rewrite <- Hdata. apply IH; [by rewrite Hdata|done]. }
  destruct Hl as [Hl Hd]. do 2 (split; [done|]). intros now Hnow.
  split; [by exists t|by apply timed_out_false].
Qed.
End unheard.

(** ** Sample plants: a ZE40, and a ZE50 that never says a word, with an
    inverter that repeats what it is asked. *)
Import SampleBattery.

Definition repeat_frame (inv : unit) (f : Frame) (_ : Bms) (_ : bool)
  : (list Frame + InverterError Empty_set) * unit := (inl [f], inv).
Abbreviation Winv := (Solax.t Frame Bms unit).
Definition ask : Frame := (Extended 0x1871, []).
Definition start40 : Ze40.t Frame Bms unit Z := Ze40.mk 0 0 0 world0.
Definition start50 : Ze50.t Frame Bms unit Z := Ze50.mk 50 true world0.

#[local] Instance sample_inverter : InverterTask Winv Frame Frame Bms := solax_task 1000 true repeat_frame.
#[local] Instance sample_ze40 : BmsTask (Ze40.t Frame Bms unit Z) Frame Bms unit :=
  ze40_task (H := dev_profile) (BmsError := unit) true true (fun _ => tt).
#[local] Instance sample_ze50 : BmsTask (Ze50.t Frame Bms unit Z) Frame Bms unit :=
  ze50_task (BmsError := unit) true true (fun _ => tt) false id (fun i d => (i, d)).

#[local] Instance sample_quiet : QuietSender (Ze40.t Frame Bms unit Z) Frame Bms unit.
Proof. by intros now b b' [f ->]. Qed.

Definition start_plant {B} (b : B) : plant Winv B Frame :=
  mk_plant Can.start Can.start b
    (mk_sys (Solax.mk tt false statics0) false off 0 []) [].

(** Moves of a plant that can be computed: the interfaces read a frame, the
    tasks take the first one, the contactor task its signal. *)
Inductive move : Type := ReadBms (f : Frame) | ReadInv (f : Frame) | RxBms | RxInv | TakeSignal | Later (dt : Z).

Definition do_move {W B} `{InverterTask W Frame Frame Bms} `{!BmsTask B Frame Bms unit} (m : move) (p : plant W B Frame)
  : option (plant W B Frame) :=
  match m with
  | ReadBms f =>
    c ← Can.can_routine (Can.Read (Some f)) (bms_bus p);
    Some (mk_plant c (inv_bus p) (bms_task p) (ctl p) (heard p))
  | ReadInv f =>
    c ← Can.can_routine (Can.Read (Some f)) (inv_bus p);
    Some (mk_plant (bms_bus p) c (bms_task p) (ctl p) (heard p))
  | RxBms =>
    match Can.ch_rx (bms_bus p) with
    | [] => None
    | f :: l =>
      b ← rx_turn (now (ctl p)) f (loaded p);
      if zlen (Can.ch_tx (bms_bus p)) + zlen (new_frames (Can.ch_tx (bms_bus p)) (bms_tx (task_world b)))
         <=? FRAME_BUFFER
      then Some (stored b (Can.handle f (Can.set_ch_rx l (bms_bus p))) (heard p ++ [(now (ctl p), f)]) p)
      else None
    end
  | RxInv =>
    match Can.ch_rx (inv_bus p) with
    | [] => None
    | f :: l =>
      if zlen (Can.ch_tx (inv_bus p)) + zlen (answer f p) <=? FRAME_BUFFER
      then Some (mk_plant (bms_bus p) (make_all (answer f p) (Can.handle f (Can.set_ch_rx l (inv_bus p))))
             (bms_task p) (do_inverter f (ctl p)) (heard p))
      else None
    end
  | TakeSignal =>
    b ← Statics.contactor_state (task_statics (inverter (ctl p)));
    Some (mk_plant (bms_bus p) (inv_bus p) (bms_task p)
            (do_contactor (contactor_both_task 839) b (ctl p)) (heard p))
  | Later dt =>
    if 0 <=? dt
    then Some (mk_plant (bms_bus p) (inv_bus p) (bms_task p) (do_time dt (ctl p)) (heard p))
    else None
  end.

Definition do_moves {W B} `{InverterTask W Frame Frame Bms} `{!BmsTask B Frame Bms unit} (ms : list move) (p : plant W B Frame)
  : option (plant W B Frame) := foldl (fun p m => p ≫= do_move m) (Some p) ms.

Lemma do_move_step {W B} `{InverterTask W Frame Frame Bms} `{!BmsTask B Frame Bms unit} m (p p' : plant W B Frame) :
  do_move m p = Some p' -> plant_step false (contactor_both_task 839) p p'.
Proof.
  destruct m as [f|f| | | |dt]; cbn [do_move].
  - intros (c & Hc & [= <-])%bind_Some. by eapply step_bms_bus, interface_read.
  - intros (c & Hc & [= <-])%bind_Some. by eapply step_inv_bus, interface_read.
  - destruct (Can.ch_rx (bms_bus p)) as [|f l] eqn:Hl; [done|].
    intros (b & Hb & Hc)%bind_Some. destruct (Z.leb_spec
      (zlen (Can.ch_tx (bms_bus p)) + zlen (new_frames (Can.ch_tx (bms_bus p)) (bms_tx (task_world b))))
      FRAME_BUFFER); [|done].
    injection Hc as <-. by apply step_bms_rx.
  - destruct (Can.ch_rx (inv_bus p)) as [|f l] eqn:Hl; [done|].
    destruct (Z.leb_spec (zlen (Can.ch_tx (inv_bus p)) + zlen (answer f p)) FRAME_BUFFER); [|done].
    intros [= <-]. by apply step_inv_rx.
  - intros (b & Hb & [= <-])%bind_Some. by apply step_plant_contactor.
  - destruct (Z.leb_spec 0 dt); [|done]. intros [= <-]. by apply step_plant_time.
Qed.

Lemma do_moves_rtc {W B} `{InverterTask W Frame Frame Bms} `{!BmsTask B Frame Bms unit} ms : forall p p' : plant W B Frame,
  do_moves ms p = Some p' -> rtc (plant_step false (contactor_both_task 839)) p p'.
Proof.
  unfold do_moves. induction ms as [|m ms IH]; intros p p'; cbn [foldl]; [by intros [= <-]|].
  cbn [mbind option_bind]. destruct (do_move m p) as [p1|] eqn:Hm.
  - intros Hp1. eapply rtc_l; [by eapply do_move_step|by apply IH].
  - intros Hn. exfalso. clear -Hn. by induction ms.
Qed.

Lemma do_moves_reachable {W B} `{InverterTask W Frame Frame Bms} `{!BmsTask B Frame Bms unit} ms (p p' : plant W B Frame) :
  plant_reachable false (contactor_both_task 839) p -> do_moves ms p = Some p' ->
  plant_reachable false (contactor_both_task 839) p'.
Proof.
  intros Hp Hms%do_moves_rtc. induction Hms as [|p p1 p' Hs _ IH]; [done|].
  apply IH. by eapply plant_next.
Qed.

Lemma start_reachable {B} `{!BmsTask B Frame Bms unit} (b : B) :
  plant_reachable false (contactor_both_task 839) (start_plant b).
Proof. apply plant_start. by repeat split. Qed.

Definition closing_moves : list move :=
  [ReadBms (frame 0x155 80); RxBms; Later 3000; ReadInv ask; RxInv; ReadInv ask; RxInv; TakeSignal].

Lemma plant_refines_witness :
  exists p : plant Winv (Ze40.t Frame Bms unit Z) Frame,
    do_moves closing_moves (start_plant start40) = Some p /\
    Can.received (inv_bus p) = map (fun e => e.1.2) (rev (log (ctl p))) ++ Can.ch_rx (inv_bus p) /\
    Can.ch_tx (inv_bus p) = [ask; ask].
Proof.
  destruct (do_moves closing_moves (start_plant start40)) as [p|] eqn:Hp;
    [|exfalso; revert Hp; vm_compute; discriminate].
  pose proof (both_follows 839 ltac:(lia)) as Hf. pose proof (solax_frames 1000 true repeat_frame) as Hfr.
  destruct (plant_refines false 839 (contactor_both_task 839) p
    (do_moves_reachable _ _ _ (start_reachable start40) Hp)) as (_ & _ & _ & H1 & _).
  exists p. split; [done|]. split; [exact H1|]. revert Hp. vm_compute. by intros [= <-].
Defined.

Lemma closed_contactor_live_battery_witness :
  exists p : plant Winv (Ze40.t Frame Bms unit Z) Frame,
    do_moves closing_moves (start_plant start40) = Some p /\
    main (hw (ctl p)) = true /\
    exists n t g, In (t, g) (heard p) /\ t <= n <= now (ctl p) /\ n - t < 11 * 1000 /\
      In g (Can.handled (bms_bus p)).
Proof.
  destruct (do_moves closing_moves (start_plant start40)) as [p|] eqn:Hp;
    [|exfalso; revert Hp; vm_compute; discriminate].
  assert (Hm : main (hw (ctl p)) = true) by (revert Hp; vm_compute; by intros [= <-]).
  assert (Hq : Statics.contactor_state (Solax.statics (inverter (ctl p))) = None)
    by (revert Hp; vm_compute; by intros [= <-]).
  pose proof (both_follows 839 ltac:(lia)) as Hf.
  destruct (closed_contactor_live_battery 1000 true repeat_frame false 839 (contactor_both_task 839) p
    ltac:(lia) (do_moves_reachable _ _ _ (start_reachable start40) Hp) Hq Hm)
    as (later & n & f & w & earlier & t & g & _ & _ & _ & _ & _ & H1 & H2 & H3 & _ & H4).
  exists p. split; [reflexivity|]. split; [exact Hm|]. exists n, t, g.
  exact (conj H1 (conj H2 (conj H3 H4))).
Defined.

(** A plant with a ZE50 that never sent a frame, after one tick of the sender and
    two questions of the inverter. *)
Definition tick50 (now : Z) (b : Ze50.t Frame Bms unit Z) : Ze50.t Frame Bms unit Z :=
  (Ze50.t2_tick (BmsError := unit) true true (fun _ => tt) false id (fun i d => (i, d)) now b).2.

Definition ticked_plant : plant Winv (Ze50.t Frame Bms unit Z) Frame :=
  let p := start_plant start50 in stored (tick50 0 (loaded p)) (bms_bus p) [] p.

Lemma ticked_reachable : plant_reachable false (contactor_both_task 839) ticked_plant.
Proof.
  eapply plant_next; [apply (start_reachable start50)|].
  apply (step_bms_tx _ _ (start_plant start50)).
  - right. vm_compute. reflexivity.
  - vm_compute. discriminate.
Qed.

Lemma ze50_silence_unnoticed_witness :
  (exists b', ze50_ticks (BmsError := unit) true true (fun _ => tt) false id (fun i d => (i, d)) ([225; 450] ++ [675])
      start50 = (Ok tt, b') /\
    fresh (Frame := Frame) (Bms := Bms) 1000 9000 (statics (Ze50.world b'))) /\
  exists p : plant Winv (Ze50.t Frame Bms unit Z) Frame,
    plant_reachable false (contactor_both_task 839) p /\ heard p = [] /\ main (hw (ctl p)) = true.
Proof.
  split.
  - eexists. split; [vm_compute; reflexivity|].
    eapply (ze50_silence_unnoticed (Frame := Frame) (Bms := Bms) (BmsError := unit) true true
      (fun _ => tt) false id (fun i d => (i, d)) 1000 [225; 450] 675 start50);
      [lia|reflexivity|vm_compute; reflexivity|lia].
  - destruct (do_moves [ReadInv ask; RxInv; ReadInv ask; RxInv; TakeSignal] ticked_plant) as [p|] eqn:Hp;
      [|exfalso; revert Hp; vm_compute; discriminate].
    exists p. split; [exact (do_moves_reachable _ _ _ ticked_reachable Hp)|].
    revert Hp. vm_compute. by intros [= <-].
Defined.
