(* ===== verification/Plants.v ===== *)
(** More about the plant of System: what opens the contactors, for every inverter
    and battery, and the plant with a Force H2 inverter
    (stm32f407_controller/src/bin/tasks/can_processors_pylontech_forceh2.rs). *)
From stdpp Require Import relations.
From S2P Require Import Prelude.
From S2P Require Import Contactor.
From S2P Require Import Inverter.
From S2P Require Import Controller.
From S2P Require Import Bms.
From S2P Require Import Devices.
From S2P Require Import System.
Import Hardware.

(** ** Without a frame of the inverter *)

Section silence.
Context {W B Frame Bms Mqtt : Type} `{InverterTask W Frame Frame Bms} `{BmsTask B Frame Bms Mqtt}.
Context (tcp_debug : bool) (contactor_task : bool -> bool -> list command * bool).
Implicit Type p : plant W B Frame.

Definition signalled p : option bool := Statics.contactor_state (task_statics (inverter (ctl p))).

(** The contactors rest as they are. *)
Definition at_rest_as p p' : Prop := hw (ctl p') = hw (ctl p) /\ signalled p' = None.

Lemma updates_signal now (w w' : shared Frame Bms Mqtt) :
  updates now w w' -> Statics.contactor_state (statics w') = Statics.contactor_state (statics w).
Proof. by intros [->|(heard & b & ->)]. Qed.

Lemma stored_at_rest p b c h :
  updates (now (ctl p)) (task_world (loaded p)) (task_world b) -> signalled p = None ->
  at_rest_as p (stored b c h p).
Proof.
  intros Hu Hn. split; [done|]. unfold signalled, stored, left_by. cbn [ctl inverter].
  rewrite statics_set, (updates_signal _ _ _ Hu), loaded_statics. exact Hn.
Qed.

(** Every step is a turn of the inverter task, which goes into its history, or
    leaves the contactors alone. *)
Lemma plant_step_cases p p' :
  plant_step tcp_debug contactor_task p p' -> signalled p = None ->
  (exists e, log (ctl p') = e :: log (ctl p)) \/ log (ctl p') = log (ctl p) /\ at_rest_as p p'.
Proof.
  intros Hs Hn. destruct Hs as [p c Hc|p c Hc|p f l b Hf Hb Hfit|p b Hb Hfit|p f l Hf Hfit|p b Hb|p dt Hdt];
    [by right|by right| | | | |by right].
  - right. split; [done|]. apply stored_at_rest; [|done]. by eapply rx_turn_updates.
  - right. split; [done|]. apply stored_at_rest; [|done]. by eapply tx_tick_updates.
  - left. by eexists.
  - unfold signalled in Hn. by rewrite Hn in Hb.
Qed.

Lemma rtc_log p p' :
  rtc (plant_step tcp_debug contactor_task) p p' -> signalled p = None ->
  (length (log (ctl p)) < length (log (ctl p')))%nat \/ log (ctl p') = log (ctl p) /\ at_rest_as p p'.
Proof.
  assert (Hgrow : forall q q', rtc (plant_step tcp_debug contactor_task) q q' ->
    (length (log (ctl q)) <= length (log (ctl q')))%nat).
  { induction 1 as [q|q q1 q' Hs _ IH]; [done|]. etrans; [|exact IH].
    destruct Hs as [| | | | |q b Hb|]; cbn; try lia.
    unfold do_contactor. destruct (contactor_task _ _). by cbn. }
  induction 1 as [p|p p1 p' Hs Hr IH]; intros Hn; [by right|].
  destruct (plant_step_cases p p1 Hs Hn) as [[e He]|[He [Hh Hn1]]].
  - left. pose proof (Hgrow _ _ Hr) as Hle. rewrite He in Hle. cbn in Hle. lia.
  - destruct (IH Hn1) as [Hlt|[Hl [Hh' Hn']]]; rewrite He in *; [by left|right].
    split; [done|]. split; [by rewrite Hh', Hh|done].
Qed.

(** C17: Only the inverter opens the contactors.  As long as the inverter task takes
    no frame, and nothing waits in its signal, the contactors stay as they are:
    however much time goes by, whatever the battery says or if it says nothing,
    be its data valid or not.  The age of the battery's last message is looked
    at when a frame of the inverter comes, and at no other time.  *)
Theorem contactor_waits_for_inverter p p'
  (Hrun : rtc (plant_step tcp_debug contactor_task) p p')
  (Hno : length (log (ctl p')) = length (log (ctl p))) (Hq : signalled p = None) :
  hw (ctl p') = hw (ctl p) /\ signalled p' = None.
Proof. destruct (rtc_log p p' Hrun Hq) as [Hlt|[_ Hrest]]; [lia|exact Hrest]. Qed.
End silence.

(** ** Force H2 *)

Section forceh2_plant.
Context {Frame Bms Mqtt Inv X B : Type} `{CanFrame Frame} `{BmsTask B Frame Bms Mqtt}
  `{!QuietSender B Frame Bms Mqtt}.
Context (TICK_HZ : Z) (mqtt : bool) (valid : Bms -> bool).
Context (parser : Inv -> Bms -> Frame -> (list Frame + X) * Inv).
Abbreviation Winv := (Inv * Statics.t Frame Bms)%type.
#[local] Instance forceh2 : InverterTask Winv Frame Frame Bms :=
  forceh2_task TICK_HZ mqtt valid parser.

Lemma forceh2_frames : InverterFrames Winv Frame Bms.
Proof.
  split; intros now f [inv s]; cbn; unfold ForceH2.turn;
    (destruct (match frame_id f with Extended id => id =? 0x4210 | Standard _ => false end);
      cbn [negb]; [|cbn; try (exists []; by rewrite app_nil_r); done]);
    (destruct (match Statics.last_bms_message s with Some t => timed_out TICK_HZ now t
      | None => false end); [cbn; try (exists []; by rewrite app_nil_r); done|]);
    (destruct (valid (Statics.bms s)); cbn [negb];
      [|cbn; try (exists []; by rewrite app_nil_r); done]);
    destruct (parser inv (Statics.bms s) f) as [[frames|x] inv'].
  - exists frames. by destruct mqtt.
  - exists []. destruct mqtt; cbn; by rewrite app_nil_r.
  - by destruct mqtt.
  - by destruct mqtt.
Qed.

(** The last report in a history, and what came after it. *)
Lemma last_report_true l :
  last_report TICK_HZ valid parser l = true ->
  exists later e earlier, l = later ++ e :: earlier /\
    force_report TICK_HZ valid parser e = Some true /\
    Forall (fun e => force_report TICK_HZ valid parser e = None) later.
Proof.
  unfold last_report. induction l as [|e l IH]; cbn [omap list_omap]; [done|].
  destruct (force_report TICK_HZ valid parser e) as [b|] eqn:He.
  - intros ->. exists [], e, l. by repeat split.
  - intros Hl. destruct (IH Hl) as (later & e' & earlier & -> & He' & Hlater).
    exists (e :: later), e', earlier. repeat split; [done|]. by constructor.
Qed.

Lemma report_true n f inv s :
  force_report TICK_HZ valid parser (n, f, (inv, s)) = Some true ->
  frame_id f = Extended 0x4210 /\
  (exists frames inv', parser inv (Statics.bms s) f = (inl frames, inv')) /\
  valid (Statics.bms s) = true /\
  forall t, Statics.last_bms_message s = Some t -> timed_out TICK_HZ n t = false.
Proof.
  unfold force_report.
  destruct (frame_id f) as [id|id]; [done|]. destruct (Z.eqb_spec id 0x4210) as [->|]; [|done].
  destruct (Statics.last_bms_message s) as [t|]; [destruct (timed_out TICK_HZ n t) eqn:Ht; [done|]|];
    (destruct (valid (Statics.bms s)); [|done]);
    (destruct (parser inv (Statics.bms s) f) as [[frames|x] inv']; [|done]); intros _;
    (split; [done|]; split; [by eauto|]; split; [done|]).
  - by intros t' [= <-].
  - done.
Qed.

(** C28: Closed contactors of a Force H2 plant, with a battery whose sender leaves
    the statics alone.  At a time [n] a frame 0x4210 of the inverter was answered,
    when the battery's data were valid, and since then no frame of the inverter
    found the battery silent or went unanswered; the battery was heard of before
    [n], less than eleven seconds, unless it had never been heard of.  (Frames
    that met invalid data may have come since.) *)
Theorem closed_contactor_forceh2 tcp_debug max contactor_task `{!Follows max contactor_task}
  (p : plant Winv B Frame) (Hz : 0 < TICK_HZ)
  (Hr : plant_reachable tcp_debug contactor_task p)
  (Hq : signalled p = None) (Hm : main (hw (ctl p)) = true) :
  exists later n f inv s earlier, log (ctl p) = later ++ (n, f, (inv, s)) :: earlier /\
    Forall (fun e => force_report TICK_HZ valid parser e = None) later /\
    frame_id f = Extended 0x4210 /\
    (exists frames inv', parser inv (Statics.bms s) f = (inl frames, inv')) /\
    valid (Statics.bms s) = true /\ n <= now (ctl p) /\ In f (Can.received (inv_bus p)) /\
    (Statics.last_bms_message s = None \/
     exists t g, In (t, g) (heard p) /\ t <= n /\ n - t < 11 * TICK_HZ /\
       In g (Can.handled (bms_bus p))).
Proof.
  pose proof forceh2_frames as Hfr.
  destruct (plant_reachable_ok tcp_debug max contactor_task p Hr) as (Hc & _ & Hi & Hl & _ & Hh).
  destruct (plant_times_ok tcp_debug contactor_task p Hr) as [_ Htimes].
  destruct (forceh2_contactor_history TICK_HZ mqtt valid parser max contactor_task (ctl p) Hc)
    as [_ Hmain].
  rewrite (proj1 (Hmain Hq)) in Hm.
  destruct (last_report_true _ Hm) as (later & [[n f] [inv s]] & earlier & Hlog & Hrep & Hlater).
  destruct (report_true n f inv s Hrep) as (Hid & Hans & Hv & Ht).
  assert (Hin : In (n, f, (inv, s)) (log (ctl p)))
    by (rewrite Hlog; apply in_app_iff; right; by left).
  destruct (Htimes n f (inv, s) Hin) as [Hn Hheard].
  exists later, n, f, inv, s, earlier. do 6 (split; [done|]). split.
  - rewrite (proj1 (channels_alone _ Hi)), Hl. apply in_app_iff. left.
    apply in_map_iff. exists (n, f, (inv, s)). by rewrite <- in_rev.
  - destruct (Statics.last_bms_message s) as [t|] eqn:Hlast; [right|by left].
    destruct (Hheard t Hlast) as [[g Hg] Htn].
    exists t, g. split; [done|]. split; [done|]. split; [by apply (timed_out_false TICK_HZ), Ht|].
    rewrite <- Hh. apply in_map_iff. by exists (t, g).
Qed.
End forceh2_plant.

(** ** Sample plants *)
Import SampleBattery.
#[local] Existing Instance sample_inverter.
#[local] Existing Instance sample_ze40.
#[local] Existing Instance sample_quiet.

(** The contactors of the sample plant are closed, then the battery says nothing
    for a quarter of an hour, its data turn bad, and the inverter is silent. *)
Definition silent_moves : list move := [Later 1000000; ReadBms (frame 0x155 0); RxBms; Later 1000000].

Lemma contactor_waits_for_inverter_witness :
  exists p p' : plant System.Winv (Ze40.t Frame Bms unit Z) Frame,
    do_moves closing_moves (start_plant start40) = Some p /\ do_moves silent_moves p = Some p' /\
    main (hw (ctl p)) = true /\ main (hw (ctl p')) = true /\ now (ctl p') = now (ctl p) + 2000000.
Proof.
  destruct (do_moves closing_moves (start_plant start40)) as [p|] eqn:Hp;
    [|exfalso; revert Hp; vm_compute; discriminate].
  destruct (do_moves silent_moves p) as [p'|] eqn:Hp';
    [|exfalso; revert Hp'; revert Hp; vm_compute; intros [= <-]; discriminate].
  assert (Hm : main (hw (ctl p)) = true) by (revert Hp; vm_compute; by intros [= <-]).
  assert (Hq : signalled p = None) by (revert Hp; vm_compute; by intros [= <-]).
  assert (Hl : length (log (ctl p')) = length (log (ctl p)))
    by (revert Hp'; revert Hp; vm_compute; intros [= <-]; by intros [= <-]).
  assert (Ht : now (ctl p') = now (ctl p) + 2000000)
    by (revert Hp'; revert Hp; vm_compute; intros [= <-]; by intros [= <-]).
  destruct (contactor_waits_for_inverter false (contactor_both_task 839) p p'
    (do_moves_rtc _ _ _ Hp') Hl Hq) as [Hh _].
  exists p, p'. do 3 (split; [done|]). split; [by rewrite Hh|exact Ht].
Defined.

(** A Force H2 plant: a frame of the battery, a question of the inverter. *)
Definition force_parser (inv : unit) (_ : Bms) (f : Frame) : (list Frame + Empty_set) * unit := (inl [f], inv).

Abbreviation ForceW := (unit * Statics.t Frame Bms)%type.

Definition force_ask : Frame := (Extended 0x4210, []).

Definition force_moves : list move :=
  [ReadBms (frame 0x155 80); RxBms; Later 3000; ReadInv force_ask; RxInv; TakeSignal; Later 20000].

#[local] Instance sample_force : InverterTask ForceW Frame Frame Bms :=
  forceh2_task 1000 true fst force_parser.

Definition start_force : plant ForceW (Ze40.t Frame Bms unit Z) Frame :=
  mk_plant Can.start Can.start start40 (mk_sys (tt, statics0) false off 0 []) [].

Lemma start_force_reachable : plant_reachable false (contactor_both_task 839) start_force.
Proof. apply plant_start. by repeat split. Qed.

Lemma closed_contactor_forceh2_witness :
  exists p : plant ForceW (Ze40.t Frame Bms unit Z) Frame,
    do_moves force_moves start_force = Some p /\ main (hw (ctl p)) = true /\
    exists n t g, In (t, g) (heard p) /\ t <= n /\ n - t < 11 * 1000 /\ In g (Can.handled (bms_bus p)).
Proof.
  destruct (do_moves force_moves start_force) as [p|] eqn:Hp;
    [|exfalso; revert Hp; vm_compute; discriminate].
  assert (Hm : main (hw (ctl p)) = true) by (revert Hp; vm_compute; by intros [= <-]).
  assert (Hq : signalled p = None) by (revert Hp; vm_compute; by intros [= <-]).
  assert (Hs : Forall (fun e => Statics.last_bms_message e.2.2 <> None) (log (ctl p)))
    by (revert Hp; vm_compute; intros [= <-]; by repeat constructor).
  pose proof (both_follows 839 ltac:(lia)) as Hf.
  destruct (closed_contactor_forceh2 (X := Empty_set) (Mqtt := unit) 1000 true fst force_parser false 839
    (contactor_both_task 839) p ltac:(lia) (do_moves_reachable _ _ _ start_force_reachable Hp) Hq Hm)
    as (later & n & f & inv & s & earlier & Hlog & Hlater & _ & _ & _ & _ & _ &
      [Hnone|(t & g & H1 & H2 & H3 & H4)]).
  - exfalso. pose proof (eq_ind _ (Forall _) Hs _ Hlog) as [_ Hs']%Forall_app.
    by apply (Forall_inv Hs').
  - exists p. split; [done|]. split; [exact Hm|]. exists n, t, g.
    exact (conj H1 (conj H2 (conj H3 H4))).
Defined.
