(* ===== verification/Config.v ===== *)
(** The configuration: stm32f407_controller/src/bin/config/mod.rs.

    The JSON printer and parser (miniserde), the parser of IPv4 addresses, the
    network stack's configuration and [bms_standard::Config] are not part of the
    repository: they are classes.  [F] stands for [f32]. *)
From stdpp Require Import strings.
From S2P Require Import Prelude.
From S2P Require Import Utf8.
From S2P Require Import Heapless.
From S2P Require Import Inverter.
From S2P Require Import Writer.
From S2P Require Import Errors.

(** ** [GlobalState] *)

Module GlobalState.
Inductive State : Type := Online | Offline.

Record t : Type := mk { state : State; fault : Fault; time : Z }.

Definition default : t := mk Offline NoFault 0.

Definition set_state (s : State) (self : t) : t := mk s (fault self) (time self).
Definition set_fault (f : Fault) (self : t) : t := mk (state self) f (time self).
End GlobalState.

(** ** [Config] *)

(** [bms_standard::MinMax] and [bms_standard::Config]: the literal that builds
    one, and what reads its fields. *)
Class BmsConfig (MinMaxF MinMaxU16 MinMaxU8 BC : Type) : Type := {
  bms_config : MinMaxF -> MinMaxF -> MinMaxF -> MinMaxF -> MinMaxF -> MinMaxF -> Z ->
    MinMaxU16 -> Z -> MinMaxU8 -> BC;
  charge_current_limts : BC -> MinMaxF;
  discharge_current_limts : BC -> MinMaxF;
  current_sensor_limts : BC -> MinMaxF;
  bc_pack_volts : BC -> MinMaxF;
  bc_cell_temperatures : BC -> MinMaxF;
  bc_pack_temperatures : BC -> MinMaxF;
  bc_cell_millivolt_peak : BC -> Z;
  bc_cells_mv : BC -> MinMaxU16;
  bc_cell_millivolt_delta_max : BC -> Z;
  bc_soc : BC -> MinMaxU8;
}.

(** The readers read the fields. *)
Class BmsConfigLaws (MinMaxF MinMaxU16 MinMaxU8 BC : Type)
  `{BmsConfig MinMaxF MinMaxU16 MinMaxU8 BC} : Prop := {
  read_bms_config a b c d e f g h i j :
    let bc := bms_config a b c d e f g h i j in
    charge_current_limts bc = a /\ discharge_current_limts bc = b /\ current_sensor_limts bc = c /\
    bc_pack_volts bc = d /\ bc_cell_temperatures bc = e /\ bc_pack_temperatures bc = f /\
    bc_cell_millivolt_peak bc = g /\ bc_cells_mv bc = h /\ bc_cell_millivolt_delta_max bc = i /\
    bc_soc bc = j;
}.

Module Config.
Section config.
Context {MinMaxF MinMaxU16 MinMaxU8 BC : Type} `{BmsConfig MinMaxF MinMaxU16 MinMaxU8 BC}.

Record t : Type := mk {
  charge_current : MinMaxF;
  discharge_current : MinMaxF;
  current_sensor : MinMaxF;
  pack_volts : MinMaxF;
  cell_temperatures : MinMaxF;
  pack_temperatures : MinMaxF;
  cell_millivolt_peak : Z;
  cells_mv : MinMaxU16;
  cell_millivolt_delta_max : Z;
  soc : MinMaxU8;
  dod : MinMaxU8
}.

(** [impl From<&Config> for bms_standard::Config] *)
Definition export_as_bms (val : t) : BC :=
  bms_config (charge_current val) (discharge_current val) (current_sensor val) (pack_volts val)
    (cell_temperatures val) (pack_temperatures val) (cell_millivolt_peak val) (cells_mv val)
    (cell_millivolt_delta_max val) (soc val).

Definition import_from_bms (bms_config : BC) (self : t) : t :=
  mk (charge_current_limts bms_config) (discharge_current_limts bms_config)
    (current_sensor_limts bms_config) (bc_pack_volts bms_config)
    (bc_pack_temperatures bms_config) (bc_pack_temperatures bms_config)
    (bc_cell_millivolt_peak bms_config) (bc_cells_mv bms_config)
    (bc_cell_millivolt_delta_max bms_config) (bc_soc bms_config) (dod self).
End config.
Arguments t : clear implicits.

(** The defaults, from the constructors of the three kinds of range. *)
Definition default {F MinMaxF MinMaxU16 MinMaxU8 : Type} (f : Z -> F) (new_f : F -> F -> MinMaxF)
    (new_u16 : Z -> Z -> MinMaxU16) (new_u8 : Z -> Z -> MinMaxU8) : t MinMaxF MinMaxU16 MinMaxU8 :=
  mk (new_f (f 0) (f 200)) (new_f (f 0) (f 200)) (new_f (f (-40)) (f 40)) (new_f (f 300) (f 400))
    (new_f (f (-20)) (f 50)) (new_f (f (-20)) (f 50)) 4200 (new_u16 3000 4150) 500
    (new_u8 0 100) (new_u8 0 90).
End Config.

(** ** [JsonTrait] *)

(** [json::from_str] and [json::to_string]. *)
Class Json (C : Type) : Type := {
  json_from_str : list Z -> option C;
  json_to_string : C -> list Z;
}.

Class JsonLaws (C : Type) `{Json C} : Prop := {
  json_utf8 : forall c, valid_utf8 (json_to_string c) = true;
  json_read : forall c, json_from_str (json_to_string c) = Some c;
}.

Section json.
Context {C : Type} `{Json C}.

Definition decode_from_json (s : list Z) : M C StmError unit :=
  if negb (valid_utf8 s) then throw InvalidConfigData
  else
    match json_from_str s with
    | None => throw ConfigDeserializeError
    | Some c => modify (fun _ => c)
    end.

Definition to_json (self : C) : list Z := json_to_string self.
End json.

(** ** [NetConfig] *)

(** [Ipv4Address::from_str] and [Ipv4Addr::from_str]. *)
Class ParseIp (Ip : Type) : Type := ip_from_str : list Z -> option Ip.

Module NetConfig.
Record t : Type := mk {
  dhcp : bool;
  ip : option (list Z);
  netmask : option (list Z);
  gateway : option (list Z);
  dns : option (list Z)
}.

Definition new (dhcp : bool) (ip netmask gateway dns : option (list Z)) : t :=
  mk dhcp ip netmask gateway dns.

(** [embassy_net::Config]: [dhcpv4(Default::default())] or [ipv4_static(..)]. *)
Inductive net {Ip : Type} : Type :=
| Dhcpv4
| Ipv4Static (address : Ip * Z) (dns_servers : list Ip) (gateway : option Ip).
Arguments net : clear implicits.

Section net.
Context {Ip : Type} `{ParseIp Ip} `{HeaplessVec}.

Definition create_config (self : t) : outcome StmError (net Ip) :=
  text ← unwrap (ip self);
  ipaddress ← (match ip_from_str text with Some a => Ok a | None => Err InvalidIpDetails end);
  let address := (ipaddress, 24) in
  dns_servers ← (match dns self with
    | Some dns =>
      match ip_from_str dns with
      | None => Err InvalidDnsDetails
      | Some dns =>
        let '(servers, pushed) := vec_push 3 [] dns in
        if pushed : bool then Ok servers else Panic PUnwrap
      end
    | None => Ok []
    end);
  let gateway := match gateway self with Some gw => ip_from_str gw | None => None end in
  Ok (Ipv4Static address dns_servers gateway).

Definition is_none {A} (o : option A) : bool := match o with None => true | Some _ => false end.

Definition get_config (self : t) : outcome StmError (net Ip) :=
  if dhcp self || is_none (ip self) || is_none (netmask self) then Ok Dhcpv4
  else
    match create_config self with
    | Ok config => Ok config
    | Err e => Ok Dhcpv4
    | Panic p => Panic p
    | OutOfFuel => OutOfFuel
    end.
End net.
End NetConfig.

(** ** [MqttConfig] *)

Module MqttConfig.
(** [MqttConfigBuilder] has the same fields. *)
Record t : Type := mk {
  host : option (list Z);
  port : option Z;
  client_id : option (list Z);
  username : option (list Z);
  password : option (list Z);
  basetopic : option (list Z);
  qos : Z;
  retain : bool;
  interval : Z
}.

Definition builder : t := mk None None None None None None 0 false 10.

Definition set_host (x : list Z) (s : t) : t := mk (Some x) (port s) (client_id s) (username s) (password s) (basetopic s) (qos s) (retain s) (interval s).
Definition set_port (x : Z) (s : t) : t := mk (host s) (Some x) (client_id s) (username s) (password s) (basetopic s) (qos s) (retain s) (interval s).
Definition set_client_id (x : list Z) (s : t) : t := mk (host s) (port s) (Some x) (username s) (password s) (basetopic s) (qos s) (retain s) (interval s).
Definition set_username (x : list Z) (s : t) : t := mk (host s) (port s) (client_id s) (Some x) (password s) (basetopic s) (qos s) (retain s) (interval s).
Definition set_password (x : list Z) (s : t) : t := mk (host s) (port s) (client_id s) (username s) (Some x) (basetopic s) (qos s) (retain s) (interval s).
Definition set_basetopic (x : list Z) (s : t) : t := mk (host s) (port s) (client_id s) (username s) (password s) (Some x) (qos s) (retain s) (interval s).
Definition set_qos (x : Z) (s : t) : t := mk (host s) (port s) (client_id s) (username s) (password s) (basetopic s) x (retain s) (interval s).
Definition set_retain (x : bool) (s : t) : t := mk (host s) (port s) (client_id s) (username s) (password s) (basetopic s) (qos s) x (interval s).
Definition set_interval (x : Z) (s : t) : t := mk (host s) (port s) (client_id s) (username s) (password s) (basetopic s) (qos s) (retain s) x.

Definition build (s : t) : t :=
  mk (host s) (port s) (client_id s) (username s) (password s) (basetopic s) (qos s) (retain s)
    (interval s).

(** The getters of strings unwrap. *)
Definition get_username {E} (s : t) : outcome E (list Z) := unwrap (username s).
Definition get_password {E} (s : t) : outcome E (list Z) := unwrap (password s).
Definition get_topic {E} (s : t) : outcome E (list Z) := unwrap (basetopic s).
Definition get_qos (s : t) : Z := qos s.
Definition get_retain (s : t) : bool := retain s.
Definition get_interval (s : t) : Z := interval s.

(** [impl TryFrom<&MqttConfig> for SocketAddr] *)
Definition try_into_socket_addr {Ip : Type} `{ParseIp Ip} (conf : t) : outcome StmError (Ip * Z) :=
  match host conf, port conf with
  | None, _ => Err BadMqttIp
  | Some _, None => Err BadMqttPort
  | Some host, Some port =>
    match ip_from_str host with
    | None => Err BadMqttIp
    | Some ip => Ok (ip, port)
    end
  end.
End MqttConfig.

(** ** Properties *)

Lemma import_export {MinMaxF MinMaxU16 MinMaxU8 BC}
  `{BmsConfigLaws MinMaxF MinMaxU16 MinMaxU8 BC} (c self : Config.t MinMaxF MinMaxU16 MinMaxU8) :
  Config.import_from_bms (Config.export_as_bms c) self =
    Config.mk (Config.charge_current c) (Config.discharge_current c) (Config.current_sensor c)
      (Config.pack_volts c) (Config.pack_temperatures c) (Config.pack_temperatures c)
      (Config.cell_millivolt_peak c) (Config.cells_mv c) (Config.cell_millivolt_delta_max c)
      (Config.soc c) (Config.dod self).
Proof.
  unfold Config.import_from_bms, Config.export_as_bms.
  destruct (read_bms_config (Config.charge_current c) (Config.discharge_current c)
    (Config.current_sensor c) (Config.pack_volts c) (Config.cell_temperatures c)
    (Config.pack_temperatures c) (Config.cell_millivolt_peak c) (Config.cells_mv c)
    (Config.cell_millivolt_delta_max c) (Config.soc c))
    as (-> & -> & -> & -> & _ & -> & -> & -> & -> & ->). done.
Qed.

(** A configuration goes to the BMS and back: importing what was exported
    gives the same configuration, whatever the importing side held, except that
    the limits of the cells' temperature are replaced by those of the pack, and
    the depth of discharge, which the BMS does not know, stays that of the
    importing side.  So it comes back unchanged exactly when its two temperature
    ranges agree, and a second trip changes nothing more. *)
Theorem config_roundtrip {MinMaxF MinMaxU16 MinMaxU8 BC}
  `{!BmsConfig MinMaxF MinMaxU16 MinMaxU8 BC} (Hlaws : BmsConfigLaws MinMaxF MinMaxU16 MinMaxU8 BC)
  (c self : Config.t MinMaxF MinMaxU16 MinMaxU8) :
  let trip c self := Config.import_from_bms (Config.export_as_bms c) self in
  trip c self =
    Config.mk (Config.charge_current c) (Config.discharge_current c) (Config.current_sensor c)
      (Config.pack_volts c) (Config.pack_temperatures c) (Config.pack_temperatures c)
      (Config.cell_millivolt_peak c) (Config.cells_mv c) (Config.cell_millivolt_delta_max c)
      (Config.soc c) (Config.dod self) /\
  (trip c c = c <-> Config.cell_temperatures c = Config.pack_temperatures c) /\
  trip (trip c self) self = trip c self.
Proof.
  cbv zeta beta. rewrite !import_export. split; [done|]. split; [|done].
  destruct c as [a b d e f g h i j k l]. cbn. split; [by intros [=]|by intros ->].
Qed.

(** A static address is used exactly when DHCP is off, an address and a
    netmask are given, and the address and the name server, if there is one, can
    be parsed; anything else falls back to DHCP, and nothing panics.  The prefix
    is always 24 bits: the netmask is never read. *)
Theorem net_config_choice {Ip} `{!ParseIp Ip} `{!HeaplessVec} (self : NetConfig.t) :
  NetConfig.get_config self =
    match NetConfig.dhcp self, NetConfig.ip self, NetConfig.netmask self, NetConfig.dns self with
    | false, Some ip, Some _, dns =>
      match ip_from_str ip, ip_from_str <$> dns with
      | Some a, None =>
        Ok (NetConfig.Ipv4Static (a, 24) []
              (match NetConfig.gateway self with Some gw => ip_from_str gw | None => None end))
      | Some a, Some (Some d) =>
        Ok (NetConfig.Ipv4Static (a, 24) [d]
              (match NetConfig.gateway self with Some gw => ip_from_str gw | None => None end))
      | _, _ => Ok NetConfig.Dhcpv4
      end
    | _, _, _, _ => Ok NetConfig.Dhcpv4
    end.
Proof.
  destruct self as [[] [ip|] [nm|] gw dns]; try reflexivity.
  unfold NetConfig.get_config, NetConfig.create_config. cbn.
  destruct (ip_from_str ip) as [a|]; [|by destruct dns]. cbn.
  destruct dns as [d|]; [|done]. cbn. destruct (ip_from_str d) as [d'|]; [|done].
  by rewrite vec_push_room.
Qed.

(** A text from the printer is read back, whatever the configuration was. *)
Lemma decode_to_json {C} `{JsonLaws C} (c c' : C) :
  decode_from_json (to_json c) c' = (Ok tt, c).
Proof. unfold decode_from_json, to_json. by rewrite json_utf8, json_read. Qed.

(** Any other text is an error that leaves the configuration alone, or read. *)
Lemma decode_error {C} `{Json C} s (c : C) e c' :
  decode_from_json s c = (Err e, c') ->
  c' = c /\ (e = InvalidConfigData \/ e = ConfigDeserializeError).
Proof.
  unfold decode_from_json. destruct (negb _); [by intros [= <- <-]; auto|].
  destruct (json_from_str s); [done|]. intros [= <- <-]. auto.
Qed.

(** The chain of the builder in [mqtt_net_task] gives what was put in. *)
Lemma builder_chain {E} h p ci u pw t q r i :
  let c := MqttConfig.build (MqttConfig.set_interval i (MqttConfig.set_retain r (MqttConfig.set_qos q
    (MqttConfig.set_basetopic t (MqttConfig.set_password pw (MqttConfig.set_username u
    (MqttConfig.set_client_id ci (MqttConfig.set_port p (MqttConfig.set_host h MqttConfig.builder))))))))) in
  MqttConfig.get_username (E := E) c = Ok u /\ MqttConfig.get_password (E := E) c = Ok pw /\
  MqttConfig.get_topic (E := E) c = Ok t /\ MqttConfig.get_qos c = q /\
  MqttConfig.get_retain c = r /\ MqttConfig.get_interval c = i /\
  MqttConfig.host c = Some h /\ MqttConfig.port c = Some p.
Proof. by repeat split. Qed.

(** ** Samples *)

Module SampleConfig.
(** Ranges are pairs, the BMS configuration the tuple of its fields. *)
Abbreviation R := (Z * Z)%type.
Record bc : Type := mk_bc {
  f1 : R; f2 : R; f3 : R; f4 : R; f5 : R; f6 : R; f7 : Z; f8 : R; f9 : Z; f10 : R
}.
#[export] Instance config : BmsConfig R R R bc := {
  bms_config := mk_bc;
  charge_current_limts := f1; discharge_current_limts := f2; current_sensor_limts := f3;
  bc_pack_volts := f4; bc_cell_temperatures := f5; bc_pack_temperatures := f6;
  bc_cell_millivolt_peak := f7; bc_cells_mv := f8; bc_cell_millivolt_delta_max := f9; bc_soc := f10;
}.
#[export] Instance config_laws : BmsConfigLaws R R R bc.
Proof. by split; intros; repeat split. Qed.

Definition defaults : Config.t R R R := Config.default id pair pair pair.

(** A parser that knows one address. *)
#[export] Instance ips : ParseIp Z := fun s => if bool_decide (s = str "10.0.0.7") then Some 7 else None.
End SampleConfig.
Import SampleConfig.

Lemma config_roundtrip_witness :
  Config.import_from_bms (Config.export_as_bms defaults) defaults = defaults.
Proof. refine (proj2 (proj1 (proj2 (config_roundtrip config_laws defaults defaults))) _). reflexivity. Defined.

(** The netmask is not looked at. *)
Example net_config_netmask :
  NetConfig.get_config (H0 := list_vec)
    (NetConfig.new false (Some (str "10.0.0.7")) (Some (str "255.0.0.0")) None None) =
  Ok (NetConfig.Ipv4Static (7, 24) [] None).
Proof. reflexivity. Qed.
