(* ===== verification/Settings.v ===== *)
(** The settings of a build: the texts of the environment that the tasks parse
    when they start, in ntp/ntp_process.rs, mqtt.rs and hal/mod.rs of
    stm32f407_controller/src/bin, and [ntp_task] from its setting on.

    [parse_uint] is [str::parse] of an unsigned integer, [rsplit_once] that of
    [str]; both are the standard library's.  A text that does not parse stops
    the task that wants it: [expect] panics. *)
From stdpp Require Import strings.
From S2P Require Import Prelude.
From S2P Require Import Writer.
From S2P Require Import Sntp.
From S2P Require Import NtpTask.
From S2P Require Import Config.

#[local] Open Scope list_scope.

(** ** Parsing *)

(** The digits of a number of [w] bits, after what is read. *)
Fixpoint parse_digits (w acc : Z) (s : list Z) : option Z :=
  match s with
  | [] => Some acc
  | d :: s =>
    if (48 <=? d) && (d <=? 57) then
      let acc := 10 * acc + (d - 48) in
      if acc <? 2 ^ w then parse_digits w acc s else None
    else None
  end.

(** A plus sign may come before the digits; there must be one digit. *)
Definition parse_uint (w : Z) (s : list Z) : option Z :=
  match s with
  | [] => None
  | [43] => None
  | 43 :: s => parse_digits w 0 s
  | s => parse_digits w 0 s
  end.

(** At the last occurrence of a character. *)
Fixpoint rsplit_once (c : Z) (s : list Z) : option (list Z * list Z) :=
  match s with
  | [] => None
  | d :: s =>
    match rsplit_once c s with
    | Some (a, b) => Some (d :: a, b)
    | None => if d =? c then Some ([], s) else None
    end
  end.

(** ** The tasks' settings *)

(** [env!] gives the texts that are there when the program is compiled. *)
Record env : Type := mk_env {
  NTPSERVER : list Z;
  MQTTHOST : list Z;
  MQTTPORT : list Z;
  MQTTCLIENTID : list Z;
  MQTTUSERNAME : list Z;
  MQTTPASSWORD : list Z;
  MQTTBASETOPIC : list Z;
  MQTTQOS : list Z;
  MQTTRETAIN : list Z;
  MQTTINTERVAL : list Z;
  RS485BAUD : list Z
}.

Section settings.
Context {E : Type}.

(** [config.baudrate] of [rs485]. *)
Definition rs485_baudrate (e : env) : outcome E Z := unwrap (parse_uint 32 (RS485BAUD e)).

(** The configuration of [mqtt_net_task]; the setters are in the order of the
    source, so that the first text that does not parse stops the task. *)
Definition mqtt_settings (e : env) : outcome E MqttConfig.t :=
  let b := MqttConfig.builder in
  let b := MqttConfig.set_host (MQTTHOST e) b in
  port ← unwrap (parse_uint 16 (MQTTPORT e));
  let b := MqttConfig.set_port port b in
  let b := MqttConfig.set_client_id (MQTTCLIENTID e) b in
  let b := MqttConfig.set_username (MQTTUSERNAME e) b in
  let b := MqttConfig.set_password (MQTTPASSWORD e) b in
  let b := MqttConfig.set_basetopic (MQTTBASETOPIC e) b in
  qos ← unwrap (parse_uint 8 (MQTTQOS e));
  let b := MqttConfig.set_qos qos b in
  let b := MqttConfig.set_retain (bool_decide (MQTTRETAIN e = str "true")) b in
  interval ← unwrap (parse_uint 16 (MQTTINTERVAL e));
  let b := MqttConfig.set_interval interval b in
  Ok (MqttConfig.build b).

(** The server of [ntp_task]: an address and a port. *)
Definition ntp_endpoint {Ip : Type} `{ParseIp Ip} (e : env) : outcome E (Ip * Z) :=
  x ← unwrap (rsplit_once 58 (NTPSERVER e));
  let '(ntp_ip, port) := x in
  ntp_server_address ← unwrap (ip_from_str ntp_ip);
  ntp_port ← unwrap (parse_uint 16 port);
  Ok (ntp_server_address, ntp_port).
End settings.

(** ** [ntp_task] *)

(** The clock of the board, in the world; [tick] is the wait of a second. *)
Class Rtc (W NaiveDateTime : Type) : Type := {
  rtc_now : W -> option NaiveDateTime;
  set_datetime : NaiveDateTime -> W -> W;
  tick : W -> W;
  naive_min : NaiveDateTime;
}.

Section ntp.
Context `{Profile} {NaiveDateTime ChronoDateTime W Ip : Type}
  `{Chrono NaiveDateTime ChronoDateTime} `{UdpDriver W (Ip * Z)} `{ParseIp Ip} `{Rtc W NaiveDateTime}.

(** What the task asks the server, and what it does with the answer. *)
Definition synchronise (e : env) (now : NaiveDateTime) : M W NtpError unit :=
  if zlen (NTPSERVER e) =? 0 then mret tt
  else
    endpoint ← lift (ntp_endpoint e);
    time ← new_rtc_time (ChronoDateTime := ChronoDateTime) now endpoint;
    match time with
    | Some ntp_time => modify (set_datetime ntp_time)
    | None => mret tt
    end.

(** The loop, for a number of seconds: what it signals on [UTC_NOW]. *)
Fixpoint ticks (n : nat) : M W NtpError (list NaiveDateTime) :=
  match n with
  | O => mret []
  | S n =>
    modify tick ;;;
    now ← gets rtc_now;
    later ← ticks n;
    mret (match now with Some now => now :: later | None => later end)
  end.

Definition ntp_task (e : env) (n : nat) : M W NtpError (list NaiveDateTime) :=
  now ← gets rtc_now;
  synchronise e (default naive_min now) ;;;
  ticks n.
End ntp.

(** ** What parses *)

Lemma parse_digits_app w a b acc :
  parse_digits w acc (a ++ b) = x ← parse_digits w acc a; parse_digits w x b.
Proof.
  revert acc. induction a as [|d a IH]; intros acc; [done|]. cbn [app parse_digits].
  destruct (_ && _); [|done]. destruct (_ <? _); [|done]. apply IH.
Qed.

Lemma parse_digits_digits w fuel n :
  0 <= w -> 0 <= n < 10 ^ Z.of_nat fuel -> (1 <= fuel)%nat ->
  parse_digits w 0 (digits fuel n) = if n <? 2 ^ w then Some n else None.
Proof.
  intros Hw. revert n. induction fuel as [|fuel IH]; intros n Hn Hf; [lia|]. cbn [digits].
  destruct (Z.ltb_spec n 10).
  - cbn [parse_digits]. rewrite (proj2 (Z.leb_le 48 _)), (proj2 (Z.leb_le _ 57)) by lia. cbn [andb].
    by replace (10 * 0 + (48 + n - 48)) with n by lia.
  - pose proof (Z.div_mod n 10 ltac:(lia)). pose proof (Z.mod_pos_bound n 10 ltac:(lia)).
    destruct fuel as [|fuel]; [cbn in Hn; lia|].
    assert (Hd : 0 <= n / 10 < 10 ^ Z.of_nat (S fuel)).
    { replace (Z.of_nat (S (S fuel))) with (1 + Z.of_nat (S fuel)) in Hn by lia.
      rewrite Z.pow_add_r in Hn by lia. split; [apply Z.div_pos; lia|].
      apply Z.div_lt_upper_bound; lia. }
    rewrite parse_digits_app, IH by lia. destruct (Z.ltb_spec (n / 10) (2 ^ w)).
    + cbn [mbind option_bind parse_digits].
      rewrite (proj2 (Z.leb_le 48 _)), (proj2 (Z.leb_le _ 57)) by lia. cbn [andb].
      by replace (10 * (n / 10) + (48 + n mod 10 - 48)) with n by lia.
    + by rewrite (proj2 (Z.ltb_ge n (2 ^ w))) by lia.
Qed.

(** A number that has been printed is read back, if it has at most [w] bits. *)
Lemma parse_decimal w n :
  0 <= w -> 0 <= n < 2 ^ 64 -> parse_uint w (decimal n) = if n <? 2 ^ w then Some n else None.
Proof.
  intros Hw Hn.
  assert (Hp : parse_digits w 0 (decimal n) = if n <? 2 ^ w then Some n else None).
  { apply parse_digits_digits; [lia| |lia]. change (10 ^ Z.of_nat 20) with (10 ^ 20). lia. }
  pose proof (digits_range 20 n ltac:(lia)) as Hr. fold (decimal n) in Hr.
  pose proof (zlen_decimal_pos n). unfold parse_uint. destruct (decimal n) as [|d l];
    [change (zlen []) with 0 in *; lia|].
  apply List.Forall_cons_iff in Hr as [Hd _].
  assert (Hd43 : d <> 43) by lia. clear Hd. destruct d as [|p|p]; [done| |done].
  do 6 (destruct p as [p|p|]; try done).
Qed.

Lemma rsplit_none c s : Forall (fun d => d <> c) s -> rsplit_once c s = None.
Proof.
  induction s as [|d s IH]; [done|]. intros Hs. apply List.Forall_cons_iff in Hs as [Hd Hs].
  cbn. rewrite IH by done. by rewrite (proj2 (Z.eqb_neq _ _)).
Qed.

Lemma rsplit_last c a b : Forall (fun d => d <> c) b -> rsplit_once c (a ++ c :: b) = Some (a, b).
Proof.
  intros Hb. induction a as [|d a IH]; cbn [app rsplit_once].
  - by rewrite rsplit_none, Z.eqb_refl.
  - by rewrite IH.
Qed.

(** ** Properties *)

(** A text of a number. *)
Definition number (n : Z) : Prop := 0 <= n < 2 ^ 64.

Lemma decimal_no_colon n : 0 <= n -> Forall (fun d => d <> 58) (decimal n).
Proof. intros Hn. eapply List.Forall_impl; [|by apply (digits_range 20)]. cbn. lia. Qed.

(** C36: the settings.  Numbers that are written in decimal are taken for what they
    are, if they fit their types: the server of the clock is the address before
    the last colon and the port behind it, and the MQTT client gets the port, the
    quality of service and the interval of its texts.  Any of them that is too
    large stops its task when it starts. *)
Theorem settings_parsed {Ip E : Type} `{ParseIp Ip} (e : env) address (ip : Ip) p b mp q i
  (Hip : ip_from_str address = Some ip)
  (Hnum : number p /\ number b /\ number mp /\ number q /\ number i)
  (Hntp : NTPSERVER e = address ++ str ":" ++ decimal p)
  (Hbaud : RS485BAUD e = decimal b) (Hport : MQTTPORT e = decimal mp)
  (Hqos : MQTTQOS e = decimal q) (Hint : MQTTINTERVAL e = decimal i) :
  ntp_endpoint (E := E) e = (if p <? 2 ^ 16 then Ok (ip, p) else Panic PUnwrap) /\
  rs485_baudrate (E := E) e = (if b <? 2 ^ 32 then Ok b else Panic PUnwrap) /\
  (mp < 2 ^ 16 /\ q < 2 ^ 8 /\ i < 2 ^ 16 ->
   exists c, mqtt_settings (E := E) e = Ok c /\
     MqttConfig.host c = Some (MQTTHOST e) /\ MqttConfig.port c = Some mp /\
     MqttConfig.username c = Some (MQTTUSERNAME e) /\ MqttConfig.password c = Some (MQTTPASSWORD e) /\
     MqttConfig.basetopic c = Some (MQTTBASETOPIC e) /\ MqttConfig.qos c = q /\
     MqttConfig.retain c = bool_decide (MQTTRETAIN e = str "true") /\ MqttConfig.interval c = i) /\
  (2 ^ 16 <= mp \/ 2 ^ 8 <= q \/ 2 ^ 16 <= i -> mqtt_settings (E := E) e = Panic PUnwrap).
Proof.
  destruct Hnum as (Hp & Hb & Hmp & Hq & Hi). unfold number in *.
  assert (Hparse : mqtt_settings (E := E) e =
    if mp <? 2 ^ 16 then if q <? 2 ^ 8 then if i <? 2 ^ 16
      then Ok (MqttConfig.build (MqttConfig.set_interval i (MqttConfig.set_retain
        (bool_decide (MQTTRETAIN e = str "true")) (MqttConfig.set_qos q (MqttConfig.set_basetopic (MQTTBASETOPIC e)
        (MqttConfig.set_password (MQTTPASSWORD e) (MqttConfig.set_username (MQTTUSERNAME e)
        (MqttConfig.set_client_id (MQTTCLIENTID e) (MqttConfig.set_port mp
        (MqttConfig.set_host (MQTTHOST e) MqttConfig.builder))))))))))
      else Panic PUnwrap else Panic PUnwrap else Panic PUnwrap).
  { unfold mqtt_settings. rewrite Hport, Hqos, Hint, !parse_decimal by lia.
    destruct (mp <? 2 ^ 16); [|done]. destruct (q <? 2 ^ 8); [|done]. by destruct (i <? 2 ^ 16). }
  split; [|split; [|split]].
  - unfold ntp_endpoint. rewrite Hntp. change (str ":" ++ decimal p) with (58 :: decimal p).
    rewrite rsplit_last by (by apply decimal_no_colon; lia). cbn [unwrap mbind outcome_bind].
    rewrite Hip, parse_decimal by lia. cbn [unwrap mbind outcome_bind]. by destruct (p <? 2 ^ 16).
  - unfold rs485_baudrate. rewrite Hbaud, parse_decimal by lia. by destruct (b <? 2 ^ 32).
  - intros (Hm' & Hq' & Hi'). rewrite Hparse.
    rewrite (proj2 (Z.ltb_lt mp _)), (proj2 (Z.ltb_lt q _)), (proj2 (Z.ltb_lt i _)) by done.
    eexists. split; [reflexivity|]. by repeat split.
  - intros Hbad. rewrite Hparse.
    destruct (Z.ltb_spec mp (2 ^ 16)), (Z.ltb_spec q (2 ^ 8)), (Z.ltb_spec i (2 ^ 16)); try done. lia.
Qed.

Section task.
Context `{Profile} {NaiveDateTime ChronoDateTime W Ip : Type}
  `{Chrono NaiveDateTime ChronoDateTime} `{UdpDriver W (Ip * Z)} `{ParseIp Ip} `{Rtc W NaiveDateTime}.

(** What the clock shows at the next [n] ticks, when it shows anything, and the
    world behind them. *)
Definition later (n : nat) (w : W) : W := Nat.iter n tick w.
Definition shows (n : nat) (w : W) : list NaiveDateTime := omap (fun k => rtc_now (later (S k) w)) (seq 0 n).

Lemma later_tick n w : later n (tick w) = later (S n) w.
Proof. unfold later. by rewrite Nat.iter_succ_r. Qed.

Lemma ticks_shows n : forall w, ticks n w = (Ok (shows n w), later n w).
Proof.
  induction n as [|n IH]; intros w; [done|]. cbn [ticks].
  do 2 erewrite bind_ok by reflexivity. rewrite (bind_ok _ _ _ _ _ (IH (tick w))), later_tick.
  unfold mret, M_ret. f_equal. f_equal. unfold shows. cbn [seq omap list_omap].
  change (later 1 w) with (tick w). rewrite <- (fmap_S_seq 0 n).
  assert (Hs : omap (fun k => rtc_now (later (S k) (tick w))) (seq 0 n) =
    omap (fun k => rtc_now (later (S k) w)) (S <$> seq 0 n)).
  { generalize (seq 0 n) as l. induction l as [|k l IHl]; [done|]. cbn [omap list_omap fmap list_fmap].
    rewrite later_tick. by rewrite IHl. }
  rewrite Hs. by destruct (rtc_now (tick w)).
Qed.

(** The task, by its setting and the answer to its only request. *)
Lemma ntp_task_spec (e : env) n w :
  (NTPSERVER e = [] -> ntp_task (ChronoDateTime := ChronoDateTime) e n w = (Ok (shows n w), later n w)) /\
  (NTPSERVER e <> [] -> forall endpoint, ntp_endpoint (E := NtpError) e = Ok endpoint ->
   let asked := new_rtc_time (ChronoDateTime := ChronoDateTime) (default naive_min (rtc_now w)) endpoint w in
   forall time w', asked = (Ok time, w') ->
   let w'' := match time with Some t => set_datetime t w' | None => w' end in
   ntp_task (ChronoDateTime := ChronoDateTime) e n w = (Ok (shows n w''), later n w'')).
Proof.
  split.
  - intros He. unfold ntp_task. erewrite bind_ok by reflexivity.
    erewrite bind_ok by (unfold synchronise; rewrite He; reflexivity). apply ticks_shows.
  - intros He endpoint Hep asked time w' Ha w''. unfold ntp_task. erewrite bind_ok by reflexivity.
    erewrite bind_ok.
    + apply ticks_shows.
    + unfold synchronise. pose proof (zlen_nonneg (NTPSERVER e)).
      destruct (Z.eqb_spec (zlen (NTPSERVER e)) 0) as [Hz|_].
      { destruct (NTPSERVER e); [done|]. rewrite zlen_cons in Hz. pose proof (zlen_nonneg l). lia. }
      erewrite bind_ok by (unfold lift; rewrite Hep; reflexivity).
      rewrite (bind_ok _ _ _ _ _ Ha). by destruct time.
Qed.
End task.

(** ** At concrete inputs *)

Module SampleSettings.
Definition e : env :=
  mk_env (str "10.0.0.7:123") (str "10.0.0.7") (str "1883") (str "toucan") (str "user") [] (str "bms")
    (str "1") (str "true") (str "10") (str "9600").
End SampleSettings.
Import SampleConfig.

Lemma settings_parsed_witness :
  ntp_endpoint (E := unit) SampleSettings.e = Ok (7, 123) /\
  exists c, mqtt_settings (E := unit) SampleSettings.e = Ok c /\ MqttConfig.qos c = 1.
Proof.
  destruct (settings_parsed (E := unit) SampleSettings.e (str "10.0.0.7") 7 123 9600 1883 1 10 eq_refl
    ltac:(unfold number; lia) eq_refl eq_refl eq_refl eq_refl eq_refl) as (H1 & _ & H2 & _).
  split; [exact H1|]. destruct (H2 ltac:(lia)) as (c & Hc & _ & _ & _ & _ & _ & Hq & _).
  exists c. exact (conj Hc Hq).
Defined.
