(* ===== verification/MqttTask.v ===== *)
(** The MQTT task and the console task:
    stm32f407_controller/src/bin/tasks/mqtt.rs.

    [session] is one connection to the broker, from the set-up of the client to
    the [break] of the inner loop; [turn] is one turn of that loop.  The JSON
    printer (miniserde) and [bms_standard] are parameters; the waits between the
    turns are not modelled. *)
From stdpp Require Import strings.
From S2P Require Import Prelude.
From S2P Require Import Utf8.
From S2P Require Import Types.
From S2P Require Import Vbi.
From S2P Require Import Heapless.
From S2P Require Import Codes.
From S2P Require Import Property.
From S2P Require Import Packet.
From S2P Require Import Acks.
From S2P Require Import ServerPackets.
From S2P Require Import PublishPacket.
From S2P Require Import ConnectPacket.
From S2P Require Import ClientConfig.
From S2P Require Import Network.
From S2P Require Import RawClient.
From S2P Require Import MqttClient.
From S2P Require Import Inverter.
From S2P Require Import Writer.
From S2P Require Import Errors.
From S2P Require Import Config.

#[local] Open Scope list_scope.

(** ** [MqttFormat] *)

(** What the message reads of [bms_standard::Bms]. *)
Class BmsReadings (Bms F : Type) : Type := {
  read_soc : Bms -> F;
  read_pack_volts : Bms -> F;
  cell_range_mv_maximum : Bms -> Z;
  cell_range_mv_minimum : Bms -> Z;
  temps_maximum : Bms -> F;
  temps_minimum : Bms -> F;
  read_current : Bms -> F;
  kwh_remaining : Bms -> F;
  charge_max : Bms -> F;
  discharge_max : Bms -> F;
  get_balancing_cells : Bms -> Z;
  read_valid : Bms -> bool;
}.

Module MqttFormat.
Record t {F : Type} : Type := mk {
  soc : F;
  volts : F;
  cell_mv_high : Z;
  cell_mv_low : Z;
  cell_temp_high : F;
  cell_temp_low : F;
  amps : F;
  kwh : F;
  charge : F;
  discharge : F;
  bal : Z;
  valid : bool
}.
Arguments t F : clear implicits.

Definition from {Bms F : Type} `{BmsReadings Bms F} (bmsdata : Bms) : t F :=
  mk F (read_soc bmsdata) (read_pack_volts bmsdata) (cell_range_mv_maximum bmsdata)
    (cell_range_mv_minimum bmsdata) (temps_maximum bmsdata) (temps_minimum bmsdata)
    (read_current bmsdata) (kwh_remaining bmsdata) (charge_max bmsdata) (discharge_max bmsdata)
    (get_balancing_cells bmsdata) (read_valid bmsdata).

Definition default {F : Type} (zero : F) : t F :=
  mk F zero zero 0 0 zero zero zero zero zero zero 0 false.
End MqttFormat.

(** [json::to_string] of the message. *)
Class FormatJson (Fmt : Type) : Type := format_json : Fmt -> list Z.

Definition device_update_msg {Fmt : Type} `{FormatJson Fmt} (self : Fmt) : list Z :=
  format_json self.

(** ** [mqtt_net_task] *)

Definition BUF_SIZE : Z := 1500.

Module MqttMessage.
Record t : Type := mk {
  topic : list Z;
  payload : list Z;
  qos : QualityOfService.t;
  retain : bool
}.
End MqttMessage.

(** [b"Online"] *)
Definition will_message : list Z := str "Online".

(** What a turn of the inner loop ends with; [Retry] is the outer loop's
    [continue]. *)
Inductive flow : Type := Continue | Break | Retry.

Definition is_empty (s : list Z) : bool := zlen s =? 0.

(** [let qos = match mqtt_config.get_qos() { .. }] *)
Definition task_qos (q : Z) : QualityOfService.t :=
  if q =? 1 then QualityOfService.QoS1
  else if q =? 2 then QualityOfService.QoS2
  else QualityOfService.QoS0.

Section task.
Context `{Profile} `{HeaplessVec} {T : Type} `{Io T} {Fmt : Type} `{FormatJson Fmt}.
Context (fuel : nat) (mqtt_config : MqttConfig.t) (will_topic : list Z).

Abbreviation client := (RawMqttClient.t T 5 CountingRng.t).

Definition client_config {E} : outcome E (ClientConfig.t 5 CountingRng.t) :=
  let config := ClientConfig.new MQTTv5 (CountingRng.mk 50000) in
  username ← MqttConfig.get_username mqtt_config;
  let config := if is_empty username then ClientConfig.add_username username config else config in
  let config := ClientConfig.add_username username config in
  password ← MqttConfig.get_password mqtt_config;
  let config :=
    if negb (is_empty password) then ClientConfig.add_password password config else config in
  let config := ClientConfig.add_will will_topic will_message
    (MqttConfig.get_retain mqtt_config) config in
  let config := ClientConfig.set_max_packet_size 6000 config in
  let config := ClientConfig.set_keep_alive 60000 config in
  Ok (ClientConfig.set_max_packet_size 300 config).

Definition task_client (tcp : T) (config : ClientConfig.t 5 CountingRng.t) : client :=
  MqttClient.new tcp (replicate (Z.to_nat BUF_SIZE) 0) BUF_SIZE
    (replicate (Z.to_nat BUF_SIZE) 0) BUF_SIZE config.

(** [fmt] is what [MQTTFMT.try_lock()] gives. *)
Definition turn {E} (fmt : option Fmt) : M client E flow :=
  ping ← attempt (MqttClient.send_ping fuel);
  match ping with
  | inr _ =>
    disconnected ← attempt MqttClient.disconnect;
    reconnected ← attempt (MqttClient.connect_to_broker fuel);
    mret Break
  | inl _ =>
    match fmt with
    | None => mret Break
    | Some fmt =>
      let p := device_update_msg fmt in
      topic ← lift (MqttConfig.get_topic mqtt_config);
      let message := MqttMessage.mk topic p (task_qos (MqttConfig.get_qos mqtt_config))
        (MqttConfig.get_retain mqtt_config) in
      sent ← attempt (MqttClient.send_message fuel (MqttMessage.topic message)
        (MqttMessage.payload message) (MqttMessage.qos message) (MqttMessage.retain message));
      match sent with
      | inr _ => mret Break
      | inl _ => mret Continue
      end
    end
  end.

(** The inner loop over the messages of its turns. *)
Fixpoint inner {E} (fmts : list (option Fmt)) : M client E flow :=
  match fmts with
  | [] => mret Continue
  | fmt :: fmts =>
    f ← turn fmt;
    match f with
    | Continue => inner fmts
    | f => mret f
    end
  end.

Definition session {E} (tcp : T) (fmts : list (option Fmt)) : outcome E (flow * client) :=
  config ← client_config;
  let '(r, client) :=
    (connected ← attempt (MqttClient.connect_to_broker fuel);
     match connected with
     | inr _ => mret Retry
     | inl _ => inner fmts
     end) (task_client tcp config) in
  f ← r;
  Ok (f, client).

(** The outer loop over what [client.connect(addr)] gives: the sessions it ran,
    the first first. *)
Fixpoint mqtt_net_task {E} {Ip : Type} `{ParseIp Ip} (conns : list (option T * list (option Fmt)))
  : outcome E (list (flow * client)) :=
  match conns with
  | [] => Ok []
  | (tcp, fmts) :: conns =>
    addr ← unwrap_res (MqttConfig.try_into_socket_addr (Ip := Ip) mqtt_config);
    match tcp with
    | None => mqtt_net_task (Ip := Ip) conns
    | Some tcp =>
      s ← session tcp fmts;
      ss ← mqtt_net_task (Ip := Ip) conns;
      Ok (s :: ss)
    end
  end.
End task.

(** ** [uart_task] *)

Module Uart.
(** What the task keeps: the writes it has made, the time of its last report,
    [CONFIG] and the configuration of [BMS]. *)
Record t {C BC : Type} : Type := mk {
  tx : list (list Z);
  mqtt_frequency : Z;
  config : C;
  bms_config : BC
}.
Arguments t C BC : clear implicits.
Arguments mk {C BC}.

(** What [select] gives: the bytes [&buf[..len]] of a read or its failure, or
    [SEND_MQTT]. *)
Inductive event : Type := Received (bytes : list Z) | ReadError | SendMqtt.

Section uart.
Context (TICK_HZ : Z) {C BC Fmt : Type} `{Json C} `{FormatJson Fmt} (export_as_bms : C -> BC).

(** [let _ = tx.write(bytes).await] *)
Definition write (bytes : list Z) (self : t C BC) : t C BC :=
  mk (tx self ++ [bytes]) (mqtt_frequency self) (config self) (bms_config self).

Definition set_config (c : C) (self : t C BC) : t C BC :=
  mk (tx self) (mqtt_frequency self) c (bms_config self).
Definition set_bms_config (bc : BC) (self : t C BC) : t C BC :=
  mk (tx self) (mqtt_frequency self) (config self) bc.

(** One turn of the loop, at the time [now] and with the message [fmt]. *)
Definition turn (now : Z) (fmt : Fmt) (ev : event) (self : t C BC) : t C BC :=
  match ev with
  | Received bytes =>
    let '(r, c) := decode_from_json bytes (config self) in
    let self := set_config c self in
    match r with
    | Ok _ =>
      let self := write (to_json c) self in
      set_bms_config (export_as_bms c) self
    | _ =>
      let self := write (str "{error: " ++ [34]) self in
      let self := write bytes self in
      let self := write ([34] ++ str "}") self in
      write (to_json c) self
    end
  | ReadError => self
  | SendMqtt =>
    if (now - mqtt_frequency self) / TICK_HZ <? LAST_READING_TIMEOUT_SECS then self
    else
      let self := mk (tx self) now (config self) (bms_config self) in
      write (device_update_msg fmt) self
  end.
End uart.
End Uart.

(** ** The task against a broker *)

Import RawMqttClient.

Section broker.
Context `{Profile} `{HeaplessVec} {T : Type} `{IoLaws T} {Fmt : Type} `{FormatJson Fmt}.
Hypothesis writes_ok : no_write_fails T.
Context (fuel : nat) (conf : MqttConfig.t) (will_topic : list Z) (topic : list Z).
Hypothesis base_topic : MqttConfig.basetopic conf = Some topic.
Hypothesis topic_ok : zlen topic < 2 ^ 16 /\ bytes_ok topic /\ valid_utf8 topic = true.

(** The PUBLISH packet of a message, and the broker's answers to a turn:
    PINGRESP, and PUBACK at QoS 1. *)
Definition publication (id : Z) (fmt : Fmt) : PublishPacket.t 5 :=
  publish_packet topic (device_update_msg fmt) (task_qos (MqttConfig.qos conf))
    (MqttConfig.retain conf) id.

Definition acknowledged : bool := bool_decide (task_qos (MqttConfig.qos conf) = QualityOfService.QoS1).

Definition answer (a : PubackPacket.t 5) : list Z :=
  [0xD0; 0] ++ if acknowledged then PubackPacket.bytes a else [].

(** The broker acknowledges the identifier without an error, and the packets fit
    the buffers. *)
Definition good_round (id : Z) (fmt : Fmt) (a : PubackPacket.t 5) : Prop :=
  bytes_ok (device_update_msg fmt) /\
  zlen topic + zlen (device_update_msg fmt) + 10 <= BUF_SIZE /\
  PubackPacket.wf a /\ Forall plain (PubackPacket.properties a) /\
  PubackPacket.reason_code a = 0 /\ PubackPacket.packet_identifier a = id /\
  2 * zlen (PubackPacket.bytes a) <= BUF_SIZE /\ (length (PubackPacket.bytes a) <= fuel)%nat.

Lemma publish_round (cfg : ClientConfig.t 5 CountingRng.t) c out more
    (self : RawMqttClient.t T 5 CountingRng.t) fmt a :
  ClientConfig.mqtt_version cfg = MQTTv5 -> ClientConfig.rng cfg = CountingRng.mk c ->
  0 <= c <= 65535 -> good_round (CountingRng.next c) fmt a ->
  at_rest BUF_SIZE BUF_SIZE BUF_SIZE cfg out
    ((if acknowledged then PubackPacket.bytes a else []) ++ more) self ->
  exists self',
    MqttClient.send_message fuel topic (device_update_msg fmt) (task_qos (MqttConfig.qos conf))
      (MqttConfig.retain conf) self = (Ok tt, self') /\
    at_rest BUF_SIZE BUF_SIZE BUF_SIZE (ClientConfig.set_rng (CountingRng.mk (CountingRng.next c)) cfg)
      (out ++ PublishPacket.bytes (publication (CountingRng.next c) fmt)) more self'.
Proof.
  intros Hv Hrng Hc (Hm & Hsize & Ha & Hpl & Hreason & Hid & Hsmall & Hf) Hs.
  unfold BUF_SIZE in *. pose proof (zlen_nonneg (device_update_msg fmt)).
  destruct (CountingRng.next_u32_ok (E := ReasonCode.t) (CountingRng.mk c) Hc) as (Hnext & _ & Hr).
  cbn [CountingRng.ctr] in *. rewrite <- Hrng in Hnext.
  assert (Hw : wrap 16 (CountingRng.next c) = CountingRng.next c) by (apply wrap_small; lia).
  pose proof topic_ok as (Ht & Hb & Hu).
  destruct (raw_send_message_ok (MAX_PROPERTIES := 5) writes_ok ltac:(lia) 1500 1500 1500 cfg _ self Hv topic (device_update_msg fmt)
    (MqttConfig.retain conf) _ _ topic_ok Hm ltac:(unfold MAX_ENCODABLE; lia) Hnext
    (task_qos (MqttConfig.qos conf)) _ Hs) as (s2 & Hsend & Hs2).
  { rewrite Hw. etransitivity; [apply zlen_publish_packet; try done; unfold MAX_ENCODABLE; lia|lia]. }
  rewrite Hw in Hsend, Hs2. fold (publication (CountingRng.next c) fmt) in Hs2.
  unfold MqttClient.send_message. rewrite (bind_ok _ _ _ _ _ Hsend).
  fold acknowledged. destruct acknowledged; [|by exists s2].
  destruct (poll_puback fuel 0 1500 1500 1500
    (ClientConfig.set_rng (CountingRng.mk (CountingRng.next c)) cfg)
    (out ++ PublishPacket.bytes (publication (CountingRng.next c) fmt)) more s2 a Ha Hpl) as (s3 & Hp & Hs3);
    [split; [done|lia]|].
  rewrite Hreason in Hp. rewrite (bind_ok _ _ _ _ _ Hp), Hid, Z.eqb_refl. by exists s3.
Qed.

Lemma turn_round {E} (cfg : ClientConfig.t 5 CountingRng.t) c out more
    (self : RawMqttClient.t T 5 CountingRng.t) fmt a :
  ClientConfig.mqtt_version cfg = MQTTv5 -> ClientConfig.rng cfg = CountingRng.mk c ->
  0 <= c <= 65535 -> (2 <= fuel)%nat -> good_round (CountingRng.next c) fmt a ->
  at_rest BUF_SIZE BUF_SIZE BUF_SIZE cfg out (answer a ++ more) self ->
  exists self',
    turn (E := E) fuel conf (Some fmt) self = (Ok Continue, self') /\
    at_rest BUF_SIZE BUF_SIZE BUF_SIZE (ClientConfig.set_rng (CountingRng.mk (CountingRng.next c)) cfg)
      (out ++ [0xC0; 0] ++ PublishPacket.bytes (publication (CountingRng.next c) fmt)) more self'.
Proof.
  intros Hv Hrng Hc Hfuel Hround Hs. unfold answer in Hs. rewrite <- app_assoc in Hs.
  destruct (send_ping_pingresp writes_ok fuel BUF_SIZE BUF_SIZE BUF_SIZE cfg out _ self Hv 0xD0
    ltac:(concrete) eq_refl Hs ltac:(done) ltac:(done) Hfuel) as (s1 & Hping & Hs1).
  destruct (publish_round cfg c _ more s1 fmt a Hv Hrng Hc Hround Hs1) as (s2 & Hsent & Hs2).
  rewrite <- app_assoc in Hs2. exists s2. split; [|done].
  unfold turn. rewrite (bind_ok _ _ _ _ _ (attempt_ok _ _ _ _ Hping)). cbv iota zeta.
  rewrite (bind_ok _ _ _ topic s1) by (unfold lift, MqttConfig.get_topic; by rewrite base_topic).
  by rewrite (bind_ok _ _ _ _ _ (attempt_ok _ _ _ _ Hsent)).
Qed.

(** A conversation: the messages of the turns and the broker's acknowledgements,
    the first with the identifier after [c]. *)
Fixpoint good_rounds (c : Z) (rounds : list (Fmt * PubackPacket.t 5)) : Prop :=
  match rounds with
  | [] => True
  | (fmt, a) :: rounds =>
    good_round (CountingRng.next c) fmt a /\ good_rounds (CountingRng.next c) rounds
  end.

Fixpoint requests (c : Z) (rounds : list (Fmt * PubackPacket.t 5)) : list Z :=
  match rounds with
  | [] => []
  | (fmt, _) :: rounds =>
    [0xC0; 0] ++ PublishPacket.bytes (publication (CountingRng.next c) fmt)
    ++ requests (CountingRng.next c) rounds
  end.

Definition broker_answers (rounds : list (Fmt * PubackPacket.t 5)) : list Z :=
  concat (map (fun '(_, a) => answer a) rounds).

Lemma inner_rounds {E} rounds : forall (cfg : ClientConfig.t 5 CountingRng.t) c out more
    (self : RawMqttClient.t T 5 CountingRng.t),
  ClientConfig.mqtt_version cfg = MQTTv5 -> ClientConfig.rng cfg = CountingRng.mk c ->
  0 <= c <= 65535 -> (2 <= fuel)%nat -> good_rounds c rounds ->
  at_rest BUF_SIZE BUF_SIZE BUF_SIZE cfg out (broker_answers rounds ++ more) self ->
  exists self' cfg',
    inner (E := E) fuel conf (map (fun '(fmt, _) => Some fmt) rounds) self = (Ok Continue, self') /\
    at_rest BUF_SIZE BUF_SIZE BUF_SIZE cfg' (out ++ requests c rounds) more self'.
Proof.
  induction rounds as [|[fmt a] rounds IH]; intros cfg c out more self Hv Hrng Hc Hfuel Hgood Hs.
  { exists self, cfg. cbn. by rewrite app_nil_r. }
  destruct Hgood as [Hround Hgood]. unfold broker_answers in Hs. cbn [map concat] in Hs.
  rewrite <- app_assoc in Hs.
  destruct (turn_round (E := E) cfg c out _ self fmt a Hv Hrng Hc Hfuel Hround Hs) as (s1 & Hturn & Hs1).
  assert (Hc' : 0 <= CountingRng.next c <= 65535)
    by (unfold CountingRng.next; destruct (Z.eqb_spec c 65535); lia).
  destruct (IH (ClientConfig.set_rng (CountingRng.mk (CountingRng.next c)) cfg) _ _ more s1
    Hv eq_refl Hc' Hfuel Hgood Hs1) as (s2 & cfg' & Hin & Hs2).
  exists s2, cfg'. cbn [map inner]. rewrite (bind_ok _ _ _ _ _ Hturn). split; [done|].
  cbn [requests]. by rewrite <- !app_assoc in Hs2.
Qed.
(** The configuration of the task's client when it connects, and its CONNECT
    packet: no client identifier, whatever the configuration says. *)
Definition task_config (username password : list Z) (properties : list Property.t)
  : ClientConfig.t 5 CountingRng.t :=
  ClientConfig.mk QualityOfService.QoS0 60000 true (EncodedString.of_str username)
    (negb (is_empty password))
    (if is_empty password then BinaryData.new else BinaryData.of_bytes password)
    properties 300 MQTTv5 (CountingRng.mk 50000) true (EncodedString.of_str will_topic)
    (BinaryData.of_bytes will_message) (MqttConfig.retain conf) EncodedString.new.

Definition task_connect (username password : list Z) : ConnectPacket.t 5 0 :=
  ConnectPacket.mk 0x10 0 4 0x4d515454 5
    (Z.lor 0x86 (Z.lor (if is_empty password then 0 else 0x40)
       (if MqttConfig.retain conf then 0x20 else 0)))
    60000 5 [Property.MaximumPacketSize 300] EncodedString.new 0 []
    (EncodedString.of_str will_topic) (BinaryData.of_bytes will_message)
    (EncodedString.of_str username)
    (if is_empty password then BinaryData.new else BinaryData.of_bytes password).

(** The credentials of the configuration, which fit the write buffer. *)
Definition credentials (username password : list Z) : Prop :=
  MqttConfig.username conf = Some username /\ MqttConfig.password conf = Some password /\
  bytes_ok username /\ valid_utf8 username = true /\ bytes_ok password /\
  bytes_ok will_topic /\ valid_utf8 will_topic = true /\
  zlen username + zlen password + zlen will_topic <= 1456.

Lemma client_config_ok {E} username password :
  credentials username password ->
  client_config (E := E) conf will_topic = Ok (task_config username password []).
Proof.
  intros (Hu & Hp & _). unfold client_config, MqttConfig.get_username, MqttConfig.get_password.
  rewrite Hu, Hp. cbn [unwrap mbind outcome_bind].
  by destruct (is_empty username) eqn:?, (is_empty password) eqn:Hpw; unfold task_config; rewrite Hpw.
Qed.

Lemma task_config_connects username password :
  (ClientConfig.add_max_packet_size_as_prop (task_config username password [])).2 =
    task_config username password [Property.MaximumPacketSize 300].
Proof.
  unfold ClientConfig.add_max_packet_size_as_prop.
  change (zlen (ClientConfig.properties (task_config username password []))) with 0.
  cbn. by rewrite push_room by done.
Qed.

Lemma task_connect_packet username password :
  connect_packet (task_config username password [Property.MaximumPacketSize 300]) =
    Ok (task_connect username password).
Proof.
  unfold connect_packet, add_properties.
  set (ps := [Property.MaximumPacketSize 300]). set (p := ConnectPacket.set_keep_alive _ _).
  assert (Hps : Forall (fun x => Property.wf x /\ zlen (Property.payload x) < 2 ^ 16) ps)
    by (constructor; [concrete|done]).
  pose proof (add_properties_loop_ok (E := ReasonCode.t) ps p 0 Hps) as Hadd.
  change (List.filter (property_allowed p) ps) with ps in Hadd.
  specialize (Hadd ltac:(done) ltac:(done)). rewrite push_properties_room in Hadd by done.
  change (ClientConfig.properties (task_config username password ps)) with ps.
  rewrite Hadd. unfold task_connect, task_config.
  by destruct (is_empty password), (MqttConfig.retain conf).
Qed.

Lemma task_config_ok username password :
  credentials username password ->
  config_ok (task_config username password [Property.MaximumPacketSize 300]).
Proof.
  intros (_ & _ & Hub & Huu & Hpb & Hwb & Hwu & Hl).
  pose proof (zlen_nonneg username). pose proof (zlen_nonneg password).
  pose proof (zlen_nonneg will_topic).
  split; [constructor; [concrete|done]|]. do 2 (split; [done|]).
  split; [intros _; apply EncodedString_of_str_wf; by try lia|].
  split.
  { intros Hpw. cbn in Hpw |- *. destruct (is_empty password); [done|].
    apply BinaryData_of_bytes_wf; by try lia. }
  split; [intros _; split; [apply EncodedString_of_str_wf; by try lia|concrete]|apply EncodedString_new_wf].
Qed.

(** The CONNECT packet fits the write buffer. *)
Lemma zlen_task_connect username password :
  credentials username password ->
  vbi_ok (zlen (ConnectPacket.body (task_connect username password))) /\
  zlen (ConnectPacket.bytes (task_connect username password)) <= BUF_SIZE.
Proof.
  intros (_ & _ & _ & _ & _ & _ & _ & Hl). set (p := task_connect username password).
  pose proof (zlen_nonneg username). pose proof (zlen_nonneg password).
  pose proof (zlen_nonneg will_topic).
  assert (Hb : 0 <= zlen (ConnectPacket.body p) <= 38 + zlen username + zlen password + zlen will_topic).
  { split; [apply zlen_nonneg|].
    assert (Hs : forall s, zlen (EncodedString.bytes s) = 2 + zlen (EncodedString.string s))
      by (intros s; unfold EncodedString.bytes; by zlen).
    assert (Hd : forall d, zlen (BinaryData.bytes d) = 2 + zlen (BinaryData.bin d))
      by (intros d; unfold BinaryData.bytes; by zlen).
    assert (Hflags : ConnectPacket.has 0x04 p = true /\ ConnectPacket.has 0x80 p = true /\
      ConnectPacket.has 0x40 p = negb (is_empty password))
      by (unfold ConnectPacket.has, p, task_connect; by destruct (is_empty password), (MqttConfig.retain conf)).
    destruct Hflags as (Hfw & Hfu & Hfp).
    assert (Hw : zlen (ConnectPacket.will_bytes p) = 11 + zlen will_topic).
    { unfold ConnectPacket.will_bytes. rewrite Hfw, !zlen_app, Hs, Hd.
      change (zlen (BinaryData.bin _)) with 6. change (zlen (vbi_bytes _)) with 1.
      change (zlen (Property.list_bytes _)) with 0. cbn. lia. }
    assert (Hu : zlen (ConnectPacket.username_bytes p) = 2 + zlen username)
      by (unfold ConnectPacket.username_bytes; rewrite Hfu; apply Hs).
    assert (Hp : zlen (ConnectPacket.password_bytes p) <= 2 + zlen password).
    { unfold ConnectPacket.password_bytes. rewrite Hfp. subst p. unfold task_connect.
      cbn [ConnectPacket.password]. destruct (is_empty password); cbn [negb];
        [rewrite zlen_nil; lia|rewrite Hd; cbn [BinaryData.bin BinaryData.of_bytes]; lia]. }
    unfold ConnectPacket.body. zlen. rewrite Hw, Hu.
    change (zlen (vbi_bytes (ConnectPacket.property_len p))) with 1.
    change (zlen (Property.list_bytes (ConnectPacket.properties p))) with 5.
    change (zlen (EncodedString.bytes (ConnectPacket.client_id p))) with 2. lia. }
  pose proof (zlen_vbi_bytes (zlen (ConnectPacket.body p))).
  unfold ConnectPacket.bytes, vbi_ok, MAX_ENCODABLE, BUF_SIZE. zlen. lia.
Qed.

(** What connecting sends, and what it makes of the broker's answer. *)
Lemma task_connects username password (a : ConnackPacket.t 5) more tcp :
  credentials username password ->
  ConnackPacket.wf a -> Forall plain (ConnackPacket.properties a) ->
  2 * zlen (ConnackPacket.bytes a) <= BUF_SIZE -> (length (ConnackPacket.bytes a) <= fuel)%nat ->
  incoming tcp (ConnackPacket.bytes a ++ more) -> handed tcp = [] ->
  exists s,
    MqttClient.connect_to_broker fuel (task_client tcp (task_config username password [])) =
      (if ConnackPacket.connect_reason_code a =? 0 then Ok tt
       else Err (ReasonCode.from_u8 (ConnackPacket.connect_reason_code a)), s) /\
    at_rest BUF_SIZE BUF_SIZE BUF_SIZE
      (task_config username password [Property.MaximumPacketSize 300])
      (ConnectPacket.bytes (task_connect username password)) more s.
Proof.
  intros Hcred Ha Hpl Hsmall Hf Hin Hout. pose proof (zlen_task_connect _ _ Hcred) as [Hv Hfit].
  set (cfg0 := task_config username password []).
  assert (Hs : at_rest BUF_SIZE BUF_SIZE BUF_SIZE cfg0 [] (ConnackPacket.bytes a ++ more)
    (task_client tcp cfg0)).
  { exists tcp. do 3 (split; [done|]). by split. }
  set (cfg := task_config username password [Property.MaximumPacketSize 300]).
  assert (Hcfg : (ClientConfig.add_max_packet_size_as_prop cfg0).2 = cfg) by apply task_config_connects.
  destruct (raw_connect_ok writes_ok BUF_SIZE BUF_SIZE BUF_SIZE cfg0 [] (task_client tcp cfg0)
    eq_refl (task_connect username password) _
    ltac:(rewrite Hcfg; by apply task_config_ok) ltac:(rewrite Hcfg; apply task_connect_packet)
    Hv Hs Hfit) as (s1 & Hraw & Hs1).
  rewrite Hcfg in Hs1. cbn [app] in Hs1.
  destruct (poll_connack fuel 0 BUF_SIZE BUF_SIZE BUF_SIZE cfg
    (ConnectPacket.bytes (task_connect username password)) more s1 a Ha Hpl) as (s2 & Hpoll & Hs2);
    [split; [done|]; unfold BUF_SIZE in *; lia|].
  exists s2. split; [|done]. unfold MqttClient.connect_to_broker.
  rewrite (bind_ok _ _ _ _ _ Hraw). unfold mbind, M_bind. rewrite Hpoll. by destruct (_ =? 0).
Qed.


(** C38: a ping that fails ends the session.  When [send_ping] returns an error,
    whatever its cause (PINGREQ could not be written, the broker answered with
    DISCONNECT, or with anything else than PINGRESP, such as the PUBREC of a
    message at QoS 2), and the client still has its connection and its buffers,
    then the turn drops the connection, so that the reconnection it tries next is
    refused by the client itself, whatever the network would say; the session
    ends whatever the message was, and with no message handled. *)
Theorem mqtt_failed_ping {E} e fmt (self s1 : RawMqttClient.t T 5 CountingRng.t) :
  MqttClient.send_ping fuel self = (Err e, s1) ->
  connection s1 <> None -> ClientConfig.mqtt_version (config s1) = MQTTv5 ->
  4 <= buffer_len s1 <= zlen (buffer s1) ->
  exists s2,
    turn (E := E) (Fmt := Fmt) fuel conf fmt self = (Ok Break, s2) /\
    MqttClient.disconnect s1 = (Ok tt, s2) /\
    MqttClient.connect_to_broker fuel s2 = (Err ReasonCode.NetworkError, s2) /\
    connection s2 = None.
Proof.
  intros Hping Hconn Hv Hb.
  destruct (disconnect_ok (MAX_PROPERTIES := 5) ltac:(done) s1 Hconn Hv Hb) as (s2 & Hd & Hc & Hcfg).
  pose proof (connect_refused fuel s2 Hc ltac:(by rewrite Hcfg)) as Href.
  exists s2. split; [|done].
  unfold turn. rewrite (bind_ok _ _ _ _ _ (attempt_err _ _ _ _ Hping)).
  rewrite (bind_ok _ _ _ _ _ (attempt_ok _ _ _ _ Hd)).
  by rewrite (bind_ok _ _ _ _ _ (attempt_err _ _ _ _ Href)).
Qed.
End broker.

(** ** The console *)

Section console.
Context (TICK_HZ : Z) {C BC Fmt : Type} `{!Json C} `{!FormatJson Fmt} (export_as_bms : C -> BC).
Hypothesis ticks : 0 < TICK_HZ.
Implicit Types self : Uart.t C BC.

(** A run of the task: the times, messages and events of its turns. *)
Definition run (evs : list (Z * Fmt * Uart.event)) self : Uart.t C BC :=
  fold_left (fun self '(now, fmt, ev) => Uart.turn TICK_HZ export_as_bms now fmt ev self) evs self.

(** The times of the reports the run makes. *)
Fixpoint report_times (evs : list (Z * Fmt * Uart.event)) self : list Z :=
  match evs with
  | [] => []
  | (now, fmt, ev) :: evs =>
    let self' := Uart.turn TICK_HZ export_as_bms now fmt ev self in
    (if match ev with Uart.SendMqtt =>
          (now - Uart.mqtt_frequency self) / TICK_HZ >=? LAST_READING_TIMEOUT_SECS
        | _ => false end
     then [now] else []) ++ report_times evs self'
  end.

(** Each is [d] or more after the one before. *)
Fixpoint spaced (d last : Z) (times : list Z) : Prop :=
  match times with
  | [] => True
  | t :: times => last + d <= t /\ spaced d t times
  end.

(** What the console is told takes effect at once and is confirmed: valid
    JSON replaces the configuration, and with it that of the BMS, and the new
    configuration is sent back; anything else is sent back between the two halves of
    an error message, followed by the configuration in force, and changes
    nothing.  A failed read does nothing. *)
Theorem console_commands now fmt bytes self :
  let decoded := if valid_utf8 bytes then json_from_str bytes else None in
  let self' := Uart.turn TICK_HZ export_as_bms now fmt (Uart.Received bytes) self in
  match decoded with
  | Some c =>
    Uart.config self' = c /\ Uart.bms_config self' = export_as_bms c /\
    Uart.tx self' = Uart.tx self ++ [json_to_string c]
  | None =>
    Uart.config self' = Uart.config self /\ Uart.bms_config self' = Uart.bms_config self /\
    Uart.tx self' = Uart.tx self ++
      [str "{error: " ++ [34]; bytes; [34] ++ str "}"; json_to_string (Uart.config self)]
  end /\
  Uart.mqtt_frequency self' = Uart.mqtt_frequency self /\
  Uart.turn TICK_HZ export_as_bms now fmt Uart.ReadError self = self.
Proof.
  cbv zeta. cbn [Uart.turn]. unfold decode_from_json, to_json.
  destruct (valid_utf8 bytes); cbn [negb]; [destruct (json_from_str bytes) as [c|]|];
    unfold throw, modify, Uart.write, Uart.set_config, Uart.set_bms_config; cbn [Uart.tx Uart.config];
    rewrite <- ?app_assoc; by repeat split.
Qed.

(** The reports of the console are at least ten seconds apart, and the BMS
    runs on the configuration of the console from the first valid one on. *)
Theorem console_reports_spaced evs self :
  spaced (LAST_READING_TIMEOUT_SECS * TICK_HZ) (Uart.mqtt_frequency self) (report_times evs self) /\
  (Uart.bms_config self = export_as_bms (Uart.config self) ->
   Uart.bms_config (run evs self) = export_as_bms (Uart.config (run evs self))).
Proof.
  revert self. induction evs as [|[[now fmt] ev] evs IH]; intros self; [done|].
  cbn [report_times run fold_left].
  set (self' := Uart.turn TICK_HZ export_as_bms now fmt ev self). destruct (IH self') as [IHs IHc].
  assert (Hc : Uart.bms_config self = export_as_bms (Uart.config self) ->
    Uart.bms_config self' = export_as_bms (Uart.config self')).
  { intros Hself. subst self'. destruct ev as [bytes| |]; cbn [Uart.turn]; [|done|by destruct (_ <? _)].
    unfold decode_from_json. destruct (negb _); [done|]. by destruct (json_from_str bytes). }
  split; [|intros Hself; by apply IHc, Hc].
  destruct ev as [bytes| |]; cbn [app].
  - replace (Uart.mqtt_frequency self) with (Uart.mqtt_frequency self'); [done|].
    unfold self'; cbn [Uart.turn]. unfold decode_from_json. destruct (negb _); [done|].
    by destruct (json_from_str bytes).
  - done.
  - unfold self' in *. cbn [Uart.turn] in *.
    rewrite Z.geb_leb. destruct (Z.ltb_spec ((now - Uart.mqtt_frequency self) / TICK_HZ)
      LAST_READING_TIMEOUT_SECS) as [Hl|Hl].
    + by rewrite (proj2 (Z.leb_gt _ _)) by lia.
    + rewrite (proj2 (Z.leb_le _ _)) by lia. cbn [app spaced]. split; [|done].
      pose proof (Z.mul_div_le (now - Uart.mqtt_frequency self) TICK_HZ ticks). nia.
Qed.
End console.

(** ** Examples *)

#[local] Existing Instance list_vec.
#[local] Existing Instance dev_profile.

(** Messages that print as a single number. *)
#[local] Instance sample_json : FormatJson Z := fun z => [48 + z].

Definition sample_conf (qos : Z) : MqttConfig.t :=
  MqttConfig.build (MqttConfig.set_qos qos (MqttConfig.set_retain true
    (MqttConfig.set_basetopic (str "t") (MqttConfig.set_password (str "p")
      (MqttConfig.set_username (str "u") (MqttConfig.set_client_id (str "id")
        MqttConfig.builder)))))).

Definition sample_connack : ConnackPacket.t 5 := ConnackPacket.mk 0x20 0 0 0 0 [].
Definition sample_puback (id : Z) : PubackPacket.t 5 := PubackPacket.mk 0x40 0 id 0 0 [].
Definition sample_rounds : list (Z * PubackPacket.t 5) :=
  [(1, sample_puback 50001); (2, sample_puback 50002)].

Definition sample_tcp : ScriptedIo.t :=
  ScriptedIo.mk [ConnackPacket.bytes sample_connack; [0xD0; 0]; PubackPacket.bytes (sample_puback 50001);
    [0xD0; 0; 0x40]; [4; 0xC3; 0x52; 0; 0]] [].


(** A broker that answers a ping with DISCONNECT, for an administrative action,
    and one that answers an earlier message with PUBREC. *)
Definition dropped_client (answer : list Z) : RawMqttClient.t ScriptedIo.t 5 CountingRng.t :=
  task_client (ScriptedIo.mk [answer] [])
    (task_config (sample_conf 1) (str "w") (str "u") (str "p") []).

Definition drops (answer : list Z) (e : ReasonCode.t) : Prop :=
  exists s1 s2,
    MqttClient.send_ping 16 (dropped_client answer) = (Err e, s1) /\
    turn (E := unit) 16 (sample_conf 1) (Some 1) (dropped_client answer) = (Ok Break, s2) /\
    MqttClient.disconnect s1 = (Ok tt, s2) /\
    MqttClient.connect_to_broker 16 s2 = (Err ReasonCode.NetworkError, s2) /\
    connection s2 = None.

Local Ltac drop_by answer e :=
  let Hp := fresh in
  assert (Hp : MqttClient.send_ping 16 (dropped_client answer) =
    (Err e, (MqttClient.send_ping 16 (dropped_client answer)).2)) by (vm_compute; reflexivity);
  destruct (mqtt_failed_ping (E := unit) 16 (sample_conf 1) e (Some 1) (dropped_client answer) _ Hp)
    as (s2 & Hall);
  [vm_compute; discriminate|vm_compute; reflexivity|vm_compute; split; discriminate|];
  exact (ex_intro _ _ (ex_intro _ s2 (conj Hp Hall))).

Lemma mqtt_failed_ping_witness :
  drops [0xE0; 2; 0x98; 0] ReasonCode.AdministrativeAction /\
  drops [0x50; 2; 0xC3; 0x51] ReasonCode.ImplementationSpecificError.
Proof.
  split.
  - drop_by [0xE0; 2; 0x98; 0] ReasonCode.AdministrativeAction.
  - drop_by [0x50; 2; 0xC3; 0x51] ReasonCode.ImplementationSpecificError.
Defined.

(** Configurations that print as one byte. *)
#[local] Instance sample_config_json : Json Z := {|
  json_from_str bytes := match bytes with [b] => Some b | _ => None end;
  json_to_string c := [c]
|}.

Definition console : Uart.t Z Z := Uart.mk [] 0 5 5.

Definition console_events : list (Z * Z * Uart.event) :=
  [(9, 1, Uart.SendMqtt); (10, 1, Uart.Received [7]); (10, 1, Uart.SendMqtt);
   (12, 2, Uart.SendMqtt); (12, 2, Uart.Received [8; 8]); (25, 3, Uart.SendMqtt)].

Lemma console_reports_spaced_witness :
  report_times 1 id console_events console = [10; 25] /\
  spaced 10 0 (report_times 1 id console_events console) /\
  Uart.bms_config (run 1 id console_events console) = Uart.config (run 1 id console_events console) /\
  Uart.config (run 1 id console_events console) = 7.
Proof.
  destruct (console_reports_spaced 1 id ltac:(lia) console_events console) as [Hs Hc].
  split; [reflexivity|split; [exact Hs|split; [by apply Hc|reflexivity]]].
Defined.
