(* ===== verification/Firmware.v ===== *)
(** The firmware as a whole: stm32f407_controller/src/bin/main.rs, with
    statics/mod.rs, tasks/mod.rs, hal/mod.rs, wdt/mod.rs and the start of
    tasks/can_interfaces.rs.

    A build is the set of features that are on.  [builds] says which ones the
    compiler accepts, as far as that depends on the imports of these files;
    [spawned] is the list of tasks that [main] starts; [waits] and [receives]
    are the signals and channels each of them takes from, [sockets] how many
    network sockets it opens. *)
From stdpp Require Import strings relations.
From S2P Require Import Prelude.
From S2P Require Import Inverter.
From S2P Require Import Config.

#[local] Open Scope list_scope.

(** ** Features *)

Inductive feature : Type :=
| display | spi | syslog | mqtt | ntp | http | modbus_bridge | modbus_client | OB737
| tcp_debug | precharge | v65
| ze40 | ze50 | tesla_m3
| solax | foxess | byd | pylontech | goodwe | forceh2.

#[export] Instance feature_eq_dec : EqDecision feature.
Proof. solve_decision. Defined.

Definition build : Type := feature -> bool.

Section build.
Context (f : build).

Definition any (l : list feature) : bool := existsb f l.
Definition all (l : list feature) : bool := forallb f l.

(** The pairs of [check_compile_features]: any of them is an error. *)
Definition check_compile_features : bool := negb (existsb all [
  [ze40; ze50]; [ze40; tesla_m3]; [ze50; tesla_m3];
  [solax; foxess]; [solax; byd]; [solax; pylontech];
  [foxess; byd]; [foxess; pylontech]; [byd; pylontech]
]).

Definition battery : bool := any [ze40; ze50; tesla_m3].
Definition inverter : bool := any [solax; foxess; byd; pylontech; goodwe; forceh2].

(** The modules that [tasks] re-exports [inverter_rx] from. *)
Definition inverter_modules : list bool := [
  any [foxess; solax];
  any [pylontech; byd; goodwe];
  f forceh2
].

(** The modules it re-exports [bms_rx] and [bms_tx_periodic] from. *)
Definition battery_modules : list bool := [f ze40; f ze50; f tesla_m3].

Definition once (l : list bool) : bool := fold_right (fun (b : bool) n => (if b then 1 else 0) + n) 0 l <=? 1.

(** No name is defined twice: [inverter_rx] and [bms_rx] by the re-exports,
    [Inverter] and [LABEL] in can_processors_pylontech.rs and
    can_processors_solax.rs, [process_flow] in flow.rs. *)
Definition no_clash : bool :=
  once battery_modules && once inverter_modules &&
  once [f byd; f goodwe; f pylontech] && once [f foxess; f solax] &&
  negb (f modbus_bridge && f modbus_client).

(** Every name that is used is defined: [main] imports the battery's tasks when
    there is an inverter, and spawns [bms_rx] when there is a battery, which only
    that import brings into scope; wherever there is an inverter it needs
    [LAST_BMS_MESSAGE], which only a battery brings; [process_flow] with
    [OB737] needs the module [ob737], under the feature of that spelling, which
    is not declared. *)
Definition all_defined : bool :=
  implb inverter battery && implb battery inverter && negb (f modbus_client && f OB737).

Definition builds : bool := check_compile_features && no_clash && all_defined.
End build.

(** ** Tasks *)

Inductive task : Type :=
| led_task | display_task | contactor_main_task | contactor_both_task
| bms_rx | inverter_rx | bms_tx_periodic | bms_task | inverter_task
| net_task | http_net_task | ntp_task | debug_task | mqtt_net_task | modbus_task
| uart_task | wdt_init.

#[export] Instance task_eq_dec : EqDecision task.
Proof. solve_decision. Defined.

(** A spawn under its condition. *)
Definition when (b : bool) (l : list task) : list task := if b then l else [].

Definition before_network (f : build) : list task :=
  [led_task] ++
  when (f spi && f display) [display_task] ++
  when (negb (f precharge)) [contactor_main_task] ++
  when (f precharge) [contactor_both_task] ++
  when (battery f) [bms_rx] ++
  when (inverter f) [inverter_rx; bms_tx_periodic] ++
  [bms_task; inverter_task; net_task].

Definition after_network (f : build) : list task :=
  when (negb (f tcp_debug) && f http) [http_net_task] ++
  when (f ntp) [ntp_task] ++
  when (f tcp_debug && negb (f http)) [debug_task] ++
  when (f mqtt) [mqtt_net_task] ++
  when (f modbus_bridge || f modbus_client) [modbus_task].

Definition spawned (f : build) : list task := before_network f ++ after_network f.

(** ** What the tasks take from

    The signals and channels of statics/mod.rs. *)
Inductive signal : Type := CAN_READY | WDT | CONTACTOR_STATE | SEND_MQTT | LED_COMMAND | UTC_NOW.
Inductive channel : Type := INVERTER_CHANNEL_RX | INVERTER_CHANNEL_TX | BMS_CHANNEL_RX | BMS_CHANNEL_TX.

(** The signals whose [wait] a task awaits. *)
Definition waits (t : task) : list signal :=
  match t with
  | led_task => [LED_COMMAND]
  | contactor_main_task | contactor_both_task => [CONTACTOR_STATE]
  | inverter_task => [CAN_READY]
  | uart_task => [SEND_MQTT]
  | wdt_init => [WDT]
  | _ => []
  end.

(** The channels whose receiver a task has. *)
Definition receives (t : task) : list channel :=
  match t with
  | bms_rx => [BMS_CHANNEL_RX]
  | bms_task => [BMS_CHANNEL_TX]
  | inverter_rx => [INVERTER_CHANNEL_RX]
  | inverter_task => [INVERTER_CHANNEL_TX]
  | debug_task => [BMS_CHANNEL_RX; BMS_CHANNEL_TX]
  | _ => []
  end.

#[export] Instance signal_eq_dec : EqDecision signal.
Proof. solve_decision. Defined.
#[export] Instance channel_eq_dec : EqDecision channel.
Proof. solve_decision. Defined.

Definition waiters (s : signal) (l : list task) : list task := filter (fun t => s ∈ waits t) l.
Definition receivers (c : channel) (l : list task) : list task := filter (fun t => c ∈ receives t) l.

(** ** Network sockets *)

Definition STACK_RESOURCES_COUNT : nat := 6.

(** The sockets a task opens before it waits for the network: the web server has
    three workers, the others one socket each. *)
Definition sockets (t : task) : nat :=
  match t with
  | http_net_task => 3%nat
  | ntp_task | debug_task | mqtt_net_task | modbus_task => 1%nat
  | _ => 0%nat
  end.

Definition sockets_of (l : list task) : nat := sum_list_with sockets l.

(** ** The watchdog *)

(** [wdt::init] over the signals it takes: how often it pets the dog. *)
Fixpoint wdt_pets (signals : list bool) : nat :=
  match signals with
  | [] => 0%nat
  | signal :: signals => if signal : bool then S (wdt_pets signals) else wdt_pets signals
  end.

(** ** The tasks of a build *)

(** Every task [main] can spawn, in its order. *)
Definition candidates : list task := [
  led_task; display_task; contactor_main_task; contactor_both_task; bms_rx; inverter_rx;
  bms_tx_periodic; bms_task; inverter_task; net_task; http_net_task; ntp_task; debug_task;
  mqtt_net_task; modbus_task
].

Lemma when_sublist b l k k' : k `sublist_of` k' -> when b l ++ k `sublist_of` l ++ k'.
Proof.
  intros Hk. destruct b; cbn [when app]; [by apply sublist_app|]. by apply sublist_inserts_l.
Qed.

Lemma spawned_sublist f : spawned f `sublist_of` candidates.
Proof.
  unfold spawned, before_network, after_network. rewrite <- !app_assoc.
  change candidates with ([led_task] ++ [display_task] ++ [contactor_main_task] ++ [contactor_both_task] ++
    [bms_rx] ++ [inverter_rx; bms_tx_periodic] ++ [bms_task; inverter_task; net_task] ++ [http_net_task] ++
    [ntp_task] ++ [debug_task] ++ [mqtt_net_task] ++ [modbus_task] ++ []).
  rewrite <- (app_nil_r (when (f modbus_bridge || f modbus_client) _)).
  repeat (apply when_sublist || (apply sublist_app; [done|])). done.
Qed.

Lemma filter_when (P : task -> Prop) `{forall t, Decision (P t)} b l :
  filter P (when b l) = when b (filter P l).
Proof. by destruct b. Qed.

Lemma when_nil b : when b [] = [].
Proof. by destruct b. Qed.

(** Which of the spawned tasks have a property: each under its condition. *)
Lemma filter_spawned (P : task -> Prop) `{forall t, Decision (P t)} f :
  filter P (spawned f) =
    filter P [led_task] ++ when (f spi && f display) (filter P [display_task]) ++
    when (negb (f precharge)) (filter P [contactor_main_task]) ++
    when (f precharge) (filter P [contactor_both_task]) ++ when (battery f) (filter P [bms_rx]) ++
    when (inverter f) (filter P [inverter_rx; bms_tx_periodic]) ++
    filter P [bms_task; inverter_task; net_task] ++
    when (negb (f tcp_debug) && f http) (filter P [http_net_task]) ++ when (f ntp) (filter P [ntp_task]) ++
    when (f tcp_debug && negb (f http)) (filter P [debug_task]) ++ when (f mqtt) (filter P [mqtt_net_task]) ++
    when (f modbus_bridge || f modbus_client) (filter P [modbus_task]).
Proof.
  unfold spawned, before_network, after_network. by rewrite !list.filter_app, !filter_when, <- !app_assoc.
Qed.

(** The waiters of a signal. *)
Lemma waiters_spawned f s :
  waiters s (spawned f) =
    match s with
    | CAN_READY => [inverter_task]
    | CONTACTOR_STATE => [if f precharge then contactor_both_task else contactor_main_task]
    | LED_COMMAND => [led_task]
    | WDT | SEND_MQTT | UTC_NOW => []
    end.
Proof.
  unfold waiters. rewrite filter_spawned.
  destruct s; vm_compute (filter _ _); rewrite !when_nil; cbn [app]; try reflexivity.
  by destruct (f precharge).
Qed.

Definition debug_port (f : build) : bool := f tcp_debug && negb (f http).

Lemma receivers_spawned f c :
  receivers c (spawned f) =
    match c with
    | BMS_CHANNEL_RX => when (battery f) [bms_rx] ++ when (debug_port f) [debug_task]
    | BMS_CHANNEL_TX => [bms_task] ++ when (debug_port f) [debug_task]
    | INVERTER_CHANNEL_RX => when (inverter f) [inverter_rx]
    | INVERTER_CHANNEL_TX => [inverter_task]
    end.
Proof.
  unfold receivers, debug_port. rewrite filter_spawned.
  destruct c; vm_compute (filter _ _); rewrite !when_nil; cbn [app]; rewrite ?app_nil_r; reflexivity.
Qed.

(** A build with a battery has one battery, one inverter, and both. *)
Definition one_of (f : build) (l : list feature) : Prop := exists x, filter (fun x => f x = true) l = [x].

Lemma builds_one f :
  builds f = true -> battery f = true ->
  inverter f = true /\ one_of f [ze40; ze50; tesla_m3] /\
  one_of f [solax; foxess; byd; pylontech; goodwe; forceh2].
Proof.
  unfold builds, no_clash, all_defined. rewrite !andb_true_iff.
  intros [[Hc [[[[Hb Hi] Hp] Hs] _]] [[_ Hd] _]] Hbat. revert Hc Hb Hi Hp Hs Hd Hbat.
  unfold check_compile_features, battery_modules, inverter_modules, battery, inverter, one_of, any, all, once.
  rewrite !list.filter_cons. cbn [existsb forallb filter].
  destruct (f ze40), (f ze50), (f tesla_m3); intros Hc Hb; try discriminate Hb; intros Hi Hp Hs Hd Hbat;
    try discriminate Hbat; clear Hb Hbat;
    destruct (f solax), (f foxess), (f byd), (f pylontech), (f goodwe), (f forceh2);
    try discriminate Hd; try discriminate Hi; try discriminate Hp; try discriminate Hs;
    (split; [reflexivity|]); split; by eexists.
Qed.

(** The web server and the debug port are spawned under their conditions. *)
Lemma only_spawned f t :
  t ∈ spawned f ->
  match t with
  | http_net_task => negb (f tcp_debug) && f http
  | debug_task => f tcp_debug && negb (f http)
  | uart_task | wdt_init => false
  | _ => true
  end = true.
Proof.
  intros Ht. assert (Hf : t ∈ filter (fun x => x = t) (spawned f)) by by apply list_elem_of_filter.
  rewrite filter_spawned in Hf. revert Hf.
  destruct t; try reflexivity; vm_compute (filter _ _); rewrite !when_nil; cbn [app]; rewrite ?app_nil_r;
    (intros Hf; apply not_elem_of_nil in Hf as []) || (destruct (_ && _); [done|]; intros Hf; apply not_elem_of_nil in Hf as []).
Qed.

(** C29: The tasks of a build.  No task is spawned twice, so that no spawn is
    refused.  No signal has two tasks waiting for it, so that none is lost to the
    wrong one; that of the contactors has exactly one, whatever is chosen.
    Nothing ever waits for the signals of the watchdog, of the console and of the
    clock: the watchdog is never started.  A build the compiler accepts that has a
    battery has one, and one inverter; and each channel has one receiver, unless
    the debug port is compiled in (which the web server, if chosen too, keeps out): then
    it takes frames from both channels of the battery. *)
Theorem firmware_tasks f (Hbuild : builds f = true) :
  NoDup (spawned f) /\
  (forall s, (length (waiters s (spawned f)) <= 1)%nat) /\
  length (waiters CONTACTOR_STATE (spawned f)) = 1%nat /\
  Forall (fun s => waiters s (spawned f) = []) [WDT; SEND_MQTT; UTC_NOW] /\
  (http_net_task ∈ spawned f -> debug_task ∉ spawned f) /\
  (battery f = true ->
   one_of f [ze40; ze50; tesla_m3] /\ one_of f [solax; foxess; byd; pylontech; goodwe; forceh2] /\
   forall c, receivers c (spawned f) = match c with
     | BMS_CHANNEL_RX => [bms_rx] ++ when (debug_port f) [debug_task]
     | BMS_CHANNEL_TX => [bms_task] ++ when (debug_port f) [debug_task]
     | INVERTER_CHANNEL_RX => [inverter_rx]
     | INVERTER_CHANNEL_TX => [inverter_task]
     end).
Proof.
  split; [|split; [|split; [|split; [|split]]]].
  - eapply sublist_NoDup; [|apply spawned_sublist]. by apply (bool_decide_eq_true_1 (NoDup candidates)).
  - intros []; rewrite waiters_spawned; cbn; lia.
  - by rewrite waiters_spawned.
  - repeat constructor; apply waiters_spawned.
  - intros Hh Hd. apply only_spawned in Hh, Hd. revert Hh Hd. by destruct (f tcp_debug), (f http).
  - intros Hbat. destruct (builds_one f Hbuild Hbat) as (Hi & Hb & Hv). split; [done|]. split; [done|].
    intros c. rewrite receivers_spawned, Hbat, Hi. by destruct c.
Qed.

(** The build with all that opens sockets. *)
Definition whole (f : build) : bool :=
  negb (f tcp_debug) && f http && f ntp && f mqtt && (f modbus_bridge || f modbus_client).

Lemma sockets_when b l : sockets_of (when b l) = if b then sockets_of l else 0%nat.
Proof. by destruct b. Qed.

(** The sockets.  The tasks open at most the six that [main] provides for,
    and all six exactly when the web server, the clock, the MQTT client and the
    Modbus gateway are built together.  With one more, which the network takes
    for DHCP, there are enough for every other build, and not for that one. *)
Theorem firmware_sockets f :
  (sockets_of (spawned f) <= STACK_RESOURCES_COUNT)%nat /\
  ((1 + sockets_of (spawned f) <= STACK_RESOURCES_COUNT)%nat <-> whole f = false).
Proof.
  unfold spawned, before_network, after_network, whole, sockets_of.
  rewrite !sum_list_with_app. change (sum_list_with sockets) with sockets_of. rewrite !sockets_when.
  cbn [sockets_of sum_list_with sockets].
  destruct (f spi && f display), (battery f), (inverter f), (f precharge), (f tcp_debug), (f http), (f ntp),
    (f mqtt), (f modbus_bridge || f modbus_client); cbn; unfold STACK_RESOURCES_COUNT; split; try lia;
    split; intros; (done || lia).
Qed.

(** ** Clocks

    [peripherals_config]: the oscillator and the dividers.  The frequencies that
    follow are those of the clock tree of the STM32F4. *)
Record rcc : Type := mk_rcc {
  hse : Z; prediv : Z; mul : Z; divp : Z; divq : Z; ahb_pre : Z; apb1_pre : Z; apb2_pre : Z; lse : Z
}.
Definition peripherals_config : rcc := mk_rcc 25000000 25 336 2 7 1 4 2 32768.

Definition vco (c : rcc) : Z := hse c / prediv c * mul c.
Definition sys (c : rcc) : Z := vco c / divp c.
Definition pll1_q (c : rcc) : Z := vco c / divq c.
Definition hclk1 (c : rcc) : Z := sys c / ahb_pre c.
Definition pclk1 (c : rcc) : Z := hclk1 c / apb1_pre c.
Definition pclk2 (c : rcc) : Z := hclk1 c / apb2_pre c.

(** A timer's clock is twice that of its bus, unless the bus is not divided. *)
Definition tim_clock (pclk pre : Z) : Z := if pre =? 1 then pclk else 2 * pclk.

(** The clocks of the comment in the source, within the limits of the part:
    168, 42 and 84 MHz, and 48 MHz for USB. *)
Lemma clocks_as_commented :
  let c := peripherals_config in
  sys c = 168000000 /\ hclk1 c = 168000000 /\ pclk1 c = 42000000 /\ pclk2 c = 84000000 /\
  tim_clock (pclk1 c) (apb1_pre c) = 84000000 /\ tim_clock (pclk2 c) (apb2_pre c) = 168000000 /\
  pll1_q c = 48000000 /\ lse c = 32768.
Proof. by repeat split. Qed.

(** ** The network's configuration: [get_eth]

    The seed of the random numbers of the stack is always the same. *)
Definition net_seed : Z := le_value (replicate 8 0).

(** ** The limits of the battery

    The block of [main] that changes [BMS] and [CONFIG] before any task runs.
    [set_*] are methods of [bms_standard], over the numbers [F]. *)
Class BatteryLimits (Bms BC E F : Type) : Type := {
  bms_config_of : Bms -> BC;
  set_discharge_limts : F -> F -> M Bms E unit;
  set_charge_limts : F -> F -> M Bms E unit;
  set_current_sensor_limts : F -> F -> M Bms E unit;
  set_dod : Z -> Z -> M Bms E unit;
}.

Section limits.
Context {MinMaxF MinMaxU16 MinMaxU8 BC Bms E F : Type} `{BmsConfig MinMaxF MinMaxU16 MinMaxU8 BC}
  `{BatteryLimits Bms BC E F} (f : Z -> F).

(** [.unwrap()] of each. *)
Definition insist {E'} (m : M Bms E unit) : M Bms E' unit := fun b =>
  let '(r, b) := m b in (unwrap_res r, b).

Definition set_limits {E'} (v65 : bool) : M Bms E' unit :=
  if v65 then
    insist (set_discharge_limts (f 0) (f 250)) ;;;
    insist (set_charge_limts (f 0) (f 250)) ;;;
    insist (set_current_sensor_limts (f (-200)) (f 200)) ;;;
    insist (set_dod 5 90)
  else
    insist (set_discharge_limts (f 0) (f 35)) ;;;
    insist (set_charge_limts (f 0) (f 150)) ;;;
    insist (set_dod 5 100).

Definition init_config {E'} (v65 : bool) (bms : Bms) (config : Config.t MinMaxF MinMaxU16 MinMaxU8)
  : outcome E' (Bms * Config.t MinMaxF MinMaxU16 MinMaxU8) :=
  match set_limits v65 bms with
  | (Ok _, bms) => Ok (bms, Config.import_from_bms (bms_config_of bms) config)
  | (Err e, _) => Err e
  | (Panic p, _) => Panic p
  | (OutOfFuel, _) => OutOfFuel
  end.

(** [CONFIG] gets the limits of the battery, but keeps its own depth of
    discharge, whatever [set_dod] set; and its cell temperatures are those of the
    pack. *)
Lemma init_config_result {E'} v65 bms config bms' config' :
  init_config (E' := E') v65 bms config = Ok (bms', config') ->
  let bc := bms_config_of bms' in
  Config.charge_current config' = charge_current_limts bc /\
  Config.discharge_current config' = discharge_current_limts bc /\
  Config.current_sensor config' = current_sensor_limts bc /\
  Config.pack_volts config' = bc_pack_volts bc /\
  Config.cell_temperatures config' = bc_pack_temperatures bc /\
  Config.dod config' = Config.dod config.
Proof.
  unfold init_config. destruct (set_limits v65 bms) as [[[]| | |] b]; try discriminate.
  intros [= <- <-]. by repeat split.
Qed.
End limits.

(** ** The start of the CAN interfaces

    CAN2 uses filters that belong to CAN1: its task waits for the other's
    signal.  [booted] is what the two tasks have done, in order. *)
Module CanBoot.
Inductive action : Type :=
| Init1 | Bitrate1 | Enable1 | Ready | Init2 | Bitrate2 | Enable2.

(** What each task has still to do, and [CAN_READY]. *)
Record t : Type := mk {
  bms_todo : list action;
  waiting : bool;
  inverter_todo : list action;
  ready : bool;
  booted : list action
}.

Definition start : t :=
  mk [Init1; Bitrate1; Enable1; Ready] true [Init2; Bitrate2; Enable2] false [].

Inductive step : t -> t -> Prop :=
| step_bms a todo w i r b :
  step (mk (a :: todo) w i r b) (mk todo w i (if a is Ready then true else r) (b ++ [a]))
| step_wait todo i b :
  step (mk todo true i true b) (mk todo false i false b)
| step_inverter todo a i r b :
  step (mk todo false (a :: i) r b) (mk todo false i r (b ++ [a])).

Definition order : list action := [Init1; Bitrate1; Enable1; Ready; Init2; Bitrate2; Enable2].

Definition finished (s : t) : Prop := bms_todo s = [] /\ waiting s = false /\ inverter_todo s = [].

(** The state after [n] steps. *)
Definition after (n : nat) : t :=
  mk (drop n [Init1; Bitrate1; Enable1; Ready]) (n <? 5)%nat (drop (n - 5) [Init2; Bitrate2; Enable2])
    (n =? 4)%nat (take (if n <? 5 then n else n - 1)%nat order).

Lemma step_after n s : (n <= 8)%nat -> step (after n) s -> (n < 8)%nat /\ s = after (S n).
Proof.
  intros Hn Hs. do 9 (destruct n as [|n]; [inversion Hs; subst; split; (lia || reflexivity)|]). lia.
Qed.

Lemma after_step n : (n < 8)%nat -> step (after n) (after (S n)).
Proof.
  intros Hn. do 4 (destruct n as [|n]; [constructor|]). destruct n as [|n]; [constructor|].
  do 3 (destruct n as [|n]; [constructor|]). lia.
Qed.

(** The steps are taken in one order, whichever task runs when: all that is
    done to CAN1 before anything is done to CAN2.  A step can be taken until both
    interfaces run. *)
Lemma boot_order s :
  rtc step start s ->
  booted s `prefix_of` order /\ (finished s \/ exists s', step s s').
Proof.
  intros Hr. assert (Hs : exists n, (n <= 8)%nat /\ s = after n).
  { apply (rtc_ind_r (R := step) (fun s => exists n, (n <= 8)%nat /\ s = after n) start); [|..|exact Hr].
    - exists 0%nat. split; [lia|done].
    - intros y z _ Hs (n & Hn & ->). destruct (step_after n z Hn Hs) as [? ->].
      exists (S n). split; [lia|done]. }
  destruct Hs as (n & Hn & ->). split; [apply prefix_take|].
  destruct (decide (n = 8%nat)) as [->|Hne]; [by left|]. right. eexists. apply after_step. lia.
Qed.
End CanBoot.

(** ** The filter of the battery's CAN interface

    [can1_init] with ze50 asks for one identifier under a mask; the driver's
    [Mask32::frames_with_ext_id(id, mask)] accepts the extended frames that
    agree with [id] on the bits of [mask]. *)
Class CanFilter : Type := {
  frames_with_ext_id : Z -> Z -> CanId -> bool;
  accept_all : CanId -> bool;
  ext_id_accepts id mask x :
    frames_with_ext_id id mask x =
      match x with Extended x => Z.land x mask =? Z.land id mask | Standard _ => false end;
  all_accepts x : accept_all x = true;
}.

Section filter.
Context `{CanFilter}.

Definition bms_filter (ze50 : bool) : CanId -> bool :=
  if ze50 then frames_with_ext_id 0x18DAF1DB 0x1ffffff else accept_all.
Definition inverter_filter : CanId -> bool := accept_all.

(** The filter of a ZE50 accepts the battery's answers and fifteen more
    identifiers, which differ from theirs in the four bits of highest priority:
    the mask has 25 bits of the 29.  The others, and standard identifiers, are
    kept out; without ZE50 everything is let in. *)
Theorem ze50_filter x (Hx : 0 <= x < 2 ^ 29) :
  (bms_filter true (Extended x) = true <-> exists p, 0 <= p < 16 /\ x = p * 2 ^ 25 + 0xDAF1DB) /\
  bms_filter true (Extended 0x18DAF1DB) = true /\
  bms_filter true (Standard x) = false /\
  bms_filter false (Extended x) = true /\ inverter_filter (Extended x) = true.
Proof.
  unfold bms_filter, inverter_filter. rewrite !ext_id_accepts, !all_accepts.
  split; [|by repeat split]. rewrite Z.eqb_eq. change 0x1ffffff with (Z.ones 25).
  rewrite !Z.land_ones by lia. change (0x18DAF1DB mod 2 ^ 25) with 0xDAF1DB. split.
  - intros Hm. exists (x / 2 ^ 25). pose proof (Z.div_mod x (2 ^ 25) ltac:(lia)).
    split; [|lia]. split; [apply Z.div_pos; lia|]. apply Z.div_lt_upper_bound; lia.
  - intros (p & Hp & ->). rewrite Z.add_comm, Z.mod_add by lia. reflexivity.
Qed.
End filter.

(** ** At concrete inputs *)

Module SampleBuild.
(** A ZE50 with a Solax inverter, and everything that uses the network. *)
Definition on : list feature :=
  [v65; ze50; solax; http; ntp; mqtt; modbus_bridge; precharge].
Definition f : build := fun x => bool_decide (x ∈ on).

#[refine, export] Instance filter : CanFilter := {|
  frames_with_ext_id id mask x :=
    match x with Extended x => Z.land x mask =? Z.land id mask | Standard _ => false end;
  accept_all x := true
|}.
Proof. all: reflexivity. Defined.
End SampleBuild.
#[local] Existing Instance SampleBuild.filter.

Example sample_builds : builds SampleBuild.f = true /\ whole SampleBuild.f = true.
Proof. by split. Qed.

Lemma firmware_tasks_witness :
  NoDup (spawned SampleBuild.f) /\
  receivers BMS_CHANNEL_RX (spawned SampleBuild.f) = [bms_rx].
Proof.
  destruct (firmware_tasks SampleBuild.f eq_refl) as (Hn & _ & _ & _ & _ & Hb).
  split; [exact Hn|]. exact (proj2 (proj2 (Hb eq_refl)) BMS_CHANNEL_RX).
Defined.

Lemma ze50_filter_witness :
  bms_filter true (Extended 0x0DAF1DB) = true.
Proof.
  destruct (ze50_filter 0x0DAF1DB ltac:(split; [discriminate|reflexivity])) as [[_ Hf] _].
  apply Hf. exists 0. split; [split; [discriminate|reflexivity]|reflexivity].
Defined.
