(* ===== verification/NetworkUp.v ===== *)
(** Waiting for the network: the first loops of the tasks that main starts when
    the network is up, in stm32f407_controller/src/bin/web/http.rs,
    tasks/mqtt.rs, tasks/tcp_debug.rs and tasks/modbus/modbus_tcp_gateway.rs.

    Time is in milliseconds.  The network stack is not part of the repository:
    what a task sees of it is whether the link is up and whether there is an
    IPv4 configuration, both functions of the time.  A wait gives the time at
    which the task goes on; its fuel is the number of looks at the stack. *)
From S2P Require Import Prelude.
From S2P Require Import Firmware.

Section wait.
Context (is_link_up config_v4 : Z -> bool).

(** [loop { if up { break; } Timer::after(Duration::from_millis(ms)).await; }] *)
Fixpoint wait_until {E} (up : Z -> bool) (ms : Z) (fuel : nat) (now : Z) : outcome E Z :=
  match fuel with
  | O => OutOfFuel
  | S fuel => if up now then Ok now else wait_until up ms fuel (now + ms)
  end.

(** First the link, then the address. *)
Definition link_then_config {E} (link_ms config_ms : Z) (fuel : nat) (now : Z) : outcome E Z :=
  now ← wait_until is_link_up link_ms fuel now;
  wait_until config_v4 config_ms fuel now.

Definition http_net_wait {E} : nat -> Z -> outcome E Z := link_then_config 500 500.
Definition debug_wait {E} : nat -> Z -> outcome E Z := link_then_config 500 500.
Definition mqtt_net_wait {E} : nat -> Z -> outcome E Z := link_then_config 500 1500.

(** Both in one look. *)
Definition modbus_wait {E} : nat -> Z -> outcome E Z :=
  wait_until (fun now => is_link_up now && config_v4 now) 500.

(** The workers [http_net_task] spawns when the wait is over. *)
Definition http_workers : list Z := [1; 2; 3].

(** How a task begins; the others do not wait. *)
Definition wait {E} (t : task) (fuel : nat) (now : Z) : outcome E Z :=
  match t with
  | http_net_task => http_net_wait fuel now
  | debug_task => debug_wait fuel now
  | mqtt_net_task => mqtt_net_wait fuel now
  | modbus_task => modbus_wait fuel now
  | _ => Ok now
  end.
End wait.

(** ** The loop *)

Section loop.
Context {E : Type} (up : Z -> bool) (ms : Z) (Hms : 0 < ms).

(** The loop is left at a look that finds [up], and not before. *)
Lemma wait_until_left fuel : forall now e,
  wait_until (E := E) up ms fuel now = Ok e ->
  up e = true /\ now <= e /\ (e = now \/ up (e - ms) = false /\ now <= e - ms).
Proof.
  induction fuel as [|fuel IH]; intros now e; cbn [wait_until]; [done|].
  destruct (up now) eqn:Hu.
  - intros [= ->]. split; [done|]. split; [lia|by left].
  - intros Hw. destruct (IH _ _ Hw) as (He & Hle & [-> | [Hd Hle']]);
      (split; [done|]; split; [lia|]; right); [|by split; [|lia]].
    by rewrite Z.add_simpl_r; split; [|lia].
Qed.

(** It is left if [up] holds from some time on. *)
Lemma wait_until_ends fuel : forall now T,
  (forall t, T <= t -> up t = true) -> T - now < Z.of_nat fuel * ms ->
  exists e, wait_until (E := E) up ms (S fuel) now = Ok e.
Proof.
  induction fuel as [|fuel IH]; intros now T HT Hf; cbn [wait_until];
    (destruct (up now) eqn:Hu; [by eexists|]).
  - assert (up now = true) by (apply HT; lia). congruence.
  - apply (IH _ T HT). lia.
Qed.

(** And then at most [ms] later than that. *)
Lemma wait_until_soon fuel now e T :
  (forall t, T <= t -> up t = true) -> wait_until (E := E) up ms fuel now = Ok e ->
  up e = true /\ now <= e /\ (e = now \/ e < T + ms).
Proof.
  intros HT Hw. destruct (wait_until_left _ _ _ Hw) as (He & Hle & [-> | [Hd _]]); auto.
  split; [done|]. split; [done|]. right.
  destruct (Z.lt_ge_cases (e - ms) T) as [|Hge]; [lia|]. by rewrite (HT _ Hge) in Hd.
Qed.
End loop.

(** ** The tasks *)
Section tasks.
Context (is_link_up config_v4 : Z -> bool).

(** The network stays up from the time [T] on. *)
Definition up_from (T : Z) : Prop := forall t, T <= t -> is_link_up t = true /\ config_v4 t = true.

(** The longest interval between two looks of a task. *)
Definition interval (t : task) : Z :=
  match t with
  | http_net_task | debug_task | modbus_task => 500
  | mqtt_net_task => 1500
  | _ => 0
  end.

Lemma link_then_config_spec {E} p q fuel now T :
  0 < p <= q -> up_from T -> T - now < Z.of_nat fuel * p ->
  exists e l, link_then_config (E := E) is_link_up config_v4 p q (S fuel) now = Ok e /\
    now <= l <= e /\ is_link_up l = true /\ config_v4 e = true /\ (e = now \/ e < T + q).
Proof.
  intros Hp HT Hf. unfold link_then_config.
  assert (HL : forall t, T <= t -> is_link_up t = true) by (intros; by apply HT).
  assert (HC : forall t, T <= t -> config_v4 t = true) by (intros; by apply HT).
  destruct (wait_until_ends (E := E) is_link_up p fuel now T HL Hf) as [l Hl].
  destruct (wait_until_soon _ p ltac:(lia) _ _ _ _ HL Hl) as (Hll & Hnl & Hsl).
  destruct (wait_until_ends (E := E) config_v4 q fuel l T HC
    ltac:(assert (Z.of_nat fuel * p <= Z.of_nat fuel * q) by (apply Z.mul_le_mono_nonneg_l; lia); lia)) as [e He].
  destruct (wait_until_soon _ q ltac:(lia) _ _ _ _ HC He) as (Hee & Hne & Hse).
  exists e, l. rewrite Hl. cbv beta iota delta [mbind outcome_bind]. rewrite He. split; [done|]. split; [lia|]. do 2 (split; [done|]).
  destruct Hse as [-> | ?]; [|by right]. destruct Hsl as [-> | ?]; [by left|right; lia].
Qed.

Lemma modbus_wait_spec {E} fuel now T :
  up_from T -> T - now < Z.of_nat fuel * 500 ->
  exists e, modbus_wait (E := E) is_link_up config_v4 (S fuel) now = Ok e /\
    now <= e /\ is_link_up e = true /\ config_v4 e = true /\ (e = now \/ e < T + 500).
Proof.
  intros HT Hf. unfold modbus_wait.
  assert (HB : forall t, T <= t -> is_link_up t && config_v4 t = true)
    by (intros t Ht; destruct (HT t Ht) as [-> ->]; done).
  destruct (wait_until_ends (E := E) _ 500 fuel now T HB Hf) as [e He].
  destruct (wait_until_soon _ 500 ltac:(lia) _ _ _ _ HB He) as (Hee & Hne & Hse).
  apply andb_true_iff in Hee as [Hl Hc]. by exists e.
Qed.

(** C33: Every network task gets through its wait.  If the network stays up from
    some time on, a task that waits for it goes on at the first look after that
    time, at the latest, and thus less than the interval between two looks
    later; when it goes on there is an address, and at some time since the task
    began the link was up.  If the network is up when the task is started, as it
    is when main starts it unless the link was lost meanwhile, the task does not
    wait at all. *)
Theorem network_wait_ends {E} t fuel now T
  (HT : up_from T) (Hf : T - now < Z.of_nat fuel * 500) :
  (exists e, wait (E := E) is_link_up config_v4 t (S fuel) now = Ok e /\
     now <= e /\ (e = now \/ e < T + interval t) /\
     (0 < interval t -> config_v4 e = true /\ exists l, now <= l <= e /\ is_link_up l = true)) /\
  (T <= now -> wait (E := E) is_link_up config_v4 t (S fuel) now = Ok now).
Proof.
  split.
  - assert (Hlc : forall q, 500 <= q ->
      exists e, link_then_config (E := E) is_link_up config_v4 500 q (S fuel) now = Ok e /\
        now <= e /\ (e = now \/ e < T + q) /\
        config_v4 e = true /\ exists l, now <= l <= e /\ is_link_up l = true).
    { intros q Hq. destruct (link_then_config_spec (E := E) 500 q fuel now T ltac:(lia) HT Hf)
        as (e & l & He & Hb & Hl & Hc & Hs).
      exists e. split; [done|]. split; [lia|]. do 2 (split; [done|]). by exists l. }
    assert (Hidle : exists e, Ok (E := E) now = Ok e /\ now <= e /\ (e = now \/ e < T + 0) /\
      (0 < 0 -> config_v4 e = true /\ exists l, now <= l <= e /\ is_link_up l = true)).
    { exists now. repeat split; [lia|by left|lia..]. }
    destruct t; try exact Hidle.
    + destruct (Hlc 500 ltac:(lia)) as (e & ? & ? & ? & ?). by exists e.
    + destruct (Hlc 500 ltac:(lia)) as (e & ? & ? & ? & ?). by exists e.
    + destruct (Hlc 1500 ltac:(lia)) as (e & ? & ? & ? & ?). by exists e.
    + destruct (modbus_wait_spec (E := E) fuel now T HT Hf) as (e & He & Hn & Hl & Hc & Hs).
      exists e. repeat split; [done..|]. exists e. by repeat split.
  - intros Hn. destruct (HT now Hn) as [Hl Hc].
    destruct t; cbn; unfold debug_wait, mqtt_net_wait, http_net_wait, modbus_wait, link_then_config;
      cbn; rewrite ?Hl; cbn; by rewrite ?Hc.
Qed.
End tasks.

(** ** A cable plugged in late

    The link is up for two seconds when a task starts, and again after ten; the
    address is there after eleven. *)
Definition sample_link (now : Z) : bool := (now <? 2000) || (10000 <=? now).
Definition sample_config (now : Z) : bool := 11000 <=? now.

Lemma sample_up : up_from sample_link sample_config 11000.
Proof. intros t Ht. unfold sample_link, sample_config. split; [apply orb_true_iff; right|]; lia. Qed.

(** The MQTT task looks at the link while it is still up, and then for the
    address only; the Modbus task for both. *)
Lemma network_wait_ends_witness :
  wait (E := unit) sample_link sample_config mqtt_net_task 30 100 = Ok 12100 /\
  wait (E := unit) sample_link sample_config modbus_task 30 100 = Ok 11100 /\
  exists e, wait (E := unit) sample_link sample_config mqtt_net_task 30 100 = Ok e /\ e < 12500.
Proof.
  split; [reflexivity|]. split; [reflexivity|].
  destruct (network_wait_ends (E := unit) sample_link sample_config mqtt_net_task 29 100 11000
    sample_up ltac:(lia)) as [(e & He & _ & [He' | He'] & _) _]; exists e; (split; [exact He|]);
    cbn in He'; lia.
Defined.
