(* ===== verification/Conformance.v ===== *)
(** The unit tests of the protocol libraries, run on the model.

    rust-mqtt/src/tests/unit and the test module at the end of
    sntpc/src/lib.rs fix inputs and outputs of the codecs.  Every test is an
    example here, with the assertions of the test as its statement: the model
    computes what the tests expect of the code.  It keeps the name of the test,
    with the packet's instead of [test] where fourteen files share a name.  The
    tests run with overflow checks. *)
From Stdlib Require Import String.
From S2P Require Import Prelude.
From S2P Require Import Types.
From S2P Require Import Vbi.
From S2P Require Import BuffReader.
From S2P Require Import BuffWriter.
From S2P Require Import Heapless.
From S2P Require Import Codes.
From S2P Require Import Property.
From S2P Require Import Packet.
From S2P Require Import Acks.
From S2P Require Import ServerPackets.
From S2P Require Import PublishPacket.
From S2P Require Import ConnectPacket.
From S2P Require Import Subscriptions.
From S2P Require Import Sntp.
From S2P Require Import Writer.

#[local] Open Scope list_scope.
#[local] Existing Instance dev_profile.
#[local] Existing Instance list_vec.

(** A string of the tests with its [len] field. *)
Definition enc (s : list Z) : EncodedString.t := EncodedString.mk s (zlen s).

Definition blank (n : nat) : list Z := replicate n 0.

(** The result of an operation with a field of the state after it. *)
Definition run {S E A B} (m : M S E A) (s : S) (f : S -> B) : outcome E A * B :=
  let '(o, s) := m s in (o, f s).

(** Write into a fresh buffer of [n] bytes, of which the writer may use [k]. *)
Definition write (m : BuffWriter.W unit) (n : nat) (k : Z) : outcome BufferError unit * (Z * list Z) :=
  run m (BuffWriter.new (blank n) k) (fun w => (BuffWriter.position w, BuffWriter.buffer w)).

(** The result alone: what the tests of failing writes look at. *)
Definition refused (m : BuffWriter.W unit) (n : nat) (k : Z) : outcome BufferError unit :=
  (write m n k).1.

Definition read {A} (m : BuffReader.R A) (b : list Z) : outcome BufferError A * Z :=
  run m (BuffReader.new b (zlen b)) BuffReader.position.

Definition expect {A} (m : BuffReader.R A) (b : list Z) : outcome BufferError A := (read m b).1.

(** Set the properties as [packet.property_len = packet.add_properties(&props)]. *)
Definition with_props {P} `{Packet P} (props : list Property.t) (p : P) : P :=
  match add_properties (E := BufferError) props p with
  | (Ok l, p) => set_property_len l p
  | (_, p) => p
  end.

(** [buffer[0..res.unwrap()]] after [encode] *)
Definition encoded (r : outcome BufferError Z * list Z) : option (list Z) :=
  match r.1 with Ok n => Some (ztake n r.2) | _ => None end.

Definition decoded {P} (m : M (P * BuffReader.t) BufferError unit) (p : P) (b : list Z)
  : outcome BufferError unit * P :=
  run m (p, BuffReader.new b (zlen b)) fst.

Module VariableByteIntegerUnit.
Import VariableByteIntegerEncoder VariableByteIntegerDecoder.

Example test_decode : decode [0x81; 0x81; 0x81; 0x01] = Ok 2113665.
Proof. reflexivity. Qed.
Example test_decode_small : decode [0x81; 0x81; 0x01; 0x85] = Ok 16513.
Proof. reflexivity. Qed.
Example test_encode :
  encode 2113665 = Ok [0x81; 0x81; 0x81; 0x01]
  /\ len (E := BufferError) [0x81; 0x81; 0x81; 0x01] = Ok 4.
Proof. vm_compute. auto. Qed.
Example test_encode_small :
  encode 16513 = Ok [0x81; 0x81; 0x01; 0x00]
  /\ len (E := BufferError) [0x81; 0x81; 0x01; 0x00] = Ok 3.
Proof. vm_compute. auto. Qed.
Example test_encode_extra_small :
  encode 5 = Ok [0x05; 0x00; 0x00; 0x00]
  /\ len (E := BufferError) [0x05; 0x00; 0x00; 0x00] = Ok 1.
Proof. vm_compute. auto. Qed.
Example test_encode_max : encode 288435455 = Err EncodingError.
Proof. reflexivity. Qed.
End VariableByteIntegerUnit.

Module BufferReaderUnit.
Import BuffReader.

Example buffer_read_variable_byte :
  read read_variable_byte_int [0x82; 0x82; 0x03; 0x85; 0x84] = (Ok 49410, 3).
Proof. vm_compute. reflexivity. Qed.
Example buffer_read_invalid_size :
  expect read_variable_byte_int [0x82; 0x82] = Err InsufficientBufferSize.
Proof. vm_compute. reflexivity. Qed.
Example test_smaller_var_int : read read_variable_byte_int [0x82; 0x02] = (Ok 258, 2).
Proof. vm_compute. reflexivity. Qed.
Example test_complete_var_int :
  read read_variable_byte_int [0x81; 0x81; 0x81; 0x01] = (Ok 2113665, 4).
Proof. vm_compute. reflexivity. Qed.
Example test_var_empty_buffer : expect read_variable_byte_int [] = Err InsufficientBufferSize.
Proof. vm_compute. reflexivity. Qed.
Example test_read_u32 : expect read_u32 [0x00; 0x02; 0x5E; 0xC1] = Ok 155329.
Proof. vm_compute. reflexivity. Qed.
Example test_read_u32_oob : expect read_u32 [0x00; 0x02; 0x5E] = Err InsufficientBufferSize.
Proof. vm_compute. reflexivity. Qed.
Example test_read_u16 : expect read_u16 [0x48; 0x5F] = Ok 18527.
Proof. vm_compute. reflexivity. Qed.
Example test_read_u16_oob : expect read_u16 [0x5E] = Err InsufficientBufferSize.
Proof. vm_compute. reflexivity. Qed.
Example test_read_u8 : expect read_u8 [0xFD] = Ok 253.
Proof. vm_compute. reflexivity. Qed.
Example test_read_u8_oob : expect read_u8 [] = Err InsufficientBufferSize.
Proof. vm_compute. reflexivity. Qed.
Example test_read_string :
  expect read_string [0x00; 0x04; 0xF0; 0x9F; 0x92; 0x96] = Ok (enc [0xF0; 0x9F; 0x92; 0x96]).
Proof. vm_compute. reflexivity. Qed.
Example test_read_string_utf8_wrong :
  expect read_string [0x00; 0x03; 0xF0; 0x9F; 0x92] = Err Utf8Error.
Proof. vm_compute. reflexivity. Qed.
Example test_read_string_oob :
  expect read_string [0x00; 0x04; 0xF0; 0x9F; 0x92] = Err InsufficientBufferSize.
Proof. vm_compute. reflexivity. Qed.
Example test_read_binary :
  expect read_binary [0x00; 0x04; 0xFF; 0xEE; 0xDD; 0xCC]
  = Ok (BinaryData.mk [0xFF; 0xEE; 0xDD; 0xCC] 4).
Proof. vm_compute. reflexivity. Qed.
Example test_read_binary_oob :
  expect read_binary [0x00; 0x04; 0xFF; 0xEE; 0xDD] = Err InsufficientBufferSize.
Proof. vm_compute. reflexivity. Qed.
Example test_read_string_pair :
  expect read_string_pair [0x00; 0x04; 0xF0; 0x9F; 0x98; 0x8E; 0x00; 0x03; 0xE2; 0x93; 0x87]
  = Ok (StringPair.mk (enc [0xF0; 0x9F; 0x98; 0x8E]) (enc [0xE2; 0x93; 0x87])).
Proof. vm_compute. reflexivity. Qed.
Example test_read_string_pair_wrong_utf8 :
  expect read_string_pair [0x00; 0x03; 0xF0; 0x9F; 0x92; 0x00; 0x04; 0xF0; 0x9F; 0x98; 0x8E]
  = Err Utf8Error.
Proof. vm_compute. reflexivity. Qed.
Example test_read_string_pair_oob :
  expect read_string_pair [0x00; 0x04; 0xF0; 0x9F; 0x98; 0x8E; 0x00; 0x04; 0xE2; 0x93; 0x87]
  = Err InsufficientBufferSize.
Proof. vm_compute. reflexivity. Qed.
End BufferReaderUnit.

Module BufferWriterUnit.
Import BuffWriter.

Definition sunglasses : EncodedString.t := enc [0xF0; 0x9F; 0x98; 0x8E].
Definition bin : BinaryData.t := BinaryData.mk [0xAB; 0xEF; 0x88; 0x43] 4.
Definition pair : StringPair.t := StringPair.mk (enc (str "Name")) sunglasses.
Definition properties : list Property.t :=
  [Property.ResponseTopic (enc (str "Name"));
   Property.CorrelationData (BinaryData.mk [0x12; 0x34; 0x56] 3)].
Definition filters : list TopicFilter.t :=
  [TopicFilter.mk (enc (str "test")) 0xAE; TopicFilter.mk (enc (str "topic")) 0x22].

Example buffer_write_ref :
  write (insert_ref 5 [0x82; 0x82; 0x03; 0x85; 0x84]) 5 5
  = (Ok tt, (5, [0x82; 0x82; 0x03; 0x85; 0x84])).
Proof. vm_compute. reflexivity. Qed.
Example buffer_write_ref_oob :
  write (insert_ref 5 [0x82; 0x82; 0x03; 0x85; 0x84]) 4 4
  = (Err InsufficientBufferSize, (0, blank 4)).
Proof. vm_compute. reflexivity. Qed.
Example buffer_write_u8 : write (write_u8 0xFA) 1 1 = (Ok tt, (1, [0xFA])).
Proof. vm_compute. reflexivity. Qed.
Example buffer_write_u8_oob : refused (write_u8 0xFA) 0 0 = Err InsufficientBufferSize.
Proof. vm_compute. reflexivity. Qed.
Example buffer_write_u16 : write (write_u16 0xFAED) 2 2 = (Ok tt, (2, [0xFA; 0xED])).
Proof. vm_compute. reflexivity. Qed.
Example buffer_write_u16_oob : refused (write_u16 0xFAED) 1 1 = Err InsufficientBufferSize.
Proof. vm_compute. reflexivity. Qed.
Example buffer_write_u32 :
  write (write_u32 0xFAEDCC09) 4 4 = (Ok tt, (4, [0xFA; 0xED; 0xCC; 0x09])).
Proof. vm_compute. reflexivity. Qed.
Example buffer_write_u32_oob : refused (write_u32 0xFAEDCC08) 3 3 = Err InsufficientBufferSize.
Proof. vm_compute. reflexivity. Qed.
Example buffer_write_string :
  write (write_string_ref sunglasses) 6 6
  = (Ok tt, (6, [0x00; 0x04; 0xF0; 0x9F; 0x98; 0x8E])).
Proof. vm_compute. reflexivity. Qed.
Example buffer_write_string_oob :
  refused (write_string_ref sunglasses) 5 5 = Err InsufficientBufferSize.
Proof. vm_compute. reflexivity. Qed.
Example buffer_write_bin :
  write (write_binary_ref bin) 6 6 = (Ok tt, (6, [0x00; 0x04; 0xAB; 0xEF; 0x88; 0x43])).
Proof. vm_compute. reflexivity. Qed.
Example buffer_write_bin_oob : refused (write_binary_ref bin) 6 5 = Err InsufficientBufferSize.
Proof. vm_compute. reflexivity. Qed.
Example buffer_write_string_pair :
  write (write_string_pair_ref pair) 12 12
  = (Ok tt, (12, [0x00; 0x04; 0x4e; 0x61; 0x6d; 0x65; 0x00; 0x04; 0xF0; 0x9F; 0x98; 0x8E])).
Proof. vm_compute. reflexivity. Qed.
Example buffer_write_string_pair_oob :
  refused (write_string_pair_ref pair) 12 10 = Err InsufficientBufferSize.
Proof. vm_compute. reflexivity. Qed.
Example buffer_write_var_byte :
  write (write_variable_byte_int 512) 2 2 = (Ok tt, (2, [0x80; 0x04])).
Proof. vm_compute. reflexivity. Qed.
Example buffer_write_var_byte_oob :
  refused (write_variable_byte_int 453123) 2 2 = Err InsufficientBufferSize.
Proof. vm_compute. reflexivity. Qed.
Example buffer_write_properties :
  write (write_properties properties) 13 13
  = (Ok tt, (13, [0x08; 0x00; 0x04; 0x4e; 0x61; 0x6d; 0x65; 0x09; 0x00; 0x03; 0x12; 0x34; 0x56])).
Proof. vm_compute. reflexivity. Qed.
Example buffer_write_properties_oob :
  refused (write_properties properties) 10 10 = Err InsufficientBufferSize.
Proof. vm_compute. reflexivity. Qed.
Example buffer_write_filters :
  write (write_topic_filters_ref true filters) 15 15
  = (Ok tt, (15, [0x00; 0x04; 0x74; 0x65; 0x73; 0x74; 0xAE; 0x00; 0x05; 0x74; 0x6f; 0x70;
                  0x69; 0x63; 0x22])).
Proof. vm_compute. reflexivity. Qed.
Example buffer_write_filters_oob :
  refused (write_topic_filters_ref true filters) 15 5 = Err InsufficientBufferSize.
Proof. vm_compute. reflexivity. Qed.

(** [get_rem_len] after the bytes [b] were inserted into a buffer of [n]. *)
Definition rem_len_of (b : list Z) (n : nat) : outcome RemLenError (list Z) :=
  (get_rem_len (insert_ref (zlen b) b (BuffWriter.new (blank n) (Z.of_nat n))).2).1.

Example buffer_get_rem_len_one :
  rem_len_of [0x82; 0x02; 0x03; 0x85; 0x84] 5 = Ok [0x02; 0x00; 0x00; 0x00].
Proof. vm_compute. reflexivity. Qed.
Example buffer_get_rem_len_two :
  rem_len_of [0x82; 0x82; 0x03; 0x85; 0x84] 5 = Ok [0x82; 0x03; 0x00; 0x00].
Proof. vm_compute. reflexivity. Qed.
Example buffer_get_rem_len_three :
  rem_len_of [0x82; 0x82; 0x83; 0x05; 0x84] 5 = Ok [0x82; 0x83; 0x05; 0x00].
Proof. vm_compute. reflexivity. Qed.
Example buffer_get_rem_len_all :
  rem_len_of [0x82; 0x82; 0x83; 0x85; 0x04] 5 = Ok [0x82; 0x83; 0x85; 0x04].
Proof. vm_compute. reflexivity. Qed.
Example buffer_get_rem_len_over :
  rem_len_of [0x82; 0x82; 0x83; 0x85; 0x84; 0x34] 6 = Ok [0x82; 0x83; 0x85; 0x84].
Proof. vm_compute. reflexivity. Qed.
Example buffer_get_rem_len_zero_end :
  rem_len_of [0x82; 0x82; 0x83; 0x85; 0x04; 0x34] 6 = Ok [0x82; 0x83; 0x85; 0x04].
Proof. vm_compute. reflexivity. Qed.
Example buffer_get_rem_len_zero :
  rem_len_of [0x82; 0x00; 0x83; 0x85; 0x04; 0x34] 6 = Ok [0x00; 0x00; 0x00; 0x00].
Proof. vm_compute. reflexivity. Qed.
Example buffer_get_rem_len_cont :
  rem_len_of [0x82; 0x81] 6 = Err RemLenErr
  /\ rem_len_of [0x82; 0x81; 0x82; 0x01] 6 = Ok [0x81; 0x82; 0x01; 0x00].
Proof. vm_compute. auto. Qed.
End BufferWriterUnit.

(** *** The packets *)

Definition text_pair (name value : list Z) : Property.t :=
  Property.UserProperty (StringPair.mk (enc name) (enc value)).

Example connack_encode :
  let connack : ConnackPacket.t 2 :=
    ConnackPacket.set_ack_flags 0x45 (ConnackPacket.set_connect_reason_code
      (ReasonCode.into_u8 ReasonCode.ServerMoved)
      (set_property_len 3 (push_to_properties (Property.ReceiveMaximum 21) ConnackPacket.new))) in
  encoded (ConnackPacket.encode connack (blank 100) 100)
  = Some [0x20; 0x06; 0x45; ReasonCode.into_u8 ReasonCode.ServerMoved; 0x03; 0x21; 0x00; 0x15].
Proof. vm_compute. reflexivity. Qed.

Example connack_decode :
  let '(o, p) := decoded ConnackPacket.decode (ConnackPacket.new (MAX_PROPERTIES := 2))
    [0x20; 0x06; 0x45; ReasonCode.into_u8 ReasonCode.ServerMoved; 0x03; 0x21; 0x00; 0x15] in
  o = Ok tt /\ ConnackPacket.property_len p = 3 /\ ConnackPacket.ack_flags p = 0x45
  /\ ConnackPacket.connect_reason_code p = ReasonCode.into_u8 ReasonCode.ServerMoved
  /\ ConnackPacket.properties p = [Property.ReceiveMaximum 21].
Proof. vm_compute. auto. Qed.

Example connect_encode_clean :
  encoded (ConnectPacket.encode (ConnectPacket.clean (MAX_PROPERTIES := 1) (MAX_WILL_PROPERTIES := 0))
    (blank 100) 100)
  = Some [0x10; 0x10; 0x00; 0x04; 0x4d; 0x51; 0x54; 0x54; 0x05; 0x02; 0x00; 0x3c; 0x03; 0x21;
          0x00; 0x14; 0x00; 0x00].
Proof. vm_compute. reflexivity. Qed.

(** The writer is told that it may use 100 bytes of a buffer of 10. *)
Example disconnect_encode :
  encoded (DisconnectPacket.encode
    (with_props [Property.SessionExpiryInterval 512] (DisconnectPacket.new (MAX_PROPERTIES := 1)))
    (blank 10) 100)
  = Some [0xE0; 0x07; 0x00; 0x05; 0x11; 0x00; 0x00; 0x02; 0x00].
Proof. vm_compute. reflexivity. Qed.

Example disconnect_decode :
  let '(o, p) := decoded DisconnectPacket.decode (DisconnectPacket.new (MAX_PROPERTIES := 1))
    [0xE0; 0x07; 0x00; 0x05; 0x11; 0x00; 0x00; 0x04; 0x00; 0x00] in
  o = Ok tt /\ DisconnectPacket.fixed_header p = PacketType.into_u8 PacketType.Disconnect
  /\ DisconnectPacket.remain_len p = 7 /\ DisconnectPacket.disconnect_reason p = 0
  /\ DisconnectPacket.property_len p = 5
  /\ DisconnectPacket.properties p = [Property.SessionExpiryInterval 1024].
Proof. vm_compute. auto 10. Qed.

Example pingreq_encode :
  PingreqPacket.encode (PingreqPacket.mk (PacketType.into_u8 PacketType.Pingreq) 0)
    [0x00; 0x98; 0x45] 3 = (Ok 2, [0xC0; 0x00; 0x45]).
Proof. vm_compute. reflexivity. Qed.

Example pingresp_encode :
  PingrespPacket.encode (PingrespPacket.mk (PacketType.into_u8 PacketType.Pingresp) 0)
    [0x00; 0x98; 0x45] 3 = (Ok 2, [0xD0; 0x00; 0x45]).
Proof. vm_compute. reflexivity. Qed.

Example pingresp_decode :
  decoded PingrespPacket.decode PingrespPacket.new [0xD0; 0x00; 0x51]
  = (Ok tt, PingrespPacket.mk (PacketType.into_u8 PacketType.Pingresp) 0).
Proof. vm_compute. reflexivity. Qed.

Example puback_encode :
  PubackPacket.encode
    (with_props [Property.ReasonString (enc (str "Hello"))]
      (PubackPacket.set_reason_code 0x00 (PubackPacket.set_packet_identifier 35420
        (PubackPacket.new (MAX_PROPERTIES := 1))))) (blank 14) 14
  = (Ok 14, [0x40; 0x0C; 0x8A; 0x5C; 0x00; 0x08; 0x1F; 0x00; 0x05; 0x48; 0x65; 0x6c; 0x6c; 0x6f]).
Proof. vm_compute. reflexivity. Qed.

Example puback_decode :
  decoded PubackPacket.decode (PubackPacket.new (MAX_PROPERTIES := 1))
    [0x40; 0x0C; 0x8A; 0x5E; 0x15; 0x08; 0x1F; 0x00; 0x05; 0x48; 0x65; 0x6c; 0x6c; 0x6f]
  = (Ok tt, PubackPacket.mk (PacketType.into_u8 PacketType.Puback) 12 35422 0x15 8
      [Property.ReasonString (enc (str "Hello"))]).
Proof. vm_compute. reflexivity. Qed.

Example pubcomp_encode :
  PubcompPacket.encode
    (with_props [Property.ReasonString (enc (str "Wheel"))]
      (PubcompPacket.set_reason_code 0x00 (PubcompPacket.set_packet_identifier 35420
        (set_fixed_header (PacketType.into_u8 PacketType.Pubcomp)
          (PubcompPacket.new (MAX_PROPERTIES := 1)))))) (blank 14) 14
  = (Ok 14, [0x70; 0x0C; 0x8A; 0x5C; 0x00; 0x08; 0x1F; 0x00; 0x05; 0x57; 0x68; 0x65; 0x65; 0x6c]).
Proof. vm_compute. reflexivity. Qed.

Example pubcomp_decode :
  decoded PubcompPacket.decode (PubcompPacket.new (MAX_PROPERTIES := 1))
    [0x70; 0x0C; 0x8A; 0x5C; 0x00; 0x08; 0x1F; 0x00; 0x05; 0x57; 0x68; 0x65; 0x65; 0x6c]
  = (Ok tt, PubcompPacket.mk (PacketType.into_u8 PacketType.Pubcomp) 12 35420 0 8
      [Property.ReasonString (enc (str "Wheel"))]).
Proof. vm_compute. reflexivity. Qed.

Definition pubrec_wire : list Z :=
  [0x50; 0x12; 0x8A; 0x5C; 0x12; 0x0E; 0x26; 0x00; 0x05; 0x6e; 0x61; 0x6d; 0x65; 0x31;
   0x00; 0x04; 0x76; 0x61; 0x6c; 0x31].

Example pubrec_encode :
  PubrecPacket.encode
    (with_props [text_pair (str "name1") (str "val1")]
      (PubrecPacket.set_reason_code 0x12 (PubrecPacket.set_packet_identifier 35420
        (PubrecPacket.new (MAX_PROPERTIES := 2))))) (blank 20) 20
  = (Ok 20, pubrec_wire).
Proof. vm_compute. reflexivity. Qed.

Example pubrec_decode :
  decoded PubrecPacket.decode (PubrecPacket.new (MAX_PROPERTIES := 1)) pubrec_wire
  = (Ok tt, PubrecPacket.mk (PacketType.into_u8 PacketType.Pubrec) 18 35420 0x12 14
      [text_pair (str "name1") (str "val1")]).
Proof. vm_compute. reflexivity. Qed.

Definition pubrel_wire : list Z :=
  [0x62; 0x13; 0x30; 0x39; 0x86; 0x0F; 0x26; 0x00; 0x04; 0x68; 0x61; 0x68; 0x61; 0x00;
   0x06; 0x68; 0x65; 0x68; 0x65; 0x38; 0x39].

(** The test sets the fixed header by hand, which [new] leaves at 0. *)
Example pubrel_encode :
  PubrelPacket.encode
    (with_props [text_pair (str "haha") (str "hehe89")]
      (PubrelPacket.set_reason_code 0x86 (PubrelPacket.set_packet_identifier 12345
        (set_fixed_header (PacketType.into_u8 PacketType.Pubrel)
          (PubrelPacket.new (MAX_PROPERTIES := 1)))))) (blank 21) 21
  = (Ok 21, pubrel_wire).
Proof. vm_compute. reflexivity. Qed.

Example pubrel_decode :
  decoded PubrelPacket.decode (PubrelPacket.new (MAX_PROPERTIES := 1)) pubrel_wire
  = (Ok tt, PubrelPacket.mk (PacketType.into_u8 PacketType.Pubrel) 19 12345 0x86 15
      [text_pair (str "haha") (str "hehe89")]).
Proof. vm_compute. reflexivity. Qed.

Definition publish_wire : list Z :=
  [0x32; 0x1B; 0x00; 0x04; 0x74; 0x65; 0x73; 0x74; 0x5B; 0x88; 0x07; 0x01; 0x01; 0x02;
   0x00; 0x00; 0xB2; 0x6E; 0x48; 0x65; 0x6c; 0x6c; 0x6f; 0x20; 0x77; 0x6f; 0x72; 0x6c; 0x64].
Definition publish_props : list Property.t :=
  [Property.PayloadFormat 0x01; Property.MessageExpiryInterval 45678].

Example publish_encode :
  PublishPacket.encode
    (PublishPacket.add_message (str "Hello world") (with_props publish_props
      (PublishPacket.set_packet_identifier 23432 (PublishPacket.set_topic_name (enc (str "test"))
        (PublishPacket.add_qos QualityOfService.QoS1
          (set_fixed_header (PacketType.into_u8 PacketType.Publish)
            (PublishPacket.new (MAX_PROPERTIES := 2)))))))) (blank 29) 100
  = (Ok 29, publish_wire).
Proof. vm_compute. reflexivity. Qed.

Example publish_decode :
  decoded PublishPacket.decode (PublishPacket.new (MAX_PROPERTIES := 2)) publish_wire
  = (Ok tt, PublishPacket.mk 0x32 27 (enc (str "test")) 23432 7 publish_props
      (Some (str "Hello world"))).
Proof. vm_compute. reflexivity. Qed.

Example suback_decode :
  decoded SubackPacket.decode (SubackPacket.new (MAX_REASONS := 3) (MAX_PROPERTIES := 1))
    [0x90; 0x15; 0xCC; 0x08; 0x0F; 0x1F; 0x00; 0x0C; 0x72; 0x65; 0x61; 0x73; 0x6f; 0x6e; 0x53;
     0x74; 0x72; 0x69; 0x6e; 0x67; 0x12; 0x34; 0x56]
  = (Ok tt, SubackPacket.mk (PacketType.into_u8 PacketType.Suback) 21 52232 15
      [Property.ReasonString (enc (str "reasonString"))] [0x12; 0x34; 0x56]).
Proof. vm_compute. reflexivity. Qed.

Example unsuback_decode :
  decoded UnsubackPacket.decode (UnsubackPacket.new (MAX_REASONS := 2) (MAX_PROPERTIES := 1))
    [0xB0; 0x14; 0xCC; 0x08; 0x0F; 0x1F; 0x00; 0x0C; 0x72; 0x65; 0x61; 0x73; 0x6f; 0x6e; 0x53;
     0x74; 0x72; 0x69; 0x6e; 0x67; 0x77; 0x55]
  = (Ok tt, UnsubackPacket.mk (PacketType.into_u8 PacketType.Unsuback) 20 52232 15
      [Property.ReasonString (enc (str "reasonString"))] [0x77; 0x55]).
Proof. vm_compute. reflexivity. Qed.

Definition added {E P} (r : outcome E P) (p : P) : P := match r with Ok p => p | _ => p end.

Example subscription_encode :
  let packet := with_props [Property.SubscriptionIdentifier 2432]
    (SubscriptionPacket.set_packet_identifier 5432
      (set_fixed_header (PacketType.into_u8 PacketType.Subscribe)
        (SubscriptionPacket.new (MAX_FILTERS := 2) (MAX_PROPERTIES := 1)))) in
  let packet := added (SubscriptionPacket.add_new_filter (E := BufferError)
    (str "test/topic") QualityOfService.QoS0 packet) packet in
  let packet := added (SubscriptionPacket.add_new_filter (E := BufferError)
    (str "hehe/#") QualityOfService.QoS1 packet) packet in
  SubscriptionPacket.encode packet (blank 30) 30
  = (Ok 30, [0x82; 0x1C; 0x15; 0x38; 0x03; 0x0B; 0x80; 0x13; 0x00; 0x0A; 0x74; 0x65; 0x73; 0x74;
             0x2f; 0x74; 0x6f; 0x70; 0x69; 0x63; 0x00; 0x00; 0x06; 0x68; 0x65; 0x68; 0x65; 0x2F;
             0x23; 0x01]).
Proof. vm_compute. reflexivity. Qed.

Example unsubscription_encode :
  let packet := with_props [text_pair (str "haha") (str "hehe89")]
    (UnsubscriptionPacket.set_packet_identifier 5432
      (set_fixed_header (PacketType.into_u8 PacketType.Unsubscribe)
        (UnsubscriptionPacket.new (MAX_FILTERS := 2) (MAX_PROPERTIES := 1)))) in
  let packet := added (UnsubscriptionPacket.add_new_filter (E := BufferError)
    (str "test/topic") packet) packet in
  let packet := added (UnsubscriptionPacket.add_new_filter (E := BufferError)
    (str "hehe/#") packet) packet in
  UnsubscriptionPacket.encode packet (blank 40) 40
  = (Ok 40, [0xA2; 0x26; 0x15; 0x38; 0x0F; 0x26; 0x00; 0x04; 0x68; 0x61; 0x68; 0x61; 0x00; 0x06;
             0x68; 0x65; 0x68; 0x65; 0x38; 0x39; 0x00; 0x0A; 0x74; 0x65; 0x73; 0x74; 0x2F; 0x74;
             0x6F; 0x70; 0x69; 0x63; 0x00; 0x06; 0x68; 0x65; 0x68; 0x65; 0x2F; 0x23]).
Proof. vm_compute. reflexivity. Qed.

(** *** sntpc/src/lib.rs: sntpc_ntp_result_tests *)

Module SntpcNtpResultTests.
Definition u64_MAX : Z := 2 ^ 64 - 1.
Definition i64_MAX : Z := 2 ^ 63 - 1.
Definition result (s f r o st p : Z) : outcome Error NtpResult.t := NtpResult.new s f r o st p.

Example test_ntp_result :
  result 0 0 0 0 1 (-2) = Ok (NtpResult.mk 0 0 0 0 1 (-2))
  /\ result 1 2 3 4 5 (-23) = Ok (NtpResult.mk 1 2 3 4 5 (-23))
  /\ result (u32_MAX - 1) u32_MAX u64_MAX i64_MAX 1 (-127)
     = Ok (NtpResult.mk u32_MAX 0 u64_MAX i64_MAX 1 (-127)).
Proof. vm_compute. auto. Qed.

Example test_ntp_fraction_overflow_result :
  result 0 u32_MAX 0 0 1 (-19) = Ok (NtpResult.mk 1 0 0 0 1 (-19))
  /\ result (u32_MAX - 1) u32_MAX 0 0 1 (-17) = Ok (NtpResult.mk u32_MAX 0 0 0 1 (-17)).
Proof. vm_compute. auto. Qed.

(** The fraction a result keeps, converted. *)
Definition converted (f : Z -> Z) (sec_fraction : Z) : outcome Error Z :=
  r ← result 0 sec_fraction 0 0 1 0; Ok (f (NtpResult.seconds_fraction r)).

Example test_conversion_to_ms :
  converted fraction_to_milliseconds (u32_MAX - 1) = Ok 999
  /\ converted fraction_to_milliseconds 0 = Ok 0.
Proof. vm_compute. auto. Qed.
Example test_conversion_to_us :
  converted fraction_to_microseconds (u32_MAX - 1) = Ok 999999
  /\ converted fraction_to_microseconds 0 = Ok 0.
Proof. vm_compute. auto. Qed.
Example test_conversion_to_ns :
  converted fraction_to_nanoseconds (u32_MAX - 1) = Ok 999999999
  /\ converted fraction_to_nanoseconds 0 = Ok 0.
Proof. vm_compute. auto. Qed.
Example test_conversion_to_ps :
  converted fraction_to_picoseconds (u32_MAX - 1) = Ok 999999999767
  /\ converted fraction_to_picoseconds 1 = Ok 232
  /\ converted fraction_to_picoseconds 0 = Ok 0.
Proof. vm_compute. auto. Qed.
End SntpcNtpResultTests.
